(* ===== verification/_CoqProject ===== *)
-Q . S2P
Prelude.v
RbTree.v
Bytes.v
Xxhash.v
Bitmap.v
Config.v
Wire.v
Types.v
World.v
Net.v
Bbr.v
Snd.v
Recv.v
Delivery.v
Stall.v
Flush.v
FlushSpec.v
FlushPack.v
Mtu.v
MtuSpec.v
Context.v
ContextSpec.v
Input.v
InputSpec.v
Events.v
Api.v
ApiSpec.v
Flaws.v
Exchange.v
AcceptSpec.v
ConnectSpec.v
Transfer.v
Acknowledge.v
Recovery.v
Keepalive.v
Periodic.v
Hostile.v
Handshake.v
Closing.v
