(* ===== verification/Prelude.v ===== *)
(** * A verification of the KCP library (src/kcp)

    src/kcp is a reliable transport over UDP: messages cut in numbered segments,
    acknowledged and retransmitted, paced by a BBR congestion control, on a
    libevent loop.  This library models its C code function by function, under the
    names of the code, and proves what makes it correct, or what it does instead.

    ** The program

    A [kcp_context] owns a UDP socket, a set of connections keyed by the id of the
    peer, a bitmap of the local ids, a queue of SYNs and the timers.  The event loop
    calls it back: [kcp_read_cb] reads datagrams and gives each packet to the handler
    of its connection (or makes a SYN of it, or answers with a reset),
    [kcp_write_timeout] runs the periodic send of the connections that are due,
    [kcp_write_cb] what could not be written.  [kcp_send] queues segments, the
    periodic send moves them to the wire within the window and at the paced rate,
    the peer's acknowledgements remove them, the receiver reassembles messages and
    [kcp_recv] hands them over.

    ** The files, and the code they model

    - [Prelude]: record update, the tactics and hint databases, lemmas on lists,
      lists sorted by a key and machine integers.
    - [RbTree] (3rd_party/rbtree.c), [Bitmap] (3rd_party/bitmap.c), [Bytes] (loads and
      stores), [Xxhash] (XXH32 and XXH64 of 3rd_party/xxhash.h): the data structures.
    - [Config] (kcp_config.h, kcp_error.h, kcp_mtu.h), [Types] and the header types of
      [Wire] (kcp_protocol.h): constants and structures.
    - [World]: the effects.  A C function is a computation [io X A]: it takes a state
      [X] (a connection, or the context) with an environment [env] that answers
      the clock, [malloc], [sendmsg] or [sendmmsg], [getrandom] and uninitialised memory
      and records the datagrams and the callbacks; [None] is undefined behaviour.  Beside
      the trace it records flaws, where only some builds stop: false assertions (a Debug
      build aborts) and overflows of the signed arithmetic on what the peer sends.  The
      predicate [wp m Q s] is total correctness: [m] is defined from [s] and [Q] holds
      of its outcome; its rules carry the proofs of the files *Spec.
    - [Wire]: [kcp_proto_parse], [kcp_proto_header_encode], [kcp_segment_encode].
    - [Net]: kcp_net_utils.c, the sends of both Linux builds, with USE_SENDMMSG (the
      default) and without, and [kcp_random].
    - [Bbr]: the bbr_* functions.
    - [Snd]: [kcp_send] and [on_kcp_ack_pcaket].  [Recv]: [on_kcp_push_pcaket] and
      [kcp_recv]; [Delivery], [Stall]: their theorems.
    - [Flush]: [on_kcp_write_timeout]; [FlushSpec], [FlushPack]: its theorems.
    - [Mtu], [MtuSpec]: kcp_mtu.c.
    - [Context], [ContextSpec]: connection_set.c, the ids, the write timer, creation and
      destruction of a connection, on a heap of connections.
    - [Input], [InputSpec]: the handlers of a received packet in every state.
    - [Events]: the callbacks of the loop and of the ICMP error queue.
    - [Api]: the functions of kcpp.h; [ApiSpec], [AcceptSpec], [ConnectSpec]: their theorems.
    - [Flaws]: the flaws that the code of the handshake and of an established connection
      may record.
    - [Exchange]: what the exchanges of two contexts share: a connection attached to its
      peer, a packet and its way to it, datagrams that arrive one after the other.
      [Transfer]: a message from one peer to the other; [Acknowledge]: its
      acknowledgement, and a lost one; [Recovery]: its retransmission; [Keepalive]:
      heartbeats; [Periodic]: an expiry of the write timer; [Hostile]: datagrams of arbitrary contents; [Handshake] and
      [Closing]: the life of a connection seen from both ends.

    ** What the theorems show

    - End to end, each with the code of both sides and the datagrams between them:
      a message given to [kcp_send] reaches [kcp_recv] of the peer whole and once,
      whatever the order and repetition of its datagrams ([message_transfer]); the
      peer's next flush acknowledges it and one datagram of the answer is enough for
      the sender ([message_acknowledged]); but a segment that comes again is not
      acknowledged again ([retransmission_unanswered]); a message that is not
      acknowledged is sent again at each time out, the same datagrams, ten times in all,
      and then the connection is given up ([message_retransmitted]); [kcp_connect] and the
      datagrams it causes establish both sides, past an assertion that is false
      ([handshake]); [kcp_close] ends both
      ([closing]); a heartbeat is answered, and a connection whose heartbeats are not
      answered in time is given up ([heartbeat_answered], [heartbeat_unanswered]).
    - Delivery: whatever is lost, repeated or reordered, what the user reads is a
      prefix of the stream of messages ([receiver_prefix], [push_in_order]); but it may
      stay a strict one: each new segment delivers one message at most, and the messages
      behind a late segment stay in the buffer ([delivery_stalls]).
    - Sending: [kcp_send_fragments], which also says when a fragment overflows the
      memory of its segment, [kcp_send_error]; the window and its order
      ([flush_window_fifo]); every datagram fits the MTU and goes to the peer whatever
      the kernel answers ([flush_safe]); the datagrams are the greedy packing of the
      segments that are due ([flush_data_packing]); retransmission is bounded
      and ends in a connection that is DISCONNECTED with its user told
      ([flush_retransmission_limit]); the write timer flushes the connections that are
      due and no others ([kcp_write_timeout_correct]); acknowledgements remove exactly what they
      acknowledge ([on_kcp_ack_correct]).
    - Congestion control: an invariant, the bounds of the window, the mode machine,
      the bandwidth as a windowed maximum.
    - Packets: round trips of headers and packed segments.  Whatever the packets that
      serve an established connection contain, reading them is defined but for signed
      overflows, which are recorded, and leaves it sound ([hostile_datagrams_safe]); a few bytes after the last packet are read
      past their end ([trailing_bytes_overread]).
    - Contexts: the connection set is a finite map from peer ids to live connections
      ([connection_set_insert_correct], [kcp_connection_destroy_correct]), ids
      ([kcp_alloc_local_scid_correct]), the write timer, the end of a context.
    - Connections: the state machine of a received packet
      ([on_kcp_read_event_transitions]), the answer to a SYN ([kcp_accept_correct]) and
      four behaviours that are not what the code means ([kcp_accept_duplicate],
      [kcp_connect_timeout_stops], [mtu_search_blind], and the loop of the probes that only
      the kernel ends, [kcp_send_mtu_probe_packet_refused]).
    - The data structures: red-black insertion, erasure and traversal; the count of the
      bitmap; injectivity of the numbers of heartbeats.

    A theorem [t] with hypotheses has a witness [t_witness] after it that applies it
    at a concrete input.

    ** Fuel

    Loops on a list are structural.  The others take fuel and are undefined, not
    wrong, without it: the walks of the connection set take the number of its nodes
    ([kcp_refresh_write_timer_earliest] shows it is enough); [label_send] takes 34 turns
    for each answer left of the kernel and two more ([flush_safe]); the retries after
    EINTR the answers of the kernel; [advance_rcv_nxt] the size of the receive buffer.
    The loop of the probes has no bound in the code: [kcp_send_mtu_probe_packet_refused]
    counts its turns, one for each size the kernel refuses and one more, for any number
    of refusals; [kcp_send_mtu_probe_packet] takes as many as the environment has answers.

    ** Not modelled

    kcp_log.c; kcp_ntrs_stub.c, every function of which answers NOT_SUPPORT; the walk
    over the interfaces of [get_mtu_by_ip] and the printing of addresses; the
    real-time clocks; the branches of other platforms; assertions that a pointer is not
    NULL.  libevent is outside the source: a timer is
    a value that is null, idle or pending with its delay, and its firing is a call of
    the callback.  What the user's callbacks call is not modelled, except
    [on_connect], which may accept.  Freed addresses are not reused.  Of the rest
    of the repository (the C++ libraries config, crypto, log, ntrs, stun, utils,
    variant and others, and vendored code) nothing is modelled.

    ** Modelled without a theorem of its own

    The set-up of a socket ([kcp_bind], [kcp_configure], [kcp_ioctl]), the write queue
    ([kcp_write_cb]) and the ICMP errors are translated, and only the lemmas the
    theorems need are proved of them.  The transfer of a message is shown for a sender
    with nothing in flight; what a receiver makes of several messages in flight is
    [receiver_prefix] and [delivery_stalls]. *)

From stdpp Require Export base tactics option numbers list relations sorting sets.
From Stdlib Require Export ZArith Lia Permutation.

#[global] Open Scope Z_scope.

(** * Record update

    [r <| f := v |>] is the C assignment [r->f = v] on a value of a record type
    and [r <| f ::= g |>] applies [g] to the field.  A record takes part once it
    has an [Eta] instance, its own eta-expansion; the setter of a field is found
    by abstracting the field's projection out of that expansion. *)

Class Eta (R : Type) := eta : R -> R.

Class SetField {R T : Type} (proj : R -> T) := set_field : (T -> T) -> R -> R.
Arguments set_field {R T} proj {_} _ _.

Ltac solve_set_field :=
  lazymatch goal with
  | |- @SetField ?R ?T ?proj =>
      let e := constr:(_ : Eta R) in
      let h := eval hnf in e in
      let f := fresh "f" in
      let r := fresh "r" in
      intros f r;
      let b := eval cbv beta in (h r) in
      lazymatch eval pattern (proj r) in b with
      | ?g _ => let t := eval cbv beta in (g (f (proj r))) in exact t
      end
  end.

#[export] Hint Extern 1 (SetField _) => solve_set_field : typeclass_instances.

Declare Scope kcp_scope.
Delimit Scope kcp_scope with kcp.
#[global] Open Scope kcp_scope.

Notation "r <| f := v |>" := (set_field f (fun _ => v) r)
  (at level 1, f at next level, v at level 200, left associativity) : kcp_scope.
Notation "r <| f ::= g |>" := (set_field f g r)
  (at level 1, f at next level, g at level 200, left associativity) : kcp_scope.

(** * Machine integers

    A C integer of width [w] is a [Z]; a conversion to that width is written
    where C performs one.  Signed conversions are two's complement, as gcc and
    clang define them. *)

Definition u8 (x : Z) : Z := x mod 256.
Definition u16 (x : Z) : Z := x mod 65536.
Definition u32 (x : Z) : Z := x mod 4294967296.
Definition u64 (x : Z) : Z := x mod 18446744073709551616.
Definition s32 (x : Z) : Z :=
  let y := u32 x in if y <? 2147483648 then y else y - 4294967296.

Definition UINT32_MAX : Z := 4294967295.
Definition UINT64_MAX : Z := 18446744073709551615.

Notation is_u8 x := (0 <= x < 256).
Notation is_u16 x := (0 <= x < 65536).
Notation is_u32 x := (0 <= x < 4294967296).
Notation is_u64 x := (0 <= x < 18446744073709551616).
Notation is_s32 x := (-2147483648 <= x < 2147483648).

(** [lia] with division and remainder by constants. *)
Ltac zlia := Z.to_euclidean_division_equations; lia.

(** Unfolds the conversions and decides the goal. *)
Ltac mach := unfold s32, u8, u16, u32, u64 in *;
             repeat case_match; zlia.

Create HintDb machine.
Create HintDb keyed.
Create HintDb rbtree.

Lemma u8_range x : is_u8 (u8 x).
Proof. mach. Qed.
Lemma u16_range x : is_u16 (u16 x).
Proof. mach. Qed.
Lemma u32_range x : is_u32 (u32 x).
Proof. mach. Qed.
Lemma u64_range x : is_u64 (u64 x).
Proof. mach. Qed.
Lemma s32_range x : is_s32 (s32 x).
Proof. unfold s32. pose proof (u32_range x). case_match; lia. Qed.

Lemma u8_small x : is_u8 x -> u8 x = x.
Proof. intros. mach. Qed.
Lemma u16_small x : is_u16 x -> u16 x = x.
Proof. intros. mach. Qed.
Lemma u32_small x : is_u32 x -> u32 x = x.
Proof. intros. mach. Qed.
Lemma u64_small x : is_u64 x -> u64 x = x.
Proof. intros. mach. Qed.
Lemma s32_small x : is_s32 x -> s32 x = x.
Proof. intros. mach. Qed.

Lemma u32_idemp x : u32 (u32 x) = u32 x.
Proof. apply u32_small, u32_range. Qed.
Lemma u64_idemp x : u64 (u64 x) = u64 x.
Proof. apply u64_small, u64_range. Qed.

(** [s32] is a representative modulo 2^32. *)
Lemma s32_u32 x : s32 (u32 x) = s32 x.
Proof. unfold s32. by rewrite u32_idemp. Qed.
Lemma u32_s32 x : u32 (s32 x) = u32 x.
Proof. unfold s32. pose proof (u32_range x). case_match; unfold u32 in *; zlia. Qed.
Lemma s32_add a b : s32 (s32 a + s32 b) = s32 (a + b).
Proof.
  rewrite <- s32_u32. rewrite <- (s32_u32 (a + b)). f_equal.
  unfold u32. rewrite Zplus_mod. fold (u32 (s32 a)) (u32 (s32 b)). rewrite !u32_s32.
  unfold u32. by rewrite <- Zplus_mod.
Qed.

Lemma s32_sub a b : s32 (s32 a - s32 b) = s32 (a - b).
Proof.
  rewrite <- s32_u32. rewrite <- (s32_u32 (a - b)). f_equal.
  unfold u32. rewrite Zminus_mod. fold (u32 (s32 a)) (u32 (s32 b)). rewrite !u32_s32.
  unfold u32. by rewrite <- Zminus_mod.
Qed.
Lemma s32_idemp a : s32 (s32 a) = s32 a.
Proof. rewrite <- (s32_u32 (s32 a)), u32_s32. apply s32_u32. Qed.

Lemma s32_add_l a b : s32 (s32 a + b) = s32 (a + b).
Proof. by rewrite <- s32_add, s32_idemp, s32_add. Qed.
Lemma s32_add_r a b : s32 (a + s32 b) = s32 (a + b).
Proof. by rewrite Z.add_comm, s32_add_l, Z.add_comm. Qed.

Lemma s32_sub_l a b : s32 (s32 a - b) = s32 (a - b).
Proof. by rewrite <- s32_sub, s32_idemp, s32_sub. Qed.
Lemma s32_sub_r a b : s32 (a - s32 b) = s32 (a - b).
Proof. by rewrite <- s32_sub, s32_idemp, s32_sub. Qed.

#[export] Hint Resolve u8_range u16_range u32_range u64_range s32_range : machine.
Create Rewrite HintDb machine.
#[export] Hint Rewrite u32_idemp u64_idemp : machine.
#[export] Hint Rewrite u8_small u16_small u32_small u64_small s32_small
  using lia : machine.

(** Adds the range of every conversion of the goal and the hypotheses. *)
Ltac ranges :=
  repeat match goal with
  | |- context [u8 ?x] => learn_range (u8_range x)
  | |- context [u16 ?x] => learn_range (u16_range x)
  | |- context [u32 ?x] => learn_range (u32_range x)
  | |- context [u64 ?x] => learn_range (u64_range x)
  | |- context [s32 ?x] => learn_range (s32_range x)
  | _ : context [u8 ?x] |- _ => learn_range (u8_range x)
  | _ : context [u16 ?x] |- _ => learn_range (u16_range x)
  | _ : context [u32 ?x] |- _ => learn_range (u32_range x)
  | _ : context [u64 ?x] |- _ => learn_range (u64_range x)
  | _ : context [s32 ?x] |- _ => learn_range (s32_range x)
  end
with learn_range p :=
  let T := type of p in
  lazymatch goal with
  | _ : T |- _ => fail
  | _ => pose proof p
  end.

(** * The C macros of kcp_def.h *)

Definition MIN (a b : Z) : Z := if a <? b then a else b.
Definition MAX (a b : Z) : Z := if b <? a then a else b.
Definition ABS (n : Z) : Z := if 0 <? n then n else - n.
Definition CLAMP (x lo hi : Z) : Z :=
  if x <? lo then lo else if hi <? x then hi else x.

Lemma MIN_min a b : MIN a b = Z.min a b.
Proof. unfold MIN. case_match; lia. Qed.
Lemma MAX_max a b : MAX a b = Z.max a b.
Proof. unfold MAX. case_match; lia. Qed.
Lemma ABS_abs n : ABS n = Z.abs n.
Proof. unfold ABS. case_match; lia. Qed.
Lemma CLAMP_bounds x lo hi : lo <= hi -> lo <= CLAMP x lo hi <= hi.
Proof. unfold CLAMP. intros. repeat case_match; lia. Qed.

(** * Booleans *)

(** Replaces boolean comparisons of hypotheses and goal by propositions. *)
Ltac bprop :=
  repeat match goal with
  | H : (_ && _)%bool = true |- _ => apply andb_true_iff in H; destruct H
  | H : (_ || _)%bool = false |- _ => apply orb_false_iff in H; destruct H
  | H : negb _ = true |- _ => apply negb_true_iff in H
  | H : negb _ = false |- _ => apply negb_false_iff in H
  | H : (_ <? _) = true |- _ => apply Z.ltb_lt in H
  | H : (_ <? _) = false |- _ => apply Z.ltb_ge in H
  | H : (_ <=? _) = true |- _ => apply Z.leb_le in H
  | H : (_ <=? _) = false |- _ => apply Z.leb_gt in H
  | H : (_ =? _) = true |- _ => apply Z.eqb_eq in H
  | H : (_ =? _) = false |- _ => apply Z.eqb_neq in H
  end.

(** Case analysis on every condition of the goal, comparisons as propositions. *)
Ltac cases := repeat (case_match; simplify_eq/=); bprop.

(** * Lists *)

Definition Zlength {A} (l : list A) : Z := Z.of_nat (length l).

Lemma Zlength_nil {A} : Zlength (@nil A) = 0.
Proof. done. Qed.
Lemma Zlength_cons {A} (x : A) l : Zlength (x :: l) = 1 + Zlength l.
Proof. unfold Zlength. simpl. lia. Qed.
Lemma Zlength_app {A} (l k : list A) : Zlength (l ++ k) = Zlength l + Zlength k.
Proof. unfold Zlength. rewrite length_app. lia. Qed.
Lemma Zlength_nonneg {A} (l : list A) : 0 <= Zlength l.
Proof. unfold Zlength. lia. Qed.
Lemma Zlength_perm {A} (l k : list A) : Permutation l k -> Zlength l = Zlength k.
Proof. unfold Zlength. by intros ->. Qed.
Create Rewrite HintDb lists.
#[export] Hint Rewrite @Zlength_nil @Zlength_cons @Zlength_app : lists.
#[export] Hint Resolve Zlength_nonneg : machine.

Fixpoint Zsum (l : list Z) : Z :=
  match l with [] => 0 | x :: l' => x + Zsum l' end.

Lemma Zsum_app l k : Zsum (l ++ k) = Zsum l + Zsum k.
Proof. induction l; simpl; lia. Qed.
Lemma Zsum_perm l k : Permutation l k -> Zsum l = Zsum k.
Proof. induction 1; simpl; lia. Qed.
#[export] Hint Rewrite Zsum_app : lists.

(** * Lists ordered by an integer key

    What the in-order contents of the trees and the ordered queues of the
    program have in common. *)

Section Keyed.
Context {A : Type} (key : A -> Z).
Implicit Types (l : list A) (x y : A).

(** Strictly increasing keys. *)
Definition ksorted l : Prop := StronglySorted (fun x y => key x < key y) l.

(** Insertion before the first greater key. *)
Fixpoint insert_by x l : list A :=
  match l with
  | [] => [x]
  | y :: l' => if key x <? key y then x :: l else y :: insert_by x l'
  end.

Definition find_by (k : Z) l : option A := List.find (fun x => key x =? k) l.

Definition remove_by (k : Z) l : list A := List.filter (fun x => negb (key x =? k)) l.

Lemma insert_by_perm x l : Permutation (insert_by x l) (x :: l).
Proof.
  induction l as [|y l IH]; simpl; [done|]. case_match; [done|].
  rewrite IH. apply perm_swap.
Qed.

Lemma insert_by_length x l : length (insert_by x l) = S (length l).
Proof. by rewrite insert_by_perm. Qed.

Lemma elem_of_insert_by x y l : y ∈ insert_by x l <-> y = x \/ y ∈ l.
Proof. rewrite insert_by_perm. apply elem_of_cons. Qed.

Lemma insert_by_lt x l1 y l2 :
  key x < key y -> insert_by x (l1 ++ y :: l2) = insert_by x l1 ++ y :: l2.
Proof.
  intros Hlt. induction l1 as [|z l1 IH]; simpl.
  - case_match; bprop; [done|lia].
  - case_match; [done|]. by rewrite IH.
Qed.

Lemma insert_by_ge x l1 l2 :
  Forall (fun y => key y <= key x) l1 ->
  insert_by x (l1 ++ l2) = l1 ++ insert_by x l2.
Proof.
  induction 1 as [|y l1 Hy _ IH]; simpl; [done|].
  case_match; bprop; [lia|]. by rewrite IH.
Qed.

Lemma insert_by_last x l :
  Forall (fun y => key y <= key x) l -> insert_by x l = l ++ [x].
Proof.
  intros. rewrite <- (app_nil_r l) at 1. by rewrite insert_by_ge.
Qed.

Lemma ksorted_app l1 l2 :
  ksorted (l1 ++ l2) <->
  ksorted l1 /\ ksorted l2 /\ (forall x y, x ∈ l1 -> y ∈ l2 -> key x < key y).
Proof.
  unfold ksorted. induction l1 as [|z l1 IH]; simpl.
  - split; [intros; split_and!; [constructor|done|set_solver]|by intros (_&?&_)].
  - split.
    + inversion 1 as [|? ? Hs Hz]; subst. apply IH in Hs as (?&?&Hlt).
      rewrite Forall_app in Hz. destruct Hz as [Hz1 Hz2].
      split_and!; [by constructor|done|]. intros x y [->|Hx]%elem_of_cons Hy; [|eauto].
      rewrite Forall_forall in Hz2. eauto.
    + intros (Hs&?&Hlt). inversion Hs; subst. constructor.
      * apply IH. split_and!; [done|done|]. intros; apply Hlt; [|done]. by constructor.
      * rewrite Forall_app. split; [done|]. rewrite Forall_forall. intros; apply Hlt; [|done].
        by constructor.
Qed.

Lemma ksorted_cons x l :
  ksorted (x :: l) <-> ksorted l /\ (forall y, y ∈ l -> key x < key y).
Proof.
  change (x :: l) with ([x] ++ l). rewrite ksorted_app. split.
  - intros (_&?&H). split; [done|]. intros; apply H; [|done]. by constructor.
  - intros [? H]. split_and!; [repeat constructor|done|].
    intros z y Hz. apply list_elem_of_singleton in Hz as ->. apply H.
Qed.

Lemma ksorted_insert_by x l :
  ksorted l -> (forall y, y ∈ l -> key y <> key x) -> ksorted (insert_by x l).
Proof.
  induction l as [|z l IH]; intros Hs Hne; simpl.
  - repeat constructor.
  - apply ksorted_cons in Hs as [Hs Hz]. case_match; bprop.
    + apply ksorted_cons. split; [by apply ksorted_cons|].
      intros y [->|Hy]%elem_of_cons; [done|]. specialize (Hz y Hy). lia.
    + apply ksorted_cons. split; [apply IH; [done|]; intros; apply Hne; by constructor|].
      intros y [->|Hy]%elem_of_insert_by; [|eauto].
      specialize (Hne z ltac:(constructor)). lia.
Qed.

Lemma find_by_Some k l x : find_by k l = Some x -> x ∈ l /\ key x = k.
Proof.
  unfold find_by. intros [Hin Hk]%List.find_some. bprop.
  by rewrite list_elem_of_In.
Qed.

Lemma find_by_None k l : find_by k l = None <-> (forall y, y ∈ l -> key y <> k).
Proof.
  unfold find_by. induction l as [|z l IH]; simpl.
  - split; [set_solver|done].
  - case_match; bprop.
    + split; [done|]. intros H'. by destruct (H' z ltac:(constructor)).
    + rewrite IH. split.
      * intros ? y [->|Hy]%elem_of_cons; eauto.
      * intros Hne y Hy. apply Hne. by constructor.
Qed.

Lemma find_by_app k l1 l2 :
  find_by k (l1 ++ l2) =
  match find_by k l1 with Some x => Some x | None => find_by k l2 end.
Proof.
  unfold find_by. induction l1 as [|x l1 IH]; simpl; [done|]. by destruct (key x =? k).
Qed.

Lemma find_by_elem l x :
  ksorted l -> x ∈ l -> find_by (key x) l = Some x.
Proof.
  induction l as [|z l IH]; intros Hs Hx; [set_solver|].
  apply ksorted_cons in Hs as [Hs Hz]. unfold find_by; simpl.
  apply elem_of_cons in Hx as [->|Hx]; [by rewrite Z.eqb_refl|].
  specialize (Hz x Hx). case_match; bprop; [lia|]. by apply IH.
Qed.

Lemma remove_by_app k l1 l2 :
  remove_by k (l1 ++ l2) = remove_by k l1 ++ remove_by k l2.
Proof. apply List.filter_app. Qed.

Lemma remove_by_id k l : (forall y, y ∈ l -> key y <> k) -> remove_by k l = l.
Proof.
  unfold remove_by. induction l as [|z l IH]; intros H; simpl; [done|].
  destruct (key z =? k) eqn:E; bprop.
  - by destruct (H z ltac:(constructor)).
  - simpl. rewrite IH; [done|]. intros; apply H; by constructor.
Qed.

Lemma elem_of_remove_by k l y : y ∈ remove_by k l <-> y ∈ l /\ key y <> k.
Proof.
  unfold remove_by. rewrite !list_elem_of_In, List.filter_In.
  rewrite negb_true_iff, Z.eqb_neq. done.
Qed.

Lemma ksorted_remove_by k l : ksorted l -> ksorted (remove_by k l).
Proof.
  induction l as [|z l IH]; simpl; [done|]. intros [Hs Hz]%ksorted_cons.
  unfold remove_by in *; simpl. case_match; [|by apply IH].
  apply ksorted_cons. split; [by apply IH|]. intros y Hy.
  apply elem_of_remove_by in Hy as [??]. auto.
Qed.

Lemma remove_by_middle k l1 x l2 :
  ksorted (l1 ++ x :: l2) -> key x = k -> remove_by k (l1 ++ x :: l2) = l1 ++ l2.
Proof.
  rewrite ksorted_app, ksorted_cons. intros (?&[? Hr]&Hl) <-.
  rewrite remove_by_app. unfold remove_by at 2; simpl. rewrite Z.eqb_refl; simpl.
  f_equal; apply remove_by_id.
  - intros y Hy. specialize (Hl y x Hy ltac:(constructor)). lia.
  - intros y Hy. specialize (Hr y Hy). lia.
Qed.

Lemma ksorted_NoDup l : ksorted l -> NoDup l.
Proof.
  induction l as [|x l IH]; intros Hs; [constructor|].
  apply ksorted_cons in Hs as [Hs Hx]. constructor; [|by apply IH].
  intros Hin. specialize (Hx x Hin). lia.
Qed.

(** Two strictly sorted lists with the same elements are equal. *)
Lemma ksorted_perm_eq l1 l2 : ksorted l1 -> ksorted l2 -> Permutation l1 l2 -> l1 = l2.
Proof.
  intros H1 H2 Hp. apply (StronglySorted_unique_strong (fun x y => key x < key y)); auto.
  intros x y ? ? ? ?. lia.
Qed.

(** A sorted list is cut at a key in one way. *)
Lemma ksorted_cut_unique l1 x l2 k1 y k2 :
  ksorted (l1 ++ x :: l2) -> l1 ++ x :: l2 = k1 ++ y :: k2 -> key x = key y ->
  l1 = k1 /\ x = y /\ l2 = k2.
Proof.
  revert k1. induction l1 as [|z l1 IH]; intros [|w k1] Hs Heq Hk; simplify_eq/=; [done|..].
  - apply ksorted_cons in Hs as [_ Hs]. specialize (Hs y ltac:(set_solver)). lia.
  - apply ksorted_cons in Hs as [_ Hs]. specialize (Hs x ltac:(set_solver)). lia.
  - apply ksorted_cons in Hs as [Hs _].
    match goal with E : _ = _ |- _ => destruct (IH k1 Hs E Hk) as (->&->&->) end. done.
Qed.

Lemma find_remove_perm k l x :
  ksorted l -> find_by k l = Some x -> Permutation l (x :: remove_by k l).
Proof.
  intros Hs Hf. apply find_by_Some in Hf as [Hin Hk].
  apply list_elem_of_split in Hin as (l1 & l2 & ->).
  rewrite (remove_by_middle k) by done. by rewrite Permutation_middle.
Qed.

Lemma find_None_remove k l : find_by k l = None -> remove_by k l = l.
Proof. rewrite find_by_None. apply remove_by_id. Qed.

Lemma ksorted_filter (f : A -> bool) l : ksorted l -> ksorted (List.filter f l).
Proof.
  induction l as [|x l IH]; simpl; [done|]. intros [Hs Hx]%ksorted_cons.
  case_match; [|by apply IH]. apply ksorted_cons. split; [by apply IH|].
  intros y Hy. apply list_elem_of_In, List.filter_In in Hy as [Hy _]. apply Hx. by apply list_elem_of_In.
Qed.

Lemma ksorted_map (f : A -> A) l : (forall x, key (f x) = key x) -> ksorted l -> ksorted (map f l).
Proof.
  intros Hf. induction l as [|x l IH]; simpl; [done|]. intros [Hs Hx]%ksorted_cons.
  apply ksorted_cons. split; [by apply IH|].
  intros y Hy. apply list_elem_of_In, List.in_map_iff in Hy as (z & <- & Hz).
  rewrite !Hf. apply Hx. by apply list_elem_of_In.
Qed.

(** Two strictly sorted lists with the same members are equal. *)
(** Sortedness is a matter of the keys. *)
Lemma ksorted_same_keys l l' : map key l' = map key l -> ksorted l -> ksorted l'.
Proof.
  revert l'. induction l as [|x l IH]; intros [|y l'] Hk Hs; simplify_eq/=; [constructor|].
  apply ksorted_cons in Hs as [Hs Hx]. apply ksorted_cons. split; [by apply IH|]. intros z Hz.
  assert (key z ∈ map key l) as Hin by (rewrite <- H0; apply list_elem_of_In, List.in_map, list_elem_of_In, Hz).
  apply list_elem_of_In, List.in_map_iff in Hin as (w & <- & Hw). rewrite H. apply Hx. by apply list_elem_of_In.
Qed.

Lemma ksorted_ext l1 l2 : ksorted l1 -> ksorted l2 -> (forall x, x ∈ l1 <-> x ∈ l2) -> l1 = l2.
Proof.
  intros H1 H2 Hx. apply ksorted_perm_eq; [done..|].
  apply NoDup_Permutation; [by apply NoDup_ListNoDup, ksorted_NoDup..|].
  intros x. rewrite <- !list_elem_of_In. apply Hx.
Qed.

(** Filtering commutes with an insertion that keeps the order strict. *)
Lemma filter_insert_by (f : A -> bool) x l :
  ksorted l -> (forall y, y ∈ l -> key y <> key x) ->
  List.filter f (insert_by x l) = if f x then insert_by x (List.filter f l) else List.filter f l.
Proof.
  intros Hs Hne. pose proof (ksorted_insert_by x l Hs Hne) as Hi.
  assert (forall y, y ∈ List.filter f (insert_by x l) <-> (y = x \/ y ∈ l) /\ f y = true) as Hm.
  { intros y. rewrite list_elem_of_In, List.filter_In, <- list_elem_of_In, elem_of_insert_by. done. }
  assert (forall y, y ∈ List.filter f l <-> y ∈ l /\ f y = true) as Hm'.
  { intros y. by rewrite list_elem_of_In, List.filter_In, <- list_elem_of_In. }
  apply ksorted_ext; [by apply ksorted_filter| |].
  - case_match; [|by apply ksorted_filter]. apply ksorted_insert_by; [by apply ksorted_filter|].
    intros y [??]%Hm'. eauto.
  - intros y. rewrite Hm. destruct (f x) eqn:E; [rewrite elem_of_insert_by|]; rewrite Hm'.
    + split; [intros [[->|?] ?]; tauto|]. intros [->|[??]]; tauto.
    + split; [intros [[->|?] ?]; [congruence|tauto]|]. tauto.
Qed.

(** Strictly increasing keys of an interval: at most its length of them, and all
    of it when there are as many. *)
Lemma ksorted_dense l a b :
  ksorted l -> (forall x, x ∈ l -> a <= key x < b) ->
  Zlength l <= Z.max 0 (b - a) /\
  (Zlength l = b - a -> forall i x, l !! i = Some x -> key x = a + Z.of_nat i).
Proof.
  revert a. induction l as [|x l IH]; intros a Hs Hb.
  - rewrite Zlength_nil. split; [lia|]. intros _ i y. by rewrite lookup_nil.
  - apply ksorted_cons in Hs as [Hs Hx]. pose proof (Hb x ltac:(constructor)).
    destruct (IH (key x + 1) Hs) as [IH1 IH2].
    { intros y Hy. specialize (Hx y Hy). specialize (Hb y ltac:(by constructor)). lia. }
    rewrite Zlength_cons. split; [lia|]. intros Hl [|i] y Hi; simplify_eq/=; [lia|].
    pose proof (Zlength_nonneg l). rewrite (IH2 ltac:(lia) i y Hi). lia.
Qed.
End Keyed.

Lemma ksorted_fmap {A B} (key : B -> Z) (f : A -> B) l :
  ksorted (fun x => key (f x)) l -> ksorted key (map f l).
Proof.
  induction l as [|x l IH]; [constructor|]. intros [Hs Hx]%ksorted_cons. cbn.
  apply ksorted_cons. split; [by apply IH|]. intros y (z & -> & Hz)%list_elem_of_fmap. by apply Hx.
Qed.

Lemma ksorted_of_keys {A} (key : A -> Z) l : ksorted (fun k => k) (map key l) -> ksorted key l.
Proof.
  induction l as [|x l IH]; [constructor|]. cbn [map]. intros [Hs Hx]%ksorted_cons.
  apply ksorted_cons. split; [by apply IH|]. intros y Hy. apply Hx.
  apply list_elem_of_In, List.in_map, list_elem_of_In, Hy.
Qed.

(** The order depends on the keys of the members only. *)
Lemma ksorted_key_ext {A} (k1 k2 : A -> Z) l :
  (forall x, x ∈ l -> k1 x = k2 x) -> ksorted k1 l -> ksorted k2 l.
Proof.
  induction l as [|x l IH]; [constructor|]. intros Hk [Hs Hx]%ksorted_cons. apply ksorted_cons.
  split; [apply IH; [|done]; intros; apply Hk; by constructor|].
  intros y Hy. rewrite <- !Hk by (by constructor). by apply Hx.
Qed.

Lemma find_by_key_ext {A} (k1 k2 : A -> Z) k l :
  (forall x, x ∈ l -> k1 x = k2 x) -> find_by k1 k l = find_by k2 k l.
Proof.
  unfold find_by. induction l as [|x l IH]; intros Hk; cbn; [done|].
  rewrite (Hk x) by constructor. by rewrite IH by (intros; apply Hk; by constructor).
Qed.

Lemma ksorted_seqZ a n : ksorted (fun x => x) (seqZ a n).
Proof.
  destruct (Z.lt_ge_cases n 0); [rewrite seqZ_nil by lia; constructor|].
  revert a. pattern n. apply natlike_ind; [constructor| |done]. intros k Hk IH a.
  rewrite seqZ_cons by lia. apply ksorted_cons.
  replace (Z.pred (Z.succ k)) with k by lia. split; [apply IH|].
  intros y [??]%elem_of_seqZ. lia.
Qed.

Lemma filter_perm {A} (f : A -> bool) l k :
  Permutation l k -> Permutation (List.filter f l) (List.filter f k).
Proof.
  induction 1 as [|x l k _ IH|x y l|l1 l2 l3 _ IH1 _ IH2]; simpl; [done|..].
  - case_match; [by rewrite IH|done].
  - repeat case_match; try done. apply perm_swap.
  - by rewrite IH1.
Qed.

Lemma filter_length_mono {A} (f g : A -> bool) l :
  (forall x, f x = true -> g x = true) -> (length (List.filter f l) <= length (List.filter g l))%nat.
Proof.
  intros H. induction l as [|x l IH]; cbn; [lia|].
  destruct (f x) eqn:E; [rewrite (H x E); cbn; lia|]. destruct (g x); cbn; lia.
Qed.

Lemma filter_length_le {A} (f : A -> bool) l : (length (List.filter f l) <= length l)%nat.
Proof. induction l as [|x l IH]; cbn; [lia|]. destruct (f x); cbn; lia. Qed.

Lemma filter_map_comm {A} (f : A -> bool) (g : A -> A) l :
  (forall x, f (g x) = f x) -> List.filter f (map g l) = map g (List.filter f l).
Proof. intros H. induction l as [|x l IH]; simpl; [done|]. rewrite H, IH. by case_match. Qed.

Lemma filter_and {A} (f g : A -> bool) l :
  List.filter f (List.filter g l) = List.filter (fun x => g x && f x) l.
Proof. induction l as [|x l IH]; simpl; [done|]. by destruct (g x); simpl; [destruct (f x)|]; rewrite IH. Qed.

Lemma Forall_lfilter {A} (P : A -> Prop) (f : A -> bool) l : Forall P l -> Forall P (List.filter f l).
Proof. induction 1; simpl; [constructor|]. case_match; [by constructor|done]. Qed.

#[export] Hint Resolve ksorted_insert_by ksorted_remove_by : keyed.
