(* ===== verification/RbTree.v ===== *)
(** * RbTree: kcp/3rd_party/rbtree.c

    The intrusive red-black tree under the connection set, the receive buffer
    and the packet index.  A C node reached by pointers is a zipper: the subtree
    at the node and the path of its ancestors ([rb_parent] chain), each frame
    holding the ancestor's colour, payload and other child.  Following
    [rb_parent] pops a frame; a rotation moves subtrees, each node keeping its
    own colour, as the pointer code does.  [None] stands for the dereference of
    a NULL pointer, which the theorems exclude on trees that satisfy the
    red-black invariant. *)

From S2P Require Import Prelude.

Inductive color := RB_RED | RB_BLACK.

#[export] Instance color_eq_dec : EqDecision color.
Proof. solve_decision. Defined.

Inductive tree (A : Type) :=
| Leaf
| Node (c : color) (l : tree A) (x : A) (r : tree A).
Arguments Leaf {A}.
Arguments Node {A} c l x r.

(** One ancestor: [InL c x r] when the hole is its [rb_left], [InR c l x] when
    the hole is its [rb_right]. *)
Inductive frame (A : Type) :=
| InL (c : color) (x : A) (r : tree A)
| InR (c : color) (l : tree A) (x : A).
Arguments InL {A} c x r.
Arguments InR {A} c l x.

Section Code.
Context {A : Type}.
Implicit Types (t : tree A) (p : list (frame A)) (f : frame A).

Definition fill f t : tree A :=
  match f with InL c x r => Node c t x r | InR c l x => Node c l x t end.

(** The whole tree seen from a node: walk [rb_parent] up to the root. *)
Fixpoint plug t p : tree A :=
  match p with [] => t | f :: p' => plug (fill f t) p' end.

Definition is_red t : bool :=
  match t with Node RB_RED _ _ _ => true | _ => false end.

Definition set_color c t : tree A :=
  match t with Leaf => Leaf | Node _ l x r => Node c l x r end.

Definition frame_color f : color :=
  match f with InL c _ _ => c | InR c _ _ => c end.

Definition __rb_rotate_left t : option (tree A) :=
  match t with
  | Node c a x (Node c' b y d) => Some (Node c' (Node c a x b) y d)
  | _ => None
  end.

Definition __rb_rotate_right t : option (tree A) :=
  match t with
  | Node c (Node c' a x b) y d => Some (Node c' a x (Node c b y d))
  | _ => None
  end.

(** [rb_insert_color(node, root)]: [t] is the subtree at [node]. *)
Fixpoint rb_insert_color t p : option (tree A) :=
  match p with
  | [] => Some (set_color RB_BLACK t)
  | parent :: p1 =>
      if decide (frame_color parent = RB_BLACK)
      then Some (set_color RB_BLACK (plug t p))
      else
        match p1 with
        | [] => None
        | InL cg xg uncle :: p2 =>
            if is_red uncle
            then rb_insert_color
                   (Node RB_RED (set_color RB_BLACK (fill parent t)) xg
                         (set_color RB_BLACK uncle)) p2
            else
              pt ← match parent with
                   | InR _ _ _ => __rb_rotate_left (fill parent t)
                   | InL _ _ _ => Some (fill parent t)
                   end;
              gt ← __rb_rotate_right
                     (Node RB_RED (set_color RB_BLACK pt) xg uncle);
              Some (set_color RB_BLACK (plug gt p2))
        | InR cg uncle xg :: p2 =>
            if is_red uncle
            then rb_insert_color
                   (Node RB_RED (set_color RB_BLACK uncle) xg
                         (set_color RB_BLACK (fill parent t))) p2
            else
              pt ← match parent with
                   | InL _ _ _ => __rb_rotate_right (fill parent t)
                   | InR _ _ _ => Some (fill parent t)
                   end;
              gt ← __rb_rotate_left
                     (Node RB_RED uncle xg (set_color RB_BLACK pt));
              Some (set_color RB_BLACK (plug gt p2))
        end
  end.

(** The body of the [while] of [__rb_erase_color] once [other] is black:
    [inl s]: [other] was recoloured, [node] becomes the parent (subtree [s]);
    [inr s]: rotations done, [node] becomes the root and the loop breaks.
    [t] is the left child of the parent [cp], [xp], and [other] its sibling. *)
Definition erase_black_sibling_l t cp xp (other : tree A) : option (tree A + tree A) :=
  match other with
  | Leaf => None
  | Node co ol xo orr =>
      if negb (is_red ol) && negb (is_red orr)
      then Some (inl (Node cp t xp (Node RB_RED ol xo orr)))
      else
        other' ← (if negb (is_red orr)
                  then __rb_rotate_right (Node RB_RED (set_color RB_BLACK ol) xo orr)
                  else Some other);
        match other' with
        | Leaf => None
        | Node _ ol' xo' or' =>
            s ← __rb_rotate_left
                  (Node RB_BLACK t xp (Node cp ol' xo' (set_color RB_BLACK or')));
            Some (inr s)
        end
  end.

(** The mirror image, [t] being the right child. *)
Definition erase_black_sibling_r t cp xp (other : tree A) : option (tree A + tree A) :=
  match other with
  | Leaf => None
  | Node co ol xo orr =>
      if negb (is_red ol) && negb (is_red orr)
      then Some (inl (Node cp (Node RB_RED ol xo orr) xp t))
      else
        other' ← (if negb (is_red ol)
                  then __rb_rotate_left (Node RB_RED ol xo (set_color RB_BLACK orr))
                  else Some other);
        match other' with
        | Leaf => None
        | Node _ ol' xo' or' =>
            s ← __rb_rotate_right
                  (Node RB_BLACK (Node cp (set_color RB_BLACK ol') xo' or') xp t);
            Some (inr s)
        end
  end.

(** [__rb_erase_color(node, parent, root)], one unit of fuel per evaluation of
    the [while] condition. *)
Fixpoint __rb_erase_color (fuel : nat) t p : option (tree A) :=
  match fuel with
  | O => None
  | S fuel =>
      if is_red t then Some (plug (set_color RB_BLACK t) p) else
      match p with
      | [] => Some (set_color RB_BLACK t)
      | parent :: rest =>
          '(res, rest') ←
            match parent with
            | InL cp xp other =>
                if is_red other then
                  match __rb_rotate_left (Node RB_RED t xp (set_color RB_BLACK other)) with
                  | Some (Node c (Node cp' t' xp' other') xo orr) =>
                      res ← erase_black_sibling_l t' cp' xp' other';
                      Some (res, InL c xo orr :: rest)
                  | _ => None
                  end
                else res ← erase_black_sibling_l t cp xp other; Some (res, rest)
            | InR cp other xp =>
                if is_red other then
                  match __rb_rotate_right (Node RB_RED (set_color RB_BLACK other) xp t) with
                  | Some (Node c ol xo (Node cp' other' xp' t')) =>
                      res ← erase_black_sibling_r t' cp' xp' other';
                      Some (res, InR c ol xo :: rest)
                  | _ => None
                  end
                else res ← erase_black_sibling_r t cp xp other; Some (res, rest)
            end;
          match res with
          | inl s => __rb_erase_color fuel s rest'
          | inr s => Some (set_color RB_BLACK (plug s rest'))
          end
      end
  end.

Definition erase_color_fuel p : nat := S (S (length p)).

(** The [while ((left = node->rb_left))] walks of [rb_erase], [rb_first] and
    [rb_next]: the leftmost node below [Node c l x r] and its path. *)
Fixpoint leftmost (l : tree A) (c : color) (x : A) (r : tree A) p
  : (color * A * tree A) * list (frame A) :=
  match l with
  | Leaf => ((c, x, r), p)
  | Node c' l' x' r' => leftmost l' c' x' r' (InL c x r :: p)
  end.

Fixpoint rightmost (l : tree A) (c : color) (x : A) (r : tree A) p
  : (color * A * tree A) * list (frame A) :=
  match r with
  | Leaf => ((c, x, l), p)
  | Node c' l' x' r' => rightmost l' c' x' r' (InR c l x :: p)
  end.

(** [rb_erase(node, root)] for the node [Node c l x r] at path [p]. *)
Definition rb_erase_at c l r p : option (tree A) :=
  match l, r with
  | Leaf, child | child, Leaf =>
      if decide (c = RB_BLACK)
      then __rb_erase_color (erase_color_fuel p) child p
      else Some (plug child p)
  | _, Node cr rl xr rr =>
      (* the successor takes the place, the colour and the children of [node] *)
      let '((cs, xs, child), q) := leftmost rl cr xr rr [] in
      let p' := q ++ InR c l xs :: p in
      if decide (cs = RB_BLACK)
      then __rb_erase_color (erase_color_fuel p') child p'
      else Some (plug child p')
  end.

Definition rb_first t : option A :=
  match t with
  | Leaf => None
  | Node c l x r => let '((_, y, _), _) := leftmost l c x r [] in Some y
  end.

Definition rb_last t : option A :=
  match t with
  | Leaf => None
  | Node c l x r => let '((_, y, _), _) := rightmost l c x r [] in Some y
  end.

(** The climb of [rb_next] and [rb_prev] through [rb_parent]. *)
Fixpoint up_next p : option A :=
  match p with
  | [] => None
  | InL _ x _ :: _ => Some x
  | InR _ _ _ :: p' => up_next p'
  end.

Fixpoint up_prev p : option A :=
  match p with
  | [] => None
  | InR _ _ x :: _ => Some x
  | InL _ _ _ :: p' => up_prev p'
  end.

Definition rb_next (l r : tree A) p : option A :=
  match r with
  | Node c l' x' r' => let '((_, y, _), _) := leftmost l' c x' r' [] in Some y
  | Leaf => up_next p
  end.

Definition rb_prev (l r : tree A) p : option A :=
  match l with
  | Node c l' x' r' => let '((_, y, _), _) := rightmost l' c x' r' [] in Some y
  | Leaf => up_prev p
  end.

(** [rb_replace_node(victim, new, root)] keeps links and colour. *)
Definition rb_replace_node c l r p (new : A) : tree A := plug (Node c l new r) p.

Context (key : A -> Z).

(** The search loop of the callers. *)
Fixpoint rb_search (k : Z) t : option A :=
  match t with
  | Leaf => None
  | Node _ l x r =>
      if k <? key x then rb_search k l
      else if key x <? k then rb_search k r
      else Some x
  end.

(** The node with key [k] as a zipper, what a pointer to it gives. *)
Fixpoint rb_locate (k : Z) t p : option ((color * tree A * A * tree A) * list (frame A)) :=
  match t with
  | Leaf => None
  | Node c l x r =>
      if k <? key x then rb_locate k l (InL c x r :: p)
      else if key x <? k then rb_locate k r (InR c l x :: p)
      else Some ((c, l, x, r), p)
  end.

(** The descent of the insertion loops: the path of the NULL link where
    [rb_link_node] hangs the new red node; equal keys go right. *)
Fixpoint rb_descend (k : Z) t p : list (frame A) :=
  match t with
  | Leaf => p
  | Node c l x r =>
      if k <? key x then rb_descend k l (InL c x r :: p)
      else rb_descend k r (InR c l x :: p)
  end.

(** [rb_link_node] followed by [rb_insert_color]. *)
Definition rb_insert_opt (x : A) t : option (tree A) :=
  rb_insert_color (Node RB_RED Leaf x Leaf) (rb_descend (key x) t []).

Definition rb_insert (x : A) t : tree A := default t (rb_insert_opt x t).

(** [rb_erase] of the node that holds key [k]. *)
Definition rb_erase_opt (k : Z) t : option (tree A) :=
  match rb_locate k t [] with
  | Some ((c, l, _, r), p) => rb_erase_at c l r p
  | None => None
  end.

Definition rb_erase (k : Z) t : tree A := default t (rb_erase_opt k t).
End Code.

(** * In-order contents *)

Section Contents.
Context {A : Type}.
Implicit Types (t : tree A) (p : list (frame A)).

Fixpoint elements t : list A :=
  match t with Leaf => [] | Node _ l x r => elements l ++ x :: elements r end.

(** The contents left and right of the hole of a path. *)
Fixpoint lefts p : list A :=
  match p with
  | [] => []
  | InL _ _ _ :: p' => lefts p'
  | InR _ l x :: p' => lefts p' ++ elements l ++ [x]
  end.

Fixpoint rights p : list A :=
  match p with
  | [] => []
  | InL _ x r :: p' => x :: elements r ++ rights p'
  | InR _ _ _ :: p' => rights p'
  end.

Lemma elements_plug t p : elements (plug t p) = lefts p ++ elements t ++ rights p.
Proof.
  revert t; induction p as [|[c x r|c l x] p IH]; intros t; simpl.
  - by rewrite app_nil_r.
  - rewrite IH. simpl. by rewrite <- !app_assoc.
  - rewrite IH. simpl. by rewrite <- !app_assoc.
Qed.

Lemma elements_set_color c t : elements (set_color c t) = elements t.
Proof. by destruct t. Qed.

Lemma plug_app t p q : plug t (p ++ q) = plug (plug t p) q.
Proof. revert t; induction p as [|f p IH]; intros t; simpl; auto. Qed.

Lemma rotate_left_elements t t' :
  __rb_rotate_left t = Some t' -> elements t' = elements t.
Proof. destruct t as [|c a x [|c' b y d]]; intros; simplify_eq/=. by rewrite <- app_assoc. Qed.

Lemma rotate_right_elements t t' :
  __rb_rotate_right t = Some t' -> elements t' = elements t.
Proof. destruct t as [|c [|c' a x b] y d]; intros; simplify_eq/=. by rewrite <- app_assoc. Qed.

Lemma leftmost_plug l c x r p c' x' r' p' :
  leftmost l c x r p = ((c', x', r'), p') ->
  plug (Node c' Leaf x' r') p' = plug (Node c l x r) p.
Proof.
  revert c x r p; induction l as [|cl ll IH xl rl _]; intros; simplify_eq/=; [done|].
  by erewrite IH by eassumption.
Qed.

Lemma rightmost_plug l c x r p c' x' l' p' :
  rightmost l c x r p = ((c', x', l'), p') ->
  plug (Node c' l' x' Leaf) p' = plug (Node c l x r) p.
Proof.
  revert l c x p; induction r as [|cr lr _ xr rr IH]; intros; simplify_eq/=; [done|].
  by erewrite IH by eassumption.
Qed.

Lemma leftmost_lefts l c x r p c' x' r' p' :
  leftmost l c x r p = ((c', x', r'), p') -> lefts p' = lefts p.
Proof.
  revert c x r p; induction l as [|cl ll IH xl rl _]; intros; simplify_eq/=; [done|].
  by erewrite IH by eassumption.
Qed.

Lemma rightmost_rights l c x r p c' x' l' p' :
  rightmost l c x r p = ((c', x', l'), p') -> rights p' = rights p.
Proof.
  revert l c x p; induction r as [|cr lr _ xr rr IH]; intros; simplify_eq/=; [done|].
  by erewrite IH by eassumption.
Qed.
End Contents.

Create Rewrite HintDb rbtree.
#[export] Hint Rewrite @elements_plug @elements_set_color @plug_app : rbtree.

(** Reduces equalities between in-order contents. *)
Ltac elts :=
  repeat (progress (simpl; autorewrite with rbtree;
                    rewrite <- ?app_assoc; rewrite ?app_nil_r)); simpl.

(** Opens the successful binds of hypotheses [_ ≫= _ = Some _]. *)
Ltac binds :=
  repeat match goal with
  | H : _ ≫= _ = Some _ |- _ => apply bind_Some in H as (? & ? & ?)
  | H : _ * _ |- _ => destruct H
  end; simplify_eq/=.

Section Order.
Context {A : Type}.
Implicit Types (t : tree A) (p : list (frame A)).

Lemma rb_insert_color_elements t p t' :
  rb_insert_color t p = Some t' -> elements t' = elements (plug t p).
Proof.
  remember (length p) as n eqn:Hn. revert t p Hn.
  induction n as [n IH] using lt_wf_ind; intros t [|f1 [|f2 p]] -> H; simpl in H.
  - simplify_eq. by elts.
  - case_decide; simplify_eq. by elts.
  - case_decide; simplify_eq; [by elts|].
    destruct f2 as [cg xg u|cg u xg]; case_match.
    all: first [ eapply (IH (length p)) in H; [|simpl; lia|done]; rewrite H; destruct f1; by elts
               | binds; destruct f1; binds; repeat case_match; simplify_eq/=; by elts ].
Qed.
End Order.

(** * The red-black invariant *)

Section Balance.
Context {A : Type}.
Implicit Types (t : tree A) (p : list (frame A)).

(** [balanced t n]: no red node has a red child and every path to a leaf has
    [n] black nodes. *)
Inductive balanced : tree A -> nat -> Prop :=
| bal_leaf : balanced Leaf 0
| bal_red l x r n :
    balanced l n -> balanced r n -> is_red l = false -> is_red r = false ->
    balanced (Node RB_RED l x r) n
| bal_black l x r n :
    balanced l n -> balanced r n -> balanced (Node RB_BLACK l x r) (S n).

(** A whole tree: black root. *)
Definition rb_ok t : Prop := is_red t = false /\ exists n, balanced t n.

(** [path_ok n c p]: a tree of black height [n], not red when [c] is red, may
    stand in the hole of [p]. *)
Inductive path_ok : nat -> color -> list (frame A) -> Prop :=
| path_top n : path_ok n RB_BLACK []
| path_l_black n c x r p :
    path_ok (S n) c p -> balanced r n -> path_ok n RB_BLACK (InL RB_BLACK x r :: p)
| path_r_black n c l x p :
    path_ok (S n) c p -> balanced l n -> path_ok n RB_BLACK (InR RB_BLACK l x :: p)
| path_l_red n x r p :
    path_ok n RB_BLACK p -> p <> [] -> balanced r n -> is_red r = false ->
    path_ok n RB_RED (InL RB_RED x r :: p)
| path_r_red n l x p :
    path_ok n RB_BLACK p -> p <> [] -> balanced l n -> is_red l = false ->
    path_ok n RB_RED (InR RB_RED l x :: p).

Hint Constructors balanced path_ok : rbtree.

Lemma blacken_ok t n : balanced t n -> rb_ok (set_color RB_BLACK t).
Proof. unfold rb_ok. destruct 1; simpl; eauto with rbtree. Qed.

Lemma blacken_id t : is_red t = false -> set_color RB_BLACK t = t.
Proof. by destruct t as [|[]]. Qed.

Lemma is_red_blacken t : is_red (set_color RB_BLACK t) = false.
Proof. by destruct t. Qed.

Lemma balanced_plug n c p t :
  path_ok n c p -> balanced t n -> (c = RB_RED -> is_red t = false) ->
  exists m, balanced (plug t p) m.
Proof.
  intros Hp. revert t. induction Hp; intros t Ht Hc; simpl; eauto.
  all: try specialize (Hc eq_refl); apply IHHp; simpl; eauto 6 with rbtree.
  all: done.
Qed.

Lemma plug_blacken_ok n c p t :
  path_ok n c p -> balanced t n -> (c = RB_RED -> is_red t = false) ->
  rb_ok (set_color RB_BLACK (plug t p)).
Proof. intros ???. edestruct balanced_plug; eauto using blacken_ok. Qed.

(** Below the root, the colour of the root does not depend on the hole. *)
Lemma is_red_plug f p t : is_red (plug t (f :: p)) = bool_decide (frame_color (List.last p f) = RB_RED).
Proof.
  revert f t; induction p as [|g p IH]; intros f t.
  - by destruct f as [[]|[]].
  - change (plug t (f :: g :: p)) with (plug (fill f t) (g :: p)). rewrite IH.
    do 3 f_equal. simpl. destruct p as [|h p]; [done|]. clear.
    revert h. induction p; intros; simpl in *; auto.
Qed.

Lemma path_ok_root_black n c f p : path_ok n c (f :: p) -> frame_color (List.last p f) = RB_BLACK.
Proof.
  revert n c f. induction p as [|g p IH]; intros n c f H.
  - inversion H; subst; done.
  - change (List.last (g :: p) f) with (match p with [] => g | _ => List.last p f end).
    assert (frame_color (List.last p g) = RB_BLACK) as Hg
      by (inversion H; subst; eauto).
    destruct p as [|h p]; [done|]. rewrite <- Hg. f_equal. clear.
    revert h; induction p; intros; simpl in *; auto.
Qed.

Lemma plug_ok n c p t :
  path_ok n c p -> balanced t n -> (c = RB_RED -> is_red t = false) ->
  (p = [] -> is_red t = false) -> rb_ok (plug t p).
Proof.
  intros Hp Ht Hc Hnil. split; [|by eapply balanced_plug].
  destruct p as [|f p]; [by apply Hnil|]. rewrite is_red_plug.
  erewrite path_ok_root_black by eassumption. done.
Qed.

(** Every node of a well-formed tree stands in a well-formed path. *)
Lemma plug_inv p t :
  rb_ok (plug t p) ->
  exists n c, path_ok n c p /\ balanced t n /\
              (c = RB_RED -> is_red t = false) /\ (p = [] -> is_red t = false).
Proof.
  revert t. induction p as [|f p IH]; intros t; simpl.
  - intros [? [n ?]]. exists n, RB_BLACK. split_and!; eauto with rbtree.
  - intros (n & c & Hp & Hb & Hc & Hn)%IH.
    destruct f as [[] x r|[] l x]; inversion Hb; subst;
      repeat match goal with H : balanced _ (S _) |- _ => idtac end.
    all: try (exists n, RB_RED; split_and!; eauto with rbtree; fail).
    all: try match goal with H : balanced _ ?m |- exists _ _, _ =>
           exists m, RB_BLACK; split_and!; eauto with rbtree; done end.
    all: destruct c; [by specialize (Hc eq_refl)|];
         exists n, RB_RED; split_and!; try done;
         constructor; try done; intros ->; by specialize (Hn eq_refl).
Qed.

Lemma rb_insert_color_ok n c p l x r :
  path_ok n c p -> balanced (Node RB_RED l x r) n ->
  exists t', rb_insert_color (Node RB_RED l x r) p = Some t' /\ rb_ok t'.
Proof.
  remember (length p) as k eqn:Hk. revert n c p l x r Hk.
  induction k as [k IH] using lt_wf_ind; intros n c p l x r -> Hp Ht.
  destruct p as [|f1 p].
  { simpl. eexists; split; [done|]. change (rb_ok (set_color RB_BLACK (Node RB_RED l x r))).
    by eapply blacken_ok. }
  simpl. case_decide as Hc1.
  { eexists; split; [done|]. change (plug (fill f1 ?t) p) with (plug t (f1 :: p)).
    eapply plug_blacken_ok; eauto. inversion Hp; subst; simpl in *; done. }
  assert (exists f2 p2, p = f2 :: p2) as (f2 & p2 & ->).
  { inversion Hp; subst; simpl in *; try done; destruct p; try done; eauto. }
  inversion Hp; subst; simpl in *; try done;
    match goal with H : path_ok _ RB_BLACK (f2 :: p2) |- _ => inversion H; subst end.
  all: inversion Ht; subst.
  all: match goal with |- context [is_red ?u] => destruct u as [|[] ul ux ur] eqn:?; simpl end; subst;
    repeat match goal with H : balanced (Node RB_RED _ _ _) _ |- _ => inversion H; clear H; subst end.
  all: try (eapply IH; [|reflexivity|eassumption|]; [simpl; lia|eauto 8 with rbtree]).
  all: eexists; split; [done|]; eapply plug_blacken_ok;
       [eassumption| |done]; eauto 8 with rbtree.
Qed.
End Balance.

#[export] Hint Constructors balanced path_ok : rbtree.

Section Erase.
Context {A : Type}.
Implicit Types (t : tree A) (p : list (frame A)).

(** What one round of the loop does when [t] is one black node short. *)
Definition sibling_fixed (n : nat) (c : color) (res : tree A + tree A) : Prop :=
  match res with
  | inl s => is_red s = bool_decide (c = RB_RED) /\ balanced (set_color RB_BLACK s) (S n)
  | inr s => is_red s = bool_decide (c = RB_RED) /\
             balanced s (match c with RB_RED => S n | RB_BLACK => S (S n) end)
  end.

Lemma sibling_l_ok t c x o n :
  balanced t n -> is_red t = false -> balanced o (S n) -> is_red o = false ->
  exists res, erase_black_sibling_l t c x o = Some res /\ sibling_fixed n c res.
Proof.
  intros Ht Hr Ho Hro. inversion Ho; subst; [done|]. simpl.
  destruct (is_red l) eqn:Hl, (is_red r) eqn:Hrr; simpl.
  all: destruct c; try (destruct l as [|[]]; [done| |done]); try (destruct r as [|[]]; [done| |done]);
    repeat match goal with H : balanced (Node RB_RED _ _ _) _ |- _ => inversion H; clear H; subst end;
    eexists; (split; [done|]); simpl; eauto 10 with rbtree.
Qed.

Lemma sibling_r_ok t c x o n :
  balanced t n -> is_red t = false -> balanced o (S n) -> is_red o = false ->
  exists res, erase_black_sibling_r t c x o = Some res /\ sibling_fixed n c res.
Proof.
  intros Ht Hr Ho Hro. inversion Ho; subst; [done|]. simpl.
  destruct (is_red l) eqn:Hl, (is_red r) eqn:Hrr; simpl.
  all: destruct c; try (destruct l as [|[]]; [done| |done]); try (destruct r as [|[]]; [done| |done]);
    repeat match goal with H : balanced (Node RB_RED _ _ _) _ |- _ => inversion H; clear H; subst end;
    eexists; (split; [done|]); simpl; eauto 10 with rbtree.
Qed.

Lemma sibling_l_elements t c x o res :
  erase_black_sibling_l t c x o = Some res ->
  elements (match res with inl s => s | inr s => s end) = elements (Node c t x o).
Proof.
  destruct o as [|co ol xo orr]; [done|]. destruct ol as [|[]], orr as [|[]]; simpl;
    intros; binds; by elts.
Qed.

Lemma sibling_r_elements t c x o res :
  erase_black_sibling_r t c x o = Some res ->
  elements (match res with inl s => s | inr s => s end) = elements (Node c o x t).
Proof.
  destruct o as [|co ol xo orr]; [done|]. destruct ol as [|[]], orr as [|[]]; simpl;
    intros; binds; by elts.
Qed.

Lemma rb_erase_color_elements fuel t p t' :
  __rb_erase_color fuel t p = Some t' -> elements t' = elements (plug t p).
Proof.
  revert t p. induction fuel as [|fuel IH]; intros t p H; simpl in H; [done|].
  case_match; [simplify_eq; by elts|].
  destruct p as [|[c x o|c o x] p]; [simplify_eq; by elts| |].
  all: binds; case_match; binds; repeat case_match; binds.
  all: repeat match goal with
    | H : erase_black_sibling_l _ _ _ _ = Some _ |- _ => apply sibling_l_elements in H; simpl in H
    | H : erase_black_sibling_r _ _ _ _ = Some _ |- _ => apply sibling_r_elements in H; simpl in H
    | H : __rb_erase_color _ _ _ = Some _ |- _ => apply IH in H; rewrite H
    end; elts.
  all: repeat match goal with
    | H : set_color ?c ?o = Node _ _ _ _ |- context [elements ?o] =>
        rewrite <- (elements_set_color c o), H; elts
    | H : elements ?s = _ |- context [elements ?s] => rewrite H; elts
    end; done.
Qed.

(** The loop restores the invariant: the hole of [p] wants black height
    [S n], [t] has it once blackened if it is red, and [n] otherwise. *)
Lemma rb_erase_color_ok fuel t p n c :
  path_ok (S n) c p ->
  balanced (set_color RB_BLACK t) (if is_red t then S n else n) ->
  (0 < fuel)%nat -> (is_red t = false -> (length p < fuel)%nat) ->
  exists t', __rb_erase_color fuel t p = Some t' /\ rb_ok t'.
Proof.
  revert t p n c. induction fuel as [|fuel IH]; intros t p n c Hp Ht Hf Hlen; [lia|].
  cbn [__rb_erase_color]. destruct (is_red t) eqn:Hr.
  { eexists; split; [done|]. eapply plug_ok; eauto using is_red_blacken. }
  rewrite (blacken_id _ Hr) in Ht. specialize (Hlen eq_refl).
  destruct p as [|f p].
  { eexists; split; [done|]. by eapply blacken_ok. }
  simpl in Hlen.
  assert (forall cr res c' rest', sibling_fixed n cr res ->
    path_ok (match cr with RB_RED => S n | RB_BLACK => S (S n) end) c' rest' ->
    (cr = RB_RED -> c' = RB_BLACK) -> (0 < fuel)%nat ->
    (cr = RB_BLACK -> (length rest' < fuel)%nat) ->
    exists t', match res with
               | inl s => __rb_erase_color fuel s rest'
               | inr s => Some (set_color RB_BLACK (plug s rest'))
               end = Some t' /\ rb_ok t') as Hround.
  { intros cr [s|s] c' rest' [Hrs Hs] Hp' Hc' ? ?.
    - eapply (IH s rest' (match cr with RB_RED => n | RB_BLACK => S n end) c');
        destruct cr; simpl in *; rewrite ?Hrs; auto; done.
    - eexists; split; [done|]. eapply plug_blacken_ok; [eassumption|by destruct cr|].
      intros ->. destruct cr; [by discriminate Hc'|done]. }
  inversion Hp; subst; cbn;
    match goal with |- context [is_red ?o] =>
      destruct (is_red o) eqn:Ho; [destruct o as [|[] ol xo orr]; try done|] end.
  all: repeat match goal with H : balanced (Node RB_RED _ _ _) _ |- _ => inversion H; clear H; subst end; cbn.
  all: first
    [ match goal with |- context [erase_black_sibling_l ?t ?c ?x ?o] =>
        destruct (sibling_l_ok t c x o n) as (res & -> & Hres); try done end
    | match goal with |- context [erase_black_sibling_r ?t ?c ?x ?o] =>
        destruct (sibling_r_ok t c x o n) as (res & -> & Hres); try done end ]; cbn.
  all: eapply Hround; [eassumption|eauto with rbtree|done|lia|simpl; intros; try done; lia].
Qed.

Lemma lefts_app p q : lefts (p ++ q) = lefts q ++ lefts p.
Proof.
  induction p as [|[] p IH]; simpl; rewrite ?app_nil_r; [done|done|].
  by rewrite IH, <- app_assoc.
Qed.

Lemma rights_app p q : rights (p ++ q) = rights p ++ rights q.
Proof.
  induction p as [|[] p IH]; simpl; [done| |done].
  by rewrite IH, <- app_assoc.
Qed.

Lemma rb_ok_replace c l x y r p :
  rb_ok (plug (Node c l x r) p) -> rb_ok (plug (Node c l y r) p).
Proof.
  intros (n & c' & Hp & Hb & Hc & Hn)%plug_inv. eapply plug_ok; eauto.
  inversion Hb; subst; eauto with rbtree.
Qed.

(** Removing a node with at most one child. *)
Lemma splice_ok c x l r child p :
  rb_ok (plug (Node c l x r) p) ->
  (l = Leaf /\ r = child) \/ (l = child /\ r = Leaf) ->
  exists t', (if decide (c = RB_BLACK)
              then __rb_erase_color (erase_color_fuel p) child p
              else Some (plug child p)) = Some t' /\ rb_ok t' /\
             elements t' = lefts p ++ elements child ++ rights p.
Proof.
  intros (n & c' & Hp & Hb & Hc & Hn)%plug_inv Hchild.
  assert (balanced child (match c with RB_RED => n | RB_BLACK => pred n end) /\
          (c = RB_RED -> is_red child = false)) as [Hbc Hrc].
  { destruct Hchild as [[-> ->]|[-> ->]]; inversion Hb; subst; auto; split; auto; done. }
  case_decide as Hcd; subst.
  - inversion Hb; subst. simpl in Hbc.
    match goal with H : path_ok (S ?m) _ _ |- _ =>
      destruct (rb_erase_color_ok (erase_color_fuel p) child p m c') as (t' & He & Hok); auto end.
    + destruct (is_red child) eqn:E; [|by rewrite blacken_id].
      destruct child as [|[]]; try done. inversion Hbc; subst. simpl; eauto with rbtree.
    + unfold erase_color_fuel; lia.
    + unfold erase_color_fuel; lia.
    + exists t'. split_and!; [done..|].
      apply rb_erase_color_elements in He. rewrite He. by elts.
  - destruct c; [|done]. eexists; split_and!; [done| |by elts].
    eapply plug_ok; eauto.
Qed.

Lemma rb_erase_at_ok c l x r p :
  rb_ok (plug (Node c l x r) p) ->
  exists t', rb_erase_at c l r p = Some t' /\ rb_ok t' /\
             elements t' = lefts p ++ elements l ++ elements r ++ rights p.
Proof.
  intros Hok. unfold rb_erase_at.
  destruct l as [|cl ll xl lr]; [|destruct r as [|cr rl xr rr]].
  - destruct (splice_ok c x Leaf r r p) as (t' & He & ? & Hel); auto.
    exists t'. simpl. destruct r; split_and!; auto.
  - destruct (splice_ok c x (Node cl ll xl lr) Leaf (Node cl ll xl lr) p)
      as (t' & He & ? & Hel); eauto.
  - destruct (leftmost rl cr xr rr []) as [[[cs xs] child] q] eqn:Hlm.
    pose proof (leftmost_lefts _ _ _ _ _ _ _ _ _ Hlm) as Hl0.
    apply leftmost_plug in Hlm. simpl in Hlm, Hl0.
    destruct (splice_ok cs xs Leaf child child (q ++ InR c (Node cl ll xl lr) xs :: p))
      as (t' & He & ? & Hel); [|auto|].
    + rewrite plug_app, Hlm. simpl. by eapply rb_ok_replace.
    + exists t'. split_and!; [done..|]. rewrite Hel, lefts_app, rights_app, Hl0.
      rewrite <- Hlm. elts. by rewrite Hl0.
Qed.
End Erase.

(** * Keys: search, insertion and removal *)

Section Keys.
Context {A : Type} (key : A -> Z).
Implicit Types (t : tree A) (p : list (frame A)) (x : A).

(** A search tree: strictly increasing keys in order. *)
Definition bst t : Prop := ksorted key (elements t).

(** What a root pointer of the program satisfies between operations. *)
Definition tree_ok t : Prop := rb_ok t /\ bst t.

Lemma bst_node c l x r :
  bst (Node c l x r) <->
  bst l /\ bst r /\ (forall y, y ∈ elements l -> key y < key x) /\
  (forall y, y ∈ elements r -> key x < key y).
Proof.
  unfold bst. simpl. rewrite ksorted_app, ksorted_cons. split.
  - intros (?&[? ?]&Hlt). split_and!; auto. intros; apply Hlt; [done|]. by constructor.
  - intros (?&?&Hl&Hr). split_and!; auto. intros y z Hy [->|Hz]%elem_of_cons; [auto|].
    specialize (Hl y Hy). specialize (Hr z Hz). lia.
Qed.

Lemma rb_search_find k t : bst t -> rb_search key k t = find_by key k (elements t).
Proof.
  induction t as [|c l IHl x r IHr]; intros Hb; simpl; [done|].
  apply bst_node in Hb as (Hbl & Hbr & Hl & Hr). rewrite find_by_app.
  unfold find_by at 2; simpl. fold (find_by key k (elements r)).
  rewrite IHl, IHr by done.
  destruct (find_by key k (elements l)) as [y|] eqn:E.
  - apply find_by_Some in E as [Hy <-]. specialize (Hl y Hy).
    by case_match; bprop; [|lia].
  - repeat case_match; bprop; try lia; try done.
    symmetry. apply find_by_None. intros y Hy. specialize (Hr y Hy). lia.
Qed.

Lemma rb_descend_elements x c t p :
  bst t ->
  elements (plug (Node c Leaf x Leaf) (rb_descend key (key x) t p)) =
  lefts p ++ insert_by key x (elements t) ++ rights p.
Proof.
  revert p. induction t as [|ct l IHl y r IHr]; intros p Hb; simpl; [by elts|].
  apply bst_node in Hb as (Hbl & Hbr & Hl & Hr). case_match; bprop.
  - rewrite IHl by done. rewrite insert_by_lt by done. by elts.
  - rewrite IHr by done. simpl. rewrite insert_by_ge.
    + simpl. case_match; bprop; [lia|]. by elts.
    + rewrite Forall_forall. intros z Hz. specialize (Hl z Hz). lia.
Qed.

Lemma rb_descend_plug k t p : plug Leaf (rb_descend key k t p) = plug t p.
Proof.
  revert p. induction t as [|c l IHl y r IHr]; intros p; simpl; [done|].
  case_match; [by rewrite IHl|by rewrite IHr].
Qed.

Lemma rb_locate_Some k t p c l x r q :
  rb_locate key k t p = Some ((c, l, x, r), q) ->
  plug (Node c l x r) q = plug t p /\ key x = k.
Proof.
  revert p. induction t as [|ct lt IHl y rt IHr]; intros p H; simpl in H; [done|].
  repeat case_match; bprop; [by apply IHl in H|by apply IHr in H|].
  simplify_eq. split; [done|lia].
Qed.

Lemma rb_locate_find k t p :
  bst t -> (exists x, x ∈ elements t /\ key x = k) -> is_Some (rb_locate key k t p).
Proof.
  intros Hb (x & Hx & Hk). assert (rb_search key k t <> None) as Hs.
  { rewrite rb_search_find by done. rewrite <- Hk. by rewrite find_by_elem. }
  clear Hx. revert p. induction t as [|c l IHl y r IHr]; intros p; simpl in *; [done|].
  apply bst_node in Hb as (?&?&_). repeat case_match; eauto.
Qed.

Lemma rb_insert_opt_ok x t :
  rb_ok t -> exists t', rb_insert_opt key x t = Some t' /\ rb_ok t'.
Proof.
  intros Hok. unfold rb_insert_opt.
  change (rb_ok (plug t [])) in Hok. rewrite <- (rb_descend_plug (key x) t []) in Hok.
  apply plug_inv in Hok as (n & c & Hp & Hb & _). inversion Hb; subst.
  eapply rb_insert_color_ok; eauto with rbtree.
Qed.

Lemma rb_insert_ok x t :
  tree_ok t -> (forall y, y ∈ elements t -> key y <> key x) -> tree_ok (rb_insert key x t).
Proof.
  intros [Hok Hb] Hne. unfold rb_insert.
  destruct (rb_insert_opt_ok x t Hok) as (t' & He & Hok'). rewrite He. split; [done|].
  unfold bst. apply rb_insert_color_elements in He. simpl. rewrite He.
  rewrite rb_descend_elements by done. simpl. rewrite app_nil_r. by apply ksorted_insert_by.
Qed.

Lemma rb_insert_elements x t :
  tree_ok t -> elements (rb_insert key x t) = insert_by key x (elements t).
Proof.
  intros [Hok Hb]. unfold rb_insert.
  destruct (rb_insert_opt_ok x t Hok) as (t' & He & _). rewrite He.
  apply rb_insert_color_elements in He. simpl. rewrite He.
  rewrite rb_descend_elements by done. simpl. by rewrite app_nil_r.
Qed.

Lemma rb_erase_opt_ok k t :
  tree_ok t -> (exists x, x ∈ elements t /\ key x = k) ->
  exists t', rb_erase_opt key k t = Some t' /\ tree_ok t' /\
             elements t' = remove_by key k (elements t).
Proof.
  intros [Hok Hb] Hx. unfold rb_erase_opt.
  destruct (rb_locate_find k t [] Hb Hx) as [[[[[c l] x] r] p] Hloc]. rewrite Hloc.
  apply rb_locate_Some in Hloc as [Hpl Hk]. simpl in Hpl. subst t.
  destruct (rb_erase_at_ok _ _ _ _ _ Hok) as (t' & He & Hok' & Hel).
  assert (elements t' = remove_by key k (elements (plug (Node c l x r) p))) as Hel'.
  { unfold bst in Hb.
    assert (elements (plug (Node c l x r) p) =
            (lefts p ++ elements l) ++ x :: (elements r ++ rights p)) as E by (by elts).
    rewrite E in Hb |- *. rewrite (remove_by_middle key k) by done. rewrite Hel. by elts. }
  exists t'. split_and!; [done|split; [done|]|done].
  unfold bst. rewrite Hel'. by apply ksorted_remove_by.
Qed.

Lemma rb_erase_missing k t :
  bst t -> (forall x, x ∈ elements t -> key x <> k) -> rb_erase key k t = t.
Proof.
  intros Hb Hne. unfold rb_erase, rb_erase_opt.
  destruct (rb_locate key k t []) as [[[[[c l] x] r] p]|] eqn:E; [|done].
  apply rb_locate_Some in E as [Hpl Hk]. simpl in Hpl. subst t.
  exfalso. apply (Hne x); [|done]. rewrite elements_plug. simpl. set_solver.
Qed.

Lemma rb_erase_elements k t :
  tree_ok t -> elements (rb_erase key k t) = remove_by key k (elements t).
Proof.
  intros Hok. destruct (find_by key k (elements t)) as [x|] eqn:E.
  - apply find_by_Some in E as [Hin Hk].
    destruct (rb_erase_opt_ok k t Hok) as (t' & He & _ & Hel); [by exists x|].
    unfold rb_erase. by rewrite He.
  - rewrite find_by_None in E. destruct Hok. by rewrite rb_erase_missing, remove_by_id.
Qed.

Lemma rb_erase_ok k t : tree_ok t -> tree_ok (rb_erase key k t).
Proof.
  intros Hok. destruct (find_by key k (elements t)) as [x|] eqn:E.
  - apply find_by_Some in E as [Hin Hk].
    destruct (rb_erase_opt_ok k t Hok) as (t' & He & ? & Hel); [by exists x|].
    unfold rb_erase. by rewrite He.
  - rewrite find_by_None in E. by rewrite rb_erase_missing by (done || apply Hok).
Qed.

Lemma tree_ok_leaf : tree_ok Leaf.
Proof. repeat split; [exists 0%nat; constructor|constructor]. Qed.
End Keys.

#[export] Hint Resolve rb_insert_ok rb_erase_ok tree_ok_leaf : rbtree.

(** * Neighbours *)

Section Neighbours.
Context {A : Type}.
Implicit Types (t l r : tree A) (p : list (frame A)).

Lemma leftmost_head l c x r p c' y r' p' :
  leftmost l c x r p = ((c', y, r'), p') -> head (elements l ++ [x]) = Some y.
Proof.
  revert c x r p. induction l as [|cl ll IH xl rl _]; intros; simplify_eq/=; [done|].
  match goal with H : leftmost _ _ _ _ _ = _ |- _ => apply IH in H end.
  by destruct (elements ll).
Qed.

Lemma rightmost_last l c x r p c' y l' p' :
  rightmost l c x r p = ((c', y, l'), p') -> last (x :: elements r) = Some y.
Proof.
  revert l c x p. induction r as [|cr lr _ xr rr IH]; intros; simplify_eq/=; [done|].
  match goal with H : rightmost _ _ _ _ _ = _ |- _ => apply IH in H end.
  change (x :: elements lr ++ xr :: elements rr) with ((x :: elements lr) ++ xr :: elements rr).
  by rewrite last_app_cons.
Qed.

Lemma rb_first_head t : rb_first t = head (elements t).
Proof.
  destruct t as [|c l x r]; [done|]. unfold rb_first; simpl.
  destruct (leftmost l c x r []) as [[[c' y] r'] p'] eqn:E. apply leftmost_head in E.
  by destruct (elements l).
Qed.

Lemma rb_last_last t : rb_last t = last (elements t).
Proof.
  destruct t as [|c l x r]; [done|]. unfold rb_last; simpl.
  destruct (rightmost l c x r []) as [[[c' y] r'] p'] eqn:E. apply rightmost_last in E.
  by rewrite last_app_cons.
Qed.

Lemma up_next_head p : up_next p = head (rights p).
Proof. induction p as [|[c x r|c l x] p IH]; simpl; auto. Qed.

Lemma up_prev_last p : up_prev p = last (lefts p).
Proof.
  induction p as [|[c x r|c l x] p IH]; simpl; auto.
  by rewrite app_assoc, last_snoc.
Qed.

Lemma rb_next_head l r p : rb_next l r p = head (elements r ++ rights p).
Proof.
  destruct r as [|c rl x rr]; simpl; [apply up_next_head|].
  destruct (leftmost rl c x rr []) as [[[c' y] r'] p'] eqn:E. apply leftmost_head in E.
  by destruct (elements rl).
Qed.

Lemma rb_prev_last l r p : rb_prev l r p = last (lefts p ++ elements l).
Proof.
  destruct l as [|c ll x lr]; simpl; [rewrite app_nil_r; apply up_prev_last|].
  destruct (rightmost ll c x lr []) as [[[c' y] l'] p'] eqn:E. apply rightmost_last in E.
  by rewrite app_assoc, last_app_cons.
Qed.
End Neighbours.

(** * What the callers rely on *)

Section Contract.
Context {A : Type} (key : A -> Z).
Implicit Types (t : tree A).

(** [rb_next] of the node that holds key [k], and the loop
    [for (n = rb_first(root); n; n = rb_next(n))]. *)
Definition rb_next_of (k : Z) t : option A :=
  '((_, l, _, r), p) ← rb_locate key k t []; rb_next l r p.

Fixpoint rb_walk (fuel : nat) t (node : option A) : list A :=
  match fuel, node with
  | S fuel, Some x => x :: rb_walk fuel t (rb_next_of (key x) t)
  | _, _ => []
  end.

Lemma find_by_insert_by k x l :
  ksorted key l -> (forall y, y ∈ l -> key y <> key x) ->
  find_by key k (insert_by key x l) = if k =? key x then Some x else find_by key k l.
Proof.
  unfold find_by. induction l as [|y l IH]; intros Hs Hne; simpl.
  - destruct (Z.eqb_spec k (key x)), (Z.eqb_spec (key x) k); done || lia.
  - apply ksorted_cons in Hs as [Hs Hy]. destruct (Z.ltb_spec (key x) (key y)); simpl.
    + destruct (Z.eqb_spec k (key x)), (Z.eqb_spec (key x) k); done || lia.
    + rewrite IH by (done || (intros; apply Hne; by constructor)).
      specialize (Hne y ltac:(constructor)).
      destruct (Z.eqb_spec (key y) k); [|done]. destruct (Z.eqb_spec k (key x)); [lia|done].
Qed.

Lemma find_by_remove_by k k' l :
  find_by key k (remove_by key k' l) = if k =? k' then None else find_by key k l.
Proof.
  unfold find_by, remove_by. induction l as [|y l IH]; simpl; [by case_match|].
  destruct (Z.eqb_spec (key y) k'); simpl; rewrite IH;
    destruct (Z.eqb_spec k k'), (Z.eqb_spec (key y) k); try done; lia.
Qed.

Lemma rb_next_of_elements k t l1 x l2 :
  tree_ok key t -> elements t = l1 ++ x :: l2 -> key x = k -> rb_next_of k t = head l2.
Proof.
  intros [_ Hb] Hel Hk. unfold rb_next_of.
  destruct (rb_locate_find key k t [] Hb) as [[[[[c l] x'] r] p] Hloc].
  { exists x. rewrite Hel. split; [set_solver|done]. }
  rewrite Hloc. cbn. rewrite rb_next_head.
  apply rb_locate_Some in Hloc as [Hpl Hk']. simpl in Hpl. subst t.
  unfold bst in Hb. rewrite elements_plug in Hel, Hb.
  cbn in Hel, Hb. rewrite <- app_assoc, app_assoc in Hel, Hb.
  by destruct (ksorted_cut_unique key _ _ _ _ _ _ Hb Hel ltac:(congruence)) as (_&_&<-).
Qed.

Lemma rb_walk_suffix fuel t l1 l2 :
  tree_ok key t -> elements t = l1 ++ l2 -> (length l2 < fuel)%nat ->
  rb_walk fuel t (head l2) = l2.
Proof.
  intros Hok. revert l1 l2. induction fuel as [|fuel IH]; intros l1 l2 Hel Hf; [lia|].
  destruct l2 as [|x l2]; [done|]. simpl in *. f_equal.
  rewrite (rb_next_of_elements (key x) t l1 x l2) by done.
  apply (IH (l1 ++ [x])); [by rewrite <- app_assoc|lia].
Qed.

(** Number of nodes on the longest descent. *)
Fixpoint depth t : nat :=
  match t with Leaf => 0 | Node _ l _ r => S (depth l `max` depth r) end.

Lemma balanced_depth t n :
  balanced t n -> (depth t <= 2 * n + (if is_red t then 1 else 0))%nat.
Proof.
  induction 1 as [|l x r n _ IHl _ IHr Hl Hr|l x r n _ IHl _ IHr]; simpl in *; [lia|..].
  - rewrite Hl in IHl. rewrite Hr in IHr. lia.
  - destruct (is_red l), (is_red r); lia.
Qed.

Lemma balanced_size t n : balanced t n -> (2 ^ n <= S (length (elements t)))%nat.
Proof. induction 1; simpl in *; rewrite ?length_app; simpl; lia. Qed.

(** C39: The insertion loop of the callers followed by
    [rb_insert_color], on a well-formed tree without the key: it never follows
    a NULL pointer, keeps order, colours and black heights, puts the node at its
    place in the order and changes the answer of the search for its key only. *)
Theorem rb_insert_correct (x : A) t :
  tree_ok key t -> (forall y, y ∈ elements t -> key y <> key x) ->
  exists t', rb_insert_opt key x t = Some t' /\ tree_ok key t' /\
    elements t' = insert_by key x (elements t) /\
    (forall k, rb_search key k t' = if k =? key x then Some x else rb_search key k t).
Proof.
  intros Hok Hne. destruct (rb_insert_opt_ok key x t (proj1 Hok)) as (t' & He & _).
  pose proof (rb_insert_ok key x t Hok Hne) as Hok'.
  pose proof (rb_insert_elements key x t Hok) as Hel. unfold rb_insert in *. rewrite He in *.
  exists t'. split_and!; [done..|]. intros k.
  rewrite !rb_search_find by (apply Hok || apply Hok'). cbn in Hel.
  rewrite Hel. apply find_by_insert_by; [apply Hok|done].
Qed.

(** C38: [rb_erase] of a node of a well-formed tree: the splice, the
    successor swap and the recolouring never follow a NULL pointer and end
    within the fuel, the invariant is kept, the node alone disappears from the
    order and from the search. *)
Theorem rb_erase_correct (k : Z) t :
  tree_ok key t -> (exists x, x ∈ elements t /\ key x = k) ->
  exists t', rb_erase_opt key k t = Some t' /\ tree_ok key t' /\
    elements t' = remove_by key k (elements t) /\
    (forall k', rb_search key k' t' = if k' =? k then None else rb_search key k' t).
Proof.
  intros Hok Hx. destruct (rb_erase_opt_ok key k t Hok Hx) as (t' & He & Hok' & Hel).
  exists t'. split_and!; [done..|]. intros k'.
  rewrite !rb_search_find by (apply Hok || apply Hok'). rewrite Hel. apply find_by_remove_by.
Qed.

(** The loop over [rb_first] and [rb_next] ends at NULL after visiting
    every node once, in increasing key order; one step of fuel per node and one
    for the NULL. *)
Theorem rb_walk_in_order t (fuel : nat) :
  tree_ok key t -> (length (elements t) < fuel)%nat ->
  rb_walk fuel t (rb_first t) = elements t /\ ksorted key (elements t).
Proof.
  intros Hok Hf. split; [|apply Hok]. rewrite rb_first_head.
  by apply (rb_walk_suffix _ _ []).
Qed.

(** A search descends at most [2 * log2 (n + 1)] nodes of a tree of [n]. *)
Theorem rb_depth_bound t :
  rb_ok t -> (depth t <= 2 * Nat.log2 (S (length (elements t))))%nat.
Proof.
  intros [Hr [n Hb]]. pose proof (balanced_depth _ _ Hb) as Hd. rewrite Hr in Hd.
  apply balanced_size, Nat.log2_le_pow2 in Hb; lia.
Qed.
End Contract.

(** ** At concrete trees *)

Section Witness.
Let key (x : Z) : Z := x.
Let five : tree Z :=
  Eval vm_compute in fold_left (fun t x => rb_insert key x t) [3; 1; 4; 5; 9] Leaf.

Lemma five_ok : tree_ok key five.
Proof.
  unfold five. split; [|repeat constructor].
  split; [done|]. exists 2%nat. repeat constructor.
Qed.

Lemma rb_insert_correct_witness :
  exists t', rb_insert_opt key 2 five = Some t' /\ tree_ok key t' /\
    elements t' = insert_by key 2 (elements five) /\
    (forall k, rb_search key k t' = if k =? key 2 then Some 2 else rb_search key k five).
Proof.
  apply (rb_insert_correct key 2 five); [apply five_ok|].
  apply Forall_forall. repeat constructor; done.
Defined.

Lemma rb_erase_correct_witness :
  exists t', rb_erase_opt key 3 five = Some t' /\ tree_ok key t' /\
    elements t' = remove_by key 3 (elements five) /\
    (forall k', rb_search key k' t' = if k' =? 3 then None else rb_search key k' five).
Proof.
  apply (rb_erase_correct key 3 five); [apply five_ok|].
  exists 3. split; [apply list_elem_of_In; simpl; tauto|done].
Defined.

Lemma rb_walk_in_order_witness :
  rb_walk key 6 five (rb_first five) = [1; 3; 4; 5; 9] /\ ksorted key [1; 3; 4; 5; 9].
Proof. apply (rb_walk_in_order key five 6); [apply five_ok|simpl; lia]. Defined.

Lemma rb_depth_bound_witness : (depth five <= 2 * Nat.log2 6)%nat.
Proof. apply (rb_depth_bound five). apply five_ok. Defined.
End Witness.
