(* ===== verification/Bytes.v ===== *)
(** * Bytes: little-endian memory

    A buffer is a list of bytes, each a [Z] below 256.  [htole16], [htole32] and
    [htole64] followed by a store are [le_split] of the width; [le16toh] and the
    others after a load are [le_combine].  Reads past the end of a buffer are
    [None]. *)

From S2P Require Import Prelude.

Notation bytes := (list Z).

Definition bytes_ok (l : bytes) : Prop := Forall (fun b => is_u8 b) l.

Fixpoint le_split (n : nat) (z : Z) : bytes :=
  match n with O => [] | S n => z mod 256 :: le_split n (z / 256) end.

Fixpoint le_combine (l : bytes) : Z :=
  match l with [] => 0 | b :: l' => b + 256 * le_combine l' end.

Lemma length_le_split n z : length (le_split n z) = n.
Proof. revert z; induction n; intros; simpl; auto. Qed.

Lemma bytes_ok_le_split n z : bytes_ok (le_split n z).
Proof.
  revert z; induction n; intros; simpl; constructor; [zlia|apply IHn].
Qed.

Lemma le_combine_split n z : le_combine (le_split n z) = z mod 256 ^ Z.of_nat n.
Proof.
  revert z; induction n as [|n IH]; intros z.
  - simpl. by rewrite Z.mod_1_r.
  - simpl le_split. simpl le_combine. rewrite IH, Nat2Z.inj_succ, Z.pow_succ_r by lia.
    rewrite Z.rem_mul_r by first [lia | apply Z.pow_pos_nonneg; lia]. lia.
Qed.

Lemma le_combine_range l : bytes_ok l -> 0 <= le_combine l < 256 ^ Zlength l.
Proof.
  induction 1 as [|b l Hb _ IH]; [done|].
  rewrite Zlength_cons. simpl le_combine. rewrite Z.pow_add_r, Z.pow_1_r by (unfold Zlength; lia).
  lia.
Qed.

Lemma le_split_combine l : bytes_ok l -> le_split (length l) (le_combine l) = l.
Proof.
  induction 1 as [|b l Hb _ IH]; simpl; [done|]. f_equal; [zlia|].
  replace ((b + 256 * le_combine l) / 256) with (le_combine l) by zlia. done.
Qed.

Lemma le_combine_split_u16 z : is_u16 z -> le_combine (le_split 2 z) = z.
Proof. intros. rewrite le_combine_split. apply Z.mod_small. simpl. lia. Qed.
Lemma le_combine_split_u32 z : is_u32 z -> le_combine (le_split 4 z) = z.
Proof. intros. rewrite le_combine_split. apply Z.mod_small. simpl. lia. Qed.
Lemma le_combine_split_u64 z : is_u64 z -> le_combine (le_split 8 z) = z.
Proof. intros. rewrite le_combine_split. apply Z.mod_small. simpl. lia. Qed.

Lemma le_combine_1 b : le_combine [b] = b.
Proof. simpl. lia. Qed.

Lemma le_split_app m n z :
  le_split (m + n) z = le_split m z ++ le_split n (z / 256 ^ Z.of_nat m).
Proof.
  revert z; induction m as [|m IH]; intros z; cbn [Nat.add le_split app].
  - by rewrite Z.div_1_r.
  - f_equal. rewrite IH. do 2 f_equal.
    rewrite Nat2Z.inj_succ, Z.pow_succ_r, Z.div_div by first [lia | apply Z.pow_pos_nonneg; lia]. done.
Qed.

Lemma le_split_mod n z : le_split n (z mod 256 ^ Z.of_nat n) = le_split n z.
Proof.
  rewrite <- le_combine_split. pose proof (le_split_combine (le_split n z)) as H.
  rewrite length_le_split in H. apply H, bytes_ok_le_split.
Qed.

(** Two adjacent 32-bit fields read as one of 64 bits. *)
Lemma le_split_pair a b :
  is_u32 a -> le_split 4 a ++ le_split 4 b = le_split 8 (a + 4294967296 * b).
Proof.
  intros Ha. rewrite (le_split_app 4 4). change (256 ^ Z.of_nat 4) with 4294967296.
  f_equal.
  - rewrite <- (le_split_mod 4 (a + _)). change (256 ^ Z.of_nat 4) with 4294967296.
    replace ((a + 4294967296 * b) mod 4294967296) with a by zlia. done.
  - f_equal. zlia.
Qed.

Create Rewrite HintDb bytes.
#[export] Hint Rewrite le_combine_1 : bytes.
#[export] Hint Rewrite le_combine_split_u16 le_combine_split_u32 le_combine_split_u64
  using (lia || assumption) : bytes.
#[export] Hint Rewrite length_le_split : lists.
#[export] Hint Resolve bytes_ok_le_split : machine.

Lemma bytes_ok_app l k : bytes_ok (l ++ k) <-> bytes_ok l /\ bytes_ok k.
Proof. apply Forall_app. Qed.

(** ** Population counts *)

(** The number of ones among the [w] low bits. *)
Fixpoint bits (w : nat) (n : Z) : Z :=
  match w with O => 0 | S w => n mod 2 + bits w (n / 2) end.

Lemma bits_range w n : 0 <= bits w n <= Z.of_nat w.
Proof.
  revert n; induction w as [|w IH]; intros n; [simpl; lia|].
  simpl bits. specialize (IH (n / 2)). zlia.
Qed.

Lemma bits_add a b n : bits (a + b) n = bits a n + bits b (n / 2 ^ Z.of_nat a).
Proof.
  revert n; induction a as [|a IH]; intros n.
  - simpl. by rewrite Z.div_1_r.
  - simpl bits. rewrite IH, Nat2Z.inj_succ, Z.pow_succ_r, Z.div_div by lia. lia.
Qed.

Lemma bits_mod w n m : (w <= m)%nat -> bits w (n mod 2 ^ Z.of_nat m) = bits w n.
Proof.
  revert n m; induction w as [|w IH]; intros n m Hm; [done|].
  destruct m as [|m]; [lia|]. simpl bits.
  rewrite Nat2Z.inj_succ, Z.pow_succ_r by lia.
  rewrite Z.rem_mul_r by first [lia | apply Z.pow_pos_nonneg; lia].
  replace (n mod 2 + 2 * ((n / 2) mod 2 ^ Z.of_nat m))
    with (n mod 2 + ((n / 2) mod 2 ^ Z.of_nat m) * 2) by lia.
  rewrite Z.div_add by lia. rewrite Z.mod_add by lia.
  rewrite Z.mod_mod by lia. rewrite (Z.div_small (n mod 2) 2) by zlia.
  rewrite Z.add_0_l, IH by lia. done.
Qed.

Lemma bits_zero w : bits w 0 = 0.
Proof. induction w as [|w IH]; [done|]. cbn [bits]. by rewrite Z.div_0_l, IH by lia. Qed.

Lemma bits_le_combine l :
  bytes_ok l -> bits (8 * length l) (le_combine l) = Zsum (map (bits 8) l).
Proof.
  induction 1 as [|b l Hb _ IH]; [done|].
  replace (8 * length (b :: l))%nat with (8 + 8 * length l)%nat by (simpl; lia).
  rewrite bits_add. simpl le_combine. simpl map. simpl Zsum.
  replace ((b + 256 * le_combine l) / 2 ^ Z.of_nat 8) with (le_combine l) by (simpl; zlia).
  rewrite IH. f_equal.
  rewrite <- (bits_mod 8 _ 8) by lia.
  replace ((b + 256 * le_combine l) mod 2 ^ Z.of_nat 8) with b by (simpl; zlia). done.
Qed.

#[global] Arguments le_split : simpl never.
#[global] Arguments le_combine : simpl never.
