(* ===== verification/Xxhash.v ===== *)
(** * Xxhash: the hashes of the bundled xxhash.h

    [XXH32] and [XXH64] as the protocol calls them: over the bytes of a time stamp
    for the numbers of SYN, FIN and PING packets, over the contents of an MTU probe.
    The accumulators are a list of four lanes.  Arithmetic wraps around. *)

From S2P Require Import Prelude Bytes.

(** ** XXH32 *)

Definition XXH_PRIME32_1 : Z := 0x9E3779B1.
Definition XXH_PRIME32_2 : Z := 0x85EBCA77.
Definition XXH_PRIME32_3 : Z := 0xC2B2AE3D.
Definition XXH_PRIME32_4 : Z := 0x27D4EB2F.
Definition XXH_PRIME32_5 : Z := 0x165667B1.

Definition XXH_rotl32 (x r : Z) : Z := Z.lor (u32 (Z.shiftl x r)) (Z.shiftr x (32 - r)).

Definition XXH32_round (acc input : Z) : Z :=
  let acc := u32 (acc + u32 (input * XXH_PRIME32_2)) in
  let acc := XXH_rotl32 acc 13 in
  u32 (acc * XXH_PRIME32_1).

Definition XXH32_avalanche (hash : Z) : Z :=
  let hash := Z.lxor hash (Z.shiftr hash 15) in
  let hash := u32 (hash * XXH_PRIME32_2) in
  let hash := Z.lxor hash (Z.shiftr hash 13) in
  let hash := u32 (hash * XXH_PRIME32_3) in
  Z.lxor hash (Z.shiftr hash 16).

Definition XXH32_initAccs (seed : Z) : list Z :=
  [u32 (seed + XXH_PRIME32_1 + XXH_PRIME32_2); u32 (seed + XXH_PRIME32_2); u32 seed;
   u32 (seed - XXH_PRIME32_1)].

(** [input] a little-endian integer of [n] bytes, read at each lane in turn. *)
Fixpoint lanes (n : nat) (round : Z -> Z -> Z) (acc : list Z) (input : bytes) : list Z :=
  match acc with
  | [] => []
  | a :: acc => round a (le_combine (take n input)) :: lanes n round acc (drop n input)
  end.

(** [stripes] blocks of sixteen bytes. *)
Fixpoint XXH32_consumeLong (stripes : nat) (acc : list Z) (input : bytes) : list Z :=
  match stripes with
  | O => acc
  | S stripes => XXH32_consumeLong stripes (lanes 4 XXH32_round acc input) (drop 16 input)
  end.

Definition XXH32_mergeAccs (acc : list Z) : Z :=
  u32 (XXH_rotl32 (nth 0 acc 0) 1 + XXH_rotl32 (nth 1 acc 0) 7 +
       XXH_rotl32 (nth 2 acc 0) 12 + XXH_rotl32 (nth 3 acc 0) 18).

(** [XXH_PROCESS1] for each byte. *)
Fixpoint XXH32_process1 (hash : Z) (ptr : bytes) : Z :=
  match ptr with
  | [] => hash
  | b :: ptr =>
      let hash := u32 (hash + u32 (b * XXH_PRIME32_5)) in
      XXH32_process1 (u32 (XXH_rotl32 hash 11 * XXH_PRIME32_1)) ptr
  end.

(** [XXH_PROCESS4] while four bytes are left. *)
Fixpoint XXH32_process (hash : Z) (ptr : bytes) : Z :=
  match ptr with
  | b0 :: b1 :: b2 :: b3 :: ptr =>
      let hash := u32 (hash + u32 (le_combine [b0; b1; b2; b3] * XXH_PRIME32_3)) in
      XXH32_process (u32 (XXH_rotl32 hash 17 * XXH_PRIME32_4)) ptr
  | ptr => XXH32_process1 hash ptr
  end.

Definition XXH32_finalize (hash : Z) (ptr : bytes) : Z := XXH32_avalanche (XXH32_process hash ptr).

Definition XXH32 (input : bytes) (seed : Z) : Z :=
  let len := Zlength input in
  let stripes := (length input / 16)%nat in
  let h32 := if 16 <=? len
             then XXH32_mergeAccs (XXH32_consumeLong stripes (XXH32_initAccs seed) input)
             else u32 (seed + XXH_PRIME32_5) in
  XXH32_finalize (u32 (h32 + u32 len)) (drop (16 * stripes) input).

Lemma lxor_shiftr_u32 h n : is_u32 h -> 0 <= n -> is_u32 (Z.lxor h (Z.shiftr h n)).
Proof.
  intros Hh Hn. assert (0 <= Z.shiftr h n <= h) as Hs.
  { rewrite Z.shiftr_div_pow2 by lia. split; [apply Z.div_pos; lia|]. apply Z.div_le_upper_bound; [lia|]. nia. }
  assert (0 <= Z.lxor h (Z.shiftr h n)) as H0 by (apply Z.lxor_nonneg; lia). split; [done|].
  destruct (Z.eq_dec (Z.lxor h (Z.shiftr h n)) 0) as [->|Hne]; [done|].
  change 4294967296 with (2 ^ 32). apply Z.log2_lt_pow2; [lia|].
  eapply Z.le_lt_trans; [apply Z.log2_lxor; lia|]. rewrite Z.max_l by (apply Z.log2_le_mono; lia).
  destruct (Z.eq_dec h 0) as [->|]; [done|]. apply Z.log2_lt_pow2; lia.
Qed.

Lemma XXH32_range input seed : is_u32 (XXH32 input seed).
Proof. unfold XXH32, XXH32_finalize, XXH32_avalanche. apply lxor_shiftr_u32; [apply u32_range|lia]. Qed.

(** ** XXH64 *)

Definition XXH_PRIME64_1 : Z := 0x9E3779B185EBCA87.
Definition XXH_PRIME64_2 : Z := 0xC2B2AE3D27D4EB4F.
Definition XXH_PRIME64_3 : Z := 0x165667B19E3779F9.
Definition XXH_PRIME64_4 : Z := 0x85EBCA77C2B2AE63.
Definition XXH_PRIME64_5 : Z := 0x27D4EB2F165667C5.

Definition XXH_rotl64 (x r : Z) : Z := Z.lor (u64 (Z.shiftl x r)) (Z.shiftr x (64 - r)).

Definition XXH64_round (acc input : Z) : Z :=
  let acc := u64 (acc + u64 (input * XXH_PRIME64_2)) in
  let acc := XXH_rotl64 acc 31 in
  u64 (acc * XXH_PRIME64_1).

Definition XXH64_mergeRound (acc val : Z) : Z :=
  let val := XXH64_round 0 val in
  let acc := Z.lxor acc val in
  u64 (u64 (acc * XXH_PRIME64_1) + XXH_PRIME64_4).

Definition XXH64_avalanche (hash : Z) : Z :=
  let hash := Z.lxor hash (Z.shiftr hash 33) in
  let hash := u64 (hash * XXH_PRIME64_2) in
  let hash := Z.lxor hash (Z.shiftr hash 29) in
  let hash := u64 (hash * XXH_PRIME64_3) in
  Z.lxor hash (Z.shiftr hash 32).

Definition XXH64_initAccs (seed : Z) : list Z :=
  [u64 (seed + XXH_PRIME64_1 + XXH_PRIME64_2); u64 (seed + XXH_PRIME64_2); u64 seed;
   u64 (seed - XXH_PRIME64_1)].

(** [stripes] blocks of thirty-two bytes. *)
Fixpoint XXH64_consumeLong (stripes : nat) (acc : list Z) (input : bytes) : list Z :=
  match stripes with
  | O => acc
  | S stripes => XXH64_consumeLong stripes (lanes 8 XXH64_round acc input) (drop 32 input)
  end.

Definition XXH64_mergeAccs (acc : list Z) : Z :=
  let h64 := u64 (XXH_rotl64 (nth 0 acc 0) 1 + XXH_rotl64 (nth 1 acc 0) 7 +
                  XXH_rotl64 (nth 2 acc 0) 12 + XXH_rotl64 (nth 3 acc 0) 18) in
  fold_left XXH64_mergeRound acc h64.

Fixpoint XXH64_process1 (hash : Z) (ptr : bytes) : Z :=
  match ptr with
  | [] => hash
  | b :: ptr =>
      let hash := Z.lxor hash (u64 (b * XXH_PRIME64_5)) in
      XXH64_process1 (u64 (XXH_rotl64 hash 11 * XXH_PRIME64_1)) ptr
  end.

(** At most seven bytes: four at once, then one by one. *)
Definition XXH64_process4 (hash : Z) (ptr : bytes) : Z :=
  match ptr with
  | b0 :: b1 :: b2 :: b3 :: ptr =>
      let hash := Z.lxor hash (u64 (le_combine [b0; b1; b2; b3] * XXH_PRIME64_1)) in
      XXH64_process1 (u64 (u64 (XXH_rotl64 hash 23 * XXH_PRIME64_2) + XXH_PRIME64_3)) ptr
  | ptr => XXH64_process1 hash ptr
  end.

Fixpoint XXH64_process (hash : Z) (ptr : bytes) : Z :=
  match ptr with
  | b0 :: b1 :: b2 :: b3 :: b4 :: b5 :: b6 :: b7 :: ptr =>
      let k1 := XXH64_round 0 (le_combine [b0; b1; b2; b3; b4; b5; b6; b7]) in
      let hash := Z.lxor hash k1 in
      XXH64_process (u64 (u64 (XXH_rotl64 hash 27 * XXH_PRIME64_1) + XXH_PRIME64_4)) ptr
  | ptr => XXH64_process4 hash ptr
  end.

Definition XXH64_finalize (hash : Z) (ptr : bytes) : Z := XXH64_avalanche (XXH64_process hash ptr).

Definition XXH64 (input : bytes) (seed : Z) : Z :=
  let len := Zlength input in
  let stripes := (length input / 32)%nat in
  let h64 := if 32 <=? len
             then XXH64_mergeAccs (XXH64_consumeLong stripes (XXH64_initAccs seed) input)
             else u64 (seed + XXH_PRIME64_5) in
  XXH64_finalize (u64 (h64 + u64 len)) (drop (32 * stripes) input).

(** The values the xxHash specification publishes for the empty input and "abc". *)
Example XXH32_empty : XXH32 [] 0 = 0x02CC5D05.
Proof. reflexivity. Qed.
Example XXH32_abc : XXH32 [97; 98; 99] 0 = 0x32D153FF.
Proof. reflexivity. Qed.
Example XXH64_empty : XXH64 [] 0 = 0xEF46DB3751D8E999.
Proof. reflexivity. Qed.
Example XXH64_abc : XXH64 [97; 98; 99] 0 = 0x44BC2CF5AD770999.
Proof. reflexivity. Qed.

(** Inputs longer than a stripe. *)
Definition nobody : bytes :=
  [78; 111; 98; 111; 100; 121; 32; 105; 110; 115; 112; 101; 99; 116; 115; 32; 116; 104; 101; 32; 115; 112; 97; 109; 109; 105; 115; 104; 32; 114; 101; 112; 101; 116; 105; 116; 105; 111; 110].
Example XXH32_nobody : XXH32 nobody 0 = 0xE2293B2F.
Proof. reflexivity. Qed.
Example XXH64_nobody : XXH64 nobody 0 = 0xFBCEA83C8A378BF1.
Proof. reflexivity. Qed.

(** ** The hash of a time stamp

    Each step of the mixing of one 64-bit word can be undone, so the hash of the
    eight bytes of a time stamp tells time stamps apart. *)

Lemma mul_odd_inj (p pinv a b : Z) :
  u64 (p * pinv) = 1 -> is_u64 a -> is_u64 b -> u64 (a * p) = u64 (b * p) -> a = b.
Proof.
  unfold u64. intros Hp Ha Hb H.
  assert (forall x, is_u64 x -> (x * p) mod 18446744073709551616 * pinv mod 18446744073709551616 = x) as Hx.
  { intros x Hx. rewrite Zmult_mod_idemp_l, <- Z.mul_assoc, <- Zmult_mod_idemp_r, Hp, Z.mul_1_r.
    by apply Z.mod_small. }
  rewrite <- (Hx a Ha), <- (Hx b Hb). by rewrite H.
Qed.

Lemma u64_add_inj k a b : is_u64 a -> is_u64 b -> u64 (a + k) = u64 (b + k) -> a = b.
Proof. unfold u64. intros. zlia. Qed.

Lemma testbit_u64 x i : 0 <= i < 64 -> Z.testbit (u64 x) i = Z.testbit x i.
Proof. intros. unfold u64. change 18446744073709551616 with (2 ^ 64). apply Z.mod_pow2_bits_low. lia. Qed.

Lemma testbit_high x i : is_u64 x -> 64 <= i -> Z.testbit x i = false.
Proof.
  intros Hx Hi. destruct (Z.eq_dec x 0) as [->|]; [apply Z.bits_0|].
  apply Z.bits_above_log2; [lia|]. apply Z.lt_le_trans with 64; [|done].
  apply Z.log2_lt_pow2; [lia|]. change (2 ^ 64) with 18446744073709551616. lia.
Qed.

Lemma u64_bits_ext x y :
  is_u64 x -> is_u64 y -> (forall i, 0 <= i < 64 -> Z.testbit x i = Z.testbit y i) -> x = y.
Proof.
  intros Hx Hy H. apply Z.bits_inj'. intros i Hi. destruct (Z.lt_ge_cases i 64); [by apply H|].
  by rewrite !testbit_high.
Qed.

Lemma u64_of_bits x : 0 <= x -> (forall i, 64 <= i -> Z.testbit x i = false) -> is_u64 x.
Proof.
  intros Hx H. split; [done|]. destruct (Z.eq_dec x 0) as [->|]; [lia|].
  change 18446744073709551616 with (2 ^ 64). apply Z.log2_lt_pow2; [lia|].
  destruct (Z.lt_ge_cases (Z.log2 x) 64) as [|Hge]; [done|].
  pose proof (Z.bit_log2 x ltac:(lia)). rewrite H in *; done.
Qed.

Lemma shiftr_u64 x k : is_u64 x -> 0 <= k -> is_u64 (Z.shiftr x k).
Proof.
  intros Hx Hk. apply u64_of_bits; [apply Z.shiftr_nonneg; lia|]. intros i Hi.
  rewrite Z.shiftr_spec by lia. apply testbit_high; lia.
Qed.

Lemma lxor_u64 x y : is_u64 x -> is_u64 y -> is_u64 (Z.lxor x y).
Proof.
  intros Hx Hy. apply u64_of_bits; [apply Z.lxor_nonneg; lia|]. intros i Hi.
  by rewrite Z.lxor_spec, !testbit_high.
Qed.

Lemma XXH64_u64 data seed : is_u64 (XXH64 data seed).
Proof. unfold XXH64, XXH64_avalanche. apply lxor_u64; [|apply shiftr_u64; [|lia]]; apply u64_range. Qed.

Lemma rotl64_u64 x r : is_u64 x -> 0 <= r <= 64 -> is_u64 (XXH_rotl64 x r).
Proof.
  intros Hx Hr. unfold XXH_rotl64. pose proof (u64_range (Z.shiftl x r)).
  pose proof (shiftr_u64 x (64 - r) Hx ltac:(lia)).
  apply u64_of_bits; [apply Z.lor_nonneg; lia|]. intros i Hi.
  by rewrite Z.lor_spec, !testbit_high.
Qed.

Lemma rotl64_testbit x r i :
  is_u64 x -> 0 <= r < 64 -> 0 <= i < 64 ->
  Z.testbit (XXH_rotl64 x r) i = Z.testbit x (if i <? r then i + (64 - r) else i - r).
Proof.
  intros Hx Hr Hi. unfold XXH_rotl64. rewrite Z.lor_spec, testbit_u64, Z.shiftl_spec, Z.shiftr_spec by lia.
  destruct (Z.ltb_spec i r).
  - rewrite (Z.testbit_neg_r x (i - r)) by lia. done.
  - rewrite (testbit_high x (i + (64 - r))) by lia. apply orb_false_r.
Qed.

Lemma rotl64_inj r a b :
  0 <= r < 64 -> is_u64 a -> is_u64 b -> XXH_rotl64 a r = XXH_rotl64 b r -> a = b.
Proof.
  intros Hr Ha Hb H. apply u64_bits_ext; [done..|]. intros i Hi.
  pose proof (rotl64_testbit a r ((i + r) mod 64)) as Ta. pose proof (rotl64_testbit b r ((i + r) mod 64)) as Tb.
  rewrite H in Ta. specialize (Ta Ha Hr ltac:(zlia)). specialize (Tb Hb Hr ltac:(zlia)). rewrite Ta in Tb.
  replace (if (i + r) mod 64 <? r then (i + r) mod 64 + (64 - r) else (i + r) mod 64 - r) with i in Tb; [done|].
  destruct (Z.ltb_spec ((i + r) mod 64) r); zlia.
Qed.

(** A shift of a third of the width or more can be undone in two steps. *)
Lemma xorshift_inj k a b :
  22 <= k -> is_u64 a -> is_u64 b -> Z.lxor a (Z.shiftr a k) = Z.lxor b (Z.shiftr b k) -> a = b.
Proof.
  intros Hk Ha Hb H.
  assert (forall x, is_u64 x -> let y := Z.lxor x (Z.shiftr x k) in
    x = Z.lxor (Z.lxor y (Z.shiftr y k)) (Z.shiftr y (k + k))) as Hinv.
  { intros x Hx y. apply Z.bits_inj'. intros i Hi. unfold y.
    rewrite !Z.lxor_spec, !Z.shiftr_spec, !Z.lxor_spec, !Z.shiftr_spec by lia.
    rewrite (testbit_high x (i + (k + k) + k)) by (done || lia). rewrite <- Z.add_assoc.
    by destruct (Z.testbit x i), (Z.testbit x (i + k)), (Z.testbit x (i + (k + k))). }
  rewrite (Hinv a Ha), (Hinv b Hb). by rewrite H.
Qed.

Lemma avalanche64_inj a b : is_u64 a -> is_u64 b -> XXH64_avalanche a = XXH64_avalanche b -> a = b.
Proof.
  intros Ha Hb H. unfold XXH64_avalanche in H.
  assert (forall x k, is_u64 x -> 0 <= k -> is_u64 (Z.lxor x (Z.shiftr x k))) as Hr
    by (intros; apply lxor_u64; [done|by apply shiftr_u64]).
  apply xorshift_inj in H; [|lia|apply u64_range..].
  apply (mul_odd_inj XXH_PRIME64_3 (0xe9e9f4c41d6df849)) in H; [|done|apply Hr; [apply u64_range|lia]..].
  apply xorshift_inj in H; [|lia|apply u64_range..].
  apply (mul_odd_inj XXH_PRIME64_2 (0xba79078168d4baf)) in H; [|done|apply Hr; [done|lia]..].
  apply xorshift_inj in H; [done|lia|done|done].
Qed.

Lemma round64_inj a b : is_u64 a -> is_u64 b -> XXH64_round 0 a = XXH64_round 0 b -> a = b.
Proof.
  intros Ha Hb H. unfold XXH64_round in H. rewrite !Z.add_0_l, !u64_idemp in H.
  apply (mul_odd_inj XXH_PRIME64_1 (0x887493432badb37)) in H; [|done|apply rotl64_u64; [apply u64_range|lia]..].
  apply rotl64_inj in H; [|lia|apply u64_range..].
  by apply (mul_odd_inj XXH_PRIME64_2 (0xba79078168d4baf)) in H.
Qed.

Lemma round64_u64 a b : is_u64 (XXH64_round a b).
Proof. apply u64_range. Qed.

(** The number of a PING is the hash of its time stamp. *)
Definition ts_hash (ts : Z) : Z := XXH64 (le_split 8 ts) 0.

(** PINGs sent at different times carry different numbers:
    [XXH64] of the eight bytes of a time stamp is injective, so a PONG is matched
    with the request it answers. *)
Theorem ping_sn_injective (ts ts' : Z) :
  is_u64 ts -> is_u64 ts' -> ts <> ts' -> ts_hash ts <> ts_hash ts'.
Proof.
  assert (forall x, is_u64 x -> ts_hash x = XXH64_avalanche (u64 (u64 (XXH_rotl64
    (Z.lxor (u64 (u64 (0 + XXH_PRIME64_5) + u64 8)) (XXH64_round 0 x)) 27 * XXH_PRIME64_1) + XXH_PRIME64_4))) as Hh.
  { intros x Hx. rewrite <- (le_combine_split_u64 x Hx) at 2.
    unfold ts_hash. cbn [le_split]. reflexivity. }
  intros Hx Hy Hne H. apply Hne. rewrite !Hh in H by done.
  set (h := u64 (u64 (0 + XXH_PRIME64_5) + u64 8)) in H.
  assert (forall x, is_u64 (Z.lxor h (XXH64_round 0 x))) as Hl by (intros; apply lxor_u64; apply u64_range).
  apply avalanche64_inj in H; [|apply u64_range..].
  apply u64_add_inj in H; [|apply u64_range..].
  apply (mul_odd_inj XXH_PRIME64_1 (0x887493432badb37)) in H; [|done|apply rotl64_u64; [done|lia]..].
  apply rotl64_inj in H; [|lia|done|done].
  apply round64_inj; [done|done|].
  apply (f_equal (Z.lxor h)) in H. by rewrite <- !Z.lxor_assoc, Z.lxor_nilpotent, !Z.lxor_0_l in H.
Qed.

Lemma ping_sn_injective_witness : 1000 <> 2000 /\ ts_hash 1000 <> ts_hash 2000.
Proof. split; [done|]. apply (ping_sn_injective 1000 2000); lia. Defined.
