(* ===== verification/Bitmap.v ===== *)
(** * Bitmap: kcp/3rd_party/bitmap.c

    The set of local connection ids.  [bm_array] is the malloc'ed array; a
    [malloc] is an argument, [None] when it fails and [Some contents] otherwise,
    the contents being whatever the memory held: [bitmap_create] does not clear
    it.  [popcount] is the compiler builtin of the Linux branch. *)

From S2P Require Import Prelude Bytes.

Definition BITS_PEER_BYTE : Z := 8.

Record bitmap := Bitmap {
  bm_size : Z;          (* uint32_t size *)
  bm_capacity : Z;      (* uint32_t capacity *)
  bm_array : bytes;     (* uint8_t *array *)
}.
#[export] Instance eta_bitmap : Eta bitmap :=
  fun b => Bitmap (bm_size b) (bm_capacity b) (bm_array b).

Definition bitmap_capacity (size : Z) : Z := u32 (size / BITS_PEER_BYTE + 1).

Definition bitmap_create (size : Z) (malloc : option bytes) : option bitmap :=
  array ← malloc; Some (Bitmap size (bitmap_capacity size) array).

Definition bitmap_clear (bm : bitmap) : bitmap :=
  bm <| bm_array := replicate (Z.to_nat (bm_capacity bm)) 0 |>.

Definition bitmap_fill (bm : bitmap) : bitmap :=
  bm <| bm_array := replicate (Z.to_nat (bm_capacity bm)) 255 |>.

Definition bitset_copy (other : bitmap) (malloc : option bytes) : option bitmap :=
  _ ← malloc; Some (Bitmap (bm_size other) (bm_capacity other) (bm_array other)).

Definition byte_at (bm : bitmap) (i : Z) : Z := nth (Z.to_nat i) (bm_array bm) 0.

Definition bitmap_set (bm : bitmap) (index : Z) (value : bool) : bitmap :=
  if bm_size bm <=? index then bm
  else
    let byte_index := index / BITS_PEER_BYTE in
    let bit_index := index mod BITS_PEER_BYTE in
    let mask := u8 (Z.shiftl 1 bit_index) in
    let b := byte_at bm byte_index in
    let b' := if value then Z.lor b mask else Z.land b (Z.lnot mask) in
    bm <| bm_array ::= <[Z.to_nat byte_index := u8 b']> |>.

Definition bitmap_get (bm : bitmap) (index : Z) : bool :=
  if bm_size bm <=? index then false
  else
    let byte_index := index / BITS_PEER_BYTE in
    let bit_index := index mod BITS_PEER_BYTE in
    let mask := u8 (Z.shiftl 1 bit_index) in
    negb (Z.land (byte_at bm byte_index) mask =? 0).

Definition popcount (n : Z) : Z := bits 32 n.
Definition count_bits64 (v : Z) : Z :=
  popcount (Z.land v UINT32_MAX) + popcount (u32 (Z.shiftr v 32)).
Definition count_bits8 (v : Z) : Z := popcount v.

(** The first loop of [bitmap_count]: [len] loads of a [uint64_t]. *)
Fixpoint count_words (len : nat) (array : bytes) : Z :=
  match len with
  | O => 0
  | S len => count_bits64 (le_combine (take 8 array)) + count_words len (drop 8 array)
  end.

(** The second loop: the bytes after the last whole word. *)
Definition count_tail (l : bytes) : Z :=
  Zsum (map (fun b => if b =? 0 then 0 else count_bits8 b) l).

Definition bitmap_count (bm : bitmap) : Z :=
  let nbytes := bm_size bm / BITS_PEER_BYTE in
  let len := nbytes / 8 in
  let reserveSize := nbytes mod 8 in
  u32 (count_words (Z.to_nat len) (bm_array bm) +
       count_tail (take (Z.to_nat reserveSize) (drop (8 * Z.to_nat len) (bm_array bm)))).

(** ** Well-formed bitmaps *)

Definition bitmap_ok (bm : bitmap) : Prop :=
  0 <= bm_size bm < 4294967288 /\ bm_capacity bm = bitmap_capacity (bm_size bm) /\
  Zlength (bm_array bm) = bm_capacity bm /\ bytes_ok (bm_array bm).

(** Bit [i] of the array, whatever the size. *)
Definition bit (bm : bitmap) (i : Z) : bool := Z.testbit (byte_at bm (i / 8)) (i mod 8).

Lemma byte_at_range bm i : bytes_ok (bm_array bm) -> is_u8 (byte_at bm i).
Proof.
  intros Hok. unfold byte_at. destruct (nth_in_or_default (Z.to_nat i) (bm_array bm) 0) as [Hin| ->]; [|lia].
  unfold bytes_ok in Hok. rewrite Forall_forall in Hok. apply Hok. by apply list_elem_of_In.
Qed.

Lemma mask_pow n : 0 <= n < 8 -> u8 (Z.shiftl 1 n) = 2 ^ n.
Proof.
  intros. rewrite Z.shiftl_1_l. apply u8_small. split; [lia|].
  assert (2 ^ n < 2 ^ 8) by (apply Z.pow_lt_mono_r; lia). lia.
Qed.

Lemma u8_testbit b i : 0 <= i < 8 -> Z.testbit (u8 b) i = Z.testbit b i.
Proof. intros. change (u8 b) with (b mod 2 ^ 8). apply Z.mod_pow2_bits_low. lia. Qed.

Lemma land_pow2 b n : 0 <= n -> negb (Z.land b (2 ^ n) =? 0) = Z.testbit b n.
Proof.
  intros Hn. destruct (Z.land b (2 ^ n) =? 0) eqn:E; bprop; simpl; symmetry.
  - apply (f_equal (fun z => Z.testbit z n)) in E.
    by rewrite Z.land_spec, Z.pow2_bits_true, andb_true_r, Z.bits_0 in E.
  - destruct (Z.testbit b n) eqn:Hb; [done|]. exfalso. apply E. apply Z.bits_inj_iff'.
    intros k Hk. rewrite Z.land_spec, Z.bits_0. destruct (decide (k = n)) as [->|].
    + by rewrite Hb.
    + rewrite Z.pow2_bits_false by lia. apply andb_false_r.
Qed.

Lemma bitmap_get_bit bm i :
  0 <= i -> bitmap_get bm i = if bm_size bm <=? i then false else bit bm i.
Proof.
  intros. unfold bitmap_get, bit, BITS_PEER_BYTE. case_match; [done|].
  rewrite mask_pow by zlia. apply land_pow2. zlia.
Qed.

Lemma byte_at_insert bm j k b :
  0 <= j < Zlength (bm_array bm) -> 0 <= k ->
  nth (Z.to_nat k) (<[Z.to_nat j := b]> (bm_array bm)) 0 =
  if j =? k then b else byte_at bm k.
Proof.
  intros. unfold byte_at, Zlength in *. case_match; bprop; subst.
  - apply nth_lookup_Some. apply list_lookup_insert_eq. lia.
  - rewrite !nth_lookup. rewrite list_lookup_insert_ne by lia. done.
Qed.

Lemma set_bit_testbit (value : bool) b m k :
  0 <= m < 8 -> 0 <= k < 8 ->
  Z.testbit (u8 (if value then Z.lor b (2 ^ m) else Z.land b (Z.lnot (2 ^ m)))) k =
  if m =? k then value else Z.testbit b k.
Proof.
  intros. rewrite u8_testbit by lia.
  destruct value; rewrite ?Z.lor_spec, ?Z.land_spec, ?Z.lnot_spec by lia;
    rewrite Z.pow2_bits_eqb by lia; case_match; bprop; subst.
  - apply orb_true_r.
  - by rewrite orb_false_r.
  - apply andb_false_r.
  - by rewrite andb_true_r.
Qed.

Lemma bitmap_set_ok bm i v : bitmap_ok bm -> bitmap_ok (bitmap_set bm i v).
Proof.
  intros (Hs & Hc & Hl & Hb). unfold bitmap_set. case_match; [done|].
  unfold bitmap_ok, Zlength in *. cbn. rewrite length_insert. split_and!; try done; try lia.
  apply Forall_insert; [done|]. apply u8_range.
Qed.

Lemma bitmap_set_size bm i v : bm_size (bitmap_set bm i v) = bm_size bm.
Proof. unfold bitmap_set. by case_match. Qed.

(** ** Counting *)

Lemma popcount_byte b : is_u8 b -> bits 32 b = bits 8 b.
Proof.
  intros. rewrite (bits_add 8 24). simpl Z.of_nat. rewrite Z.div_small by lia.
  rewrite bits_zero. lia.
Qed.

Lemma count_bits64_bits v : is_u64 v -> count_bits64 v = bits 64 v.
Proof.
  intros. unfold count_bits64, popcount. change UINT32_MAX with (Z.ones 32).
  rewrite Z.land_ones, Z.shiftr_div_pow2 by lia.
  change (2 ^ 32) with (2 ^ Z.of_nat 32).
  rewrite (bits_mod 32 v 32) by lia. change 64%nat with (32 + 32)%nat.
  rewrite (bits_add 32 32). rewrite u32_small; [done|].
  change (2 ^ Z.of_nat 32) with 4294967296. zlia.
Qed.

Lemma count_words_bits len array :
  bytes_ok array -> (8 * len <= length array)%nat ->
  count_words len array = Zsum (map (bits 8) (take (8 * len) array)).
Proof.
  revert array; induction len as [|len IH]; intros array Hok Hlen; [done|].
  cbn [count_words].
  assert (bytes_ok (take 8 array)) as Hok8 by by apply Forall_take.
  assert (length (take 8 array) = 8%nat) as Hl8 by (rewrite length_take; lia).
  rewrite count_bits64_bits.
  - rewrite IH; [|by apply Forall_drop|rewrite length_drop; lia].
    replace 64%nat with (8 * length (take 8 array))%nat by (rewrite Hl8; done). rewrite bits_le_combine by done.
    rewrite <- Zsum_app, <- map_app. do 2 f_equal.
    replace (8 * S len)%nat with (8 + 8 * len)%nat by lia.
    by rewrite take_take_drop.
  - pose proof (le_combine_range _ Hok8) as Hr. unfold Zlength in Hr. rewrite Hl8 in Hr.
    simpl in Hr. lia.
Qed.

Lemma count_tail_bits l : bytes_ok l -> count_tail l = Zsum (map (bits 8) l).
Proof.
  unfold count_tail. induction 1 as [|b l Hb _ IH]; simpl; [done|]. rewrite IH. f_equal.
  case_match; bprop; [by subst|]. by apply popcount_byte.
Qed.

(** The ids below [n] that are taken. *)
Definition ids_set (bm : bitmap) (n : Z) : list Z :=
  List.filter (bitmap_get bm) (seqZ 0 n).

Lemma bits_testbits b k w :
  Zlength (List.filter (fun i => Z.testbit b (i - k)) (seqZ k (Z.of_nat w))) = bits w b.
Proof.
  revert b k; induction w as [|w IH]; intros b k; [done|].
  rewrite seqZ_cons by lia. cbn [List.filter bits].
  rewrite <- (IH (b / 2) (Z.succ k)). replace (Z.pred (Z.of_nat (S w))) with (Z.of_nat w) by lia.
  rewrite Z.sub_diag, Z.bit0_odd.
  assert (List.filter (λ i : Z, Z.testbit b (i - k)) (seqZ (Z.succ k) (Z.of_nat w)) =
          List.filter (λ i : Z, Z.testbit (b / 2) (i - Z.succ k)) (seqZ (Z.succ k) (Z.of_nat w))) as ->.
  { apply filter_ext_in. intros i Hi. apply list_elem_of_In, elem_of_seqZ in Hi.
    rewrite <- Z.div2_div, Z.div2_spec, Z.shiftr_spec by lia. f_equal. lia. }
  rewrite Zmod_odd. case_match; rewrite ?Zlength_cons; lia.
Qed.

Lemma ids_set_bytes bm n :
  bitmap_ok bm -> 8 * Z.of_nat n <= bm_size bm ->
  Zlength (ids_set bm (8 * Z.of_nat n)) = Zsum (map (bits 8) (take n (bm_array bm))).
Proof.
  intros Hok. pose proof Hok as (Hs & Hc & Hl & Hb). unfold bitmap_capacity, BITS_PEER_BYTE in Hc.
  rewrite u32_small in Hc by zlia.
  induction n as [|n IH]; intros Hn; [done|].
  destruct (lookup_lt_is_Some_2 (bm_array bm) n) as [b Hbn]; [unfold Zlength in *; zlia|].
  rewrite (take_S_r _ _ _ Hbn), map_app, Zsum_app, <- IH by lia.
  cbn [map Zsum]. rewrite Z.add_0_r.
  unfold ids_set. replace (8 * Z.of_nat (S n)) with (8 * Z.of_nat n + 8) by lia.
  rewrite seqZ_app, List.filter_app, Zlength_app by lia. f_equal. rewrite Z.add_0_l.
  rewrite <- (bits_testbits b (8 * Z.of_nat n) 8). f_equal. apply filter_ext_in.
  intros i Hi. apply list_elem_of_In, elem_of_seqZ in Hi. simpl in Hi.
  rewrite bitmap_get_bit by lia. case_match; bprop; [lia|].
  unfold bit, byte_at. replace (i / 8) with (Z.of_nat n) by zlia.
  replace (i mod 8) with (i - 8 * Z.of_nat n) by zlia. rewrite Nat2Z.id.
  by rewrite (nth_lookup_Some _ _ _ _ Hbn).
Qed.

Lemma bitmap_count_ids (bm : bitmap) :
  bitmap_ok bm -> bitmap_count bm = Zlength (ids_set bm (8 * (bm_size bm / 8))).
Proof.
  intros Hok. pose proof Hok as (Hs & Hc & Hl & Hb). unfold bitmap_capacity, BITS_PEER_BYTE in Hc.
  rewrite u32_small in Hc by zlia.
  unfold bitmap_count, BITS_PEER_BYTE.
  set (nb := bm_size bm / 8) in *.
  rewrite count_words_bits by (done || (unfold Zlength in *; unfold nb; zlia)).
  rewrite count_tail_bits by (apply Forall_take, Forall_drop, Hb).
  rewrite <- Zsum_app, <- map_app, take_take_drop.
  replace (8 * Z.to_nat (nb / 8) + Z.to_nat (nb mod 8))%nat with (Z.to_nat nb) by (unfold nb; zlia).
  rewrite <- ids_set_bytes by (done || (unfold nb; zlia)).
  rewrite Z2Nat.id by (unfold nb; zlia). apply u32_small.
  assert (Zlength (ids_set bm (8 * nb)) <= 8 * nb); [|unfold nb in *; split; [apply Zlength_nonneg|zlia]].
  unfold ids_set, Zlength. pose proof (List.filter_length_le (bitmap_get bm) (seqZ 0 (8 * nb))) as Hf.
  rewrite length_seqZ in Hf. unfold nb in *. zlia.
Qed.

Lemma bitmap_count_not_full (bm : bitmap) :
  bitmap_ok bm -> bm_size bm mod 8 <> 0 -> bitmap_count bm < bm_size bm.
Proof.
  intros Hok Hm. rewrite bitmap_count_ids by done. destruct Hok as (Hs & _).
  unfold ids_set, Zlength. pose proof (List.filter_length_le (bitmap_get bm) (seqZ 0 (8 * (bm_size bm / 8)))) as Hf.
  rewrite length_seqZ in Hf. zlia.
Qed.

Lemma bitmap_get_set_lookup (bm : bitmap) (i j : Z) (v : bool) :
  bitmap_ok bm -> 0 <= i -> 0 <= j ->
  bitmap_get (bitmap_set bm i v) j =
    (if bool_decide (i = j /\ i < bm_size bm) then v else bitmap_get bm j).
Proof.
  intros Hok Hi Hj.
  rewrite !bitmap_get_bit, bitmap_set_size by done.
  unfold bitmap_set. destruct (bm_size bm <=? i) eqn:Ei; bprop.
  { rewrite bool_decide_false by lia. done. }
  destruct Hok as (Hs & Hc & Hl & Hb). unfold bitmap_capacity, BITS_PEER_BYTE in *.
  rewrite u32_small in Hc by zlia.
  unfold bit. cbn. unfold byte_at at 1. cbn.
  rewrite byte_at_insert by (unfold Zlength in *; zlia).
  rewrite mask_pow by zlia.
  destruct (bm_size bm <=? j) eqn:Ej; bprop.
  { rewrite bool_decide_false by lia. done. }
  case_match; bprop.
  - rewrite set_bit_testbit by zlia. case_match; bprop.
    + rewrite bool_decide_true by zlia. done.
    + rewrite bool_decide_false by (intros [-> ?]; lia). by replace (i / 8) with (j / 8).
  - rewrite bool_decide_false by (intros [-> ?]; lia). done.
Qed.

(** What a [bitmap_set] changes and what it leaves: an id below the size reads
    back as written, every other id reads as before, and the map stays well
    formed. *)
Theorem bitmap_get_set (bm : bitmap) (i j : Z) (v : bool) :
  bitmap_ok bm -> 0 <= i -> 0 <= j ->
  bitmap_ok (bitmap_set bm i v) /\
  bitmap_get (bitmap_set bm i v) j =
    (if bool_decide (i = j /\ i < bm_size bm) then v else bitmap_get bm j).
Proof. intros. split; [by apply bitmap_set_ok|by apply bitmap_get_set_lookup]. Qed.

(** [bitmap_count] is the number of ids taken among the first
    [8 * (size / 8)]: the word loop and the byte loop together count each whole
    byte once, and the last [size mod 8] ids are never counted, so that a map
    whose size is not a multiple of eight never counts as full. *)
Theorem bitmap_count_correct (bm : bitmap) :
  bitmap_ok bm ->
  bitmap_count bm = Zlength (ids_set bm (8 * (bm_size bm / 8))) /\
  (bm_size bm mod 8 <> 0 -> bitmap_count bm < bm_size bm).
Proof. intros Hok. split; [by apply bitmap_count_ids|by apply bitmap_count_not_full]. Qed.

(** ** At concrete maps *)

Definition map_of_20 : bitmap := Bitmap 20 3 [255; 3; 15].

Lemma map_of_20_ok : bitmap_ok map_of_20.
Proof. repeat split; try done. repeat constructor; done. Qed.

Lemma bitmap_get_set_witness :
  bitmap_ok (bitmap_set map_of_20 12 true) /\
  bitmap_get (bitmap_set map_of_20 12 true) 12 = true.
Proof. apply (bitmap_get_set map_of_20 12 12 true); [apply map_of_20_ok|lia..]. Defined.

(** All twenty ids but 12 to 15 are taken; 16 to 19 are not counted. *)
Lemma bitmap_count_correct_witness :
  bitmap_count map_of_20 = Zlength (ids_set map_of_20 16) /\ bitmap_count map_of_20 < 20.
Proof.
  destruct (bitmap_count_correct map_of_20 map_of_20_ok) as [H1 H2].
  split; [exact H1|]. apply H2. done.
Defined.
