(* ===== verification/Config.v ===== *)
(** * Config: kcp_config.h, kcp_error.h, kcp_mtu.h and the enums of
    kcp_protocol.h

    The constants of the protocol under the names of the code.  The values of
    [errno] are those of Linux, the platform branch that is modelled. *)

From S2P Require Import Prelude.

(** ** kcp_config.h *)

Definition KCP_BITMAP_SIZE : Z := 65535.
Definition KCP_BBR_BW_FILTER_LEN : nat := 10.
Definition KCP_HEADER_SIZE : Z := 32.
Definition KCP_PACKET_COUNT : Z := 32.
Definition KCP_MAX_PACKET_SIZE : Z := (576 - 20 - 8 - KCP_HEADER_SIZE) * KCP_PACKET_COUNT.

Definition CONFIG_KEY_NODELAY : Z := 1.
Definition CONFIG_KEY_INTERVAL : Z := 2.
Definition CONFIG_KEY_RESEND : Z := 4.
Definition CONFIG_KEY_NC : Z := 8.

Definition DEFAULT_RECEIVE_TIMEOUT : Z := 1000.
Definition DEFAULT_KEEPALIVE_TIMEOUT : Z := 5000.
Definition DEFAULT_KEEPALIVE_INTERVAL : Z := 10000000.
Definition DEFAULT_KEEPALIVE_RETRIES : Z := 5.
Definition DEFAULT_SYN_FIN_RETRIES : Z := 2.
Definition DEFAULT_MTU_PROBE_TIMEOUT : Z := 1500.

Definition KCP_RTO_MAX : Z := 6000.
Definition KCP_ASK_SEND : Z := 1.
Definition KCP_ASK_TELL : Z := 2.
Definition KCP_PING_RECV : Z := 4.
Definition KCP_RTO_NDL : Z := 30.
Definition KCP_RTO_DEF : Z := 200.
Definition KCP_RTO_MIN : Z := 100.
Definition KCP_WND_SND : Z := 128.
Definition KCP_WND_RCV : Z := 256.
Definition KCP_PACKET_SIZE : Z := 64.
Definition KCP_INTERVAL_MAX : Z := 500.
Definition KCP_INTERVAL_MIN : Z := 10.
Definition KCP_FASTACK_LIMIT : Z := 5.
Definition KCP_RETRANSMISSION_MAX : Z := 10.
Definition KCP_PROBE_INIT : Z := 7000.
Definition KCP_PROBE_LIMIT : Z := 120000.

Definition KCP_BBR_STARTUP_GAIN_NUM : Z := 2885.
Definition KCP_BBR_GAIN_DEN : Z := 1000.
Definition KCP_BBR_CWND_GAIN_NUM : Z := 2000.
Definition KCP_BBR_MIN_CWND_PKTS : Z := 4.
Definition KCP_BBR_MIN_RTT_WIN_US : Z := 10000000.
Definition KCP_BBR_PROBE_RTT_US : Z := 200000.

Definition KCP_P2P_MAX_CANDIDATES : Z := 8.

(** ** kcp_mtu.h *)

Definition LOCALHOST_MTU : Z := 65536.
Definition ETHERNET_MTU : Z := 1500.
Definition ETHERNET_MTU_V4_MIN : Z := 576.
Definition ETHERNET_MTU_V6_MIN : Z := 1280.
Definition IPV4_HEADER_SIZE : Z := 20.
Definition IPV6_HEADER_SIZE : Z := 40.
Definition UDP_HEADER_SIZE : Z := 8.

(** ** errno *)

Definition EINTR : Z := 4.
Definition EAGAIN : Z := 11.
Definition EWOULDBLOCK : Z := EAGAIN.
Definition EMSGSIZE : Z := 90.

(** ** kcp_error.h *)

Definition NO_ERROR : Z := 0.
Definition UNKNOWN_ERROR : Z := -2147483647.
Definition NO_MEMORY : Z := -12.
Definition OP_TRY_AGAIN : Z := -11.
Definition INVALID_OPERATION : Z := -38.
Definition INVALID_PARAM : Z := -22.
Definition TIMED_OUT : Z := -110.
Definition NOT_SUPPORT : Z := -95.
Definition IN_PROGRESS : Z := -115.
Definition INVALID_STATE : Z := -84.
Definition BUFFER_TOO_SMALL : Z := -28.
Definition PACKET_TOO_LARGE : Z := -90.
Definition CONNECTION_ID_CONFLICT : Z := -89.
Definition NO_MORE_CONV : Z := -88.
Definition READ_ERROR : Z := -11000.
Definition WRITE_ERROR : Z := -10999.
Definition CREATE_SOCKET_ERROR : Z := -110000.
Definition BIND_ERROR : Z := -109999.
Definition SOCKET_INUSE : Z := -109998.
Definition SOCKET_CLOSED : Z := -109997.
Definition NO_PENDING_CONNECTION : Z := -109994.
Definition UNKNOWN_PROTO : Z := -109992.
Definition IOCTL_ERROR : Z := -109990.
Definition CONNECTION_CLOSED : Z := -109989.
Definition CONNECTION_RESET : Z := -109988.
Definition CONNECTION_REFUSED : Z := -109986.
Definition UDP_UNREACH : Z := -109985.
Definition ICMP_ERROR : Z := -109984.
Definition MTU_REDUCTION : Z := -109983.
Definition KEEPALIVE_ERROR : Z := -109982.
Definition TOO_MANY_RETRANS : Z := -109981.
Definition INVALID_KCP_HEADER : Z := -120000.

(** ** The enums of kcp_protocol.h *)

Definition KCP_CMD_SYN : Z := 1.
Definition KCP_CMD_ACK : Z := 2.
Definition KCP_CMD_PUSH : Z := 3.
Definition KCP_CMD_WASK : Z := 4.
Definition KCP_CMD_WINS : Z := 5.
Definition KCP_CMD_PING : Z := 6.
Definition KCP_CMD_PONG : Z := 7.
Definition KCP_CMD_MTU_PROBE : Z := 8.
Definition KCP_CMD_MTU_ACK : Z := 9.
Definition KCP_CMD_FIN : Z := 10.
Definition KCP_CMD_RST : Z := 11.
Definition KCP_CMD_OPT : Z := 1.
Definition KCP_OPTION_TAG_MTU : Z := 1.
Definition KCP_OPTION_TAG_MTU_LEN : Z := 6.

Inductive kcp_connection_state :=
| KCP_STATE_DISCONNECTED
| KCP_STATE_SYN_SENT
| KCP_STATE_SYN_RECEIVED
| KCP_STATE_CONNECTED
| KCP_STATE_FIN_SENT
| KCP_STATE_FIN_RECEIVED.

#[export] Instance kcp_connection_state_eq_dec : EqDecision kcp_connection_state.
Proof. solve_decision. Defined.

Inductive kcp_bbr_mode :=
| KCP_BBR_STARTUP
| KCP_BBR_DRAIN
| KCP_BBR_PROBE_BW
| KCP_BBR_PROBE_RTT.

#[export] Instance kcp_bbr_mode_eq_dec : EqDecision kcp_bbr_mode.
Proof. solve_decision. Defined.
