(* ===== verification/Wire.v ===== *)
(** * Wire: the packet format of kcp_protocol.c

    [kcp_proto_parse], [kcp_proto_header_encode] and [kcp_segment_encode] on byte
    lists.  The anonymous union of [KcpProtoHeader] is a tagged union: the
    command of the header selects the member the code reads.  [le16toh] and the
    like are the identity of a little-endian host composed with the load. *)

From S2P Require Import Prelude Bytes Config.

(** ** Data *)

Record kcp_option := KcpOption {
  opt_tag : Z;          (* int8_t tag *)
  opt_length : Z;       (* int8_t length *)
  opt_u64_value : Z;    (* union, u64_value *)
}.
#[export] Instance eta_kcp_option : Eta kcp_option :=
  fun o => KcpOption (opt_tag o) (opt_length o) (opt_u64_value o).

Inductive header_data :=
| packet_data (ts sn psn una len : Z) (data : bytes)
| syn_fin_data (packet_ts ts packet_sn rand_sn : Z)
| ack_data (packet_ts ack_ts sn una : Z)
| ping_data (packet_ts ts sn : Z).

Record kcp_proto_header := KcpProtoHeader {
  h_scid : Z;           (* uint16_t *)
  h_dcid : Z;           (* uint16_t *)
  h_cmd : Z;            (* uint8_t :4 *)
  h_opt : Z;            (* uint8_t :4 *)
  h_frg : Z;            (* uint8_t *)
  h_wnd : Z;            (* uint16_t *)
  h_data : header_data; (* union *)
  h_options : list kcp_option;
}.
#[export] Instance eta_kcp_proto_header : Eta kcp_proto_header :=
  fun h => KcpProtoHeader (h_scid h) (h_dcid h) (h_cmd h) (h_opt h) (h_frg h)
                          (h_wnd h) (h_data h) (h_options h).

(** The first eight bytes of the union: [packet_data.ts] whatever member was
    written, as the FIN handler reads it. *)
Definition packet_data_ts (d : header_data) : Z :=
  match d with
  | packet_data ts _ _ _ _ _ => ts
  | syn_fin_data packet_ts _ _ _ => packet_ts
  | ack_data packet_ts _ _ _ => packet_ts
  | ping_data packet_ts _ _ => packet_ts
  end.

Record kcp_segment := KcpSegment {
  sg_scid : Z; sg_dcid : Z; sg_cmd : Z; sg_frg : Z; sg_wnd : Z;
  sg_ts : Z; sg_sn : Z; sg_psn : Z; sg_una : Z; sg_len : Z;
  sg_rto : Z; sg_resendts : Z; sg_fastack : Z; sg_xmit : Z;
  sg_tx_delivered : Z; sg_tx_delivered_ts : Z;
  sg_data : bytes;
}.
#[export] Instance eta_kcp_segment : Eta kcp_segment :=
  fun s => KcpSegment (sg_scid s) (sg_dcid s) (sg_cmd s) (sg_frg s) (sg_wnd s)
    (sg_ts s) (sg_sn s) (sg_psn s) (sg_una s) (sg_len s) (sg_rto s) (sg_resendts s)
    (sg_fastack s) (sg_xmit s) (sg_tx_delivered s) (sg_tx_delivered_ts s) (sg_data s).

#[export] Instance kcp_segment_eq_dec : EqDecision kcp_segment.
Proof. solve_decision. Defined.

(** ** Parsing *)

(** [OK]: parsed, with what is left; [ERR]: an error code is returned; [OOB]: a
    load past the [data_size] bytes of the argument. *)
Inductive parsed (A : Type) :=
| OK (a : A) (rest : bytes)
| ERR (code : Z)
| OOB.
Arguments OK {A} a rest.
Arguments ERR {A} code.
Arguments OOB {A}.

(** Loads a little-endian integer of [n] bytes at [data_offset] and advances. *)
Definition load {A} (n : nat) (data : bytes) (k : Z -> bytes -> parsed A) : parsed A :=
  if (length data <? n)%nat then OOB else k (le_combine (take n data)) (drop n data).

Definition is_syn_fin (cmd : Z) : bool := (cmd =? KCP_CMD_SYN) || (cmd =? KCP_CMD_FIN).
Definition is_ping_pong (cmd : Z) : bool := (cmd =? KCP_CMD_PING) || (cmd =? KCP_CMD_PONG).

(** The [switch (kcp_header->cmd)] of the parser; [data_size] is the size the
    caller gave, [rest] the bytes after the first eight. *)
Definition parse_body (cmd data_size : Z) (rest : bytes) : parsed header_data :=
  if cmd =? KCP_CMD_ACK then
    load 8 rest (fun packet_ts rest => load 8 rest (fun ack_ts rest =>
    load 4 rest (fun sn rest => load 4 rest (fun una rest =>
      OK (ack_data packet_ts ack_ts sn una) rest))))
  else if is_syn_fin cmd then
    load 8 rest (fun packet_ts rest => load 8 rest (fun ts rest =>
    load 4 rest (fun packet_sn rest => load 4 rest (fun rand_sn rest =>
      OK (syn_fin_data packet_ts ts packet_sn rand_sn) rest))))
  else if is_ping_pong cmd then
    load 8 rest (fun packet_ts rest => load 8 rest (fun ts rest =>
    load 8 rest (fun sn rest => OK (ping_data packet_ts ts sn) rest)))
  else
    load 8 rest (fun ts rest => load 4 rest (fun sn rest =>
    load 4 rest (fun psn rest => load 4 rest (fun una rest =>
    load 4 rest (fun len rest =>
      if u64 (data_size - KCP_HEADER_SIZE) <? len then ERR INVALID_KCP_HEADER
      else if (length rest <? Z.to_nat len)%nat then OOB
      else OK (packet_data ts sn psn una len (take (Z.to_nat len) rest))
              (drop (Z.to_nat len) rest)))))).

Definition s8 (x : Z) : Z := let y := u8 x in if y <? 128 then y else y - 256.

(** The option loop: it runs to the end of the datagram.  Its allocations are
    [option_mallocs]. *)
Fixpoint parse_options (fuel : nat) (data : bytes) (acc : list kcp_option)
  : parsed (list kcp_option) :=
  match fuel with
  | O => OK acc data
  | S fuel =>
      match data with
      | [] => OK acc []
      | [_] => ERR INVALID_KCP_HEADER
      | tag :: len :: rest =>
          if Zlength rest <? len then ERR INVALID_KCP_HEADER
          else if tag =? KCP_OPTION_TAG_MTU then
            load 4 rest (fun v _ =>
              parse_options fuel (drop (Z.to_nat len) rest)
                            (acc ++ [KcpOption (s8 tag) (s8 len) v]))
          else ERR INVALID_KCP_HEADER
      end
  end.

(** How many options the loop allocates, those it then refuses included. *)
Fixpoint option_mallocs (fuel : nat) (data : bytes) : nat :=
  match fuel, data with
  | S fuel, tag :: len :: rest =>
      if Zlength rest <? len then 0
      else if tag =? KCP_OPTION_TAG_MTU then S (option_mallocs fuel (drop (Z.to_nat len) rest))
      else 1
  | _, _ => 0
  end.

(** The allocations of [kcp_proto_parse], one for each option.  None is checked: the loop
    over the packets of a datagram makes them before it looks at the result, and a
    failure is a NULL dereference ([mallocs_unchecked]). *)
Definition parse_mallocs (data : bytes) : nat :=
  let cmd_opt := nth 4 data 0 in
  if Z.land (Z.land (Z.shiftr cmd_opt 4) 15) KCP_CMD_OPT =? 0 then 0
  else
    match parse_body (Z.land cmd_opt 15) (Zlength data) (drop 8 data) with
    | OK _ rest => option_mallocs (length rest) rest
    | _ => 0
    end.

Definition kcp_proto_parse (data : bytes) : parsed kcp_proto_header :=
  load 2 data (fun scid rest => load 2 rest (fun dcid rest =>
  load 1 rest (fun cmd_opt rest => load 1 rest (fun frg rest =>
  load 2 rest (fun wnd rest =>
    let cmd := Z.land cmd_opt 15 in
    let opt := Z.land (Z.shiftr cmd_opt 4) 15 in
    match parse_body cmd (Zlength data) rest with
    | OK d rest =>
        if Z.land opt KCP_CMD_OPT =? 0
        then OK (KcpProtoHeader scid dcid cmd opt frg wnd d []) rest
        else match parse_options (length rest) rest [] with
             | OK opts rest => OK (KcpProtoHeader scid dcid cmd opt frg wnd d opts) rest
             | ERR code => ERR code
             | OOB => OOB
             end
    | ERR code => ERR code
    | OOB => OOB
    end))))).

(** ** Encoding *)

(** The store of [bs] at offset [off]; [None] past the end of the buffer. *)
Definition store (off : nat) (bs buffer : bytes) : option bytes :=
  if (length buffer <? off + length bs)%nat then None
  else Some (take off buffer ++ bs ++ drop (off + length bs) buffer).

(** The 24 bytes after the common header. *)
Definition body_bytes (d : header_data) : bytes :=
  match d with
  | ack_data packet_ts ack_ts sn una =>
      le_split 8 packet_ts ++ le_split 8 ack_ts ++ le_split 4 sn ++ le_split 4 una
  | syn_fin_data packet_ts ts packet_sn rand_sn =>
      le_split 8 packet_ts ++ le_split 8 ts ++ le_split 4 packet_sn ++ le_split 4 rand_sn
  | ping_data packet_ts ts sn =>
      le_split 8 packet_ts ++ le_split 8 ts ++ le_split 8 sn
  | packet_data ts sn psn una len data =>
      le_split 8 ts ++ le_split 4 sn ++ le_split 4 psn ++ le_split 4 una ++ le_split 4 len
  end.

(** The data of a packet that is neither ACK, SYN, FIN, PING nor PONG. *)
Definition payload (d : header_data) : Z * bytes :=
  match d with packet_data _ _ _ _ len data => (len, take (Z.to_nat len) data) | _ => (0, []) end.

(** The option loop; [lengeth] is the length of data and options so far. *)
Fixpoint encode_options (opts : list kcp_option) (off : nat) (lengeth : Z) (buffer : bytes)
  : option (Z * bytes) :=
  match opts with
  | [] => Some (u32 (KCP_HEADER_SIZE + lengeth), buffer)
  | o :: opts =>
      if Zlength buffer <? u32 (KCP_HEADER_SIZE + lengeth + opt_length o)
      then Some (BUFFER_TOO_SMALL, buffer)
      else
        buffer ← store off [u8 (opt_tag o); u8 (opt_length o)] buffer;
        if opt_tag o =? KCP_OPTION_TAG_MTU then
          buffer ← store (off + 2) (le_split 4 (u32 (opt_u64_value o))) buffer;
          encode_options opts (off + 6) (u32 (lengeth + (2 + opt_length o))) buffer
        else Some (INVALID_PARAM, buffer)
  end.

(** [kcp_proto_header_encode]: the value returned and the buffer afterwards;
    [None] is a store past the end of the buffer.  The command byte is or-ed into
    what the buffer held. *)
Definition kcp_proto_header_encode (h : kcp_proto_header) (buffer : bytes)
  : option (Z * bytes) :=
  if Zlength buffer <? KCP_HEADER_SIZE then Some (BUFFER_TOO_SMALL, buffer)
  else
    let cmd_opt := Z.lor (Z.lor (nth 4 buffer 0) (h_cmd h)) (u8 (Z.shiftl (h_opt h) 4)) in
    buffer ← store 0 (le_split 2 (h_scid h) ++ le_split 2 (h_dcid h) ++ [cmd_opt] ++
                      [h_frg h] ++ le_split 2 (h_wnd h)) buffer;
    let '(len, data) := payload (h_data h) in
    if Zlength buffer <? u32 (KCP_HEADER_SIZE + len) then Some (BUFFER_TOO_SMALL, buffer)
    else
      buffer ← store 8 (body_bytes (h_data h)) buffer;
      buffer ← store 32 data buffer;
      if negb (Z.land (h_opt h) KCP_CMD_OPT =? 0)
      then encode_options (h_options h) (32 + Z.to_nat len) len buffer
      else Some (u32 (KCP_HEADER_SIZE + len), buffer).

(** [kcp_segment_encode] into a buffer of [buffer_size] bytes: the bytes written,
    [inr] of the error code. *)
Definition kcp_segment_encode (s : kcp_segment) (buffer_size : Z) : bytes + Z :=
  if buffer_size <? u32 (KCP_HEADER_SIZE + sg_len s) then inr BUFFER_TOO_SMALL
  else inl (le_split 2 (sg_scid s) ++ le_split 2 (sg_dcid s) ++ [u8 (sg_cmd s)] ++
            [u8 (sg_frg s)] ++ le_split 2 (sg_wnd s) ++
            le_split 8 (sg_ts s) ++ le_split 4 (sg_sn s) ++ le_split 4 (sg_psn s) ++
            le_split 4 (sg_una s) ++ le_split 4 (sg_len s) ++
            take (Z.to_nat (sg_len s)) (sg_data s)).

(** ** Well-formed headers *)

(** The union member matches the command and the fields fit their types. *)
Definition data_ok (cmd : Z) (d : header_data) : Prop :=
  match d with
  | ack_data packet_ts ack_ts sn una =>
      cmd = KCP_CMD_ACK /\ is_u64 packet_ts /\ is_u64 ack_ts /\ is_u32 sn /\ is_u32 una
  | syn_fin_data packet_ts ts packet_sn rand_sn =>
      is_syn_fin cmd = true /\ is_u64 packet_ts /\ is_u64 ts /\ is_u32 packet_sn /\ is_u32 rand_sn
  | ping_data packet_ts ts sn =>
      is_ping_pong cmd = true /\ is_u64 packet_ts /\ is_u64 ts /\ is_u64 sn
  | packet_data ts sn psn una len data =>
      cmd <> KCP_CMD_ACK /\ is_syn_fin cmd = false /\ is_ping_pong cmd = false /\
      is_u64 ts /\ is_u32 sn /\ is_u32 psn /\ is_u32 una /\
      len = Zlength data /\ len < 4294967296 - KCP_HEADER_SIZE
  end.

Definition header_ok (h : kcp_proto_header) : Prop :=
  is_u16 (h_scid h) /\ is_u16 (h_dcid h) /\ 0 <= h_cmd h < 16 /\ 0 <= h_opt h < 16 /\
  is_u8 (h_frg h) /\ is_u16 (h_wnd h) /\ data_ok (h_cmd h) (h_data h).

Definition mtu_option_ok (o : kcp_option) : Prop :=
  opt_tag o = KCP_OPTION_TAG_MTU /\ opt_length o = 4 /\ is_u32 (opt_u64_value o).

(** The size on the wire without options. *)
Definition header_size (h : kcp_proto_header) : Z := KCP_HEADER_SIZE + fst (payload (h_data h)).

(** ** Loads and stores *)

Lemma load_app {A} n l rest (k : Z -> bytes -> parsed A) :
  length l = n -> load n (l ++ rest) k = k (le_combine l) rest.
Proof.
  intros <-. unfold load. rewrite length_app.
  destruct (Nat.ltb_spec (length l + length rest) (length l)); [lia|].
  by rewrite take_app_length, drop_app_length.
Qed.

Lemma load_inv {A} n data (k : Z -> bytes -> parsed A) v rest :
  load n data k = OK v rest -> (n <= length data)%nat /\ k (le_combine (take n data)) (drop n data) = OK v rest.
Proof. unfold load. destruct (Nat.ltb_spec (length data) n); [done|]. by split. Qed.

Lemma load_split {A} n z rest (k : Z -> bytes -> parsed A) :
  load n (le_split n z ++ rest) k = k (le_combine (le_split n z)) rest.
Proof. apply load_app, length_le_split. Qed.

Lemma store_app l1 l2 l3 bs :
  length bs = length l2 -> store (length l1) bs (l1 ++ l2 ++ l3) = Some (l1 ++ bs ++ l3).
Proof.
  intros Hl. unfold store. rewrite !length_app.
  destruct (Nat.ltb_spec (length l1 + (length l2 + length l3)) (length l1 + length bs)); [lia|].
  rewrite take_app_length. do 2 f_equal.
  rewrite Hl. rewrite <- length_app, app_assoc, drop_app_length. done.
Qed.

Lemma length_body_bytes d : length (body_bytes d) = 24%nat.
Proof. destruct d; simpl; rewrite ?length_app, ?length_le_split; done. Qed.

(** A buffer cut at the fields the encoder writes. *)
Lemma buffer_cut (buffer : bytes) (len : nat) :
  (32 + len <= length buffer)%nat ->
  exists b1 b4 b2 b3 b5 tl, buffer = b1 ++ [b4] ++ b2 ++ b3 ++ b5 ++ tl /\
    length b1 = 4%nat /\ b4 = nth 4 buffer 0 /\ length b2 = 3%nat /\ length b3 = 24%nat /\
    length b5 = len.
Proof.
  intros Hl.
  assert (exists b4, buffer !! 4%nat = Some b4) as [b4 Hb4]
    by (apply lookup_lt_is_Some_2; lia).
  exists (take 4 buffer), b4, (take 3 (drop 5 buffer)), (take 24 (drop 8 buffer)),
    (take len (drop 32 buffer)), (drop (32 + len) buffer).
  split_and!; rewrite ?length_take, ?length_drop; try lia.
  - rewrite <- drop_drop, (take_drop len). change 32%nat with (8 + 24)%nat.
    rewrite <- drop_drop, (take_drop 24). change 8%nat with (5 + 3)%nat.
    rewrite <- drop_drop, (take_drop 3). simpl. by rewrite take_drop_middle.
  - symmetry. by apply nth_lookup_Some.
Qed.

(** The bytes the encoder leaves in a buffer whose command byte held [old]. *)
Definition header_image (h : kcp_proto_header) (old : Z) : bytes :=
  le_split 2 (h_scid h) ++ le_split 2 (h_dcid h) ++
  [Z.lor (Z.lor old (h_cmd h)) (u8 (Z.shiftl (h_opt h) 4))] ++ [h_frg h] ++
  le_split 2 (h_wnd h) ++ body_bytes (h_data h) ++ snd (payload (h_data h)).

Lemma length_payload h :
  header_ok h -> Zlength (snd (payload (h_data h))) = fst (payload (h_data h)) /\
  0 <= fst (payload (h_data h)) < 4294967296 - KCP_HEADER_SIZE.
Proof.
  intros (_&_&_&_&_&_&Hd). unfold KCP_HEADER_SIZE. destruct (h_data h); simpl in *; [|done..].
  destruct Hd as (_&_&_&_&_&_&_&->&?). unfold Zlength, KCP_HEADER_SIZE in *.
  rewrite length_take. lia.
Qed.

Lemma length_header_image h old : length (header_image h old) = (32 + length (snd (payload (h_data h))))%nat.
Proof. unfold header_image. rewrite !length_app, !length_le_split, length_body_bytes. simpl. lia. Qed.

Lemma encode_image (h : kcp_proto_header) (buffer tl : bytes) :
  header_ok h -> Zlength buffer = header_size h ->
  kcp_proto_header_encode h (buffer ++ tl) =
        if negb (Z.land (h_opt h) KCP_CMD_OPT =? 0)
        then encode_options (h_options h) (length buffer) (fst (payload (h_data h)))
               (header_image h (nth 4 buffer 0) ++ tl)
        else Some (header_size h, header_image h (nth 4 buffer 0) ++ tl).
Proof.
  intros Hok Hlen.
  destruct (length_payload h Hok) as [Hp Hr]. unfold header_size, KCP_HEADER_SIZE in *.
  destruct (payload (h_data h)) as [len data] eqn:Hpl. simpl in Hp, Hr, Hlen.
  destruct (buffer_cut buffer (length data)) as (b1&b4&b2&b3&b5&tl'&Hb&H1&H4&H2&H3&H5).
  { unfold Zlength in *. lia. }
  assert (tl' = []) as ->.
  { destruct tl'; [done|]. rewrite Hb in Hlen. unfold Zlength in *.
    rewrite !length_app in Hlen. simpl in Hlen. lia. }
  unfold kcp_proto_header_encode. rewrite Hpl, Zlength_app.
  destruct (Z.ltb_spec (Zlength buffer + Zlength tl) KCP_HEADER_SIZE) as [Hlt|_].
  { pose proof (Zlength_nonneg tl). unfold KCP_HEADER_SIZE in Hlt. lia. }
  assert (nth 4 (buffer ++ tl) 0 = nth 4 buffer 0) as -> by (apply app_nth1; unfold Zlength in *; lia).
  rewrite H4 in *. set (old := nth 4 buffer 0) in *. clearbody old. subst buffer.
  rewrite app_nil_r in *. rewrite <- !app_assoc.
  set (co := Z.lor _ (u8 _)).
  set (hd := le_split 2 (h_scid h) ++ le_split 2 (h_dcid h) ++ [co] ++ [h_frg h] ++ le_split 2 (h_wnd h)).
  assert (length hd = 8%nat) as Hhd by (unfold hd; rewrite !length_app, !length_le_split; done).
  pose proof (store_app [] (b1 ++ [old] ++ b2) (b3 ++ b5 ++ tl) hd) as Hs1.
  rewrite !app_nil_l, <- !app_assoc in Hs1. change (length []) with 0%nat in Hs1.
  rewrite Hs1; clear Hs1; [|rewrite Hhd, !length_app; simpl; lia].
  cbn [mbind option_bind]. autorewrite with lists.
  destruct (Z.ltb_spec (Zlength hd + (Zlength b3 + (Zlength b5 + Zlength tl))) (u32 (KCP_HEADER_SIZE + len))) as [Hlt|_].
  { rewrite u32_small in Hlt by (unfold KCP_HEADER_SIZE; lia).
    pose proof (Zlength_nonneg tl). unfold Zlength, KCP_HEADER_SIZE in *. lia. }
  assert (store 8 (body_bytes (h_data h)) (hd ++ b3 ++ b5 ++ tl) =
          Some (hd ++ body_bytes (h_data h) ++ b5 ++ tl)) as ->.
  { rewrite <- Hhd. apply store_app. rewrite length_body_bytes. lia. }
  cbn [mbind option_bind].
  assert (store 32 data (hd ++ body_bytes (h_data h) ++ b5 ++ tl) =
          Some (hd ++ body_bytes (h_data h) ++ data ++ tl)) as ->.
  { pose proof (store_app (hd ++ body_bytes (h_data h)) b5 tl data ltac:(lia)) as Hs2.
    rewrite length_app, Hhd, length_body_bytes in Hs2. by rewrite <- !app_assoc in Hs2. }
  cbn [mbind option_bind].
  unfold header_image. rewrite Hpl. simpl fst; simpl snd. fold co.
  replace (length (b1 ++ [old] ++ b2 ++ b3 ++ b5)) with (32 + Z.to_nat len)%nat
    by (rewrite !length_app; simpl; unfold Zlength in *; lia).
  unfold hd. rewrite <- !app_assoc. rewrite u32_small by (unfold KCP_HEADER_SIZE; lia). done.
Qed.

(** ** Parsing what the encoder wrote *)

Definition nibbles_ok (cmd opt : Z) : bool :=
  let b := Z.lor cmd (u8 (Z.shiftl opt 4)) in
  (Z.land b 15 =? cmd) && (Z.land (Z.shiftr b 4) 15 =? opt) && (b <? 256) && (0 <=? b).

Lemma nibbles cmd opt : 0 <= cmd < 16 -> 0 <= opt < 16 -> nibbles_ok cmd opt = true.
Proof.
  intros Hc Ho.
  assert (forallb (fun c => forallb (nibbles_ok c) (seqZ 0 16)) (seqZ 0 16) = true) as H
    by (vm_compute; done).
  rewrite forallb_forall in H. specialize (H cmd).
  rewrite forallb_forall in H. apply H; apply list_elem_of_In, elem_of_seqZ; lia.
Qed.

Lemma parse_body_image cmd d size rest :
  data_ok cmd d -> KCP_HEADER_SIZE + fst (payload d) <= size < 18446744073709551616 ->
  parse_body cmd size (body_bytes d ++ snd (payload d) ++ rest) = OK d rest.
Proof.
  intros Hd Hs. unfold KCP_HEADER_SIZE in *. destruct d; simpl in Hd; unfold parse_body.
  - destruct Hd as (Ha&Hsf&Hpp&?&?&?&?&Hl&Hu).
    pose proof (Zlength_nonneg data). apply Z.eqb_neq in Ha. rewrite Ha, Hsf, Hpp.
    cbn [body_bytes payload fst snd] in *. rewrite <- !app_assoc, !load_split. unfold KCP_HEADER_SIZE in *.
    autorewrite with bytes; try lia.
    destruct (Z.ltb_spec (u64 (size - 32)) len) as [Hlt|_];
      [rewrite u64_small in Hlt by lia; lia|].
    rewrite (take_ge data) by (unfold Zlength in *; lia).
    destruct (Nat.ltb_spec (length (data ++ rest)) (Z.to_nat len)) as [Hlt|_];
      [rewrite length_app in Hlt; unfold Zlength in *; lia|].
    replace (Z.to_nat len) with (length data) by (unfold Zlength in *; lia).
    by rewrite take_app_length, drop_app_length.
  - destruct Hd as (Hsf&?&?&?&?). rewrite Hsf.
    assert (cmd =? KCP_CMD_ACK = false) as ->.
    { unfold is_syn_fin in Hsf. apply orb_true_iff in Hsf as [?|?]; bprop; by subst. }
    cbn [body_bytes payload fst snd app]. rewrite <- ?app_assoc, !load_split. by autorewrite with bytes.
  - destruct Hd as (->&?&?&?&?). cbn [body_bytes payload fst snd app]. rewrite Z.eqb_refl, <- ?app_assoc, !load_split. by autorewrite with bytes.
  - destruct Hd as (Hpp&?&?&?). rewrite Hpp.
    assert (cmd =? KCP_CMD_ACK = false /\ is_syn_fin cmd = false) as [-> ->].
    { unfold is_ping_pong in Hpp. apply orb_true_iff in Hpp as [?|?]; bprop; by subst. }
    cbn [body_bytes payload fst snd app]. rewrite <- ?app_assoc, !load_split. by autorewrite with bytes.
Qed.

(** The first eight bytes and the body of a header on a clean buffer; what is
    left goes to the options. *)
Lemma parse_image h rest :
  header_ok h -> header_size h + Zlength rest < 18446744073709551616 ->
  kcp_proto_parse (header_image h 0 ++ rest) =
  if Z.land (h_opt h) KCP_CMD_OPT =? 0 then OK (h <| h_options := [] |>) rest
  else match parse_options (length rest) rest [] with
       | OK opts rest => OK (h <| h_options := opts |>) rest
       | ERR code => ERR code
       | OOB => OOB
       end.
Proof.
  intros Hok Hlen. pose proof (length_payload h Hok) as [Hp Hr].
  pose proof Hok as (Hsc&Hdc&Hc&Ho&Hf&Hw&Hd).
  pose proof (nibbles _ _ Hc Ho) as Hn. unfold nibbles_ok in Hn. bprop.
  assert (Zlength (header_image h 0 ++ rest) = header_size h + Zlength rest) as HL.
  { rewrite Zlength_app. unfold Zlength at 1. rewrite length_header_image.
    unfold header_size, KCP_HEADER_SIZE, Zlength in *. lia. }
  unfold kcp_proto_parse. rewrite HL. unfold header_image. rewrite Z.lor_0_l.
  rewrite <- !app_assoc. rewrite !load_split.
  rewrite !(load_app 1 [_]) by done. rewrite load_split.
  autorewrite with bytes.
  repeat match goal with H : Z.land _ 15 = _ |- _ => rewrite H; clear H end.
  rewrite parse_body_image; [|done|unfold header_size in Hlen; pose proof (Zlength_nonneg rest);
    unfold header_size; unfold KCP_HEADER_SIZE in *; lia].
  by destruct h.
Qed.

Lemma encode_fst_snd_len h : header_ok h -> (length (snd (payload (h_data h))) = Z.to_nat (fst (payload (h_data h))))%nat.
Proof. intros Hok. destruct (length_payload h Hok). unfold Zlength in *. lia. Qed.

Lemma header_image_roundtrip (h : kcp_proto_header) :
  header_ok h -> Z.land (h_opt h) KCP_CMD_OPT = 0 -> h_options h = [] ->
  exists buffer,
    kcp_proto_header_encode h (replicate (Z.to_nat (header_size h)) 0) = Some (header_size h, buffer) /\
    Zlength buffer = header_size h /\
    kcp_proto_parse buffer = OK h [].
Proof.
  intros Hok Hopt Hnil. pose proof (length_payload h Hok) as [Hp Hr].
  exists (header_image h 0). split_and!.
  - rewrite <- (app_nil_r (replicate _ _)). rewrite encode_image; [|done|].
    + rewrite Hopt. simpl. rewrite app_nil_r. repeat f_equal. unfold header_size, KCP_HEADER_SIZE in *.
      destruct (Z.to_nat _) as [|[|[|[|[|]]]]] eqn:E; try lia. done.
    + unfold Zlength. rewrite length_replicate. unfold header_size, KCP_HEADER_SIZE in *. lia.
  - unfold Zlength. rewrite length_header_image. unfold header_size, KCP_HEADER_SIZE, Zlength in *. lia.
  - pose proof (parse_image h [] Hok) as Hpi. rewrite app_nil_r in Hpi. rewrite Hpi.
    + rewrite Hopt. simpl. destruct h; simpl in *; by subst.
    + rewrite Zlength_nil. unfold header_size, KCP_HEADER_SIZE in *. lia.
Qed.

(** C21: Encoding a header into a zeroed buffer of exactly its size and parsing
    the buffer gives the header back and consumes it all, for every command. *)
Theorem header_roundtrip (h : kcp_proto_header) :
  header_ok h -> Z.land (h_opt h) KCP_CMD_OPT = 0 -> h_options h = [] ->
  exists buffer,
    kcp_proto_header_encode h (replicate (Z.to_nat (header_size h)) 0) = Some (header_size h, buffer) /\
    Zlength buffer = header_size h /\
    kcp_proto_parse buffer = OK h [].
Proof. apply header_image_roundtrip. Qed.

(** The image of the MTU option. *)
Definition option_image (o : kcp_option) : bytes :=
  [opt_tag o; opt_length o] ++ le_split 4 (opt_u64_value o).

Lemma parse_mtu_option o fuel :
  mtu_option_ok o -> (1 < fuel)%nat -> parse_options fuel (option_image o) [] = OK [o] [].
Proof.
  intros (Ht&Hl&Hv) Hf. destruct fuel as [|[|fuel]]; [lia..|].
  destruct o as [tag len v]; cbn in Ht, Hl, Hv. subst.
  unfold option_image. cbn [opt_tag opt_length opt_u64_value app parse_options].
  unfold Zlength. rewrite length_le_split. change (Z.of_nat 4 <? 4) with false.
  cbn match. change (KCP_OPTION_TAG_MTU =? KCP_OPTION_TAG_MTU) with true. cbn match.
  rewrite <- (app_nil_r (le_split 4 v)). rewrite load_split.
  autorewrite with bytes. change (Z.to_nat 4) with (length (le_split 4 v)) at 1.
  rewrite drop_app_length. destruct fuel; done.
Qed.

Lemma encode_mtu_option o buffer old :
  mtu_option_ok o -> length buffer = 32%nat -> length old = 6%nat ->
  encode_options [o] 32 0 (buffer ++ old) = Some (38, buffer ++ option_image o).
Proof.
  intros (Ht&Hl&Hv) Hb Hlo. destruct o as [tag ln v]; cbn in Ht, Hl, Hv. subst.
  cbn [encode_options opt_tag opt_length opt_u64_value]. rewrite Zlength_app. unfold Zlength.
  rewrite Hb, Hlo. change (Z.of_nat 32 + Z.of_nat 6 <? u32 (KCP_HEADER_SIZE + 0 + 4)) with false.
  cbn match. destruct old as [|o1 [|o2 old]]; [done|done|]. simpl in Hlo.
  change (o1 :: o2 :: old) with ([o1; o2] ++ old). rewrite <- Hb at 1.
  rewrite store_app by done. cbn [mbind option_bind].
  change (KCP_OPTION_TAG_MTU =? KCP_OPTION_TAG_MTU) with true. cbn match.
  pose proof (store_app (buffer ++ [u8 KCP_OPTION_TAG_MTU; u8 4]) old [] (le_split 4 (u32 v))) as Hs.
  rewrite length_app, Hb, !app_nil_r, <- !app_assoc in Hs. simpl length in Hs.
  change (32 + 2)%nat with 34%nat in *. rewrite Hs by lia.
  cbn [mbind option_bind].
  unfold option_image. rewrite (u32_small v) by done. done.
Qed.

Lemma syn_image_roundtrip (h : kcp_proto_header) (o : kcp_option) :
  header_ok h -> is_syn_fin (h_cmd h) = true -> h_opt h = KCP_CMD_OPT ->
  h_options h = [o] -> mtu_option_ok o ->
  exists buffer,
    kcp_proto_header_encode h (replicate 38 0) = Some (38, buffer) /\
    Zlength buffer = 38 /\ kcp_proto_parse buffer = OK h [].
Proof.
  intros Hok Hcmd Hopt Hopts Ho. pose proof Hok as (_&_&_&_&_&_&Hd).
  assert (payload (h_data h) = (0, [])) as Hpl.
  { destruct (h_data h); try done. destruct Hd as (_&Hsf&_). by rewrite Hsf in Hcmd. }
  assert (header_size h = 32) as Hsz by (unfold header_size; by rewrite Hpl).
  exists (header_image h 0 ++ option_image o).
  assert (length (header_image h 0) = 32%nat) as Hli by (rewrite length_header_image, Hpl; done).
  split_and!.
  - change (replicate 38 0) with (replicate 32 0 ++ replicate 6 0).
    rewrite encode_image by (done || by rewrite Hsz). rewrite Hopt, Hopts, Hpl. simpl negb. cbn match.
    by apply encode_mtu_option.
  - rewrite Zlength_app. unfold Zlength. rewrite Hli. unfold option_image.
    rewrite length_app, length_le_split. done.
  - rewrite parse_image; [|done|rewrite Hsz; unfold option_image, Zlength; rewrite length_app, length_le_split; simpl; lia].
    rewrite Hopt. simpl Z.land. cbn match. rewrite parse_mtu_option; [|done|].
    + destruct h; cbn in *; by subst.
    + unfold option_image. rewrite length_app. simpl. lia.
Qed.

(** A SYN (or FIN) carrying the MTU option round-trips through the 38-byte
    buffer the handshake code uses. *)
Theorem syn_roundtrip (h : kcp_proto_header) (o : kcp_option) :
  header_ok h -> is_syn_fin (h_cmd h) = true -> h_opt h = KCP_CMD_OPT ->
  h_options h = [o] -> mtu_option_ok o ->
  exists buffer,
    kcp_proto_header_encode h (replicate 38 0) = Some (38, buffer) /\
    Zlength buffer = 38 /\ kcp_proto_parse buffer = OK h [].
Proof. apply syn_image_roundtrip. Qed.

(** Every packet the parser accepts is of 32 bytes or more. *)
Lemma parse_length data h rest : kcp_proto_parse data = OK h rest -> KCP_HEADER_SIZE <= Zlength data.
Proof.
  unfold kcp_proto_parse, KCP_HEADER_SIZE, Zlength. intros H.
  do 5 (apply load_inv in H as [? H]). rewrite !length_drop in *.
  match type of H with context[parse_body ?cmd ?n ?l] => destruct (parse_body cmd n l) eqn:Hb; try discriminate H; clear H end.
  unfold parse_body in Hb. repeat case_match; repeat (apply load_inv in Hb as [? Hb]; rewrite !length_drop in * ); lia.
Qed.

(** A packet without options allocates nothing. *)
Lemma parse_mallocs_none data h rest : kcp_proto_parse data = OK h rest -> h_opt h = 0 -> parse_mallocs data = 0%nat.
Proof.
  intros Hp Ho. unfold kcp_proto_parse in Hp. do 5 (apply load_inv in Hp as [? Hp]).
  match type of Hp with context[parse_body ?cmd ?n ?l] => destruct (parse_body cmd n l) eqn:Hb; try discriminate Hp; clear Hb end.
  unfold parse_mallocs. rewrite !length_drop in *. rewrite !drop_drop in Hp. cbn [Nat.add] in Hp.
  assert (le_combine (take 1 (drop 4 data)) = nth 4 data 0) as Hn.
  { clear -H H0 H1 H2. do 5 (destruct data as [|? data]; [cbn [length] in *; lia|]). cbn [nth]. rewrite !skipn_cons, skipn_O, firstn_cons, firstn_O. change (z3 + 256 * 0 = z3). lia. }
  rewrite Hn in Hp. destruct (Z.land (Z.land (Z.shiftr (nth 4 data 0) 4) 15) KCP_CMD_OPT =? 0) eqn:E; [done|].
  destruct (parse_options _ _ _) as [opts rest'| |]; try discriminate Hp. injection Hp as <- _. cbn in Ho. rewrite Ho in E. done.
Qed.

(** ** Streams of segments *)

(** What the sender's fields must satisfy for [kcp_segment_encode] to be exact. *)
Definition segment_ok (s : kcp_segment) : Prop :=
  is_u16 (sg_scid s) /\ is_u16 (sg_dcid s) /\ sg_cmd s = KCP_CMD_PUSH /\ is_u8 (sg_frg s) /\
  is_u16 (sg_wnd s) /\ is_u64 (sg_ts s) /\ is_u32 (sg_sn s) /\ is_u32 (sg_psn s) /\
  is_u32 (sg_una s) /\ sg_len s = Zlength (sg_data s) /\
  sg_len s < 4294967296 - KCP_HEADER_SIZE.

(** The header the receiver sees. *)
Definition segment_header (s : kcp_segment) : kcp_proto_header :=
  KcpProtoHeader (sg_scid s) (sg_dcid s) (sg_cmd s) 0 (sg_frg s) (sg_wnd s)
    (packet_data (sg_ts s) (sg_sn s) (sg_psn s) (sg_una s) (sg_len s) (sg_data s)) [].

Lemma segment_header_ok s : segment_ok s -> header_ok (segment_header s).
Proof.
  intros (?&?&Hc&?&?&?&?&?&?&?&?). unfold header_ok, segment_header. cbn.
  rewrite Hc. split_and!; auto; done || (unfold KCP_CMD_PUSH; lia).
Qed.

Lemma segment_header_size s : segment_ok s -> header_size (segment_header s) = KCP_HEADER_SIZE + sg_len s.
Proof. done. Qed.

Lemma kcp_segment_encode_image s size :
  segment_ok s -> KCP_HEADER_SIZE + sg_len s <= size ->
  kcp_segment_encode s size = inl (header_image (segment_header s) 0).
Proof.
  intros Hok Hs. pose proof Hok as (?&?&Hc&?&?&?&?&?&?&Hl&?). pose proof (Zlength_nonneg (sg_data s)).
  unfold kcp_segment_encode. unfold KCP_HEADER_SIZE in *. rewrite u32_small by lia.
  destruct (Z.ltb_spec size (32 + sg_len s)); [lia|]. f_equal.
  unfold header_image, segment_header. cbn. rewrite Z.lor_0_r.
  rewrite (u8_small (sg_frg s)) by done.
  assert (u8 (sg_cmd s) = sg_cmd s) as -> by (rewrite Hc; done). rewrite <- ?app_assoc. done.
Qed.

(** The receive loop of kcp_parse_packet on the bytes of a datagram: headers are
    parsed until nothing remains.  [None]: an error or a load out of bounds. *)
Fixpoint parse_stream (fuel : nat) (data : bytes) : option (list kcp_proto_header) :=
  match data, fuel with
  | [], _ => Some []
  | _, O => None
  | _, S fuel =>
      match kcp_proto_parse data with
      | OK h rest => hs ← parse_stream fuel rest; Some (h :: hs)
      | _ => None
      end
  end.

(** What one [sendmsg] of the flush loop puts on the wire: each segment encoded in
    turn, or the first error. *)
Fixpoint encode_stream (segments : list kcp_segment) : bytes + Z :=
  match segments with
  | [] => inl []
  | s :: segments =>
      match kcp_segment_encode s (u32 (KCP_HEADER_SIZE + sg_len s)), encode_stream segments with
      | inl bs, inl rest => inl (bs ++ rest)
      | inr e, _ => inr e
      | _, inr e => inr e
      end
  end.

Definition segments_size (segments : list kcp_segment) : Z :=
  Zsum (map (fun s => KCP_HEADER_SIZE + sg_len s) segments).

Lemma segments_size_nonneg segments : Forall segment_ok segments -> 0 <= segments_size segments.
Proof.
  unfold segments_size, KCP_HEADER_SIZE. induction 1 as [|s l Hs _ IH]; simpl; [lia|].
  destruct Hs as (_&_&_&_&_&_&_&_&_&Hl&_). pose proof (Zlength_nonneg (sg_data s)). lia.
Qed.

(** C22: A datagram of several PUSH segments parses back into exactly these
    segments, in order, with nothing left: the packing of the flush loop loses and
    reorders nothing. *)
Theorem segments_roundtrip (segments : list kcp_segment) (fuel : nat) :
  Forall segment_ok segments -> segments_size segments < 18446744073709551616 ->
  (length segments <= fuel)%nat ->
  exists data, encode_stream segments = inl data /\ Zlength data = segments_size segments /\
    parse_stream fuel data = Some (map segment_header segments).
Proof.
  intros Hall. revert fuel. induction Hall as [|s l Hs Hl IH]; intros fuel Hsz Hf.
  { exists []. split_and!; [done..|]. by destruct fuel. }
  pose proof Hs as (_&_&_&_&_&_&_&_&_&Hlen&Hmax). pose proof (Zlength_nonneg (sg_data s)).
  pose proof (segments_size_nonneg _ Hl) as Hnn.
  unfold segments_size in *. cbn [map Zsum length] in *. unfold KCP_HEADER_SIZE in *.
  destruct fuel as [|fuel]; [lia|].
  destruct (IH fuel ltac:(lia) ltac:(lia)) as (data&He&Hd&Hp).
  exists (header_image (segment_header s) 0 ++ data). split_and!.
  - cbn [encode_stream]. rewrite He. rewrite u32_small by (unfold KCP_HEADER_SIZE; lia).
    rewrite kcp_segment_encode_image by (done || unfold KCP_HEADER_SIZE; lia). done.
  - rewrite Zlength_app, Hd. f_equal. unfold Zlength. rewrite length_header_image.
    cbn [segment_header h_data payload snd]. rewrite length_take. unfold Zlength in *. lia.
  - cbn [parse_stream].
    destruct (header_image (segment_header s) 0 ++ data) eqn:E.
    { apply (f_equal length) in E. rewrite length_app, length_header_image in E. simpl in E. lia. }
    rewrite <- E. rewrite parse_image.
    + change (Z.land (h_opt (segment_header s)) KCP_CMD_OPT =? 0) with true. cbv iota beta.
      by rewrite Hp.
    + by apply segment_header_ok.
    + rewrite segment_header_size by done. unfold KCP_HEADER_SIZE. lia.
Qed.

(** ** Parsing arbitrary datagrams *)

Lemma load_ok {A} n data (k : Z -> bytes -> parsed A) :
  (n <= length data)%nat -> load n data k = k (le_combine (take n data)) (drop n data).
Proof. intros. unfold load. destruct (Nat.ltb_spec (length data) n); [lia|done]. Qed.

(** The field of [n] bytes at offset [a]. *)
Definition field (data : bytes) (a n : nat) : Z := le_combine (take n (drop a data)).

Lemma field_range data a n :
  bytes_ok data -> 0 <= field data a n < 256 ^ Z.of_nat n.
Proof.
  intros Hb. assert (bytes_ok (take n (drop a data))) as Hbk by (by apply Forall_take, Forall_drop).
  apply le_combine_range in Hbk. unfold field, Zlength in *. rewrite length_take in Hbk.
  split; [lia|]. eapply Z.lt_le_trans; [apply Hbk|]. apply Z.pow_le_mono_r; lia.
Qed.

Lemma field_u32 data a : bytes_ok data -> is_u32 (field data a 4).
Proof. apply field_range. Qed.
Lemma field_u64 data a : bytes_ok data -> is_u64 (field data a 8).
Proof. apply field_range. Qed.

(** What the parser reads of a body of at least 24 bytes. *)
Definition body_fields (cmd data_size : Z) (rest : bytes) : parsed header_data :=
  let f := field rest in
  let tl := drop 24 rest in
  if cmd =? KCP_CMD_ACK then OK (ack_data (f 0 8) (f 8 8) (f 16 4) (f 20 4))%nat tl
  else if is_syn_fin cmd then OK (syn_fin_data (f 0 8) (f 8 8) (f 16 4) (f 20 4))%nat tl
  else if is_ping_pong cmd then OK (ping_data (f 0 8) (f 8 8) (f 16 8))%nat tl
  else
    let len := (f 20 4)%nat in
    if u64 (data_size - KCP_HEADER_SIZE) <? len then ERR INVALID_KCP_HEADER
    else if (length tl <? Z.to_nat len)%nat then OOB
    else OK (packet_data (f 0 8) (f 8 4) (f 12 4) (f 16 4) len (take (Z.to_nat len) tl))%nat
            (drop (Z.to_nat len) tl).

Lemma parse_body_fields cmd data_size rest :
  (24 <= length rest)%nat -> parse_body cmd data_size rest = body_fields cmd data_size rest.
Proof.
  intros Hlen. unfold parse_body, body_fields, field.
  do 3 (case_match; [repeat (rewrite load_ok by (rewrite ?length_drop; lia)); by rewrite ?drop_drop, ?drop_0|]).
  repeat (rewrite load_ok by (rewrite ?length_drop; lia)). by rewrite ?drop_drop, ?drop_0.
Qed.

Lemma body_fields_safe cmd rest :
  (24 <= length rest)%nat -> Zlength rest + 8 < 4294967296 -> bytes_ok rest ->
  match body_fields cmd (Zlength rest + 8) rest with
  | OK d rest' => data_ok cmd d /\ rest' = drop (24 + Z.to_nat (fst (payload d))) rest /\
                  24 + fst (payload d) <= Zlength rest
  | ERR code => code = INVALID_KCP_HEADER /\ Zlength rest < 24 + field rest 20 4
  | OOB => False
  end.
Proof.
  intros Hlen Hmax Hb. pose proof (fun a => field_u32 rest a Hb) as H4.
  pose proof (fun a => field_u64 rest a Hb) as H8. unfold body_fields, KCP_HEADER_SIZE.
  destruct (cmd =? KCP_CMD_ACK) eqn:Ea; [|destruct (is_syn_fin cmd) eqn:Es; [|destruct (is_ping_pong cmd) eqn:Ep]].
  1-3: bprop; unfold Zlength in *; split_and!; simpl; auto; lia.
  pose proof (H4 20%nat). set (len := field rest 20 4) in *. bprop.
  rewrite u64_small by (unfold Zlength in *; lia). rewrite length_drop.
  destruct (Z.ltb_spec (Zlength rest + 8 - 32) len) as [|Hlt]; [split; [done|lia]|].
  destruct (Nat.ltb_spec (length rest - 24) (Z.to_nat len)) as [|]; [unfold Zlength in *; lia|].
  assert (len = Zlength (take (Z.to_nat len) (drop 24 rest))) as Hl.
  { unfold Zlength. rewrite length_take, length_drop. unfold Zlength in *. lia. }
  cbn [payload fst data_ok]. rewrite drop_drop. unfold KCP_HEADER_SIZE, Zlength in *.
  split_and!; try done; try apply H4; try apply H8; try lia.
Qed.

Lemma nth_field data a : (a < length data)%nat -> nth a data 0 = field data a 1.
Proof.
  intros Ha. destruct (lookup_lt_is_Some_2 data a Ha) as [b Hb].
  unfold field. rewrite (drop_S _ _ _ Hb). simpl take. rewrite le_combine_1.
  by apply nth_lookup_Some.
Qed.

(** The parser on any datagram of at least 32 bytes whose first header has no
    option bit: it never reads past the datagram; it accepts a header only when
    the payload it announces fits, and then consumes exactly the header and the
    payload; otherwise it answers INVALID_KCP_HEADER. *)
Theorem parse_total (data : bytes) :
  bytes_ok data -> KCP_HEADER_SIZE <= Zlength data < 4294967296 ->
  Z.land (Z.shiftr (nth 4 data 0) 4) 15 = 0 ->
  match kcp_proto_parse data with
  | OK h rest => header_ok h /\ h_options h = [] /\
                 rest = drop (Z.to_nat (header_size h)) data /\ header_size h <= Zlength data
  | ERR code => code = INVALID_KCP_HEADER
  | OOB => False
  end.
Proof.
  intros Hb [Hmin Hmax] Hopt. unfold KCP_HEADER_SIZE in Hmin.
  assert (nth 4 data 0 = field data 4 1) as Hcmd by (apply nth_field; unfold Zlength in *; lia).
  pose proof (fun a n => field_range data a n Hb) as Hf. rewrite Hcmd in Hopt.
  unfold kcp_proto_parse.
  repeat (rewrite load_ok by (rewrite ?length_drop; unfold Zlength in *; lia)).
  rewrite !drop_drop. cbn [Nat.add].
  fold (field data 2 2) (field data 4 1) (field data 5 1) (field data 6 2).
  change (le_combine (take 2 data)) with (field data 0 2). rewrite Hopt.
  rewrite parse_body_fields by (rewrite length_drop; unfold Zlength in *; lia).
  set (cmd := Z.land (field data 4 1) 15).
  assert (0 <= cmd < 16) as Hc by (unfold cmd; change 15 with (Z.ones 4); rewrite Z.land_ones by lia; zlia).
  assert (Zlength data = Zlength (drop 8 data) + 8) as Hl
    by (unfold Zlength in *; rewrite length_drop; lia).
  pose proof (body_fields_safe cmd (drop 8 data)) as Hs.
  rewrite Hl. specialize (Hs ltac:(unfold Zlength in *; lia) ltac:(lia) ltac:(by apply Forall_drop)).
  destruct (body_fields _ _ _) as [d rest|code|]; [|by destruct Hs|done].
  destruct Hs as (Hd & -> & Hle). unfold header_ok, header_size. cbn.
  rewrite drop_drop, <- Hl. unfold KCP_HEADER_SIZE.
  pose proof (Hf 0%nat 2%nat). pose proof (Hf 2%nat 2%nat). pose proof (Hf 5%nat 1%nat).
  pose proof (Hf 6%nat 2%nat).
  assert (0 <= fst (payload d)).
  { destruct d; simpl in Hd |- *; try lia. destruct Hd as (_&_&_&_&_&_&_&->&_). apply Zlength_nonneg. }
  change (256 ^ Z.of_nat 2) with 65536 in *. change (256 ^ Z.of_nat 1) with 256 in *.
  split_and!; cbn; try done; try (f_equal; lia); lia.
Qed.

(** ** A header buffer used twice *)

(** What a receiver sees of the window probe [h] written over an ACK: the or-ed
    command is a heartbeat, whose fields overlay those of the probe. *)
Definition seen_as_ping (h : kcp_proto_header) : kcp_proto_header :=
  match h_data h with
  | packet_data ts sn psn una len _ =>
      h <| h_cmd := Z.lor KCP_CMD_ACK (h_cmd h) |>
        <| h_data := ping_data ts (sn + 4294967296 * psn) (una + 4294967296 * len) |>
  | _ => h
  end.

Lemma seen_as_ping_image h :
  header_ok h -> (h_cmd h = KCP_CMD_WASK \/ h_cmd h = KCP_CMD_WINS) -> h_opt h = 0 ->
  header_size h = KCP_HEADER_SIZE ->
  header_image h KCP_CMD_ACK = header_image (seen_as_ping h) 0 /\ header_ok (seen_as_ping h) /\
  header_size (seen_as_ping h) = KCP_HEADER_SIZE /\ h_opt (seen_as_ping h) = 0.
Proof.
  intros Hok Hc Ho Hs. pose proof Hok as (?&?&_&_&?&?&Hd). unfold seen_as_ping.
  destruct (h_data h) eqn:E.
  2-4: exfalso; destruct Hc as [Hc|Hc]; rewrite Hc in Hd; destruct Hd as [Hd _]; done.
  unfold header_size, KCP_HEADER_SIZE in *. rewrite E in Hs. cbn in Hs.
  destruct Hd as (_&_&_&Hts&Hsn&Hpsn&Huna&Hl&_).
  assert (len = 0) as -> by lia. symmetry in Hl.
  unfold header_image, header_ok. cbn. rewrite E, Ho. cbn. rewrite <- !(le_split_pair _ _) by done.
  rewrite <- !app_assoc, ?app_nil_r. split_and!; try done; try (destruct Hc as [-> | ->]; done); lia.
Qed.

(** C40: [kcp_proto_header_encode] or-s the command into its buffer, so a
    window probe (WASK) or answer (WINS) encoded over an ACK in a reused buffer
    reaches the peer as a PING or PONG: the parser returns that header, whose
    heartbeat fields are the probe's fields read as 64-bit words. *)
Theorem reused_header_buffer (ack h : kcp_proto_header) :
  header_ok ack -> h_cmd ack = KCP_CMD_ACK -> h_opt ack = 0 ->
  header_ok h -> (h_cmd h = KCP_CMD_WASK \/ h_cmd h = KCP_CMD_WINS) ->
  h_opt h = 0 -> h_options h = [] -> header_size h = KCP_HEADER_SIZE ->
  exists buffer1 buffer2,
    kcp_proto_header_encode ack (replicate 32 0) = Some (KCP_HEADER_SIZE, buffer1) /\
    kcp_proto_header_encode h buffer1 = Some (KCP_HEADER_SIZE, buffer2) /\
    kcp_proto_parse buffer2 = OK (seen_as_ping h) [] /\
    h_cmd (seen_as_ping h) = (if h_cmd h =? KCP_CMD_WASK then KCP_CMD_PING else KCP_CMD_PONG).
Proof.
  intros Haok Hack Hao Hok Hc Ho Hopts Hs.
  assert (payload (h_data ack) = (0, [])) as Hp.
  { destruct Haok as (_&_&_&_&_&_&Hd). destruct (h_data ack); try done. by destruct Hd. }
  assert (header_size ack = 32) as Has by (unfold header_size; by rewrite Hp).
  assert (length (header_image ack 0) = 32%nat) as Hl by (rewrite length_header_image, Hp; done).
  assert (length (header_image h KCP_CMD_ACK) = 32%nat) as Hl2.
  { rewrite length_header_image, encode_fst_snd_len by done.
    unfold header_size, KCP_HEADER_SIZE in *. lia. }
  exists (header_image ack 0), (header_image h KCP_CMD_ACK). split_and!.
  - rewrite <- (app_nil_r (replicate 32 0)), encode_image by (done || by rewrite Has).
    rewrite Hao, Has, app_nil_r. done.
  - rewrite <- (app_nil_r (header_image ack 0)), encode_image;
      [|done|unfold Zlength; rewrite Hl, Hs; done].
    rewrite Ho, Hs, app_nil_r. cbn [Z.land Z.eqb negb].
    replace (nth 4 (header_image ack 0) 0) with KCP_CMD_ACK; [done|].
    unfold header_image. rewrite app_assoc, app_nth2; rewrite length_app, !length_le_split; [|lia].
    simpl. by rewrite Hack, Hao.
  - destruct (seen_as_ping_image h Hok Hc Ho Hs) as (->&Hpok&Hps&Hpo).
    rewrite <- (app_nil_r (header_image _ 0)), parse_image; [|done|rewrite Hps; done].
    rewrite Hpo. cbn [Z.land Z.eqb]. unfold seen_as_ping. destruct h as [? ? ? ? ? ? d ?]; cbn in *.
    destruct d; cbn; by subst.
  - unfold seen_as_ping. destruct Hok as (_&_&_&_&_&_&Hd).
    destruct (h_data h); [|by destruct Hc as [Hc|Hc]; rewrite Hc in Hd; destruct Hd..].
    cbn. by destruct Hc as [-> | ->].
Qed.

(** ** At concrete headers *)

Definition ack_header_example : kcp_proto_header :=
  KcpProtoHeader 7 9 KCP_CMD_ACK 0 0 128 (ack_data 1000 2000 5 6) [].
Definition probe_header_example : kcp_proto_header :=
  KcpProtoHeader 7 9 KCP_CMD_WASK 0 0 128 (packet_data 3000 5 2 6 0 []) [].
Definition syn_header_example : kcp_proto_header :=
  KcpProtoHeader 7 0 KCP_CMD_SYN KCP_CMD_OPT 0 0 (syn_fin_data 1000 0 0 77)
    [KcpOption KCP_OPTION_TAG_MTU 4 1400].
Definition push_segment (sn frg : Z) (data : bytes) : kcp_segment :=
  KcpSegment 7 9 KCP_CMD_PUSH frg 128 1000 sn sn 0 (Zlength data) 200 0 0 0 0 0 data.

Lemma header_roundtrip_witness :
  exists buffer, kcp_proto_header_encode ack_header_example (replicate 32 0) = Some (32, buffer) /\
    Zlength buffer = 32 /\ kcp_proto_parse buffer = OK ack_header_example [].
Proof. apply (header_roundtrip ack_header_example); [repeat split; done|done|done]. Defined.

Lemma syn_roundtrip_witness :
  exists buffer, kcp_proto_header_encode syn_header_example (replicate 38 0) = Some (38, buffer) /\
    Zlength buffer = 38 /\ kcp_proto_parse buffer = OK syn_header_example [].
Proof.
  apply (syn_roundtrip syn_header_example (KcpOption KCP_OPTION_TAG_MTU 4 1400));
    try done; repeat split; done.
Defined.

Lemma segments_roundtrip_witness :
  exists data, encode_stream [push_segment 3 1 [1; 2; 3]; push_segment 4 0 [9]] = inl data /\
    Zlength data = 68 /\
    parse_stream 2 data =
      Some [segment_header (push_segment 3 1 [1; 2; 3]); segment_header (push_segment 4 0 [9])].
Proof.
  apply (segments_roundtrip [push_segment 3 1 [1; 2; 3]; push_segment 4 0 [9]] 2);
    [repeat constructor; done|done|done].
Defined.

Lemma parse_total_witness :
  match kcp_proto_parse (replicate 40 0) with
  | OK h rest => header_ok h /\ h_options h = [] /\
                 rest = drop (Z.to_nat (header_size h)) (replicate 40 0) /\ header_size h <= 40
  | ERR code => code = INVALID_KCP_HEADER
  | OOB => False
  end.
Proof. apply (parse_total (replicate 40 0)); [repeat constructor; done|done|done]. Defined.

Lemma reused_header_buffer_witness :
  exists buffer1 buffer2,
    kcp_proto_header_encode ack_header_example (replicate 32 0) = Some (KCP_HEADER_SIZE, buffer1) /\
    kcp_proto_header_encode probe_header_example buffer1 = Some (KCP_HEADER_SIZE, buffer2) /\
    kcp_proto_parse buffer2 = OK (seen_as_ping probe_header_example) [] /\
    h_cmd (seen_as_ping probe_header_example) = KCP_CMD_PING.
Proof.
  apply (reused_header_buffer ack_header_example probe_header_example);
    try done; try (left; done); repeat split; done.
Defined.
