(* ===== verification/Types.v ===== *)
(** * Types: the connection of kcp_protocol.h

    [kcp_connection] is [struct KcpConnection] with the C names; the BBR state,
    the ping context and the MTU probe context are records of their own.  An
    intrusive list is the list of the structs it links, [list_add_tail] an append.
    A segment object is its fields and the [len] significant bytes of [data].
    The packet assemblies are owned by [rcv_packet_list]; the index [rcv_packet]
    holds their [psn], which is their address.  [k_self] is the address of the
    struct, what the callbacks receive.

    Left out: [ts_recent], [ts_lastack], [current], [updated], [nsnd_pkt_next],
    [syn_fin_sn], [ack_unused] and [syn_node], which are only initialised, and the
    links [node_rbtree] and [node_list], which the set and the write queue of the
    context hold. *)

From S2P Require Import Prelude RbTree Bytes Config Wire.

(** [sockaddr_t]: the members of the union [sockaddr_equal] reads. *)
Inductive sockaddr :=
| sin (port s_addr : Z)
| sin6 (port : Z) (s6_addr : bytes)
| sa_other (family : Z).

#[export] Instance sockaddr_eq_dec : EqDecision sockaddr.
Proof. solve_decision. Defined.

(** The family is [AF_INET6]. *)
Definition is_inet6 (a : sockaddr) : bool := match a with sin6 _ _ => true | _ => false end.

(** A libevent timer: no event, an event that is not pending, a pending one with
    the milliseconds given to [evtimer_add]. *)
Inductive timer := timer_null | timer_idle | timer_pending (ms : Z).

#[export] Instance timer_eq_dec : EqDecision timer.
Proof. solve_decision. Defined.

Record kcp_ack := KcpAck { ack_sn : Z; ack_psn : Z; ack_ts : Z }.

Record kcp_packet_assembly := KcpPacketAssembly {
  pk_psn : Z;
  pk_start_sn : Z;
  pk_expected_frags : Z;        (* uint16_t *)
  pk_received_frags : Z;        (* uint16_t *)
  pk_total_size : Z;            (* int32_t *)
  pk_has_head : bool;
  pk_fragments : list kcp_segment;
}.
#[export] Instance eta_packet : Eta kcp_packet_assembly :=
  fun p => KcpPacketAssembly (pk_psn p) (pk_start_sn p) (pk_expected_frags p)
    (pk_received_frags p) (pk_total_size p) (pk_has_head p) (pk_fragments p).

Record bbr_state := BbrState {
  bbr_mode : kcp_bbr_mode;
  bbr_cycle_idx : Z;            (* uint8_t *)
  bbr_full_bw_cnt : Z;          (* uint8_t *)
  bbr_filled_pipe : bool;
  bbr_bw_filter : list Z;       (* uint64_t [KCP_BBR_BW_FILTER_LEN] *)
  bbr_bw_filter_idx : Z;        (* uint8_t *)
  bbr_btlbw : Z;                (* uint64_t, bytes/s *)
  bbr_full_bw : Z;
  bbr_min_rtt_us : Z;           (* uint32_t *)
  bbr_min_rtt_stamp : Z;
  bbr_probe_rtt_done_stamp : Z;
  bbr_cycle_stamp : Z;
  bbr_delivered : Z;
  bbr_delivered_ts : Z;
  bbr_pacing_gain_num : Z;      (* uint32_t *)
  bbr_cwnd_gain_num : Z;        (* uint32_t *)
  bbr_target_cwnd : Z;          (* uint32_t *)
  bbr_pacing_rate : Z;
  bbr_pacing_credit : Z;
  bbr_last_send_ts : Z;
}.
#[export] Instance eta_bbr : Eta bbr_state :=
  fun b => BbrState (bbr_mode b) (bbr_cycle_idx b) (bbr_full_bw_cnt b) (bbr_filled_pipe b)
    (bbr_bw_filter b) (bbr_bw_filter_idx b) (bbr_btlbw b) (bbr_full_bw b) (bbr_min_rtt_us b)
    (bbr_min_rtt_stamp b) (bbr_probe_rtt_done_stamp b) (bbr_cycle_stamp b) (bbr_delivered b)
    (bbr_delivered_ts b) (bbr_pacing_gain_num b) (bbr_cwnd_gain_num b) (bbr_target_cwnd b)
    (bbr_pacing_rate b) (bbr_pacing_credit b) (bbr_last_send_ts b).

(** [ping_session_t] and [ping_ctx_t]. *)
Record ping_session := PingSession { packet_sn : Z; packet_ts : Z }.

Record ping_ctx := PingCtx {
  keepalive_timeout : Z;        (* uint32_t *)
  keepalive_interval : Z;       (* uint32_t *)
  keepalive_next_ts : Z;        (* uint64_t *)
  keepalive_retries : Z;        (* uint16_t *)
  keepalive_xretries : Z;       (* uint16_t *)
  keepalive_rtt : Z;            (* uint32_t *)
  keepalive_sn : Z;             (* uint64_t *)
  keepalive_packet_ts : Z;      (* uint64_t *)
  ping_request_queue : list ping_session;
}.
#[export] Instance eta_ping_ctx : Eta ping_ctx :=
  fun p => PingCtx (keepalive_timeout p) (keepalive_interval p) (keepalive_next_ts p)
    (keepalive_retries p) (keepalive_xretries p) (keepalive_rtt p) (keepalive_sn p)
    (keepalive_packet_ts p) (ping_request_queue p).

Record mtu_probe_ctx := MtuProbeCtx {
  probe_timeout_event : timer;
  mtu_current : Z;              (* uint32_t *)
  mtu_lbound : Z;               (* uint32_t *)
  mtu_ubound : Z;               (* uint32_t *)
  mtu_timeout : Z;              (* uint32_t timeout *)
  mtu_retries : Z;              (* uint16_t retries *)
  mtu_prev_sn : Z;              (* uint32_t prev_sn *)
  mtu_hash : Z;                 (* uint64_t hash *)
  probe_buf : bytes;            (* KCP_HEADER_SIZE + ETHERNET_MTU *)
}.
#[export] Instance eta_mtu_probe_ctx : Eta mtu_probe_ctx :=
  fun m => MtuProbeCtx (probe_timeout_event m) (mtu_current m) (mtu_lbound m) (mtu_ubound m)
    (mtu_timeout m) (mtu_retries m) (mtu_prev_sn m) (mtu_hash m) (probe_buf m).

Record kcp_connection := KcpConnection {
  k_self : Z;
  scid : Z; dcid : Z; mtu : Z; mss : Z; mss_min : Z;
  snd_una : Z; snd_nxt : Z; rcv_nxt : Z; psn_nxt : Z;
  ts_flush : Z;
  rx_rttval : Z; rx_srtt : Z; rx_rto : Z; rx_minrto : Z;
  snd_wnd : Z; rcv_wnd : Z; rmt_wnd : Z; cwnd : Z; probe : Z;
  nodelay : Z;
  win_ts_probe : Z; probe_wait : Z;
  interval : Z;
  nrcv_buf : Z; nsnd_buf : Z; nsnd_buf_unused : Z; nrcv_buf_unused : Z;
  nrcv_que : Z; nsnd_que : Z; rcv_queue_bytes : Z;
  incr : Z;
  bbr : bbr_state;
  snd_queue : list kcp_segment; snd_buf : list kcp_segment; snd_buf_unused : list kcp_segment;
  rcv_queue : list kcp_segment; rcv_buf : tree kcp_segment; rcv_packet : tree Z;
  rcv_packet_list : list kcp_packet_assembly; rcv_buf_unused : list kcp_segment;
  ack_item : list kcp_ack;
  fastresend : Z; fastlimit : Z; nocwnd : Z;
  syn_timer_event : timer; fin_timer_event : timer; need_write_timer_event : bool;
  state : kcp_connection_state;
  receive_timeout : Z; syn_retries : Z; fin_retries : Z;
  remote_host : sockaddr; candidates : list sockaddr; selected_candidate_index : Z;
  kcp_proto_header_list : list kcp_proto_header;
  mtu_probe : mtu_probe_ctx;
  ping : ping_ctx;
  read_event_cb : bool; write_event_cb : bool; user_data : Z;
  ping_count : Z; pong_count : Z; tx_bytes : Z; rtx_bytes : Z;
}.
#[export] Instance eta_kcp_connection : Eta kcp_connection :=
  fun c => KcpConnection (k_self c) (scid c) (dcid c) (mtu c) (mss c) (mss_min c)
    (snd_una c) (snd_nxt c) (rcv_nxt c) (psn_nxt c) (ts_flush c)
    (rx_rttval c) (rx_srtt c) (rx_rto c) (rx_minrto c)
    (snd_wnd c) (rcv_wnd c) (rmt_wnd c) (cwnd c) (probe c) (nodelay c)
    (win_ts_probe c) (probe_wait c) (interval c)
    (nrcv_buf c) (nsnd_buf c) (nsnd_buf_unused c) (nrcv_buf_unused c)
    (nrcv_que c) (nsnd_que c) (rcv_queue_bytes c) (incr c) (bbr c)
    (snd_queue c) (snd_buf c) (snd_buf_unused c) (rcv_queue c) (rcv_buf c) (rcv_packet c)
    (rcv_packet_list c) (rcv_buf_unused c) (ack_item c) (fastresend c) (fastlimit c) (nocwnd c)
    (syn_timer_event c) (fin_timer_event c) (need_write_timer_event c) (state c)
    (receive_timeout c) (syn_retries c) (fin_retries c) (remote_host c) (candidates c)
    (selected_candidate_index c) (kcp_proto_header_list c) (mtu_probe c) (ping c)
    (read_event_cb c) (write_event_cb c) (user_data c)
    (ping_count c) (pong_count c) (tx_bytes c) (rtx_bytes c).

(** [conn->bbr_f = v] and the same for the two contexts. *)
Notation "c <| f '/' g := v |>" := (set_field f (set_field g (fun _ => v)) c)
  (at level 1, f at next level, g at next level, v at level 200, left associativity) : kcp_scope.
Notation "c <| f '/' g ::= h |>" := (set_field f (set_field g h) c)
  (at level 1, f at next level, g at next level, h at level 200, left associativity) : kcp_scope.

(** The zeroed memory [kcp_accept] initialises; the
    enums have no member 0 and get their first one, which
    [kcp_connection_init] overwrites. *)
Definition zero_bbr : bbr_state :=
  BbrState KCP_BBR_STARTUP 0 0 false (replicate KCP_BBR_BW_FILTER_LEN 0) 0 0 0 0 0 0 0 0 0 0 0 0 0 0 0.
Definition zero_mtu_probe : mtu_probe_ctx := MtuProbeCtx timer_null 0 0 0 0 0 0 0 [].
Definition zero_ping : ping_ctx := PingCtx 0 0 0 0 0 0 0 0 [].
Definition zero_connection : kcp_connection :=
  KcpConnection 0 0 0 0 0 0 0 0 0 0 0 0 0 0 0 0 0 0 0 0 0 0 0 0 0 0 0 0 0 0 0 0 zero_bbr
    [] [] [] [] Leaf Leaf [] [] [] 0 0 0 timer_null timer_null false KCP_STATE_DISCONNECTED
    0 0 0 (sin 0 0) [] 0 [] zero_mtu_probe zero_ping false false 0 0 0 0 0.
