(* ===== verification/World.v ===== *)
(** * World: the effects of the C code

    The code runs against a clock, an allocator, a socket, a random source and
    the callbacks of its user.  [env] holds what these will answer, as lists
    consumed from the front (an exhausted list answers the default: no time
    passes, memory is available and zero, the kernel accepts the datagram), and the trace
    of what the code did to them.  [ST S A] is a computation on a state [S];
    [None] is undefined behaviour (a NULL or freed pointer, a load or a store out
    of bounds, a division by zero) or a loop that does not end.

    Two things that stop some builds and not others are recorded as flaws of the
    environment, and the computation goes on as the default build does: an assertion
    that is false, which RelWithDebInfo and Release compile out and a Debug build
    aborts at, and a signed operation whose result is not an int32_t, which C leaves
    undefined and the model wraps around.  The signed operations recorded are those on
    numbers of the peer: the times of an ACK, the round trips computed from them, and the
    sizes of what is received.

    A callback of the user is an event of the trace: what the user calls from
    inside it is not modelled, except [on_connect], whose verdict is an argument
    where it is asked for. *)

From S2P Require Import Prelude RbTree Bytes Config Wire Types.

(** ** State, undefined behaviour *)

Definition ST (S A : Type) : Type := S -> option (A * S).

#[export] Instance ST_ret S : MRet (ST S) := fun A a s => Some (a, s).
#[export] Instance ST_bind S : MBind (ST S) :=
  fun A B k m s => match m s with Some (a, s') => k a s' | None => None end.

Definition undefined {S A} : ST S A := fun _ => None.
Definition gets {S A} (f : S -> A) : ST S A := fun s => Some (f s, s).
Definition modify {S} (f : S -> S) : ST S unit := fun s => Some (tt, f s).
Definition when {S} (b : bool) (m : ST S unit) : ST S unit := if b then m else mret tt.
(** A C pointer, dereferenced. *)
Definition deref {S A} (p : option A) : ST S A := fun s => match p with Some a => Some (a, s) | None => None end.

Lemma bind_Some {S A B} (m : ST S A) (k : A -> ST S B) s b s' :
  (m ≫= k) s = Some (b, s') <-> exists a s1, m s = Some (a, s1) /\ k a s1 = Some (b, s').
Proof.
  unfold mbind, ST_bind. destruct (m s) as [[a s1]|]; [|naive_solver].
  split; [eauto|]. by intros (?&?&[= <- <-]&?).
Qed.

Lemma bind_eq {S A B} (m : ST S A) (k : A -> ST S B) s a s1 :
  m s = Some (a, s1) -> (m ≫= k) s = k a s1.
Proof. unfold mbind, ST_bind. by intros ->. Qed.

Lemma bind_assoc {S A B C} (m : ST S A) (k : A -> ST S B) (l : B -> ST S C) s :
  ((m ≫= k) ≫= l) s = (m ≫= fun a => k a ≫= l) s.
Proof. unfold mbind, ST_bind. by destruct (m s) as [[??]|]. Qed.

(** ** The environment *)

(** What the kernel does with a datagram: it accepts it, or fails with an [errno]. *)
Inductive sendmsg_result := Sent | Failed (errno : Z).

Inductive event :=
| Datagram (remote : sockaddr) (data : bytes)     (* accepted by the kernel *)
| OnConnected (conn code : Z)
| OnAccepted (conn code : Z)
| OnClosed (conn code : Z)
| OnError (conn : option Z) (code : Z)
| OnReadEvent (conn size : Z)
| OnWriteEvent (conn space : Z).

(** Where a build may stop: a false [assert], with its line, and a signed
    overflow. *)
Inductive flaw := AssertionFalse (line : Z) | SignedOverflow.
(** The assertions of the code that are not of a pointer. *)
Definition kcpp_c_168 : flaw := AssertionFalse 168.
Definition kcp_mtu_c_264 : flaw := AssertionFalse 264.
Definition kcp_protocol_c_2081 : flaw := AssertionFalse 2081.

Record env := Env {
  e_now : Z;                      (* CLOCK_MONOTONIC in nanoseconds *)
  e_ticks : list Z;               (* nanoseconds before each next reading *)
  e_wall : Z;                     (* time(NULL) *)
  e_malloc : list bool;           (* the next calls of malloc and evtimer_new *)
  e_uninit : list bytes;          (* what the next uninitialised objects hold *)
  e_send : list sendmsg_result;   (* the next datagrams given to the kernel *)
  e_sendmmsg : bool;              (* the build has USE_SENDMMSG *)
  e_random : list (option Z);     (* the next calls of getrandom *)
  e_seed : Z;                     (* getpid() << 7 xor the address of a local << 11 *)
  e_errno : Z;
  e_trace : list event;           (* oldest first *)
  e_flaws : list flaw;            (* oldest first *)
}.
#[export] Instance eta_env : Eta env :=
  fun e => Env (e_now e) (e_ticks e) (e_wall e) (e_malloc e) (e_uninit e) (e_send e) (e_sendmmsg e)
               (e_random e) (e_seed e) (e_errno e) (e_trace e) (e_flaws e).

(** A flaw changes the record of flaws alone. *)
Definition with_flaws (l : list flaw) (e : env) : env := e <| e_flaws ::= (fun k => k ++ l) |>.

(** A computation on a component's state and the environment. *)
Notation io X := (ST (X * env)).

Section Io.
Context {X : Type}.

Definition get : io X X := gets fst.
Definition mods (f : X -> X) : io X unit := modify (fun '(x, e) => (f x, e)).
Definition mode (f : env -> env) : io X unit := modify (fun '(x, e) => (x, f e)).
Definition emit (ev : event) : io X unit := mode (fun e => e <| e_trace ::= (fun t => t ++ [ev]) |>).

Definition flawed (f : flaw) : io X unit := mode (with_flaws [f]).
(** [assert(b)]. *)
Definition assertion (b : bool) (f : flaw) : io X unit := when (negb b) (flawed f).

(** Signed operations whose exact results are [l], done one after the other. *)
Definition in_int32 (z : Z) : bool := (-2147483648 <=? z) && (z <=? 2147483647).
Definition int32_flaws (l : list Z) : list flaw := if forallb in_int32 l then [] else [SignedOverflow].
Definition signed (l : list Z) : io X unit := modify (fun '(x, e) => (x, with_flaws (int32_flaws l) e)).

(** The next answer of a list, [d] when there is none. *)
Definition next {A} (d : A) (l : list A) : A * list A :=
  match l with [] => (d, []) | a :: l => (a, l) end.

Definition clock_gettime : io X Z :=
  fun '(x, e) => let '(d, ticks) := next 0 (e_ticks e) in
                 let now := e_now e + d in
                 Some (now, (x, e <| e_now := now |> <| e_ticks := ticks |>)).

Definition kcp_time_monotonic_ms : io X Z := ns ← clock_gettime; mret (u64 (ns / 1000000)).
Definition kcp_time_monotonic_us : io X Z := ns ← clock_gettime; mret (u64 (ns / 1000)).

Definition malloc : io X bool :=
  fun '(x, e) => let '(b, l) := next true (e_malloc e) in Some (b, (x, e <| e_malloc := l |>)).

(** The contents of an uninitialised object of [n] bytes. *)
Definition uninitialised (n : nat) : io X bytes :=
  fun '(x, e) => let '(l, r) := next [] (e_uninit e) in
                 Some (map u8 (take n (l ++ replicate n 0)), (x, e <| e_uninit := r |>)).

Definition getrandom : io X (option Z) :=
  fun '(x, e) => let '(r, l) := next (Some 0) (e_random e) in Some (r, (x, e <| e_random := l |>)).

Definition get_last_errno : io X Z := gets (fun s => e_errno s.2).

(** libevent: the events the code makes are timers and the two events of the
    socket.  A call on no event is a NULL dereference; [event_add] succeeds. *)
Definition evtimer_new : io X timer := ok ← malloc; mret (if ok : bool then timer_idle else timer_null).
Definition event_del (ev : timer) : io X timer :=
  match ev with timer_null => undefined | _ => mret timer_idle end.
Definition evtimer_add (ev : timer) (ms : Z) : io X timer :=
  match ev with timer_null => undefined | _ => mret (timer_pending ms) end.
End Io.

(** Unfolds the monad and steps to the next effect. *)
Ltac run :=
  unfold mret, ST_ret, mbind, ST_bind, get, gets, mods, signed, modify, mode, emit, when;
  cbv beta iota; cbn [fst snd].

(** ** Total correctness

    [wp m Q s]: from [s], [m] is defined, ends, and its result and final state
    satisfy [Q]. *)

Definition wp {S A} (m : ST S A) (Q : A -> S -> Prop) (s : S) : Prop :=
  match m s with Some (a, s') => Q a s' | None => False end.

Section Wp.
Context {S : Type}.
Implicit Types (s : S).

Lemma wp_ret {A} (a : A) (Q : A -> S -> Prop) s : Q a s -> wp (mret a) Q s.
Proof. done. Qed.

Lemma wp_bind {A B} (m : ST S A) (k : A -> ST S B) (Q : B -> S -> Prop) s :
  wp m (fun a => wp (k a) Q) s -> wp (m ≫= k) Q s.
Proof. unfold wp, mbind, ST_bind. by destruct (m s) as [[a s1]|]. Qed.

Lemma wp_mono {A} (m : ST S A) (Q Q' : A -> S -> Prop) s :
  wp m Q s -> (forall a s', Q a s' -> Q' a s') -> wp m Q' s.
Proof. unfold wp. destruct (m s) as [[a s1]|]; eauto. Qed.

Lemma wp_deref {A} (p : option A) (Q : A -> S -> Prop) s a : p = Some a -> Q a s -> wp (deref p) Q s.
Proof. by intros ->. Qed.

Lemma wp_when (b : bool) (m : ST S unit) Q s :
  (b = true -> wp m Q s) -> (b = false -> Q tt s) -> wp (when b m) Q s.
Proof. destruct b; cbn; auto. Qed.

Lemma wp_run {A} (m : ST S A) Q s a s' : m s = Some (a, s') -> Q a s' -> wp m Q s.
Proof. unfold wp. by intros ->. Qed.

Lemma wp_elim {A} (m : ST S A) Q s : wp m Q s -> exists a s', m s = Some (a, s') /\ Q a s'.
Proof. unfold wp. destruct (m s) as [[a s']|]; [eauto|done]. Qed.

Lemma wp_elim2 {A B} (m : ST (S * B) A) (r : A) (P : S -> B -> Prop) (sb : S * B) :
  wp m (fun a t => a = r /\ P t.1 t.2) sb -> exists x' e', m sb = Some (r, (x', e')) /\ P x' e'.
Proof. unfold wp. destruct (m sb) as [[a [x' e']]|]; [intros [-> ?]; eauto|done]. Qed.

Lemma wp_exists {A B} (m : ST (S * B) A) (P : A -> S -> B -> Prop) (sb : S * B) :
  wp m (fun a t => P a t.1 t.2) sb -> exists a x' e', m sb = Some (a, (x', e')) /\ P a x' e'.
Proof. unfold wp. destruct (m sb) as [[a [x' e']]|]; [eauto 6|done]. Qed.

(** A property that [m] keeps, whatever it returns. *)
Definition keeps {A} (I : S -> Prop) (m : ST S A) : Prop := forall s, I s -> wp m (fun _ => I) s.

Lemma keeps_wp {A} (I : S -> Prop) (m : ST S A) Q s :
  keeps I m -> I s -> (forall a s', I s' -> Q a s') -> wp m Q s.
Proof. intros Hk Hs Hq. eapply wp_mono; [by apply Hk|done]. Qed.

Lemma keeps_ret {A} (I : S -> Prop) (a : A) : keeps I (mret a).
Proof. intros s Hs. done. Qed.

Lemma keeps_bind {A B} (I : S -> Prop) (m : ST S A) (k : A -> ST S B) :
  keeps I m -> (forall a, keeps I (k a)) -> keeps I (m ≫= k).
Proof. intros Hm Hk s Hs. apply wp_bind. eapply keeps_wp; [done..|]. intros a s' Hs'. by apply Hk. Qed.
End Wp.

Section WpIo.
Context {X : Type}.
Implicit Types (x : X) (e : env).

Lemma wp_get (Q : X -> X * env -> Prop) x e : Q x (x, e) -> wp get Q (x, e).
Proof. done. Qed.
Lemma wp_gets {A} (f : X * env -> A) (Q : A -> X * env -> Prop) s : Q (f s) s -> wp (gets f) Q s.
Proof. done. Qed.
Lemma wp_mods (f : X -> X) (Q : unit -> X * env -> Prop) x e : Q tt (f x, e) -> wp (mods f) Q (x, e).
Proof. done. Qed.
Lemma with_flaws_nil e : with_flaws [] e = e.
Proof.
  change (with_flaws [] e) with (e <| e_flaws := e_flaws e ++ [] |>). rewrite app_nil_r. by destruct e.
Qed.
Lemma with_flaws_app l k e : with_flaws k (with_flaws l e) = with_flaws (l ++ k) e.
Proof.
  change (with_flaws k (with_flaws l e)) with (e <| e_flaws := (e_flaws e ++ l) ++ k |>). by rewrite <- app_assoc.
Qed.
Lemma int32_flaws_only l : Forall (fun f => f = SignedOverflow) (int32_flaws l).
Proof. unfold int32_flaws. case_match; by repeat constructor. Qed.
Lemma wp_signed l (Q : unit -> X * env -> Prop) x e : Q tt (x, with_flaws (int32_flaws l) e) -> wp (signed l) Q (x, e).
Proof. done. Qed.
Lemma wp_flawed f (Q : unit -> X * env -> Prop) x e : Q tt (x, with_flaws [f] e) -> wp (flawed f) Q (x, e).
Proof. done. Qed.
Lemma wp_assertion b f (Q : unit -> X * env -> Prop) x e :
  (b = true -> Q tt (x, e)) -> (b = false -> Q tt (x, with_flaws [f] e)) -> wp (assertion b f) Q (x, e).
Proof. destruct b; cbn; auto. Qed.
Lemma wp_emit ev (Q : unit -> X * env -> Prop) x e :
  Q tt (x, e <| e_trace ::= (fun t => t ++ [ev]) |>) -> wp (emit ev) Q (x, e).
Proof. done. Qed.
End WpIo.

(** One step of a computation whose state is a pair. *)
Ltac wp_step :=
  lazymatch goal with
  | |- wp (_ ≫= _) _ _ => apply wp_bind
  | |- wp (mret _) _ _ => apply wp_ret
  | |- wp get _ (_, _) => apply wp_get
  | |- wp (gets _) _ _ => apply wp_gets
  | |- wp (mods _) _ (_, _) => apply wp_mods
  | |- wp (emit _) _ (_, _) => apply wp_emit
  | |- wp (flawed _) _ (_, _) => apply wp_flawed
  | |- wp (signed _) _ (_, _) => apply wp_signed
  | |- wp (assertion _ _) _ (_, _) => apply wp_assertion; intros ?
  | |- wp (when ?b _) _ _ => apply wp_when; intros ?
  | |- wp (if ?b then _ else _) _ _ => destruct b eqn:?
  end.

(** ** Memory is available *)

(** Every coming [malloc] succeeds. *)
Definition memory_available (e : env) : Prop := Forall (fun b => b = true) (e_malloc e).

Lemma malloc_available {X} (x : X) e :
  memory_available e ->
  exists e', malloc (x, e) = Some (true, (x, e')) /\ memory_available e' /\
             e' = e <| e_malloc := tail (e_malloc e) |>.
Proof.
  unfold memory_available, malloc. destruct (e_malloc e) as [|b l] eqn:E; intros H.
  - eexists. split_and!; [done| |done]. cbn. constructor.
  - inversion H; subst. eexists. split_and!; done.
Qed.
