(* ===== verification/Net.v ===== *)
(** * Net: kcp_net_utils.c

    Sending datagrams and drawing random connection ids, on the socket and the
    random source of the environment.  Both Linux branches, with [USE_SENDMMSG], which
    the default build has, and without.
    The descriptor is left out: the environment is the kernel's answer on it.
    The calls that only set a socket option or read an interface are not
    modelled. *)

From S2P Require Import Prelude RbTree Bytes Config Wire Types World.

(** ** Addresses *)

Definition sockaddr_equal (a b : sockaddr) : bool :=
  match a, b with
  | sin p x, sin p' x' => (p =? p') && (x =? x')
  | sin6 p x, sin6 p' x' => (p =? p') && bool_decide (x = x')
  | _, _ => false
  end.

(** ** Sending *)

(** [TEMP_FAILURE_RETRY]: the answers up to the first that is not [EINTR]. *)
Fixpoint retry_interrupted (l : list sendmsg_result) : sendmsg_result * list sendmsg_result :=
  match l with
  | [] => (Sent, [])
  | Failed errno :: l => if errno =? EINTR then retry_interrupted l else (Failed errno, l)
  | Sent :: l => (Sent, l)
  end.

(** [sendmsg] of one buffer: the size sent, or -1 and [errno]. *)
Definition sendmsg {X} (remote : sockaddr) (data : bytes) : io X Z :=
  fun '(x, e) =>
    let '(r, l) := retry_interrupted (e_send e) in
    let e := e <| e_send := l |> in
    match r with
    | Sent => Some (Zlength data, (x, e <| e_trace ::= (fun t => t ++ [Datagram remote data]) |>))
    | Failed errno => Some (-1, (x, e <| e_errno := errno |>))
    end.

Fixpoint send_loop {X} (remote : sockaddr) (data : list bytes) (send_packet : Z) : io X Z :=
  match data with
  | [] => mret send_packet
  | d :: data =>
      send_size ← sendmsg remote d;
      if send_size <=? 0 then
        code ← get_last_errno;
        if (code =? EAGAIN) || (code =? EWOULDBLOCK) then mret send_packet
        else if code =? EMSGSIZE then mret PACKET_TOO_LARGE
        else mret WRITE_ERROR
      else send_loop remote data (send_packet + 1)
  end.

(** [sendmmsg] after its first datagram: the number sent when one fails, whose error
    is lost. *)
Fixpoint sendmmsg_rest {X} (remote : sockaddr) (data : list bytes) (sent : Z) : io X Z :=
  match data with
  | [] => mret sent
  | d :: data =>
      fun '(x, e) =>
        let '(r, l) := next Sent (e_send e) in
        let e := e <| e_send := l |> in
        match r with
        | Sent => sendmmsg_rest remote data (sent + 1) (x, e <| e_trace ::= (fun t => t ++ [Datagram remote d]) |>)
        | Failed _ => Some (sent, (x, e))
        end
  end.

(** [TEMP_FAILURE_RETRY(sendmmsg(...))]: -1 and [errno] when the first datagram fails. *)
Definition sendmmsg {X} (remote : sockaddr) (data : list bytes) : io X Z :=
  match data with
  | [] => mret 0
  | d :: data =>
      size ← sendmsg remote d;
      if size <? 0 then mret (-1) else sendmmsg_rest remote data 1
  end.

Definition kcp_send_packet_raw_impl {X} (remote_addr : sockaddr) (data : list bytes) : io X Z :=
  if KCP_PACKET_SIZE <? Zlength data then mret INVALID_PARAM
  else
    mmsg ← gets (fun s => e_sendmmsg s.2);
    if mmsg : bool
    then send_packet ← sendmmsg remote_addr data; mret (if send_packet <=? 0 then WRITE_ERROR else send_packet)
    else send_loop remote_addr data 0.

Definition kcp_send_packet_raw {X} := @kcp_send_packet_raw_impl X.
Definition kcp_send_packet_raw_silent {X} := @kcp_send_packet_raw_impl X.

(** [kcp_send_packet(conn, data, size)]. *)
Definition kcp_send_packet {X} (c : kcp_connection) (data : list bytes) : io X Z :=
  kcp_send_packet_raw (remote_host c) data.

(** ** Randomness *)

Definition mix (seed : Z) : Z :=
  let seed := Z.lxor seed (Z.shiftr seed 33) in
  let seed := u64 (seed * 18397679294719823053) in
  let seed := Z.lxor seed (Z.shiftr seed 33) in
  let seed := u64 (seed * 14181476777654086739) in
  let seed := Z.lxor seed (Z.shiftr seed 33) in
  u32 (Z.lxor seed (Z.shiftr seed 32)).

Definition random_value {X} : io X Z :=
  r ← getrandom;
  match r with
  | Some value => mret (u32 value)
  | None =>
      us ← kcp_time_monotonic_us;
      wall ← gets (fun s => e_wall s.2);
      pid_stack ← gets (fun s => e_seed s.2);
      mret (mix (Z.lxor (Z.lxor us (u64 (Z.shiftl wall 21))) (u64 pid_stack)))
  end.

Definition kcp_random {X} (min max : Z) : io X Z :=
  let '(min, max) := if max <? min then (max, min) else (min, max) in
  if min =? max then mret min
  else
    value ← random_value;
    let range := u32 (max - min + 1) in
    if range =? 0 then undefined else mret (u32 (min + value mod range)).

(** ** Properties *)

Definition datagrams (remote : sockaddr) (data : list bytes) : list event := map (Datagram remote) data.

(** A send changes the kernel's answers, [errno] and the trace alone. *)
Definition after_send (e : env) (evs : list event) (e' : env) : Prop :=
  e' = e <| e_send := e_send e' |> <| e_errno := e_errno e' |> <| e_trace := e_trace e ++ evs |>.

Lemma after_send_trace e evs e' : after_send e evs e' -> e_trace e' = e_trace e ++ evs.
Proof. unfold after_send. intros H. rewrite H. done. Qed.

Lemma after_send_trans e1 e2 e3 l k :
  after_send e1 l e2 -> after_send e2 k e3 -> after_send e1 (l ++ k) e3.
Proof.
  unfold after_send. intros H2 H3. rewrite H3 at 1.
  assert (e_trace e2 = e_trace e1 ++ l) as -> by (by rewrite H2). rewrite H2 at 1. by rewrite app_assoc.
Qed.

Lemma after_send_nil e : after_send e [] e.
Proof. unfold after_send. rewrite app_nil_r. by destruct e. Qed.

Lemma sendmsg_spec {X} remote data (x : X) e :
  exists n e', sendmsg remote data (x, e) = Some (n, (x, e')) /\
    (n = Zlength data /\ after_send e [Datagram remote data] e' \/
     n = -1 /\ after_send e [] e').
Proof.
  unfold sendmsg. destruct (retry_interrupted (e_send e)) as [[|errno] l].
  - eexists _, _. split; [done|]. left. split; [done|]. by destruct e.
  - eexists _, _. split; [done|]. right. split; [done|]. unfold after_send. rewrite app_nil_r. by destruct e.
Qed.

(** What a send loop did: a prefix of the buffers went out, in order. *)
Lemma send_loop_spec {X} remote data k (x : X) e :
  Forall (fun d => d <> []) data -> 0 <= k ->
  exists n r e', send_loop remote data k (x, e) = Some (r, (x, e')) /\
    (n <= length data)%nat /\ after_send e (datagrams remote (take n data)) e' /\
    (r = k + Z.of_nat n \/ r < 0 /\ (n < length data)%nat) /\
    (n = length data -> r = k + Z.of_nat n).
Proof.
  revert k e. induction data as [|d data IH]; intros k e Hd Hk.
  - exists 0%nat, k, e. split_and!; [done|simpl; lia|apply after_send_nil|left; lia|lia].
  - inversion Hd; subst. destruct (sendmsg_spec remote d x e) as (sz & e1 & Hs & Hr).
    cbn [send_loop]. rewrite (bind_eq _ _ _ _ _ Hs).
    destruct Hr as [[-> Ha]|[-> Ha]].
    + destruct (Z.leb_spec (Zlength d) 0) as [Hz|_].
      { destruct d; [done|]. rewrite Zlength_cons in Hz. pose proof (Zlength_nonneg d). lia. }
      destruct (IH (k + 1) e1) as (n & r & e2 & Hl & Hn & Ha2 & Hr & Hall); [done|lia|].
      exists (S n), r, e2. split_and!; [done|simpl; lia| | |].
      * cbn [take datagrams map]. change (?a :: ?b) with ([a] ++ b). by eapply after_send_trans.
      * destruct Hr as [->|?]; [left; lia|right; simpl; lia].
      * simpl. intros E. rewrite Hall; lia.
    + change (-1 <=? 0) with true. cbn match.
      assert (exists r, (if (e_errno e1 =? EAGAIN) || (e_errno e1 =? EWOULDBLOCK) then k
              else if e_errno e1 =? EMSGSIZE then PACKET_TOO_LARGE else WRITE_ERROR) = r /\
              (r = k \/ r < 0)) as (r & Er & Hr).
      { eexists. split; [done|]. repeat case_match; [by left|right; done|right; done]. }
      exists 0%nat, r, e1. split_and!; [| simpl; lia|done| |simpl; lia].
      * rewrite (bind_eq _ _ _ (e_errno e1) (x, e1)) by done. rewrite <- Er. by repeat case_match.
      * destruct Hr as [->|?]; [left; lia|right; simpl; lia].
Qed.

(** A send that fails for lack of room is not an error of the loop. *)
Lemma send_loop_errno {X} remote data k (x : X) e r x' e' :
  send_loop remote data k (x, e) = Some (r, (x', e')) -> 0 <= k -> r < 0 -> e_errno e' <> EAGAIN.
Proof.
  revert k x e. induction data as [|d data IH]; intros k x e H Hk Hr; cbn [send_loop] in H.
  { injection H as <- _ _. lia. }
  apply bind_Some in H as (sz & [x1 e1] & _ & H). case_match.
  - apply bind_Some in H as (code & s2 & Hc & H). injection Hc as <- <-. cbn [snd] in H.
    repeat case_match; bprop; injection H as <- _ <-; unfold EWOULDBLOCK in *; lia.
  - apply IH in H; [done|lia|done].
Qed.

(** What [sendmmsg] did: likewise. *)
Lemma sendmmsg_rest_spec {X} remote data k (x : X) e :
  exists n e', sendmmsg_rest remote data k (x, e) = Some (k + Z.of_nat n, (x, e')) /\
    (n <= length data)%nat /\ after_send e (datagrams remote (take n data)) e'.
Proof.
  revert k e. induction data as [|d data IH]; intros k e; cbn [sendmmsg_rest].
  { exists 0%nat, e. split_and!; [by rewrite Z.add_0_r|done|apply after_send_nil]. }
  destruct (next Sent (e_send e)) as [[|errno] l].
  - match goal with |- context[sendmmsg_rest _ _ _ (x, ?e1)] => set (e1' := e1) end.
    destruct (IH (k + 1) e1') as (n & e' & -> & Hn & Ha). exists (S n), e'.
    split_and!; [do 2 f_equal; lia|cbn; lia|]. cbn [take datagrams map]. change (?a :: ?b) with ([a] ++ b).
    eapply after_send_trans; [|exact Ha]. unfold after_send, e1'. by destruct e.
  - exists 0%nat. eexists. split_and!; [by rewrite Z.add_0_r|cbn; lia|]. unfold after_send. rewrite app_nil_r. by destruct e.
Qed.

Lemma sendmmsg_spec {X} remote data (x : X) e :
  exists n r e', sendmmsg remote data (x, e) = Some (r, (x, e')) /\
    (n <= length data)%nat /\ after_send e (datagrams remote (take n data)) e' /\
    (r = Z.of_nat n /\ (data = [] \/ (0 < n)%nat) \/ r = -1 /\ n = 0%nat /\ data <> []).
Proof.
  destruct data as [|d data]; cbn [sendmmsg].
  { exists 0%nat, 0, e. split_and!; [done|done|apply after_send_nil|left; auto]. }
  destruct (sendmsg_spec remote d x e) as (sz & e1 & Hs & Hr). rewrite (bind_eq _ _ _ _ _ Hs).
  destruct Hr as [[-> Ha]|[-> Ha]].
  - destruct (Z.ltb_spec (Zlength d) 0) as [Hz|_]; [pose proof (Zlength_nonneg d); lia|].
    destruct (sendmmsg_rest_spec remote data 1 x e1) as (n & e' & -> & Hn & Ha'). exists (S n). eexists _, e'.
    split_and!; [done|cbn; lia| |left; split; [lia|right; lia]].
    cbn [take datagrams map]. change (?a :: ?b) with ([a] ++ b). by eapply after_send_trans.
  - exists 0%nat, (-1), e1. split_and!; [done|cbn; lia|done|by right].
Qed.

(** A batch, in either build: a prefix of the buffers goes out, in order; the answer
    is its length, or an error. *)
Lemma raw_spec {X} remote data (x : X) e :
  Forall (fun d => d <> []) data -> Zlength data <= KCP_PACKET_SIZE -> (e_sendmmsg e = true -> data <> []) ->
  exists n r e', kcp_send_packet_raw_impl remote data (x, e) = Some (r, (x, e')) /\
    (n <= length data)%nat /\ after_send e (datagrams remote (take n data)) e' /\
    (r = Z.of_nat n \/ r < 0 /\ (n < length data)%nat /\ (e_errno e' <> EAGAIN \/ e_sendmmsg e = true)) /\
    (n = length data -> r = Z.of_nat n).
Proof.
  intros Hd Hs Hne. unfold kcp_send_packet_raw_impl.
  destruct (Z.ltb_spec KCP_PACKET_SIZE (Zlength data)); [lia|]. rewrite (bind_eq _ _ _ (e_sendmmsg e) (x, e)) by done.
  destruct (e_sendmmsg e) eqn:E.
  - destruct (sendmmsg_spec remote data x e) as (n & r & e' & Hr & Hn & Ha & Hcase). rewrite (bind_eq _ _ _ _ _ Hr).
    specialize (Hne eq_refl). assert (0 < length data)%nat as Hlen by (destruct data; [done|cbn; lia]).
    exists n. eexists _, e'. split; [reflexivity|]. split; [done|]. split; [done|].
    destruct Hcase as [[-> [?|Hpos]]|(-> & -> & _)]; [done| |].
    + destruct (Z.leb_spec (Z.of_nat n) 0); [lia|]. auto.
    + change (-1 <=? 0) with true. cbn match. split; [|lia]. right. split; [done|]. auto.
  - destruct (send_loop_spec remote data 0 x e Hd) as (n & r & e' & Hl & Hn & Ha & Hr & Hall); [lia|].
    exists n, r, e'. split_and!; [done|done|done| |intros; rewrite Hall; lia].
    destruct Hr as [?|[? ?]]; [left; lia|right]. split_and!; [done|done|left]. by apply (send_loop_errno _ _ _ _ _ _ _ _ Hl).
Qed.

Lemma kcp_send_packet_wp {X} (c : kcp_connection) (data : list bytes) (x : X) (e : env) Q :
  Forall (fun d => d <> []) data -> Zlength data <= KCP_PACKET_SIZE -> data <> [] ->
  (forall n r e', (n <= length data)%nat -> after_send e (datagrams (remote_host c) (take n data)) e' ->
     (r = Z.of_nat n \/ r < 0 /\ (e_errno e' <> EAGAIN \/ e_sendmmsg e = true)) -> Q r (x, e')) ->
  wp (kcp_send_packet c data) Q (x, e).
Proof.
  intros Hd Hs Hne HQ. destruct (raw_spec (remote_host c) data x e Hd Hs) as (n & r & e' & Hrun & Hn & Ha & Hr & _); [done|].
  eapply wp_run; [exact Hrun|]. apply (HQ n); [done|done|]. destruct Hr as [?|(? & _ & ?)]; auto.
Qed.

Lemma after_send_malloc e evs e' : after_send e evs e' -> e_malloc e' = e_malloc e.
Proof. unfold after_send. intros H. rewrite H. done. Qed.

Lemma after_send_build e evs e' : after_send e evs e' -> e_sendmmsg e' = e_sendmmsg e.
Proof. unfold after_send. intros H. rewrite H. done. Qed.

(** Sending a batch of non-empty buffers always returns, in either build: the
    buffers that reach the kernel are a prefix of the batch, in order, to the
    connection's peer; a result [r] that is not negative is the number of them, a
    negative one an error after a strict prefix, and no other state changes. *)
Theorem kcp_send_packet_prefix {X} (c : kcp_connection) (data : list bytes) (x : X) (e : env) :
  Forall (fun d => d <> []) data -> Zlength data <= KCP_PACKET_SIZE -> data <> [] ->
  exists (n : nat) (r : Z) (e' : env),
    kcp_send_packet c data (x, e) = Some (r, (x, e')) /\ (n <= length data)%nat /\
    after_send e (datagrams (remote_host c) (take n data)) e' /\
    (r = Z.of_nat n \/ r < 0 /\ (n < length data)%nat) /\
    (r = Zlength data <-> n = length data).
Proof.
  intros Hd Hs Hne. destruct (raw_spec (remote_host c) data x e Hd Hs) as (n & r & e' & Hrun & Hn & Ha & Hr & Hall); [done|].
  exists n, r, e'. split_and!; [exact Hrun|done|done|destruct Hr as [?|(? & ? & _)]; auto|].
  unfold Zlength. split; [|intros; rewrite Hall; lia]. destruct Hr as [?|(? & _)]; lia.
Qed.

Lemma mix_range s : is_u32 (mix s).
Proof. apply u32_range. Qed.

(** What a draw or a reading of the clock leaves. *)
Definition same_io (e e' : env) : Prop :=
  e_trace e' = e_trace e /\ e_send e' = e_send e /\ e_malloc e' = e_malloc e.

Lemma random_value_spec {X} (x : X) e :
  exists v e', random_value (x, e) = Some (v, (x, e')) /\ is_u32 v /\ same_io e e'.
Proof.
  unfold random_value, getrandom, kcp_time_monotonic_us, clock_gettime, gets.
  unfold mbind, ST_bind, mret, ST_ret. destruct (e_random e) as [|[v|] l]; cbn.
  - eexists _, _. split_and!; [done|apply u32_range..|done].
  - eexists _, _. split_and!; [done|apply u32_range..|done].
  - destruct (e_ticks e); cbn; eexists _, _; (split_and!; [done|apply mix_range..|done]).
Qed.

Lemma kcp_random_spec {X} (min max : Z) (x : X) (e : env) :
  is_u32 min -> is_u32 max -> Z.abs (max - min) < UINT32_MAX ->
  exists v e', kcp_random min max (x, e) = Some (v, (x, e')) /\
    Z.min min max <= v <= Z.max min max /\ same_io e e'.
Proof.
  intros Hmin Hmax Hd. unfold kcp_random, UINT32_MAX in *.
  set (lo := Z.min min max). set (hi := Z.max min max).
  assert ((if max <? min then (max, min) else (min, max)) = (lo, hi)) as ->.
  { unfold lo, hi. destruct (Z.ltb_spec max min); f_equal; lia. }
  destruct (Z.eqb_spec lo hi) as [->|Hne].
  { exists hi, e. split_and!; [done|lia..|done]. }
  destruct (random_value_spec x e) as (v & e' & Hv & Hr & Ht).
  rewrite (bind_eq _ _ _ _ _ Hv). rewrite (u32_small (hi - lo + 1)) by lia.
  destruct (Z.eqb_spec (hi - lo + 1) 0); [lia|].
  pose proof (Z.mod_pos_bound v (hi - lo + 1) ltac:(lia)).
  eexists _, e'. split; [done|]. split; [rewrite u32_small by lia; lia|done].
Qed.

(** [kcp_random] draws within its bounds whatever the random source
    answers, the fallback included, and swaps bounds given in the wrong order. *)
Theorem kcp_random_range {X} (min max : Z) (x : X) (e : env) :
  is_u32 min -> is_u32 max -> Z.abs (max - min) < UINT32_MAX ->
  exists v e', kcp_random min max (x, e) = Some (v, (x, e')) /\
    Z.min min max <= v <= Z.max min max /\ e_trace e' = e_trace e.
Proof.
  intros H1 H2 H3. destruct (kcp_random_spec min max x e H1 H2 H3) as (v & e' & Hr & Hv & Ht & _). by exists v, e'.
Qed.

Lemma kcp_send_packet_prefix_witness :
  exists (n : nat) (r : Z) (e' : env),
    kcp_send_packet zero_connection [[1]; [2; 3]]
      (tt, Env 0 [] 0 [] [] [Failed EINTR; Sent; Failed EAGAIN] true [] 0 0 [] []) = Some (r, (tt, e')) /\
    (n <= 2)%nat /\
    after_send (Env 0 [] 0 [] [] [Failed EINTR; Sent; Failed EAGAIN] true [] 0 0 [] [])
      (datagrams (sin 0 0) (take n [[1]; [2; 3]])) e' /\
    (r = Z.of_nat n \/ r < 0 /\ (n < 2)%nat) /\ (r = 2 <-> n = 2%nat).
Proof.
  apply (kcp_send_packet_prefix zero_connection [[1]; [2; 3]] tt); [repeat constructor; done|done|done].
Defined.

Lemma kcp_random_range_witness :
  exists v e', kcp_random 1 KCP_BITMAP_SIZE (tt, Env 5000 [] 9 [] [] [] true [None] 77 0 [] []) = Some (v, (tt, e')) /\
    1 <= v <= KCP_BITMAP_SIZE /\ e_trace e' = [].
Proof. apply (kcp_random_range 1 KCP_BITMAP_SIZE tt); done. Defined.
