(* ===== verification/Bbr.v ===== *)
(** * Bbr: the congestion control of kcp_protocol.c (bbr_* functions)

    Pure functions on the connection, one per C function.  C divides by [mss]
    in [bbr_target_cwnd_pkts] and [bbr_update_cwnd] and traps when it is zero;
    the callers model that trap, and here [mss] is the divisor of [Z.div]. *)

From S2P Require Import Prelude RbTree Bytes Config Wire Types World.

(** ** Operations *)

Definition kcp_bbr_probe_bw_gain_cycle : list Z := [1250; 750; 1000; 1000; 1000; 1000; 1000; 1000].

Definition gain_cycle (idx : Z) : Z := nth (Z.to_nat idx) kcp_bbr_probe_bw_gain_cycle 0.

Definition bbr_apply_gain_u64 (value gain_num : Z) : Z := u64 (value * gain_num) / KCP_BBR_GAIN_DEN.

Definition bbr_min_cwnd_pkts (c : kcp_connection) : Z := KCP_BBR_MIN_CWND_PKTS.

Definition bbr_bdp_bytes (c : kcp_connection) (gain_num : Z) : Z :=
  if (bbr_btlbw (bbr c) =? 0) || (bbr_min_rtt_us (bbr c) =? 0)
  then u64 (mss c * bbr_min_cwnd_pkts c)
  else
    let bdp := u64 (bbr_btlbw (bbr c) * bbr_min_rtt_us (bbr c)) / 1000000 in
    bbr_apply_gain_u64 bdp gain_num.

Definition bbr_target_cwnd_pkts (c : kcp_connection) (gain_num : Z) : Z :=
  let target_bytes := bbr_bdp_bytes c gain_num in
  let target_pkts := u32 (u64 (target_bytes + mss c - 1) / mss c) in
  MAX target_pkts (bbr_min_cwnd_pkts c).

Definition bbr_set_mode (c : kcp_connection) (mode : kcp_bbr_mode) (now_us : Z) : kcp_connection :=
  let c := c <| bbr / bbr_mode := mode |> in
  match mode with
  | KCP_BBR_STARTUP =>
      c <| bbr / bbr_pacing_gain_num := KCP_BBR_STARTUP_GAIN_NUM |>
        <| bbr / bbr_cwnd_gain_num := KCP_BBR_CWND_GAIN_NUM |>
  | KCP_BBR_DRAIN =>
      c <| bbr / bbr_pacing_gain_num := 347 |>
        <| bbr / bbr_cwnd_gain_num := KCP_BBR_CWND_GAIN_NUM |>
  | KCP_BBR_PROBE_BW =>
      c <| bbr / bbr_cycle_idx := 0 |>
        <| bbr / bbr_cycle_stamp := now_us |>
        <| bbr / bbr_pacing_gain_num := gain_cycle 0 |>
        <| bbr / bbr_cwnd_gain_num := KCP_BBR_CWND_GAIN_NUM |>
  | KCP_BBR_PROBE_RTT =>
      c <| bbr / bbr_probe_rtt_done_stamp := 0 |>
        <| bbr / bbr_pacing_gain_num := KCP_BBR_GAIN_DEN |>
        <| bbr / bbr_cwnd_gain_num := KCP_BBR_GAIN_DEN |>
  end.

Definition bbr_update_bw_filter (c : kcp_connection) (sample_bw : Z) : kcp_connection :=
  if sample_bw =? 0 then c
  else
    let idx := bbr_bw_filter_idx (bbr c) in
    let c := c <| bbr / bbr_bw_filter ::= <[Z.to_nat idx := sample_bw]> |>
               <| bbr / bbr_bw_filter_idx := u8 ((idx + 1) mod Z.of_nat KCP_BBR_BW_FILTER_LEN) |> in
    c <| bbr / bbr_btlbw := fold_left MAX (bbr_bw_filter (bbr c)) 0 |>.

Definition bbr_check_full_pipe (c : kcp_connection) : kcp_connection :=
  if bbr_filled_pipe (bbr c) || (bbr_btlbw (bbr c) =? 0) then c
  else if u64 (bbr_full_bw (bbr c) * 125) / 100 <=? bbr_btlbw (bbr c)
  then c <| bbr / bbr_full_bw := bbr_btlbw (bbr c) |> <| bbr / bbr_full_bw_cnt := 0 |>
  else
    let c := c <| bbr / bbr_full_bw_cnt ::= (fun n => u8 (n + 1)) |> in
    if 3 <=? bbr_full_bw_cnt (bbr c) then c <| bbr / bbr_filled_pipe := true |> else c.

Definition bbr_update_cycle_phase (c : kcp_connection) (now_us : Z) : kcp_connection :=
  if negb (bool_decide (bbr_mode (bbr c) = KCP_BBR_PROBE_BW)) then c
  else
    let min_rtt := MAX (bbr_min_rtt_us (bbr c)) 1000 in
    if u64 (now_us - bbr_cycle_stamp (bbr c)) <? min_rtt then c
    else
      let c := c <| bbr / bbr_cycle_idx ::= (fun i => u8 (Z.land (i + 1) 7)) |>
                 <| bbr / bbr_cycle_stamp := now_us |> in
      c <| bbr / bbr_pacing_gain_num := gain_cycle (bbr_cycle_idx (bbr c)) |>.

Definition bbr_update_cwnd (c : kcp_connection) (acked_bytes : Z) : kcp_connection :=
  let target := bbr_target_cwnd_pkts c (bbr_cwnd_gain_num (bbr c)) in
  let min_cwnd := bbr_min_cwnd_pkts c in
  let acked_pkts := u32 (u64 (acked_bytes + mss c - 1) / mss c) in
  let target := if bool_decide (bbr_mode (bbr c) = KCP_BBR_PROBE_RTT) then min_cwnd else target in
  let c := c <| bbr / bbr_target_cwnd := target |> in
  let c := if u32 (cwnd c) <? target
           then c <| cwnd := s32 (MIN (u32 (u32 (cwnd c) + MAX acked_pkts 1)) target) |>
           else c <| cwnd := s32 target |> in
  let c := c <| cwnd := MAX (cwnd c) (s32 min_cwnd) |> in
  c <| incr := u32 (u32 (cwnd c) * mss c) |>.

Definition bbr_update_pacing_rate (c : kcp_connection) : kcp_connection :=
  let c := if 0 <? bbr_btlbw (bbr c)
           then c <| bbr / bbr_pacing_rate :=
                       bbr_apply_gain_u64 (bbr_btlbw (bbr c)) (bbr_pacing_gain_num (bbr c)) |>
           else c <| bbr / bbr_pacing_rate := u64 (mss c * 1000) |> in
  let min_rate := u64 (mss c * 100) in
  if bbr_pacing_rate (bbr c) <? min_rate then c <| bbr / bbr_pacing_rate := min_rate |> else c.

Definition bbr_maybe_enter_probe_rtt (c : kcp_connection) (now_us : Z) : kcp_connection :=
  if bbr_min_rtt_us (bbr c) =? 0 then c
  else if bool_decide (bbr_mode (bbr c) = KCP_BBR_PROBE_RTT) then c
  else if KCP_BBR_MIN_RTT_WIN_US <? u64 (now_us - bbr_min_rtt_stamp (bbr c))
  then bbr_set_mode c KCP_BBR_PROBE_RTT now_us
  else c.

(** The parts of [bbr_on_ack], in its order. *)
Definition bbr_update_min_rtt (c : kcp_connection) (now_us rtt_sample_us : Z) : kcp_connection :=
  if (0 <? rtt_sample_us) &&
     ((u32 rtt_sample_us <? bbr_min_rtt_us (bbr c)) || (bbr_min_rtt_us (bbr c) =? 0))
  then c <| bbr / bbr_min_rtt_us := u32 rtt_sample_us |> <| bbr / bbr_min_rtt_stamp := now_us |>
  else c.

Definition bbr_leave_startup (c : kcp_connection) (now_us : Z) : kcp_connection :=
  if bool_decide (bbr_mode (bbr c) = KCP_BBR_STARTUP) && bbr_filled_pipe (bbr c)
  then bbr_set_mode c KCP_BBR_DRAIN now_us else c.

Definition bbr_leave_drain (c : kcp_connection) (now_us : Z) : kcp_connection :=
  if bool_decide (bbr_mode (bbr c) = KCP_BBR_DRAIN)
  then
    let drain_target := bbr_target_cwnd_pkts c KCP_BBR_GAIN_DEN in
    if u32 (nsnd_buf c) <=? drain_target then bbr_set_mode c KCP_BBR_PROBE_BW now_us else c
  else c.

Definition bbr_leave_probe_rtt (c : kcp_connection) (now_us : Z) : kcp_connection :=
  if bool_decide (bbr_mode (bbr c) = KCP_BBR_PROBE_RTT)
  then
    let c := if (bbr_probe_rtt_done_stamp (bbr c) =? 0) && (u32 (nsnd_buf c) <=? bbr_min_cwnd_pkts c)
             then c <| bbr / bbr_probe_rtt_done_stamp := u64 (now_us + KCP_BBR_PROBE_RTT_US) |>
             else c in
    if (0 <? bbr_probe_rtt_done_stamp (bbr c)) && (bbr_probe_rtt_done_stamp (bbr c) <=? now_us)
    then
      let c := c <| bbr / bbr_min_rtt_stamp := now_us |> in
      if bbr_filled_pipe (bbr c) then bbr_set_mode c KCP_BBR_PROBE_BW now_us
      else bbr_set_mode c KCP_BBR_STARTUP now_us
    else c
  else c.

(** All of [bbr_on_ack] before the window. *)
Definition bbr_model_update (c : kcp_connection) (now_us sample_bw rtt_sample_us : Z) : kcp_connection :=
  let c := if 0 <? sample_bw then bbr_update_bw_filter c sample_bw else c in
  let c := bbr_update_min_rtt c now_us rtt_sample_us in
  let c := bbr_maybe_enter_probe_rtt c now_us in
  let c := bbr_check_full_pipe c in
  let c := bbr_leave_startup c now_us in
  let c := bbr_leave_drain c now_us in
  let c := bbr_leave_probe_rtt c now_us in
  let c := bbr_update_cycle_phase c now_us in
  bbr_update_pacing_rate c.

Definition bbr_on_ack (c : kcp_connection) (now_us acked_bytes sample_bw rtt_sample_us : Z)
  : kcp_connection :=
  if acked_bytes =? 0 then c
  else bbr_update_cwnd (bbr_model_update c now_us sample_bw rtt_sample_us) acked_bytes.

Definition bbr_on_loss (c : kcp_connection) : kcp_connection :=
  let min_cwnd := bbr_min_cwnd_pkts c in
  if cwnd c <? s32 min_cwnd
  then let c := c <| cwnd := s32 min_cwnd |> in c <| incr := u32 (u32 (cwnd c) * mss c) |>
  else c.

Definition bbr_rate_sample_for_segment (c : kcp_connection) (segment : kcp_segment)
    (now_us acked_before : Z) : Z :=
  if (sg_tx_delivered_ts segment =? 0) || (now_us <=? sg_tx_delivered_ts segment) then 0
  else
    let delivered := u64 (bbr_delivered (bbr c) + acked_before + sg_len segment) in
    if delivered <=? sg_tx_delivered segment then 0
    else
      let interval_us := u64 (now_us - sg_tx_delivered_ts segment) in
      u64 ((delivered - sg_tx_delivered segment) * 1000000) / interval_us.

(** ** What each part leaves alone *)

(** Two connections that differ in the BBR state alone. *)
Definition only_bbr (c c' : kcp_connection) : Prop := c' = c <| bbr := bbr c' |>.

(** In the BBR state, the window and the increment. *)
Definition same_but_bbr (c c' : kcp_connection) : Prop :=
  c' = c <| bbr := bbr c' |> <| cwnd := cwnd c' |> <| incr := incr c' |>.

#[export] Instance only_bbr_preorder : PreOrder only_bbr.
Proof.
  unfold only_bbr. split; [by intros []|]. intros c1 c2 c3 H2 H3. rewrite H3 at 1. rewrite H2 at 1. done.
Qed.

#[export] Instance same_but_bbr_preorder : PreOrder same_but_bbr.
Proof.
  unfold same_but_bbr. split; [by intros []|]. intros c1 c2 c3 H2 H3. rewrite H3 at 1. rewrite H2 at 1. done.
Qed.

Lemma only_bbr_same c c' : only_bbr c c' -> same_but_bbr c c'.
Proof. unfold only_bbr, same_but_bbr. intros H.
  assert (cwnd c' = cwnd c) as -> by (by rewrite H). assert (incr c' = incr c) as -> by (by rewrite H).
  rewrite H at 1. by destruct c. Qed.

Lemma frame_bbr_set c g : only_bbr c (c <| bbr ::= g |>).
Proof. by destruct c. Qed.

Create HintDb bbr_frame.
#[export] Hint Resolve frame_bbr_set : bbr_frame.

(** Peels the last part, or the last assignment, off a composition. *)
Ltac peel := etransitivity; [|solve [eauto 1 with bbr_frame nocore]].
Ltac peels :=
  repeat case_match; repeat first [match goal with |- _ ?c ?c => reflexivity end | peel].

Lemma frame_update_bw_filter c s : only_bbr c (bbr_update_bw_filter c s).
Proof. unfold bbr_update_bw_filter. peels. Qed.
Lemma frame_update_min_rtt c t r : only_bbr c (bbr_update_min_rtt c t r).
Proof. unfold bbr_update_min_rtt. peels. Qed.
Lemma frame_set_mode c m t : only_bbr c (bbr_set_mode c m t).
Proof. unfold bbr_set_mode. peels. Qed.
Lemma frame_check_full_pipe c : only_bbr c (bbr_check_full_pipe c).
Proof. unfold bbr_check_full_pipe. peels. Qed.
Lemma frame_update_cycle_phase c t : only_bbr c (bbr_update_cycle_phase c t).
Proof. unfold bbr_update_cycle_phase. peels. Qed.
Lemma frame_update_pacing_rate c : only_bbr c (bbr_update_pacing_rate c).
Proof. unfold bbr_update_pacing_rate. peels. Qed.

#[export] Hint Resolve frame_update_bw_filter frame_update_min_rtt frame_set_mode
  frame_check_full_pipe frame_update_cycle_phase frame_update_pacing_rate : bbr_frame.

Lemma frame_maybe_enter_probe_rtt c t : only_bbr c (bbr_maybe_enter_probe_rtt c t).
Proof. unfold bbr_maybe_enter_probe_rtt. peels. Qed.
Lemma frame_leave_startup c t : only_bbr c (bbr_leave_startup c t).
Proof. unfold bbr_leave_startup. peels. Qed.
Lemma frame_leave_drain c t : only_bbr c (bbr_leave_drain c t).
Proof. unfold bbr_leave_drain. peels. Qed.
Lemma frame_leave_probe_rtt c t : only_bbr c (bbr_leave_probe_rtt c t).
Proof.
  unfold bbr_leave_probe_rtt. case_match; [|reflexivity]. set (c1 := if _ && _ then _ else c).
  transitivity c1; [unfold c1; peels|]. clearbody c1. peels.
Qed.

#[export] Hint Resolve frame_maybe_enter_probe_rtt frame_leave_startup frame_leave_drain
  frame_leave_probe_rtt : bbr_frame.

Lemma frame_model_update c now bw rtt : only_bbr c (bbr_model_update c now bw rtt).
Proof.
  unfold bbr_model_update. repeat peel. peels.
Qed.

Lemma frame_update_cwnd c a : same_but_bbr c (bbr_update_cwnd c a).
Proof. unfold bbr_update_cwnd. case_match; by destruct c. Qed.
Lemma frame_on_loss c : same_but_bbr c (bbr_on_loss c).
Proof. unfold bbr_on_loss. case_match; by destruct c. Qed.

Lemma frame_on_ack c now acked bw rtt : same_but_bbr c (bbr_on_ack c now acked bw rtt).
Proof.
  unfold bbr_on_ack. case_match; [reflexivity|].
  etransitivity; [apply only_bbr_same, frame_model_update|apply frame_update_cwnd].
Qed.

(** ** The invariant of the BBR state *)

(** The gains belong to the mode. *)
Definition gains_ok (b : bbr_state) : Prop :=
  match bbr_mode b with
  | KCP_BBR_STARTUP => bbr_pacing_gain_num b = 2885 /\ bbr_cwnd_gain_num b = 2000
  | KCP_BBR_DRAIN => bbr_pacing_gain_num b = 347 /\ bbr_cwnd_gain_num b = 2000
  | KCP_BBR_PROBE_BW =>
      bbr_pacing_gain_num b = gain_cycle (bbr_cycle_idx b) /\ bbr_cwnd_gain_num b = 2000
  | KCP_BBR_PROBE_RTT => bbr_pacing_gain_num b = 1000 /\ bbr_cwnd_gain_num b = 1000
  end.

Record bbr_ok (c : kcp_connection) : Prop := {
  ok_filter_len : length (bbr_bw_filter (bbr c)) = KCP_BBR_BW_FILTER_LEN;
  ok_filter_idx : 0 <= bbr_bw_filter_idx (bbr c) < 10;
  ok_filter_max : bbr_btlbw (bbr c) = fold_left MAX (bbr_bw_filter (bbr c)) 0;
  ok_cycle_idx : 0 <= bbr_cycle_idx (bbr c) < 8;
  ok_gains : gains_ok (bbr c);
  ok_cwnd : KCP_BBR_MIN_CWND_PKTS <= cwnd c;
  ok_pacing : u64 (mss c * 100) <= bbr_pacing_rate (bbr c);
}.

Lemma ok_update_bw_filter c s : bbr_ok c -> bbr_ok (bbr_update_bw_filter c s).
Proof.
  intros [Hl Hi Hm Hc Hg Hw Hp]. unfold bbr_update_bw_filter, KCP_BBR_BW_FILTER_LEN in *.
  case_match; [by constructor|].
  constructor; cbn; try done; [by rewrite length_insert|mach].
Qed.

Lemma ok_update_min_rtt c t r : bbr_ok c -> bbr_ok (bbr_update_min_rtt c t r).
Proof. intros []. unfold bbr_update_min_rtt. case_match; by constructor. Qed.

Lemma ok_set_mode c m t : bbr_ok c -> bbr_ok (bbr_set_mode c m t).
Proof. intros []. unfold bbr_set_mode. destruct m; by constructor. Qed.

Lemma ok_check_full_pipe c : bbr_ok c -> bbr_ok (bbr_check_full_pipe c).
Proof. intros []. unfold bbr_check_full_pipe. repeat case_match; by constructor. Qed.

Lemma ok_done_stamp c x : bbr_ok c -> bbr_ok (c <| bbr / bbr_probe_rtt_done_stamp := x |>).
Proof. intros []. by constructor. Qed.
Lemma ok_min_rtt_stamp c x : bbr_ok c -> bbr_ok (c <| bbr / bbr_min_rtt_stamp := x |>).
Proof. intros []. by constructor. Qed.

Lemma ok_update_cycle_phase c t : bbr_ok c -> bbr_ok (bbr_update_cycle_phase c t).
Proof.
  intros [Hl Hi Hm Hc Hg Hw Hp]. unfold bbr_update_cycle_phase.
  repeat case_match; try by constructor.
  assert (0 <= Z.land (bbr_cycle_idx (bbr c) + 1) 7 < 8).
  { change 7 with (Z.ones 3). rewrite Z.land_ones by lia. zlia. }
  constructor; cbn; try done; [by rewrite u8_small by lia|].
  unfold gains_ok in *. cbn. bprop. rewrite bool_decide_eq_true in *.
  match goal with H : bbr_mode _ = _ |- _ => rewrite H in * end. by destruct Hg.
Qed.

Lemma ok_update_pacing_rate c : bbr_ok c -> bbr_ok (bbr_update_pacing_rate c).
Proof.
  intros []. unfold bbr_update_pacing_rate. repeat case_match; bprop; constructor; cbn in *; done || lia.
Qed.

Lemma ok_update_cwnd c a : bbr_ok c -> bbr_ok (bbr_update_cwnd c a).
Proof.
  intros []. unfold bbr_update_cwnd. constructor; repeat case_match; cbn; try done;
    rewrite MAX_max; unfold bbr_min_cwnd_pkts, KCP_BBR_MIN_CWND_PKTS; change (s32 4) with 4; lia.
Qed.

#[export] Hint Resolve ok_update_bw_filter ok_update_min_rtt ok_set_mode ok_check_full_pipe
  ok_update_cycle_phase ok_update_pacing_rate ok_update_cwnd ok_done_stamp ok_min_rtt_stamp : bbr_frame.

Lemma ok_leave_probe_rtt c t : bbr_ok c -> bbr_ok (bbr_leave_probe_rtt c t).
Proof.
  intros Hok. unfold bbr_leave_probe_rtt.
  repeat case_match; eauto 10 with bbr_frame.
Qed.

(** C29: Every acknowledgement keeps the BBR state consistent: the
    bottleneck bandwidth is the maximum of the ten-slot filter, the gains are
    those of the mode (the phase's gain while probing), the window is at least
    four packets and the pacing rate at least a hundred segments per second. *)
Theorem bbr_on_ack_invariant (c : kcp_connection) (now_us acked_bytes sample_bw rtt_sample_us : Z) :
  bbr_ok c -> bbr_ok (bbr_on_ack c now_us acked_bytes sample_bw rtt_sample_us).
Proof.
  intros Hok. unfold bbr_on_ack, bbr_model_update. case_match; [done|].
  apply ok_update_cwnd, ok_update_pacing_rate, ok_update_cycle_phase, ok_leave_probe_rtt.
  unfold bbr_leave_drain, bbr_leave_startup, bbr_maybe_enter_probe_rtt.
  repeat case_match; eauto 10 with bbr_frame.
Qed.

(** ** The bandwidth filter *)

(** The largest of a list of rates. *)
Fixpoint max_list (l : list Z) : Z := match l with [] => 0 | x :: l => Z.max x (max_list l) end.

Lemma max_list_app l k : Forall (fun x => 0 <= x) k -> max_list (l ++ k) = Z.max (max_list l) (max_list k).
Proof.
  intros Hk. assert (0 <= max_list k) by (induction Hk; simpl; lia).
  induction l; simpl; lia.
Qed.

Lemma fold_MAX l m : 0 <= m -> fold_left MAX l m = Z.max m (max_list l).
Proof.
  revert m; induction l as [|x l IH]; intros m Hm; simpl; [lia|].
  rewrite MAX_max, IH by lia. lia.
Qed.

(** The slots in order of age. *)
Definition filter_window (b : bbr_state) : list Z :=
  let i := Z.to_nat (bbr_bw_filter_idx b) in drop i (bbr_bw_filter b) ++ take i (bbr_bw_filter b).

Lemma filter_window_update c s :
  s <> 0 -> length (bbr_bw_filter (bbr c)) = 10%nat -> 0 <= bbr_bw_filter_idx (bbr c) < 10 ->
  let c' := bbr_update_bw_filter c s in
  filter_window (bbr c') = tail (filter_window (bbr c)) ++ [s] /\
  length (bbr_bw_filter (bbr c')) = 10%nat /\ 0 <= bbr_bw_filter_idx (bbr c') < 10.
Proof.
  intros Hs Hl Hi. unfold bbr_update_bw_filter. destruct (Z.eqb_spec s 0); [done|].
  unfold filter_window. cbn. set (l := bbr_bw_filter (bbr c)) in *.
  set (i := bbr_bw_filter_idx (bbr c)) in *. unfold KCP_BBR_BW_FILTER_LEN.
  rewrite length_insert. split_and!; try done; [|mach..].
  destruct (lookup_lt_is_Some_2 l (Z.to_nat i)) as [x Hx]; [lia|].
  rewrite (drop_S _ _ _ Hx). cbn [tail app].
  change (Z.of_nat 10) with 10.
  destruct (decide (i = 9)) as [->|].
  - change (Z.to_nat (u8 ((9 + 1) mod 10))) with 0%nat. change (Z.to_nat 9) with 9%nat in *.
    rewrite drop_0, app_nil_r. do 10 (destruct l as [|? l]; [done|]). by destruct l.
  - rewrite Z.mod_small, u8_small by lia. replace (Z.to_nat (i + 1)) with (S (Z.to_nat i)) by lia.
    rewrite drop_insert_lt by lia. rewrite (take_S_r _ _ s) by (apply list_lookup_insert_eq; lia).
    rewrite take_insert_ge by lia. by rewrite app_assoc.
Qed.

Definition last_ten (l : list Z) : list Z := drop (length l - 10) l.

Lemma last_ten_snoc l s : (10 <= length l)%nat -> last_ten (l ++ [s]) = tail (last_ten l) ++ [s].
Proof.
  intros Hl. unfold last_ten. rewrite length_app. simpl.
  rewrite drop_app_le by lia. f_equal.
  replace (length l + 1 - 10)%nat with (S (length l - 10)) by lia.
  destruct (lookup_lt_is_Some_2 l (length l - 10)) as [x Hx]; [lia|]. by rewrite (drop_S _ _ _ Hx).
Qed.

Lemma filter_window_history c samples :
  Forall (fun s => s <> 0) samples ->
  bbr_bw_filter (bbr c) = replicate 10 0 -> bbr_bw_filter_idx (bbr c) = 0 ->
  let c' := fold_left bbr_update_bw_filter samples c in
  filter_window (bbr c') = last_ten (replicate 10 0 ++ samples) /\
  length (bbr_bw_filter (bbr c')) = 10%nat /\ 0 <= bbr_bw_filter_idx (bbr c') < 10.
Proof.
  intros Hs Hf Hi. induction samples as [|s l IH] using rev_ind; cbv zeta.
  - cbn [fold_left]. unfold filter_window. rewrite Hf, Hi. split_and!; done.
  - apply Forall_app in Hs as [Hl Hsn]. rewrite Forall_singleton in Hsn.
    destruct (IH Hl) as (Hw & Hlen & Hidx). rewrite fold_left_app. cbn [fold_left].
    destruct (filter_window_update _ s Hsn Hlen Hidx) as (Hw' & Hlen' & Hidx').
    split_and!; try done; try lia. rewrite Hw', Hw, app_assoc.
    rewrite last_ten_snoc; [done|]. rewrite length_app, length_replicate. lia.
Qed.

Lemma max_list_rotate l i : Forall (fun x => 0 <= x) l -> max_list (drop i l ++ take i l) = max_list l.
Proof.
  intros Hl. rewrite max_list_app by (by apply Forall_take).
  rewrite <- (take_drop i l) at 3. rewrite max_list_app by (by apply Forall_drop). lia.
Qed.

Lemma max_list_zeros n : max_list (replicate n 0) = 0.
Proof. induction n as [|n IH]; simpl; [done|]. rewrite IH. done. Qed.

(** C31: After any sequence of bandwidth samples from the initial
    filter, [bbr_btlbw] is the maximum of the last ten of them: the ring buffer
    forgets exactly the samples older than ten. *)
Theorem bbr_btlbw_windowed_max (c : kcp_connection) (samples : list Z) :
  Forall (fun s => 0 < s) samples ->
  bbr_bw_filter (bbr c) = replicate 10 0 -> bbr_bw_filter_idx (bbr c) = 0 -> bbr_btlbw (bbr c) = 0 ->
  bbr_btlbw (bbr (fold_left bbr_update_bw_filter samples c)) = max_list (last_ten samples).
Proof.
  intros Hpos Hf Hi Hb.
  assert (Forall (fun s => s <> 0) samples) as Hs by (eapply Forall_impl; [done|]; simpl; lia).
  destruct (filter_window_history c samples Hs Hf Hi) as (Hw & Hlen & _).
  set (c' := fold_left bbr_update_bw_filter samples c) in *.
  assert (bbr_btlbw (bbr c') = fold_left MAX (bbr_bw_filter (bbr c')) 0) as ->.
  { unfold c'. destruct samples as [|s l] using rev_ind; [cbn; by rewrite Hb, Hf|].
    apply Forall_app in Hs as [_ Hsn]. rewrite Forall_singleton in Hsn. rewrite fold_left_app. cbn.
    unfold bbr_update_bw_filter at 1 3. destruct (Z.eqb_spec s 0); [done|]. done. }
  rewrite fold_MAX by lia.
  assert (Forall (fun x => 0 <= x) (last_ten (replicate 10 0 ++ samples))) as Hnn.
  { apply Forall_drop, Forall_app. split; [repeat constructor; lia|].
    eapply Forall_impl; [exact Hpos|]. simpl; lia. }
  assert (Forall (fun x => 0 <= x) (bbr_bw_filter (bbr c'))) as Hnf.
  { rewrite <- Hw in Hnn. unfold filter_window in Hnn. apply Forall_app in Hnn as [H1 H2].
    rewrite <- (take_drop (Z.to_nat (bbr_bw_filter_idx (bbr c')))). by apply Forall_app. }
  rewrite <- (max_list_rotate _ (Z.to_nat (bbr_bw_filter_idx (bbr c')))) by done.
  change (drop _ _ ++ take _ _) with (filter_window (bbr c')). rewrite Hw.
  unfold last_ten. rewrite length_app, length_replicate.
  assert (Forall (fun x => 0 <= x) samples) as Hnns
    by (eapply Forall_impl; [exact Hpos|]; simpl; lia).
  destruct (decide (length samples <= 10)%nat).
  - rewrite drop_app_le by (rewrite length_replicate; lia). rewrite drop_replicate.
    rewrite max_list_app by done. rewrite max_list_zeros.
    replace (length samples - 10)%nat with 0%nat by lia. rewrite drop_0.
    assert (0 <= max_list samples) by (clear -Hnns; induction Hnns; simpl; lia). lia.
  - rewrite drop_app_ge by (rewrite length_replicate; lia). rewrite length_replicate.
    replace (10 + length samples - 10 - 10)%nat with (length samples - 10)%nat by lia.
    assert (0 <= max_list (drop (length samples - 10) samples)); [|lia].
    apply (Forall_drop _ (length samples - 10)) in Hnns. clear -Hnns. induction Hnns; simpl; lia.
Qed.

(** ** The window *)

(** The target [bbr_update_cwnd] works with. *)
Definition cwnd_target (c : kcp_connection) : Z :=
  if bool_decide (bbr_mode (bbr c) = KCP_BBR_PROBE_RTT) then KCP_BBR_MIN_CWND_PKTS
  else bbr_target_cwnd_pkts c (bbr_cwnd_gain_num (bbr c)).

Lemma cwnd_target_min c : KCP_BBR_MIN_CWND_PKTS <= cwnd_target c.
Proof.
  unfold cwnd_target, bbr_target_cwnd_pkts, bbr_min_cwnd_pkts. case_match; [lia|].
  rewrite MAX_max. lia.
Qed.

Lemma update_cwnd_spec c a :
  let c' := bbr_update_cwnd c a in
  let acked_pkts := u32 (u64 (a + mss c - 1) / mss c) in
  cwnd c' = MAX (if u32 (cwnd c) <? cwnd_target c
                 then s32 (MIN (u32 (u32 (cwnd c) + MAX acked_pkts 1)) (cwnd_target c))
                 else s32 (cwnd_target c)) 4 /\
  bbr_target_cwnd (bbr c') = cwnd_target c /\ bbr_mode (bbr c') = bbr_mode (bbr c) /\
  mss c' = mss c /\ incr c' = u32 (u32 (cwnd c') * mss c).
Proof.
  cbv zeta. unfold bbr_update_cwnd.
  change (if bool_decide (bbr_mode (bbr c) = KCP_BBR_PROBE_RTT) then bbr_min_cwnd_pkts c
          else bbr_target_cwnd_pkts c (bbr_cwnd_gain_num (bbr c))) with (cwnd_target c).
  cbn [cwnd set_field]. by destruct (u32 (cwnd c) <? cwnd_target c).
Qed.

(** C30: What one acknowledgement does to the window: it ends between four
    packets and the target, grows by at most the packets acknowledged (one at
    least), is exactly four while the RTT is probed, and [incr] is its size in
    bytes. *)
Theorem bbr_cwnd_bounds (c : kcp_connection) (now_us acked_bytes sample_bw rtt_sample_us : Z) :
  let c' := bbr_on_ack c now_us acked_bytes sample_bw rtt_sample_us in
  let acked_pkts := u32 (u64 (acked_bytes + mss c - 1) / mss c) in
  acked_bytes <> 0 -> 4 <= cwnd c < 2147483648 -> bbr_target_cwnd (bbr c') < 2147483648 ->
  4 <= cwnd c' <= bbr_target_cwnd (bbr c') /\
  cwnd c' <= cwnd c + Z.max 1 acked_pkts /\
  (bbr_mode (bbr c') = KCP_BBR_PROBE_RTT -> cwnd c' = 4) /\
  incr c' = u32 (cwnd c' * mss c').
Proof.
  cbv zeta. unfold bbr_on_ack. intros Ha Hc. destruct (Z.eqb_spec acked_bytes 0); [done|].
  pose proof (frame_model_update c now_us sample_bw rtt_sample_us) as Hf.
  set (c1 := bbr_model_update _ _ _ _) in *. clearbody c1.
  assert (cwnd c1 = cwnd c /\ mss c1 = mss c) as [Hcw Hm] by (by rewrite Hf).
  destruct (update_cwnd_spec c1 acked_bytes) as (Hw&Htg&Hmo&Hms&Hi).
  rewrite Htg, Hmo, Hi, Hms. rewrite Hcw, Hm in *. intros Ht.
  set (ap := u32 (u64 _ / _)) in *. set (c2 := bbr_update_cwnd _ _) in *.
  assert (0 <= ap) by apply u32_range. pose proof (cwnd_target_min c1) as Hge.
  assert (bbr_mode (bbr c1) = KCP_BBR_PROBE_RTT -> cwnd_target c1 = 4) as Hrtt.
  { intros Hr. unfold cwnd_target. by rewrite bool_decide_true. }
  unfold KCP_BBR_MIN_CWND_PKTS in *. rewrite (u32_small (cwnd c)), !MAX_max, MIN_min in Hw by lia.
  assert (u32 (cwnd c + Z.max ap 1) <= cwnd c + Z.max ap 1) as Hle by (unfold u32; zlia).
  assert (is_u32 (u32 (cwnd c + Z.max ap 1))) as Hr by apply u32_range.
  assert (4 <= cwnd c2 <= cwnd_target c1 /\ cwnd c2 <= cwnd c + Z.max 1 ap) as [Hb1 Hb2].
  { destruct (Z.ltb_spec (cwnd c) (cwnd_target c1)); rewrite s32_small in Hw by lia; lia. }
  split_and!; try lia.
  - intros Hp. specialize (Hrtt Hp). lia.
  - by rewrite (u32_small (cwnd c2)) by lia.
Qed.

(** ** The mode machine *)

(** The path model after the samples of the acknowledgement. *)
Definition bbr_sampled (c : kcp_connection) (now_us sample_bw rtt_sample_us : Z) : kcp_connection :=
  let c := if 0 <? sample_bw then bbr_update_bw_filter c sample_bw else c in
  bbr_update_min_rtt c now_us rtt_sample_us.

(** The edges of the state machine and what the sampled state [c] must satisfy for
    the code to take them. *)
Inductive bbr_edge (c : kcp_connection) (now_us : Z) : kcp_bbr_mode -> kcp_bbr_mode -> Prop :=
| edge_drain :
    bbr_filled_pipe (bbr (bbr_check_full_pipe c)) = true ->
    bbr_edge c now_us KCP_BBR_STARTUP KCP_BBR_DRAIN
| edge_probe_bw :
    u32 (nsnd_buf c) <= bbr_target_cwnd_pkts c KCP_BBR_GAIN_DEN ->
    bbr_edge c now_us KCP_BBR_DRAIN KCP_BBR_PROBE_BW
| edge_probe_rtt m :
    m <> KCP_BBR_PROBE_RTT -> bbr_min_rtt_us (bbr c) <> 0 ->
    KCP_BBR_MIN_RTT_WIN_US < u64 (now_us - bbr_min_rtt_stamp (bbr c)) ->
    bbr_edge c now_us m KCP_BBR_PROBE_RTT
| edge_exit m :
    0 < bbr_probe_rtt_done_stamp (bbr c) <= now_us ->
    m = (if bbr_filled_pipe (bbr (bbr_check_full_pipe c)) then KCP_BBR_PROBE_BW else KCP_BBR_STARTUP) ->
    bbr_edge c now_us KCP_BBR_PROBE_RTT m.

(** What the later parts read of the model does not change with the mode. *)
Definition same_model (c c' : kcp_connection) : Prop :=
  bbr_btlbw (bbr c') = bbr_btlbw (bbr c) /\ bbr_min_rtt_us (bbr c') = bbr_min_rtt_us (bbr c) /\
  bbr_full_bw (bbr c') = bbr_full_bw (bbr c) /\ bbr_full_bw_cnt (bbr c') = bbr_full_bw_cnt (bbr c) /\
  bbr_filled_pipe (bbr c') = bbr_filled_pipe (bbr c) /\ nsnd_buf c' = nsnd_buf c /\ mss c' = mss c.

#[export] Instance same_model_preorder : PreOrder same_model.
Proof. unfold same_model. split; [by intros c|]. intros c1 c2 c3 H2 H3. intuition congruence. Qed.

Lemma model_set_mode c m t : same_model c (bbr_set_mode c m t).
Proof. by destruct m. Qed.

Lemma bbr_mode_set_mode c m t : bbr_mode (bbr (bbr_set_mode c m t)) = m.
Proof. by destruct m. Qed.

Lemma target_same_model c c' g : same_model c c' -> bbr_target_cwnd_pkts c' g = bbr_target_cwnd_pkts c g.
Proof.
  intros (Hb&Hr&_&_&_&_&Hm). unfold bbr_target_cwnd_pkts, bbr_bdp_bytes. by rewrite Hb, Hr, Hm.
Qed.

Lemma filled_same_model c c' :
  same_model c c' ->
  bbr_filled_pipe (bbr (bbr_check_full_pipe c')) = bbr_filled_pipe (bbr (bbr_check_full_pipe c)).
Proof.
  intros (Hb&_&Hf&Hc&Hp&_&_). unfold bbr_check_full_pipe. rewrite Hb, Hf, Hp.
  repeat case_match; cbn in *; congruence.
Qed.

Lemma check_full_pipe_view c :
  let c' := bbr_check_full_pipe c in
  bbr_mode (bbr c') = bbr_mode (bbr c) /\ bbr_btlbw (bbr c') = bbr_btlbw (bbr c) /\
  bbr_min_rtt_us (bbr c') = bbr_min_rtt_us (bbr c) /\ nsnd_buf c' = nsnd_buf c /\ mss c' = mss c /\
  bbr_probe_rtt_done_stamp (bbr c') = bbr_probe_rtt_done_stamp (bbr c).
Proof. unfold bbr_check_full_pipe. cbv zeta. by repeat case_match. Qed.

Lemma mode_tail c t :
  bbr_mode (bbr (bbr_update_pacing_rate (bbr_update_cycle_phase c t))) = bbr_mode (bbr c).
Proof.
  transitivity (bbr_mode (bbr (bbr_update_cycle_phase c t))).
  - generalize (bbr_update_cycle_phase c t). intros d. unfold bbr_update_pacing_rate. by repeat case_match.
  - unfold bbr_update_cycle_phase. by repeat case_match.
Qed.

Lemma step_maybe_enter c t :
  let c' := bbr_maybe_enter_probe_rtt c t in
  same_model c c' /\
  ((bbr_mode (bbr c') = bbr_mode (bbr c) /\
    bbr_probe_rtt_done_stamp (bbr c') = bbr_probe_rtt_done_stamp (bbr c)) \/
   (bbr_edge c t (bbr_mode (bbr c)) (bbr_mode (bbr c')) /\ bbr_mode (bbr c') = KCP_BBR_PROBE_RTT /\
    bbr_probe_rtt_done_stamp (bbr c') = 0)).
Proof.
  cbv zeta. unfold bbr_maybe_enter_probe_rtt.
  destruct (Z.eqb_spec (bbr_min_rtt_us (bbr c)) 0); [split; [done|by left]|].
  case_bool_decide; [split; [done|by left]|].
  destruct (Z.ltb_spec KCP_BBR_MIN_RTT_WIN_US (u64 (t - bbr_min_rtt_stamp (bbr c)))); [|split; [done|by left]].
  split; [apply model_set_mode|]. right. rewrite bbr_mode_set_mode. split_and!; try done. by constructor.
Qed.

Lemma step_leave_startup c t :
  let c' := bbr_leave_startup c t in
  same_model c c' /\ bbr_probe_rtt_done_stamp (bbr c') = bbr_probe_rtt_done_stamp (bbr c) /\
  (bbr_mode (bbr c') = bbr_mode (bbr c) \/
   bbr_mode (bbr c) = KCP_BBR_STARTUP /\ bbr_mode (bbr c') = KCP_BBR_DRAIN /\
   bbr_filled_pipe (bbr c) = true).
Proof.
  cbv zeta. unfold bbr_leave_startup. case_bool_decide; cbn [andb]; [|split_and!; try done; by left].
  destruct (bbr_filled_pipe (bbr c)); split_and!; try done; by (left + right).
Qed.

Lemma step_leave_drain c t :
  let c' := bbr_leave_drain c t in
  same_model c c' /\ bbr_probe_rtt_done_stamp (bbr c') = bbr_probe_rtt_done_stamp (bbr c) /\
  (bbr_mode (bbr c') = bbr_mode (bbr c) \/
   bbr_mode (bbr c) = KCP_BBR_DRAIN /\ bbr_mode (bbr c') = KCP_BBR_PROBE_BW /\
   u32 (nsnd_buf c) <= bbr_target_cwnd_pkts c KCP_BBR_GAIN_DEN).
Proof.
  cbv zeta. unfold bbr_leave_drain. case_bool_decide; [|split_and!; try done; by left].
  destruct (Z.leb_spec (u32 (nsnd_buf c)) (bbr_target_cwnd_pkts c KCP_BBR_GAIN_DEN));
    split_and!; try done; by (left + right).
Qed.

Lemma step_leave_probe_rtt c t :
  0 <= t -> t + KCP_BBR_PROBE_RTT_US < 18446744073709551616 ->
  let c' := bbr_leave_probe_rtt c t in
  bbr_mode (bbr c') = bbr_mode (bbr c) \/
  bbr_mode (bbr c) = KCP_BBR_PROBE_RTT /\ 0 < bbr_probe_rtt_done_stamp (bbr c) <= t /\
  bbr_mode (bbr c') = (if bbr_filled_pipe (bbr c) then KCP_BBR_PROBE_BW else KCP_BBR_STARTUP).
Proof.
  cbv zeta. intros Ht Hmax. unfold bbr_leave_probe_rtt, KCP_BBR_PROBE_RTT_US in *.
  case_bool_decide; [|by left].
  destruct ((bbr_probe_rtt_done_stamp (bbr c) =? 0) && (u32 (nsnd_buf c) <=? bbr_min_cwnd_pkts c)) eqn:E.
  - cbn. rewrite u64_small by lia. destruct (Z.ltb_spec 0 (t + 200000)); [|by left].
    destruct (Z.leb_spec (t + 200000) t); [lia|by left].
  - destruct (Z.ltb_spec 0 (bbr_probe_rtt_done_stamp (bbr c))); [|by left].
    destruct (Z.leb_spec (bbr_probe_rtt_done_stamp (bbr c)) t); [|by left].
    right. cbn. destruct (bbr_filled_pipe (bbr c)); split_and!; done.
Qed.

(** C28: The modes follow the BBR state machine: an acknowledgement moves
    along its edges only (out of STARTUP when the pipe is full, out of DRAIN when
    the flight fits the bandwidth-delay product, into PROBE_RTT after ten seconds
    without a new minimum, out of it once its deadline has passed), each under its
    condition on the sampled path model. *)
Theorem bbr_mode_machine (c : kcp_connection) (now_us acked_bytes sample_bw rtt_sample_us : Z) :
  0 <= now_us -> now_us + KCP_BBR_PROBE_RTT_US < 18446744073709551616 ->
  rtc (bbr_edge (bbr_sampled c now_us sample_bw rtt_sample_us) now_us)
      (bbr_mode (bbr c))
      (bbr_mode (bbr (bbr_on_ack c now_us acked_bytes sample_bw rtt_sample_us))).
Proof.
  intros Hnow Hmax. unfold bbr_on_ack. destruct (acked_bytes =? 0); [reflexivity|].
  destruct (update_cwnd_spec (bbr_model_update c now_us sample_bw rtt_sample_us) acked_bytes)
    as (_&_&->&_). unfold bbr_model_update. rewrite mode_tail.
  set (s := bbr_sampled c now_us sample_bw rtt_sample_us).
  assert (bbr_mode (bbr c) = bbr_mode (bbr s)) as ->.
  { unfold s, bbr_sampled, bbr_update_min_rtt, bbr_update_bw_filter. by repeat case_match. }
  change (bbr_update_min_rtt _ now_us rtt_sample_us) with s. clearbody s.
  destruct (step_maybe_enter s now_us) as [Hm1 He1].
  set (c1 := bbr_maybe_enter_probe_rtt s now_us) in *.
  destruct (check_full_pipe_view c1) as (Hv1&Hv2&Hv3&Hv4&Hv5&Hv6).
  pose proof (filled_same_model _ _ Hm1) as Hfill.
  set (c2 := bbr_check_full_pipe c1) in *.
  destruct (step_leave_startup c2 now_us) as (Hm3&Hd3&He3). set (c3 := bbr_leave_startup c2 now_us) in *.
  destruct (step_leave_drain c3 now_us) as (Hm4&Hd4&He4). set (c4 := bbr_leave_drain c3 now_us) in *.
  pose proof (step_leave_probe_rtt c4 now_us Hnow Hmax) as He5. cbv zeta in He5.
  set (c5 := bbr_leave_probe_rtt c4 now_us) in *. clearbody c5.
  assert (bbr_filled_pipe (bbr c4) = bbr_filled_pipe (bbr (bbr_check_full_pipe s))) as Hf4.
  { rewrite <- Hfill. destruct Hm3 as (_&_&_&_&H3&_). destruct Hm4 as (_&_&_&_&H4&_). congruence. }
  assert (bbr_target_cwnd_pkts c3 KCP_BBR_GAIN_DEN = bbr_target_cwnd_pkts s KCP_BBR_GAIN_DEN) as Htgt.
  { rewrite (target_same_model c2 c3) by done. rewrite <- (target_same_model s c1) by done.
    unfold bbr_target_cwnd_pkts, bbr_bdp_bytes. by rewrite Hv2, Hv3, Hv5. }
  assert (nsnd_buf c3 = nsnd_buf s) as Hn.
  { destruct Hm1 as (_&_&_&_&_&H1&_). destruct Hm3 as (_&_&_&_&_&H3&_). congruence. }
  assert (rtc (bbr_edge s now_us) (bbr_mode (bbr s)) (bbr_mode (bbr c1))) as R1.
  { destruct He1 as [[-> _]|[? _]]; [reflexivity|by apply rtc_once]. }
  assert (rtc (bbr_edge s now_us) (bbr_mode (bbr c2)) (bbr_mode (bbr c3))) as R3.
  { destruct He3 as [->|(->&->&Hf)]; [reflexivity|]. apply rtc_once, edge_drain. by rewrite <- Hfill. }
  assert (rtc (bbr_edge s now_us) (bbr_mode (bbr c3)) (bbr_mode (bbr c4))) as R4.
  { destruct He4 as [->|(->&->&Hf)]; [reflexivity|]. apply rtc_once, edge_probe_bw. by rewrite <- Hn, <- Htgt. }
  etransitivity; [exact R1|]. rewrite <- Hv1. etransitivity; [exact R3|]. etransitivity; [exact R4|].
  destruct He5 as [->|(->&Hdone&->)]; [reflexivity|]. rewrite Hf4. apply rtc_once, edge_exit; [|done].
  assert (bbr_probe_rtt_done_stamp (bbr c4) = bbr_probe_rtt_done_stamp (bbr c1)) as Hdd by congruence.
  destruct He1 as [[_ Hd]|(_&_&Hd)]; lia.
Qed.

(** ** At a concrete connection *)

(** 1400 byte segments, 1 MB/s, 20 ms. *)
Definition bbr_example : kcp_connection :=
  zero_connection <| mss := 1400 |> <| cwnd := 10 |>
    <| bbr / bbr_bw_filter := [1000000; 0; 0; 0; 0; 0; 0; 0; 0; 0] |>
    <| bbr / bbr_bw_filter_idx := 1 |> <| bbr / bbr_btlbw := 1000000 |>
    <| bbr / bbr_min_rtt_us := 20000 |> <| bbr / bbr_min_rtt_stamp := 1000000 |>
    <| bbr / bbr_pacing_gain_num := 2885 |> <| bbr / bbr_cwnd_gain_num := 2000 |>
    <| bbr / bbr_pacing_rate := 2885000 |>.

Lemma bbr_example_ok : bbr_ok bbr_example.
Proof. constructor; vm_compute; try done; split; done. Qed.

Lemma bbr_on_ack_invariant_witness : bbr_ok (bbr_on_ack bbr_example 2000000 1400 900000 25000).
Proof. apply bbr_on_ack_invariant, bbr_example_ok. Defined.

Lemma bbr_btlbw_windowed_max_witness :
  bbr_btlbw (bbr (fold_left bbr_update_bw_filter [9; 1; 2; 3; 4; 5; 6; 7; 8; 7; 6] zero_connection)) = 8.
Proof.
  apply (bbr_btlbw_windowed_max zero_connection [9; 1; 2; 3; 4; 5; 6; 7; 8; 7; 6]);
    [repeat constructor|done..].
Defined.

Lemma bbr_cwnd_bounds_witness :
  let c' := bbr_on_ack bbr_example 2000000 2800 900000 25000 in
  4 <= cwnd c' <= bbr_target_cwnd (bbr c') /\ cwnd c' <= 10 + Z.max 1 2 /\
  (bbr_mode (bbr c') = KCP_BBR_PROBE_RTT -> cwnd c' = 4) /\ incr c' = u32 (cwnd c' * mss c').
Proof. apply (bbr_cwnd_bounds bbr_example 2000000 2800 900000 25000); done. Defined.

(** Twelve seconds after the last minimum the RTT is probed. *)
Lemma bbr_mode_machine_witness :
  rtc (bbr_edge (bbr_sampled bbr_example 13000000 0 0) 13000000) KCP_BBR_STARTUP KCP_BBR_PROBE_RTT.
Proof. apply (bbr_mode_machine bbr_example 13000000 1400 0 0); vm_compute; done. Defined.
