(* ===== verification/Snd.v ===== *)
(** * Snd: the sender's queues

    [kcp_send] of kcpp.c (fragmentation of a message into [snd_queue]), the pool
    of unused segments, and [on_kcp_ack_pcaket] of kcp_protocol.c (RTT and RTO of
    RFC 6298, removal of acknowledged segments, feeding of the congestion
    control).  The queue counters are plain integers: they count list elements. *)

From S2P Require Import Prelude RbTree Bytes Config Wire Types World Bbr.

(** ** The pool of segments *)

(** What a segment holds: [malloc] gets sizeof(kcp_segment_t) and ETHERNET_MTU bytes,
    and [data] begins 8 bytes before the end of the structure, which its alignment
    rounds up to 128. *)
Definition SEGMENT_ROOM : Z := ETHERNET_MTU + 8.

(** A segment fresh from [malloc].  Its contents do not matter: every field is
    written before the segment is read. *)
Definition fresh_segment : kcp_segment := KcpSegment 0 0 0 0 0 0 0 0 0 0 0 0 0 0 0 0 [].

Definition kcp_segment_send_get : io kcp_connection (option kcp_segment) :=
  c ← get;
  match snd_buf_unused c with
  | seg :: unused =>
      mods (fun c => c <| snd_buf_unused := unused |> <| nsnd_buf_unused ::= Z.pred |>);;
      mret (Some seg)
  | [] => ok ← malloc; mret (if ok : bool then Some fresh_segment else None)
  end.

Definition kcp_segment_send_put (c : kcp_connection) (segment : kcp_segment) : kcp_connection :=
  if nsnd_buf_unused c <? snd_wnd c
  then c <| snd_buf_unused ::= (fun l => l ++ [segment]) |> <| nsnd_buf_unused ::= Z.succ |>
  else c.

(** ** kcp_send *)

(** The loop over the fragments: [i] the index, [data] what remains of the
    message, [buffer_list] the fragments so far.  [None]: no memory. *)
Fixpoint send_fragments (n : nat) (i : Z) (fragmentation packet_sn : Z) (data : bytes)
    (buffer_list : list kcp_segment) : io kcp_connection (option (list kcp_segment)) :=
  match n with
  | O => mret (Some buffer_list)
  | S n =>
      c ← get;
      let packet_size := if mss c <? Zlength data then mss c else Zlength data in
      segment ← kcp_segment_send_get;
      match segment with
      | None =>
          mods (fun c => fold_left kcp_segment_send_put buffer_list c);;
          mret None
      | Some segment =>
          if SEGMENT_ROOM <? packet_size then undefined
          else
          let segment := segment
            <| sg_data := take (Z.to_nat packet_size) data |>
            <| sg_wnd := if i =? 0 then fragmentation else 0 |>
            <| sg_frg := i |> <| sg_scid := scid c |> <| sg_dcid := dcid c |>
            <| sg_len := packet_size |> <| sg_psn := packet_sn |> in
          send_fragments n (i + 1) fragmentation packet_sn
            (drop (Z.to_nat packet_size) data) (buffer_list ++ [segment])
      end
  end.

(** [sock_open]: the context's socket is valid. *)
Definition kcp_send (sock_open : bool) (data : bytes) : io kcp_connection Z :=
  c ← get;
  let size := Zlength data in
  if size =? 0 then mret INVALID_PARAM
  else if KCP_MAX_PACKET_SIZE <? size then mret PACKET_TOO_LARGE
  else if negb sock_open then mret SOCKET_CLOSED
  else if negb (bool_decide (state c = KCP_STATE_CONNECTED)) then mret INVALID_STATE
  else if mss c =? 0 then undefined
  else
    let fragmentation := s32 (u64 (size + mss c - 1) / mss c) in
    if KCP_PACKET_SIZE <? fragmentation then mret PACKET_TOO_LARGE
    else
      buffer_list ← send_fragments (Z.to_nat fragmentation) 0 fragmentation (psn_nxt c) data [];
      match buffer_list with
      | None => mret NO_MEMORY
      | Some l =>
          mods (fun c => c <| snd_queue ::= (fun q => q ++ l) |> <| nsnd_que ::= Z.add (Zlength l) |>
                           <| psn_nxt ::= (fun n => u32 (n + 1)) |>);;
          mret NO_ERROR
      end.

(** ** on_kcp_ack_pcaket *)

(** [HANDLE_SND_BUF], the segment being cut out of [snd_buf] by the loops. *)
Definition handle_snd_buf (c : kcp_connection) (pos : kcp_segment) : kcp_connection :=
  c <| snd_buf_unused ::= (fun l => l ++ [pos]) |> <| nsnd_buf_unused ::= Z.succ |>
    <| nsnd_buf ::= Z.pred |>.

(** RTT and RTO of RFC 6298; C divides towards zero.  The values are those of a build
    that wraps around; [on_kcp_ack_pcaket] records when an operation leaves int32_t. *)
Definition update_rtt (c : kcp_connection) (rtt : Z) : kcp_connection :=
  let c :=
    if rx_srtt c =? 0
    then let c := c <| rx_srtt := rtt |> in c <| rx_rttval := Z.quot (rx_srtt c) 2 |>
    else
      let delta := ABS (s32 (rtt - rx_srtt c)) in
      let c := c <| rx_srtt := Z.quot (s32 (s32 (rx_srtt c * 7) + rtt)) 8 |> in
      c <| rx_rttval := s32 (Z.quot (s32 (3 * rx_rttval c) + delta) 4) |> in
  let rto := s32 (rx_srtt c + MAX (s32 (interval c * 1000)) (s32 (4 * rx_rttval c))) in
  c <| rx_rto := CLAMP rto (rx_minrto c) (KCP_RTO_MAX * 1000) |>.

(** Its signed operations, in int32_t but for the sum with [delta], an int64_t. *)
Definition update_rtt_ops (c : kcp_connection) (rtt : Z) : list Z :=
  let c' := update_rtt c rtt in
  (if rx_srtt c =? 0 then []
   else [rtt - rx_srtt c; ABS (s32 (rtt - rx_srtt c)); rx_srtt c * 7; s32 (rx_srtt c * 7) + rtt; 3 * rx_rttval c]) ++
  [interval c' * 1000; 4 * rx_rttval c';
   rx_srtt c' + MAX (s32 (interval c' * 1000)) (s32 (4 * rx_rttval c'))].

(** [acked_bytes], [sample_bw] and [rtt_sample_us]. *)
Record ack_sample := AckSample { acked_bytes : Z; sample_bw : Z; rtt_sample_us : Z }.

(** What both loops do with a segment they remove. *)
Definition account (c : kcp_connection) (s : ack_sample) (pos : kcp_segment) (timestamp : Z)
  : kcp_connection * ack_sample :=
  let c := c <| tx_bytes ::= (fun n => u64 (n + sg_len pos)) |> in
  let c := if 1 <? sg_xmit pos then c <| rtx_bytes ::= (fun n => u64 (n + sg_len pos)) |> else c in
  let bw := bbr_rate_sample_for_segment c pos timestamp (acked_bytes s) in
  (handle_snd_buf c pos,
   AckSample (u64 (acked_bytes s + sg_len pos)) (MAX (sample_bw s) bw) (rtt_sample_us s)).

Definition segment_rtt (pos : kcp_segment) (packet_ts ack_ts timestamp : Z) : Z :=
  s32 (s32 (s32 timestamp - s32 (sg_ts pos)) - s32 (s32 ack_ts - s32 packet_ts)).

Definition segment_rtt_ops (pos : kcp_segment) (packet_ts ack_ts timestamp : Z) : list Z :=
  let sent := s32 timestamp - s32 (sg_ts pos) in
  let held := s32 ack_ts - s32 packet_ts in
  [sent; held; s32 sent - s32 held].

(** The segment the first loop comes to. *)
Fixpoint acked_segment (buf : list kcp_segment) (sn : Z) : option kcp_segment :=
  match buf with
  | [] => None
  | pos :: buf => if sg_sn pos <? sn then acked_segment buf sn else if sg_sn pos =? sn then Some pos else None
  end.

(** The signed operations of the first loop. *)
Definition ack_rtt_ops (c : kcp_connection) (packet_ts ack_ts sn timestamp : Z) : list Z :=
  match acked_segment (snd_buf c) sn with
  | Some pos =>
      segment_rtt_ops pos packet_ts ack_ts timestamp ++
      (if sg_xmit pos =? 1 then update_rtt_ops c (segment_rtt pos packet_ts ack_ts timestamp) else [])
  | None => []
  end.

(** The first loop: the segment [sn] is acknowledged, those before it were
    skipped. *)
Fixpoint ack_sn_loop (c : kcp_connection) (s : ack_sample) (buf : list kcp_segment)
    (packet_ts ack_ts sn timestamp : Z) : kcp_connection * ack_sample * list kcp_segment :=
  match buf with
  | [] => (c, s, [])
  | pos :: buf =>
      if sg_sn pos <? sn then
        let '(c, s, buf) := ack_sn_loop c s buf packet_ts ack_ts sn timestamp in
        (c, s, pos <| sg_fastack ::= (fun n => u32 (n + 1)) |> :: buf)
      else if sg_sn pos =? sn then
        let rtt := segment_rtt pos packet_ts ack_ts timestamp in
        let '(c, s) :=
          if sg_xmit pos =? 1
          then (update_rtt c rtt,
                if 0 <? rtt then AckSample (acked_bytes s) (sample_bw s) rtt else s)
          else (c, s) in
        let '(c, s) := account c s pos timestamp in
        (c, s, buf)
      else (c, s, pos :: buf)
  end.

(** The second loop: everything before [una] is acknowledged. *)
Fixpoint ack_una_loop (c : kcp_connection) (s : ack_sample) (buf : list kcp_segment)
    (una timestamp : Z) : kcp_connection * ack_sample * list kcp_segment :=
  match buf with
  | [] => (c, s, [])
  | pos :: buf' =>
      if sg_sn pos <? una
      then let '(c, s) := account c s pos timestamp in ack_una_loop c s buf' una timestamp
      else (c, s, buf)
  end.

(** Gives back the unused segments beyond the send window.  [nsnd_buf_unused] is
    not decremented. *)
Definition shrink_snd_buf_unused (c : kcp_connection) : kcp_connection :=
  let nsnd_buf_diff := s32 (s32 (nsnd_buf_unused c) - s32 (snd_wnd c)) in
  c <| snd_buf_unused ::= drop (Z.to_nat nsnd_buf_diff) |>.

Definition shrink_ops (c : kcp_connection) : list Z := [s32 (nsnd_buf_unused c) - s32 (snd_wnd c)].

Definition update_snd_una (c : kcp_connection) : kcp_connection :=
  match snd_buf c with
  | [] => c <| snd_una := snd_nxt c |>
  | first :: _ => c <| snd_una := sg_sn first |>
  end.

(** The state before the congestion control is fed, and the sample. *)
Definition ack_acknowledge (c : kcp_connection) (packet_ts ack_ts sn una timestamp : Z)
  : kcp_connection * ack_sample :=
  let '(c, s, buf) :=
    ack_sn_loop c (AckSample 0 0 (-1)) (snd_buf c) packet_ts ack_ts sn timestamp in
  let c := c <| snd_buf := buf |> in
  let '(c, s, buf) := ack_una_loop c s (snd_buf c) una timestamp in
  let c := c <| snd_buf := buf |> in
  (update_snd_una (shrink_snd_buf_unused c), s).

Definition on_kcp_ack_pcaket (kcp_header : kcp_proto_header) (timestamp : Z)
  : io kcp_connection Z :=
  c ← get;
  if bool_decide (state c = KCP_STATE_DISCONNECTED) then mret NO_ERROR
  else
    mods (fun c => c <| ping / keepalive_next_ts := u64 (timestamp + keepalive_interval (ping c)) |>);;
    match h_data kcp_header with
    | ack_data packet_ts ack_ts sn una =>
        if sn <? snd_una c then mret NO_ERROR
        else if snd_nxt c <? sn then mret NO_ERROR
        else
          c ← get;
          signed (ack_rtt_ops c packet_ts ack_ts sn timestamp);;
          let '(c, s) := ack_acknowledge c packet_ts ack_ts sn una timestamp in
          signed (shrink_ops c);;
          mods (fun _ => c);;
          if 0 <? acked_bytes s then
            if mss c =? 0 then undefined
            else
              mods (fun c =>
                let c := c <| bbr / bbr_delivered ::= (fun n => u64 (n + acked_bytes s)) |>
                           <| bbr / bbr_delivered_ts := timestamp |> in
                bbr_on_ack c timestamp (acked_bytes s) (sample_bw s) (rtt_sample_us s));;
              mret NO_ERROR
          else mret NO_ERROR
    | _ => undefined
    end.

(** ** The invariant of the sender *)

(** Sequence numbers are compared as plain integers by the code; the invariant
    speaks of a connection that has not wrapped them. *)
Record snd_ok (c : kcp_connection) : Prop := {
  ok_buf_sorted : ksorted sg_sn (snd_buf c);
  ok_buf_nxt : Forall (fun s => sg_sn s < snd_nxt c) (snd_buf c);
  ok_buf_una : match snd_buf c with [] => snd_una c = snd_nxt c | s :: _ => snd_una c = sg_sn s end;
  ok_nsnd_buf : nsnd_buf c = Zlength (snd_buf c);
  ok_nsnd_que : nsnd_que c = Zlength (snd_queue c);
  ok_snd_una : 0 <= snd_una c;
  ok_snd_nxt : is_u32 (snd_nxt c);
  ok_minrto : 0 < rx_minrto c <= KCP_RTO_MAX * 1000;
  ok_rto : rx_minrto c <= rx_rto c <= KCP_RTO_MAX * 1000;
}.

Lemma snd_una_le_nxt c : snd_ok c -> snd_una c <= snd_nxt c.
Proof.
  intros []. destruct (snd_buf c) as [|s l]; [lia|]. inversion ok_buf_nxt0; subst. lia.
Qed.

(** ** What the loops compute *)

(** A segment skipped by an acknowledgement of [sn]. *)
Definition bump (sn : Z) (pos : kcp_segment) : kcp_segment :=
  if sg_sn pos <? sn then pos <| sg_fastack ::= (fun n => u32 (n + 1)) |> else pos.

Lemma sg_sn_bump sn pos : sg_sn (bump sn pos) = sg_sn pos.
Proof. unfold bump. by case_match. Qed.
Lemma sg_len_bump sn pos : sg_len (bump sn pos) = sg_len pos.
Proof. unfold bump. by case_match. Qed.
Lemma bump_ge sn pos : sn <= sg_sn pos -> bump sn pos = pos.
Proof. unfold bump. intros. case_match; bprop; [lia|done]. Qed.

Lemma map_bump_ge sn l : Forall (fun s => sn <= sg_sn s) l -> map (bump sn) l = l.
Proof. induction 1 as [|x l Hx _ IH]; simpl; [done|]. by rewrite bump_ge, IH. Qed.

(** The first loop's step on the acknowledged segment. *)
Definition acknowledge (c : kcp_connection) (s : ack_sample) (pos : kcp_segment)
    (packet_ts ack_ts timestamp : Z) : kcp_connection * ack_sample :=
  let rtt := segment_rtt pos packet_ts ack_ts timestamp in
  let '(c, s) :=
    if sg_xmit pos =? 1
    then (update_rtt c rtt, if 0 <? rtt then AckSample (acked_bytes s) (sample_bw s) rtt else s)
    else (c, s) in
  account c s pos timestamp.

Lemma ack_sn_loop_spec c s buf packet_ts ack_ts sn t :
  ksorted sg_sn buf ->
  ack_sn_loop c s buf packet_ts ack_ts sn t =
    (match find_by sg_sn sn buf with
     | Some pos => acknowledge c s pos packet_ts ack_ts t
     | None => (c, s)
     end, map (bump sn) (remove_by sg_sn sn buf)).
Proof.
  induction buf as [|pos buf IH]; intros Hs; [done|].
  apply ksorted_cons in Hs as [Hs Hlt]. cbn [ack_sn_loop].
  unfold find_by, remove_by in *. cbn [List.find List.filter].
  destruct (Z.ltb_spec (sg_sn pos) sn).
  - destruct (Z.eqb_spec (sg_sn pos) sn); [lia|]. rewrite IH by done. cbn [negb map].
    assert (pos <| sg_fastack ::= (fun n => u32 (n + 1)) |> = bump sn pos) as ->.
    { unfold bump. destruct (Z.ltb_spec (sg_sn pos) sn); [done|lia]. }
    destruct (List.find _ buf) as [p|]; [|done]. by destruct (acknowledge c s p packet_ts ack_ts t).
  - assert (Forall (fun x => sn < sg_sn x) buf) as Hall.
    { apply Forall_forall. intros x Hx. specialize (Hlt x Hx). lia. }
    assert (List.filter (fun x => negb (sg_sn x =? sn)) buf = buf) as Hrem.
    { apply (remove_by_id sg_sn sn). intros y Hy. rewrite Forall_forall in Hall. specialize (Hall y Hy). lia. }
    destruct (Z.eqb_spec (sg_sn pos) sn); cbn [negb]; rewrite Hrem.
    + rewrite map_bump_ge by (eapply Forall_impl; [done|]; simpl; lia).
      unfold acknowledge. destruct (sg_xmit pos =? 1).
      * by destruct (account _ _ _ _).
      * by destruct (account _ _ _ _).
    + assert (List.find (fun x => sg_sn x =? sn) buf = None) as ->.
      { apply (find_by_None sg_sn sn). intros y Hy. rewrite Forall_forall in Hall. specialize (Hall y Hy). lia. }
      cbn [map]. rewrite map_bump_ge by (eapply Forall_impl; [done|]; simpl; lia).
      by rewrite bump_ge by lia.
Qed.

(** Two connections that differ in what an acknowledgement touches outside
    [snd_buf]. *)
Definition same_but_ack (c c' : kcp_connection) : Prop :=
  c' = c <| tx_bytes := tx_bytes c' |> <| rtx_bytes := rtx_bytes c' |>
         <| snd_buf_unused := snd_buf_unused c' |> <| nsnd_buf_unused := nsnd_buf_unused c' |>
         <| nsnd_buf := nsnd_buf c' |> <| rx_srtt := rx_srtt c' |> <| rx_rttval := rx_rttval c' |>
         <| rx_rto := rx_rto c' |>.

#[export] Instance same_but_ack_preorder : PreOrder same_but_ack.
Proof.
  unfold same_but_ack. split; [by intros []|]. intros c1 c2 c3 H2 H3.
  rewrite H3 at 1. rewrite H2 at 1. done.
Qed.

Lemma frame_update_rtt c rtt : same_but_ack c (update_rtt c rtt).
Proof. unfold update_rtt. case_match; by destruct c. Qed.

Lemma frame_account c s pos t : same_but_ack c (account c s pos t).1.
Proof. unfold account. case_match; by destruct c. Qed.

Lemma update_rtt_rto c rtt :
  rx_minrto c <= KCP_RTO_MAX * 1000 ->
  rx_minrto c <= rx_rto (update_rtt c rtt) <= KCP_RTO_MAX * 1000 /\
  nsnd_buf (update_rtt c rtt) = nsnd_buf c /\ tx_bytes (update_rtt c rtt) = tx_bytes c.
Proof.
  intros H. unfold update_rtt. case_match; (split; [by apply CLAMP_bounds|done]).
Qed.

Lemma account_spec c s pos t :
  let '(c', s') := account c s pos t in
  same_but_ack c c' /\ nsnd_buf c' = nsnd_buf c - 1 /\ tx_bytes c' = u64 (tx_bytes c + sg_len pos) /\
  rx_rto c' = rx_rto c /\ acked_bytes s' = u64 (acked_bytes s + sg_len pos).
Proof.
  pose proof (frame_account c s pos t) as Hf. unfold account in *. cbn [fst] in Hf.
  split_and!; try done; case_match; cbn; done || lia.
Qed.

Fixpoint account_all (c : kcp_connection) (s : ack_sample) (l : list kcp_segment) (t : Z)
  : kcp_connection * ack_sample :=
  match l with
  | [] => (c, s)
  | pos :: l => let '(c, s) := account c s pos t in account_all c s l t
  end.

Lemma account_all_spec c s l t :
  is_u64 (acked_bytes s) -> is_u64 (tx_bytes c) ->
  let '(c', s') := account_all c s l t in
  same_but_ack c c' /\ nsnd_buf c' = nsnd_buf c - Zlength l /\
  tx_bytes c' = u64 (tx_bytes c + Zsum (map sg_len l)) /\ rx_rto c' = rx_rto c /\
  acked_bytes s' = u64 (acked_bytes s + Zsum (map sg_len l)).
Proof.
  revert c s. induction l as [|pos l IH]; intros c s Ha Ht; cbn [account_all map Zsum].
  - split_and!; [reflexivity|unfold Zlength; simpl; lia| |done|];
      by rewrite Z.add_0_r, u64_small.
  - pose proof (account_spec c s pos t) as Hs. destruct (account c s pos t) as [c1 s1].
    destruct Hs as (Hf&Hn&Htx&Hr&Hac).
    specialize (IH c1 s1). destruct (account_all c1 s1 l t) as [c2 s2].
    destruct IH as (Hf2&Hn2&Htx2&Hr2&Hac2); [rewrite Hac; apply u64_range|rewrite Htx; apply u64_range|].
    rewrite Zlength_cons. split_and!.
    + by etransitivity.
    + lia.
    + rewrite Htx2, Htx. unfold u64. rewrite Zplus_mod_idemp_l. f_equal. lia.
    + congruence.
    + rewrite Hac2, Hac. unfold u64. rewrite Zplus_mod_idemp_l. f_equal. lia.
Qed.

Lemma ack_una_loop_spec c s buf una t :
  ksorted sg_sn buf ->
  ack_una_loop c s buf una t =
    (account_all c s (List.filter (fun p => sg_sn p <? una) buf) t,
     List.filter (fun p => negb (sg_sn p <? una)) buf).
Proof.
  revert c s. induction buf as [|pos buf IH]; intros c s Hs; [done|].
  apply ksorted_cons in Hs as [Hs Hlt]. cbn [ack_una_loop List.filter].
  destruct (Z.ltb_spec (sg_sn pos) una); cbn [negb].
  - cbn [account_all]. destruct (account c s pos t). by rewrite IH.
  - assert (Forall (fun p => (sg_sn p <? una) = false) buf) as Hall.
    { apply Forall_forall. intros p Hp. specialize (Hlt p Hp). apply Z.ltb_ge. lia. }
    assert (List.filter (fun p => sg_sn p <? una) buf = []) as ->.
    { clear -Hall. induction Hall as [|x l Hx _ IH]; simpl; [done|]. by rewrite Hx. }
    assert (List.filter (fun p => negb (sg_sn p <? una)) buf = buf) as ->; [|done].
    clear -Hall. induction Hall as [|x l Hx _ IH]; simpl; [done|]. by rewrite Hx, IH.
Qed.

Lemma acknowledge_spec c s pos packet_ts ack_ts t :
  rx_minrto c <= rx_rto c <= KCP_RTO_MAX * 1000 ->
  let '(c', s') := acknowledge c s pos packet_ts ack_ts t in
  same_but_ack c c' /\ nsnd_buf c' = nsnd_buf c - 1 /\ tx_bytes c' = u64 (tx_bytes c + sg_len pos) /\
  rx_minrto c <= rx_rto c' <= KCP_RTO_MAX * 1000 /\
  acked_bytes s' = u64 (acked_bytes s + sg_len pos).
Proof.
  intros Hr. unfold acknowledge. set (rtt := segment_rtt _ _ _ _).
  destruct (sg_xmit pos =? 1).
  - destruct (update_rtt_rto c rtt) as (Hr1&Hn1&Ht1); [lia|].
    set (s1 := if 0 <? rtt then _ else s).
    assert (acked_bytes s1 = acked_bytes s) as Hs1 by (unfold s1; by case_match).
    pose proof (account_spec (update_rtt c rtt) s1 pos t) as Ha.
    destruct (account _ _ _ _) as [c' s']. destruct Ha as (Hf&Hn&Ht&Hro&Hac).
    split_and!; try congruence; try lia. etransitivity; [apply frame_update_rtt|done].
  - pose proof (account_spec c s pos t) as Ha. destruct (account _ _ _ _) as [c' s'].
    destruct Ha as (?&?&?&->&?). split_and!; try done; lia.
Qed.

(** Acknowledged by [sn] or covered by [una]. *)
Definition is_acked (sn una : Z) (p : kcp_segment) : bool := (sg_sn p =? sn) || (sg_sn p <? una).

Lemma acked_split sn una buf :
  ksorted sg_sn buf ->
  let rest := map (bump sn) (remove_by sg_sn sn buf) in
  let found := match find_by sg_sn sn buf with Some p => [p] | None => [] end in
  let later := List.filter (fun p => sg_sn p <? una) rest in
  let acked := List.filter (is_acked sn una) buf in
  List.filter (fun p => negb (sg_sn p <? una)) rest =
    map (bump sn) (List.filter (fun p => negb (is_acked sn una p)) buf) /\
  Zsum (map sg_len found) + Zsum (map sg_len later) = Zsum (map sg_len acked) /\
  Zlength found + Zlength later = Zlength acked.
Proof.
  intros Hs. cbv zeta. split_and!.
  - rewrite filter_map_comm by (intros; by rewrite sg_sn_bump). f_equal.
    unfold remove_by. rewrite filter_and. apply filter_ext. intros p. unfold is_acked.
    by rewrite negb_orb.
  - rewrite filter_map_comm by (intros; by rewrite sg_sn_bump).
    rewrite map_map. rewrite (map_ext (fun x => sg_len (bump sn x)) sg_len) by (intros; apply sg_len_bump).
    assert (List.filter (fun p => sg_sn p <? una) (remove_by sg_sn sn buf) =
            List.filter (is_acked sn una) (remove_by sg_sn sn buf)) as ->.
    { unfold remove_by. rewrite !filter_and. apply filter_ext. intros p. unfold is_acked.
      by destruct (sg_sn p =? sn). }
    destruct (find_by sg_sn sn buf) as [p|] eqn:E.
    + pose proof (find_remove_perm _ _ _ _ Hs E) as Hp. apply find_by_Some in E as [_ Hk].
      rewrite (Zsum_perm (map sg_len (List.filter (is_acked sn una) buf)) (map sg_len (List.filter (is_acked sn una) (p :: remove_by sg_sn sn buf))))
        by (by apply Permutation_map, filter_perm).
      cbn [List.filter]. unfold is_acked at 2. rewrite Hk, Z.eqb_refl. cbn [orb map Zsum]. lia.
    + by rewrite (find_None_remove _ _ _ E).
  - rewrite filter_map_comm by (intros; by rewrite sg_sn_bump).
    unfold Zlength at 2. rewrite length_map. fold (Zlength (List.filter (fun p => sg_sn p <? una) (remove_by sg_sn sn buf))).
    assert (List.filter (fun p => sg_sn p <? una) (remove_by sg_sn sn buf) =
            List.filter (is_acked sn una) (remove_by sg_sn sn buf)) as ->.
    { unfold remove_by. rewrite !filter_and. apply filter_ext. intros p. unfold is_acked.
      by destruct (sg_sn p =? sn). }
    destruct (find_by sg_sn sn buf) as [p|] eqn:E.
    + pose proof (find_remove_perm _ _ _ _ Hs E) as Hp. apply find_by_Some in E as [_ Hk].
      rewrite (Zlength_perm (List.filter (is_acked sn una) buf) (List.filter (is_acked sn una) (p :: remove_by sg_sn sn buf)))
        by (by apply filter_perm).
      cbn [List.filter]. unfold is_acked at 2. rewrite Hk, Z.eqb_refl. cbn [orb]. rewrite !Zlength_cons, Zlength_nil. lia.
    + by rewrite (find_None_remove _ _ _ E).
Qed.

(** What the invariant reads. *)
Definition snd_view (c : kcp_connection) :=
  (snd_buf c, snd_una c, snd_nxt c, nsnd_buf c, snd_queue c, nsnd_que c, rx_minrto c, rx_rto c).

Lemma snd_ok_view c c' : snd_view c' = snd_view c -> snd_ok c -> snd_ok c'.
Proof.
  unfold snd_view. intros [= H1 H2 H3 H4 H5 H6 H7 H8] [].
  constructor; rewrite ?H1, ?H2, ?H3, ?H4, ?H5, ?H6, ?H7, ?H8; done.
Qed.

(** The invariant reads of the segments their serial numbers alone. *)
Definition snd_keys (c : kcp_connection) :=
  (map sg_sn (snd_buf c), snd_una c, snd_nxt c, nsnd_buf c, Zlength (snd_queue c), nsnd_que c, rx_minrto c, rx_rto c).

Lemma snd_ok_keys c c' : snd_keys c' = snd_keys c -> snd_ok c -> snd_ok c'.
Proof.
  unfold snd_keys. intros [= Hk H2 H3 H4 H5 H6 H7 H8] [].
  assert (Zlength (snd_buf c') = Zlength (snd_buf c)) as Hl
    by (unfold Zlength; rewrite <- (length_map sg_sn (snd_buf c')), Hk, length_map; done).
  constructor; rewrite ?H2, ?H3, ?H4, ?H5, ?H6, ?H7, ?H8, ?Hl; try done.
  - by apply (ksorted_same_keys _ (snd_buf c)).
  - apply (Forall_map sg_sn (fun n => n < snd_nxt c)). rewrite Hk. by apply Forall_map.
  - destruct (snd_buf c'), (snd_buf c); simplify_eq/=; [done|]. lia.
Qed.

Lemma view_same_but_bbr c c' : same_but_bbr c c' -> snd_view c' = snd_view c.
Proof. unfold same_but_bbr. intros ->. done. Qed.

(** [update_snd_una] on a sorted buffer restores the invariant. *)
Lemma snd_una_advances c l sn :
  snd_ok c ->
  let l' := map (bump sn) (List.filter l (snd_buf c)) in
  ksorted sg_sn l' /\ Forall (fun s => sg_sn s < snd_nxt c) l' /\
  Forall (fun s => snd_una c <= sg_sn s) l'.
Proof.
  intros [Hs Hn Hu _ _ _ _ _ _]. cbv zeta. split_and!.
  - apply ksorted_map; [apply sg_sn_bump|]. by apply ksorted_filter.
  - apply Forall_map, Forall_lfilter. eapply Forall_impl; [done|]. intros x Hx. simpl. by rewrite sg_sn_bump.
  - apply Forall_map, Forall_lfilter, Forall_forall. intros x Hx. simpl. rewrite sg_sn_bump.
    destruct (snd_buf c) as [|y k]; [by apply elem_of_nil in Hx|]. rewrite Hu.
    apply ksorted_cons in Hs as [_ Hlt]. apply elem_of_cons in Hx as [->|Hx]; [lia|]. specialize (Hlt x Hx). lia.
Qed.

(** What an acknowledgement leaves alone. *)
Definition ack_static (c : kcp_connection) :=
  (snd_nxt c, snd_queue c, nsnd_que c, rx_minrto c, (mss c, state c, bbr c, ping c, cwnd c),
   (rcv_nxt c, rcv_buf c, rcv_packet_list c, rcv_queue c, probe c, mtu c)).

Lemma static_same_but_ack c c' : same_but_ack c c' -> ack_static c' = ack_static c.
Proof. unfold same_but_ack. intros ->. done. Qed.

(** The first loop with what it accounts for. *)
Lemma ack_sn_stage c packet_ts ack_ts sn t :
  snd_ok c -> is_u64 (tx_bytes c) ->
  let found := match find_by sg_sn sn (snd_buf c) with Some p => [p] | None => [] end in
  exists c1 s1,
    ack_sn_loop c (AckSample 0 0 (-1)) (snd_buf c) packet_ts ack_ts sn t =
      (c1, s1, map (bump sn) (remove_by sg_sn sn (snd_buf c))) /\
    same_but_ack c c1 /\ nsnd_buf c1 = nsnd_buf c - Zlength found /\
    tx_bytes c1 = u64 (tx_bytes c + Zsum (map sg_len found)) /\
    rx_minrto c <= rx_rto c1 <= KCP_RTO_MAX * 1000 /\
    acked_bytes s1 = u64 (Zsum (map sg_len found)).
Proof.
  intros [Hs Hn Hu Hcnt Hq Hu0 Hnxt Hmin Hrto] Htx. cbv zeta. rewrite ack_sn_loop_spec by done.
  destruct (find_by sg_sn sn (snd_buf c)) as [p|].
  - pose proof (acknowledge_spec c (AckSample 0 0 (-1)) p packet_ts ack_ts t Hrto) as Ha.
    destruct (acknowledge _ _ _ _ _ _) as [c1 s1]. destruct Ha as (?&?&Ht&?&Ha).
    exists c1, s1. cbn in Ha |- *. unfold Zlength. simpl. rewrite Z.add_0_r. done.
  - exists c, (AckSample 0 0 (-1)). unfold Zlength. cbn.
    split_and!; [done|reflexivity|lia|by rewrite Z.add_0_r, u64_small|lia..|done].
Qed.

(** Both loops. *)
Lemma ack_loops c packet_ts ack_ts sn una t :
  snd_ok c -> is_u64 (tx_bytes c) ->
  let acked := List.filter (is_acked sn una) (snd_buf c) in
  exists c1 s1 c2 s2 rest,
    ack_sn_loop c (AckSample 0 0 (-1)) (snd_buf c) packet_ts ack_ts sn t = (c1, s1, rest) /\
    ack_una_loop (c1 <| snd_buf := rest |>) s1 rest una t =
      (c2, s2, map (bump sn) (List.filter (fun p => negb (is_acked sn una p)) (snd_buf c))) /\
    ack_static c2 = ack_static c /\ nsnd_buf c2 = nsnd_buf c - Zlength acked /\
    tx_bytes c2 = u64 (tx_bytes c + Zsum (map sg_len acked)) /\
    rx_minrto c <= rx_rto c2 <= KCP_RTO_MAX * 1000 /\
    acked_bytes s2 = u64 (Zsum (map sg_len acked)).
Proof.
  intros Hok Htx. cbv zeta. pose proof Hok as [Hs _ _ _ _ _ _ _ _].
  destruct (acked_split sn una (snd_buf c) Hs) as (Hkeep & Hsum & Hlen).
  destruct (ack_sn_stage c packet_ts ack_ts sn t Hok Htx) as (c1&s1&He&Hf1&Hn1&Ht1&Hr1&Ha1).
  set (rest := map (bump sn) (remove_by sg_sn sn (snd_buf c))) in *.
  assert (ksorted sg_sn rest) as Hsr by (apply ksorted_map; [apply sg_sn_bump|by apply ksorted_remove_by]).
  pose proof (account_all_spec (c1 <| snd_buf := rest |>) s1
               (List.filter (fun p => sg_sn p <? una) rest) t) as H2.
  destruct (account_all _ _ _ _) as [c2 s2] eqn:E2.
  destruct H2 as (Hf2&Hn2&Ht2&Hr2&Ha2); [rewrite Ha1; apply u64_range|cbn; rewrite Ht1; apply u64_range|].
  cbn in Hn2, Ht2, Hr2. exists c1, s1, c2, s2, rest.
  split_and!; [done|by rewrite ack_una_loop_spec, E2, Hkeep| | | |lia|lia|].
  - rewrite (static_same_but_ack _ _ Hf2). rewrite <- (static_same_but_ack _ _ Hf1). done.
  - lia.
  - rewrite Ht2, Ht1, <- Hsum. unfold u64. rewrite Zplus_mod_idemp_l. f_equal. lia.
  - rewrite Ha2, Ha1, <- Hsum. unfold u64. rewrite Zplus_mod_idemp_l. done.
Qed.

(** The end of the acknowledgement: [snd_una] follows the buffer. *)
Lemma ack_finish c c2 sn (keep : kcp_segment -> bool) :
  let buf' := map (bump sn) (List.filter keep (snd_buf c)) in
  let c3 := update_snd_una (shrink_snd_buf_unused (c2 <| snd_buf := buf' |>)) in
  snd_ok c -> ack_static c2 = ack_static c ->
  nsnd_buf c2 = nsnd_buf c - Zlength (List.filter (fun p => negb (keep p)) (snd_buf c)) ->
  rx_minrto c <= rx_rto c2 <= KCP_RTO_MAX * 1000 ->
  snd_ok c3 /\ snd_una c <= snd_una c3 <= snd_nxt c /\ ack_static c3 = ack_static c /\
  snd_buf c3 = buf' /\ tx_bytes c3 = tx_bytes c2.
Proof.
  cbv zeta. intros Hok Hst Hcnt2 Hr2. pose proof Hok as [Hs Hn Hu Hcnt Hq Hu0 Hnxt Hmin Hrto].
  destruct (snd_una_advances c keep sn Hok) as (Hs'&Hn'&Hu').
  assert (Zlength (List.filter (fun p => negb (keep p)) (snd_buf c)) +
          Zlength (map (bump sn) (List.filter keep (snd_buf c))) = Zlength (snd_buf c)) as Hcount.
  { unfold Zlength. rewrite length_map.
    clear. induction (snd_buf c) as [|x l IH]; simpl; [done|]. destruct (keep x); simpl; lia. }
  set (buf' := map (bump sn) (List.filter keep (snd_buf c))) in *.
  injection Hst as Hx1 Hx2 Hx3 Hx4 Hx5 Hx6 Hx7 Hx8 Hx9 Hx10 Hx11 Hx12 Hx13 Hx14 Hx15.
  pose proof (snd_una_le_nxt c Hok) as Hle. unfold update_snd_una, shrink_snd_buf_unused. cbn.
  destruct buf' as [|b l]; cbn; (split_and!; [constructor; cbn; try done; try lia| | | | |done]);
    rewrite ?Hx1, ?Hx2, ?Hx3; try lia; try done.
  all: try (inversion Hn'; inversion Hu'; subst; lia).
  all: unfold ack_static; cbn; congruence.
Qed.

Lemma ack_acknowledge_spec c packet_ts ack_ts sn una t :
  snd_ok c -> is_u64 (tx_bytes c) ->
  let '(c', s) := ack_acknowledge c packet_ts ack_ts sn una t in
  let acked := List.filter (is_acked sn una) (snd_buf c) in
  snd_ok c' /\ snd_una c <= snd_una c' <= snd_nxt c /\ ack_static c' = ack_static c /\
  snd_buf c' = map (bump sn) (List.filter (fun p => negb (is_acked sn una p)) (snd_buf c)) /\
  tx_bytes c' = u64 (tx_bytes c + Zsum (map sg_len acked)) /\
  acked_bytes s = u64 (Zsum (map sg_len acked)).
Proof.
  intros Hok Htx.
  destruct (ack_loops c packet_ts ack_ts sn una t Hok Htx)
    as (c1&s1&c2&s2&rest&He1&He2&Hst&Hn2&Ht2&Hr2&Ha2).
  unfold ack_acknowledge. rewrite He1. change (snd_buf (c1 <| snd_buf := rest |>)) with rest.
  rewrite He2. destruct (ack_finish c c2 sn (fun p => negb (is_acked sn una p))) as (?&?&?&?&Ht3); try done.
  - rewrite Hn2. do 2 f_equal. apply filter_ext. intros p. by rewrite negb_involutive.
  - split_and!; try done; lia || (by rewrite Ht3).
Qed.

(** The deadline of the keepalive, put off. *)
Definition pinged (t : Z) (c : kcp_connection) : kcp_connection :=
  c <| ping / keepalive_next_ts := u64 (t + keepalive_interval (ping c)) |>.

(** The signed overflows of an ACK. *)
Definition ack_flaws (c : kcp_connection) (packet_ts ack_ts sn una t : Z) : list flaw :=
  if (snd_una c <=? sn) && (sn <=? snd_nxt c)
  then int32_flaws (ack_rtt_ops c packet_ts ack_ts sn t) ++
       int32_flaws (shrink_ops (ack_acknowledge c packet_ts ack_ts sn una t).1)
  else [].

Lemma ack_flaws_only c packet_ts ack_ts sn una t :
  Forall (fun f => f = SignedOverflow) (ack_flaws c packet_ts ack_ts sn una t).
Proof. unfold ack_flaws. case_match; [|constructor]. apply Forall_app. split; apply int32_flaws_only. Qed.

(** One ACK. *)
Lemma ack_run (c : kcp_connection) (e : env) (h : kcp_proto_header)
    (packet_ts ack_ts sn una t : Z) :
  snd_ok c -> is_u64 (tx_bytes c) -> mss c <> 0 -> state c <> KCP_STATE_DISCONNECTED ->
  h_data h = ack_data packet_ts ack_ts sn una ->
  exists c', on_kcp_ack_pcaket h t (c, e) =
      Some (NO_ERROR, (c', with_flaws (ack_flaws (pinged t c) packet_ts ack_ts sn una t) e)) /\
    snd_ok c' /\ snd_nxt c' = snd_nxt c /\ snd_queue c' = snd_queue c /\
    snd_una c <= snd_una c' <= snd_nxt c /\ (mss c', mtu c') = (mss c, mtu c) /\
    if (snd_una c <=? sn) && (sn <=? snd_nxt c) then
      snd_buf c' = map (bump sn) (List.filter (fun p => negb (is_acked sn una p)) (snd_buf c)) /\
      tx_bytes c' = u64 (tx_bytes c + Zsum (map sg_len (List.filter (is_acked sn una) (snd_buf c))))
    else c' = pinged t c.
Proof.
  intros Hok Htx Hmss Hst Hd. unfold on_kcp_ack_pcaket. run.
  rewrite bool_decide_false by done. rewrite Hd.
  change (set_field ping _ c) with (pinged t c). set (c0 := pinged t c).
  assert (snd_ok c0) as Hok0 by (by apply (snd_ok_view c)).
  pose proof (snd_una_le_nxt c Hok) as Hle. unfold ack_flaws.
  change (snd_una c0) with (snd_una c). change (snd_nxt c0) with (snd_nxt c).
  destruct (Z.leb_spec (snd_una c) sn) as [H1|H1]; cbn [andb];
    [|exists c0; rewrite with_flaws_nil; destruct (Z.ltb_spec sn (snd_una c)); [split_and!; done || lia|lia]].
  destruct (Z.ltb_spec sn (snd_una c)); [lia|].
  destruct (Z.leb_spec sn (snd_nxt c)) as [H2|H2];
    [|exists c0; rewrite with_flaws_nil; destruct (Z.ltb_spec (snd_nxt c) sn); [split_and!; done || lia|lia]].
  destruct (Z.ltb_spec (snd_nxt c) sn); [lia|].
  pose proof (ack_acknowledge_spec c0 packet_ts ack_ts sn una t Hok0 Htx) as Hs. cbn [fst].
  destruct (ack_acknowledge c0 _ _ _ _ _) as [c1 s]. cbn [fst]. rewrite with_flaws_app. destruct Hs as (Hok1&Hu1&Hstat&Hb1&Ht1&_).
  injection Hstat as Hx1 Hx2 Hx3 Hx4 Hx5 _ _ _ _ _ _ _ _ _ Hx6.
  destruct (0 <? acked_bytes s).
  - rewrite Hx5. destruct (Z.eqb_spec (mss c) 0); [done|].
    set (c2 := bbr_on_ack (c1 <| bbr / bbr_delivered ::= (fun n => u64 (n + acked_bytes s)) |>
        <| bbr / bbr_delivered_ts := t |>) t (acked_bytes s) (sample_bw s) (rtt_sample_us s)).
    exists c2.
    assert (snd_view c2 = snd_view c1 /\ tx_bytes c2 = tx_bytes c1 /\ (mss c2, mtu c2) = (mss c, mtu c)) as (Hv & Ht2 & Hmm).
    { pose proof (frame_on_ack (c1 <| bbr / bbr_delivered ::= (fun n => u64 (n + acked_bytes s)) |>
        <| bbr / bbr_delivered_ts := t |>) t (acked_bytes s) (sample_bw s) (rtt_sample_us s)) as Hf.
      fold c2 in Hf. unfold same_but_bbr in Hf. clearbody c2. rewrite Hf. by split_and!; [..|cbn; rewrite Hx5, Hx6]. }
    pose proof Hv as Hv'. injection Hv' as V1 V2 V3 V4 V5 V6 V7 V8.
    split_and!; try by apply (snd_ok_view c1).
    all: rewrite ?V1, ?V2, ?V3, ?V5, ?Ht2; done || apply Hu1.
  - exists c1. split_and!; try done; try apply Hu1. by rewrite Hx5, Hx6.
Qed.

(** C18: An ACK on a live connection: a serial number outside
    [[snd_una, snd_nxt]] changes nothing but the keepalive deadline; one inside
    removes from [snd_buf] exactly the segments it names or its [una] covers,
    counts their bytes as delivered, raises [fastack] of the skipped ones, moves
    [snd_una] forward within the window, and keeps the retransmission timeout
    within its bounds and the sender's invariant.  Of the environment it changes the
    record of flaws alone: the operations on the times of the ACK that leave int32_t. *)
Theorem on_kcp_ack_correct (c : kcp_connection) (e : env) (h : kcp_proto_header)
    (packet_ts ack_ts sn una t : Z) :
  snd_ok c -> is_u64 (tx_bytes c) -> mss c <> 0 -> state c <> KCP_STATE_DISCONNECTED ->
  h_data h = ack_data packet_ts ack_ts sn una ->
  exists c', on_kcp_ack_pcaket h t (c, e) =
      Some (NO_ERROR, (c', with_flaws (ack_flaws (pinged t c) packet_ts ack_ts sn una t) e)) /\
    snd_ok c' /\ snd_nxt c' = snd_nxt c /\ snd_queue c' = snd_queue c /\
    snd_una c <= snd_una c' <= snd_nxt c /\
    if (snd_una c <=? sn) && (sn <=? snd_nxt c) then
      snd_buf c' = map (bump sn) (List.filter (fun p => negb (is_acked sn una p)) (snd_buf c)) /\
      tx_bytes c' = u64 (tx_bytes c + Zsum (map sg_len (List.filter (is_acked sn una) (snd_buf c))))
    else c' = pinged t c.
Proof.
  intros Hok Htx Hmss Hst Hd. destruct (ack_run c e h packet_ts ack_ts sn una t Hok Htx Hmss Hst Hd)
    as (c' & Hrun & Hok' & Hn & Hq & Hu & _ & Hres). by exists c'.
Qed.

(** ** Fragmentation *)

(** The fragments [i], [i+1], ... of a message cut in [n] pieces. *)
Fixpoint fragments_of (c : kcp_connection) (n psn i : Z) (l : list kcp_segment) : Prop :=
  match l with
  | [] => True
  | s :: l =>
      sg_frg s = i /\ sg_psn s = psn /\ sg_wnd s = (if i =? 0 then n else 0) /\
      sg_scid s = scid c /\ sg_dcid s = dcid c /\
      sg_len s = Zlength (sg_data s) /\ 0 < sg_len s <= mss c /\ fragments_of c n psn (i + 1) l
  end.

(** Two states that differ in the pool of unused segments and in the answers of
    [malloc]. *)
Definition same_but_pool (c c' : kcp_connection) : Prop :=
  c' = c <| snd_buf_unused := snd_buf_unused c' |> <| nsnd_buf_unused := nsnd_buf_unused c' |>.
Definition only_malloc (e e' : env) : Prop := e' = e <| e_malloc := e_malloc e' |>.

#[export] Instance same_but_pool_preorder : PreOrder same_but_pool.
Proof.
  unfold same_but_pool. split; [by intros []|]. intros c1 c2 c3 H2 H3.
  rewrite H3 at 1. rewrite H2 at 1. done.
Qed.
#[export] Instance only_malloc_preorder : PreOrder only_malloc.
Proof.
  unfold only_malloc. split; [by intros []|]. intros c1 c2 c3 H2 H3.
  rewrite H3 at 1. rewrite H2 at 1. done.
Qed.

Lemma malloc_spec {X} (x : X) e :
  exists b e', malloc (x, e) = Some (b, (x, e')) /\ only_malloc e e' /\
    (memory_available e -> memory_available e' /\ b = true).
Proof.
  unfold malloc, memory_available. destruct (e_malloc e) as [|b l] eqn:E; cbn.
  - eexists _, _. split_and!; [done|by destruct e|]. intros _. split; [constructor|done].
  - eexists _, _. split_and!; [done|by destruct e|]. intros H. by inversion H.
Qed.

Lemma send_get_spec c e :
  exists r c' e', kcp_segment_send_get (c, e) = Some (r, (c', e')) /\
    same_but_pool c c' /\ only_malloc e e' /\
    (memory_available e -> memory_available e' /\ is_Some r).
Proof.
  unfold kcp_segment_send_get. run. destruct (snd_buf_unused c) as [|s l].
  - destruct (malloc_spec c e) as (b & e' & -> & He & Hm). eexists _, _, _.
    split_and!; [done|reflexivity|done|]. intros [? ->]%Hm. split; [done|by eexists].
  - cbn. eexists _, _, _. split_and!; [done|by destruct c|reflexivity|]. by eauto.
Qed.

Lemma send_put_all_pool l c : same_but_pool c (fold_left kcp_segment_send_put l c).
Proof.
  revert c. induction l as [|s l IH]; intros c; [reflexivity|]. cbn [fold_left].
  etransitivity; [|apply IH]. unfold kcp_segment_send_put. case_match; by destruct c.
Qed.

Lemma send_fragments_spec n i frag psn data buf c e :
  0 < mss c -> Z.min (mss c) (Zlength data) <= SEGMENT_ROOM -> (Z.of_nat n - 1) * mss c < Zlength data <= Z.of_nat n * mss c \/ n = 0%nat /\ data = [] ->
  exists r c' e', send_fragments n i frag psn data buf (c, e) = Some (r, (c', e')) /\
    same_but_pool c c' /\ only_malloc e e' /\
    (memory_available e -> memory_available e' /\ is_Some r) /\
    match r with
    | Some l => exists frags, l = buf ++ frags /\ fragments_of c frag psn i frags /\
                  List.concat (map sg_data frags) = data /\ length frags = n
    | None => True
    end.
Proof.
  revert i data buf c e. induction n as [|n IH]; intros i data buf c e Hm Hroom Hsz.
  - assert (data = []) as -> by (destruct Hsz as [?|[_ ?]]; [apply nil_length_inv; unfold Zlength in *; lia|done]).
    exists (Some buf), c, e. split_and!; try done; try reflexivity; try (by eauto).
    exists []. by rewrite app_nil_r.
  - destruct Hsz as [Hsz|[? _]]; [|done].
    cbn [send_fragments]. run.
    set (packet_size := if mss c <? Zlength data then mss c else Zlength data).
    assert (packet_size = Z.min (mss c) (Zlength data)) as Hps
      by (unfold packet_size; destruct (Z.ltb_spec (mss c) (Zlength data)); lia).
    destruct (send_get_spec c e) as (r & c1 & e1 & -> & Hp1 & Hm1 & Ha1).
    destruct r as [seg|].
    + destruct (Z.ltb_spec SEGMENT_ROOM packet_size); [lia|]. set (seg' := seg <| sg_data := _ |> <| sg_wnd := _ |> <| sg_frg := _ |> <| sg_scid := _ |>
                       <| sg_dcid := _ |> <| sg_len := _ |> <| sg_psn := _ |>).
      assert (mss c1 = mss c /\ scid c1 = scid c /\ dcid c1 = dcid c) as (Hmc&Hsc&Hdc) by (by rewrite Hp1).
      assert (Zlength (take (Z.to_nat packet_size) data) = packet_size) as Htk.
      { unfold Zlength in *. rewrite length_take. lia. }
      assert (Zlength (drop (Z.to_nat packet_size) data) = Zlength data - packet_size) as Hdr.
      { unfold Zlength in *. rewrite length_drop. lia. }
      destruct (IH (i + 1) (drop (Z.to_nat packet_size) data) (buf ++ [seg']) c1 e1)
        as (r2&c2&e2&Hrun&Hp2&Hm2&Ha2&Hres); [lia|lia| |].
      { destruct n as [|n]; [right; split; [done|]|left; rewrite Hmc, Hdr; lia].
        apply nil_length_inv. unfold Zlength in *. lia. }
      exists r2, c2, e2. split_and!; [done|by etransitivity|by etransitivity| |].
      { intros Hav. apply Ha2. by apply Ha1. }
      destruct r2 as [l|]; [|done]. destruct Hres as (frags&->&Hfr&Hcat&Hlen).
      exists (seg' :: frags). rewrite <- app_assoc. split_and!; [done| | |simpl; lia].
      * cbn [fragments_of seg']. split_and!; try done; try (cbn; lia).
        clear -Hfr Hmc Hsc Hdc. revert i Hfr. induction frags as [|s l IH]; intros i; [done|]. cbn.
        rewrite Hmc, Hsc, Hdc. naive_solver.
      * cbn [map List.concat]. rewrite Hcat. cbn. apply take_drop.
    + run. eexists _, _, _. split_and!; [done| |done| |done].
      * etransitivity; [done|]. apply send_put_all_pool.
      * intros Hav. destruct (Ha1 Hav) as [_ [? ?]]. done.
Qed.

(** A fragment that the memory of a segment cannot hold. *)
Lemma send_fragments_overflow n i frag psn data buf c e :
  SEGMENT_ROOM < Z.min (mss c) (Zlength data) ->
  send_fragments (S n) i frag psn data buf (c, e) = None \/
  ~ memory_available e /\ exists c' e', send_fragments (S n) i frag psn data buf (c, e) = Some (None, (c', e')) /\
    same_but_pool c c' /\ only_malloc e e'.
Proof.
  intros Hroom. cbn [send_fragments]. run. destruct (send_get_spec c e) as (r & c1 & e1 & -> & Hp1 & Hm1 & Ha1).
  destruct r as [seg|].
  - left. assert (SEGMENT_ROOM <? (if mss c <? Zlength data then mss c else Zlength data) = true) as ->; [|done].
    apply Z.ltb_lt. destruct (Z.ltb_spec (mss c) (Zlength data)); lia.
  - right. split; [by intros [_ [? ?]]%Ha1|]. eexists _, _. split; [run; reflexivity|].
    split; [|done]. etransitivity; [done|]. apply send_put_all_pool.
Qed.

(** The number of fragments of a message. *)
Lemma fragment_count size m :
  0 < m -> 0 < size -> let n := (size + m - 1) / m in (n - 1) * m < size <= n * m /\ 1 <= n.
Proof.
  intros Hm Hs. cbv zeta. pose proof (Z.div_mod (size + m - 1) m ltac:(lia)) as Hd.
  pose proof (Z.mod_pos_bound (size + m - 1) m Hm). set (n := (size + m - 1) / m) in *. nia.
Qed.

(** The state after a message is accepted. *)
Definition after_send_call (cp : kcp_connection) (frags : list kcp_segment) : kcp_connection :=
  cp <| snd_queue ::= (fun q => q ++ frags) |> <| nsnd_que ::= Z.add (Zlength frags) |>
     <| psn_nxt ::= (fun n => u32 (n + 1)) |>.

(** [kcp_send] up to its loop. *)
Lemma kcp_send_starts (c : kcp_connection) (e : env) (data : bytes) :
  state c = KCP_STATE_CONNECTED -> 0 < mss c < 4294967296 ->
  0 < Zlength data <= KCP_MAX_PACKET_SIZE -> Zlength data <= KCP_PACKET_SIZE * mss c ->
  let n := (Zlength data + mss c - 1) / mss c in
  1 <= n /\
  kcp_send true data (c, e) =
    (buffer_list ← send_fragments (Z.to_nat n) 0 n (psn_nxt c) data [];
     match buffer_list with
     | None => mret NO_MEMORY
     | Some l => mods (fun c => after_send_call c l);; mret NO_ERROR
     end) (c, e).
Proof.
  intros Hst Hm Hsz Hfit. unfold kcp_send.
  destruct (fragment_count (Zlength data) (mss c)) as [Hn H1]; [lia..|]. cbv zeta in *. split; [done|].
  rewrite (bind_eq _ _ _ c (c, e)) by done. cbv zeta.
  destruct (Z.eqb_spec (Zlength data) 0) as [?|_]; [lia|].
  destruct (Z.ltb_spec KCP_MAX_PACKET_SIZE (Zlength data)) as [?|_]; [lia|]. cbn [negb].
  rewrite bool_decide_true by done. cbn [negb].
  destruct (Z.eqb_spec (mss c) 0) as [?|_]; [lia|].
  unfold KCP_MAX_PACKET_SIZE, KCP_HEADER_SIZE, KCP_PACKET_COUNT in *.
  rewrite u64_small by lia. set (n := (Zlength data + mss c - 1) / mss c) in *.
  assert (n <= 64) as Hn64 by (unfold KCP_PACKET_SIZE in *; nia).
  rewrite s32_small by lia. destruct (Z.ltb_spec KCP_PACKET_SIZE n); [unfold KCP_PACKET_SIZE in *; lia|]. done.
Qed.

Lemma kcp_send_run (c : kcp_connection) (e : env) (data : bytes) :
  state c = KCP_STATE_CONNECTED -> 0 < mss c < 4294967296 ->
  0 < Zlength data <= KCP_MAX_PACKET_SIZE -> Zlength data <= KCP_PACKET_SIZE * mss c ->
  Z.min (mss c) (Zlength data) <= SEGMENT_ROOM -> memory_available e ->
  exists cp e' frags,
    kcp_send true data (c, e) = Some (NO_ERROR, (after_send_call cp frags, e')) /\
    same_but_pool c cp /\ memory_available e' /\ only_malloc e e' /\
    fragments_of c (Zlength frags) (psn_nxt c) 0 frags /\
    List.concat (map sg_data frags) = data /\
    Zlength frags = (Zlength data + mss c - 1) / mss c.
Proof.
  intros Hst Hm Hsz Hfit Hroom Hav. destruct (kcp_send_starts c e data Hst Hm Hsz Hfit) as [H1 ->].
  destruct (fragment_count (Zlength data) (mss c)) as [Hn _]; [lia..|].
  set (n := (Zlength data + mss c - 1) / mss c) in *.
  destruct (send_fragments_spec (Z.to_nat n) 0 n (psn_nxt c) data [] c e)
    as (r & c1 & e1 & Hrun & Hp & Hme & Hav1 & Hr); [lia|done|left; rewrite Z2Nat.id by lia; done|].
  run. rewrite Hrun. destruct (Hav1 Hav) as [Hav1' [l ->]]. destruct Hr as (frags & -> & Hfr & Hcat & Hlen).
  cbn [app]. assert (Zlength frags = n) as Hl by (unfold Zlength; lia).
  exists c1, e1, frags. split_and!; try done. by rewrite Hl.
Qed.

(** C23: Sending a message on an established connection with memory
    available: when a fragment fits the memory of a segment, the message is cut into
    ceil(size / mss) fragments appended to [snd_queue] in order: numbered from 0,
    carrying the fragment count in the first one's [wnd] and the next packet number,
    each between one byte and [mss], their contents concatenating to the message;
    nothing else changes but the packet number, the counter and the pool of unused
    segments.  When it does not, the copy runs past the end of the segment: [mss] is
    not compared with ETHERNET_MTU, and a peer whose SYN carries an MTU below
    KCP_HEADER_SIZE makes it wrap around. *)
Theorem kcp_send_fragments (c : kcp_connection) (e : env) (data : bytes) :
  state c = KCP_STATE_CONNECTED -> 0 < mss c < 4294967296 ->
  0 < Zlength data <= KCP_MAX_PACKET_SIZE -> Zlength data <= KCP_PACKET_SIZE * mss c ->
  memory_available e ->
  if Z.min (mss c) (Zlength data) <=? SEGMENT_ROOM then
    exists c' e' frags,
      kcp_send true data (c, e) = Some (NO_ERROR, (c', e')) /\
      memory_available e' /\ only_malloc e e' /\
      snd_queue c' = snd_queue c ++ frags /\ nsnd_que c' = nsnd_que c + Zlength frags /\
      psn_nxt c' = u32 (psn_nxt c + 1) /\ snd_buf c' = snd_buf c /\ state c' = state c /\
      fragments_of c (Zlength frags) (psn_nxt c) 0 frags /\
      List.concat (map sg_data frags) = data /\
      Zlength frags = (Zlength data + mss c - 1) / mss c
  else kcp_send true data (c, e) = None.
Proof.
  intros Hst Hm Hsz Hfit Hav. destruct (Z.leb_spec (Z.min (mss c) (Zlength data)) SEGMENT_ROOM) as [Hroom|Hroom].
  - destruct (kcp_send_run c e data Hst Hm Hsz Hfit Hroom Hav) as (cp & e1 & frags & Hrun & Hp & Hav1 & Hme & Hfr & Hcat & Hl).
    unfold same_but_pool in Hp. eexists _, e1, frags. split_and!; try done; cbn; try (rewrite Hp; cbn; done || lia).
  - destruct (kcp_send_starts c e data Hst Hm Hsz Hfit) as [H1 ->].
    destruct (Z.to_nat _) as [|n] eqn:E; [lia|]. rewrite <- E. unfold mbind, ST_bind. rewrite E.
    destruct (send_fragments_overflow n 0 ((Zlength data + mss c - 1) / mss c) (psn_nxt c) data [] c e Hroom) as [->|[? _]]; done.
Qed.

(** An early return of [kcp_send]. *)
Ltac early_return :=
  simplify_eq; split_and!; try reflexivity; try split; intros; discriminate || tauto.

(** When [kcp_send] answers anything but NO_ERROR it has queued nothing:
    the send queue, its counter, the packet number and everything but the pool of
    unused segments are as before, whatever the allocator did. *)
Theorem kcp_send_error (c : kcp_connection) (e : env) (sock_open : bool) (data : bytes)
    (code : Z) (c' : kcp_connection) (e' : env) :
  kcp_send sock_open data (c, e) = Some (code, (c', e')) -> code <> NO_ERROR -> 0 < mss c < 4294967296 ->
  same_but_pool c c' /\ only_malloc e e' /\
  (code = INVALID_PARAM <-> data = []) /\ (code = SOCKET_CLOSED -> sock_open = false) /\
  (code = INVALID_STATE -> state c <> KCP_STATE_CONNECTED) /\
  (code = NO_MEMORY -> ~ memory_available e).
Proof.
  unfold kcp_send. run. intros Hrun Hcode Hm.
  assert (data = [] <-> Zlength data = 0) as Hnil.
  { split; [by intros ->|]. intros. apply nil_length_inv. unfold Zlength in *. lia. }
  pose proof (Zlength_nonneg data) as Hnn.
  destruct (Z.eqb_spec (Zlength data) 0).
  { by early_return. }
  destruct (Z.ltb_spec KCP_MAX_PACKET_SIZE (Zlength data)).
  { by early_return. }
  destruct sock_open; cbn [negb] in Hrun; [|by early_return].
  case_bool_decide; cbn [negb] in Hrun; [|by early_return].
  destruct (Z.eqb_spec (mss c) 0); [lia|].
  unfold KCP_MAX_PACKET_SIZE, KCP_HEADER_SIZE, KCP_PACKET_COUNT in *.
  destruct (fragment_count (Zlength data) (mss c)) as [Hn H1]; [lia..|].
  rewrite u64_small in Hrun by lia. set (k := (Zlength data + mss c - 1) / mss c) in *.
  assert (k <= Zlength data) by nia. rewrite s32_small in Hrun by lia.
  destruct (Z.ltb_spec KCP_PACKET_SIZE k).
  { by early_return. }
  destruct (Z.le_gt_cases (Z.min (mss c) (Zlength data)) SEGMENT_ROOM) as [Hroom|Hroom].
  2: { destruct (Z.to_nat k) as [|m] eqn:E; [lia|].
       destruct (send_fragments_overflow m 0 k (psn_nxt c) data [] c e ltac:(lia)) as [Hr|(? & c1 & e1 & Hr & ? & ?)];
         rewrite Hr in Hrun; by early_return. }
  destruct (send_fragments_spec (Z.to_nat k) 0 k (psn_nxt c) data [] c e)
    as (r & c1 & e1 & Hr & Hp & Hme & Hav1 & _); [lia|done|left; rewrite Z2Nat.id by lia; done|].
  rewrite Hr in Hrun. destruct r as [l|]; [by simplify_eq|]. simplify_eq.
  split_and!; try done; [split; intros; discriminate || tauto|]. intros _ Hav. destruct (Hav1 Hav) as [_ [? ?]]. done.
Qed.

(** ** At a concrete connection *)

Definition quiet : env := Env 1000000000 [] 1700000000 [] [] [] true [] 0 0 [] [].

(** Three segments in flight, one of them skipped before. *)
Definition snd_example : kcp_connection :=
  zero_connection <| state := KCP_STATE_CONNECTED |> <| mss := 4 |> <| mtu := 36 |>
    <| snd_buf := map (fun sn => (push_segment sn 0 [1; 2; 3]) <| sg_xmit := 1 |>) [5; 6; 7] |>
    <| nsnd_buf := 3 |> <| snd_una := 5 |> <| snd_nxt := 8 |> <| snd_wnd := 128 |>
    <| rx_minrto := 100000 |> <| rx_rto := 200000 |> <| interval := 30 |> <| cwnd := 4 |>.

Lemma snd_example_ok : snd_ok snd_example.
Proof. constructor; vm_compute; try done; repeat constructor; done. Qed.

Lemma on_kcp_ack_correct_witness :
  exists c', on_kcp_ack_pcaket (KcpProtoHeader 9 7 KCP_CMD_ACK 0 0 128 (ack_data 900 950 6 5) []) 2000
      (snd_example, quiet) = Some (NO_ERROR, (c', with_flaws [] quiet)) /\
    snd_ok c' /\ snd_nxt c' = 8 /\ snd_queue c' = [] /\ 5 <= snd_una c' <= 8 /\
    snd_buf c' = map (bump 6) [(push_segment 5 0 [1; 2; 3]) <| sg_xmit := 1 |>;
                               (push_segment 7 0 [1; 2; 3]) <| sg_xmit := 1 |>] /\
    tx_bytes c' = 3.
Proof.
  apply (on_kcp_ack_correct snd_example quiet
    (KcpProtoHeader 9 7 KCP_CMD_ACK 0 0 128 (ack_data 900 950 6 5) []) 900 950 6 5 2000);
    [apply snd_example_ok|done..].
Defined.

Lemma kcp_send_fragments_witness :
  exists c' e' frags,
    kcp_send true [1; 2; 3; 4; 5; 6] (snd_example, quiet) = Some (NO_ERROR, (c', e')) /\
    memory_available e' /\ only_malloc quiet e' /\
    snd_queue c' = [] ++ frags /\ nsnd_que c' = 0 + Zlength frags /\
    psn_nxt c' = 1 /\ snd_buf c' = snd_buf snd_example /\ state c' = KCP_STATE_CONNECTED /\
    fragments_of snd_example (Zlength frags) 0 0 frags /\
    List.concat (map sg_data frags) = [1; 2; 3; 4; 5; 6] /\ Zlength frags = 2 /\
    kcp_send true (replicate 1600 7) (snd_example <| mss := u32 (10 - KCP_HEADER_SIZE) |>, quiet) = None.
Proof.
  destruct (kcp_send_fragments snd_example quiet [1; 2; 3; 4; 5; 6])
    as (c' & e' & frags & H1 & H2 & H3 & H4 & H5 & H6 & H7 & H8 & H9 & H10 & H11); try done; [constructor|].
  exists c', e', frags. do 10 (split; [done|]). split; [exact H11|].
  pose proof (kcp_send_fragments (snd_example <| mss := u32 (10 - KCP_HEADER_SIZE) |>) quiet (replicate 1600 7)
    eq_refl ltac:(done) ltac:(done) ltac:(done) ltac:(constructor)) as Hover.
  by destruct (Z.leb_spec (Z.min (mss (snd_example <| mss := u32 (10 - KCP_HEADER_SIZE) |>)) (Zlength (replicate 1600 7))) SEGMENT_ROOM).
Defined.

(** The second [malloc] fails. *)
Lemma kcp_send_error_witness :
  exists c' e', kcp_send true [1; 2; 3; 4; 5; 6] (snd_example, quiet <| e_malloc := [true; false] |>) =
      Some (NO_MEMORY, (c', e')) /\ same_but_pool snd_example c'.
Proof.
  eexists _, _. split; [vm_compute; reflexivity|].
  eapply (kcp_send_error snd_example (quiet <| e_malloc := [true; false] |>) true [1; 2; 3; 4; 5; 6] NO_MEMORY);
    [vm_compute; reflexivity|done|done].
Defined.
