(* ===== verification/Recv.v ===== *)
(** * Recv: the receiver's queues

    [on_kcp_push_pcaket] and the [kcp_rcv_*] functions of kcp_protocol.c, and
    [kcp_recv] of kcpp.c.  [rcv_buf] is a red-black tree of segments by serial
    number, [rcv_packet] one of packets by packet number, [rcv_packet_list] the
    packets in the order of their first serial number.  A segment is linked in
    [rcv_buf] and in the fragments of its packet; it is not written afterwards,
    so the two hold the same value. *)

From S2P Require Import Prelude RbTree Bytes Config Wire Types World Snd.

(** ** Segments *)

Definition kcp_segment_recv_get : io kcp_connection (option kcp_segment) :=
  c ← get;
  match rcv_buf_unused c with
  | seg :: unused =>
      mods (fun c => c <| rcv_buf_unused := unused |> <| nrcv_buf_unused ::= Z.pred |>);;
      mret (Some seg)
  | [] => ok ← malloc; mret (if ok : bool then Some fresh_segment else None)
  end.

Definition kcp_segment_recv_put (c : kcp_connection) (segment : kcp_segment) : kcp_connection :=
  if nrcv_buf_unused c <? rcv_wnd c
  then c <| rcv_buf_unused ::= (fun l => l ++ [segment]) |> <| nrcv_buf_unused ::= Z.succ |>
  else c.

Definition kcp_rcv_segment_search (c : kcp_connection) (sn : Z) : option kcp_segment :=
  rb_search sg_sn sn (rcv_buf c).

Definition kcp_rcv_segment_insert (c : kcp_connection) (segment : kcp_segment) : kcp_connection :=
  c <| rcv_buf ::= rb_insert sg_sn segment |>.

(** ** Packets *)

Definition psn_key (psn : Z) : Z := psn.

(** The packet at address [psn]. *)
Definition packet_at (c : kcp_connection) (psn : Z) : option kcp_packet_assembly :=
  List.find (fun p => pk_psn p =? psn) (rcv_packet_list c).

(** A write through a packet pointer. *)
Definition packet_write (p : kcp_packet_assembly) (c : kcp_connection) : kcp_connection :=
  c <| rcv_packet_list ::= map (fun q => if pk_psn q =? pk_psn p then p else q) |>.

Definition kcp_rcv_packet_search (c : kcp_connection) (psn : Z) : option kcp_packet_assembly :=
  match rb_search psn_key psn (rcv_packet c) with
  | Some address => packet_at c address
  | None => None
  end.

Definition kcp_rcv_packet_insert (c : kcp_connection) (packet : kcp_packet_assembly) : kcp_connection :=
  c <| rcv_packet ::= rb_insert psn_key (pk_psn packet) |>.

Definition kcp_rcv_packet_order_insert (c : kcp_connection) (packet : kcp_packet_assembly) : kcp_connection :=
  c <| rcv_packet_list ::= insert_by pk_start_sn packet |>.

(** [list_del_init(&packet->node_list)]. *)
Definition packet_unlink (c : kcp_connection) (packet : kcp_packet_assembly) : kcp_connection :=
  c <| rcv_packet_list ::= List.filter (fun q => negb (pk_psn q =? pk_psn packet)) |>.

Definition kcp_rcv_packet_create (psn start_sn : Z) : io kcp_connection (option kcp_packet_assembly) :=
  ok ← malloc;
  if ok : bool then
    let packet := KcpPacketAssembly psn start_sn 0 0 0 false [] in
    mods (fun c => kcp_rcv_packet_order_insert (kcp_rcv_packet_insert c packet) packet);;
    mret (Some packet)
  else mret None.

(** The fragments carry consecutive serial numbers from [expected_sn]. *)
Fixpoint fragments_consecutive (expected_sn : Z) (l : list kcp_segment) : bool :=
  match l with
  | [] => true
  | pos :: l => (sg_sn pos =? expected_sn) && fragments_consecutive (u32 (expected_sn + 1)) l
  end.

Definition kcp_rcv_packet_is_complete (p : kcp_packet_assembly) : bool :=
  if negb (pk_has_head p) || (pk_expected_frags p =? 0) ||
     negb (pk_expected_frags p =? pk_received_frags p)
  then false
  else fragments_consecutive (pk_start_sn p) (pk_fragments p).

Definition kcp_rcv_packet_destroy (c : kcp_connection) (packet : kcp_packet_assembly) : kcp_connection :=
  packet_unlink (c <| rcv_packet ::= rb_erase psn_key (pk_psn packet) |>) packet.

(** ** on_kcp_push_pcaket *)

(** [while (kcp_rcv_segment_search(conn, conn->rcv_nxt) != NULL) conn->rcv_nxt++]:
    one unit of fuel per segment of [rcv_buf] and one for the miss. *)
Fixpoint advance_rcv_nxt (fuel : nat) (buf : tree kcp_segment) (nxt : Z) : Z :=
  match fuel with
  | O => nxt
  | S fuel =>
      match rb_search sg_sn nxt buf with
      | Some _ => advance_rcv_nxt fuel buf (u32 (nxt + 1))
      | None => nxt
      end
  end.

(** One turn of the loop that moves a fragment to [rcv_queue]. *)
Definition deliver_fragment (c : kcp_connection) (pos : kcp_segment) : kcp_connection :=
  c <| rcv_buf ::= rb_erase sg_sn (sg_sn pos) |> <| rcv_queue ::= (fun q => q ++ [pos]) |>
    <| nrcv_buf ::= Z.pred |> <| nrcv_que ::= Z.succ |>
    <| rcv_queue_bytes ::= (fun n => s32 (n + s32 (sg_len pos))) |>.

(** The sums of the loop. *)
Fixpoint queue_bytes_ops (bytes : Z) (l : list kcp_segment) : list Z :=
  match l with
  | [] => []
  | pos :: l => let n := bytes + s32 (sg_len pos) in n :: queue_bytes_ops (s32 n) l
  end.

(** The delivery of the first packet, when it is complete and contiguous. *)
Definition deliver_first : io kcp_connection unit :=
  c ← get;
  match rcv_packet_list c with
  | [] => mret tt
  | packet :: _ =>
      if kcp_rcv_packet_is_complete packet &&
         (u32 (pk_start_sn packet + pk_expected_frags packet) <=? rcv_nxt c)
      then
        signed (queue_bytes_ops (rcv_queue_bytes c) (pk_fragments packet));;
        mods (fun c => kcp_rcv_packet_destroy (fold_left deliver_fragment (pk_fragments packet) c) packet);;
        when (read_event_cb c) (emit (OnReadEvent (k_self c) (pk_total_size packet)))
      else mret tt
  end.

(** The packet after the [frg == 0] block. *)
Definition packet_head (packet : kcp_packet_assembly) (segment : kcp_segment) : kcp_packet_assembly :=
  packet <| pk_has_head := true |> <| pk_expected_frags := u16 (sg_wnd segment) |>
         <| pk_start_sn := sg_sn segment |>.

(** The packet once the fragment is linked and counted. *)
Definition packet_add (packet : kcp_packet_assembly) (segment : kcp_segment) : kcp_packet_assembly :=
  packet <| pk_fragments ::= insert_by sg_frg segment |>
         <| pk_received_frags ::= (fun n => u16 (n + 1)) |>
         <| pk_total_size ::= (fun n => s32 (n + s32 (sg_len segment))) |>.

(** From the packet found or created to the end of the function. *)
Definition push_fragment (packet : kcp_packet_assembly) (segment : kcp_segment) : io kcp_connection Z :=
  packet ← (if sg_frg segment =? 0 then
              let packet := packet_head packet segment in
              mods (fun c => kcp_rcv_packet_order_insert (packet_unlink c packet) packet);;
              mret packet
            else mret packet);
  mods (packet_write (packet_add packet segment));;
  signed [pk_total_size packet + s32 (sg_len segment)];;
  mods (fun c => (kcp_rcv_segment_insert c segment) <| nrcv_buf ::= Z.succ |>);;
  mods (fun c => if sg_sn segment =? rcv_nxt c
                 then c <| rcv_nxt := advance_rcv_nxt (S (length (elements (rcv_buf c)))) (rcv_buf c)
                                                     (u32 (rcv_nxt c + 1)) |>
                 else c);;
  deliver_first;;
  mret NO_ERROR.

(** The segment filled from the header; that it holds [len] bytes is tested by its caller. *)
Definition segment_of_header (segment : kcp_segment) (h : kcp_proto_header)
    (ts sn psn una len : Z) (data : bytes) : kcp_segment :=
  segment <| sg_scid := h_scid h |> <| sg_dcid := h_dcid h |> <| sg_cmd := h_cmd h |>
          <| sg_frg := h_frg h |> <| sg_wnd := h_wnd h |> <| sg_ts := ts |> <| sg_sn := sn |>
          <| sg_psn := psn |> <| sg_una := una |> <| sg_len := len |>
          <| sg_data := take (Z.to_nat len) data |>.

(** [list_del_init(&ack_item->node)] of the item just appended. *)
Definition ack_item_drop_last (c : kcp_connection) : kcp_connection := c <| ack_item ::= @removelast _ |>.

Definition on_kcp_push_pcaket (kcp_header : kcp_proto_header) (timestamp : Z) : io kcp_connection Z :=
  mods (fun c => c <| ping / keepalive_next_ts := u64 (timestamp + keepalive_interval (ping c)) |>);;
  c ← get;
  match h_data kcp_header with
  | packet_data ts sn psn una len data =>
      if u32 (rcv_nxt c + rcv_wnd c) <=? sn then
        mods (fun c => c <| probe ::= (fun p => Z.lor p KCP_ASK_TELL) |>);;
        mret NO_ERROR
      else if sn <? rcv_nxt c then mret NO_ERROR
      else
        ok ← malloc;
        if negb ok then mret NO_MEMORY
        else
          segment ← kcp_segment_recv_get;
          match segment with
          | None => mret NO_MEMORY
          | Some segment =>
              mods (fun c => c <| ack_item ::= (fun l => l ++ [KcpAck sn psn timestamp]) |>);;
              if SEGMENT_ROOM <? len then undefined
              else
              let segment := segment_of_header segment kcp_header ts sn psn una len data in
              c ← get;
              match kcp_rcv_segment_search c sn with
              | Some _ =>
                  mods (fun c => ack_item_drop_last (kcp_segment_recv_put c segment));;
                  mret NO_ERROR
              | None =>
                  packet ← (match kcp_rcv_packet_search c psn with
                            | Some packet => mret (Some packet)
                            | None => kcp_rcv_packet_create psn (u32 (sn - sg_frg segment))
                            end);
                  match packet with
                  | None =>
                      mods (fun c => ack_item_drop_last (kcp_segment_recv_put c segment));;
                      mret NO_MEMORY
                  | Some packet => push_fragment packet segment
                  end
              end
          end
  | _ => undefined
  end.

(** ** kcp_recv *)

(** One turn of the copy loop. *)
Definition recv_segment (c : kcp_connection) (pos : kcp_segment) : kcp_connection :=
  let c := c <| rcv_queue_bytes ::= (fun n => s32 (n - s32 (sg_len pos))) |> in
  (kcp_segment_recv_put c pos) <| nrcv_que ::= Z.pred |>.

(** [kcp_recv(conn, buffer, size)]: the code and the bytes copied.  The sums are of the
    segments whose lengths were added, with a record of an overflow, when they were
    queued. *)
Definition kcp_recv (sock_open : bool) (size : Z) : io kcp_connection (Z * bytes) :=
  c ← get;
  if size =? 0 then mret (INVALID_PARAM, [])
  else if negb sock_open then mret (SOCKET_CLOSED, [])
  else if negb (bool_decide (state c = KCP_STATE_CONNECTED)) then mret (INVALID_STATE, [])
  else
    match rcv_queue c with
    | [] => mret (OP_TRY_AGAIN, [])
    | queue =>
        if s32 size <? rcv_queue_bytes c then mret (BUFFER_TOO_SMALL, [])
        else
          let recover := rcv_wnd c <=? nrcv_que c in
          mods (fun c => fold_left recv_segment queue (c <| rcv_queue := [] |>));;
          mods (fun c => if recover && (nrcv_que c <? rcv_wnd c)
                         then c <| probe ::= (fun p => Z.lor p KCP_ASK_TELL) |> else c);;
          let data := List.concat (map (fun pos => take (Z.to_nat (sg_len pos)) (sg_data pos)) queue) in
          mret (fold_left (fun n pos => s32 (n + s32 (sg_len pos))) queue 0, data)
    end.
