(* ===== verification/Delivery.v ===== *)
(** * Delivery: the receiver delivers whole messages in order

    The contract of the receiver.  A stream is what a sender hands over: messages
    cut into fragments, numbered as [kcp_send] and [on_kcp_write_timeout] number
    them.  Fragments of the stream may arrive in any order, any number of times or
    never, and the allocator may fail.  The invariant [recv_inv d] ties the
    queues of the receiver to the stream when [d] messages have been delivered;
    [on_kcp_push_pcaket] and [kcp_recv] keep it. *)

From S2P Require Import Prelude RbTree Bytes Config Wire Types World Bbr Snd Recv.

(** The part of a segment that does not change when it is sent again. *)
Definition payload (s : kcp_segment) : Z * Z * Z * Z * bytes :=
  (sg_sn s, sg_psn s, sg_frg s, sg_len s, sg_data s).

(** The bytes of a list of segments. *)
Definition contents (l : list kcp_segment) : bytes := List.concat (map sg_data l).

Section Stream.
(** The serial number and the packet number the stream starts at, its messages. *)
Context (sn0 psn0 : Z) (msgs : list (list kcp_segment)).

Definition first_sn (m : nat) : Z := sn0 + Zlength (List.concat (take m msgs)).

Record stream_ok : Prop := StreamOk {
  so_message fs : fs ∈ msgs -> 0 < Zlength fs < 256;
  so_segment m fs j s : msgs !! m = Some fs -> fs !! j = Some s ->
    sg_sn s = first_sn m + Z.of_nat j /\ sg_psn s = psn0 + Z.of_nat m /\
    sg_frg s = Z.of_nat j /\ sg_len s = Zlength (sg_data s) /\
    (j = 0%nat -> sg_wnd s = Zlength fs);
  so_room m fs j s : msgs !! m = Some fs -> fs !! j = Some s -> sg_len s <= SEGMENT_ROOM;
  so_sn : 0 <= sn0 /\ first_sn (length msgs) < 4294967296;
}.

(** [t] is fragment [j] of message [m]. *)
Definition is_fragment (m j : nat) (t : kcp_segment) : Prop :=
  exists fs s, msgs !! m = Some fs /\ fs !! j = Some s /\ payload t = payload s /\
    (j = 0%nat -> sg_wnd t = Zlength fs).

(** A PUSH header that carries fragment [j] of message [m]: the time stamp, the
    acknowledgement and, but for the first fragment, the window are free. *)
Definition carries (h : kcp_proto_header) (m j : nat) : Prop :=
  exists fs s ts una data, msgs !! m = Some fs /\ fs !! j = Some s /\
    h_frg h = sg_frg s /\ (j = 0%nat -> h_wnd h = Zlength fs) /\
    h_data h = packet_data ts (sg_sn s) (sg_psn s) una (sg_len s) data /\
    take (Z.to_nat (sg_len s)) data = sg_data s.

(** ** Numbering *)

Lemma first_sn_S m fs : msgs !! m = Some fs -> first_sn (S m) = first_sn m + Zlength fs.
Proof.
  intros H. unfold first_sn. rewrite (take_S_r _ _ _ H), List.concat_app, Zlength_app.
  cbn. rewrite app_nil_r. lia.
Qed.

Lemma first_sn_le m m' : (m <= m')%nat -> first_sn m <= first_sn m'.
Proof.
  intros H. induction H as [|m' _ IH]; [lia|]. destruct (msgs !! m') as [fs|] eqn:E.
  - rewrite (first_sn_S _ _ E). pose proof (Zlength_nonneg fs). lia.
  - apply lookup_ge_None in E. unfold first_sn in *. rewrite (take_ge msgs (S m')) by lia.
    rewrite (take_ge msgs m') in IH by lia. lia.
Qed.

Context (Hso : stream_ok).

Lemma first_sn_nonneg m : 0 <= first_sn m.
Proof. destruct (so_sn Hso). unfold first_sn. pose proof (Zlength_nonneg (List.concat (take m msgs))). lia. Qed.

Lemma message_ok m fs : msgs !! m = Some fs -> 0 < Zlength fs < 256.
Proof. intros. apply (so_message Hso). by eapply list_elem_of_lookup_2. Qed.

Lemma fragment_numbers m j t :
  is_fragment m j t ->
  exists fs, msgs !! m = Some fs /\ Z.of_nat j < Zlength fs < 256 /\
    sg_sn t = first_sn m + Z.of_nat j /\ sg_psn t = psn0 + Z.of_nat m /\
    sg_frg t = Z.of_nat j /\ sg_len t = Zlength (sg_data t) /\
    (j = 0%nat -> sg_wnd t = Zlength fs) /\ first_sn (S m) = first_sn m + Zlength fs /\
    0 <= sg_sn t /\ first_sn (S m) < 4294967296.
Proof.
  intros (fs & s & Hm & Hj & [= H1 H2 H3 H4 H5] & Hw). exists fs.
  destruct (so_segment Hso m fs j s Hm Hj) as (?&?&?&?&?). destruct (so_sn Hso) as [? Hend].
  pose proof (message_ok _ _ Hm). pose proof (first_sn_S _ _ Hm).
  pose proof (lookup_lt_Some _ _ _ Hj). pose proof (lookup_lt_Some _ _ _ Hm).
  pose proof (first_sn_le (S m) (length msgs) ltac:(lia)).
  pose proof (first_sn_nonneg m) as Hfirst.
  rewrite H1, H2, H3, H4, H5. unfold Zlength in *. split_and!; done || lia.
Qed.

(** A fragment of an earlier message has a smaller serial number. *)
Lemma fragment_sn_lt m j t : is_fragment m j t -> first_sn m <= sg_sn t < first_sn (S m).
Proof. intros H. destruct (fragment_numbers _ _ _ H) as (?&?&?&?&?&?&?&?&?&?). lia. Qed.

Lemma fragment_message_sn m m' j j' t t' :
  is_fragment m j t -> is_fragment m' j' t' -> sg_sn t = sg_sn t' -> m = m' /\ j = j'.
Proof.
  intros H H' Heq. pose proof (fragment_sn_lt _ _ _ H). pose proof (fragment_sn_lt _ _ _ H').
  assert (m = m') as ->.
  { destruct (Nat.lt_trichotomy m m') as [?|[?|?]]; [|done|].
    - pose proof (first_sn_le (S m) m' ltac:(lia)). lia.
    - pose proof (first_sn_le (S m') m ltac:(lia)). lia. }
  split; [done|]. destruct (fragment_numbers _ _ _ H) as (?&?&?&?&_).
  destruct (fragment_numbers _ _ _ H') as (?&?&?&?&_). lia.
Qed.

(** ** The packets the buffered segments make up *)

Definition in_message (m : nat) (t : kcp_segment) : bool := sg_psn t =? psn0 + Z.of_nat m.
Definition fragments_in (m : nat) (l : list kcp_segment) : list kcp_segment :=
  List.filter (in_message m) l.

Definition is_head (t : kcp_segment) : bool := sg_frg t =? 0.
Definition message_size (m : nat) : Z := match msgs !! m with Some fs => Zlength fs | None => 0 end.

(** The assembly of message [m] with the fragments [F]. *)
Definition assembly (m : nat) (F : list kcp_segment) : kcp_packet_assembly :=
  KcpPacketAssembly (psn0 + Z.of_nat m) (first_sn m)
    (if existsb is_head F then message_size m else 0) (Zlength F)
    (s32 (Zsum (map sg_len F))) (existsb is_head F) F.

(** What is buffered is made of fragments of message [d] on, in order. *)
Definition buffer_ok (d : nat) (l : list kcp_segment) : Prop :=
  ksorted sg_sn l /\ (forall t, t ∈ l -> exists m j, (d <= m)%nat /\ is_fragment m j t).

Lemma elem_of_fragments_in m l t : t ∈ fragments_in m l <-> t ∈ l /\ in_message m t = true.
Proof. unfold fragments_in. by rewrite list_elem_of_In, List.filter_In, <- list_elem_of_In. Qed.

Lemma in_message_fragment m m' j t : is_fragment m' j t -> in_message m t = bool_decide (m = m').
Proof.
  intros H. destruct (fragment_numbers _ _ _ H) as (?&?&?&?&Hp&_). unfold in_message. rewrite Hp.
  case_bool_decide; [subst; apply Z.eqb_refl|]. apply Z.eqb_neq. lia.
Qed.

Lemma fragments_in_fragment d m l t :
  buffer_ok d l -> t ∈ fragments_in m l -> t ∈ l /\ (d <= m)%nat /\ exists j, is_fragment m j t.
Proof.
  intros [_ Hf] [Hin Hm]%elem_of_fragments_in. destruct (Hf t Hin) as (m' & j & ? & Hfr).
  rewrite (in_message_fragment _ _ _ _ Hfr) in Hm. case_bool_decide; [|done]. subst. eauto.
Qed.

Lemma fragments_in_sn d m l t :
  buffer_ok d l -> t ∈ l -> first_sn m <= sg_sn t < first_sn (S m) -> t ∈ fragments_in m l.
Proof.
  intros [_ Hf] Hin Hr. apply elem_of_fragments_in. split; [done|].
  destruct (Hf t Hin) as (m' & j & _ & Hfr). rewrite (in_message_fragment _ _ _ _ Hfr).
  apply bool_decide_true. pose proof (fragment_sn_lt _ _ _ Hfr).
  destruct (Nat.lt_trichotomy m m') as [?|[?|?]]; [|done|].
  - pose proof (first_sn_le (S m) m' ltac:(lia)). lia.
  - pose proof (first_sn_le (S m') m ltac:(lia)). lia.
Qed.

Lemma ksorted_shift (f g : kcp_segment -> Z) k l :
  (forall x, x ∈ l -> f x = k + g x) -> ksorted f l -> ksorted g l.
Proof.
  induction l as [|x l IH]; intros Hk; [constructor|]. intros [Hs Hx]%ksorted_cons.
  apply ksorted_cons. split; [apply IH; [|done]; intros; apply Hk; by constructor|].
  intros y Hy. specialize (Hx y Hy).
  rewrite (Hk x), (Hk y) in Hx by (by constructor). lia.
Qed.

(** Within a message the order of the serial numbers is that of the fragments. *)
Lemma fragments_in_sorted d m l :
  buffer_ok d l -> ksorted sg_frg (fragments_in m l) /\ Zlength (fragments_in m l) <= message_size m.
Proof.
  intros Hb. assert (ksorted sg_frg (fragments_in m l)) as Hs.
  { apply (ksorted_shift sg_sn _ (first_sn m)); [|apply ksorted_filter, Hb].
    intros t Ht. destruct (fragments_in_fragment d m l t Hb Ht) as (_&_&j&H).
    destruct (fragment_numbers _ _ _ H) as (?&?&?&?&?&?&_). lia. }
  split; [done|]. unfold message_size. destruct (msgs !! m) as [fs|] eqn:E.
  - destruct (ksorted_dense sg_frg (fragments_in m l) 0 (Zlength fs) Hs) as [? _].
    + intros t Ht. destruct (fragments_in_fragment d m l t Hb Ht) as (_&_&j&H).
      destruct (fragment_numbers _ _ _ H) as (fs'&?&?&?&?&?&_). simplify_eq. lia.
    + pose proof (message_ok _ _ E). lia.
  - destruct (fragments_in m l) as [|t F] eqn:EF; [done|].
    destruct (fragments_in_fragment d m l t Hb) as (_&_&j&H); [rewrite EF; constructor|].
    destruct (fragment_numbers _ _ _ H) as (fs'&?&_). congruence.
Qed.

(** A message all of whose serial numbers are buffered is there, fragment by
    fragment. *)
Lemma fragments_in_full d m fs l :
  buffer_ok d l -> msgs !! m = Some fs ->
  (forall sn, first_sn m <= sn < first_sn (S m) -> exists t, t ∈ l /\ sg_sn t = sn) ->
  map payload (fragments_in m l) = map payload fs.
Proof.
  intros Hb Hm Hall. pose proof (first_sn_S _ _ Hm) as HS. set (F := fragments_in m l).
  assert (map sg_sn F = seqZ (first_sn m) (Zlength fs)) as Hsn.
  { apply (ksorted_ext (fun x => x)).
    - apply (ksorted_fmap (fun x => x)), ksorted_filter, Hb.
    - apply ksorted_seqZ.
    - intros sn. rewrite elem_of_seqZ, list_elem_of_fmap. split.
      + intros (t & -> & Ht). destruct (fragments_in_fragment d m l t Hb Ht) as (_&_&j&H).
        pose proof (fragment_sn_lt _ _ _ H). lia.
      + intros Hr. destruct (Hall sn) as (t & Ht & <-); [lia|]. exists t. split; [done|].
        apply (fragments_in_sn d); [done|done|lia]. }
  apply list_eq_same_length with (length fs); [by rewrite length_map| |].
  { rewrite length_map, <- (length_map sg_sn F), Hsn, length_seqZ. unfold Zlength. lia. }
  intros i x y _ Hx Hy. rewrite list_lookup_fmap in Hx, Hy.
  destruct (F !! i) as [t|] eqn:Ht; [|done]. destruct (fs !! i) as [s|] eqn:Hs; [|done]. simplify_eq/=.
  assert (sg_sn t = first_sn m + Z.of_nat i) as Hti.
  { assert (map sg_sn F !! i = sg_sn <$> F !! i) as Hl by apply list_lookup_fmap. rewrite Hsn, Ht in Hl. cbn in Hl.
    by apply lookup_seqZ in Hl as [-> _]. }
  destruct (fragments_in_fragment d m l t Hb) as (_&_&j&H); [by eapply list_elem_of_lookup_2|].
  destruct (fragment_numbers _ _ _ H) as (?&?&?&?&_). assert (j = i) as -> by lia.
  destruct H as (fs1 & s1 & ? & ? & Hp & _). congruence.
Qed.

(** ** Storing a fragment *)

Lemma buffer_ok_new d l t m j :
  buffer_ok d l -> (d <= m)%nat -> is_fragment m j t -> (forall u, u ∈ l -> sg_sn u <> sg_sn t) ->
  buffer_ok d (insert_by sg_sn t l).
Proof.
  intros [Hs Hf] Hd Ht Hne. split; [by apply ksorted_insert_by|].
  intros u [->|Hu]%elem_of_insert_by; eauto.
Qed.

(** Storing a fragment of message [m] changes the fragments of that message. *)
Lemma fragments_in_new d l t m j m' :
  buffer_ok d l -> (d <= m)%nat -> is_fragment m j t -> (forall u, u ∈ l -> sg_sn u <> sg_sn t) ->
  fragments_in m' (insert_by sg_sn t l) =
  if decide (m' = m) then insert_by sg_frg t (fragments_in m l) else fragments_in m' l.
Proof.
  intros Hb Hd Ht Hne. unfold fragments_in at 1. rewrite filter_insert_by by (apply Hb || done).
  rewrite (in_message_fragment _ _ _ _ Ht). case_bool_decide; case_decide; try done. subst m'.
  pose proof (buffer_ok_new d l t m j Hb Hd Ht Hne) as Hb'.
  pose proof (fragments_in_sorted d m _ Hb') as [Hs' _].
  unfold fragments_in in Hs' at 1. rewrite filter_insert_by in Hs' by (apply Hb || done).
  rewrite (in_message_fragment _ _ _ _ Ht), bool_decide_true in Hs' by done.
  apply (ksorted_perm_eq sg_frg); [done| |by rewrite !insert_by_perm].
  apply ksorted_insert_by; [by eapply fragments_in_sorted|].
  intros u Hu Heq. destruct (fragments_in_fragment d m l u Hb Hu) as (Hin&_&j'&Hfr).
  destruct (fragment_numbers _ _ _ Hfr) as (?&?&?&?&?&?&_).
  destruct (fragment_numbers _ _ _ Ht) as (?&?&?&?&?&?&_). apply (Hne u Hin). lia.
Qed.

Lemma existsb_insert_by (f : kcp_segment -> bool) key x l :
  existsb f (insert_by key x l) = (f x || existsb f l)%bool.
Proof.
  induction l as [|y l IH]; cbn; [done|]. case_match; cbn; [done|]. rewrite IH.
  by destruct (f x), (f y).
Qed.

(** The packet after [packet_head] and [packet_add] is the assembly with the
    fragment. *)
Lemma assembly_add d l t m j :
  buffer_ok d l -> (d <= m)%nat -> is_fragment m j t -> (forall u, u ∈ l -> sg_sn u <> sg_sn t) ->
  let packet := assembly m (fragments_in m l) in
  packet_add (if sg_frg t =? 0 then packet_head packet t else packet) t =
  assembly m (fragments_in m (insert_by sg_sn t l)).
Proof.
  intros Hb Hd Ht Hne packet.
  pose proof (buffer_ok_new d l t m j Hb Hd Ht Hne) as Hb'.
  pose proof (fragments_in_sorted d m _ Hb') as [_ Hle].
  rewrite (fragments_in_new d l t m j) in * by done. rewrite decide_True in * by done.
  destruct (fragment_numbers _ _ _ Ht) as (fs&Hm&?&Hsn&Hpsn&Hfrg&Hlen&Hw&_).
  unfold assembly. rewrite existsb_insert_by.
  assert (message_size m = Zlength fs) as Hms by (unfold message_size; by rewrite Hm).
  rewrite Hms in *. set (F := fragments_in m l) in *.
  assert (Zlength (insert_by sg_frg t F) = Zlength F + 1) as HlF
    by (unfold Zlength; rewrite insert_by_length; lia).
  assert (s32 (s32 (Zsum (map sg_len F)) + s32 (sg_len t)) = s32 (Zsum (map sg_len (insert_by sg_frg t F)))) as Hsum.
  { rewrite s32_add. f_equal. rewrite (Zsum_perm (map sg_len (insert_by sg_frg t F)) (map sg_len (t :: F))).
    - cbn. lia.
    - apply Permutation_map, insert_by_perm. }
  pose proof (Zlength_nonneg F). rewrite HlF in *.
  unfold packet_add, packet_head, packet, assembly, is_head.
  destruct (Z.eqb_spec (sg_frg t) 0) as [E|E]; unfold set_field; cbn; rewrite Hsum, u16_small by lia; [|by rewrite ?Hms].
  assert (j = 0%nat) as -> by lia. rewrite Hw, u16_small by (done || lia). f_equal. lia.
Qed.

(** ** The list of packets *)

Definition numbered (m : nat) (p : kcp_packet_assembly) : Prop :=
  pk_psn p = psn0 + Z.of_nat m /\ pk_start_sn p = first_sn m /\ is_Some (msgs !! m).

Lemma numbered_lt m m' p q :
  numbered m p -> numbered m' q -> (pk_start_sn p < pk_start_sn q <-> pk_psn p < pk_psn q).
Proof.
  intros (Hp&Hs&[fs Hm]) (Hp'&Hs'&[fs' Hm']). rewrite Hp, Hs, Hp', Hs'.
  pose proof (first_sn_S _ _ Hm). pose proof (first_sn_S _ _ Hm').
  pose proof (message_ok _ _ Hm). pose proof (message_ok _ _ Hm').
  destruct (Nat.lt_trichotomy m m') as [?|[->|?]]; [|lia|].
  - pose proof (first_sn_le (S m) m' ltac:(lia)). lia.
  - pose proof (first_sn_le (S m') m ltac:(lia)). lia.
Qed.

Lemma ksorted_map_in (f : kcp_packet_assembly -> kcp_packet_assembly) l :
  (forall x, x ∈ l -> pk_start_sn (f x) = pk_start_sn x) ->
  ksorted pk_start_sn l -> ksorted pk_start_sn (map f l).
Proof.
  induction l as [|x l IH]; intros Hf; [constructor|]. intros [Hs Hx]%ksorted_cons. cbn.
  apply ksorted_cons. split; [apply IH; [|done]; intros; apply Hf; by constructor|].
  intros y (z & -> & Hz)%list_elem_of_fmap. rewrite !Hf by (by constructor). by apply Hx.
Qed.

Definition all_numbered (l : list kcp_packet_assembly) : Prop :=
  forall p, p ∈ l -> exists m, numbered m p.

(** The packets by packet number are the packets by start. *)
Lemma sorted_by_psn l : all_numbered l -> ksorted pk_start_sn l -> ksorted pk_psn l.
Proof.
  intros Hn. induction l as [|x l IH]; [constructor|]. intros [Hs Hx]%ksorted_cons.
  apply ksorted_cons. split; [apply IH; [|done]; intros ??; apply Hn; by constructor|].
  intros y Hy. destruct (Hn x ltac:(constructor)) as [m ?]. destruct (Hn y ltac:(by constructor)) as [m' ?].
  specialize (Hx y Hy). by eapply numbered_lt.
Qed.

(** Linking a packet whose number is not in the list. *)
Lemma link_sorted m p l :
  all_numbered l -> ksorted pk_start_sn l -> numbered m p -> (forall q, q ∈ l -> pk_psn q <> pk_psn p) ->
  ksorted pk_start_sn (insert_by pk_start_sn p l) /\ all_numbered (insert_by pk_start_sn p l).
Proof.
  intros Hn Hs Hp Hne. split.
  - apply ksorted_insert_by; [done|]. intros q Hq Heq. destruct (Hn q Hq) as [m' Hq'].
    pose proof (numbered_lt _ _ _ _ Hq' Hp). pose proof (numbered_lt _ _ _ _ Hp Hq').
    specialize (Hne q Hq). lia.
  - intros q [->|Hq]%elem_of_insert_by; [by exists m|by apply Hn].
Qed.

(** The list when the packet of a fragment has been unlinked and linked again for
    the first fragment, and written. *)
Lemma packets_written m l p p1 p2 (head : bool) :
  all_numbered l -> ksorted pk_start_sn l -> p ∈ l -> numbered m p -> numbered m p1 -> numbered m p2 ->
  let l1 := if head then insert_by pk_start_sn p1 (List.filter (fun q => negb (pk_psn q =? pk_psn p1)) l) else l in
  let l2 := map (fun q => if pk_psn q =? pk_psn p2 then p2 else q) l1 in
  ksorted pk_start_sn l2 /\ (forall q, q ∈ l2 <-> q = p2 \/ q ∈ l /\ pk_psn q <> pk_psn p2).
Proof.
  intros Hn Hs Hin Hp Hp1 Hp2 l1 l2.
  pose proof Hp as (E0&S0&_). pose proof Hp1 as (E1&S1&_). pose proof Hp2 as (E2&S2&_).
  assert (ksorted pk_start_sn l1 /\ all_numbered l1 /\ (exists q, q ∈ l1 /\ pk_psn q = pk_psn p2) /\
          (forall q, pk_psn q <> pk_psn p2 -> q ∈ l1 <-> q ∈ l)) as (Hs1&Hn1&(q1&Hq1&Eq1)&Hl1).
  { unfold l1. destruct head.
    - assert (forall q, q ∈ List.filter (fun q => negb (pk_psn q =? pk_psn p1)) l <->
                        q ∈ l /\ pk_psn q <> pk_psn p1) as Hf by (intros; apply (elem_of_remove_by pk_psn)).
      destruct (link_sorted m p1 (List.filter (fun q => negb (pk_psn q =? pk_psn p1)) l)) as [? ?].
      + intros q [? _]%Hf. by apply Hn.
      + by apply ksorted_filter.
      + done.
      + by intros q [_ ?]%Hf.
      + split_and!; [done|done| |].
        * exists p1. rewrite elem_of_insert_by. split; [by left|congruence].
        * intros q Hq. rewrite elem_of_insert_by, Hf. split; [|intros; right; split; [done|congruence]].
          intros [->|[? ?]]; [congruence|done].
    - split_and!; [done|done| |done]. exists p. split; [done|congruence]. }
  split.
  - apply ksorted_map_in; [|done]. intros q Hq. destruct (Z.eqb_spec (pk_psn q) (pk_psn p2)); [|done].
    destruct (Hn1 q Hq) as [m' Hq']. pose proof (numbered_lt _ _ _ _ Hq' Hp2).
    pose proof (numbered_lt _ _ _ _ Hp2 Hq'). lia.
  - intros q. unfold l2. rewrite list_elem_of_fmap. split.
    + intros (z & -> & Hz). destruct (Z.eqb_spec (pk_psn z) (pk_psn p2)); [by left|].
      right. split; [by apply Hl1|done].
    + intros [->|[Hq ?]].
      * exists q1. by rewrite Eq1, Z.eqb_refl.
      * exists q. destruct (Z.eqb_spec (pk_psn q) (pk_psn p2)); [done|]. split; [done|by apply Hl1].
Qed.

(** ** The invariant *)

Definition buffered (c : kcp_connection) : list kcp_segment := elements (rcv_buf c).

(** [d] messages have been delivered. *)
Record recv_inv (d : nat) (c : kcp_connection) : Prop := RecvInv {
  ri_tree : tree_ok sg_sn (rcv_buf c);
  ri_buffer : buffer_ok d (buffered c);
  ri_index : tree_ok psn_key (rcv_packet c);
  ri_psns k : k ∈ elements (rcv_packet c) <->
    exists m, fragments_in m (buffered c) <> [] /\ k = psn0 + Z.of_nat m;
  ri_sorted : ksorted pk_start_sn (rcv_packet_list c);
  ri_packets p : p ∈ rcv_packet_list c <->
    exists m, fragments_in m (buffered c) <> [] /\ p = assembly m (fragments_in m (buffered c));
  ri_low : first_sn d <= rcv_nxt c <= first_sn (length msgs);
  ri_below sn : first_sn d <= sn < rcv_nxt c -> exists t, t ∈ buffered c /\ sg_sn t = sn;
  ri_missing t : t ∈ buffered c -> sg_sn t <> rcv_nxt c;
  ri_nrcv_buf : nrcv_buf c = Zlength (buffered c);
  ri_nrcv_que : nrcv_que c = Zlength (rcv_queue c);
  ri_queue_bytes : rcv_queue_bytes c = s32 (Zsum (map sg_len (rcv_queue c)));
}.

(** What the invariant reads. *)
Definition recv_view (c : kcp_connection) :=
  (rcv_buf c, rcv_packet c, rcv_packet_list c, rcv_nxt c, nrcv_buf c, nrcv_que c, rcv_queue c,
   rcv_queue_bytes c).

Lemma recv_inv_view d c c' : recv_view c' = recv_view c -> recv_inv d c -> recv_inv d c'.
Proof.
  unfold recv_view, buffered. intros [= H1 H2 H3 H4 H5 H6 H7 H8] []. unfold buffered in *.
  constructor; unfold buffered in *; rewrite ?H1, ?H2, ?H3, ?H4, ?H5, ?H6, ?H7, ?H8; done.
Qed.

(** The assembly of a message with a buffered fragment has its number. *)
Lemma assembly_numbered d l m :
  buffer_ok d l -> fragments_in m l <> [] -> (d <= m)%nat /\ forall F, numbered m (assembly m F).
Proof.
  intros Hb Hne. destruct (fragments_in m l) as [|t F] eqn:E; [done|].
  destruct (fragments_in_fragment d m l t Hb) as (_&?&j&H); [rewrite E; constructor|].
  destruct (fragment_numbers _ _ _ H) as (fs&?&_). split; [done|]. intros F'. by repeat split.
Qed.

Lemma ri_numbered d c : recv_inv d c -> all_numbered (rcv_packet_list c).
Proof.
  intros Hi p (m & Hne & ->)%(ri_packets d c Hi). exists m.
  by apply (assembly_numbered d (buffered c) m (ri_buffer d c Hi)).
Qed.

(** [rcv_packet] finds the packet of a message. *)
Lemma packet_search d c m :
  recv_inv d c ->
  kcp_rcv_packet_search c (psn0 + Z.of_nat m) =
  match fragments_in m (buffered c) with [] => None | F => Some (assembly m F) end.
Proof.
  intros Hi. unfold kcp_rcv_packet_search. rewrite rb_search_find by apply (ri_index d c Hi).
  destruct (find_by psn_key _ _) as [k|] eqn:E.
  - apply find_by_Some in E as [Hin Hk]. unfold psn_key in Hk. subst k.
    apply (ri_psns d c Hi) in Hin as (m' & Hne & Heq). assert (m' = m) as -> by lia.
    unfold packet_at. change (List.find _ _) with (find_by pk_psn (psn0 + Z.of_nat m) (rcv_packet_list c)).
    change (psn0 + Z.of_nat m) with (pk_psn (assembly m (fragments_in m (buffered c)))).
    rewrite find_by_elem; [by destruct (fragments_in m (buffered c))| |].
    + apply sorted_by_psn; [by eapply ri_numbered|apply (ri_sorted d c Hi)].
    + apply (ri_packets d c Hi). eauto.
  - destruct (fragments_in m (buffered c)) as [|t F] eqn:EF; [done|].
    rewrite find_by_None in E. exfalso. apply (E (psn0 + Z.of_nat m)); [|done].
    apply (ri_psns d c Hi). exists m. by rewrite EF.
Qed.

Lemma segment_search d c sn :
  recv_inv d c -> kcp_rcv_segment_search c sn = find_by sg_sn sn (buffered c).
Proof. intros Hi. apply rb_search_find, (ri_tree d c Hi). Qed.

(** ** Advancing rcv_nxt *)

Lemma advance_spec fuel buf nxt :
  bst sg_sn buf -> (forall t, t ∈ elements buf -> sg_sn t < 4294967295) -> 0 <= nxt ->
  (length (List.filter (fun t => Z.leb nxt (sg_sn t)) (elements buf)) < fuel)%nat ->
  let n := advance_rcv_nxt fuel buf nxt in
  nxt <= n /\ (forall sn, nxt <= sn < n -> exists t, t ∈ elements buf /\ sg_sn t = sn) /\
  (forall t, t ∈ elements buf -> sg_sn t <> n) /\ (n = nxt \/ exists t, t ∈ elements buf /\ n = sg_sn t + 1).
Proof.
  intros Hb Hlt. revert nxt. induction fuel as [|fuel IH]; intros nxt H0 Hf; [lia|]. cbn.
  rewrite rb_search_find by done. destruct (find_by sg_sn nxt (elements buf)) as [t|] eqn:E.
  - apply find_by_Some in E as [Hin Hk]. pose proof (Hlt t Hin). rewrite u32_small by lia.
    destruct (IH (nxt + 1)) as (H1&H2&H3&H4); [lia| |split_and!].
    + apply list_elem_of_split in Hin as (l1 & l2 & Hel). rewrite Hel in Hf |- *.
      rewrite List.filter_app in Hf |- *. cbn in Hf |- *. rewrite length_app in Hf |- *.
      destruct (Z.leb_spec nxt (sg_sn t)); [|lia]. destruct (Z.leb_spec (nxt + 1) (sg_sn t)); [lia|].
      cbn in Hf.
      pose proof (filter_length_mono (fun t => nxt + 1 <=? sg_sn t) (fun t => nxt <=? sg_sn t)) as Hmono.
      pose proof (Hmono l1 ltac:(intros ?; rewrite !Z.leb_le; lia)).
      pose proof (Hmono l2 ltac:(intros ?; rewrite !Z.leb_le; lia)). lia.
    + lia.
    + intros sn Hsn. destruct (decide (sn = nxt)) as [->|]; [eauto|]. apply H2. lia.
    + done.
    + right. destruct H4 as [->|?]; [|done]. exists t. split; [done|lia].
  - rewrite find_by_None in E. split_and!; [lia|intros; lia|done|by left].
Qed.

(** ** The connection after a fragment is stored *)

(** The packet found or created. *)
Definition with_packet (packet : kcp_packet_assembly) (c : kcp_connection) : kcp_connection :=
  match kcp_rcv_packet_search c (pk_psn packet) with
  | Some _ => c
  | None => kcp_rcv_packet_order_insert (kcp_rcv_packet_insert c packet) packet
  end.

(** The packet relinked by a first fragment. *)
Definition relinked (packet : kcp_packet_assembly) (t : kcp_segment) (c : kcp_connection)
  : kcp_packet_assembly * kcp_connection :=
  if sg_frg t =? 0
  then let p := packet_head packet t in (p, kcp_rcv_packet_order_insert (packet_unlink c p) p)
  else (packet, c).

Definition stored (packet : kcp_packet_assembly) (t : kcp_segment) (c : kcp_connection) : kcp_connection :=
  let '(p, c) := relinked packet t c in
  (kcp_rcv_segment_insert (packet_write (packet_add p t) c) t) <| nrcv_buf ::= Z.succ |>.

Definition advanced (t : kcp_segment) (c : kcp_connection) : kcp_connection :=
  if sg_sn t =? rcv_nxt c
  then c <| rcv_nxt := advance_rcv_nxt (S (length (elements (rcv_buf c)))) (rcv_buf c) (u32 (rcv_nxt c + 1)) |>
  else c.

Lemma push_fragment_run packet t c e :
  push_fragment packet t (c, e) =
  match deliver_first (advanced t (stored packet t c),
                       with_flaws (int32_flaws [pk_total_size packet + s32 (sg_len t)]) e) with
  | Some (_, s) => Some (NO_ERROR, s)
  | None => None
  end.
Proof.
  unfold push_fragment, stored, relinked, advanced. run.
  destruct (sg_frg t =? 0); cbv beta iota zeta; by destruct (deliver_first _) as [[[] ?]|].
Qed.

Section Store.
Context (d : nat) (c : kcp_connection) (Hi : recv_inv d c).
Context (m j : nat) (t : kcp_segment) (Hd : (d <= m)%nat) (Ht : is_fragment m j t).
Context (Hnew : forall u, u ∈ buffered c -> sg_sn u <> sg_sn t) (Hge : rcv_nxt c <= sg_sn t).

Let F := fragments_in m (buffered c).
Let packet := assembly m F.
Let c1 := with_packet packet c.

Lemma fragment_numbered G : numbered m (assembly m G).
Proof. destruct (fragment_numbers _ _ _ Ht) as (fs&?&_). by repeat split. Qed.

Lemma with_packet_ok :
  tree_ok psn_key (rcv_packet c1) /\
  (forall k, k ∈ elements (rcv_packet c1) <->
    exists m', (m' = m \/ fragments_in m' (buffered c) <> []) /\ k = psn0 + Z.of_nat m') /\
  ksorted pk_start_sn (rcv_packet_list c1) /\ all_numbered (rcv_packet_list c1) /\
  (forall p, p ∈ rcv_packet_list c1 <->
    p = packet \/ exists m', fragments_in m' (buffered c) <> [] /\ p = assembly m' (fragments_in m' (buffered c))) /\
  c1 = c <| rcv_packet := rcv_packet c1 |> <| rcv_packet_list := rcv_packet_list c1 |>.
Proof.
  unfold c1, with_packet. change (pk_psn packet) with (psn0 + Z.of_nat m).
  pose proof (ri_numbered d c Hi) as Hn. rewrite (packet_search d c m Hi). fold F.
  destruct F as [|u F'] eqn:E.
  - assert (F = []) as E' by done. cbn. unfold set_field; cbn.
    assert (forall y, y ∈ elements (rcv_packet c) -> psn_key y <> psn0 + Z.of_nat m) as Hk.
    { intros y (m' & Hne & ->)%(ri_psns d c Hi) Heq. unfold psn_key in Heq.
      assert (m' = m) as -> by lia. by apply Hne. }
    destruct (link_sorted m packet (rcv_packet_list c)) as [Hs Hn']; [done|apply (ri_sorted d c Hi)| | |].
    { apply fragment_numbered. }
    { intros q (m' & Hne & ->)%(ri_packets d c Hi) Heq. cbn in Heq. assert (m' = m) as -> by lia.
      by apply Hne. }
    split_and!; try done.
    + apply rb_insert_ok; [apply (ri_index d c Hi)|done].
    + intros k. rewrite rb_insert_elements by apply (ri_index d c Hi). rewrite elem_of_insert_by.
      rewrite (ri_psns d c Hi). split.
      * intros [->|(m'&?&->)]; eauto.
      * intros (m'&[->|?]&->); eauto.
    + intros p. rewrite elem_of_insert_by, (ri_packets d c Hi). done.
  - assert (F <> []) as E' by (by rewrite E).
    assert (packet = assembly m F) as Hp by (unfold packet; by rewrite E).
    split_and!; try done.
    + apply (ri_index d c Hi).
    + intros k. rewrite (ri_psns d c Hi). split; intros (m'&H&->); [eauto|].
      destruct H as [->|?]; eauto.
    + apply (ri_sorted d c Hi).
    + intros p. rewrite (ri_packets d c Hi). split; [eauto|]. intros [->|?]; [|done].
      exists m. rewrite Hp. done.
    + by destruct c.
Qed.

Lemma stored_ok :
  let c2 := stored packet t c1 in
  tree_ok sg_sn (rcv_buf c2) /\ buffered c2 = insert_by sg_sn t (buffered c) /\
  rcv_packet c2 = rcv_packet c1 /\ ksorted pk_start_sn (rcv_packet_list c2) /\
  (forall p, p ∈ rcv_packet_list c2 <->
    exists m', fragments_in m' (buffered c2) <> [] /\ p = assembly m' (fragments_in m' (buffered c2))) /\
  (forall m', fragments_in m' (buffered c2) <> [] <-> m' = m \/ fragments_in m' (buffered c) <> []) /\
  rcv_nxt c2 = rcv_nxt c /\ nrcv_buf c2 = nrcv_buf c + 1 /\ nrcv_que c2 = nrcv_que c /\
  rcv_queue c2 = rcv_queue c /\ rcv_queue_bytes c2 = rcv_queue_bytes c /\
  k_self c2 = k_self c /\ read_event_cb c2 = read_event_cb c /\ rcv_wnd c2 = rcv_wnd c.
Proof.
  destruct with_packet_ok as (_&_&Hs&Hn&Hmem&Hc1). pose proof (ri_buffer d c Hi) as Hb.
  pose proof (assembly_add d (buffered c) t m j Hb Hd Ht Hnew) as Hadd. cbn zeta in Hadd. fold F packet in Hadd.
  destruct (packets_written m (rcv_packet_list c1) packet
    (if sg_frg t =? 0 then packet_head packet t else packet)
    (assembly m (fragments_in m (insert_by sg_sn t (buffered c)))) (sg_frg t =? 0)) as [Hs2 Hmem2];
    [done|done|apply Hmem; by left|apply fragment_numbered| |apply fragment_numbered|].
  { pose proof (fragment_numbered F) as (?&?&?). destruct (Z.eqb_spec (sg_frg t) 0); [|done].
    destruct (fragment_numbers _ _ _ Ht) as (fs&Hm&?&?&?&?&_). split_and!; try done. cbn. lia. }
  intros c2. assert (c2 = c1 <| rcv_buf := rb_insert sg_sn t (rcv_buf c) |> <| nrcv_buf ::= Z.succ |>
    <| rcv_packet_list := rcv_packet_list c2 |>) as Hc2.
  { unfold c2, stored, relinked. clearbody c1. rewrite Hc1. by destruct (sg_frg t =? 0), c. }
  match type of Hs2 with ksorted _ ?l => assert (rcv_packet_list c2 = l) as Hl end.
  { clear Hc2. rewrite <- Hadd. unfold c2, stored, relinked. by destruct (sg_frg t =? 0). }
  rewrite <- Hl in Hs2, Hmem2. clear Hl Hadd. clearbody c2.
  assert (buffered c2 = insert_by sg_sn t (buffered c)) as Hbuf.
  { rewrite Hc2. apply rb_insert_elements, (ri_tree d c Hi). }
  assert (forall m', fragments_in m' (buffered c2) =
    if decide (m' = m) then insert_by sg_frg t F else fragments_in m' (buffered c)) as Hfr.
  { intros m'. rewrite Hbuf. by apply (fragments_in_new d _ _ m j). }
  assert (insert_by sg_frg t F <> []) as HF.
  { intros E. pose proof (insert_by_length sg_frg t F) as Hl. by rewrite E in Hl. }
  assert (forall m', fragments_in m' (buffered c2) <> [] <-> m' = m \/ fragments_in m' (buffered c) <> []) as Hne.
  { intros m'. rewrite Hfr. case_decide; [subst; tauto|]. tauto. }
  split_and!; try done; try (rewrite Hc2; cbn; rewrite Hc1; done).
  - rewrite Hc2. apply rb_insert_ok; [apply (ri_tree d c Hi)|done].
  - intros p. rewrite Hmem2, Hmem, <- Hbuf. cbn [pk_psn assembly]. split.
    + intros [->|[[->|(m'&Hm'&->)] Hp]].
      * exists m. rewrite Hne. split; [by left|done].
      * done.
      * exists m'. rewrite Hne, Hfr. rewrite decide_False by (intros ->; done). split; [by right|done].
    + intros (m'&Hm'&->). destruct (decide (m' = m)) as [->|Hmm]; [by left|]. right.
      apply Hne in Hm' as [?|Hm']; [done|]. rewrite Hfr, decide_False by done. split; [eauto|]. cbn. lia.
Qed.

(** Storing a fragment keeps the invariant, the advance included. *)
Lemma stored_inv :
  let c2 := advanced t (stored packet t c1) in
  recv_inv d c2 /\ buffered c2 = insert_by sg_sn t (buffered c) /\ rcv_queue c2 = rcv_queue c /\
  rcv_nxt c <= rcv_nxt c2 /\ (sg_sn t = rcv_nxt c -> sg_sn t < rcv_nxt c2) /\
  k_self c2 = k_self c /\ read_event_cb c2 = read_event_cb c /\ rcv_wnd c2 = rcv_wnd c.
Proof.
  destruct with_packet_ok as (Hidx&Hps&_&_&_&_).
  destruct stored_ok as (Htree&Hbuf&Hidx'&Hs&Hmem&Hne&Hnxt&Hnb&Hnq&Hq&Hqb&Hself&Hcb&Hw).
  set (c2 := stored packet t c1) in *. clearbody c2.
  pose proof (buffer_ok_new d (buffered c) t m j (ri_buffer d c Hi) Hd Ht Hnew) as Hb.
  rewrite <- Hbuf in Hb.
  assert (forall u, u ∈ buffered c2 -> first_sn d <= sg_sn u < first_sn (length msgs)) as Hrange.
  { intros u Hu. destruct (proj2 Hb u Hu) as (m'&j'&Hd'&Hfr). pose proof (fragment_sn_lt _ _ _ Hfr).
    destruct (fragment_numbers _ _ _ Hfr) as (fs&Hm'&_). pose proof (lookup_lt_Some _ _ _ Hm').
    pose proof (first_sn_le d m' Hd'). pose proof (first_sn_le (S m') (length msgs) ltac:(lia)). lia. }
  pose proof (ri_low d c Hi) as Hlow. destruct (so_sn Hso) as [H0 Hend].
  pose proof (first_sn_nonneg d) as Hf0.
  assert (t ∈ buffered c2) as Hin by (rewrite Hbuf; apply elem_of_insert_by; by left).
  assert (forall sn, first_sn d <= sn < rcv_nxt c2 -> exists u, u ∈ buffered c2 /\ sg_sn u = sn) as Hbelow.
  { intros sn Hsn. rewrite Hnxt in Hsn. destruct (ri_below d c Hi sn Hsn) as (u&Hu&?). exists u.
    split; [|done]. rewrite Hbuf. apply elem_of_insert_by. by right. }
  assert (forall n, first_sn d <= n <= first_sn (length msgs) ->
    (forall sn, first_sn d <= sn < n -> exists u, u ∈ buffered c2 /\ sg_sn u = sn) ->
    (forall u, u ∈ buffered c2 -> sg_sn u <> n) -> recv_inv d (c2 <| rcv_nxt := n |>)) as Hmk.
  { intros n Hn Hbl Hms. constructor; unfold buffered in *; unfold set_field; cbn; try done.
    - by rewrite Hidx'.
    - intros k. rewrite Hidx', Hps. by setoid_rewrite Hne.
    - rewrite Hnb, Hbuf, (ri_nrcv_buf d c Hi). unfold Zlength. rewrite insert_by_length. unfold buffered. lia.
    - rewrite Hnq, Hq. apply (ri_nrcv_que d c Hi).
    - rewrite Hqb, Hq. apply (ri_queue_bytes d c Hi). }
  unfold advanced. destruct (Z.eqb_spec (sg_sn t) (rcv_nxt c2)) as [E|E].
  - pose proof (Hrange t Hin). rewrite u32_small by lia.
    destruct (advance_spec (S (length (elements (rcv_buf c2)))) (rcv_buf c2) (rcv_nxt c2 + 1)) as (G1&G2&G3&G4).
    + apply Htree.
    + intros u Hu. specialize (Hrange u Hu). lia.
    + lia.
    + apply Nat.lt_succ_r, filter_length_le.
    + cbn zeta in *. set (n := advance_rcv_nxt _ _ _) in *. clearbody n. split_and!; try done; cbn; try lia.
      apply Hmk; [|intros sn Hsn|done].
      * destruct G4 as [->|(u&Hu&->)]; [lia|]. specialize (Hrange u Hu). lia.
      * destruct (Z.lt_trichotomy sn (rcv_nxt c2)) as [?|[->|?]]; [apply Hbelow; lia|eauto|apply G2; lia].
  - split_and!; try done; [|lia|lia].
    replace c2 with (c2 <| rcv_nxt := rcv_nxt c2 |>) by (by destruct c2). apply Hmk; [lia|done|].
    intros u. rewrite Hbuf, Hnxt. intros [->|Hu]%elem_of_insert_by; [lia|]. by apply (ri_missing d c Hi).
Qed.
End Store.

(** ** Delivering the first message *)

(** What the loop leaves alone. *)
Definition kept_fields (c : kcp_connection) :=
  (rcv_packet c, rcv_packet_list c, rcv_nxt c, rcv_wnd c, k_self c, read_event_cb c, state c).

Lemma deliver_fragments l c :
  tree_ok sg_sn (rcv_buf c) -> ksorted sg_sn l -> (forall t, t ∈ l -> t ∈ buffered c) ->
  let c' := fold_left deliver_fragment l c in
  tree_ok sg_sn (rcv_buf c') /\ (forall t, t ∈ buffered c' <-> t ∈ buffered c /\ t ∉ l) /\
  Zlength (buffered c') = Zlength (buffered c) - Zlength l /\ nrcv_buf c' = nrcv_buf c - Zlength l /\
  rcv_queue c' = rcv_queue c ++ l /\ nrcv_que c' = nrcv_que c + Zlength l /\
  s32 (rcv_queue_bytes c') = s32 (rcv_queue_bytes c + Zsum (map sg_len l)) /\
  (l <> [] -> rcv_queue_bytes c' = s32 (rcv_queue_bytes c')) /\
  kept_fields c' = kept_fields c.
Proof.
  revert c. induction l as [|x l IH]; intros c Hok Hs Hin c'.
  - unfold c'. cbn [fold_left map Zsum]. rewrite Zlength_nil, app_nil_r, !Z.add_0_r, !Z.sub_0_r.
    split_and!; try done. set_solver.
  - apply ksorted_cons in Hs as [Hs Hx]. pose proof (Hin x ltac:(constructor)) as Hxin.
    set (c1 := deliver_fragment c x).
    assert (tree_ok sg_sn (rcv_buf c1)) as Hok1 by (by apply rb_erase_ok).
    assert (buffered c1 = remove_by sg_sn (sg_sn x) (buffered c)) as Hb1 by (by apply rb_erase_elements).
    assert (forall t, t ∈ buffered c1 <-> t ∈ buffered c /\ t <> x) as Hm1.
    { intros t. rewrite Hb1, elem_of_remove_by. split; intros [Ht Hne]; (split; [done|]).
      - by intros ->.
      - intros Heq. apply Hne. assert (find_by sg_sn (sg_sn x) (buffered c) = Some x) as Hf1
          by (by apply find_by_elem; [apply Hok|]).
        rewrite <- Heq, find_by_elem in Hf1 by (apply Hok || done). congruence. }
    destruct (IH c1 Hok1 Hs) as (H1&H2&H3&H4&H5&H6&H7&H8&H9).
    { intros t Ht. apply Hm1. split; [apply Hin; by constructor|]. intros ->. specialize (Hx x Ht). lia. }
    assert (Zlength (buffered c1) = Zlength (buffered c) - 1) as Hl1.
    { assert (Permutation (buffered c) (x :: buffered c1)) as Hp.
      { rewrite Hb1. apply find_remove_perm; [apply Hok|]. by apply find_by_elem; [apply Hok|]. }
      rewrite (Zlength_perm _ _ Hp), Zlength_cons. lia. }
    cbn [fold_left] in c'. fold c1 in c'. fold c' in H1, H2, H3, H4, H5, H6, H7, H8, H9.
    rewrite Zlength_cons. split_and!.
    + done.
    + intros t. rewrite H2, Hm1, not_elem_of_cons. tauto.
    + lia.
    + rewrite H4. change (nrcv_buf c1) with (Z.pred (nrcv_buf c)). lia.
    + rewrite H5. change (rcv_queue c1) with (rcv_queue c ++ [x]). by rewrite <- app_assoc.
    + rewrite H6. change (nrcv_que c1) with (Z.succ (nrcv_que c)). lia.
    + rewrite H7. change (rcv_queue_bytes c1) with (s32 (rcv_queue_bytes c + s32 (sg_len x))).
      cbn [map Zsum]. rewrite s32_add_l, <- Z.add_assoc, (Z.add_comm (s32 _)), Z.add_assoc, s32_add_r.
      f_equal. lia.
    + intros _. destruct l as [|y l]; [|by apply H8]. unfold c'. cbn [fold_left].
      change (rcv_queue_bytes c1) with (s32 (rcv_queue_bytes c + s32 (sg_len x))). by rewrite s32_idemp.
    + by rewrite H9.
Qed.

Lemma consecutive_ok start l :
  0 <= start -> start + Zlength l < 4294967296 ->
  (forall i t, l !! i = Some t -> sg_sn t = start + Z.of_nat i) -> fragments_consecutive start l = true.
Proof.
  revert start. induction l as [|x l IH]; intros start H0 Hlt Hl; [done|]. cbn.
  rewrite Zlength_cons in Hlt. pose proof (Zlength_nonneg l).
  rewrite (Hl 0%nat x), Z.add_0_r, Z.eqb_refl by done. cbn. rewrite u32_small by lia.
  apply IH; [lia..|]. intros i t Hi. rewrite (Hl (S i) t) by done. lia.
Qed.

(** A message below [rcv_nxt] is buffered whole. *)
Lemma message_buffered d c fs :
  recv_inv d c -> msgs !! d = Some fs -> first_sn (S d) <= rcv_nxt c ->
  map payload (fragments_in d (buffered c)) = map payload fs.
Proof.
  intros Hi Hm Hle. apply (fragments_in_full d); [apply (ri_buffer d c Hi)|done|].
  intros sn Hsn. apply (ri_below d c Hi). lia.
Qed.

Lemma payload_lookup l k i t :
  map payload l = map payload k -> l !! i = Some t -> exists s, k !! i = Some s /\ payload t = payload s.
Proof.
  intros Hp Hi. assert (payload <$> l !! i = payload <$> k !! i) as Hl.
  { rewrite <- !list_lookup_fmap. by f_equal. }
  rewrite Hi in Hl. cbn in Hl. destruct (k !! i) as [s|]; [|done]. exists s. split; [done|]. cbn in Hl. congruence.
Qed.

Lemma payload_length l k : map payload l = map payload k -> Zlength l = Zlength k.
Proof. intros Hp. apply (f_equal length) in Hp. rewrite !length_map in Hp. unfold Zlength. lia. Qed.

(** The message buffered whole is recognised as complete. *)
Lemma message_complete d c fs :
  recv_inv d c -> msgs !! d = Some fs -> first_sn (S d) <= rcv_nxt c ->
  let F := fragments_in d (buffered c) in
  pk_expected_frags (assembly d F) = Zlength fs /\ kcp_rcv_packet_is_complete (assembly d F) = true.
Proof.
  intros Hi Hm Hle F. pose proof (message_buffered d c fs Hi Hm Hle) as Hp. fold F in Hp.
  pose proof (payload_length _ _ Hp) as Hl. pose proof (message_ok _ _ Hm) as Hfs.
  pose proof (first_sn_S _ _ Hm) as HS. destruct (so_sn Hso) as [_ Hend].
  pose proof (lookup_lt_Some _ _ _ Hm). pose proof (first_sn_le (S d) (length msgs) ltac:(lia)).
  pose proof (first_sn_nonneg d).
  assert (existsb is_head F = true) as Hh.
  { destruct F as [|t F'] eqn:E; [rewrite Zlength_nil in Hl; lia|].
    destruct (payload_lookup _ _ 0 t Hp eq_refl) as (s & Hs & [= _ _ Hfrg _ _]).
    destruct (so_segment Hso d fs 0 s Hm Hs) as (_&_&Hf&_). cbn. unfold is_head at 1.
    by rewrite Hfrg, Hf. }
  unfold kcp_rcv_packet_is_complete, assembly. rewrite Hh. cbn.
  unfold message_size. rewrite Hm. split; [done|].
  destruct (Z.eqb_spec (Zlength fs) 0); [lia|]. rewrite Hl, Z.eqb_refl. cbn.
  apply consecutive_ok; [done|lia|]. intros i t Hi'.
  destruct (payload_lookup _ _ _ _ Hp Hi') as (s & Hs & [= Hsn _ _ _ _]). rewrite Hsn.
  by apply (so_segment Hso d fs i s).
Qed.

(** Message [d] can be delivered. *)
Definition deliverable (d : nat) (c : kcp_connection) : bool :=
  match msgs !! d with Some _ => first_sn (S d) <=? rcv_nxt c | None => false end.

(** The assembly of the first message is the first of the list when its
    fragments are all there. *)
Lemma first_packet d c :
  recv_inv d c -> deliverable d c = true ->
  exists l, rcv_packet_list c = assembly d (fragments_in d (buffered c)) :: l.
Proof.
  unfold deliverable. intros Hi Hdel. destruct (msgs !! d) as [fs|] eqn:Hm; [|done]. bprop.
  pose proof (message_buffered d c fs Hi Hm Hdel) as Hp. pose proof (message_ok _ _ Hm).
  assert (fragments_in d (buffered c) <> []) as Hne.
  { intros E. apply payload_length in Hp. rewrite E, Zlength_nil in Hp. lia. }
  assert (assembly d (fragments_in d (buffered c)) ∈ rcv_packet_list c) as Hin
    by (apply (ri_packets d c Hi); eauto).
  pose proof (ri_sorted d c Hi) as Hs. pose proof (ri_packets d c Hi) as Hpk.
  destruct (rcv_packet_list c) as [|p l]; [by apply not_elem_of_nil in Hin|].
  apply elem_of_cons in Hin as [<-|Hin]; [by exists l|]. exfalso.
  apply ksorted_cons in Hs as [_ Hs]. specialize (Hs _ Hin). cbn in Hs.
  destruct (proj1 (Hpk p) ltac:(constructor)) as (m & Hm' & ->). cbn in Hs.
  destruct (assembly_numbered d _ m (ri_buffer d c Hi) Hm') as [Hdm _].
  pose proof (first_sn_le d m Hdm). lia.
Qed.

(** A packet that passes the test of the delivery is that of message [d]. *)
Lemma complete_deliverable d c p l :
  recv_inv d c -> rcv_packet_list c = p :: l -> kcp_rcv_packet_is_complete p = true ->
  u32 (pk_start_sn p + pk_expected_frags p) <= rcv_nxt c -> deliverable d c = true.
Proof.
  intros Hi Hl Hc Hle. pose proof (ri_packets d c Hi p) as Hp. rewrite Hl in Hp.
  destruct (proj1 Hp ltac:(constructor)) as (m & Hne & ->).
  destruct (assembly_numbered d _ m (ri_buffer d c Hi) Hne) as [Hdm Hnum].
  destruct (Hnum []) as (_&_&[fs Hm]). unfold kcp_rcv_packet_is_complete in Hc.
  cbn in Hc, Hle. destruct (existsb is_head _); [|done]. cbn in Hc, Hle.
  unfold message_size in Hc, Hle. rewrite Hm in Hc, Hle.
  pose proof (first_sn_S _ _ Hm) as HS. pose proof (lookup_lt_Some _ _ _ Hm).
  destruct (so_sn Hso) as [_ Hend]. pose proof (first_sn_le (S m) (length msgs) ltac:(lia)).
  pose proof (first_sn_nonneg (S m)). rewrite <- HS, u32_small in Hle by lia.
  unfold deliverable. destruct (lookup_lt_is_Some_2 msgs d) as [fs' ->]; [lia|].
  pose proof (first_sn_le (S d) (S m) ltac:(lia)). apply Z.leb_le. lia.
Qed.

(** The receiver after the delivery of message [d]. *)
Definition after_delivery (d : nat) (c : kcp_connection) : kcp_connection :=
  let packet := assembly d (fragments_in d (buffered c)) in
  kcp_rcv_packet_destroy (fold_left deliver_fragment (pk_fragments packet) c) packet.

Lemma fragments_in_other d m l l' :
  ksorted sg_sn l -> ksorted sg_sn l' -> (forall t, t ∈ l' <-> t ∈ l /\ t ∉ fragments_in d l) ->
  fragments_in m l' = if decide (m = d) then [] else fragments_in m l.
Proof.
  intros Hs Hs' Hl. apply (ksorted_ext sg_sn); [by apply ksorted_filter|case_decide; [constructor|by apply ksorted_filter]|].
  intros t. rewrite elem_of_fragments_in, Hl, elem_of_fragments_in. case_decide as E.
  - subst. split; [tauto|by intros ?%not_elem_of_nil].
  - rewrite elem_of_fragments_in. split; [tauto|]. intros [Hin Hm]. split_and!; try done.
    intros [_ Hd]. unfold in_message in *. bprop. lia.
Qed.

(** The buffers once message [d] has moved to the queue. *)
Record moved_out (d : nat) (c c' : kcp_connection) : Prop := {
  mo_tree : tree_ok sg_sn (rcv_buf c');
  mo_buffered t : t ∈ buffered c' <-> t ∈ buffered c /\ first_sn (S d) <= sg_sn t;
  mo_fragments m : fragments_in m (buffered c') = if decide (m = d) then [] else fragments_in m (buffered c);
  mo_index : rcv_packet c' = rb_erase psn_key (psn0 + Z.of_nat d) (rcv_packet c);
  mo_list : rcv_packet_list c' = remove_by pk_psn (psn0 + Z.of_nat d) (rcv_packet_list c);
  mo_queue : rcv_queue c' = rcv_queue c ++ fragments_in d (buffered c);
  mo_counts : nrcv_buf c' = Zlength (buffered c') /\ nrcv_que c' = Zlength (rcv_queue c') /\
              rcv_queue_bytes c' = s32 (Zsum (map sg_len (rcv_queue c')));
  mo_rest : (rcv_nxt c', rcv_wnd c', k_self c', read_event_cb c', state c') = (rcv_nxt c, rcv_wnd c, k_self c, read_event_cb c, state c);
}.

Lemma after_delivery_moves d c fs :
  recv_inv d c -> msgs !! d = Some fs -> first_sn (S d) <= rcv_nxt c -> moved_out d c (after_delivery d c).
Proof.
  intros Hi Hm Hle. set (c' := after_delivery d c). pose proof (ri_buffer d c Hi) as Hb. set (F := fragments_in d (buffered c)).
  pose proof (first_sn_S _ _ Hm) as HS. pose proof (message_ok _ _ Hm) as Hfs.
  pose proof (message_buffered d c fs Hi Hm Hle) as Hp. fold F in Hp.
  assert (F <> []) as HF by (intros E; apply payload_length in Hp; rewrite E, Zlength_nil in Hp; lia).
  destruct (deliver_fragments F c) as (Htree&Hmem&Hlen&Hnb&Hq&Hnq&Hqb&Hqb'&Hk).
  { apply (ri_tree d c Hi). } { apply ksorted_filter, Hb. } { intros t Ht. by eapply fragments_in_fragment. }
  set (c1 := fold_left deliver_fragment F c) in *.
  assert (c' = c1 <| rcv_packet := rb_erase psn_key (psn0 + Z.of_nat d) (rcv_packet c1) |>
     <| rcv_packet_list ::= List.filter (fun q => negb (pk_psn q =? psn0 + Z.of_nat d)) |>) as Hc' by done.
  clearbody c1 c'. injection Hk as Hk1 Hk2 Hk3 Hk4 Hk5 Hk6 Hk7.
  assert (buffered c' = buffered c1) as Hbuf by (by rewrite Hc').
  constructor.
  - rewrite Hc'. apply Htree.
  - intros t. rewrite Hbuf, Hmem. split; intros [Hin Hno]; (split; [done|]).
    + destruct (Z.lt_ge_cases (sg_sn t) (first_sn (S d))) as [Hlt|]; [|done]. exfalso. apply Hno.
      apply (fragments_in_sn d); [done|done|]. destruct (proj2 Hb t Hin) as (m'&j&Hd'&Hf).
      pose proof (fragment_sn_lt _ _ _ Hf). pose proof (first_sn_le d m' Hd'). lia.
    + intros Ht. destruct (fragments_in_fragment d d _ t Hb Ht) as (_&_&j&Hf).
      pose proof (fragment_sn_lt _ _ _ Hf). lia.
  - intros m. rewrite Hbuf. apply fragments_in_other; [apply Hb|apply Htree|done].
  - rewrite Hc'. cbn. by rewrite Hk1.
  - rewrite Hc'. cbn. by rewrite Hk2.
  - by rewrite Hc'.
  - split_and!; [rewrite Hbuf, Hlen, Hc'; cbn; by rewrite Hnb, (ri_nrcv_buf d c Hi)|
      rewrite Hc'; cbn; by rewrite Hnq, Hq, Zlength_app, (ri_nrcv_que d c Hi)|].
    rewrite Hc'. cbn. rewrite (Hqb' HF), Hqb, Hq, map_app, Zsum_app, (ri_queue_bytes d c Hi), s32_add_l. done.
  - rewrite Hc'. cbn. congruence.
Qed.

Lemma moved_out_inv d c c' : recv_inv d c -> first_sn (S d) <= rcv_nxt c -> moved_out d c c' -> recv_inv (S d) c'.
Proof.
  intros Hi Hle [Htree Hin Hfr Hidx Hlist Hq (Hn1 & Hn2 & Hn3) Hrest]. injection Hrest as Hnxt _ _ _ _.
  pose proof (ri_buffer d c Hi) as Hb.
  assert (forall m, fragments_in m (buffered c') <> [] <-> m <> d /\ fragments_in m (buffered c) <> []) as Hne.
  { intros m. rewrite Hfr. case_decide; tauto. }
  constructor; try done.
  - split; [apply Htree|]. intros t [Hint Hge]%Hin.
    destruct (proj2 Hb t Hint) as (m'&j&Hd'&Hf). exists m', j. split; [|done].
    pose proof (fragment_sn_lt _ _ _ Hf). destruct (decide (m' = d)) as [->|]; [lia|lia].
  - rewrite Hidx. apply rb_erase_ok, (ri_index d c Hi).
  - intros k. rewrite Hidx, rb_erase_elements by apply (ri_index d c Hi).
    rewrite elem_of_remove_by, (ri_psns d c Hi). setoid_rewrite Hne. unfold psn_key. split.
    + intros [(m&Hmm&->) Hk]. exists m. split_and!; [intros ->; lia|done|done].
    + intros (m&[Hmd Hmm]&->). split; [by eauto|lia].
  - rewrite Hlist. apply ksorted_filter, (ri_sorted d c Hi).
  - intros p. rewrite Hlist, elem_of_remove_by, (ri_packets d c Hi). split.
    + intros [(m&Hmm&->) Hk]. exists m. cbn in Hk. rewrite Hne, Hfr, decide_False by (intros ->; lia).
      split_and!; [intros ->; lia|done|done].
    + intros (m&[Hmd Hmm]%Hne&->). rewrite Hfr, decide_False by done. split; [eauto|]. cbn. lia.
  - rewrite Hnxt. pose proof (ri_low d c Hi). lia.
  - intros sn Hsn. rewrite Hnxt in Hsn. pose proof (first_sn_le d (S d) ltac:(lia)).
    destruct (ri_below d c Hi sn) as (t&Ht&<-); [lia|]. exists t. rewrite Hin. split; [|done]. split; [done|lia].
  - intros t Ht. rewrite Hnxt. apply (ri_missing d c Hi). by apply Hin in Ht as [? _].
Qed.

Lemma after_delivery_inv d c fs :
  recv_inv d c -> msgs !! d = Some fs -> first_sn (S d) <= rcv_nxt c ->
  let c' := after_delivery d c in
  recv_inv (S d) c' /\ rcv_queue c' = rcv_queue c ++ fragments_in d (buffered c) /\
  rcv_nxt c' = rcv_nxt c /\ rcv_wnd c' = rcv_wnd c /\ k_self c' = k_self c /\
  read_event_cb c' = read_event_cb c /\ state c' = state c.
Proof.
  intros Hi Hm Hle c'. pose proof (after_delivery_moves d c fs Hi Hm Hle) as Hmo. fold c' in Hmo. clearbody c'.
  split; [by eapply moved_out_inv|]. split; [apply (mo_queue _ _ _ Hmo)|].
  pose proof (mo_rest _ _ _ Hmo) as H. by injection H.
Qed.

Lemma deliver_first_spec d c e :
  recv_inv d c ->
  deliver_first (c, e) =
  if deliverable d c
  then let e := with_flaws (int32_flaws (queue_bytes_ops (rcv_queue_bytes c) (fragments_in d (buffered c)))) e in
       Some (tt, (after_delivery d c,
         if read_event_cb c
         then e <| e_trace ::= (fun t => t ++ [OnReadEvent (k_self c)
                (pk_total_size (assembly d (fragments_in d (buffered c))))]) |>
         else e))
  else Some (tt, (c, e)).
Proof.
  intros Hi. unfold deliver_first. run. destruct (deliverable d c) eqn:Hdel.
  - destruct (first_packet d c Hi Hdel) as [l ->]. unfold deliverable in Hdel.
    destruct (msgs !! d) as [fs|] eqn:Hm; [|done]. bprop.
    destruct (message_complete d c fs Hi Hm Hdel) as [Hexp Hcomp].
    pose proof (first_sn_S _ _ Hm). destruct (so_sn Hso) as [_ Hend]. pose proof (lookup_lt_Some _ _ _ Hm).
    pose proof (first_sn_le (S d) (length msgs) ltac:(lia)). pose proof (first_sn_nonneg (S d)).
    rewrite Hcomp, Hexp. change (pk_start_sn _) with (first_sn d). rewrite u32_small by lia.
    destruct (Z.leb_spec (first_sn d + Zlength fs) (rcv_nxt c)); [|lia]. cbn [andb].
    by destruct (read_event_cb c).
  - destruct (rcv_packet_list c) as [|p l] eqn:El; [done|].
    destruct (kcp_rcv_packet_is_complete p) eqn:Ec; [|done]. cbn [andb].
    destruct (Z.leb_spec (u32 (pk_start_sn p + pk_expected_frags p)) (rcv_nxt c)) as [Hle|]; [|done].
    by rewrite (complete_deliverable d c p l Hi El Ec Hle) in Hdel.
Qed.

(** ** A PUSH of the stream *)

(** Two states that differ in the pool of unused segments and the acknowledgements
    to send. *)
Definition same_receiver (c c' : kcp_connection) : Prop :=
  recv_view c' = recv_view c /\ kept_fields c' = kept_fields c.

Lemma same_receiver_inv d c c' : same_receiver c c' -> recv_inv d c -> recv_inv d c'.
Proof. intros [Hv _]. by apply recv_inv_view. Qed.

Lemma recv_get_spec c e :
  exists r c' e', kcp_segment_recv_get (c, e) = Some (r, (c', e')) /\
    same_receiver c c' /\ only_malloc e e' /\ (memory_available e -> memory_available e' /\ is_Some r).
Proof.
  unfold kcp_segment_recv_get. run. destruct (rcv_buf_unused c) as [|s l].
  - destruct (malloc_spec c e) as (b & e' & -> & He & Hm). eexists _, _, _.
    split_and!; [done|done|done|]. intros [? ->]%Hm. split; [done|by eexists].
  - cbn. eexists _, _, _. split_and!; [done|done|reflexivity|by eauto].
Qed.

(** The fragment is ignored: with memory, because it is old, beyond the window or
    there already. *)
Definition push_dropped (m j : nat) (c : kcp_connection) (e : env) (c' : kcp_connection) (e' : env) : Prop :=
  same_receiver c c' /\ only_malloc e e' /\
  (memory_available e -> forall fs s, msgs !! m = Some fs -> fs !! j = Some s ->
     sg_sn s < rcv_nxt c \/ u32 (rcv_nxt c + rcv_wnd c) <= sg_sn s \/
     exists u, u ∈ buffered c /\ sg_sn u = sg_sn s).

(** It is stored, and message [d] delivered if that completes it. *)
Definition push_stored (d m j : nat) (c : kcp_connection) (e : env) (code : Z) (c' : kcp_connection) (e' : env) : Prop :=
  exists t c1, is_fragment m j t /\ (d <= m)%nat /\ recv_inv d c1 /\
    buffered c1 = insert_by sg_sn t (buffered c) /\ rcv_queue c1 = rcv_queue c /\
    rcv_nxt c <= rcv_nxt c1 /\ rcv_wnd c1 = rcv_wnd c /\ k_self c1 = k_self c /\
    read_event_cb c1 = read_event_cb c /\ code = NO_ERROR /\
    if deliverable d c1
    then c' = after_delivery d c1 /\ e_trace e' = e_trace e ++
           (if read_event_cb c then [OnReadEvent (k_self c) (pk_total_size (assembly d (fragments_in d (buffered c1))))] else [])
    else c' = c1 /\ e_trace e' = e_trace e.

(** A fragment that is missing is of a message that is not delivered. *)
Lemma missing_fragment d c m j t : recv_inv d c -> is_fragment m j t -> rcv_nxt c <= sg_sn t -> (d <= m)%nat.
Proof.
  intros Hi Ht Hge. destruct (Nat.le_gt_cases d m) as [|Hlt]; [done|exfalso]. pose proof (fragment_sn_lt _ _ _ Ht).
  pose proof (first_sn_le (S m) d ltac:(lia)). pose proof (ri_low d c Hi). lia.
Qed.

(** Stored in the assembly of its packet. *)
Lemma push_fragment_stores d c c2 e e3 m j t :
  recv_inv d c -> same_receiver c c2 -> is_fragment m j t -> rcv_nxt c <= sg_sn t ->
  (forall u, u ∈ buffered c2 -> sg_sn u <> sg_sn t) -> only_malloc e e3 ->
  let packet := assembly m (fragments_in m (buffered c2)) in
  exists c' e', push_fragment packet t (with_packet packet c2, e3) = Some (NO_ERROR, (c', e')) /\
    (memory_available e3 -> memory_available e') /\ push_stored d m j c e NO_ERROR c' e'.
Proof.
  intros Hi Hs2 Ht Hge Hnew He3 packet. pose proof (same_receiver_inv d c c2 Hs2 Hi) as Hi2.
  pose proof (missing_fragment d c m j t Hi Ht Hge) as Hdm.
  destruct Hs2 as [[= V1 V2 V3 V4 V5 V6 V7 V8] [= K1 K2 K3 K4 K5 K6 K7]].
  assert (buffered c2 = buffered c) as Hb2 by (unfold buffered; by rewrite V1).
  pose proof (stored_inv d c2 Hi2 m j t Hdm Ht) as Hst. cbn zeta in Hst. fold packet in Hst.
  destruct Hst as (Hi3&Hb3&Hq3&Hn3&_&Hself3&Hcb3&Hw3); [exact Hnew|lia|].
  set (c3 := advanced t (stored packet t (with_packet packet c2))) in *.
  assert (e_trace e3 = e_trace e) as Htr by (by rewrite He3).
  rewrite push_fragment_run. fold c3. rewrite (deliver_first_spec d) by done. rewrite Hcb3, Hself3, K5, K6.
  assert (forall c' e', (if deliverable d c3
     then c' = after_delivery d c3 /\ e_trace e' = e_trace e ++
       (if read_event_cb c then [OnReadEvent (k_self c) (pk_total_size (assembly d (fragments_in d (buffered c3))))] else [])
     else c' = c3 /\ e_trace e' = e_trace e) -> push_stored d m j c e NO_ERROR c' e') as Hfin.
  { intros c' e' Hres. exists t, c3. split_and!; congruence || lia || done. }
  destruct (deliverable d c3).
  - eexists _, _. split_and!; [done|by destruct (read_event_cb c)|apply Hfin].
    split; [done|]. destruct (read_event_cb c); cbn; rewrite Htr; [done|by rewrite app_nil_r].
  - eexists _, _. split_and!; [done|done|by apply Hfin].
Qed.

(** What a PUSH answers: only memory makes it fail. *)
Definition push_result (d m j : nat) (c : kcp_connection) (e : env) (code : Z) (c' : kcp_connection) (e' : env) : Prop :=
  (code <> NO_ERROR -> code = NO_MEMORY /\ ~ memory_available e) /\
  (memory_available e -> memory_available e') /\
  (push_dropped m j c e c' e' \/ push_stored d m j c e code c' e').

Lemma push_fails d m j c e c' e' :
  ~ memory_available e -> same_receiver c c' -> only_malloc e e' -> push_result d m j c e NO_MEMORY c' e'.
Proof. intros Hm Hs He. split_and!; [done|done|left]. by split_and!. Qed.

Lemma push_drops d m j c e c' e' fs s :
  same_receiver c c' -> only_malloc e e' -> (memory_available e -> memory_available e') ->
  msgs !! m = Some fs -> fs !! j = Some s ->
  sg_sn s < rcv_nxt c \/ u32 (rcv_nxt c + rcv_wnd c) <= sg_sn s \/ (exists u, u ∈ buffered c /\ sg_sn u = sg_sn s) ->
  push_result d m j c e NO_ERROR c' e'.
Proof. intros Hs He Hm ? ? Hwhy. split_and!; [done|done|left]. split_and!; [done|done|]. intros _ ????. by simplify_eq. Qed.

(** The segment is new: it goes to the assembly of its packet, made if there is none. *)
Lemma push_new d c c2 e e2 m j t :
  recv_inv d c -> same_receiver c c2 -> is_fragment m j t -> rcv_nxt c <= sg_sn t ->
  (forall u, u ∈ buffered c2 -> sg_sn u <> sg_sn t) -> only_malloc e e2 -> (memory_available e -> memory_available e2) ->
  exists code c' e',
    (packet ← (match kcp_rcv_packet_search c2 (psn0 + Z.of_nat m) with
               | Some packet => mret (Some packet)
               | None => kcp_rcv_packet_create (psn0 + Z.of_nat m) (first_sn m)
               end);
     match packet with
     | None => mods (fun c => ack_item_drop_last (kcp_segment_recv_put c t));; mret NO_MEMORY
     | Some packet => push_fragment packet t
     end) (c2, e2) = Some (code, (c', e')) /\ push_result d m j c e code c' e'.
Proof.
  intros Hi Hs2 Ht Hge Hnew He2 Hm2. pose proof (same_receiver_inv d c c2 Hs2 Hi) as Hi2.
  pose proof (packet_search d c2 m Hi2) as Hsearch.
  pose proof (fun e3 He => push_fragment_stores d c c2 e e3 m j t Hi Hs2 Ht Hge Hnew He) as Hfin. cbv zeta in Hfin.
  rewrite Hsearch. unfold with_packet in Hfin. set (F := fragments_in m (buffered c2)) in *.
  change (pk_psn (assembly m F)) with (psn0 + Z.of_nat m) in Hfin. rewrite Hsearch in Hfin.
  assert (same_receiver c (ack_item_drop_last (kcp_segment_recv_put c2 t))) as Hput.
  { unfold same_receiver. rewrite <- (proj1 Hs2), <- (proj2 Hs2). unfold kcp_segment_recv_put. by destruct (_ <? _). }
  destruct F as [|f F'] eqn:EF.
  - unfold kcp_rcv_packet_create. run. destruct (malloc_spec c2 e2) as (b&e3&->&He3&Hm3).
    assert (only_malloc e e3) as Hee by (by etransitivity). destruct b; run.
    + destruct (Hfin e3 Hee) as (c'&e'&Hr&Hme'&?).
      exists NO_ERROR, c', e'. split; [exact Hr|]. split_and!; [done| |by right]. intros ?%Hm2. by apply Hme', Hm3.
    + eexists _, _, _. split; [done|]. apply push_fails; [|done|done]. by intros [? ?]%Hm2%Hm3.
  - destruct (Hfin e2 He2) as (c'&e'&Hr&Hme'&?).
    exists NO_ERROR, c', e'. split; [exact Hr|]. split_and!; [done| |by right]. intros ?. by apply Hme', Hm2.
Qed.

(** One PUSH. *)
Lemma push_step d c e h ts m j :
  recv_inv d c -> carries h m j ->
  exists code c' e', on_kcp_push_pcaket h ts (c, e) = Some (code, (c', e')) /\ push_result d m j c e code c' e'.
Proof.
  intros Hi (fs & s & ts0 & una & data & Hm & Hj & Hfrg & Hwnd & Hd & Hdata).
  unfold on_kcp_push_pcaket. run. rewrite Hd.
  set (c0 := c <| ping / keepalive_next_ts := _ |>).
  assert (same_receiver c c0) as Hs0 by done.
  destruct (so_segment Hso m fs j s Hm Hj) as (Hsn&Hpsn&Hsfrg&Hslen&_).
  change (rcv_nxt c0) with (rcv_nxt c). change (rcv_wnd c0) with (rcv_wnd c).
  destruct (Z.leb_spec (u32 (rcv_nxt c + rcv_wnd c)) (sg_sn s)).
  { eexists _, _, _. split; [done|]. apply (push_drops d m j c e _ _ fs s); try done. by right; left. }
  destruct (Z.ltb_spec (sg_sn s) (rcv_nxt c)) as [|Hge].
  { eexists _, _, _. split; [done|]. apply (push_drops d m j c e _ _ fs s); try done. by left. }
  destruct (malloc_spec c0 e) as (b&e1&->&He1&Hm1). destruct b; cbn [negb].
  2: { eexists _, _, _. split; [done|]. apply push_fails; [by intros [? ?]%Hm1|done|done]. }
  destruct (recv_get_spec c0 e1) as (r&c1&e2&->&Hs1&He2&Hm2).
  assert (memory_available e -> memory_available e2 /\ is_Some r) as Hme by (intros [? _]%Hm1; by apply Hm2).
  assert (only_malloc e e2) as Heo by (by etransitivity).
  destruct r as [seg|].
  2: { eexists _, _, _. split; [done|]. apply push_fails; [by intros [? [? ?]]%Hme| |done].
       unfold same_receiver. by rewrite (proj1 Hs1), (proj2 Hs1). }
  destruct (Z.ltb_spec SEGMENT_ROOM (sg_len s)); [pose proof (so_room Hso m fs j s Hm Hj); lia|].
  set (c2 := c1 <| ack_item ::= _ |>). set (t := segment_of_header seg h _ _ _ _ _ _).
  assert (same_receiver c c2) as Hs2 by (unfold same_receiver; by rewrite <- (proj1 Hs0), <- (proj2 Hs0), <- (proj1 Hs1), <- (proj2 Hs1)).
  pose proof (same_receiver_inv d c c2 Hs2 Hi) as Hi2. clearbody c2. clear Hs1 c1.
  assert (is_fragment m j t) as Ht.
  { exists fs, s. split_and!; [done|done| |by intros; apply Hwnd]. unfold payload, t, segment_of_header. cbn.
    by rewrite Hdata, Hfrg. }
  rewrite (segment_search d c2) by done.
  destruct (find_by sg_sn (sg_sn s) (buffered c2)) as [u|] eqn:Ef.
  { eexists _, _, _. split; [done|]. apply (push_drops d m j c e _ _ fs s); try done; [|by intros [? _]%Hme|].
    - unfold same_receiver. rewrite <- (proj1 Hs2), <- (proj2 Hs2). unfold kcp_segment_recv_put. by case_match.
    - right; right. exists u. apply find_by_Some in Ef. destruct Hs2 as [[= V1 _ _ _ _ _ _ _] _].
      unfold buffered in *. by rewrite <- V1. }
  rewrite find_by_None in Ef. rewrite Hpsn.
  assert (u32 (sg_sn s - sg_frg t) = first_sn m) as ->.
  { change (sg_frg t) with (h_frg h). rewrite Hfrg, Hsfrg, Hsn, Z.add_simpl_r.
    destruct (fragment_numbers _ _ _ Ht) as (?&?&?&?&?&?&?&?&?&?&?). apply u32_small.
    pose proof (first_sn_nonneg m). lia. }
  apply push_new; try done. by intros [? _]%Hme.
Qed.

(** ** The contract *)

(** The segment of a message has the length of its contents. *)
Definition sized (t : kcp_segment) : Prop := sg_len t = Zlength (sg_data t).

Lemma message_sized m fs : msgs !! m = Some fs -> Forall sized fs.
Proof.
  intros Hm. apply Forall_forall. intros s [j Hj]%list_elem_of_lookup.
  by apply (so_segment Hso m fs j s).
Qed.

Lemma payload_contents l k :
  map payload l = map payload k -> contents l = contents k /\ map sg_len l = map sg_len k /\ (Forall sized k -> Forall sized l).
Proof.
  revert k. induction l as [|x l IH]; intros [|y k] H; try discriminate; [done|].
  cbn in H. injection H as H1 H2 H3 H4 H5 H6. destruct (IH k H6) as (IH1&IH2&IH3).
  unfold contents in *. cbn. rewrite IH1, IH2, H4, H5. split_and!; [done..|].
  intros [? ?]%Forall_cons. constructor; [unfold sized in *; congruence|by apply IH3].
Qed.

Lemma push_in_order_step d c e h ts m j code c' e' :
  recv_inv d c -> carries h m j -> on_kcp_push_pcaket h ts (c, e) = Some (code, (c', e')) ->
  exists d', recv_inv d' c' /\
    (d' = d /\ rcv_queue c' = rcv_queue c \/
     exists fs q, d' = S d /\ msgs !! d = Some fs /\ rcv_queue c' = rcv_queue c ++ q /\
       map payload q = map payload fs).
Proof.
  intros Hi Hc Hr. destruct (push_step d c e h ts m j Hi Hc) as (code1&c2&e1&Hrun&_&_&Hres). simplify_eq.
  destruct Hres as [([Hv Hk]&_)|(t&c1&Ht&Hdm&Hi1&Hb1&Hq1&_&_&_&_&_&Hdel)].
  - exists d. split; [by eapply recv_inv_view|left]. split; [done|]. by injection Hv.
  - unfold deliverable in Hdel. destruct (msgs !! d) as [fs|] eqn:Hm; [destruct (Z.leb_spec (first_sn (S d)) (rcv_nxt c1))|].
    2,3: destruct Hdel as [-> _]; exists d; by (split; [|left]).
    destruct Hdel as [-> _]. destruct (after_delivery_inv d c1 fs Hi1 Hm) as (Hi2&Hq2&_); [done|].
    exists (S d). split; [done|right]. exists fs, (fragments_in d (buffered c1)).
    split_and!; [done|done|by rewrite Hq2, Hq1|by apply message_buffered].
Qed.

(** C11: Whatever fragment of the stream arrives next, with whatever time
    stamp and whatever the allocator answers, [on_kcp_push_pcaket] returns NO_ERROR
    (or NO_MEMORY when the allocator failed), keeps the invariant and either leaves
    [rcv_queue] as it is, or appends to it the one message that is next, whole and
    in order, and announces its size to the user. *)
Theorem push_in_order (d : nat) (c : kcp_connection) (e : env) (h : kcp_proto_header) (ts : Z) (m j : nat) :
  recv_inv d c -> carries h m j ->
  exists code c' e' d', on_kcp_push_pcaket h ts (c, e) = Some (code, (c', e')) /\ recv_inv d' c' /\
    (code = NO_ERROR \/ code = NO_MEMORY /\ ~ memory_available e) /\
    (d' = d /\ rcv_queue c' = rcv_queue c /\ e_trace e' = e_trace e \/
     exists fs q, d' = S d /\ msgs !! d = Some fs /\ rcv_queue c' = rcv_queue c ++ q /\
       map payload q = map payload fs /\
       e_trace e' = e_trace e ++
         (if read_event_cb c then [OnReadEvent (k_self c) (s32 (Zsum (map sg_len fs)))] else [])).
Proof.
  intros Hi Hc. destruct (push_step d c e h ts m j Hi Hc) as (code&c'&e'&Hrun&Hcode&_&Hres).
  assert (code = NO_ERROR \/ code = NO_MEMORY /\ ~ memory_available e) as Hcode'
    by (destruct (decide (code = NO_ERROR)); [by left|right; by apply Hcode]).
  destruct Hres as [(Hs&He&_)|(t&c1&Ht&Hdm&Hi1&Hb1&Hq1&Hn1&_&Hself&Hcb&_&Hdel)].
  - exists code, c', e', d. split_and!; [done|by eapply same_receiver_inv|done|left].
    split_and!; [done| |by rewrite He]. destruct Hs as [Hv _]. by injection Hv.
  - unfold deliverable in Hdel. destruct (msgs !! d) as [fs|] eqn:Hm; [destruct (Z.leb_spec (first_sn (S d)) (rcv_nxt c1))|].
    2,3: destruct Hdel as [-> He]; exists code, c1, e', d; split_and!; [done|done|done|left; split_and!; done].
    destruct Hdel as [-> He].
    destruct (after_delivery_inv d c1 fs Hi1 Hm) as (Hi2&Hq2&_); [done|].
    pose proof (message_buffered d c1 fs Hi1 Hm ltac:(done)) as Hp.
    exists code, (after_delivery d c1), e', (S d). split_and!; [done|done|done|right].
    exists fs, (fragments_in d (buffered c1)). split_and!; try done; [by rewrite Hq2, Hq1|].
    rewrite He. cbn. by destruct (payload_contents _ _ Hp) as (_&->&_).
Qed.

(** A sequence of PUSHes with the times of their arrival. *)
Fixpoint pushes (arrivals : list (kcp_proto_header * Z)) : io kcp_connection unit :=
  match arrivals with
  | [] => mret tt
  | (h, ts) :: arrivals => on_kcp_push_pcaket h ts;; pushes arrivals
  end.

Lemma pushes_cons h ts arrivals c e code s :
  on_kcp_push_pcaket h ts (c, e) = Some (code, s) -> pushes ((h, ts) :: arrivals) (c, e) = pushes arrivals s.
Proof. intros H. cbn [pushes]. unfold mbind, ST_bind. by rewrite H. Qed.

Lemma carries_frg h m j :
  carries h m j -> h_frg h = Z.of_nat j /\ exists fs s, msgs !! m = Some fs /\ fs !! j = Some s /\
    sg_sn s = first_sn m + Z.of_nat j.
Proof.
  intros (fs&s&?&?&?&Hm&Hj&->&_). destruct (so_segment Hso m fs j s Hm Hj) as (?&_&?&_). eauto 10.
Qed.

(** Where the receiver stands with message [d] once the fragments [J] have
    arrived: they wait in the buffer, or the message is in the queue. *)
Section Progress.
Context (d : nat) (fs : list kcp_segment) (w self : Z) (cb : bool) (q0 : list kcp_segment) (t0 : list event).
Hypothesis Hm : msgs !! d = Some fs.
Hypothesis Hwin : first_sn (S d) <= first_sn d + w.
Hypothesis Hroom : first_sn (length msgs) + w < 4294967296.

Definition waiting (J : nat -> Prop) (c : kcp_connection) (e : env) : Prop :=
  recv_inv d c /\ rcv_nxt c < first_sn (S d) /\ rcv_queue c = q0 /\ e_trace e = t0 /\
  forall j, J j -> exists u, u ∈ buffered c /\ sg_sn u = first_sn d + Z.of_nat j.

Definition delivered (c : kcp_connection) (e : env) : Prop :=
  recv_inv (S d) c /\ exists q, rcv_queue c = q0 ++ q /\ map payload q = map payload fs /\
    e_trace e = t0 ++ (if cb then [OnReadEvent self (s32 (Zsum (map sg_len fs)))] else []).

Definition progress (J : nat -> Prop) (c : kcp_connection) (e : env) : Prop :=
  memory_available e /\ (rcv_wnd c, k_self c, read_event_cb c) = (w, self, cb) /\ (waiting J c e \/ delivered c e).

(** One more fragment, for the first time or again. *)
Lemma push_progress J c e h ts j :
  carries h d j -> progress J c e ->
  exists code c' e', on_kcp_push_pcaket h ts (c, e) = Some (code, (c', e')) /\
    progress (fun i => i = j \/ J i) c' e'.
Proof.
  intros Hj (Hmem & Hst & Hpr).
  destruct (carries_frg h d j Hj) as (Hfrg & fs' & s & Hm' & Hs & Hsn).
  assert (fs' = fs) as -> by congruence.
  destruct Hpr as [(Hi & Hnx & Hq & Ht & Hcov)|(Hi & q & Hq & Hp & Ht)].
  - destruct (push_step d c e h ts d j Hi Hj) as (code & c1 & e1 & Hrun & _ & Hme & Hres).
    exists code, c1, e1. split; [done|]. specialize (Hme Hmem).
    pose proof (ri_low d c Hi) as Hlow. pose proof (lookup_lt_Some _ _ _ Hs) as Hjlt.
    pose proof (first_sn_S _ _ Hm) as HS.
    destruct Hres as [(Hsame & He & Hwhy)|(t & c2 & Ht2 & _ & Hi2 & Hb2 & Hq2 & Hn2 & Hw2 & Hself2 & Hcb2 & _ & Hdel)].
    + pose proof (same_receiver_inv d c c1 Hsame Hi) as Hi1.
      destruct Hsame as [Hv Hk]. injection Hv as V1 _ _ V4 _ _ V7 _. injection Hk as _ _ _ K4 K5 K6 _.
      assert (buffered c1 = buffered c) as Hb1 by (unfold buffered; by rewrite V1).
      split_and!; [done|congruence|left]. split_and!; [done|lia|congruence|by rewrite He|].
      rewrite Hb1. intros i [->|Hi']; [|by apply Hcov].
      destruct (Hwhy Hmem fs s Hm Hs) as [?|[Hout|(u & Hu & ?)]]; [apply (ri_below d c Hi); lia| |exists u; split; [done|lia]].
      injection Hst as Hw _ _. rewrite Hw in Hout.
      rewrite u32_small in Hout by (pose proof (first_sn_nonneg d); lia). unfold Zlength in *. lia.
    + assert (sg_sn t = sg_sn s) as Hts.
      { destruct (carries_frg h d j Hj) as (_ & fs1 & s1 & ? & ? & ?).
        destruct (fragment_numbers _ _ _ Ht2) as (? & ? & ? & ? & _). lia. }
      unfold deliverable in Hdel. rewrite Hm in Hdel.
      destruct (Z.leb_spec (first_sn (S d)) (rcv_nxt c2)) as [Hle|Hgt]; destruct Hdel as [-> He].
      * destruct (after_delivery_inv d c2 fs Hi2 Hm Hle) as (Hi3 & Hq3 & _ & Hw3 & Hself3 & Hcb3 & _).
        pose proof (message_buffered d c2 fs Hi2 Hm Hle) as Hp.
        split_and!; [done|congruence|right]. split; [done|]. exists (fragments_in d (buffered c2)).
        split_and!; [by rewrite Hq3, Hq2, Hq|done|]. injection Hst as _ <- <-. rewrite He, Ht. do 2 f_equal. cbn.
        by destruct (payload_contents _ _ Hp) as (_ & -> & _).
      * split_and!; [done|congruence|left]. split_and!; [done|lia|by rewrite Hq2|by rewrite He|].
        intros i [->|Hi']; rewrite Hb2; [exists t|destruct (Hcov i Hi') as (u & Hu & ?); exists u];
          (split; [apply elem_of_insert_by; eauto|lia]).
  - destruct (push_step (S d) c e h ts d j Hi Hj) as (code & c1 & e1 & Hrun & _ & Hme & Hres).
    exists code, c1, e1. split; [done|].
    destruct Hres as [(Hsame & He & _)|(t & c2 & _ & Hdm & _)]; [|lia].
    pose proof (same_receiver_inv (S d) c c1 Hsame Hi) as Hi1.
    destruct Hsame as [Hv Hk]. injection Hv as _ _ _ _ _ _ V7 _. injection Hk as _ _ _ K4 K5 K6 _.
    split_and!; [by apply Hme|congruence|right]. split; [done|]. exists q. split_and!; [congruence|done|by rewrite He].
Qed.

Lemma pushes_progress arrivals J c e :
  (forall a, a ∈ arrivals -> exists j, carries a.1 d j) -> progress J c e ->
  exists c' e', pushes arrivals (c, e) = Some (tt, (c', e')) /\
    progress (fun i => (exists a, a ∈ arrivals /\ carries a.1 d i) \/ J i) c' e'.
Proof.
  revert J c e. induction arrivals as [|[h ts] arrivals IH]; intros J c e Hall Hp.
  - exists c, e. split; [done|]. destruct Hp as (? & ? & [(? & ? & ? & ? & Hc)|?]); split_and!; try done; [left|by right].
    split_and!; try done. intros j [(a & []%elem_of_nil & _)|]; by apply Hc.
  - destruct (Hall (h, ts) ltac:(constructor)) as [j Hj].
    destruct (push_progress J c e h ts j Hj Hp) as (code & c1 & e1 & Hrun & Hp1).
    rewrite (pushes_cons _ _ _ _ _ _ _ Hrun).
    destruct (IH _ c1 e1 ltac:(intros; apply Hall; by constructor) Hp1) as (c' & e' & Hr & Hp').
    exists c', e'. split; [done|]. destruct Hp' as (? & ? & [(? & ? & ? & ? & Hc)|?]); split_and!; try done; [left|by right].
    split_and!; try done. intros i [(a & [->|Ha]%elem_of_cons & Hca)|HJ]; apply Hc; [|eauto|eauto].
    right; left. destruct (carries_frg _ _ _ Hca) as [F1 _], (carries_frg _ _ _ Hj) as [F2 _]. cbn in *. lia.
Qed.

Lemma progress_delivered J c e : progress J c e -> (forall j, (j < length fs)%nat -> J j) -> delivered c e.
Proof.
  intros (_ & _ & [(Hi & Hnx & _ & _ & Hcov)|?]) Hall; [|done]. exfalso.
  pose proof (ri_low d c Hi) as Hl. pose proof (first_sn_S _ _ Hm).
  destruct (Hcov (Z.to_nat (rcv_nxt c - first_sn d))) as (u & Hu & Hsn); [apply Hall; unfold Zlength in *; lia|].
  apply (ri_missing d c Hi u Hu). lia.
Qed.
End Progress.

(** With memory available and a window that covers it, the fragments of
    the next message may arrive in any order and any number of times: once each
    has arrived at least once, exactly that message has been appended to
    [rcv_queue], in fragment order, with one read event of its size. *)
Theorem push_any_order (d : nat) (fs : list kcp_segment) (arrivals : list (kcp_proto_header * Z)) :
  msgs !! d = Some fs -> (forall a, a ∈ arrivals -> exists j, carries a.1 d j) ->
  forall (c : kcp_connection) (e : env),
  recv_inv d c -> memory_available e -> rcv_nxt c < first_sn (S d) <= first_sn d + rcv_wnd c ->
  first_sn (length msgs) + rcv_wnd c < 4294967296 ->
  (forall j, (j < length fs)%nat -> (exists a, a ∈ arrivals /\ carries a.1 d j) \/
     exists u, u ∈ buffered c /\ sg_sn u = first_sn d + Z.of_nat j) ->
  exists c' e' q, pushes arrivals (c, e) = Some (tt, (c', e')) /\ recv_inv (S d) c' /\
    rcv_queue c' = rcv_queue c ++ q /\ map payload q = map payload fs /\
    e_trace e' = e_trace e ++
      (if read_event_cb c then [OnReadEvent (k_self c) (s32 (Zsum (map sg_len fs)))] else []).
Proof.
  intros Hm Hall c e Hi Hmem Hnx Hroom Hcov.
  assert (progress d fs (rcv_wnd c) (k_self c) (read_event_cb c) (rcv_queue c) (e_trace e)
    (fun j => exists u, u ∈ buffered c /\ sg_sn u = first_sn d + Z.of_nat j) c e) as Hp
    by (split_and!; [done|done|left]; split_and!; [done|lia|done..]).
  destruct (pushes_progress d fs (rcv_wnd c) (k_self c) (read_event_cb c) (rcv_queue c) (e_trace e) Hm
    (proj2 Hnx) Hroom arrivals _ c e Hall Hp) as (c' & e' & Hr & Hp').
  destruct (progress_delivered _ _ _ _ _ _ _ Hm _ c' e' Hp' Hcov) as (Hi' & q & Hq & Hpay & Ht).
  exists c', e', q. split_and!; done.
Qed.

(** ** Reading *)

Lemma recv_put_fields c seg :
  let c' := kcp_segment_recv_put c seg in
  (rcv_buf c', rcv_nxt c', nrcv_buf c', nrcv_que c', rcv_queue c', rcv_queue_bytes c') =
  (rcv_buf c, rcv_nxt c, nrcv_buf c, nrcv_que c, rcv_queue c, rcv_queue_bytes c) /\
  kept_fields c' = kept_fields c.
Proof. unfold kcp_segment_recv_put. by case_match. Qed.

Lemma recv_segments_fields l c :
  let c' := fold_left recv_segment l c in
  rcv_buf c' = rcv_buf c /\ nrcv_buf c' = nrcv_buf c /\ rcv_queue c' = rcv_queue c /\
  nrcv_que c' = nrcv_que c - Zlength l /\
  s32 (rcv_queue_bytes c') = s32 (rcv_queue_bytes c - Zsum (map sg_len l)) /\
  (l <> [] -> rcv_queue_bytes c' = s32 (rcv_queue_bytes c')) /\ kept_fields c' = kept_fields c.
Proof.
  revert c. induction l as [|x l IH]; intros c; cbn zeta.
  - cbn [fold_left map Zsum]. rewrite Zlength_nil, !Z.sub_0_r. by split_and!.
  - cbn [fold_left]. destruct (IH (recv_segment c x)) as (H1&H2&H3&H4&H5&H6&H7).
    set (c0 := c <| rcv_queue_bytes ::= (fun n => s32 (n - s32 (sg_len x))) |>).
    destruct (recv_put_fields c0 x) as [Hf Hk]. injection Hf as F1 F2 F3 F4 F5 F6.
    assert (recv_segment c x = (kcp_segment_recv_put c0 x) <| nrcv_que ::= Z.pred |>) as Hx by done.
    assert (rcv_queue_bytes (recv_segment c x) = s32 (rcv_queue_bytes c - s32 (sg_len x))) as Hqb by (by rewrite Hx).
    assert (nrcv_que (recv_segment c x) = Z.pred (nrcv_que c)) as Hnq by (by rewrite Hx; cbn; rewrite F4).
    rewrite Zlength_cons. split_and!.
    + by rewrite H1, Hx.
    + by rewrite H2, Hx.
    + by rewrite H3, Hx.
    + lia.
    + rewrite H5, Hqb, s32_sub_l. cbn [map Zsum].
      replace (rcv_queue_bytes c - s32 (sg_len x) - Zsum (map sg_len l))
        with (rcv_queue_bytes c - Zsum (map sg_len l) - s32 (sg_len x)) by lia.
      rewrite s32_sub_r. f_equal. lia.
    + intros _. destruct l as [|y l]; [|by apply H6]. cbn [fold_left]. by rewrite Hqb, s32_idemp.
    + rewrite H7, Hx. apply Hk.
Qed.

Lemma contents_app l k : contents (l ++ k) = contents l ++ contents k.
Proof. unfold contents. by rewrite map_app, List.concat_app. Qed.

Lemma count_bytes l n :
  fold_left (fun n pos => s32 (n + s32 (sg_len pos))) l (s32 n) = s32 (n + Zsum (map sg_len l)).
Proof.
  revert n. induction l as [|x l IH]; intros n; cbn [fold_left map Zsum]; [by rewrite Z.add_0_r|].
  rewrite s32_add, IH. f_equal. lia.
Qed.

Lemma copy_bytes l :
  Forall sized l ->
  List.concat (map (fun pos => take (Z.to_nat (sg_len pos)) (sg_data pos)) l) = contents l /\
  Zsum (map sg_len l) = Zlength (contents l).
Proof.
  unfold contents. induction 1 as [|x l Hx _ [IH1 IH2]]; [done|]. cbn. rewrite IH1, IH2, Zlength_app, Hx.
  split; [|done]. f_equal. apply take_ge. unfold Zlength. lia.
Qed.

Lemma recv_success d c e size :
  recv_inv d c -> Forall sized (rcv_queue c) -> state c = KCP_STATE_CONNECTED -> rcv_queue c <> [] ->
  0 < size < 2147483648 -> Zlength (contents (rcv_queue c)) <= size ->
  exists c', recv_inv d c' /\ state c' = state c /\ rcv_nxt c' = rcv_nxt c /\
    kcp_recv true size (c, e) =
      Some ((Zlength (contents (rcv_queue c)), contents (rcv_queue c)), (c', e)) /\
    rcv_queue c' = [] /\ nrcv_que c' = 0 /\ rcv_queue_bytes c' = 0 /\ rcv_buf c' = rcv_buf c.
Proof.
  intros Hi Hsz Hst Hne Hsize Hcont. destruct (copy_bytes _ Hsz) as [Hcopy Hlen].
  pose proof (Zlength_nonneg (contents (rcv_queue c))).
  pose proof (ri_queue_bytes d c Hi) as Hqb. rewrite Hlen, s32_small in Hqb by lia.
  unfold kcp_recv. run. destruct (Z.eqb_spec size 0) as [?|_]; [lia|]. cbn [negb].
  rewrite bool_decide_true by done. cbn [negb]. rewrite s32_small, Hqb by lia.
  destruct (rcv_queue c) as [|x q] eqn:Eq; [done|]. rewrite <- Eq in *.
  destruct (Z.ltb_spec size (Zlength (contents (rcv_queue c)))) as [?|_]; [lia|].
  destruct (recv_segments_fields (rcv_queue c) (c <| rcv_queue := [] |>)) as (H1&H2&H3&H4&H5&H6&H7).
  set (c1 := fold_left recv_segment (rcv_queue c) (c <| rcv_queue := [] |>)) in *.
  match goal with |- context [(?x, e)] => set (c2 := x) end.
  assert (recv_view c2 = recv_view c1 /\ kept_fields c2 = kept_fields c1) as [Hv Hk] by (unfold c2; by case_match).
  clearbody c2. injection Hv as V1 V2 V3 V4 V5 V6 V7 V8. rewrite H7 in Hk. injection Hk as K1 K2 K3 K4 K5 K6 K7.
  clearbody c1. cbn in H1, H2, H3, H4, H5.
  assert (nrcv_que c2 = 0) as Hq0 by (rewrite V6, H4, (ri_nrcv_que d c Hi); lia).
  assert (rcv_queue_bytes c2 = 0) as Hb0.
  { rewrite V8, H6, H5, Hqb, Hlen, Z.sub_diag; [done|]. by rewrite Eq. }
  assert (rcv_queue c2 = []) as Hrq by (by rewrite V7).
  exists c2. split_and!; try congruence.
  - destruct Hi. constructor; unfold buffered in *; rewrite ?V1, ?K1, ?K2, ?K3, ?H1, ?V5, ?H2, ?Hq0, ?Hb0, ?Hrq; done.
  - change 0 with (s32 0) at 1. by rewrite count_bytes, Hlen, Z.add_0_l, s32_small, Hcopy by lia.
Qed.

(** With data queued and a buffer that holds it, [kcp_recv] copies out the
    contents of [rcv_queue] in order, whatever message they belong to, returns
    their number of bytes and leaves the queue empty with its counters at zero;
    with a buffer too small it says so and changes nothing, with an empty queue it
    asks to try again. *)
Theorem kcp_recv_queue (d : nat) (c : kcp_connection) (e : env) (size : Z) :
  recv_inv d c -> Forall sized (rcv_queue c) -> state c = KCP_STATE_CONNECTED ->
  0 < size < 2147483648 -> Zlength (contents (rcv_queue c)) < 2147483648 ->
  exists c', recv_inv d c' /\ state c' = state c /\ rcv_nxt c' = rcv_nxt c /\
    if decide (rcv_queue c = []) then kcp_recv true size (c, e) = Some ((OP_TRY_AGAIN, []), (c', e)) /\ c' = c
    else if decide (size < Zlength (contents (rcv_queue c)))
    then kcp_recv true size (c, e) = Some ((BUFFER_TOO_SMALL, []), (c', e)) /\ c' = c
    else kcp_recv true size (c, e) =
           Some ((Zlength (contents (rcv_queue c)), contents (rcv_queue c)), (c', e)) /\
         rcv_queue c' = [] /\ nrcv_que c' = 0 /\ rcv_queue_bytes c' = 0 /\ rcv_buf c' = rcv_buf c.
Proof.
  intros Hi Hsz Hst Hsize Hcont. repeat case_decide; [..|apply recv_success; done || lia].
  all: exists c; split_and!; try done; unfold kcp_recv; run.
  all: destruct (Z.eqb_spec size 0) as [?|_]; [lia|]; cbn [negb]; rewrite bool_decide_true by done; cbn [negb].
  - by case_match.
  - destruct (copy_bytes _ Hsz) as [_ Hlen]. pose proof (ri_queue_bytes d c Hi) as Hqb.
    pose proof (Zlength_nonneg (contents (rcv_queue c))). rewrite Hlen, s32_small in Hqb by lia.
    rewrite s32_small, Hqb by lia.
    destruct (Z.ltb_spec size (Zlength (contents (rcv_queue c)))) as [_|?]; [by case_match|lia].
Qed.

(** Whatever [kcp_recv] answers, it has read the queue whole or left it. *)
Lemma recv_any d c e size code data c' e' :
  recv_inv d c -> Forall sized (rcv_queue c) -> 0 < size < 2147483648 ->
  Zlength (contents (rcv_queue c)) < 2147483648 ->
  kcp_recv true size (c, e) = Some ((code, data), (c', e')) ->
  recv_inv d c' /\ (c' = c /\ data = [] \/ rcv_queue c' = [] /\ data = contents (rcv_queue c)).
Proof.
  intros Hi Hsz Hsize Hcont Hrun.
  assert (c' = c /\ data = [] \/ state c = KCP_STATE_CONNECTED /\ rcv_queue c <> [] /\
    Zlength (contents (rcv_queue c)) <= size) as [[-> ->]|(Hst&Hne&Hle)].
  { unfold kcp_recv in Hrun. revert Hrun. run.
    destruct (Z.eqb_spec size 0); [lia|]. cbn [negb]. case_bool_decide; cbn [negb]; [|intros; left; by simplify_eq].
    destruct (copy_bytes _ Hsz) as [_ Hlen]. pose proof (ri_queue_bytes d c Hi) as Hqb.
    pose proof (Zlength_nonneg (contents (rcv_queue c))). rewrite Hlen, s32_small in Hqb by lia.
    rewrite s32_small, Hqb by lia. destruct (rcv_queue c) as [|x q]; [intros; left; by simplify_eq|].
    case_match; bprop; [intros; left; by simplify_eq|]. right. by split_and!. }
  - split; [done|by left].
  - destruct (recv_success d c e size) as (c1&Hi1&_&_&Hrun1&Hq&_); try done.
    rewrite Hrun1 in Hrun. simplify_eq. split; [done|by right].
Qed.

(** ** The whole history *)

(** One step of a receiver: a fragment of the stream arrives, the user reads, or
    something happens that does not concern the receiver.  The environment is
    arbitrary at every step; [got] is what the user has read. *)
Inductive receiver_step : kcp_connection * bytes -> kcp_connection * bytes -> Prop :=
| step_push c e h ts m j code c' e' got :
    carries h m j -> on_kcp_push_pcaket h ts (c, e) = Some (code, (c', e')) ->
    receiver_step (c, got) (c', got)
| step_recv c e size code data c' e' got :
    0 < size < 2147483648 -> Zlength (contents (rcv_queue c)) < 2147483648 ->
    kcp_recv true size (c, e) = Some ((code, data), (c', e')) ->
    receiver_step (c, got) (c', got ++ data)
| step_other c c' got :
    recv_view c' = recv_view c -> receiver_step (c, got) (c', got).

(** A receiver that has received nothing. *)
Record receiver_init (c : kcp_connection) : Prop := ReceiverInit {
  init_buf : rcv_buf c = Leaf;
  init_packet : rcv_packet c = Leaf;
  init_list : rcv_packet_list c = [];
  init_nxt : rcv_nxt c = sn0;
  init_queue : rcv_queue c = [];
  init_counts : nrcv_buf c = 0 /\ nrcv_que c = 0 /\ rcv_queue_bytes c = 0;
}.

Lemma first_sn_0 : first_sn 0 = sn0.
Proof. unfold first_sn. rewrite take_0. change (List.concat []) with (@nil kcp_segment). rewrite Zlength_nil. lia. Qed.

Lemma receiver_init_inv c : receiver_init c -> recv_inv 0 c.
Proof.
  intros [H1 H2 H3 H4 H5 (H6&H7&H8)]. pose proof first_sn_0.
  constructor; unfold buffered; rewrite ?H1, ?H2, ?H3, ?H4, ?H5, ?H6, ?H7, ?H8; cbn -[first_sn]; try done.
  - apply tree_ok_leaf.
  - split; [constructor|]. by intros t ?%not_elem_of_nil.
  - apply tree_ok_leaf.
  - intros k. rewrite elem_of_nil. split; [done|]. by intros (?&?&_).
  - constructor.
  - intros p. rewrite elem_of_nil. split; [done|]. by intros (?&?&_).
  - pose proof (first_sn_le 0 (length msgs) ltac:(lia)). lia.
  - intros. lia.
  - by intros t ?%not_elem_of_nil.
Qed.

(** C10: End to end: however fragments of the stream are lost, repeated,
    delayed and reordered, whatever the allocator does, and however the user reads
    in between, what the user has read followed by what is queued for it is the
    contents of the first [d] messages of the stream, for some [d]: nothing is
    lost, repeated, reordered or torn. *)
Theorem receiver_prefix (c0 c : kcp_connection) (got : bytes) :
  receiver_init c0 -> rtc receiver_step (c0, []) (c, got) ->
  exists d, recv_inv d c /\ got ++ contents (rcv_queue c) = contents (List.concat (take d msgs)).
Proof.
  intros Hinit Hrtc.
  enough (forall s, rtc receiver_step (c0, []) s -> exists d, recv_inv d s.1 /\ Forall sized (rcv_queue s.1) /\
    s.2 ++ contents (rcv_queue s.1) = contents (List.concat (take d msgs))) as Hall
    by (destruct (Hall _ Hrtc) as (d&?&_&?); eauto).
  apply rtc_ind_r; [|intros s1 s2 _ Hstep (d&Hi&Hsz&Hgot); destruct Hstep; cbn [fst snd] in *].
  - exists 0%nat. cbn. rewrite (init_queue c0 Hinit), take_0. split_and!; [by apply receiver_init_inv|constructor|done].
  - edestruct push_in_order_step as (d'&Hi'&Hres); [done..|].
    exists d'. split; [done|].
    destruct Hres as [(->&->)|(fs&q&->&Hm&->&Hp)]; [done|].
    destruct (payload_contents _ _ Hp) as (Hc&_&Hs). split.
    + apply Forall_app. split; [done|]. apply Hs. by eapply message_sized.
    + rewrite contents_app, app_assoc, Hgot, Hc, (take_S_r _ _ _ Hm), List.concat_app, contents_app.
      f_equal. cbn. by rewrite app_nil_r.
  - match goal with H : kcp_recv _ _ _ = _ |- _ =>
      destruct (recv_any _ _ _ _ _ _ _ _ Hi Hsz ltac:(eassumption) ltac:(eassumption) H)
        as (Hi'&[[-> ->]|[Hq ->]]) end.
    + exists d. by rewrite app_nil_r.
    + exists d. rewrite Hq. split_and!; [done|constructor|]. by rewrite app_nil_r.
  - exists d. pose proof (recv_inv_view d _ _ ltac:(eassumption) Hi) as Hi'.
    match goal with H : recv_view _ = recv_view _ |- _ => injection H as _ _ _ _ _ _ -> _ end. done.
Qed.
End Stream.

(** ** At a concrete stream *)

(** A message of two fragments and one of one. *)
Definition stream_fragment (sn psn frg wnd : Z) (data : bytes) : kcp_segment :=
  (push_segment sn frg data) <| sg_psn := psn |> <| sg_wnd := wnd |>.
Definition stream_example : list (list kcp_segment) :=
  [[stream_fragment 10 4 0 2 [1; 2; 3]; stream_fragment 11 4 1 77 [4; 5]];
   [stream_fragment 12 5 0 1 [6]]].

Lemma stream_example_ok : stream_ok 10 4 stream_example.
Proof.
  constructor.
  - intros fs Hfs. unfold stream_example in Hfs. rewrite !elem_of_cons, elem_of_nil in Hfs.
    destruct Hfs as [->|[->|[]]]; by vm_compute.
  - intros [|[|[|m]]] fs j s Hm Hj; simplify_eq/=; destruct j as [|[|[|j]]]; simplify_eq/=; by split_and!.
  - intros [|[|[|m]]] fs j s Hm Hj; simplify_eq/=; destruct j as [|[|[|j]]]; by simplify_eq/=.
  - by vm_compute.
Qed.

(** The receiver that has just accepted the connection, with its read callback. *)
Definition receiver_example : kcp_connection :=
  zero_connection <| state := KCP_STATE_CONNECTED |> <| rcv_wnd := KCP_WND_RCV |> <| rcv_nxt := 10 |>
    <| read_event_cb := true |> <| k_self := 1 |>.

Lemma receiver_example_init : receiver_init 10 receiver_example.
Proof. by constructor. Qed.

Lemma receiver_example_inv : recv_inv 10 4 stream_example 0 receiver_example.
Proof. apply receiver_init_inv, receiver_example_init. Qed.

Lemma carries_example m j s fs :
  stream_example !! m = Some fs -> fs !! j = Some s -> carries stream_example (segment_header s) m j.
Proof.
  intros Hm Hj. assert (sg_cmd s = KCP_CMD_PUSH /\ take (Z.to_nat (sg_len s)) (sg_data s) = sg_data s /\
    (j = 0%nat -> sg_wnd s = Zlength fs)) as (Hc&Ht&Hw).
  { destruct m as [|[|[|m]]]; simplify_eq/=; destruct j as [|[|[|j]]]; simplify_eq/=; by split_and!. }
  exists fs, s. unfold segment_header. cbn. eexists _, _, _. split_and!; try done.
Qed.

(** The second message first, then the two fragments of the first. *)
Definition arrival (m j : nat) : kcp_proto_header :=
  match stream_example !! m with
  | Some fs => match fs !! j with Some s => segment_header s | None => segment_header (push_segment 0 0 []) end
  | None => segment_header (push_segment 0 0 [])
  end.

Lemma arrival_carries m j fs s :
  stream_example !! m = Some fs -> fs !! j = Some s -> carries stream_example (arrival m j) m j.
Proof. intros Hm Hj. unfold arrival. rewrite Hm, Hj. by apply (carries_example m j s fs). Qed.

Lemma push_in_order_witness :
  exists code c' e' d', on_kcp_push_pcaket (arrival 1 0) 5000 (receiver_example, quiet) = Some (code, (c', e')) /\
    recv_inv 10 4 stream_example d' c' /\
    (code = NO_ERROR \/ code = NO_MEMORY /\ ~ memory_available quiet) /\
    (d' = 0%nat /\ rcv_queue c' = [] /\ e_trace e' = [] \/
     exists fs q, d' = 1%nat /\ stream_example !! 0%nat = Some fs /\ rcv_queue c' = [] ++ q /\
       map payload q = map payload fs /\
       e_trace e' = [] ++ [OnReadEvent 1 (s32 (Zsum (map sg_len fs)))]).
Proof.
  apply (push_in_order 10 4 stream_example stream_example_ok 0 receiver_example quiet (arrival 1 0) 5000 1 0).
  - apply receiver_example_inv.
  - by eapply arrival_carries.
Defined.

(** The second fragment twice, then the first. *)
Lemma push_any_order_witness :
  exists c' e' q, pushes [(arrival 0 1, 5000); (arrival 0 1, 5001); (arrival 0 0, 5002)]
      (receiver_example, quiet) = Some (tt, (c', e')) /\ recv_inv 10 4 stream_example 1 c' /\
    rcv_queue c' = [] ++ q /\ map payload q = [(10, 4, 0, 3, [1; 2; 3]); (11, 4, 1, 2, [4; 5])] /\
    e_trace e' = [] ++ [OnReadEvent 1 5].
Proof.
  apply (push_any_order 10 4 stream_example stream_example_ok 0 (nth 0 stream_example [])
    [(arrival 0 1, 5000); (arrival 0 1, 5001); (arrival 0 0, 5002)]); try done.
  - intros a. rewrite !elem_of_cons, elem_of_nil. intros [->|[->|[->|[]]]]; eexists; by eapply arrival_carries.
  - apply receiver_example_inv.
  - constructor.
  - intros [|[|j]] Hj; [left..|cbn in Hj; lia].
    + exists (arrival 0 0, 5002). split; [set_solver|by eapply arrival_carries].
    + exists (arrival 0 1, 5000). split; [set_solver|by eapply arrival_carries].
Defined.

(** Both messages are stored, the first is delivered and read; the second waits
    for the next PUSH. *)
Lemma receiver_run :
  exists c, rtc (receiver_step stream_example) (receiver_example, []) (c, [1; 2; 3; 4; 5]) /\
    nrcv_buf c = 1 /\ rcv_nxt c = 13.
Proof.
  eexists. split; [|split].
  - eapply rtc_l; [eapply (step_push _ _ quiet (arrival 1 0) 1 1 0); [by eapply arrival_carries|vm_compute; reflexivity]|].
    eapply rtc_l; [eapply (step_push _ _ quiet (arrival 0 1) 2 0 1); [by eapply arrival_carries|vm_compute; reflexivity]|].
    eapply rtc_l; [eapply (step_push _ _ quiet (arrival 0 0) 3 0 0); [by eapply arrival_carries|vm_compute; reflexivity]|].
    apply rtc_once. change [1; 2; 3; 4; 5] with ([] ++ [1; 2; 3; 4; 5]).
    eapply (step_recv _ _ quiet 5); [lia|by vm_compute|vm_compute; reflexivity].
  - reflexivity.
  - reflexivity.
Qed.

Lemma receiver_prefix_witness :
  exists c d, rtc (receiver_step stream_example) (receiver_example, []) (c, [1; 2; 3; 4; 5]) /\
    recv_inv 10 4 stream_example d c /\
    [1; 2; 3; 4; 5] ++ contents (rcv_queue c) = contents (List.concat (take d stream_example)).
Proof.
  destruct receiver_run as (c & Hr & _).
  destruct (receiver_prefix 10 4 stream_example stream_example_ok receiver_example c [1; 2; 3; 4; 5]
    receiver_example_init Hr) as (d & Hi & Hd). by exists c, d.
Defined.

(** Three bytes queued. *)
Definition queued (q : list kcp_segment) (c : kcp_connection) : kcp_connection :=
  c <| rcv_queue := q |> <| nrcv_que := Zlength q |> <| rcv_queue_bytes := s32 (Zsum (map sg_len q)) |>.

Lemma queued_inv sn0 psn0 msgs d q c : recv_inv sn0 psn0 msgs d c -> recv_inv sn0 psn0 msgs d (queued q c).
Proof. intros []. by constructor. Qed.

Definition queue_example : kcp_connection :=
  queued [push_segment 7 0 [1; 2]; push_segment 8 0 [3]] receiver_example.

Lemma kcp_recv_queue_witness :
  exists c', recv_inv 10 4 stream_example 0 c' /\ state c' = KCP_STATE_CONNECTED /\ rcv_nxt c' = 10 /\
    kcp_recv true 4096 (queue_example, quiet) = Some ((3, [1; 2; 3]), (c', quiet)) /\
    rcv_queue c' = [] /\ nrcv_que c' = 0 /\ rcv_queue_bytes c' = 0 /\ rcv_buf c' = Leaf.
Proof.
  apply (kcp_recv_queue 10 4 stream_example 0 queue_example quiet 4096);
    [apply queued_inv, receiver_example_inv|by repeat constructor|done..].
Defined.
