(* ===== verification/Stall.v ===== *)
(** * Stall: messages that are never delivered

    [on_kcp_push_pcaket] delivers at most one message for each segment it takes in.
    A segment that is late therefore holds back, for good, all the complete messages
    behind it but its own ([delivery_stalls]). *)

From S2P Require Import Prelude RbTree Bytes Xxhash Config Wire Types World Snd Recv Delivery.

(** Every number of the stream is that of a fragment. *)
Lemma number_place sn0 msgs n sn :
  (n <= length msgs)%nat -> sn0 <= sn < first_sn sn0 msgs n ->
  exists m fs j, msgs !! m = Some fs /\ (j < length fs)%nat /\ sn = first_sn sn0 msgs m + Z.of_nat j.
Proof.
  induction n as [|n IH]; intros Hn Hsn; [pose proof (first_sn_0 sn0 msgs); lia|].
  destruct (Z.lt_ge_cases sn (first_sn sn0 msgs n)) as [Hlt|Hge]; [apply IH; lia|].
  destruct (lookup_lt_is_Some_2 msgs n ltac:(lia)) as [fs Hm]. pose proof (first_sn_S sn0 msgs n fs Hm) as HS.
  unfold Zlength in HS. exists n, fs, (Z.to_nat (sn - first_sn sn0 msgs n)). split_and!; [done|lia|lia].
Qed.

Section Stall.
(** The stream, and fragment [j0] of its first message, which comes last. *)
Context (sn0 psn0 : Z) (msgs : list (list kcp_segment)) (Hso : stream_ok sn0 psn0 msgs).
Context (fs0 : list kcp_segment) (j0 : nat) (Hm0 : msgs !! 0%nat = Some fs0) (Hj0 : (j0 < length fs0)%nat).
Context (w self : Z) (cb : bool) (t0 : list event).
Context (Hwin : first_sn sn0 msgs (length msgs) <= sn0 + w) (Hroom : first_sn sn0 msgs (length msgs) + w < 4294967296).
Notation first_sn := (first_sn sn0 msgs).
Notation recv_inv := (recv_inv sn0 psn0 msgs).
Notation carries := (carries msgs).

Notation late := (sn0 + Z.of_nat j0).

(** The segments [J] have arrived and all wait for number [late]. *)
Record held (J : Z -> Prop) (c : kcp_connection) (e : env) : Prop := {
  hd_memory : memory_available e;
  hd_same : (rcv_wnd c, k_self c, read_event_cb c) = (w, self, cb);
  hd_inv : recv_inv 0 c;
  hd_nxt : rcv_nxt c <= late;
  hd_missing u : u ∈ buffered c -> sg_sn u <> late;
  hd_queue : rcv_queue c = [] /\ e_trace e = t0;
  hd_there n : J n -> exists u, u ∈ buffered c /\ sg_sn u = n;
}.

(** Where the fragments are in the stream. *)
Lemma fragment_place m j fs :
  msgs !! m = Some fs -> (j < length fs)%nat ->
  sn0 <= first_sn m + Z.of_nat j < first_sn (length msgs) /\
  (first_sn m + Z.of_nat j = late -> m = 0%nat /\ j = j0).
Proof.
  intros Hm Hj. pose proof (first_sn_0 sn0 msgs) as H0. pose proof (first_sn_S sn0 msgs m fs Hm) as HS.
  pose proof (first_sn_S sn0 msgs 0 fs0 Hm0) as HS0. pose proof (lookup_lt_Some _ _ _ Hm).
  pose proof (first_sn_le sn0 msgs 0 m ltac:(lia)). pose proof (first_sn_le sn0 msgs (S m) (length msgs) ltac:(lia)).
  unfold Zlength in *. split; [lia|]. intros E. destruct m as [|m]; [lia|].
  pose proof (first_sn_le sn0 msgs 1 (S m) ltac:(lia)). lia.
Qed.

(** The serial number of a PUSH. *)
Definition number_of (h : kcp_proto_header) : Z := match h_data h with packet_data _ sn _ _ _ _ => sn | _ => 0 end.

Lemma carries_number h m j : carries h m j -> number_of h = first_sn m + Z.of_nat j.
Proof.
  intros (fs & s & ts & una & data & Hm & Hs & _ & _ & Hd & _). unfold number_of. rewrite Hd.
  by destruct (so_segment _ _ _ Hso m fs j s Hm Hs).
Qed.

Lemma push_held J c e h ts m j :
  held J c e -> carries h m j -> number_of h <> late ->
  exists code c' e', on_kcp_push_pcaket h ts (c, e) = Some (code, (c', e')) /\
    held (fun n => n = number_of h \/ J n) c' e'.
Proof.
  intros [Hmem Hsame Hi Hnx Hmiss [Hq Ht] Hcov] Hc. pose proof (carries_number h m j Hc) as Hnum.
  destruct (carries_frg sn0 psn0 msgs Hso h m j Hc) as (_ & fs & s & Hm & Hs & Hsn).
  rewrite Hnum, <- Hsn. intros Hnot. destruct (fragment_place m j fs Hm (lookup_lt_Some _ _ _ Hs)) as [Hr _].
  pose proof (first_sn_0 sn0 msgs) as H0. pose proof (ri_low _ _ _ _ _ Hi) as Hlow.
  destruct (push_step sn0 psn0 msgs Hso 0 c e h ts m j Hi Hc) as (code & c' & e' & Hrun & _ & Hme & Hres).
  exists code, c', e'. split; [exact Hrun|]. specialize (Hme Hmem). injection Hsame as Hw Hself Hcb.
  destruct Hres as [(Hsr & He & Hwhy)|(t & c1 & Htf & _ & Hi1 & Hb1 & Hq1 & _ & Hw1 & Hself1 & Hcb1 & _ & Hdel)].
  - pose proof (same_receiver_inv sn0 psn0 msgs 0 c c' Hsr Hi) as Hi'. destruct Hsr as [Hv Hk].
    injection Hv as V1 _ _ V4 _ _ V7 _. injection Hk as _ _ _ K4 K5 K6 _.
    assert (buffered c' = buffered c) as Hb by (unfold buffered; by rewrite V1).
    constructor; [done|congruence|done|lia|by rewrite Hb|split; [congruence|by rewrite He]|].
    rewrite Hb. intros n [->|HJ]; [|by apply Hcov].
    destruct (Hwhy Hmem fs s Hm Hs) as [Hlt|[Hout|Hin]]; [|exfalso|exact Hin].
    + apply (ri_below _ _ _ _ _ Hi). lia.
    + rewrite Hw in Hout. rewrite u32_small in Hout by (pose proof (first_sn_nonneg sn0 psn0 msgs Hso 0); lia). lia.
  - assert (sg_sn t = sg_sn s) as Hts.
    { destruct (fragment_numbers _ _ _ Hso _ _ _ Htf) as (? & _ & _ & ? & _). congruence. }
    assert (forall u, u ∈ buffered c1 -> sg_sn u <> late) as Hmiss1.
    { rewrite Hb1. intros u [->|Hu]%elem_of_insert_by; [congruence|by apply Hmiss]. }
    assert (rcv_nxt c1 <= late) as Hnx1.
    { destruct (Z.le_gt_cases (rcv_nxt c1) late) as [|Hgt]; [done|].
      destruct (ri_below _ _ _ _ _ Hi1 late) as (u & Hu & E); [lia|]. by destruct (Hmiss1 u Hu). }
    assert (deliverable sn0 msgs 0 c1 = false) as Hno.
    { unfold deliverable. rewrite Hm0. pose proof (first_sn_S sn0 msgs 0 fs0 Hm0). unfold Zlength in *. apply Z.leb_gt. lia. }
    rewrite Hno in Hdel. destruct Hdel as [-> He].
    constructor; [done|congruence|done|done|done|split; congruence|].
    rewrite Hb1. intros n [->|HJ]; [exists t; split; [apply elem_of_insert_by; by left|done]|].
    destruct (Hcov n HJ) as (u & Hu & ?). exists u. split; [apply elem_of_insert_by; by right|done].
Qed.

Lemma pushes_held arrivals J c e :
  held J c e -> (forall a, a ∈ arrivals -> number_of a.1 <> late /\ exists m j, carries a.1 m j) ->
  exists c' e', pushes arrivals (c, e) = Some (tt, (c', e')) /\
    held (fun n => (exists a, a ∈ arrivals /\ number_of a.1 = n) \/ J n) c' e'.
Proof.
  revert J c e. induction arrivals as [|[h ts] arrivals IH]; intros J c e Hh Hall.
  - exists c, e. split; [done|]. destruct Hh. constructor; try done. intros n [(a & []%elem_of_nil & _)|]; auto.
  - destruct (Hall (h, ts) ltac:(constructor)) as (Hn & m & j & Hmj).
    destruct (push_held J c e h ts m j Hh Hmj Hn) as (code & c1 & e1 & Hrun & Hh1).
    destruct (IH _ c1 e1 Hh1) as (c' & e' & Hr & Hh'); [intros; apply Hall; by constructor|].
    exists c', e'. split; [by rewrite (pushes_cons _ _ _ _ _ _ _ Hrun)|]. destruct Hh'. constructor; try done.
    intros n [(a & [->|Ha]%elem_of_cons & Hc)|HJ]; apply hd_there0; eauto.
Qed.

(** The last segment fills the gap: all of the stream has arrived, the first
    message is delivered, and no other. *)
Record stalled (c : kcp_connection) (e : env) : Prop := {
  sl_same : rcv_wnd c = w;
  sl_inv : recv_inv 1 c;
  sl_nxt : rcv_nxt c = first_sn (length msgs);
  sl_queue : map payload (rcv_queue c) = map payload fs0;
  sl_event : e_trace e = t0 ++ (if cb then [OnReadEvent self (s32 (Zsum (map sg_len fs0)))] else []);
}.

Lemma push_late J c e h ts :
  held J c e -> carries h 0 j0 -> (forall n, sn0 <= n < first_sn (length msgs) -> n = late \/ J n) ->
  exists code c' e', on_kcp_push_pcaket h ts (c, e) = Some (code, (c', e')) /\ stalled c' e'.
Proof.
  intros [Hmem Hsame Hi Hnx Hmiss [Hq Ht] Hcov] Hc Hall. injection Hsame as Hw Hself Hcb.
  destruct (carries_frg sn0 psn0 msgs Hso h 0 j0 Hc) as (_ & fs & s & Hm & Hs & Hsn).
  destruct (fragment_place 0 j0 fs Hm (lookup_lt_Some _ _ _ Hs)) as [Hr _].
  pose proof (first_sn_0 sn0 msgs) as H0. rewrite H0 in Hr, Hsn. pose proof (ri_low _ _ _ _ _ Hi) as Hlow.
  destruct (push_step sn0 psn0 msgs Hso 0 c e h ts 0 j0 Hi Hc) as (code & c' & e' & Hrun & _ & _ & Hres).
  exists code, c', e'. split; [exact Hrun|].
  destruct Hres as [(_ & _ & Hwhy)|(t & c1 & Htf & _ & Hi1 & Hb1 & Hq1 & _ & Hw1 & Hself1 & Hcb1 & _ & Hdel)].
  - exfalso. destruct (Hwhy Hmem fs s Hm Hs) as [Hlt|[Hout|(u & Hu & E)]]; [lia| |by destruct (Hmiss u Hu); rewrite <- Hsn].
    rewrite Hw in Hout. rewrite u32_small in Hout by (pose proof (first_sn_nonneg sn0 psn0 msgs Hso 0); lia). lia.
  - assert (sg_sn t = late) as Hts.
    { destruct (fragment_numbers _ _ _ Hso _ _ _ Htf) as (? & _ & _ & E & _). by rewrite E, H0. }
    assert (forall n, sn0 <= n < first_sn (length msgs) -> exists u, u ∈ buffered c1 /\ sg_sn u = n) as Hfull.
    { rewrite Hb1. intros n Hn. destruct (Hall n Hn) as [->|HJ]; [exists t; split; [apply elem_of_insert_by; by left|done]|].
      destruct (Hcov n HJ) as (u & Hu & E). exists u. split; [apply elem_of_insert_by; by right|done]. }
    pose proof (ri_low _ _ _ _ _ Hi1) as Hlow1. assert (rcv_nxt c1 = first_sn (length msgs)) as Hnx1.
    { destruct (Z.eq_dec (rcv_nxt c1) (first_sn (length msgs))) as [|Hne]; [done|].
      destruct (Hfull (rcv_nxt c1)) as (u & Hu & E); [lia|]. by destruct (ri_missing _ _ _ _ _ Hi1 u Hu). }
    pose proof (lookup_lt_Some _ _ _ Hm0) as Hlen. pose proof (first_sn_le sn0 msgs 1 (length msgs) ltac:(lia)) as H1.
    unfold deliverable in Hdel. rewrite Hm0 in Hdel. destruct (Z.leb_spec (first_sn 1) (rcv_nxt c1)); [|lia].
    destruct Hdel as [-> He].
    destruct (after_delivery_inv _ _ _ Hso 0 c1 fs0 Hi1 Hm0) as (Hi2 & Hq2 & Hn2 & Hw2 & _); [lia|].
    pose proof (message_buffered _ _ _ Hso 0 c1 fs0 Hi1 Hm0 ltac:(lia)) as Hp.
    constructor; [congruence|done|congruence|by rewrite Hq2, Hq1, Hq|]. rewrite He, Ht, Hself, Hcb. cbn.
    by destruct (payload_contents _ _ Hp) as (_ & -> & _).
Qed.

(** From then on every segment of the stream is one that was received already. *)
Lemma push_old h ts c e m j :
  stalled c e -> carries h m j ->
  exists c', on_kcp_push_pcaket h ts (c, e) = Some (NO_ERROR, (c', e)) /\ stalled c' e.
Proof.
  intros [Hw Hi Hn Hq He] (fs & s & ts0 & una & data & Hm & Hs & _ & _ & Hd & _).
  destruct (so_segment _ _ _ Hso m fs j s Hm Hs) as (Hsn & _).
  destruct (fragment_place m j fs Hm (lookup_lt_Some _ _ _ Hs)) as [Hr _].
  unfold on_kcp_push_pcaket. run. rewrite Hd. set (c0 := c <| ping / keepalive_next_ts := _ |>).
  change (rcv_nxt c0) with (rcv_nxt c). change (rcv_wnd c0) with (rcv_wnd c). rewrite Hn, Hw.
  pose proof (first_sn_nonneg sn0 psn0 msgs Hso 0). pose proof (first_sn_0 sn0 msgs). rewrite u32_small by lia.
  destruct (Z.leb_spec (first_sn (length msgs) + w) (sg_sn s)); [lia|].
  destruct (Z.ltb_spec (sg_sn s) (first_sn (length msgs))); [|lia].
  exists c0. split; [done|]. constructor; try done. by apply (recv_inv_view sn0 psn0 msgs 1 c).
Qed.

Lemma pushes_old arrivals c e :
  stalled c e -> (forall a, a ∈ arrivals -> exists m j, carries a.1 m j) ->
  exists c', pushes arrivals (c, e) = Some (tt, (c', e)) /\ stalled c' e.
Proof.
  revert c. induction arrivals as [|[h ts] arrivals IH]; intros c Hst Hall; [by exists c|].
  destruct (Hall (h, ts) ltac:(constructor)) as (m & j & Hc). destruct (push_old h ts c e m j Hst Hc) as (c1 & Hrun & Hst1).
  destruct (IH c1 Hst1) as (c' & Hr & Hst'); [intros; apply Hall; by constructor|].
  exists c'. split; [by rewrite (pushes_cons _ _ _ _ _ _ _ Hrun)|done].
Qed.
End Stall.

Lemma pushes_app l k c e c1 e1 : pushes l (c, e) = Some (tt, (c1, e1)) -> pushes (l ++ k) (c, e) = pushes k (c1, e1).
Proof.
  revert c e. induction l as [|[h ts] l IH]; intros c e H; [by injection H as <- <-|].
  cbn [pushes app] in *. apply bind_Some in H as (code & [c2 e2] & H1 & H2). rewrite (bind_eq _ _ _ _ _ H1). exact (IH _ _ H2).
Qed.

(** C12: One message for each new segment: when all of a stream has
    arrived, in any order and any number of times, but a fragment [j0] of its first
    message, and then that fragment arrives, the first message is delivered and no
    other: [rcv_nxt] is past the whole stream, the other messages lie complete in
    the buffer, and no segment of the stream that arrives again, however often,
    delivers any of them or tells the user. *)
Theorem delivery_stalls (sn0 psn0 : Z) (msgs : list (list kcp_segment)) (fs0 : list kcp_segment) (j0 : nat)
    (before after : list (kcp_proto_header * Z)) (h : kcp_proto_header) (ts : Z) (c : kcp_connection) (e : env) :
  stream_ok sn0 psn0 msgs -> msgs !! 0%nat = Some fs0 -> (j0 < length fs0)%nat ->
  receiver_init sn0 c -> memory_available e ->
  first_sn sn0 msgs (length msgs) <= sn0 + rcv_wnd c -> first_sn sn0 msgs (length msgs) + rcv_wnd c < 4294967296 ->
  (forall a, a ∈ before -> exists m j, carries msgs a.1 m j /\ ~ (m = 0%nat /\ j = j0)) ->
  (forall m j fs, msgs !! m = Some fs -> (j < length fs)%nat -> ~ (m = 0%nat /\ j = j0) ->
     exists a, a ∈ before /\ carries msgs a.1 m j) ->
  carries msgs h 0 j0 -> (forall a, a ∈ after -> exists m j, carries msgs a.1 m j) ->
  exists c' e', pushes (before ++ (h, ts) :: after) (c, e) = Some (tt, (c', e')) /\
    rcv_nxt c' = first_sn sn0 msgs (length msgs) /\
    map payload (rcv_queue c') = map payload fs0 /\
    e_trace e' = e_trace e ++ (if read_event_cb c then [OnReadEvent (k_self c) (s32 (Zsum (map sg_len fs0)))] else []) /\
    forall n, first_sn sn0 msgs 1 <= n < first_sn sn0 msgs (length msgs) -> exists t, t ∈ buffered c' /\ sg_sn t = n.
Proof.
  intros Hso Hm0 Hj0 Hinit Hmem Hwin Hroom Hbefore Hcover Hlate Hafter.
  assert (held sn0 psn0 msgs j0 (rcv_wnd c) (k_self c) (read_event_cb c) (e_trace e) (fun _ => False) c e) as Hh.
  { pose proof (receiver_init_inv sn0 psn0 msgs c Hinit). destruct Hinit as [Hb _ _ Hn Hq _].
    constructor; try done; [lia|]. intros u. unfold buffered. rewrite Hb. by intros ?%elem_of_nil. }
  destruct (pushes_held sn0 psn0 msgs Hso fs0 j0 Hm0 Hj0 _ _ _ _ Hwin Hroom before _ c e Hh) as (c1 & e1 & Hr1 & Hh1).
  { intros a Ha. destruct (Hbefore a Ha) as (m & j & Hc & Hne). split; [|eauto].
    rewrite (carries_number sn0 psn0 msgs Hso _ _ _ Hc). intros E. apply Hne.
    destruct (carries_frg sn0 psn0 msgs Hso _ _ _ Hc) as (_ & fs & s & Hm & Hs & _).
    by destruct (fragment_place sn0 msgs fs0 j0 Hm0 Hj0 m j fs Hm (lookup_lt_Some _ _ _ Hs)) as [_ ?]; auto. }
  destruct (push_late sn0 psn0 msgs Hso fs0 j0 Hm0 Hj0 _ _ _ _ Hwin Hroom _ c1 e1 h ts Hh1 Hlate) as (code & c2 & e2 & Hr2 & Hst).
  { intros n Hn. destruct (number_place sn0 msgs (length msgs) n) as (m & fs & j & Hm & Hj & ->); [lia|done|].
    destruct (decide (m = 0%nat /\ j = j0)) as [[-> ->]|Hne]; [left; by rewrite (first_sn_0 sn0 msgs)|right; left].
    destruct (Hcover m j fs Hm Hj Hne) as (a & Ha & Hc). exists a. split; [done|]. by eapply carries_number. }
  destruct (pushes_old sn0 psn0 msgs Hso fs0 j0 Hm0 Hj0 _ _ _ _ Hwin Hroom after c2 e2 Hst Hafter) as (c' & Hr3 & [_ Hi Hn Hq He]).
  exists c', e2. split_and!; [|done|done|done|].
  - rewrite (pushes_app _ _ _ _ _ _ Hr1), (pushes_cons _ _ _ _ _ _ _ Hr2). exact Hr3.
  - intros n Hrange. apply (ri_below _ _ _ _ _ Hi). by rewrite Hn.
Qed.

(** The second message, the second fragment of the first, at last the first one, and
    all of them again: the second message is not delivered. *)
Lemma delivery_stalls_witness :
  exists c' e', pushes ([(arrival 1 0, 5000); (arrival 0 1, 5001)] ++ (arrival 0 0, 5002) ::
        [(arrival 1 0, 6000); (arrival 0 1, 6001); (arrival 0 0, 6002)]) (receiver_example, quiet) = Some (tt, (c', e')) /\
    rcv_nxt c' = 13 /\ contents (rcv_queue c') = [1; 2; 3; 4; 5] /\ e_trace e' = [OnReadEvent 1 5].
Proof.
  destruct (delivery_stalls 10 4 stream_example (nth 0 stream_example []) 0
    [(arrival 1 0, 5000); (arrival 0 1, 5001)] [(arrival 1 0, 6000); (arrival 0 1, 6001); (arrival 0 0, 6002)]
    (arrival 0 0) 5002 receiver_example quiet stream_example_ok) as (c' & e' & Hr & Hn & Hq & He & _).
  - done.
  - cbn. lia.
  - apply receiver_example_init.
  - constructor.
  - by vm_compute.
  - by vm_compute.
  - intros a. rewrite !elem_of_cons, elem_of_nil. intros [->|[->|[]]]; eexists _, _; (split; [by eapply arrival_carries|lia]).
  - intros [|[|m]] j fs Hm Hj Hne; simplify_eq/=; [destruct j as [|[|j]]; [lia| |lia]|destruct j as [|j]; [|lia]].
    + exists (arrival 0 1, 5001). split; [set_solver|by eapply arrival_carries].
    + exists (arrival 1 0, 5000). split; [set_solver|by eapply arrival_carries].
  - by eapply arrival_carries.
  - intros a. rewrite !elem_of_cons, elem_of_nil. intros [->|[->|[->|[]]]]; eexists _, _; by eapply arrival_carries.
  - exists c', e'. split; [exact Hr|]. split; [exact Hn|]. split; [|exact He].
    by destruct (payload_contents _ _ Hq) as (-> & _).
Defined.
