(* ===== verification/Flush.v ===== *)
(** * Flush: on_kcp_write_timeout

    The periodic send of kcp_protocol.c: acknowledgements, window probes and
    heartbeats batched in [buffer], the move of [snd_queue] into [snd_buf] within
    the window, the retransmission decision of each segment, the packing of
    segments in datagrams and the pacing.  [on_kcp_write_timeout] is [flush] up to
    the call of [kcp_refresh_write_timer], a function of the context, and
    [flush_end] after it.

    The staging buffer is the list of the bytes between [buffer] and [ptr]; it and
    a row of [packet_cache] hold ETHERNET_MTU bytes, and a store past them is
    undefined.  [kcp_header_buffer] is the local of 32 bytes that every header is
    encoded in, one over the other. *)

From S2P Require Import Prelude RbTree Bytes Config Wire Types World Net Bbr Snd Xxhash.

Definition kcp_wnd_unused (c : kcp_connection) : Z :=
  if nrcv_buf c <? rcv_wnd c then rcv_wnd c - nrcv_buf c else 0.

(** ** The batch of headers *)

(** [ptr - buffer + KCP_HEADER_SIZE > mtu]: the batch is sent. *)
Definition send_if_full (buffer : bytes) : io kcp_connection bytes :=
  c ← get;
  if mtu c <? Zlength buffer + KCP_HEADER_SIZE
  then kcp_send_packet c [buffer];; mret []
  else mret buffer.

(** The header is encoded in [kcp_header_buffer] and copied to [ptr]. *)
Definition append_header (h : kcp_proto_header) (kcp_header_buffer buffer : bytes)
  : io kcp_connection (bytes * bytes) :=
  encoded ← deref (kcp_proto_header_encode h kcp_header_buffer);
  let kcp_header_buffer := encoded.2 in
  if ETHERNET_MTU <? Zlength buffer + KCP_HEADER_SIZE then undefined
  else mret (kcp_header_buffer, buffer ++ kcp_header_buffer).

Definition ack_header_of (c : kcp_connection) (timestamp : Z) (a : kcp_ack) : kcp_proto_header :=
  KcpProtoHeader (scid c) (dcid c) KCP_CMD_ACK 0 0 (u16 (kcp_wnd_unused c))
    (ack_data (ack_ts a) timestamp (ack_sn a) (rcv_nxt c)) [].

(** The loop over [ack_item]; the header's fields other than those of the item are
    set before it. *)
Fixpoint flush_acks (items : list kcp_ack) (c0 : kcp_connection) (timestamp : Z)
    (kcp_header_buffer buffer : bytes) : io kcp_connection (bytes * bytes) :=
  match items with
  | [] => mret (kcp_header_buffer, buffer)
  | pos :: items =>
      s ← append_header (ack_header_of c0 timestamp pos) kcp_header_buffer buffer;
      mods (fun c => c <| ack_item ::= tail |>);;
      buffer ← send_if_full s.2;
      flush_acks items c0 timestamp s.1 buffer
  end.

(** The timer of the window probe. *)
Definition probe_window (c : kcp_connection) (timestamp : Z) : kcp_connection :=
  if rmt_wnd c =? 0 then
    if probe_wait c =? 0 then
      c <| probe_wait := 1 |> <| win_ts_probe := u32 (timestamp + KCP_PROBE_INIT) |>
    else if win_ts_probe c <=? timestamp then
      let c := if probe_wait c <? KCP_PROBE_INIT
               then c <| win_ts_probe := u32 (timestamp + KCP_PROBE_INIT) |> else c in
      let c := c <| probe_wait ::= (fun w => u32 (w + w / 2)) |> in
      let c := if KCP_PROBE_LIMIT <? probe_wait c then c <| probe_wait := KCP_PROBE_LIMIT |> else c in
      c <| win_ts_probe := u32 (timestamp + probe_wait c) |> <| probe ::= (fun p => Z.lor p KCP_ASK_SEND) |>
    else c
  else c <| win_ts_probe := 0 |> <| probe_wait := 0 |>.

(** A header sent when [cond] holds, after making room for it. *)
Definition flush_header (cond : bool) (h : kcp_proto_header) (s : bytes * bytes)
  : io kcp_connection (bytes * bytes) :=
  if cond then
    buffer ← send_if_full s.2;
    append_header h s.1 buffer
  else mret s.

Definition window_header (c : kcp_connection) (cmd wnd timestamp : Z) : kcp_proto_header :=
  KcpProtoHeader (scid c) (dcid c) cmd 0 0 wnd (packet_data timestamp 0 0 0 0 []) [].

Definition flush_window (timestamp : Z) (s : bytes * bytes) : io kcp_connection (bytes * bytes) :=
  c ← get;
  s ← flush_header (negb (Z.land (probe c) KCP_ASK_SEND =? 0)) (window_header c KCP_CMD_WASK 0 timestamp) s;
  flush_header (negb (Z.land (probe c) KCP_ASK_TELL =? 0))
    (window_header c KCP_CMD_WINS (u16 (kcp_wnd_unused c)) timestamp) s.

(** 1 when the keepalive has failed and the user has been told. *)
Definition on_kcp_ping_timeout (timestamp : Z) : io kcp_connection Z :=
  c ← get;
  match last (ping_request_queue (ping c)) with
  | None => mret 0
  | Some ping_session =>
      if u64 (keepalive_timeout (ping c) + packet_ts ping_session) <=? timestamp then
        mods (fun c => c <| ping / keepalive_next_ts := u64 (timestamp - 1) |>
                         <| ping / ping_request_queue ::= @removelast _ |>
                         <| ping / keepalive_xretries ::= (fun n => u16 (n + 1)) |>);;
        c ← get;
        if keepalive_retries (ping c) <=? keepalive_xretries (ping c) then
          mods (fun c => c <| state := KCP_STATE_DISCONNECTED |>);;
          emit (OnError (Some (k_self c)) KEEPALIVE_ERROR);;
          mret 1
        else mret 0
      else mret 0
  end.

Definition ping_header (c : kcp_connection) (cmd packet_ts ts sn : Z) : kcp_proto_header :=
  KcpProtoHeader (scid c) (dcid c) cmd 0 0 0 (ping_data packet_ts ts sn) [].

(** The heartbeat request; the result of its [malloc] is not checked. *)
Definition flush_ping (timestamp : Z) (s : bytes * bytes) : io kcp_connection (bytes * bytes) :=
  c ← get;
  if keepalive_next_ts (ping c) <? timestamp then
    let sn := ts_hash timestamp in
    ok ← malloc;
    if ok : bool then
      mods (fun c => c <| ping / ping_request_queue ::= (fun q => q ++ [PingSession sn timestamp]) |>);;
      s ← flush_header true (ping_header c KCP_CMD_PING 0 timestamp sn) s;
      mods (fun c => c <| ping / keepalive_next_ts := u64 (timestamp + keepalive_interval (ping c)) |>);;
      mret s
    else undefined
  else mret s.

Definition flush_pong (timestamp : Z) (s : bytes * bytes) : io kcp_connection (bytes * bytes) :=
  c ← get;
  flush_header (negb (Z.land (probe c) KCP_PING_RECV =? 0))
    (ping_header c KCP_CMD_PONG (keepalive_packet_ts (ping c)) timestamp (keepalive_sn (ping c))) s.

(** ** snd_queue to snd_buf *)

Definition send_window (c : kcp_connection) : Z :=
  let cwnd_ := MIN (snd_wnd c) (rmt_wnd c) in
  if nocwnd c =? 0 then MIN cwnd_ (cwnd c) else cwnd_.

Definition numbered_segment (c : kcp_connection) (timestamp : Z) (segment : kcp_segment) : kcp_segment :=
  segment
    <| sg_scid := scid c |> <| sg_dcid := dcid c |> <| sg_cmd := KCP_CMD_PUSH |>
    <| sg_wnd ::= (fun w => if 0 <? sg_frg segment then u32 (kcp_wnd_unused c) else w) |>
    <| sg_ts := timestamp |> <| sg_sn := snd_nxt c |> <| sg_una := rcv_nxt c |>
    <| sg_rto := u32 (rx_rto c) |> <| sg_resendts := timestamp |> <| sg_fastack := 0 |>
    <| sg_xmit := 0 |> <| sg_tx_delivered := bbr_delivered (bbr c) |>
    <| sg_tx_delivered_ts := if 0 <? bbr_delivered_ts (bbr c) then bbr_delivered_ts (bbr c) else timestamp |>.

Definition move_segment (timestamp : Z) (c : kcp_connection) (segment : kcp_segment) : kcp_connection :=
  c <| snd_queue ::= tail |> <| snd_buf ::= (fun l => l ++ [numbered_segment c timestamp segment]) |>
    <| snd_nxt ::= (fun n => u32 (n + 1)) |> <| nsnd_que ::= Z.pred |> <| nsnd_buf ::= Z.succ |>.

(** The loop over [snd_queue]; the window is computed before it. *)
Fixpoint fill_snd_buf (queue : list kcp_segment) (window timestamp : Z) (c : kcp_connection) : kcp_connection :=
  match queue with
  | [] => c
  | segment :: queue =>
      if snd_nxt c - (snd_una c + window) <? 0
      then fill_snd_buf queue window timestamp (move_segment timestamp c segment)
      else c
  end.

(** ** Pacing *)

Definition refill_credit (c : kcp_connection) (timestamp : Z) : kcp_connection :=
  let c := if bbr_last_send_ts (bbr c) =? 0 then c <| bbr / bbr_last_send_ts := timestamp |> else c in
  if bbr_last_send_ts (bbr c) <? timestamp then
    let elapsed_us := timestamp - bbr_last_send_ts (bbr c) in
    let add_credit := u64 (bbr_pacing_rate (bbr c) * elapsed_us) / 1000000 in
    let max_credit := MAX (u64 (mss c * 64)) (bbr_bdp_bytes c KCP_BBR_CWND_GAIN_NUM) in
    c <| bbr / bbr_pacing_credit := MIN (u64 (bbr_pacing_credit (bbr c) + add_credit)) max_credit |>
      <| bbr / bbr_last_send_ts := timestamp |>
  else c.

(** ** The decision on a segment *)

Record decision := Decision_ { need_send : bool; is_retransmit : bool; lost : bool }.

Definition resent_of (c : kcp_connection) : Z := if 0 <? fastresend c then fastresend c else UINT32_MAX.
Definition rtomin_of (c : kcp_connection) : Z :=
  if nodelay c =? 0 then u32 (Z.shiftr (rx_rto c) 3) else 0.

Definition decide_segment (timestamp resent rtomin : Z) (c : kcp_connection) (pos : kcp_segment)
  : kcp_connection * kcp_segment * decision :=
  if sg_xmit pos =? 0 then
    if sg_len pos <=? bbr_pacing_credit (bbr c) then
      let pos := pos <| sg_xmit ::= (fun n => u32 (n + 1)) |> <| sg_rto := u32 (rx_rto c) |> in
      let pos := pos <| sg_resendts := u64 (timestamp + sg_rto pos + rtomin) |> in
      (c <| bbr / bbr_pacing_credit ::= (fun n => n - sg_len pos) |>, pos, Decision_ true false false)
    else (c, pos, Decision_ false false false)
  else if sg_resendts pos <=? timestamp then
    let pos := pos <| sg_xmit ::= (fun n => u32 (n + 1)) |> in
    let pos := if nodelay c =? 0 then pos <| sg_rto ::= (fun r => MAX r (u32 (rx_rto c))) |>
               else
                 let step := if nodelay c <? 2 then s32 (sg_rto pos) else rx_rto c in
                 pos <| sg_rto ::= (fun r => u32 (r + u32 (Z.quot step 2))) |> in
    (c, pos <| sg_resendts := u64 (timestamp + sg_rto pos) |>, Decision_ true true true)
  else if resent <=? sg_fastack pos then
    if (sg_xmit pos <=? u32 (fastlimit c)) || (fastlimit c <=? 0) then
      let pos := pos <| sg_xmit ::= (fun n => u32 (n + 1)) |> in
      (c, pos <| sg_resendts := u64 (timestamp + sg_rto pos) |> <| sg_fastack := 0 |>,
       Decision_ true true false)
    else (c, pos, Decision_ false false false)
  else (c, pos, Decision_ false false false).

(** A retransmission uses the credit that is left. *)
Definition charge (d : decision) (pos : kcp_segment) (c : kcp_connection) : kcp_connection :=
  if is_retransmit d && (sg_len pos <=? bbr_pacing_credit (bbr c))
  then c <| bbr / bbr_pacing_credit ::= (fun n => n - sg_len pos) |> else c.

(** ** Packing *)

(** [packet_cache]: the buffers before [buffer_index], and that one. *)
Record cache := Cache { full : list bytes; current : bytes }.
Definition buffer_index (k : cache) : Z := Zlength (full k).

(** What a step of the loop comes to: it goes on, returns, or jumps to [_end]. *)
Inductive flow (A : Type) := Next (a : A) | Return (code : Z) | Goto_end.
Arguments Next {A} a.
Arguments Return {A} code.
Arguments Goto_end {A}.

Definition flow_bind {A B} (m : io kcp_connection (flow A)) (k : A -> io kcp_connection (flow B))
  : io kcp_connection (flow B) :=
  r ← m;
  match r with Next a => k a | Return code => mret (Return code) | Goto_end => mret Goto_end end.

(** [kcp_send_packet] and the error it is turned into. *)
Definition send_cache (l : list bytes) : io kcp_connection (flow unit) :=
  c ← get;
  status ← kcp_send_packet c l;
  if status <? 0 then
    code ← get_last_errno;
    if (code =? EAGAIN) || (code =? EWOULDBLOCK) then mret (Return OP_TRY_AGAIN) else mret (Return WRITE_ERROR)
  else mret (Next tt).

(** The loop at [label_send].  A round over the buffers takes at most 34 turns and
    each further round needs an answer of the kernel: [pack_fuel]. *)
Fixpoint label_send (fuel : nat) (max_mtu : Z) (pos : kcp_segment) (k : cache)
  : io kcp_connection (flow cache) :=
  match fuel with
  | O => undefined
  | S fuel =>
      flow_bind
        (if KCP_PACKET_COUNT <=? buffer_index k
         then flow_bind (send_cache (full k)) (fun _ => mret (Next (Cache [] [])))
         else mret (Next k))
        (fun k =>
           match kcp_segment_encode pos (u64 (max_mtu - Zlength (current k))) with
           | inr _ => label_send fuel max_mtu pos (Cache (full k ++ [current k]) [])
           | inl encoded =>
               if ETHERNET_MTU <? Zlength (current k) + Zlength encoded then undefined
               else mret (Next (Cache (full k) (current k ++ encoded)))
           end)
  end.

Definition pack_fuel (e : env) : nat := 34 * (2 + length (e_send e)).

Record flush_local := FlushLocal { need_flush : bool; packet_lost : bool; packets : cache }.

(** One turn of the loop over [snd_buf]: [done] the segments before [pos], [todo]
    those after it. *)
Definition flush_segment (timestamp resent rtomin max_mtu : Z) (done : list kcp_segment)
    (pos : kcp_segment) (todo : list kcp_segment) (l : flush_local)
  : io kcp_connection (flow (kcp_segment * flush_local)) :=
  c ← get;
  let '(c, pos, d) := decide_segment timestamp resent rtomin c pos in
  mods (fun _ => c <| snd_buf := done ++ pos :: todo |>);;
  let l := FlushLocal (need_flush l) (packet_lost l || lost d) (packets l) in
  if KCP_RETRANSMISSION_MAX <? sg_xmit pos then
    mods (fun c => c <| state := KCP_STATE_DISCONNECTED |>);;
    mret Goto_end
  else if need_send d then
    mods (charge d pos);;
    fuel ← gets (fun s => pack_fuel s.2);
    flow_bind (label_send fuel max_mtu pos (packets l))
      (fun k => mret (Next (pos, FlushLocal true (packet_lost l) k)))
  else mret (Next (pos, l)).

Fixpoint flush_segments (timestamp resent rtomin max_mtu : Z) (done todo : list kcp_segment) (l : flush_local)
  : io kcp_connection (flow flush_local) :=
  match todo with
  | [] => mret (Next l)
  | pos :: todo =>
      flow_bind (flush_segment timestamp resent rtomin max_mtu done pos todo l)
        (fun r => flush_segments timestamp resent rtomin max_mtu (done ++ [r.1]) todo r.2)
  end.

(** The rest of the cache. *)
Definition flush_rest (l : flush_local) : io kcp_connection (flow unit) :=
  if need_flush l then send_cache (full (packets l) ++ [current (packets l)]) else mret (Next tt).

(** ** The whole *)

(** Up to [probe = 0] and the batch: 1 when the keepalive has failed. *)
Definition flush_control (timestamp : Z) : io kcp_connection Z :=
  c ← get;
  s ← flush_acks (ack_item c) c timestamp (replicate 32 0) [];
  mods (fun c => probe_window c timestamp);;
  s ← flush_window timestamp s;
  dead ← on_kcp_ping_timeout timestamp;
  if negb (dead =? 0) then mret 1
  else
    s ← flush_ping timestamp s;
    s ← flush_pong timestamp s;
    mods (fun c => c <| probe := 0 |>);;
    c ← get;
    (match s.2 with [] => mret tt | buffer => kcp_send_packet c [buffer];; mret tt end);;
    mret 0.

(** The two loops over the queues, the pacing and what is left to send. *)
Definition flush_data (timestamp : Z) : io kcp_connection (flow unit) :=
  mods (fun c => fill_snd_buf (snd_queue c) (send_window c) timestamp c);;
  c ← get;
  let resent := resent_of c in
  let rtomin := rtomin_of c in
  mods (fun c => refill_credit c timestamp);;
  c ← get;
  flow_bind (flush_segments timestamp resent rtomin (mtu c) [] (snd_buf c)
               (FlushLocal false false (Cache [] [])))
    (fun l =>
       flow_bind (flush_rest l) (fun _ =>
         mods (fun c => if packet_lost l then bbr_on_loss c else c);;
         mods (fun c => if cwnd c <? KCP_BBR_MIN_CWND_PKTS
                        then c <| cwnd := KCP_BBR_MIN_CWND_PKTS |> <| incr := u32 (KCP_BBR_MIN_CWND_PKTS * mss c) |>
                        else c);;
         mods (fun c => c <| ts_flush := u64 (timestamp / 1000 + interval c) |>);;
         mret (Next tt))).

(** The code at [_end]. *)
Definition flush_done : io kcp_connection Z :=
  c ← get;
  when (bool_decide (state c = KCP_STATE_DISCONNECTED)) (emit (OnError (Some (k_self c)) TOO_MANY_RETRANS));;
  mret NO_ERROR.

(** [on_kcp_write_timeout] before [kcp_refresh_write_timer]: [None] when it gets
    there, [Some] of the code when it returns before. *)
Definition flush (timestamp : Z) : io kcp_connection (option Z) :=
  c ← get;
  if negb (bool_decide (state c = KCP_STATE_CONNECTED)) then mret (Some NO_ERROR)
  else if timestamp / 1000 <? ts_flush c then mret (Some NO_ERROR)
  else
    dead ← flush_control timestamp;
    if negb (dead =? 0) then mret (Some NO_ERROR)
    else
      r ← flush_data timestamp;
      match r with
      | Next _ => mret None
      | Return code => mret (Some code)
      | Goto_end => code ← flush_done; mret (Some code)
      end.

(** After it. *)
Definition flush_end : io kcp_connection Z :=
  c ← get;
  when (write_event_cb c) (emit (OnWriteEvent (k_self c) (snd_wnd c - nsnd_buf c)));;
  flush_done.
