(* ===== verification/FlushSpec.v ===== *)
(** * FlushSpec: what the periodic send guarantees

    Every datagram fits the connection's MTU and goes to its peer, whatever the
    kernel answers ([flush_safe]); the window bounds what is in flight and the order
    of the data is kept ([flush_window_fifo]); a segment is not sent more than
    KCP_RETRANSMISSION_MAX times ([flush_retransmission_limit]). *)

From S2P Require Import Prelude RbTree Bytes Xxhash Config Wire Types World Net Bbr Snd Flush.

(** ** Headers and segments are encoded *)

(** A header without data and options fits the buffer of 32 bytes. *)
Lemma encode_plain_header h buffer :
  length buffer = 32%nat -> payload (h_data h) = (0, []) -> h_opt h = 0 ->
  exists r bs, kcp_proto_header_encode h buffer = Some (r, bs) /\ length bs = 32%nat.
Proof.
  intros Hl Hp Ho.
  assert (forall b : bytes, length b = 32%nat -> Zlength b <? KCP_HEADER_SIZE = false) as Hlen.
  { intros b Hb. unfold Zlength. by rewrite Hb. }
  assert (forall off bs b, length b = 32%nat -> (off + length bs <= 32)%nat ->
    exists b', store off bs b = Some b' /\ length b' = 32%nat) as Hst.
  { intros off bs b Hb Hoff. unfold store. rewrite Hb. destruct (Nat.ltb_spec 32 (off + length bs)); [lia|].
    eexists. split; [done|]. rewrite !length_app, length_take, length_drop. lia. }
  unfold kcp_proto_header_encode. rewrite Hlen by done. set (co := Z.lor _ _).
  destruct (Hst 0%nat (le_split 2 (h_scid h) ++ le_split 2 (h_dcid h) ++ [co] ++ [h_frg h] ++ le_split 2 (h_wnd h)) buffer)
    as (b1 & -> & H1); [done|rewrite !length_app, !length_le_split; cbn; lia|].
  cbn [mbind option_bind]. rewrite Hp. change (u32 (KCP_HEADER_SIZE + 0)) with KCP_HEADER_SIZE.
  rewrite Hlen by done.
  destruct (Hst 8%nat (body_bytes (h_data h)) b1) as (b2 & -> & H2); [done|rewrite length_body_bytes; lia|].
  cbn [mbind option_bind].
  destruct (Hst 32%nat [] b2) as (b3 & -> & H3); [done|cbn; lia|].
  cbn [mbind option_bind]. rewrite Ho. change (negb (Z.land 0 KCP_CMD_OPT =? 0)) with false. by eexists _, _.
Qed.

(** A segment fits a datagram of [max] bytes. *)
Record fits (max : Z) (s : kcp_segment) : Prop := {
  fits_len : 0 <= sg_len s;
  fits_data : sg_len s = Zlength (sg_data s);
  fits_max : KCP_HEADER_SIZE + sg_len s <= max;
}.

(** The bytes of a segment on the wire. *)
Definition image (s : kcp_segment) : bytes :=
  match kcp_segment_encode s UINT32_MAX with inl b => b | inr _ => [] end.

Lemma Zlength_image max s :
  fits max s -> max <= ETHERNET_MTU -> Zlength (image s) = KCP_HEADER_SIZE + sg_len s.
Proof.
  intros [Hl Hd Hm] Hmax. unfold image, kcp_segment_encode, KCP_HEADER_SIZE, ETHERNET_MTU, UINT32_MAX in *.
  rewrite u32_small by lia. destruct (Z.ltb_spec 4294967295 (32 + sg_len s)); [lia|].
  unfold Zlength in *. rewrite !length_app, !length_le_split, length_take. cbn [length]. lia.
Qed.

Lemma segment_encode_fits max s size :
  fits max s -> max <= ETHERNET_MTU -> KCP_HEADER_SIZE + sg_len s <= size ->
  kcp_segment_encode s size = inl (image s).
Proof.
  intros [Hl Hd Hm] Hmax Hs. unfold image, kcp_segment_encode, KCP_HEADER_SIZE, ETHERNET_MTU, UINT32_MAX in *.
  rewrite u32_small by lia. destruct (Z.ltb_spec 4294967295 (32 + sg_len s)); [lia|].
  destruct (Z.ltb_spec size (32 + sg_len s)); [lia|done].
Qed.

Lemma segment_encode_small max s size :
  fits max s -> max <= ETHERNET_MTU -> size < KCP_HEADER_SIZE + sg_len s ->
  kcp_segment_encode s size = inr BUFFER_TOO_SMALL.
Proof.
  intros [Hl Hd Hm] Hmax Hs. unfold kcp_segment_encode, KCP_HEADER_SIZE, ETHERNET_MTU in *.
  rewrite u32_small by lia. by destruct (Z.ltb_spec size (32 + sg_len s)); [|lia].
Qed.

(** ** The batch of headers *)

Section Safe.
Context (r : sockaddr) (m self : Z) (t0 : list event) (mmsg : bool) (fresh : Prop).
Hypothesis (Hm : KCP_HEADER_SIZE <= m <= ETHERNET_MTU).

Lemma mtu_small : is_u64 m.
Proof. unfold KCP_HEADER_SIZE, ETHERNET_MTU in *. lia. Qed.

Definition event_fits (ev : event) : Prop :=
  match ev with Datagram remote d => remote = r /\ Zlength d <= m | _ => True end.

(** A segment sent no more often than allowed, if those of the beginning were. *)
Definition limit (s : kcp_segment) : Prop := fresh -> sg_xmit s <= KCP_RETRANSMISSION_MAX.

(** What every step of the flush keeps; [mmsg] is the build. *)
Definition flush_inv_at (st : kcp_connection_state) (s : kcp_connection * env) : Prop :=
  (remote_host s.1 = r /\ state s.1 = st /\ k_self s.1 = self) /\
  (mtu s.1 = m /\ snd_nxt s.1 + Zlength (snd_queue s.1) < 4294967296) /\
  (Forall (fits m) (snd_buf s.1 ++ snd_queue s.1) /\ (snd_ok s.1 /\ (st <> KCP_STATE_DISCONNECTED -> Forall limit (snd_buf s.1)))) /\
  (memory_available s.2 /\ e_sendmmsg s.2 = mmsg) /\ exists evs, e_trace s.2 = t0 ++ evs /\ Forall event_fits evs.

Context (cst : kcp_connection_state).
Notation flush_inv := (flush_inv_at cst).

Definition flush_view (c : kcp_connection) := (remote_host c, state c, k_self c, mtu c, snd_view c).

Lemma flush_inv_view c c' e : flush_view c' = flush_view c -> flush_inv (c, e) -> flush_inv (c', e).
Proof.
  intros Hv ((H1&Hst&Hk)&(H2&Hn)&(H3&H4&Hx4)&H5). unfold flush_view in Hv. cbn [fst snd] in *.
  assert (snd_view c' = snd_view c) as Hs by congruence.
  assert (snd_buf c' = snd_buf c) as Hb by by injection Hs.
  assert (snd_queue c' = snd_queue c) as Hq by by injection Hs.
  assert (snd_nxt c' = snd_nxt c) as Hx by by injection Hs.
  unfold flush_inv_at. cbn [fst snd]. split; [split_and!; congruence|]. split; [rewrite Hq, Hx; split; [congruence|done]|]. split; [|done].
  split; [by rewrite Hb, Hq|]. split; [by eapply snd_ok_view|by rewrite Hb].
Qed.

Lemma flush_inv_flaws st' c e l : flush_inv_at st' (c, e) -> flush_inv_at st' (c, with_flaws l e).
Proof. done. Qed.

Lemma flush_inv_event st' c e ev :
  event_fits ev -> flush_inv_at st' (c, e) -> flush_inv_at st' (c, e <| e_trace ::= (fun t => t ++ [ev]) |>).
Proof.
  intros Hev (H1 & H2 & H3 & H4 & evs & Ht & Hf). refine (conj H1 (conj H2 (conj H3 (conj H4 _)))).
  exists (evs ++ [ev]). split; [cbn in *; by rewrite Ht, app_assoc|]. apply Forall_app. split; [done|by constructor].
Qed.

Lemma flush_inv_malloc c e l :
  memory_available (e <| e_malloc := l |>) -> flush_inv (c, e) -> flush_inv (c, e <| e_malloc := l |>).
Proof. intros Hl (H1 & H2 & H3 & (_ & H4) & H5). done. Qed.

Lemma flush_inv_send c e data n e' :
  Forall (fun d => Zlength d <= m) data -> after_send e (datagrams (remote_host c) (take n data)) e' ->
  flush_inv (c, e) -> flush_inv (c, e').
Proof.
  intros Hd Ha (H1 & H2 & H3 & H4 & evs & Ht & Hf). refine (conj H1 (conj H2 (conj H3 (conj _ _)))).
  - unfold memory_available in *. cbn [snd] in *. by rewrite (after_send_malloc _ _ _ Ha), (after_send_build _ _ _ Ha).
  - cbn [fst snd] in *. destruct H1 as (H1&_). eexists (evs ++ _). rewrite (after_send_trace _ _ _ Ha), Ht, <- app_assoc.
    split; [done|]. apply Forall_app. split; [done|]. unfold datagrams. apply Forall_map.
    eapply Forall_impl; [by apply Forall_take|]. intros d ?. by split.
Qed.

Lemma send_inv c e data :
  Forall (fun d => d <> [] /\ Zlength d <= m) data -> Zlength data <= KCP_PACKET_SIZE -> data <> [] -> flush_inv (c, e) ->
  wp (kcp_send_packet c data)
     (fun st s' => s'.1 = c /\ flush_inv s' /\ (st < 0 -> e_errno s'.2 <> EAGAIN \/ mmsg = true)) (c, e).
Proof.
  intros Hd Hs Hne Hi. assert (e_sendmmsg e = mmsg) as Hb by by destruct Hi as (_&_&_&[_ ?]&_).
  apply kcp_send_packet_wp; [by eapply Forall_impl; [done|intros ? []]|done|done|].
  intros n st e' Hn Ha Hst. rewrite Hb in Hst. split_and!; [done| |cbn; intros; destruct Hst as [|[??]]; [lia|done]].
  eapply flush_inv_send; [|done..]. by eapply Forall_impl; [done|intros ? []].
Qed.

Lemma send_if_full_inv c e buffer :
  Zlength buffer <= m -> flush_inv (c, e) ->
  wp (send_if_full buffer)
     (fun b s' => s'.1 = c /\ flush_inv s' /\ Zlength b + KCP_HEADER_SIZE <= m) (c, e).
Proof.
  intros Hb Hi. unfold send_if_full. do 2 wp_step. wp_step.
  - wp_step. eapply wp_mono.
    + apply send_inv; [|done|done|done]. constructor; [split; [|done]|constructor].
      intros ->. destruct Hi as (_&Hmtu&_). cbn in Hmtu. bprop. change (Zlength (@nil Z)) with 0 in *. lia.
    + cbn beta. intros _ s' (Hs' & Hi' & _). apply wp_ret. split_and!; [done|done|]. change (Zlength (@nil Z)) with 0. lia.
  - apply wp_ret. split_and!; [done|done|]. destruct Hi as (_&Hmtu&_). cbn in Hmtu. bprop. lia.
Qed.

Definition plain_header (h : kcp_proto_header) : Prop := payload (h_data h) = (0, []) /\ h_opt h = 0.

Lemma append_header_inv h hb buffer (s : kcp_connection * env) :
  length hb = 32%nat -> plain_header h -> Zlength buffer + KCP_HEADER_SIZE <= m -> flush_inv s ->
  wp (append_header h hb buffer)
     (fun p s' => s' = s /\ length p.1 = 32%nat /\ Zlength p.2 = Zlength buffer + KCP_HEADER_SIZE) s.
Proof.
  intros Hh [Hp Ho] Hb Hi. unfold append_header.
  destruct (encode_plain_header h hb Hh Hp Ho) as (st & bs & He & Hl).
  apply wp_bind. eapply wp_deref; [done|]. cbn [fst snd].
  destruct (Z.ltb_spec ETHERNET_MTU (Zlength buffer + KCP_HEADER_SIZE)); [lia|].
  apply wp_ret. split_and!; [done|done|]. cbn [snd]. rewrite Zlength_app. unfold Zlength, KCP_HEADER_SIZE. lia.
Qed.

Lemma flush_acks_inv items c0 ts hb buffer c e :
  length hb = 32%nat -> Zlength buffer + KCP_HEADER_SIZE <= m -> flush_inv (c, e) ->
  wp (flush_acks items c0 ts hb buffer)
     (fun p s' => flush_inv s' /\ length p.1 = 32%nat /\ Zlength p.2 <= m) (c, e).
Proof.
  revert hb buffer c e. induction items as [|a items IH]; intros hb buffer c e Hh Hb Hi; cbn [flush_acks].
  { apply wp_ret. split_and!; [done|done|]. cbn. unfold KCP_HEADER_SIZE in *. lia. }
  wp_step. eapply wp_mono; [by apply append_header_inv|]. intros p s' (-> & Hp1 & Hp2).
  wp_step. wp_step. wp_step. eapply wp_mono; [apply send_if_full_inv; [lia|by apply (flush_inv_view c)]|].
  cbn beta. intros b [c' e'] (_ & Hi' & Hb'). by apply IH.
Qed.

Lemma flush_header_inv cond h p c e :
  length p.1 = 32%nat -> plain_header h -> Zlength p.2 <= m -> flush_inv (c, e) ->
  wp (flush_header cond h p) (fun p' s' => s'.1 = c /\ flush_inv s' /\ length p'.1 = 32%nat /\ Zlength p'.2 <= m) (c, e).
Proof.
  intros H1 Hh H2 Hi. unfold flush_header. destruct cond; [|by apply wp_ret].
  wp_step. eapply wp_mono; [by apply send_if_full_inv|]. cbn beta. intros b s' (Hs & Hi' & Hb).
  eapply wp_mono; [by apply append_header_inv|]. cbn beta. intros q s'' (-> & ? & ->). by split_and!.
Qed.

Lemma probe_window_view c ts : flush_view (probe_window c ts) = flush_view c.
Proof. unfold probe_window. by repeat case_match. Qed.

Lemma flush_window_inv ts p c e :
  length p.1 = 32%nat -> Zlength p.2 <= m -> flush_inv (c, e) ->
  wp (flush_window ts p) (fun p' s' => flush_inv s' /\ length p'.1 = 32%nat /\ Zlength p'.2 <= m) (c, e).
Proof.
  intros H1 H2 Hi. unfold flush_window. wp_step. wp_step. wp_step.
  eapply wp_mono; [by apply flush_header_inv|]. cbn beta. intros q [c' e'] (_ & Hi' & H1' & H2').
  eapply wp_mono; [by apply flush_header_inv|]. cbn beta. intros ?? (_ & ? & ? & ?). done.
Qed.

(** The connection is dead and its user was told why. *)
Definition dead_with (code : Z) (s : kcp_connection * env) : Prop :=
  flush_inv_at KCP_STATE_DISCONNECTED s /\ exists t, e_trace s.2 = t ++ [OnError (Some self) code].

Lemma flush_inv_dead c e : flush_inv (c, e) -> flush_inv_at KCP_STATE_DISCONNECTED (c <| state := KCP_STATE_DISCONNECTED |>, e).
Proof.
  intros ((H1&_&H2)&H3&(H4&H5&_)&H6). split; [done|]. split; [done|]. split; [|done]. split; [done|].
  split; [by eapply snd_ok_view, H5|done].
Qed.

Lemma dead_event c e code :
  flush_inv_at KCP_STATE_DISCONNECTED (c, e) ->
  dead_with code (c, e <| e_trace ::= (fun t => t ++ [OnError (Some (k_self c)) code]) |>).
Proof.
  intros Hi. split; [by apply flush_inv_event|]. destruct Hi as ((_&_&Hs)&_). cbn in *. rewrite Hs. by eexists.
Qed.

Lemma ping_timeout_inv ts c e :
  flush_inv (c, e) ->
  wp (on_kcp_ping_timeout ts)
     (fun dead s' => if dead =? 0 then flush_inv s' else dead_with KEEPALIVE_ERROR s') (c, e).
Proof.
  intros Hi. unfold on_kcp_ping_timeout. wp_step. wp_step. destruct (last _); [|by apply wp_ret].
  wp_step; [|by apply wp_ret]. do 4 wp_step. wp_step.
  - do 4 wp_step. match goal with |- context[set_field state _ ?c1] => assert (flush_inv (c1, e)) as Hi1 by by apply (flush_inv_view c) end.
    apply (dead_event _ _ KEEPALIVE_ERROR (flush_inv_dead _ _ Hi1)).
  - apply wp_ret. by apply (flush_inv_view c).
Qed.

Lemma flush_ping_inv ts p c e :
  length p.1 = 32%nat -> Zlength p.2 <= m -> flush_inv (c, e) ->
  wp (flush_ping ts p) (fun p' s' => flush_inv s' /\ length p'.1 = 32%nat /\ Zlength p'.2 <= m) (c, e).
Proof.
  intros H1 H2 Hi. unfold flush_ping. wp_step. wp_step. wp_step; [|by apply wp_ret].
  pose proof Hi as (_ & _ & _ & [Hmem _] & _). destruct (malloc_available c e Hmem) as (e1 & He & Hmem1 & ->).
  apply wp_bind. eapply wp_run; [exact He|]. cbn match. wp_step. wp_step.
  apply wp_bind. eapply wp_mono; [apply flush_header_inv; [done|done|done|]|].
  { eapply flush_inv_view; [|by apply (flush_inv_malloc c e)]. done. }
  cbn beta. intros q [c' e'] (_ & Hi' & ? & ?). do 3 wp_step. split_and!; [|done|done].
  by apply (flush_inv_view c').
Qed.

Lemma flush_control_inv ts c e :
  flush_inv (c, e) ->
  wp (flush_control ts)
     (fun dead s' => if dead =? 0 then flush_inv s' else dead_with KEEPALIVE_ERROR s') (c, e).
Proof.
  intros Hi. unfold flush_control. wp_step. wp_step. wp_step.
  eapply wp_mono; [apply flush_acks_inv; [done|change (Zlength (@nil Z)) with 0; lia|done]|].
  cbn beta. intros p [c1 e1] (Hi1 & H1 & H2). wp_step. wp_step. wp_step.
  eapply wp_mono; [apply flush_window_inv; [done|done|]|].
  { eapply flush_inv_view, Hi1. apply probe_window_view. }
  cbn beta. intros q [c2 e2] (Hi2 & H3 & H4). wp_step.
  eapply wp_mono; [by apply ping_timeout_inv|]. cbn beta. intros dead [c3 e3] Hi3. destruct (dead =? 0); cbn [negb]; cbn match; [|by apply wp_ret].
  wp_step. eapply wp_mono; [by apply flush_ping_inv|]. cbn beta. intros q' [c4 e4] (Hi4 & H5 & H6).
  wp_step. unfold flush_pong. wp_step. wp_step. eapply wp_mono; [by apply flush_header_inv|].
  cbn beta. intros q'' [c5 e5] (_ & Hi5 & H7 & H8). do 5 wp_step.
  assert (flush_inv (c5 <| probe := 0 |>, e5)) as Hi6 by by apply (flush_inv_view c5).
  destruct q''.2 as [|b l] eqn:E; [by apply wp_ret, wp_ret|].
  apply wp_bind. eapply wp_mono; [apply send_inv; [by repeat constructor|done|done|done]|].
  cbn beta. intros _ s' (_ & Hi7 & _). by apply wp_ret, wp_ret.
Qed.

(** ** Packing *)

(** The staging buffers between two segments. *)
Record cache_ok (k : cache) : Prop := {
  cache_full : Forall (fun d => d <> [] /\ Zlength d <= m) (full k);
  cache_index : Zlength (full k) < KCP_PACKET_COUNT;
  cache_current : Zlength (current k) <= m;
}.

(** A failed send makes the flush return; OP_TRY_AGAIN only with [sendmmsg]. *)
Definition send_failed (code : Z) : Prop := code = WRITE_ERROR \/ code = OP_TRY_AGAIN /\ mmsg = true.
Definition write_failed {A} (Q : A -> Prop) (f : flow A) : Prop :=
  match f with Next a => Q a | Return code => send_failed code | Goto_end => False end.

Lemma send_cache_inv l c e :
  Forall (fun d => d <> [] /\ Zlength d <= m) l -> Zlength l <= KCP_PACKET_COUNT -> l <> [] -> flush_inv (c, e) ->
  wp (send_cache l) (fun f s' => s'.1 = c /\ flush_inv s' /\ write_failed (fun _ => True) f) (c, e).
Proof.
  intros Hl Hn Hne Hi. unfold send_cache. wp_step. wp_step. wp_step.
  eapply wp_mono; [apply send_inv; [done|unfold KCP_PACKET_COUNT, KCP_PACKET_SIZE in *; lia|done|done]|].
  cbn beta. intros st [c' e'] (Hc & Hi' & Hst). wp_step; [|by apply wp_ret].
  wp_step. unfold get_last_errno. wp_step. wp_step; apply wp_ret; (split; [done|]; split; [done|]); [|by left].
  right. split; [done|]. bprop. destruct Hst as [Hst|]; [lia|exfalso; apply Hst|done]. cbn [snd]. unfold EWOULDBLOCK in *.
  match goal with H : (_ || _)%bool = true |- _ => apply orb_true_iff in H as [H|H]; bprop; done end.
Qed.

(** A segment that fits is packed in an empty buffer at once. *)
Lemma label_send_empty fuel pos k c e :
  fits m pos -> Forall (fun d => d <> [] /\ Zlength d <= m) (full k) -> Zlength (full k) <= KCP_PACKET_COUNT ->
  current k = [] -> flush_inv (c, e) ->
  wp (label_send (S fuel) m pos k)
     (fun f s' => s'.1 = c /\ flush_inv s' /\ write_failed (fun k' => cache_ok k' /\ current k' <> []) f) (c, e).
Proof.
  intros Hf Hfull Hidx Hcur Hi. cbn [label_send].
  assert (forall k' s', s'.1 = c -> flush_inv s' -> Forall (fun d => d <> [] /\ Zlength d <= m) (full k') ->
    Zlength (full k') < KCP_PACKET_COUNT -> current k' = [] ->
    wp (match kcp_segment_encode pos (u64 (m - Zlength (current k'))) with
        | inl encoded => if ETHERNET_MTU <? Zlength (current k') + Zlength encoded then undefined
                         else mret (Next (Cache (full k') (current k' ++ encoded)))
        | inr _ => label_send fuel m pos (Cache (full k' ++ [current k']) [])
        end)
       (fun f s' => s'.1 = c /\ flush_inv s' /\ write_failed (fun k' => cache_ok k' /\ current k' <> []) f) s') as Hpack.
  { intros k' s' Hs' Hi' Hfull' Hidx' Hcur'. rewrite Hcur'. change (Zlength (@nil Z)) with 0.
    pose proof Hf as [Hl Hd Hmax]. rewrite Z.sub_0_r, (segment_encode_fits m) by (done || lia || (rewrite u64_small by apply mtu_small; lia)).
    pose proof (Zlength_image m pos Hf ltac:(lia)) as Him.
    destruct (Z.ltb_spec ETHERNET_MTU (0 + Zlength (image pos))); [lia|].
    apply wp_ret. split_and!; [done|done|]. cbn. split; [constructor; cbn; [done|done|lia]|].
    intros E. rewrite E in Him. change (Zlength (@nil Z)) with 0 in Him. unfold KCP_HEADER_SIZE in Him. lia. }
  unfold flow_bind at 1. destruct (Z.leb_spec KCP_PACKET_COUNT (buffer_index k)).
  - apply wp_bind. unfold flow_bind at 1. apply wp_bind.
    eapply wp_mono; [apply send_cache_inv; [done|done| |done]|].
    { intros E. unfold buffer_index in *. rewrite E in *. by vm_compute in Hidx. }
    cbn beta. intros f s' (Hs' & Hi' & Hw).
    destruct f; cbn in Hw; [|by apply wp_ret, wp_ret|done]. do 2 apply wp_ret. by apply Hpack.
  - apply wp_bind, wp_ret. apply Hpack; done.
Qed.

Lemma label_send_inv fuel pos k c e :
  fits m pos -> cache_ok k -> flush_inv (c, e) ->
  wp (label_send (S (S fuel)) m pos k)
     (fun f s' => s'.1 = c /\ flush_inv s' /\ write_failed (fun k' => cache_ok k' /\ current k' <> []) f) (c, e).
Proof.
  intros Hf [Hfull Hidx Hcur] Hi. remember (S fuel) as fuel'. cbn [label_send]. unfold flow_bind at 1.
  destruct (Z.leb_spec KCP_PACKET_COUNT (buffer_index k)); [unfold buffer_index in *; lia|].
  apply wp_bind, wp_ret. pose proof Hf as [Hl Hd Hmax].
  rewrite u64_small by (pose proof (Zlength_nonneg (current k)); pose proof mtu_small; lia).
  destruct (Z.lt_ge_cases (m - Zlength (current k)) (KCP_HEADER_SIZE + sg_len pos)).
  - rewrite (segment_encode_small m) by (done || lia). subst fuel'. apply label_send_empty; [done| | |done|done].
    + apply Forall_app. split; [done|]. constructor; [|constructor]. split; [|done].
      intros E. rewrite E in *. change (Zlength (@nil Z)) with 0 in *. lia.
    + cbn [full]. rewrite Zlength_app, Zlength_cons, Zlength_nil. lia.
  - rewrite (segment_encode_fits m) by (done || lia).
    pose proof (Zlength_image m pos Hf ltac:(lia)) as Him.
    destruct (Z.ltb_spec ETHERNET_MTU (Zlength (current k) + Zlength (image pos))); [lia|].
    apply wp_ret. split_and!; [done|done|]. cbn.
    split; [constructor; cbn; [done|done|rewrite Zlength_app; lia]|].
    intros E. apply app_eq_nil in E as [_ E]. rewrite E in Him. change (Zlength (@nil Z)) with 0 in Him.
    unfold KCP_HEADER_SIZE in Him. lia.
Qed.

(** ** The loop over snd_buf *)

(** What a retransmission decision leaves alone in a segment. *)
Definition segment_view (s : kcp_segment) :=
  (sg_scid s, sg_dcid s, sg_cmd s, sg_frg s, sg_wnd s, sg_ts s, sg_sn s, sg_psn s, sg_una s, sg_len s, sg_data s).

Lemma fits_view s s' : segment_view s' = segment_view s -> fits m s -> fits m s'.
Proof. intros [= _ _ _ _ _ _ _ _ _ Hl Hd] []. constructor; rewrite ?Hl, ?Hd; done. Qed.

Lemma decide_views ts resent rtomin c pos :
  let '(c', pos', _) := decide_segment ts resent rtomin c pos in
  flush_view c' = flush_view c /\ snd_buf c' = snd_buf c /\
  segment_view pos' = segment_view pos.
Proof. unfold decide_segment. repeat case_match; simplify_eq; split_and!; reflexivity. Qed.

Lemma charge_views d pos c :
  flush_view (charge d pos c) = flush_view c /\ snd_buf (charge d pos c) = snd_buf c.
Proof. unfold charge. by case_match. Qed.

Definition local_ok (l : flush_local) : Prop :=
  cache_ok (packets l) /\ (need_flush l = true -> current (packets l) <> []).

(** A step of the loop: on, out of the function, or to the end with a dead
    connection. *)
Definition stepped {A} (Q : A -> kcp_connection -> Prop) (f : flow A) (s : kcp_connection * env) : Prop :=
  match f with
  | Next a => flush_inv s /\ Q a s.1
  | Return code => flush_inv s /\ send_failed code
  | Goto_end => flush_inv_at KCP_STATE_DISCONNECTED s
  end.

Lemma flush_inv_buf st' c e done pos pos' todo :
  snd_buf c = done ++ pos :: todo -> segment_view pos' = segment_view pos ->
  (st' <> KCP_STATE_DISCONNECTED -> sg_xmit pos' <= KCP_RETRANSMISSION_MAX) -> flush_inv_at st' (c, e) ->
  flush_inv_at st' (c <| snd_buf := done ++ pos' :: todo |>, e).
Proof.
  intros Hb Hv Hx (H1 & H2 & H3 & H4 & H5). refine (conj H1 (conj H2 (conj (conj _ _) (conj H4 H5)))); cbn [fst] in *.
  1: change (Forall (fits m) ((done ++ pos' :: todo) ++ snd_queue c)).
  { destruct H3 as [H3 _]. rewrite Hb, !Forall_app, Forall_cons in H3. rewrite !Forall_app, Forall_cons.
    destruct H3 as ((?&?&?)&?). split_and!; try done. by eapply fits_view. }
  destruct H3 as (_ & H3 & Hlim). split.
  2: { intros Hst. specialize (Hlim Hst). rewrite Hb in Hlim. cbn [fst] in Hlim.
       change (Forall limit (done ++ pos' :: todo)). apply Forall_app in Hlim as [? [_ ?]%Forall_cons].
       apply Forall_app. split; [done|]. constructor; [|done]. intros _. by apply Hx. }
  eapply snd_ok_keys; [|exact H3]. unfold snd_keys. cbn [fst].
  change (snd_buf (c <| snd_buf := done ++ pos' :: todo |>)) with (done ++ pos' :: todo).
  rewrite Hb, !map_app. cbn [map]. injection Hv as _ _ _ _ _ _ -> _ _ _ _. done.
Qed.

Lemma flush_segment_inv ts resent rtomin done pos todo l c e :
  snd_buf c = done ++ pos :: todo -> local_ok l -> flush_inv (c, e) ->
  wp (flush_segment ts resent rtomin m done pos todo l)
     (stepped (fun r c' => snd_buf c' = done ++ r.1 :: todo /\ local_ok r.2 /\
                           sg_xmit r.1 <= KCP_RETRANSMISSION_MAX)) (c, e).
Proof.
  intros Hb [Hk Hcur] Hi. unfold flush_segment. wp_step. wp_step.
  pose proof (decide_views ts resent rtomin c pos) as Hv.
  destruct (decide_segment ts resent rtomin c pos) as [[c' pos'] d]. destruct Hv as (Hv & Hb' & Hsv).
  assert (flush_inv (c', e)) as Hi' by by eapply flush_inv_view.
  wp_step. wp_step. wp_step.
  { wp_step. wp_step. apply wp_ret. cbn [stepped].
    pose proof (fun H => flush_inv_buf _ _ _ done pos pos' todo H Hsv (fun Hne => False_ind _ (Hne eq_refl)) (flush_inv_dead _ _ Hi')) as Hdead.
    exact (Hdead (eq_trans Hb' Hb)). }
  bprop. assert (flush_inv (c' <| snd_buf := done ++ pos' :: todo |>, e)) as Hi1.
  { eapply flush_inv_buf; [exact (eq_trans Hb' Hb)|done|done|done]. }
  wp_step; [|apply wp_ret; by split_and!].
  wp_step. wp_step. set (c2 := charge d pos' (c' <| snd_buf := done ++ pos' :: todo |>)).
  destruct (charge_views d pos' (c' <| snd_buf := done ++ pos' :: todo |>)) as (Hv2 & Hb2). fold c2 in Hv2, Hb2.
  assert (flush_inv (c2, e)) as Hi2 by by eapply flush_inv_view.
  assert (fits m pos') as Hf.
  { destruct Hi1 as (_ & _ & (H & _) & _). cbn [fst] in H. change (Forall (fits m) ((done ++ pos' :: todo) ++ snd_queue c')) in H.
    rewrite !Forall_app, Forall_cons in H. by destruct H as ((_&?&_)&_). }
  wp_step. apply wp_gets. unfold pack_fuel. cbn [Nat.mul Nat.add].
  unfold flow_bind. wp_step. eapply wp_mono; [by apply label_send_inv|]. cbn beta.
  intros f [c3 e3] (Hc3 & Hi3 & Hw). cbn [fst] in Hc3. subst c3.
  destruct f as [k| |]; cbn in Hw; apply wp_ret; cbn [stepped]; [|by split|done].
  destruct Hw as [Hk' Hcur']. split; [done|]. cbn [fst snd]. rewrite Hb2. by split_and!.
Qed.

Lemma flush_segments_inv ts resent rtomin done todo l c e :
  snd_buf c = done ++ todo -> local_ok l -> flush_inv (c, e) ->
  Forall (fun s => sg_xmit s <= KCP_RETRANSMISSION_MAX) done ->
  wp (flush_segments ts resent rtomin m done todo l)
     (stepped (fun l' c' => local_ok l' /\ Forall (fun s => sg_xmit s <= KCP_RETRANSMISSION_MAX) (snd_buf c'))) (c, e).
Proof.
  revert done l c e. induction todo as [|pos todo IH]; intros done l c e Hb Hl Hi Hx; cbn [flush_segments].
  { apply wp_ret. split; [done|]. split; [done|]. cbn [fst]. by rewrite Hb, app_nil_r. }
  unfold flow_bind. wp_step. eapply wp_mono; [by apply flush_segment_inv|]. cbn beta.
  intros f [c1 e1] Hf. destruct f as [[pos' l']|code|]; cbn [stepped] in Hf; [|by apply wp_ret|by apply wp_ret].
  destruct Hf as (Hi1 & Hb1 & Hl1 & Hx1). cbn [fst snd] in *. apply IH; [by rewrite Hb1, <- app_assoc|done|done|].
  apply Forall_app. split; [done|]. by constructor.
Qed.

Lemma refill_view c ts : flush_view (refill_credit c ts) = flush_view c /\ snd_buf (refill_credit c ts) = snd_buf c.
Proof. unfold refill_credit. repeat case_match; by split. Qed.

Lemma on_loss_view c :
  flush_view (bbr_on_loss c) = flush_view c /\ snd_buf (bbr_on_loss c) = snd_buf c.
Proof. unfold bbr_on_loss. case_match; by split. Qed.

Lemma flush_rest_inv l c e :
  local_ok l -> flush_inv (c, e) ->
  wp (flush_rest l) (fun f s' => s'.1 = c /\ flush_inv s' /\ write_failed (fun _ => True) f) (c, e).
Proof.
  intros [[Hf Hi Hc] Hne] Hinv. unfold flush_rest. destruct (need_flush l); [|by apply wp_ret].
  apply send_cache_inv; [|rewrite Zlength_app; change (Zlength [current (packets l)]) with 1; lia|by intros [_ ?]%app_eq_nil|done].
  apply Forall_app. split; [done|]. constructor; [|constructor]. split; [by apply Hne|done].
Qed.
End Safe.

(** ** The window *)

(** What the user sent: the fragment and its contents. *)
Definition content (s : kcp_segment) := (sg_frg s, sg_psn s, sg_len s, sg_data s).

Definition fill_static (c : kcp_connection) :=
  (remote_host c, mtu c, snd_una c, rx_minrto c, rx_rto c, state c, k_self c).

(** How many segments the window [w] lets go. *)
Definition fill_count (c : kcp_connection) (q : list kcp_segment) (w : Z) : Z :=
  Z.min (Zlength q) (Z.max 0 (snd_una c + w - snd_nxt c)).

Lemma move_segment_views ts c s q :
  snd_queue c = s :: q -> is_u32 (snd_nxt c + 1) ->
  let c' := move_segment ts c s in
  fill_static c' = fill_static c /\ snd_queue c' = q /\
  snd_buf c' = snd_buf c ++ [numbered_segment c ts s] /\ snd_nxt c' = snd_nxt c + 1 /\
  nsnd_que c' = nsnd_que c - 1 /\ nsnd_buf c' = nsnd_buf c + 1.
Proof.
  intros Hq Hn. cbv zeta. split_and!; try reflexivity.
  - change (tail (snd_queue c) = q). by rewrite Hq.
  - change (u32 (snd_nxt c + 1) = snd_nxt c + 1). by apply u32_small.
Qed.

Lemma fill_snd_buf_spec q w ts c :
  snd_queue c = q -> 0 <= snd_nxt c -> snd_nxt c + Zlength q < 4294967296 ->
  let c' := fill_snd_buf q w ts c in
  let k := fill_count c q w in
  exists new, snd_buf c' = snd_buf c ++ new /\
    map content new = map content (take (Z.to_nat k) q) /\ map sg_sn new = seqZ (snd_nxt c) k /\
    Forall (fun s => sg_xmit s = 0) new /\
    snd_queue c' = drop (Z.to_nat k) q /\ snd_nxt c' = snd_nxt c + k /\
    nsnd_que c' = nsnd_que c - k /\ nsnd_buf c' = nsnd_buf c + k /\ fill_static c' = fill_static c.
Proof.
  cbv zeta. revert c. induction q as [|s q IH]; intros c Hq H0 Hn; cbn [fill_snd_buf].
  { exists []. unfold fill_count. change (Zlength (@nil kcp_segment)) with 0. rewrite Z.min_l by lia.
    rewrite app_nil_r. split_and!; try done; lia. }
  rewrite Zlength_cons in Hn. pose proof (Zlength_nonneg q) as Hz.
  destruct (Z.ltb_spec (snd_nxt c - (snd_una c + w)) 0).
  - destruct (move_segment_views ts c s q Hq ltac:(lia)) as (Hst & Hq' & Hb' & Hn' & Hc1 & Hc2).
    set (c1 := move_segment ts c s) in *. clearbody c1.
    destruct (IH c1 Hq' ltac:(lia) ltac:(lia)) as (new & Hb & Hct & Hsn & Hx & Hqq & Hnn & Hn1 & Hn2 & Hst2).
    assert (fill_count c (s :: q) w = fill_count c1 q w + 1) as Hk.
    { unfold fill_count. rewrite Zlength_cons, Hn'. assert (snd_una c1 = snd_una c) as -> by by injection Hst. lia. }
    assert (0 <= fill_count c1 q w) by (unfold fill_count; lia).
    rewrite Hk. replace (Z.to_nat (fill_count c1 q w + 1)) with (S (Z.to_nat (fill_count c1 q w))) by lia.
    exists (numbered_segment c ts s :: new). split_and!.
    + by rewrite Hb, Hb', <- app_assoc.
    + cbn. by rewrite Hct.
    + rewrite seqZ_cons by lia. cbn [map]. rewrite Hsn, Hn'. replace (fill_count c1 q w + 1 - 1) with (fill_count c1 q w) by lia.
      replace (Z.pred (fill_count c1 q w + 1)) with (fill_count c1 q w) by lia. done.
    + by constructor.
    + done.
    + lia.
    + lia.
    + lia.
    + congruence.
  - assert (fill_count c (s :: q) w = 0) as -> by (unfold fill_count; rewrite Zlength_cons; lia).
    exists []. rewrite app_nil_r. split_and!; try done; try lia.
Qed.

Lemma content_fits max l l' : map content l = map content l' -> Forall (fits max) l' -> Forall (fits max) l.
Proof.
  revert l'. induction l as [|s l IH]; intros [|s' l'] Hc Hf; simplify_eq/=; [constructor|].
  inversion Hf as [|? ? [Hl Hd Hm] Hf']; subst. constructor; [|by eapply IH].
  unfold content in *. simplify_eq. constructor; congruence.
Qed.

Lemma seqZ_bounds a n x : x ∈ seqZ a n -> a <= x < a + n.
Proof. intros Hx. apply elem_of_seqZ in Hx. lia. Qed.

Lemma fill_snd_ok w ts c :
  snd_ok c -> snd_nxt c + Zlength (snd_queue c) < 4294967296 -> snd_ok (fill_snd_buf (snd_queue c) w ts c).
Proof.
  intros Hok Hn. pose proof (snd_una_le_nxt c Hok) as Hle. destruct Hok as [Hs Hb Hu H1 H2 H3 H4 H5 H6].
  destruct (fill_snd_buf_spec (snd_queue c) w ts c eq_refl ltac:(lia) Hn)
    as (new & Hbuf & Hct & Hsn & Hx & Hq & Hnxt & Hc1 & Hc2 & Hst).
  set (c' := fill_snd_buf (snd_queue c) w ts c) in *. clearbody c'.
  set (k := fill_count c (snd_queue c) w) in *.
  assert (0 <= k <= Zlength (snd_queue c)) as Hk by (unfold k, fill_count; pose proof (Zlength_nonneg (snd_queue c)); lia).
  assert (forall s, s ∈ new -> snd_nxt c <= sg_sn s < snd_nxt c + k) as Hnew.
  { intros s Hs'. apply seqZ_bounds. rewrite <- Hsn. apply list_elem_of_In, List.in_map, list_elem_of_In, Hs'. }
  assert (Zlength new = k) as Hlen.
  { unfold Zlength. rewrite <- (length_map sg_sn new), Hsn, length_seqZ. lia. }
  injection Hst as _ _ Hu' Hr1 Hr2 _ _.
  constructor; rewrite ?Hu', ?Hr1, ?Hr2, ?Hnxt, ?Hbuf, ?Hq; try done; try lia.
  - apply ksorted_app. split_and!; [done|apply ksorted_of_keys; rewrite Hsn; apply ksorted_seqZ|].
    intros x y Hx' Hy. rewrite Forall_forall in Hb. specialize (Hb x Hx'). specialize (Hnew y Hy). lia.
  - apply Forall_app. split; [eapply Forall_impl; [done|]; cbn; lia|].
    apply Forall_forall. intros s Hs'. specialize (Hnew s Hs'). lia.
  - destruct (snd_buf c) as [|s l]; [|done]. cbn. destruct new as [|s l].
    + cbn in Hlen. change (Zlength (@nil kcp_segment)) with 0 in Hlen. lia.
    + rewrite seqZ_cons in Hsn by (rewrite Zlength_cons in Hlen; pose proof (Zlength_nonneg l); lia).
      cbn in Hsn. simplify_eq. lia.
  - rewrite Zlength_app. lia.
  - unfold Zlength in *. rewrite length_drop. lia.
Qed.

Section Whole.
Context (r : sockaddr) (m self : Z) (t0 : list event) (mmsg : bool) (fresh : Prop) (Hm : KCP_HEADER_SIZE <= m <= ETHERNET_MTU).
Context (cst : kcp_connection_state).
Notation flush_inv := (flush_inv_at r m self t0 mmsg fresh cst).

Lemma fill_inv w ts c e :
  flush_inv (c, e) -> flush_inv (fill_snd_buf (snd_queue c) w ts c, e).
Proof.
  intros ((H1&H2&H3)&(H4&H5)&(H6&H7&Hlim)&H8). cbn [fst] in *.
  pose proof (fill_snd_ok w ts c H7 H5) as Hok'.
  destruct (fill_snd_buf_spec (snd_queue c) w ts c eq_refl) as (new & Hb & Hct & _ & Hx0 & Hq & Hn & _ & _ & Hst).
  { pose proof (ok_snd_nxt _ H7). lia. }
  { done. }
  set (k := fill_count _ _ _) in *. set (c' := fill_snd_buf _ _ _ _) in *. clearbody c'.
  assert (0 <= k <= Zlength (snd_queue c)) as Hk by (unfold k, fill_count; pose proof (Zlength_nonneg (snd_queue c)); lia).
  injection Hst as ? ? _ _ _ ? ?. unfold flush_inv_at. cbn [fst]. split; [split_and!; congruence|].
  split; [split; [congruence|]|split; [split; [|split; [done|]]|done]].
  - rewrite Hn, Hq. unfold Zlength in *. rewrite length_drop. lia.
  - rewrite Forall_app in H6. destruct H6 as [Hf1 Hf2]. rewrite Hb, Hq, !Forall_app. split_and!; [done| |by apply Forall_drop].
    eapply content_fits; [exact Hct|]. by apply Forall_take.
  - intros Hcst. rewrite Hb. apply Forall_app. split; [by apply Hlim|]. eapply Forall_impl; [exact Hx0|].
    intros s Hs _. cbn in Hs. rewrite Hs. done.
Qed.

Definition limited (c : kcp_connection) : Prop :=
  Forall (fun s => sg_xmit s <= KCP_RETRANSMISSION_MAX) (snd_buf c).

Lemma flush_data_inv ts c e :
  flush_inv (c, e) ->
  wp (flush_data ts) (stepped r m self t0 mmsg fresh cst (fun _ c' => limited c')) (c, e).
Proof.
  intros Hi. unfold flush_data. do 5 wp_step.
  set (c1 := fill_snd_buf _ _ _ _). assert (flush_inv (c1, e)) as Hi1 by by apply fill_inv.
  do 3 wp_step. destruct (refill_view c1 ts) as [Hv1 Hb1].
  set (c2 := refill_credit c1 ts) in *.
  assert (flush_inv (c2, e)) as Hi2 by by eapply flush_inv_view.
  unfold flow_bind at 1. wp_step.
  replace (mtu c2) with m by by destruct Hi2 as (_&[? _]&_).
  eapply wp_mono; [apply (flush_segments_inv r m self t0 mmsg fresh Hm cst); [done| |done|constructor]|].
  { split; [|done]. constructor; cbn; [constructor|done|]. change (Zlength (@nil Z)) with 0. unfold KCP_HEADER_SIZE in *. lia. }
  cbn beta. intros f [c3 e3] Hf. destruct f as [l|code|]; cbn [stepped] in Hf; [|by apply wp_ret..].
  destruct Hf as (Hi3 & Hl & Hx). unfold flow_bind at 1. wp_step.
  eapply wp_mono; [apply (flush_rest_inv r m self t0 mmsg fresh cst); done|].
  cbn beta. intros f [c4 e4] (Hc4 & Hi4 & Hw). cbn [fst] in *. subst c4.
  destruct f as [[]|code|]; cbn in Hw; [|by apply wp_ret|done].
  do 6 wp_step. apply wp_ret. cbn [stepped fst].
  set (c5 := if packet_lost l then _ else _).
  assert (flush_view c5 = flush_view c3 /\ snd_buf c5 = snd_buf c3) as [Hv5 Hb5].
  { unfold c5. destruct (packet_lost l); [apply on_loss_view|done]. }
  clearbody c5. match goal with |- flush_inv (set_field ts_flush _ ?x, _) /\ _ => set (c6 := x) end.
  assert (flush_view c6 = flush_view c5 /\ snd_buf c6 = snd_buf c5) as [Hv6 Hb6].
  { unfold c6. by destruct (_ <? _). }
  clearbody c6. split; [eapply flush_inv_view, Hi4; by rewrite <- Hv5, <- Hv6|].
  unfold limited. change (Forall (fun s => sg_xmit s <= KCP_RETRANSMISSION_MAX) (snd_buf c6)). by rewrite Hb6, Hb5.
Qed.

(** The three ends of the flush. *)
Definition flush_post (res : option Z) (s : kcp_connection * env) : Prop :=
  match res with
  | None => cst = KCP_STATE_CONNECTED /\ flush_inv s /\ limited s.1
  | Some code =>
      (code = NO_ERROR \/ send_failed mmsg code) /\ flush_inv s \/
      code = NO_ERROR /\ cst = KCP_STATE_CONNECTED /\
      exists why, (why = KEEPALIVE_ERROR \/ why = TOO_MANY_RETRANS) /\ dead_with r m self t0 mmsg fresh why s
  end.

Lemma flush_wp ts c e : flush_inv (c, e) -> wp (flush ts) flush_post (c, e).
Proof.
  intros Hi. unfold flush. wp_step. wp_step.
  assert (state c = cst) as Hst by by destruct Hi as ((_&?&_)&_).
  destruct (bool_decide_reflect (state c = KCP_STATE_CONNECTED)) as [Hc|Hc]; cbn [negb]; [|apply wp_ret; left; auto].
  wp_step; [apply wp_ret; left; auto|]. wp_step. eapply wp_mono; [by apply flush_control_inv|].
  cbn beta. intros dead [c1 e1] H1. destruct (dead =? 0); cbn [negb]; cbn match.
  - wp_step. eapply wp_mono; [by apply flush_data_inv|]. cbn beta. intros f [c2 e2] H2.
    destruct f as [[]|code|]; cbn [stepped] in H2.
    + apply wp_ret. cbn. split; [congruence|done].
    + destruct H2 as [H2 Hc2]. apply wp_ret. left. auto.
    + unfold flush_done. wp_step. wp_step. wp_step. wp_step. pose proof H2 as ((_&Hd&_)&_). cbn [fst] in Hd.
      wp_step; [|rewrite bool_decide_eq_false in *; done].
      wp_step. wp_step. wp_step. right. split_and!; [done|congruence|]. exists TOO_MANY_RETRANS. split; [by right|].
      by apply dead_event.
  - apply wp_ret. right. split_and!; [done|congruence|]. exists KEEPALIVE_ERROR. auto.
Qed.
End Whole.

(** ** Safety and the limit of retransmissions *)

(** What the flush needs of the connection and its environment. *)
Record flush_ready (c : kcp_connection) (e : env) : Prop := {
  ready_mtu : KCP_HEADER_SIZE <= mtu c <= ETHERNET_MTU;
  ready_fits : Forall (fits (mtu c)) (snd_buf c ++ snd_queue c);
  ready_ok : snd_ok c;
  ready_room : snd_nxt c + Zlength (snd_queue c) < 4294967296;
  ready_memory : memory_available e;
}.

Lemma ready_inv c e :
  flush_ready c e -> flush_inv_at (remote_host c) (mtu c) (k_self c) (e_trace e) (e_sendmmsg e) (limited c) (state c) (c, e).
Proof.
  intros []. unfold flush_inv_at. cbn [fst snd]. split_and!; try done.
  - intros _. apply Forall_forall. intros s Hs Hl. by apply (proj1 (Forall_forall _ _) Hl).
  - exists []. by rewrite app_nil_r.
Qed.

Lemma inv_ready r m self t0 mmsg fresh st c e :
  KCP_HEADER_SIZE <= m <= ETHERNET_MTU -> flush_inv_at r m self t0 mmsg fresh st (c, e) ->
  flush_ready c e /\ remote_host c = r /\ mtu c = m /\ k_self c = self /\ state c = st /\ e_sendmmsg e = mmsg /\
  exists evs, e_trace e = t0 ++ evs /\ Forall (event_fits r m) evs.
Proof.
  intros Hm ((H1&H2&H3)&(H4&H5)&(H6&H7&_)&(H8&Hb)&H9). cbn [fst snd] in *. split_and!; try done.
  constructor; rewrite ?H4; done.
Qed.

(** C16: Whatever the kernel answers to each datagram, with memory
    available the periodic send ends, in the build with [sendmmsg] and in the one
    without; every datagram it sends goes to the peer and fits the MTU of the
    connection, and the connection is left ready for the next one: its queues are well
    formed and no segment has outgrown the MTU.  The result is NO_ERROR, WRITE_ERROR
    or, of the build with [sendmmsg] alone, OP_TRY_AGAIN: without it a full socket
    buffer is answered by the number of datagrams it took, and is no error. *)
Theorem flush_safe (c : kcp_connection) (e : env) (timestamp : Z) :
  flush_ready c e ->
  exists res c' e' evs,
    flush timestamp (c, e) = Some (res, (c', e')) /\
    (res = None \/ res = Some NO_ERROR \/ res = Some WRITE_ERROR \/ res = Some OP_TRY_AGAIN /\ e_sendmmsg e = true) /\
    flush_ready c' e' /\ remote_host c' = remote_host c /\ mtu c' = mtu c /\
    e_trace e' = e_trace e ++ evs /\
    (forall remote data, Datagram remote data ∈ evs -> remote = remote_host c /\ Zlength data <= mtu c).
Proof.
  intros Hr. pose proof (ready_mtu _ _ Hr) as Hm.
  destruct (wp_elim _ _ _ (flush_wp _ _ _ _ _ _ Hm _ timestamp c e (ready_inv c e Hr))) as (res & [c' e'] & Hrun & Hp).
  assert (exists st, flush_inv_at (remote_host c) (mtu c) (k_self c) (e_trace e) (e_sendmmsg e) (limited c) st (c', e')) as [st Hi].
  { destruct res; cbn in Hp; [|eexists; by destruct Hp as (_&?&_)].
    destruct Hp as [[_ ?]|(_&_&?&_&?&_)]; by eexists. }
  destruct (inv_ready _ _ _ _ _ _ _ _ _ Hm Hi) as (? & ? & ? & _ & _ & _ & evs & ? & Hf).
  exists res, c', e', evs. split_and!; try done.
  - destruct res as [code|]; [right|by left]. destruct Hp as [[[->|[->|[-> ?]]] _]|(->&_)]; auto.
  - intros remote data Hin. rewrite Forall_forall in Hf. by specialize (Hf _ Hin).
Qed.

(** C25: No segment is retransmitted for ever.  When the periodic send of a connected
    peer goes through, every segment in flight has been sent at most
    KCP_RETRANSMISSION_MAX times; however it ends, either the connection stays
    connected and no segment in flight has passed that limit, if none had before, or
    it is DISCONNECTED, the send returns NO_ERROR and the user has been told last, of
    KEEPALIVE_ERROR or TOO_MANY_RETRANS. *)
Theorem flush_retransmission_limit (c : kcp_connection) (e : env) (timestamp : Z) :
  flush_ready c e -> state c = KCP_STATE_CONNECTED ->
  exists res c' e', flush timestamp (c, e) = Some (res, (c', e')) /\
    (res = None -> Forall (fun s => sg_xmit s <= KCP_RETRANSMISSION_MAX) (snd_buf c')) /\
    (state c' = KCP_STATE_CONNECTED /\
       (Forall (fun s => sg_xmit s <= KCP_RETRANSMISSION_MAX) (snd_buf c) ->
        Forall (fun s => sg_xmit s <= KCP_RETRANSMISSION_MAX) (snd_buf c')) \/
     state c' = KCP_STATE_DISCONNECTED /\ res = Some NO_ERROR /\
     exists code t, (code = KEEPALIVE_ERROR \/ code = TOO_MANY_RETRANS) /\
       e_trace e' = t ++ [OnError (Some (k_self c)) code]).
Proof.
  intros Hr Hst. pose proof (ready_mtu _ _ Hr) as Hm.
  destruct (wp_elim _ _ _ (flush_wp _ _ _ _ _ _ Hm _ timestamp c e (ready_inv c e Hr))) as (res & [c' e'] & Hrun & Hp).
  assert (forall l, Forall (limit (limited c)) l -> limited c -> Forall (fun s => sg_xmit s <= KCP_RETRANSMISSION_MAX) l) as Hlim.
  { intros l Hl Hc. eapply Forall_impl; [exact Hl|]. intros s Hs. by apply Hs. }
  exists res, c', e'. split; [done|]. destruct res as [code|]; cbn in Hp.
  - split; [done|]. destruct Hp as [[_ ((_&?&_)&_&(_&_&Hl)&_)]|(->&_&why&Hw&((_&?&_)&_)&t&Ht)]; cbn [fst snd] in *.
    + left. split; [congruence|]. apply Hlim, Hl. congruence.
    + right. split_and!; [done|done|]. by exists why, t.
  - destruct Hp as (_ & ((_&?&_)&_) & Hl). cbn [fst] in *. split; [done|]. left. split; [congruence|done].
Qed.

(** C24: The move of [snd_queue] into [snd_buf] takes the front of
    the queue, as many segments as the window lets go, numbers them consecutively
    from [snd_nxt] and leaves their data and their order alone: what is in flight
    never passes [snd_una] + the least of the send, the peer's and (unless
    [nocwnd]) the congestion window, and the queue is held back only when it is
    full. *)
Theorem flush_window_fifo (c : kcp_connection) (timestamp : Z) :
  snd_ok c -> snd_nxt c + Zlength (snd_queue c) < 4294967296 ->
  let w := send_window c in
  let c' := fill_snd_buf (snd_queue c) w timestamp c in
  exists new rest, snd_queue c = new ++ rest /\ snd_queue c' = rest /\ snd_ok c' /\
    (exists sent, snd_buf c' = snd_buf c ++ sent /\ map content sent = map content new /\
       map sg_sn sent = seqZ (snd_nxt c) (Zlength new)) /\
    snd_nxt c' <= Z.max (snd_nxt c) (snd_una c + w) /\ snd_una c' = snd_una c /\
    (rest <> [] -> snd_una c + w <= snd_nxt c') /\
    w <= snd_wnd c /\ w <= rmt_wnd c /\ (nocwnd c = 0 -> w <= cwnd c).
Proof.
  intros Hok Hn. cbv zeta. pose proof (fill_snd_ok (send_window c) timestamp c Hok Hn) as Hok'.
  destruct (fill_snd_buf_spec (snd_queue c) (send_window c) timestamp c eq_refl)
    as (new & Hbuf & Hct & Hsn & _ & Hq & Hnxt & _ & _ & Hst).
  { pose proof (ok_snd_nxt _ Hok). lia. }
  { done. }
  set (c' := fill_snd_buf _ _ _ _) in *. clearbody c'. pose proof (Zlength_nonneg (snd_queue c)) as Hz.
  set (k := fill_count c (snd_queue c) (send_window c)) in *.
  assert (0 <= k <= Zlength (snd_queue c)) as Hk by (unfold k, fill_count; lia).
  exists (take (Z.to_nat k) (snd_queue c)), (drop (Z.to_nat k) (snd_queue c)).
  rewrite take_drop. split_and!; try done.
  - exists new. split_and!; [done|done|]. rewrite Hsn. f_equal. unfold Zlength in *. rewrite length_take. lia.
  - rewrite Hnxt. unfold k, fill_count. lia.
  - by injection Hst.
  - intros Hr. rewrite Hnxt. unfold k, fill_count in *. destruct (Z.le_gt_cases (Zlength (snd_queue c)) k); [|lia].
    destruct Hr. apply drop_ge. unfold Zlength in *. unfold k, fill_count in *. lia.
  - unfold send_window, MIN. repeat case_match; bprop; lia.
  - unfold send_window, MIN. repeat case_match; bprop; lia.
  - intros Hnc. unfold send_window, MIN. rewrite Hnc. cbn. repeat case_match; bprop; lia.
Qed.

(** ** At a concrete connection *)

(** Three segments in flight and two queued. *)
Definition flush_example : kcp_connection :=
  snd_example <| mtu := 80 |> <| rmt_wnd := 4 |> <| nocwnd := 1 |>
    <| snd_queue := [push_segment 0 1 [1; 2]; push_segment 0 0 [3]] |> <| nsnd_que := 2 |>
    <| bbr / bbr_pacing_credit := 10 |> <| bbr / bbr_last_send_ts := 2000000 |>.

Lemma flush_example_ready : flush_ready flush_example quiet.
Proof.
  constructor; [vm_compute; split; discriminate| |constructor; vm_compute; try done; repeat constructor; done|done|constructor].
  repeat constructor; vm_compute; discriminate.
Qed.

(** The first datagram of the data meets a full socket buffer: with [sendmmsg] the
    send is to be tried again, without it the batch is lost. *)
Lemma flush_safe_witness :
  (exists c' e',
     flush 2000000 (flush_example, quiet <| e_send := [Sent; Failed EAGAIN] |>) = Some (Some OP_TRY_AGAIN, (c', e')) /\
     flush_ready c' e' /\ mtu c' = 80) /\
  exists res c' e',
    flush 2000000 (flush_example, quiet <| e_send := [Sent; Failed EAGAIN] |> <| e_sendmmsg := false |>) = Some (res, (c', e')) /\
    (res = None \/ res = Some NO_ERROR \/ res = Some WRITE_ERROR) /\ flush_ready c' e' /\ mtu c' = 80.
Proof.
  split.
  - destruct (flush_safe flush_example (quiet <| e_send := [Sent; Failed EAGAIN] |>) 2000000)
      as (res & c' & e' & evs & Hrun & _ & Hr & _ & Hm & _).
    + destruct flush_example_ready. by constructor.
    + exists c', e'. split; [|split; [exact Hr|exact Hm]]. rewrite Hrun. clear Hr Hm. vm_compute in Hrun. by simplify_eq.
  - destruct (flush_safe flush_example (quiet <| e_send := [Sent; Failed EAGAIN] |> <| e_sendmmsg := false |>) 2000000)
      as (res & c' & e' & evs & Hrun & Hres & Hr & _ & Hm & _).
    + destruct flush_example_ready. by constructor.
    + exists res, c', e'. split_and!; [exact Hrun| |exact Hr|exact Hm].
      destruct Hres as [H|[H|[H|[_ H]]]]; [by left|right; by left|right; by right|discriminate H].
Defined.

(** The oldest segment has been sent as often as allowed, and is due again. *)
Definition exhausted_example : kcp_connection :=
  flush_example <| snd_buf := map (fun sn => (push_segment sn 0 [1; 2; 3]) <| sg_xmit := KCP_RETRANSMISSION_MAX |>) [5; 6; 7] |>.

Lemma flush_retransmission_limit_witness :
  exists res c' e', flush 2000000 (exhausted_example, quiet) = Some (res, (c', e')) /\
    state c' = KCP_STATE_DISCONNECTED /\ res = Some NO_ERROR /\
    exists code t, (code = KEEPALIVE_ERROR \/ code = TOO_MANY_RETRANS) /\
      e_trace e' = t ++ [OnError (Some 0) code].
Proof.
  destruct (flush_retransmission_limit exhausted_example quiet 2000000) as (res & c' & e' & Hrun & _ & Hend).
  - constructor; [vm_compute; split; discriminate| |constructor; vm_compute; try done; repeat constructor; done|done|constructor].
    repeat constructor; vm_compute; discriminate.
  - reflexivity.
  - exists res, c', e'. split; [exact Hrun|]. destruct Hend as [[_ Hlim]|Hend]; [exfalso|exact Hend].
    vm_compute in Hrun. injection Hrun as _ <- _.
    specialize (Hlim ltac:(repeat constructor; vm_compute; discriminate)). by inversion Hlim.
Defined.

(** A window of four: one of the two queued segments goes. *)
Lemma flush_window_fifo_witness :
  exists sent, snd_buf (fill_snd_buf (snd_queue flush_example) 4 2000000 flush_example) =
      snd_buf flush_example ++ sent /\ map sg_sn sent = [8] /\
    snd_nxt (fill_snd_buf (snd_queue flush_example) 4 2000000 flush_example) <= 9.
Proof.
  destruct (flush_window_fifo flush_example 2000000) as (new & rest & Hq & Hrest & _ & (sent & Hb & _ & Hsn) & Hn & _).
  - apply (ready_ok _ _ flush_example_ready).
  - reflexivity.
  - exists sent. split; [exact Hb|]. split; [|exact Hn]. vm_compute in Hrest. subst rest.
    destruct new as [|s1 [|s2 new]]; [discriminate| |].
    + exact Hsn.
    + apply (f_equal length) in Hq. rewrite length_app in Hq. cbn in Hq. lia.
Defined.
