(* ===== verification/FlushPack.v ===== *)
(** * FlushPack: the datagrams of the periodic send

    Against a kernel that accepts, the loop over [snd_buf] with its cache of 32
    buffers, its retries at [label_send] and its last send comes to a greedy packing
    of the segments that are due ([flush_data_packing]). *)

From S2P Require Import Prelude RbTree Bytes Xxhash Config Wire Types World Net Bbr Snd Flush FlushSpec.

(** ** The reference packing *)

(** [l] in datagrams of at most [max] bytes, [cur] the one being filled: the next
    item goes in it when it fits. *)
Fixpoint pack (max : Z) (cur : bytes) (l : list bytes) : list bytes :=
  match l with
  | [] => match cur with [] => [] | _ => [cur] end
  | b :: l => if Zlength cur + Zlength b <=? max then pack max (cur ++ b) l else cur :: pack max b l
  end.

Lemma concat_pack max cur l : List.concat (pack max cur l) = cur ++ List.concat l.
Proof.
  revert cur. induction l as [|b l IH]; intros cur; cbn [pack].
  - destruct cur; cbn; [done|by rewrite !app_nil_r].
  - destruct (_ <=? max); cbn; rewrite IH; [by rewrite <- app_assoc|done].
Qed.

Lemma pack_bound max cur l :
  Zlength cur <= max -> Forall (fun b => Zlength b <= max) l -> Forall (fun d => Zlength d <= max) (pack max cur l).
Proof.
  intros Hc Hl. revert cur Hc. induction Hl as [|b l Hb _ IH]; intros cur Hc; cbn [pack].
  - destruct cur; by repeat constructor.
  - destruct (Z.leb_spec (Zlength cur + Zlength b) max); [apply IH; rewrite Zlength_app; lia|].
    constructor; [done|by apply IH].
Qed.

(** No item is split. *)
Lemma pack_nonempty max cur l :
  Forall (fun b => b <> [] /\ Zlength b <= max) l -> Forall (fun d => d <> []) (pack max cur l).
Proof.
  intros Hl. revert cur. induction Hl as [|b l [Hb Hm] _ IH]; intros cur; cbn [pack].
  { destruct cur; by repeat constructor. }
  destruct (Z.leb_spec (Zlength cur + Zlength b) max); [apply IH|].
  constructor; [|apply IH]. intros ->. change (Zlength (@nil Z)) with 0 in *. lia.
Qed.

Lemma pack_groups max cur l :
  cur <> [] -> Forall (fun b => b <> []) l ->
  exists hd groups, pack max cur l = (cur ++ List.concat hd) :: map (@List.concat Z) groups /\
                    hd ++ List.concat groups = l.
Proof.
  intros Hc Hl. revert cur Hc. induction Hl as [|b l Hb Hl IH]; intros cur Hc; cbn [pack].
  - exists [], []. cbn. rewrite app_nil_r. by destruct cur.
  - destruct (Zlength cur + Zlength b <=? max).
    + destruct (IH (cur ++ b)) as (hd & gs & -> & <-).
      { intros E. by apply app_eq_nil in E as [-> _]. }
      exists (b :: hd), gs. split; [cbn [List.concat]; by rewrite <- app_assoc|done].
    + destruct (IH b Hb) as (hd & gs & -> & <-). exists [], ((b :: hd) :: gs).
      split; [by rewrite app_nil_r|done].
Qed.

Lemma pack_whole max l :
  Forall (fun b => b <> [] /\ Zlength b <= max) l ->
  exists groups, pack max [] l = map (@List.concat Z) groups /\ List.concat groups = l.
Proof.
  intros Hl. destruct Hl as [|b l [Hb Hm] Hl]; [by exists []|]. cbn [pack].
  change (Zlength (@nil Z)) with 0. destruct (Z.leb_spec (0 + Zlength b) max); [|lia].
  change ([] ++ b) with b. destruct (pack_groups max b l Hb) as (hd & gs & -> & <-); [by eapply Forall_impl; [exact Hl|intros ? []]|].
  by exists ((b :: hd) :: gs).
Qed.

(** ** A kernel that accepts *)

Definition accepting (e : env) : Prop := e_send e = [].

(** The trace grew by the datagrams [l], nothing else. *)
Definition sent_to (r : sockaddr) (l : list bytes) (e e' : env) : Prop :=
  e' = e <| e_trace ::= (fun t => t ++ datagrams r l) |>.

Lemma sent_nil r e : sent_to r [] e e.
Proof. unfold sent_to. destruct e; cbn. unfold set_field; cbn. by rewrite app_nil_r. Qed.

Lemma sent_trans r l l' e1 e2 e3 : sent_to r l e1 e2 -> sent_to r l' e2 e3 -> sent_to r (l ++ l') e1 e3.
Proof.
  unfold sent_to, datagrams. intros -> ->. rewrite map_app. destruct e1; unfold set_field; cbn.
  by rewrite app_assoc.
Qed.

Lemma sent_accepting r l e e' : sent_to r l e e' -> accepting e -> accepting e'.
Proof. unfold accepting. by intros ->. Qed.

Lemma send_loop_accepting {X} r data k (x : X) e :
  accepting e -> Forall (fun d => d <> []) data ->
  exists e', send_loop r data k (x, e) = Some (k + Zlength data, (x, e')) /\ sent_to r data e e'.
Proof.
  intros He Hd. revert k e He. induction Hd as [|d data Hne _ IH]; intros k e He; cbn [send_loop].
  { exists e. split; [change (Zlength (@nil bytes)) with 0; by rewrite Z.add_0_r|apply sent_nil]. }
  set (e1 := e <| e_trace ::= (fun t => t ++ [Datagram r d]) |>).
  assert (sendmsg r d (x, e) = Some (Zlength d, (x, e1))) as Hs.
  { unfold sendmsg, accepting in *. rewrite He. cbn. unfold e1. destruct e; cbn in *. by subst. }
  rewrite (bind_eq _ _ _ _ _ Hs). destruct (Z.leb_spec (Zlength d) 0) as [Hz|_].
  { destruct d; [done|]. rewrite Zlength_cons in Hz. pose proof (Zlength_nonneg d). lia. }
  destruct (IH (k + 1) e1) as (e2 & -> & Ht); [done|]. exists e2. rewrite Zlength_cons.
  split; [do 2 f_equal; lia|]. change (d :: data) with ([d] ++ data). by eapply (sent_trans _ _ _ e e1).
Qed.

Lemma sendmsg_accepting {X} r d (x : X) e :
  accepting e -> exists e', sendmsg r d (x, e) = Some (Zlength d, (x, e')) /\ sent_to r [d] e e'.
Proof.
  intros He. unfold sendmsg, accepting in *. rewrite He. cbn [retry_interrupted]. eexists. split; [done|].
  unfold sent_to. destruct e; cbn in *. by subst.
Qed.

Lemma sendmmsg_rest_accepting {X} r data k (x : X) e :
  accepting e -> exists e', sendmmsg_rest r data k (x, e) = Some (k + Zlength data, (x, e')) /\ sent_to r data e e'.
Proof.
  revert k e. induction data as [|d data IH]; intros k e He; cbn [sendmmsg_rest].
  { exists e. split; [change (Zlength (@nil bytes)) with 0; by rewrite Z.add_0_r|apply sent_nil]. }
  unfold accepting in *. rewrite He. cbn [next].
  match goal with |- context[sendmmsg_rest _ _ _ (x, ?e0)] => set (e1 := e0) end.
  destruct (IH (k + 1) e1) as (e2 & -> & Ht); [done|]. exists e2. rewrite Zlength_cons.
  split; [do 2 f_equal; lia|]. change (d :: data) with ([d] ++ data). eapply (sent_trans _ _ _ e e1); [|done].
  unfold sent_to, e1. destruct e; cbn in *. by subst.
Qed.

(** A batch that the kernel accepts, in either build. *)
Lemma batch_accepting {X} r data (x : X) e :
  accepting e -> Forall (fun d => d <> []) data -> Zlength data <= KCP_PACKET_SIZE -> data <> [] ->
  exists e', kcp_send_packet_raw_impl r data (x, e) = Some (Zlength data, (x, e')) /\ sent_to r data e e'.
Proof.
  intros He Hd Hn Hne. unfold kcp_send_packet_raw_impl. destruct (Z.ltb_spec KCP_PACKET_SIZE (Zlength data)); [lia|].
  rewrite (bind_eq _ _ _ (e_sendmmsg e) (x, e)) by done. destruct (e_sendmmsg e).
  - destruct data as [|d data]; [done|]. inversion Hd; subst. cbn [sendmmsg].
    destruct (sendmsg_accepting r d x e He) as (e1 & Hs & Ht1).
    destruct (sendmmsg_rest_accepting r data 1 x e1) as (e2 & Hr & Ht2); [by eapply sent_accepting|].
    exists e2. split; [|by eapply (sent_trans _ [d] data)].
    rewrite bind_assoc, (bind_eq _ _ _ _ _ Hs). pose proof (Zlength_nonneg d). pose proof (Zlength_nonneg data).
    destruct (Z.ltb_spec (Zlength d) 0); [lia|]. rewrite (bind_eq _ _ _ _ _ Hr).
    destruct (Z.leb_spec (1 + Zlength data) 0); [lia|]. rewrite Zlength_cons. unfold mret, ST_ret. repeat f_equal; lia.
  - destruct (send_loop_accepting r data 0 x e He Hd) as (e' & -> & Ht). by exists e'.
Qed.

Lemma send_cache_accepting l c e :
  accepting e -> Forall (fun d => d <> []) l -> Zlength l <= KCP_PACKET_SIZE -> l <> [] ->
  exists e', send_cache l (c, e) = Some (Next tt, (c, e')) /\ sent_to (remote_host c) l e e'.
Proof.
  intros He Hl Hn Hne. destruct (batch_accepting (remote_host c) l c e He Hl Hn Hne) as (e' & Hs & Ht).
  exists e'. split; [|done]. unfold send_cache. rewrite (bind_eq _ _ _ c (c, e)) by done.
  unfold kcp_send_packet, kcp_send_packet_raw. rewrite (bind_eq _ _ _ _ _ Hs).
  pose proof (Zlength_nonneg l). by destruct (Z.ltb_spec (Zlength l) 0); [lia|].
Qed.

(** ** The loop *)

Section Packing.
Context (r : sockaddr) (m ts resent rtomin : Z) (Hm : KCP_HEADER_SIZE <= m <= ETHERNET_MTU).

(** What [k] holds and what will follow it. *)
Definition to_send (k : cache) (rest : list bytes) : list bytes := full k ++ pack m (current k) rest.

Lemma image_spec pos : fits m pos -> image pos <> [] /\ Zlength (image pos) = KCP_HEADER_SIZE + sg_len pos.
Proof.
  intros Hf. pose proof (Zlength_image m pos Hf ltac:(lia)) as Hl. split; [|done].
  intros E. rewrite E in Hl. pose proof (fits_len _ _ Hf). change (Zlength (@nil Z)) with 0 in Hl.
  unfold KCP_HEADER_SIZE in Hl. lia.
Qed.

(** One packing step with what has gone out already. *)
Definition packed (pos : kcp_segment) (k : cache) (e : env) (k' : cache) (e' : env) : Prop :=
  exists sent, sent_to r sent e e' /\ cache_ok m k' /\ current k' <> [] /\
    forall rest, to_send k (image pos :: rest) = sent ++ to_send k' rest.

Lemma label_send_accepting fuel pos k c e :
  accepting e -> fits m pos -> cache_ok m k -> remote_host c = r ->
  exists k' e', label_send (S (S fuel)) m pos k (c, e) = Some (Next k', (c, e')) /\ packed pos k e k' e'.
Proof.
  intros He Hf [Hfull Hidx Hcur] Hr. destruct (image_spec pos Hf) as [Hne Him].
  pose proof Hf as [Hl Hd Hmax]. pose proof (Zlength_nonneg (current k)) as Hz.
  remember (S fuel) as fuel' eqn:Efuel. cbn [label_send]. unfold flow_bind at 1.
  destruct (Z.leb_spec KCP_PACKET_COUNT (buffer_index k)); [unfold buffer_index in *; lia|].
  rewrite (bind_eq _ _ _ (Next k) (c, e)) by done.
  rewrite u64_small by (unfold KCP_HEADER_SIZE, ETHERNET_MTU in *; lia).
  destruct (Z.lt_ge_cases (m - Zlength (current k)) (KCP_HEADER_SIZE + sg_len pos)) as [Hc|Hc].
  - rewrite (segment_encode_small m) by (done || lia). subst fuel'. cbn [label_send].
    assert (current k <> []) as Hck by (intros E; rewrite E in Hc; change (Zlength (@nil Z)) with 0 in Hc; lia).
    assert (forall rest, to_send k (image pos :: rest) = (full k ++ [current k]) ++ pack m (image pos) rest) as Hts.
    { intros rest. unfold to_send. cbn [pack]. destruct (Z.leb_spec (Zlength (current k) + Zlength (image pos)) m); [lia|].
      by rewrite <- app_assoc. }
    assert (kcp_segment_encode pos (u64 (m - 0)) = inl (image pos)) as Henc.
    { rewrite Z.sub_0_r, u64_small by (unfold KCP_HEADER_SIZE, ETHERNET_MTU in *; lia). by apply (segment_encode_fits m); [|lia..]. }
    unfold flow_bind at 1. unfold buffer_index. cbn [full current].
    destruct (Z.leb_spec KCP_PACKET_COUNT (Zlength (full k ++ [current k]))) as [Hfull'|Hfull'].
    + destruct (send_cache_accepting (full k ++ [current k]) c e He) as (e1 & Hs & Ht).
      { apply Forall_app. split; [by eapply Forall_impl; [done|intros ? []]|by constructor]. }
      { rewrite Zlength_app. change (Zlength [current k]) with 1. unfold KCP_PACKET_COUNT, KCP_PACKET_SIZE in *. lia. }
      { by intros [_ ?]%app_eq_nil. }
      unfold flow_bind at 1. rewrite bind_assoc, (bind_eq _ _ _ _ _ Hs).
      rewrite (bind_eq _ _ _ (Next (Cache [] [])) (c, e1)) by done. cbn [full current].
      change (Zlength (@nil Z)) with 0. rewrite Henc. destruct (Z.ltb_spec ETHERNET_MTU (0 + Zlength (image pos))); [lia|].
      eexists _, e1. split; [done|]. exists (full k ++ [current k]). rewrite <- Hr. split_and!; [done| |done|].
      * constructor; cbn; [done|done|lia].
      * intros rest. by rewrite Hts.
    + rewrite (bind_eq _ _ _ (Next (Cache (full k ++ [current k]) [])) (c, e)) by done. cbn [full current].
      change (Zlength (@nil Z)) with 0. rewrite Henc. destruct (Z.ltb_spec ETHERNET_MTU (0 + Zlength (image pos))); [lia|].
      eexists _, e. split; [done|]. exists []. split_and!; [apply sent_nil| |done|done].
      constructor; cbn; [|lia|lia]. apply Forall_app. split; [done|]. by repeat constructor.
  - rewrite (segment_encode_fits m) by (done || lia).
    destruct (Z.ltb_spec ETHERNET_MTU (Zlength (current k) + Zlength (image pos))); [lia|].
    eexists _, e. split; [done|]. exists []. split_and!; [apply sent_nil| | |].
    + constructor; cbn; [done|done|rewrite Zlength_app; lia].
    + cbn. intros E. by apply app_eq_nil in E as [_ E].
    + intros rest. unfold to_send. cbn [pack full current].
      by destruct (Z.leb_spec (Zlength (current k) + Zlength (image pos)) m); [|lia].
Qed.

(** The segments the decisions select, and the connection after them: the loop
    without the packing. *)
Fixpoint due (before todo : list kcp_segment) (c : kcp_connection) : kcp_connection * list kcp_segment :=
  match todo with
  | [] => (c, [])
  | pos :: todo =>
      let '(c, pos, d) := decide_segment ts resent rtomin c pos in
      let c := c <| snd_buf := before ++ pos :: todo |> in
      if need_send d
      then let r := due (before ++ [pos]) todo (charge d pos c) in (r.1, pos :: r.2)
      else due (before ++ [pos]) todo c
  end.

(** A segment that may be sent once more. *)
Definition sendable (s : kcp_segment) : Prop := 0 <= sg_xmit s < KCP_RETRANSMISSION_MAX.

Lemma decide_xmit c pos :
  sendable pos -> let '(_, pos', _) := decide_segment ts resent rtomin c pos in sg_xmit pos' <= KCP_RETRANSMISSION_MAX.
Proof.
  unfold sendable, KCP_RETRANSMISSION_MAX. intros Hx. unfold decide_segment.
  repeat case_match; simplify_eq; cbn; rewrite ?u32_small; lia.
Qed.

Lemma flush_segments_accepting before todo l c e :
  accepting e -> remote_host c = r -> Forall (fun s => fits m s /\ sendable s) todo -> local_ok m l ->
  let '(c', sent_segments) := due before todo c in
  exists l' e' sent,
    flush_segments ts resent rtomin m before todo l (c, e) = Some (Next l', (c', e')) /\
    sent_to r sent e e' /\ local_ok m l' /\ remote_host c' = r /\
    to_send (packets l) (map image sent_segments) = sent ++ to_send (packets l') [] /\
    (sent_segments = [] -> packets l' = packets l) /\
    need_flush l' = (need_flush l || negb (bool_decide (sent_segments = []))).
Proof.
  intros He Hr Hf Hl. revert before l c e He Hr Hl. induction Hf as [|pos todo [Hf Hx] _ IH]; intros before l c e He Hr Hl.
  { cbn. exists l, e, []. split_and!; try done; [apply sent_nil|]. by rewrite orb_false_r. }
  cbn [due flush_segments]. unfold flow_bind at 1. unfold flush_segment.
  pose proof (decide_views ts resent rtomin c pos) as Hv. pose proof (decide_xmit c pos Hx) as Hmax.
  rewrite bind_assoc, (bind_eq _ _ _ c (c, e)) by done.
  destruct (decide_segment ts resent rtomin c pos) as [[c1 pos1] d]. destruct Hv as (Hv & _ & Hsv).
  rewrite bind_assoc. set (c2 := c1 <| snd_buf := before ++ pos1 :: todo |>).
  rewrite (bind_eq _ _ _ tt (c2, e)) by done.
  destruct (Z.ltb_spec KCP_RETRANSMISSION_MAX (sg_xmit pos1)); [lia|].
  assert (remote_host c2 = r) as Hr2.
  { change (remote_host c1 = r). rewrite <- Hr. by injection Hv. }
  destruct (need_send d).
  - set (c3 := charge d pos1 c2). assert (remote_host c3 = r) as Hr3.
    { destruct (charge_views d pos1 c2) as [Hv3 _]. fold c3 in Hv3. rewrite <- Hr2. by injection Hv3. }
    rewrite bind_assoc, (bind_eq _ _ _ tt (c3, e)) by done.
    rewrite bind_assoc, (bind_eq _ _ _ (pack_fuel e) (c3, e)) by done.
    assert (exists f, pack_fuel e = S (S f)) as [f ->].
    { exists (pack_fuel e - 2)%nat. unfold pack_fuel. lia. }
    unfold flow_bind at 1.
    destruct (label_send_accepting f pos1 (packets l) c3 e He)
      as (k & e1 & Hs & sent & Ht & Hk & Hc & Hp); [by eapply fits_view|by destruct Hl|done|].
    rewrite bind_assoc.
    rewrite (bind_eq _ _ _ _ _ Hs).
    set (l1 := FlushLocal true _ k). rewrite (bind_eq _ _ _ (Next (pos1, l1)) (c3, e1)) by done.
    specialize (IH (before ++ [pos1]) l1 c3 e1 (sent_accepting _ _ _ _ Ht He) Hr3 ltac:(by split)).
    destruct (due (before ++ [pos1]) todo c3) as [c' segs]. cbn [fst snd].
    destruct IH as (l' & e' & sent' & Hrun & Ht' & Hl' & Hr' & Hp' & _ & Hn').
    exists l', e', (sent ++ sent'). split_and!; try done; [by eapply sent_trans| |].
    + cbn [map]. rewrite Hp. rewrite <- app_assoc. f_equal. exact Hp'.
    + rewrite Hn'. by rewrite orb_true_r.
  - set (l1 := FlushLocal (need_flush l) _ (packets l)).
    rewrite (bind_eq _ _ _ (Next (pos1, l1)) (c2, e)) by done.
    specialize (IH (before ++ [pos1]) l1 c2 e He Hr2 ltac:(destruct Hl; by split)).
    by destruct (due (before ++ [pos1]) todo c2) as [c' segs].
Qed.
End Packing.

(** ** The whole send of the data *)

(** The connection [flush_data] decides on: the window is filled and the pacing
    credit renewed. *)
Definition before_decisions (ts : Z) (c : kcp_connection) : kcp_connection :=
  refill_credit (fill_snd_buf (snd_queue c) (send_window c) ts c) ts.

Definition due_now (ts : Z) (c : kcp_connection) : list kcp_segment :=
  let c1 := before_decisions ts c in
  (due ts (resent_of c1) (rtomin_of c1) [] (snd_buf c1) c1).2.

Lemma before_decisions_facts ts c e :
  flush_ready c e -> Forall sendable (snd_buf c) ->
  let c1 := before_decisions ts c in
  remote_host c1 = remote_host c /\ mtu c1 = mtu c /\ Forall (fun s => fits (mtu c) s /\ sendable s) (snd_buf c1) /\
  resent_of (fill_snd_buf (snd_queue c) (send_window c) ts c) = resent_of c1 /\
  rtomin_of (fill_snd_buf (snd_queue c) (send_window c) ts c) = rtomin_of c1.
Proof.
  intros Hr Hx. cbv zeta. unfold before_decisions.
  destruct (fill_snd_buf_spec (snd_queue c) (send_window c) ts c eq_refl) as (new & Hb & Hct & _ & Hnx & _ & _ & _ & _ & Hst).
  { pose proof (ok_snd_nxt _ (ready_ok _ _ Hr)). lia. }
  { apply (ready_room _ _ Hr). }
  pose proof (ready_fits _ _ Hr) as Hf.
  set (c0 := fill_snd_buf _ _ _ _) in *. clearbody c0. destruct (refill_view c0 ts) as [Hv Hb1].
  assert (resent_of c0 = resent_of (refill_credit c0 ts) /\ rtomin_of c0 = rtomin_of (refill_credit c0 ts)) as [H1 H2].
  { unfold refill_credit. repeat case_match; by split. }
  injection Hst as ? ? _ _ _ _ _. split_and!; try done.
  - transitivity (remote_host c0); [by injection Hv|done].
  - transitivity (mtu c0); [by injection Hv|done].
  - rewrite Hb1, Hb. apply Forall_and. apply Forall_app in Hf as [Hf1 Hf2].
    split; apply Forall_app; split; [done| |done|].
    + eapply content_fits; [exact Hct|]. by apply Forall_take.
    + eapply Forall_impl; [exact Hnx|]. unfold sendable. intros s ->. done.
Qed.

(** The last send takes what the loop left in the cache. *)
Lemma flush_rest_accepting m l c e items sent :
  accepting e -> local_ok m l ->
  to_send m (Cache [] []) items = sent ++ to_send m (packets l) [] ->
  (need_flush l = false -> packets l = Cache [] []) ->
  exists e', flush_rest l (c, e) = Some (Next tt, (c, e')) /\
    exists rest, sent_to (remote_host c) rest e e' /\ pack m [] items = sent ++ rest.
Proof.
  intros He [[Hfull Hidx Hcur] Hne] Hp Hnil. unfold flush_rest, to_send in *. cbn [full current app] in Hp.
  destruct (need_flush l).
  - destruct (send_cache_accepting (full (packets l) ++ [current (packets l)]) c e He) as (e' & Hs & Ht).
    { apply Forall_app. split; [by eapply Forall_impl; [exact Hfull|intros ? []]|]. constructor; [by apply Hne|constructor]. }
    { rewrite Zlength_app. change (Zlength [current (packets l)]) with 1. unfold KCP_PACKET_COUNT, KCP_PACKET_SIZE in *. lia. }
    { by intros [_ ?]%app_eq_nil. }
    exists e'. split; [done|]. eexists. split; [exact Ht|]. rewrite Hp. cbn [pack].
    destruct (current (packets l)); [by specialize (Hne eq_refl)|done].
  - exists e. split; [done|]. exists []. split; [apply sent_nil|]. by rewrite Hp, Hnil.
Qed.

Lemma due_fits max ts resent rtomin before todo c :
  Forall (fits max) todo -> forall s, s ∈ (due ts resent rtomin before todo c).2 -> fits max s.
Proof.
  intros Hf. revert before c. induction Hf as [|pos todo Hpos _ IH]; intros before c s; cbn [due].
  { intros Hs. by apply elem_of_nil in Hs. }
  pose proof (decide_views ts resent rtomin c pos) as Hv.
  destruct (decide_segment ts resent rtomin c pos) as [[c1 pos1] d]. destruct Hv as (_ & _ & Hsv).
  destruct (need_send d); [|by apply IH]. cbn [snd]. intros [->|Hs]%elem_of_cons; [by eapply fits_view|by eapply IH].
Qed.

(** The connection once its data is sent: the loop's, with the window raised to
    four packets and the next flush planned. *)
Definition sent_view (c : kcp_connection) :=
  (flush_view c, mss c, rcv_nxt c, scid c, dcid c, psn_nxt c, read_event_cb c, rcv_queue c).

Lemma flush_data_run (c : kcp_connection) (e : env) (timestamp : Z) :
  flush_ready c e -> accepting e -> Forall sendable (snd_buf c) ->
  let c1 := before_decisions timestamp c in
  let c2 := (due timestamp (resent_of c1) (rtomin_of c1) [] (snd_buf c1) c1).1 in
  exists c' e', flush_data timestamp (c, e) = Some (Next tt, (c', e')) /\ sent_view c' = sent_view c2 /\
    let sent := pack (mtu c) [] (map image (due_now timestamp c)) in
    sent_to (remote_host c) sent e e' /\
    Forall (fun d => Zlength d <= mtu c) sent /\ Forall (fun d => d <> []) sent /\
    exists groups, sent = map (@List.concat Z) groups /\ List.concat groups = map image (due_now timestamp c).
Proof.
  intros Hr He Hx. cbv zeta. pose proof (ready_mtu _ _ Hr) as Hm. unfold due_now.
  destruct (before_decisions_facts timestamp c e Hr Hx) as (Hrh & Hmtu & Hf & Hre & Hrt).
  set (c1 := before_decisions timestamp c) in *.
  pose proof (flush_segments_accepting (remote_host c) (mtu c) timestamp (resent_of c1) (rtomin_of c1) Hm
    [] (snd_buf c1) (FlushLocal false false (Cache [] [])) c1 e He Hrh Hf) as Hloop.
  assert (forall ss, (forall s, s ∈ ss -> fits (mtu c) s) ->
    Forall (fun b : bytes => b <> [] /\ Zlength b <= mtu c) (map image ss)) as Himg.
  { intros ss Hss. apply Forall_map, Forall_forall. intros s Hs. specialize (Hss s Hs).
    destruct (image_spec (mtu c) Hm s Hss) as [? Hl]. cbn. split; [done|]. rewrite Hl. apply (fits_max _ _ Hss). }
  pose proof (due_fits (mtu c) timestamp (resent_of c1) (rtomin_of c1) [] (snd_buf c1) c1) as Hdue.
  destruct (due _ _ _ _ _ _) as [c2 segs]. cbn [snd] in *.
  destruct Hloop as (l & e2 & sent & Hrun & Ht & Hl & Hr2 & Hp & Hnil & Hneed).
  { split; [|done]. constructor; cbn; [constructor|done|]. change (Zlength (@nil Z)) with 0. unfold KCP_HEADER_SIZE in Hm. lia. }
  assert (Forall (fun b : bytes => b <> [] /\ Zlength b <= mtu c) (map image segs)) as Hsegs.
  { apply Himg, Hdue. eapply Forall_impl; [exact Hf|]. by intros s []. }
  destruct (flush_rest_accepting (mtu c) l c2 e2 (map image segs) sent) as (e3 & Hrest & rest & Ht3 & Hpack);
    [by eapply sent_accepting|done|done|intros Hn|].
  { cbn in Hneed. rewrite Hn in Hneed. symmetry in Hneed. apply negb_false_iff, bool_decide_eq_true in Hneed.
    by rewrite (Hnil Hneed). }
  rewrite Hr2 in Ht3. pose proof (sent_trans _ _ _ _ _ _ Ht Ht3) as Hall.
  rewrite <- Hpack in Hall.
  unfold flush_data.
  rewrite (bind_eq _ _ _ tt (fill_snd_buf (snd_queue c) (send_window c) timestamp c, e)) by done.
  rewrite (bind_eq _ _ _ (fill_snd_buf (snd_queue c) (send_window c) timestamp c)
             (fill_snd_buf (snd_queue c) (send_window c) timestamp c, e)) by done. cbn zeta.
  rewrite (bind_eq _ _ _ tt (c1, e)) by done. rewrite (bind_eq _ _ _ c1 (c1, e)) by done.
  rewrite Hre, Hrt, Hmtu. unfold flow_bind at 1. rewrite (bind_eq _ _ _ _ _ Hrun).
  unfold flow_bind at 1. rewrite (bind_eq _ _ _ _ _ Hrest).
  eexists _, e3. split; [reflexivity|]. cbv zeta. split_and!.
  - unfold bbr_on_loss. repeat case_match; reflexivity.
  - done.
  - apply pack_bound; [change (Zlength (@nil Z)) with 0; unfold KCP_HEADER_SIZE in Hm; lia|].
    eapply Forall_impl; [exact Hsegs|]. by intros ? [].
  - by apply pack_nonempty.
  - by apply pack_whole.
Qed.

(** C13: With a kernel that accepts, what the send of the data puts
    on the wire is the greedy packing, in datagrams of at most the MTU, of the
    encodings of the segments the decisions select, in the order of [snd_buf]:
    no segment is lost, split or reordered, whatever the number of datagrams and
    the number of times the cache of 32 buffers was emptied on the way. *)
Theorem flush_data_packing (c : kcp_connection) (e : env) (timestamp : Z) :
  flush_ready c e -> accepting e -> Forall sendable (snd_buf c) ->
  exists c' e', flush_data timestamp (c, e) = Some (Next tt, (c', e')) /\
    let sent := pack (mtu c) [] (map image (due_now timestamp c)) in
    e_trace e' = e_trace e ++ datagrams (remote_host c) sent /\
    Forall (fun d => Zlength d <= mtu c) sent /\
    exists groups, sent = map (@List.concat Z) groups /\ List.concat groups = map image (due_now timestamp c).
Proof.
  intros Hr He Hx. destruct (flush_data_run c e timestamp Hr He Hx) as (c' & e' & Hrun & _ & Ht & Hs & _ & Hg).
  exists c', e'. split; [exact Hrun|]. split; [by rewrite Ht|]. split; [exact Hs|exact Hg].
Qed.

(** Two datagrams for the three segments in flight, one more fits the window but
    not the pacing credit. *)
Lemma flush_data_packing_witness :
  exists c' e', flush_data 2000000 (flush_example, quiet) = Some (Next tt, (c', e')) /\
    length (pack 80 [] (map image (due_now 2000000 flush_example))) = 2%nat /\
    e_trace e' = e_trace quiet ++ datagrams (remote_host flush_example)
      (pack (mtu flush_example) [] (map image (due_now 2000000 flush_example))).
Proof.
  destruct (flush_data_packing flush_example quiet 2000000) as (c' & e' & Hrun & Ht & _).
  - apply flush_example_ready.
  - reflexivity.
  - repeat constructor; vm_compute; done.
  - exists c', e'. split; [exact Hrun|]. split; [vm_compute; reflexivity|exact Ht].
Defined.
