(* ===== verification/Mtu.v ===== *)
(** * Mtu: kcp_mtu.c

    The sizes derived from an interface's MTU and the search of the path MTU: a
    probe of the middle size is sent, an acknowledgement that carries the hash of
    its contents raises the lower bound, a time out lowers the upper one.  What the
    ICMP handlers do to a connection is here; their search of the connection is in
    the file of the context. *)

From S2P Require Import Prelude RbTree Bytes Xxhash Config Wire Types World Net.

(** ** Sizes *)

Definition GRE_HEADER_SIZE : Z := 24.
Definition PPPOE_HEADER_SIZE : Z := 8.
Definition MPPE_HEADER_SIZE : Z := 2.
Definition FUDGE_HEADER_SIZE : Z := 36.

Definition UDP_IPV4_MTU : Z :=
  ETHERNET_MTU - IPV4_HEADER_SIZE - UDP_HEADER_SIZE - GRE_HEADER_SIZE - PPPOE_HEADER_SIZE
  - MPPE_HEADER_SIZE - FUDGE_HEADER_SIZE.
Definition UDP_IPV6_MTU : Z :=
  ETHERNET_MTU - IPV6_HEADER_SIZE - UDP_HEADER_SIZE - GRE_HEADER_SIZE - PPPOE_HEADER_SIZE
  - MPPE_HEADER_SIZE - FUDGE_HEADER_SIZE.

Definition kcp_get_min_mtu (ipv6 : bool) : Z :=
  if ipv6 then ETHERNET_MTU_V6_MIN - IPV6_HEADER_SIZE - UDP_HEADER_SIZE
  else ETHERNET_MTU_V4_MIN - IPV4_HEADER_SIZE - UDP_HEADER_SIZE.

Definition kcp_get_mtu (ipv6 : bool) : Z := if ipv6 then UDP_IPV6_MTU else UDP_IPV4_MTU.

Definition kcp_get_mtu_by_param (mtu : Z) (ipv6 : bool) : Z :=
  if ipv6 then
    mtu - IPV6_HEADER_SIZE - UDP_HEADER_SIZE - GRE_HEADER_SIZE - PPPOE_HEADER_SIZE
    - MPPE_HEADER_SIZE - FUDGE_HEADER_SIZE
  else
    mtu - IPV4_HEADER_SIZE - UDP_HEADER_SIZE - GRE_HEADER_SIZE - PPPOE_HEADER_SIZE
    - MPPE_HEADER_SIZE - FUDGE_HEADER_SIZE.

Definition kcp_get_localhost_mss (ipv6 : bool) : Z :=
  if ipv6 then LOCALHOST_MTU - IPV6_HEADER_SIZE - UDP_HEADER_SIZE
  else LOCALHOST_MTU - IPV4_HEADER_SIZE - UDP_HEADER_SIZE.

(** ** The probe *)

(** The bytes of the IP and UDP headers in front of a datagram to the peer. *)
Definition udp_overhead (c : kcp_connection) : Z :=
  (if is_inet6 (remote_host c) then IPV6_HEADER_SIZE else IPV4_HEADER_SIZE) + UDP_HEADER_SIZE.

(** [on_probe_completed], of kcp_protocol.c. *)
Definition on_mtu_probe_completed (mtu_ code : Z) : io kcp_connection unit :=
  if code =? NO_ERROR then
    c ← get;
    if mtu_ <? mtu c then emit (OnError (Some (k_self c)) MTU_REDUCTION)
    else
      mods (fun c => c <| mtu := u32 (mtu_ - udp_overhead c) |>);;
      mods (fun c => c <| mss := u32 (mtu c - KCP_HEADER_SIZE) |>)
  else mret tt.

(** The header written over the first bytes of [probe_buf], the command or-ed into
    what they held. *)
Definition probe_image (c : kcp_connection) (ts sn len : Z) (buf : bytes) : bytes :=
  le_split 2 (scid c) ++ le_split 2 (dcid c) ++ [Z.lor (nth 4 buf 0) KCP_CMD_MTU_PROBE] ++ [0] ++
  le_split 2 0 ++ body_bytes (packet_data ts sn 0 0 len []) ++ drop 32 buf.

Definition probe_count (p : mtu_probe_ctx) : Z := if mtu_retries p <? 2 then mtu_retries p else 1.

(** One turn of the loop: [Some] of the size refused with EMSGSIZE.  A size the
    buffer does not hold is hashed out of bounds. *)
Definition send_mtu_probe : io kcp_connection (option Z) :=
  c ← get;
  let p := mtu_probe c in
  let mtu_current := u32 (mtu_lbound p + mtu_ubound p) / 2 in
  let data_length := mtu_current - udp_overhead c in
  ts ← kcp_time_monotonic_us;
  let sn := u32 ts in
  if (data_length <? 0) || (ETHERNET_MTU <? data_length) then undefined
  else
    let hash := XXH64 (take (Z.to_nat data_length) (drop 32 (probe_buf p))) 0 in
    let buf := probe_image c ts sn data_length (probe_buf p) in
    mods (fun c => c <| mtu_probe / mtu_prev_sn := sn |> <| mtu_probe / mtu_hash := hash |>
                     <| mtu_probe / probe_buf := buf |>);;
    let count := probe_count p in
    status ← kcp_send_packet c (replicate (Z.to_nat count) (take (Z.to_nat (KCP_HEADER_SIZE + data_length)) buf));
    if status =? count then mret None
    else
      code ← get_last_errno;
      if code =? EMSGSIZE then mret (Some mtu_current) else mret None.

(** [while (true)]: the upper bound is lowered until the kernel takes the probe, or fails
    it with another error; [fuel] is the number of turns.  The code does not bound them:
    a loop that is cut short is undefined. *)
Fixpoint send_mtu_probe_loop (fuel : nat) : io kcp_connection unit :=
  match fuel with
  | O => undefined
  | S fuel =>
      refused ← send_mtu_probe;
      match refused with
      | None => mret tt
      | Some mtu_current =>
          mods (fun c => c <| mtu_probe / mtu_ubound := u32 (mtu_current - 1) |>);;
          send_mtu_probe_loop fuel
      end
  end.

(** The answers of the environment refuse finitely many sizes, and the default accepts
    the next: this many turns are enough for them ([kcp_send_mtu_probe_packet_refused]). *)
Definition kcp_send_mtu_probe_packet : io kcp_connection unit :=
  fuel ← gets (fun s => S (length (e_send s.2)));
  send_mtu_probe_loop fuel.

Definition kcp_mtu_probe (timeout retry : Z) : io kcp_connection Z :=
  c ← get;
  when (timeout =? 0) (signed [2 * rx_srtt c]);;
  let timeout := if timeout =? 0 then u32 (2 * rx_srtt c) else timeout in
  mods (fun c => c <| mtu_probe / mtu_lbound := mtu_current (mtu_probe c) |>
                   <| mtu_probe / mtu_ubound := ETHERNET_MTU |>
                   <| mtu_probe / mtu_timeout := timeout |> <| mtu_probe / mtu_retries := retry |>);;
  ev ← (if bool_decide (probe_timeout_event (mtu_probe c) = timer_null) then evtimer_new
        else mret (probe_timeout_event (mtu_probe c)));
  mods (fun c => c <| mtu_probe / probe_timeout_event := ev |>);;
  if bool_decide (ev = timer_null) then mret NO_MEMORY
  else
    ev ← event_del ev;
    mods (fun c => c <| mtu_probe / probe_timeout_event := ev |>);;
    kcp_send_mtu_probe_packet;;
    ev ← evtimer_add ev timeout;
    mods (fun c => c <| mtu_probe / probe_timeout_event := ev |>);;
    mret 0.

(** ** The search *)

Definition mtu_probe_update : io kcp_connection unit :=
  c ← get;
  assertion (mtu_lbound (mtu_probe c) <=? mtu_ubound (mtu_probe c)) kcp_mtu_c_264;;
  mods (fun c => c <| mtu_probe / mtu_current := u32 (mtu_lbound (mtu_probe c) + mtu_ubound (mtu_probe c)) / 2 |>);;
  c ← get;
  let p := mtu_probe c in
  if u32 (mtu_ubound p - mtu_lbound p) <=? 16 then
    mods (fun c => c <| mtu_probe / mtu_current := mtu_lbound p |> <| mtu_probe / mtu_ubound := mtu_lbound p |>);;
    ev ← event_del (probe_timeout_event p);
    mods (fun c => c <| mtu_probe / probe_timeout_event := ev |>);;
    on_mtu_probe_completed (mtu_lbound p) NO_ERROR
  else
    kcp_mtu_probe (mtu_timeout p) (mtu_retries p);; mret tt.

Definition kcp_mtu_probe_timeout_cb : io kcp_connection unit :=
  mods (fun c => c <| mtu_probe / mtu_ubound ::= (fun n => u32 (n - 1)) |>);;
  mtu_probe_update.

(** The answer to a probe; its buffer of 40 bytes is not initialised. *)
Definition kcp_mtu_probe_received (kcp_header : kcp_proto_header) (timestamp : Z) : io kcp_connection Z :=
  match h_data kcp_header with
  | packet_data _ sn _ _ len data =>
      let hash := XXH64 (take (Z.to_nat len) data) 0 in
      let mtu_ack_header := KcpProtoHeader (h_dcid kcp_header) (h_scid kcp_header) KCP_CMD_MTU_ACK 0 0 0
                              (packet_data timestamp sn 0 0 8 (le_split 8 hash)) [] in
      buffer ← uninitialised 40;
      encoded ← deref (kcp_proto_header_encode mtu_ack_header buffer);
      c ← get;
      kcp_send_packet c [encoded.2];;
      mret NO_ERROR
  | _ => undefined
  end.

(** Eight bytes of the packet are read whatever its length. *)
Definition kcp_mtu_ack_received (kcp_header : kcp_proto_header) (timestamp : Z) : io kcp_connection Z :=
  match h_data kcp_header with
  | packet_data _ sn _ _ _ data =>
      c ← get;
      let p := mtu_probe c in
      if negb (sn =? mtu_prev_sn p) then mret NO_ERROR
      else if Zlength data <? 8 then undefined
      else
        let hash := le_combine (take 8 data) in
        if negb (hash =? mtu_hash p) then mret NO_ERROR
        else if mtu_ubound p <=? mtu_lbound p then
          on_mtu_probe_completed (mtu_current p) NO_ERROR;; mret NO_ERROR
        else
          mods (fun c => c <| mtu_probe / mtu_lbound := u32 (mtu_current p + 1) |>);;
          mtu_probe_update;;
          mret NO_ERROR
  | _ => undefined
  end.

(** [kcp_process_icmp_fragmentation], on the connection it has found. *)
Definition process_icmp_fragmentation (next_hop_mtu : Z) : io kcp_connection unit :=
  if (576 <=? next_hop_mtu) && (next_hop_mtu <? 0x2000) then
    mods (fun c => c <| mtu_probe / mtu_ubound ::= MIN next_hop_mtu |>);;
    mtu_probe_update;;
    mods (fun c => c <| mtu_probe / mtu_current := mtu_ubound (mtu_probe c) |>)
  else
    mods (fun c => c <| mtu_probe / mtu_ubound := u32 (mtu_lbound (mtu_probe c) + mtu_ubound (mtu_probe c)) / 2 |>);;
    mtu_probe_update.

(** The tail of [kcp_process_icmp_unreach] and [kcp_process_icmp_error]: with several
    candidates to connect to, one that is out of reach is not an error. *)
Definition process_icmp_failure (code : Z) : io kcp_connection unit :=
  c ← get;
  if bool_decide (state c = KCP_STATE_SYN_SENT) && (1 <? Zlength (candidates c)) then mret tt
  else
    mods (fun c => c <| state := KCP_STATE_DISCONNECTED |>);;
    emit (OnError (Some (k_self c)) code).
