(* ===== verification/MtuSpec.v ===== *)
(** * MtuSpec: the search of the path MTU

    The loop that sends a probe: it halves the sizes until the kernel takes one, and
    has no end of its own ([kcp_send_mtu_probe_packet_refused]); the search ends with the same sizes whether
    its probes are answered or not ([mtu_search_blind], [mtu_search_unanswered]). *)

From S2P Require Import Prelude RbTree Bytes Xxhash Config Wire Types World Net Snd Flush FlushSpec FlushPack Mtu.

(** ** One probe *)

(** The sizes a probe may have: [probe_buf] holds it, and its length is not negative. *)
Definition sizes_ok (c : kcp_connection) : Prop :=
  50 <= mtu_lbound (mtu_probe c) /\ mtu_lbound (mtu_probe c) - 2 <= mtu_ubound (mtu_probe c) <= ETHERNET_MTU /\
  mtu_lbound (mtu_probe c) <= ETHERNET_MTU.

(** The number of probes asked for.  With [sendmmsg] a batch of none is an error of
    the send, and [errno] is that of an earlier call. *)
Definition retries_ok (mmsg : bool) (n : Z) : Prop := 0 <= n /\ (mmsg = true -> 0 < n).

Lemma udp_overhead_bounds c : 28 <= udp_overhead c <= 48.
Proof. unfold udp_overhead, IPV6_HEADER_SIZE, IPV4_HEADER_SIZE, UDP_HEADER_SIZE. case_match; lia. Qed.

(** What the sending of a probe leaves alone. *)
Definition probe_view (c : kcp_connection) :=
  (remote_host c, k_self c, state c, mtu c, mss c, (mtu_current (mtu_probe c), mtu_lbound (mtu_probe c), mtu_ubound (mtu_probe c),
   mtu_timeout (mtu_probe c), mtu_retries (mtu_probe c), probe_timeout_event (mtu_probe c))).

Lemma retry_interrupted_shorter l :
  let '(r, l') := retry_interrupted l in
  (length l' <= length l)%nat /\ (r <> Sent -> (length l' < length l)%nat).
Proof.
  induction l as [|[|errno] l IH]; cbn [retry_interrupted]; [done|cbn; split; [lia|done]|].
  destruct (errno =? EINTR); [|cbn; split; [lia|intros; lia]].
  destruct (retry_interrupted l) as [r l']. destruct IH as [H1 H2]. cbn. split; [lia|]. intros Hr. specialize (H2 Hr). lia.
Qed.

(** What a batch of one buffer answers when the kernel refuses it. *)
Definition refused_code (mmsg : bool) (errno : Z) : Z :=
  if mmsg then WRITE_ERROR
  else if (errno =? EAGAIN) || (errno =? EWOULDBLOCK) then 0
  else if errno =? EMSGSIZE then PACKET_TOO_LARGE else WRITE_ERROR.

Lemma refused_code_not_1 mmsg errno : refused_code mmsg errno <> 1.
Proof. unfold refused_code. by repeat case_match. Qed.

Lemma raw_single {X} remote d (x : X) e :
  d <> [] ->
  kcp_send_packet_raw_impl remote [d] (x, e) =
  match retry_interrupted (e_send e) with
  | (Sent, l) => Some (1, (x, e <| e_send := l |> <| e_trace ::= (fun t => t ++ [Datagram remote d]) |>))
  | (Failed errno, l) => Some (refused_code (e_sendmmsg e) errno, (x, e <| e_send := l |> <| e_errno := errno |>))
  end.
Proof.
  intros Hd. assert (0 < Zlength d) as Hz by (destruct d; [done|rewrite Zlength_cons; pose proof (Zlength_nonneg d); lia]).
  unfold kcp_send_packet_raw_impl. change (KCP_PACKET_SIZE <? Zlength [d]) with false. cbn match.
  rewrite (bind_eq _ _ _ (e_sendmmsg e) (x, e)) by done. unfold refused_code.
  destruct (e_sendmmsg e); cbn [sendmmsg send_loop]; unfold sendmsg, mbind, ST_bind;
    destruct (retry_interrupted (e_send e)) as [[|errno] l].
  - destruct (Z.ltb_spec (Zlength d) 0); [lia|done].
  - done.
  - destruct (Z.leb_spec (Zlength d) 0); [lia|done].
  - change (-1 <=? 0) with true. unfold get_last_errno, gets. cbn. by repeat case_match.
Qed.

Lemma clock_us_run {X} (x : X) e :
  exists ts e', kcp_time_monotonic_us (x, e) = Some (ts, (x, e')) /\ same_io e e' /\ e_sendmmsg e' = e_sendmmsg e.
Proof.
  unfold kcp_time_monotonic_us, clock_gettime, mbind, ST_bind. destruct (next 0 (e_ticks e)). by eexists _, _.
Qed.

(** The probe that is out has a hash. *)
Definition hashed (c : kcp_connection) : Prop := is_u64 (mtu_hash (mtu_probe c)).

(** The middle of the bounds, where the next probe goes. *)
Definition middle (c : kcp_connection) : Z := (mtu_lbound (mtu_probe c) + mtu_ubound (mtu_probe c)) / 2.

Lemma middle_bounds c : sizes_ok c -> 49 <= middle c <= ETHERNET_MTU.
Proof. intros (Hl & Hu & Hl'). unfold middle, ETHERNET_MTU in *. zlia. Qed.

(** One turn up to its send: the probe of the middle size is written and hashed. *)
Lemma send_mtu_probe_starts c e :
  sizes_ok c ->
  exists c1 e1 d, probe_view c1 = probe_view c /\ hashed c1 /\ same_io e e1 /\ e_sendmmsg e1 = e_sendmmsg e /\ d <> [] /\
    Zlength d <= KCP_HEADER_SIZE + (middle c - udp_overhead c) /\
    send_mtu_probe (c, e) =
      (status ← kcp_send_packet c1 (replicate (Z.to_nat (probe_count (mtu_probe c))) d);
       if status =? probe_count (mtu_probe c) then mret None
       else
         code ← get_last_errno;
         if code =? EMSGSIZE then mret (Some (middle c)) else mret None) (c1, e1).
Proof.
  intros Hs. pose proof (middle_bounds c Hs) as Hb. pose proof (udp_overhead_bounds c) as Ho. destruct Hs as (Hl & Hu & Hl').
  unfold send_mtu_probe. rewrite (bind_eq _ _ _ c (c, e)) by done. cbv zeta.
  assert (u32 (mtu_lbound (mtu_probe c) + mtu_ubound (mtu_probe c)) / 2 = middle c) as ->.
  { unfold ETHERNET_MTU in *. by rewrite u32_small by lia. }
  set (size := middle c) in *. clearbody size. unfold ETHERNET_MTU in Hb.
  destruct (clock_us_run c e) as (ts & e1 & Hc & He1 & Hm1). rewrite (bind_eq _ _ _ _ _ Hc).
  destruct (Z.ltb_spec (size - udp_overhead c) 0); [lia|]. destruct (Z.ltb_spec ETHERNET_MTU (size - udp_overhead c));
    [unfold ETHERNET_MTU in *; lia|]. cbn [orb].
  match goal with |- context[mods ?g] => rewrite (bind_eq _ _ _ tt (g c, e1)) by done; set (c1 := g c) end.
  match goal with |- context[replicate _ ?x] => exists c1, e1, x end.
  split_and!; [done|apply XXH64_u64|done|done| | |done].
  - intros E. apply (f_equal length) in E. unfold probe_image, KCP_HEADER_SIZE in E.
    destruct (Z.to_nat (32 + (size - udp_overhead c))) eqn:En; [lia|]. done.
  - unfold Zlength. rewrite length_take. unfold KCP_HEADER_SIZE. lia.
Qed.

Lemma probe_count_one p : 0 < mtu_retries p -> probe_count p = 1.
Proof. unfold probe_count. destruct (Z.ltb_spec (mtu_retries p) 2); lia. Qed.

(** One turn: the size that is refused, if one is, was met by an answer. *)
Lemma send_mtu_probe_run c e :
  sizes_ok c -> retries_ok (e_sendmmsg e) (mtu_retries (mtu_probe c)) ->
  exists refused c' e', send_mtu_probe (c, e) = Some (refused, (c', e')) /\ probe_view c' = probe_view c /\
    e_sendmmsg e' = e_sendmmsg e /\ (length (e_send e') <= length (e_send e))%nat /\ hashed c' /\
    match refused with
    | None => True
    | Some size => size = middle c /\ (length (e_send e') < length (e_send e))%nat
    end /\
    (accepting e -> refused = None /\ accepting e').
Proof.
  intros Hs [Hr0 Hr1]. destruct (send_mtu_probe_starts c e Hs) as (c1 & e1 & d & Hv & Hh & (_ & He1 & _) & Hm1 & Hd & _ & ->).
  destruct (Z.lt_ge_cases 0 (mtu_retries (mtu_probe c))) as [Hpos|Hzero].
  2: { assert (probe_count (mtu_probe c) = 0) as -> by (unfold probe_count; destruct (Z.ltb_spec (mtu_retries (mtu_probe c)) 2); lia).
       assert (e_sendmmsg e1 = false) as Hm by (rewrite Hm1; destruct (e_sendmmsg e); [by specialize (Hr1 eq_refl); lia|done]).
       exists None, c1, e1. unfold kcp_send_packet, kcp_send_packet_raw, kcp_send_packet_raw_impl.
       change (replicate (Z.to_nat 0) d) with (@nil bytes). change (KCP_PACKET_SIZE <? Zlength (@nil bytes)) with false.
       unfold mbind, ST_bind, gets. cbn [snd]. rewrite Hm.
       split; [reflexivity|]. split; [exact Hv|]. split; [congruence|]. split; [by rewrite He1|]. split; [done|]. split; [done|].
       intros Ha. split; [done|]. unfold accepting in *. congruence. }
  rewrite (probe_count_one _ Hpos). change (replicate (Z.to_nat 1) d) with [d]. unfold kcp_send_packet, kcp_send_packet_raw.
  unfold mbind at 1, ST_bind at 1. rewrite raw_single by done. rewrite <- He1.
  pose proof (retry_interrupted_shorter (e_send e1)) as Hsh. destruct (retry_interrupted (e_send e1)) as [[|errno] l] eqn:Er.
  - destruct Hsh as [Hle _]. eexists None, c1, _. split_and!; try done. intros Ha. split; [done|].
    unfold accepting in *. rewrite <- He1 in Ha. rewrite Ha in Er. by injection Er as <-.
  - destruct Hsh as [_ Hlt]. specialize (Hlt ltac:(done)). pose proof (refused_code_not_1 (e_sendmmsg e1) errno).
    destruct (Z.eqb_spec (refused_code (e_sendmmsg e1) errno) 1); [done|]. set (e2 := _ <| e_errno := _ |>).
    rewrite (bind_eq _ _ _ errno (c1, e2)) by done.
    assert (forall P, accepting e -> P) as Hno by (unfold accepting; rewrite <- He1; intros P Ha; by rewrite Ha in Er).
    assert (length (e_send e2) < length (e_send e1))%nat as Hlt2 by done.
    destruct (errno =? EMSGSIZE); eexists _, c1, e2; split_and!; try done; try lia; intros Ha; by apply Hno.
Qed.

(** ** The loop *)

(** What the loop may change besides the record of the last probe. *)
Definition search_view (c : kcp_connection) :=
  (remote_host c, k_self c, state c, mtu c, mss c, (mtu_current (mtu_probe c), mtu_lbound (mtu_probe c),
   mtu_timeout (mtu_probe c), mtu_retries (mtu_probe c), probe_timeout_event (mtu_probe c))).

Lemma probe_search_view c c' : probe_view c' = probe_view c -> search_view c' = search_view c.
Proof. unfold probe_view, search_view. intros [=]. congruence. Qed.

(** The upper bound after a refusal. *)
Definition lowered (c : kcp_connection) (size : Z) : kcp_connection := c <| mtu_probe / mtu_ubound := u32 (size - 1) |>.

Lemma lowered_spec c c1 :
  sizes_ok c -> probe_view c1 = probe_view c ->
  let c2 := lowered c1 (middle c) in
  sizes_ok c2 /\ search_view c2 = search_view c /\ mtu_ubound (mtu_probe c2) = middle c - 1 /\
  (mtu_lbound (mtu_probe c2) = mtu_lbound (mtu_probe c) /\ mtu_retries (mtu_probe c2) = mtu_retries (mtu_probe c) /\
   udp_overhead c2 = udp_overhead c /\ remote_host c2 = remote_host c) /\
  mtu_lbound (mtu_probe c) - 2 <= middle c - 1 <= Z.max (mtu_lbound (mtu_probe c) - 2) (mtu_ubound (mtu_probe c)).
Proof.
  intros Hs Hv. pose proof (middle_bounds c Hs) as Hb. pose proof (probe_search_view _ _ Hv) as Hv'. destruct Hs as (H1 & H2 & H3).
  injection Hv as Hv1 Hv2 Hv3 Hv4 Hv5 Hv6 Hv7 Hv8 Hv9 Hv10 Hv11. cbv zeta.
  assert (mtu_lbound (mtu_probe (lowered c1 (middle c))) = mtu_lbound (mtu_probe c)) as Hl by done.
  assert (mtu_ubound (mtu_probe (lowered c1 (middle c))) = middle c - 1) as Hu.
  { change (u32 (middle c - 1) = middle c - 1). apply u32_small. unfold ETHERNET_MTU in *. lia. }
  assert (mtu_lbound (mtu_probe c) - 2 <= middle c - 1 <= Z.max (mtu_lbound (mtu_probe c) - 2) (mtu_ubound (mtu_probe c))) as Hm.
  { unfold middle. zlia. }
  assert (udp_overhead (lowered c1 (middle c)) = udp_overhead c) as Ho.
  { unfold udp_overhead. change (remote_host (lowered c1 (middle c))) with (remote_host c1). by rewrite Hv1. }
  split_and!; [..|done|done|done|done|done|done|lia|lia]; unfold sizes_ok; rewrite Hl, Hu; unfold ETHERNET_MTU in *; lia.
Qed.

Lemma send_mtu_probe_loop_run fuel c e :
  (length (e_send e) < fuel)%nat -> sizes_ok c -> retries_ok (e_sendmmsg e) (mtu_retries (mtu_probe c)) ->
  exists c' e', send_mtu_probe_loop fuel (c, e) = Some (tt, (c', e')) /\ search_view c' = search_view c /\
    Z.min (mtu_lbound (mtu_probe c) - 2) (mtu_ubound (mtu_probe c)) <= mtu_ubound (mtu_probe c') <=
    Z.max (mtu_lbound (mtu_probe c) - 2) (mtu_ubound (mtu_probe c)) /\
    hashed c' /\ e_sendmmsg e' = e_sendmmsg e /\
    (accepting e -> probe_view c' = probe_view c /\ accepting e').
Proof.
  revert c e. induction fuel as [|fuel IH]; intros c e Hf Hs Hr0; [lia|]. cbn [send_mtu_probe_loop].
  destruct (send_mtu_probe_run c e Hs Hr0) as (refused & c1 & e1 & Hr & Hv & Hm & Hle & Hh & Href & Hacc).
  rewrite (bind_eq _ _ _ _ _ Hr). destruct refused as [size|].
  - destruct Href as [-> Hlt]. destruct (lowered_spec c c1 Hs Hv) as (Hs2 & Hv2 & Hu & (Hl2 & Hr2 & _ & _) & Hb).
    rewrite (bind_eq _ _ _ tt (lowered c1 (middle c), e1)) by done. set (c2 := lowered c1 (middle c)) in *.
    destruct (IH c2 e1 ltac:(lia) Hs2) as (c' & e' & Hrun & Hv3' & Hub & Hh' & Hm' & _); [by rewrite Hm, Hr2|].
    exists c', e'. split; [exact Hrun|]. split; [by rewrite Hv3', <- Hv2|]. rewrite Hl2, Hu in Hub. split; [lia|]. split; [exact Hh'|].
    split; [congruence|]. intros Ha. destruct (Hacc Ha). done.
  - exists c1, e1. split; [done|]. split; [by apply probe_search_view|].
    injection Hv as Hv1 Hv2 Hv3 Hv4 Hv5 Hv6 Hv7 Hv8 Hv9 Hv10 Hv11. rewrite Hv8. split; [lia|]. split; [exact Hh|]. split; [exact Hm|]. intros Ha.
    destruct (Hacc Ha). split; [unfold probe_view; congruence|done].
Qed.

(** A kernel that refuses [n] sizes and takes the next one. *)
Definition refusing (n : nat) (e : env) : Prop := exists rest, e_send e = replicate n (Failed EMSGSIZE) ++ Sent :: rest.

(** A turn with such a kernel. *)
Lemma send_mtu_probe_refused n c e :
  sizes_ok c -> 0 < mtu_retries (mtu_probe c) -> refusing (S n) e ->
  exists c1 e1, send_mtu_probe (c, e) = Some (Some (middle c), (c1, e1)) /\ probe_view c1 = probe_view c /\
    refusing n e1 /\ e_trace e1 = e_trace e.
Proof.
  intros Hs Hr [rest He]. destruct (send_mtu_probe_starts c e Hs) as (c1 & e1 & d & Hv & _ & (Ht & He1 & _) & _ & Hd & _ & ->).
  rewrite (probe_count_one _ Hr). change (replicate (Z.to_nat 1) d) with [d]. unfold kcp_send_packet, kcp_send_packet_raw.
  unfold mbind at 1, ST_bind at 1. rewrite raw_single by done. rewrite He1, He. cbn [replicate app retry_interrupted].
  change (EMSGSIZE =? EINTR) with false. cbn match. pose proof (refused_code_not_1 (e_sendmmsg e1) EMSGSIZE).
  destruct (Z.eqb_spec (refused_code (e_sendmmsg e1) EMSGSIZE) 1); [done|]. set (e2 := _ <| e_errno := _ |>).
  rewrite (bind_eq _ _ _ EMSGSIZE (c1, e2)) by done. exists c1, e2. split; [done|]. split; [done|]. split; [by exists rest|done].
Qed.

Lemma send_mtu_probe_taken c e :
  sizes_ok c -> 0 < mtu_retries (mtu_probe c) -> refusing 0 e ->
  exists c1 e1 d, send_mtu_probe (c, e) = Some (None, (c1, e1)) /\ probe_view c1 = probe_view c /\
    e_trace e1 = e_trace e ++ [Datagram (remote_host c) d] /\ Zlength d <= KCP_HEADER_SIZE + (middle c - udp_overhead c).
Proof.
  intros Hs Hr [rest He]. destruct (send_mtu_probe_starts c e Hs) as (c1 & e1 & d & Hv & _ & (Ht & He1 & _) & _ & Hd & Hlen & ->).
  rewrite (probe_count_one _ Hr). change (replicate (Z.to_nat 1) d) with [d]. unfold kcp_send_packet, kcp_send_packet_raw.
  unfold mbind at 1, ST_bind at 1. rewrite raw_single by done. rewrite He1, He. cbn [replicate app retry_interrupted].
  eexists c1, _, d. split; [done|]. split; [done|]. split; [|done]. injection Hv as Hv1 _ _ _ _ _ _ _ _ _ _. rewrite Hv1.
  cbn. by rewrite Ht.
Qed.

(** The loop with it: short of [n + 1] turns it is still going. *)
Lemma send_mtu_probe_loop_refused n c e :
  sizes_ok c -> 0 < mtu_retries (mtu_probe c) -> refusing n e ->
  (forall fuel, (fuel <= n)%nat -> send_mtu_probe_loop fuel (c, e) = None) /\
  exists c' e' d, (forall fuel, (n < fuel)%nat -> send_mtu_probe_loop fuel (c, e) = Some (tt, (c', e'))) /\
    mtu_ubound (mtu_probe c') = mtu_lbound (mtu_probe c) - 2 + (mtu_ubound (mtu_probe c) - (mtu_lbound (mtu_probe c) - 2)) / 2 ^ Z.of_nat n /\
    sizes_ok c' /\ search_view c' = search_view c /\ e_trace e' = e_trace e ++ [Datagram (remote_host c) d] /\
    Zlength d <= KCP_HEADER_SIZE + (middle c' - udp_overhead c).
Proof.
  revert c e. induction n as [|n IH]; intros c e Hs Hr He.
  - split; [intros [|fuel] Hf; [done|lia]|]. destruct (send_mtu_probe_taken c e Hs Hr He) as (c' & e' & d & Hrun & Hv & Ht & Hd).
    exists c', e', d. pose proof Hv as Hv'. injection Hv' as Hv1 Hv2 Hv3 Hv4 Hv5 Hv6 Hv7 Hv8 Hv9 Hv10 Hv11.
    split; [|split; [|split; [|split; [by apply probe_search_view|split; [done|]]]]].
    + intros [|fuel] Hf; [lia|]. cbn [send_mtu_probe_loop]. by rewrite (bind_eq _ _ _ _ _ Hrun).
    + rewrite Hv8. change (2 ^ Z.of_nat 0) with 1. rewrite Z.div_1_r. lia.
    + unfold sizes_ok in *. by rewrite Hv7, Hv8.
    + unfold middle in *. by rewrite Hv7, Hv8.
  - destruct (send_mtu_probe_refused n c e Hs Hr He) as (c1 & e1 & Hrun & Hv & He1 & Ht1).
    destruct (lowered_spec c c1 Hs Hv) as (Hs2 & Hv2 & Hu & (Hl2 & Hr2 & Ho & Hh) & _). set (c2 := lowered c1 (middle c)) in *.
    assert (forall fuel, send_mtu_probe_loop (S fuel) (c, e) = send_mtu_probe_loop fuel (c2, e1)) as Hturn.
    { intros fuel. cbn [send_mtu_probe_loop]. rewrite (bind_eq _ _ _ _ _ Hrun). by rewrite (bind_eq _ _ _ tt (c2, e1)) by done. }
    destruct (IH c2 e1 Hs2) as (Hno & c' & e' & d & Hyes & Hub & Hs' & Hv' & Ht & Hd); [by rewrite Hr2|done|].
    split; [intros [|fuel] Hf; [done|rewrite Hturn; apply Hno; lia]|]. exists c', e', d.
    split; [intros [|fuel] Hf; [lia|rewrite Hturn; apply Hyes; lia]|].
    split; [|split; [done|split; [congruence|split; [congruence|by rewrite <- Ho]]]].
    rewrite Hub, Hl2, Hu. rewrite Nat2Z.inj_succ, Z.pow_succ_r, <- Z.div_div by lia. f_equal. f_equal. unfold middle. zlia.
Qed.

(** C32: The loop that sends a probe: with a kernel that refuses [n] sizes with EMSGSIZE
    and takes the next, it makes exactly [n] + 1 turns, each refusal halving the
    distance of the upper bound from two below the lower one; one datagram of the
    size of the last middle is sent, the sizes tried are never negative or larger than the
    probe buffer, and only the upper bound and the record of the last probe change.
    [n] is any number: nothing but the kernel ends the loop, and one that refuses even
    the lower bound less one keeps it at that size for ever. *)
Theorem kcp_send_mtu_probe_packet_refused (c : kcp_connection) (e : env) (n : nat) :
  sizes_ok c -> 0 < mtu_retries (mtu_probe c) -> refusing n e ->
  (forall turns, (turns <= n)%nat -> send_mtu_probe_loop turns (c, e) = None) /\
  exists c' e' d, kcp_send_mtu_probe_packet (c, e) = Some (tt, (c', e')) /\
    send_mtu_probe_loop (S n) (c, e) = Some (tt, (c', e')) /\
    mtu_ubound (mtu_probe c') = mtu_lbound (mtu_probe c) - 2 + (mtu_ubound (mtu_probe c) - (mtu_lbound (mtu_probe c) - 2)) / 2 ^ Z.of_nat n /\
    sizes_ok c' /\ search_view c' = search_view c /\ e_trace e' = e_trace e ++ [Datagram (remote_host c) d] /\
    Zlength d <= KCP_HEADER_SIZE + (middle c' - udp_overhead c).
Proof.
  intros Hs Hr He. destruct (send_mtu_probe_loop_refused n c e Hs Hr He) as (Hno & c' & e' & d & Hyes & Hrest). split; [exact Hno|].
  exists c', e', d. split; [|split; [apply Hyes; lia|exact Hrest]].
  unfold kcp_send_mtu_probe_packet. rewrite (bind_eq _ _ _ (S (length (e_send e))) (c, e)) by done. apply Hyes.
  destruct He as [rest ->]. rewrite length_app, length_replicate. cbn. lia.
Qed.

(** ** The search *)

(** A kernel that accepts what it is given, in the build [mmsg]. *)
Section Search.
Context (mmsg : bool).
Definition kernel (e : env) : Prop := accepting e /\ e_sendmmsg e = mmsg.

(** A round of the search between [l] and the Ethernet MTU. *)
Record begun (c0 : kcp_connection) (l : Z) (c : kcp_connection) : Prop := {
  be_same : (remote_host c, k_self c, state c, mtu c, mss c) = (remote_host c0, k_self c0, state c0, mtu c0, mss c0);
  be_bounds : mtu_current (mtu_probe c) = l /\ mtu_lbound (mtu_probe c) = l /\ mtu_ubound (mtu_probe c) = ETHERNET_MTU;
  be_retries : retries_ok mmsg (mtu_retries (mtu_probe c));
  be_event : probe_timeout_event (mtu_probe c) <> timer_null;
}.

(** And its probe is out. *)
Record searching (c0 : kcp_connection) (l : Z) (c : kcp_connection) : Prop := {
  se_begun : begun c0 l c;
  se_hash : hashed c;
}.

Lemma kcp_mtu_probe_accepting c0 c e l timeout retry :
  kernel e -> 50 <= l <= ETHERNET_MTU -> retries_ok mmsg retry -> mtu_current (mtu_probe c) = l ->
  probe_timeout_event (mtu_probe c) <> timer_null ->
  (remote_host c, k_self c, state c, mtu c, mss c) = (remote_host c0, k_self c0, state c0, mtu c0, mss c0) ->
  wp (kcp_mtu_probe timeout retry) (fun r s => r = 0 /\ searching c0 l s.1 /\ kernel s.2) (c, e).
Proof.
  intros Ha0 Hl Hr Hcur Hev Hsame. unfold kcp_mtu_probe. wp_step. wp_step. wp_step.
  apply (wp_mono _ (fun _ s => exists e1, s = (c, e1) /\ kernel e1)).
  { apply wp_when; intros _; [wp_step|]; by eexists. }
  intros _ s (e1 & -> & Ha). clear e Ha0. rename e1 into e. cbv zeta. wp_step. wp_step.
  set (t := if timeout =? 0 then _ else _). rewrite Hcur.
  match goal with |- wp _ _ (?c1, _) => assert (begun c0 l c1) as Hs; [by constructor|revert Hs; generalize c1; intros c1' Hs] end.
  rewrite bool_decide_false by done. do 4 wp_step.
  match goal with |- wp _ _ (?c1, _) => assert (begun c0 l c1) as Hs2; [by destruct Hs|revert Hs2; generalize c1; intros c2 Hs2] end.
  rewrite bool_decide_false by done. wp_step.
  eapply (wp_run _ _ _ timer_idle); [by destruct (probe_timeout_event (mtu_probe c))|].
  wp_step. wp_step. match goal with |- wp _ _ (?c1, _) => assert (begun c0 l c1) as Hs3; [by destruct Hs2|revert Hs3; generalize c1; intros c3 Hs3] end.
  unfold kcp_send_mtu_probe_packet. wp_step. wp_step. apply wp_gets. cbn [snd].
  destruct (send_mtu_probe_loop_run (S (length (e_send e))) c3 e ltac:(lia)) as (c4 & e4 & Hrun & _ & _ & Hh & Hm4 & Hacc).
  { destruct Hs3 as [_ (_ & H1 & H2) H3 _]. unfold sizes_ok. rewrite H1, H2. unfold ETHERNET_MTU in *. split_and!; lia. }
  { destruct Ha as [_ ->]. apply (be_retries _ _ _ Hs3). }
  destruct (Hacc (proj1 Ha)) as [Hv Ha4]. rewrite (proj2 Ha) in Hm4. eapply wp_run; [exact Hrun|]. wp_step.
  eapply wp_run; [reflexivity|]. wp_step. wp_step. wp_step. split; [done|]. split; [|exact (conj Ha4 Hm4)]. cbn [fst].
  injection Hv as Hv1 Hv2 Hv3 Hv4 Hv5 Hv6 Hv7 Hv8 Hv9 Hv10 Hv11. destruct Hs3 as [H0 (H1 & H2 & H3) H4 H5].
  constructor; [constructor; [|cbn..]; [|split_and!; congruence|by rewrite Hv10|done]|exact Hh].
  change ((remote_host c4, k_self c4, state c4, mtu c4, mss c4) = (remote_host c0, k_self c0, state c0, mtu c0, mss c0)). congruence.
Qed.

(** The end of a search, with the size [l]. *)
Record found (c0 : kcp_connection) (l : Z) (c : kcp_connection) : Prop := {
  fo_mtu : mtu c = l - udp_overhead c0;
  fo_mss : mss c = l - udp_overhead c0 - KCP_HEADER_SIZE;
  fo_bounds : mtu_current (mtu_probe c) = l /\ mtu_lbound (mtu_probe c) = l /\ mtu_ubound (mtu_probe c) = l;
  fo_event : probe_timeout_event (mtu_probe c) = timer_idle;
}.

(** The update of the bounds [l] and [u]: the next round starts from their middle,
    or the search ends with the lower one. *)
Lemma mtu_probe_update_round c0 c e l u :
  (remote_host c, k_self c, state c, mtu c, mss c) = (remote_host c0, k_self c0, state c0, mtu c0, mss c0) ->
  mtu_lbound (mtu_probe c) = l -> mtu_ubound (mtu_probe c) = u -> retries_ok mmsg (mtu_retries (mtu_probe c)) ->
  probe_timeout_event (mtu_probe c) <> timer_null -> kernel e -> 80 <= l <= u -> u <= ETHERNET_MTU ->
  (u - l <= 16 -> mtu c0 <= l) ->
  wp mtu_probe_update (fun _ s => kernel s.2 /\
    if u - l <=? 16 then found c0 l s.1 else searching c0 ((l + u) / 2) s.1) (c, e).
Proof.
  intros Hsame Hl Hu Hr Hev Ha Hlu Hmax Hmtu. unfold ETHERNET_MTU in Hmax. unfold mtu_probe_update. wp_step. wp_step.
  rewrite Hl, Hu. destruct (Z.leb_spec l u); [|lia]. wp_step. wp_step; [|done]. wp_step. wp_step.
  set (c2 := c <| mtu_probe / mtu_current := _ |>). wp_step. wp_step. cbv zeta.
  change (mtu_lbound (mtu_probe c2)) with (mtu_lbound (mtu_probe c)). change (mtu_ubound (mtu_probe c2)) with (mtu_ubound (mtu_probe c)).
  rewrite Hl, Hu, u32_small by lia. destruct (Z.leb_spec (u - l) 16) as [Hend|Hopen].
  - do 3 wp_step. change (probe_timeout_event (mtu_probe c2)) with (probe_timeout_event (mtu_probe c)).
    eapply (wp_run _ _ _ timer_idle); [by destruct (probe_timeout_event (mtu_probe c))|].
    wp_step. wp_step. unfold on_mtu_probe_completed. change (NO_ERROR =? NO_ERROR) with true. cbn match. wp_step. wp_step.
    match goal with |- context[mtu ?x] => set (c3 := x) end. injection Hsame as Hs1 Hs2 Hs3 Hs4 Hs5.
    change (mtu c3) with (mtu c). rewrite Hs4. destruct (Z.ltb_spec l (mtu c0)); [lia|]. wp_step. wp_step. wp_step.
    pose proof (udp_overhead_bounds c0) as Ho. assert (udp_overhead c3 = udp_overhead c0) as Hov.
    { unfold udp_overhead. change (remote_host c3) with (remote_host c). by rewrite Hs1. }
    cbn [fst snd]. split; [done|]. constructor; try done.
    + change (u32 (l - udp_overhead c3) = l - udp_overhead c0). rewrite Hov. apply u32_small. lia.
    + change (u32 (u32 (l - udp_overhead c3) - KCP_HEADER_SIZE) = l - udp_overhead c0 - KCP_HEADER_SIZE).
      rewrite Hov. unfold KCP_HEADER_SIZE. rewrite !u32_small; rewrite ?u32_small; lia.
  - apply wp_bind. eapply wp_mono; [apply (kcp_mtu_probe_accepting c0 c2 e ((l + u) / 2)); try done|].
    + unfold ETHERNET_MTU. zlia.
    + change (u32 (mtu_lbound (mtu_probe c) + mtu_ubound (mtu_probe c)) / 2 = (l + u) / 2). by rewrite Hl, Hu, u32_small by lia.
    + intros r s (_ & H1 & H2). by apply wp_ret.
Qed.

(** The answer of the peer to the probe that is out. *)
Definition answer_of (c : kcp_connection) (ts : Z) : kcp_proto_header :=
  KcpProtoHeader (dcid c) (scid c) KCP_CMD_MTU_ACK 0 0 0
    (packet_data ts (mtu_prev_sn (mtu_probe c)) 0 0 8 (le_split 8 (mtu_hash (mtu_probe c)))) [].

(** The events of a search until it ends: [true] is an answer to the probe that is
    out, [false] the expiry of its timer. *)
Fixpoint search (ts : Z) (answers : list bool) : io kcp_connection unit :=
  match answers with
  | [] => mret tt
  | answered :: rest =>
      c ← get;
      if mtu_ubound (mtu_probe c) <=? mtu_lbound (mtu_probe c) then mret tt
      else
        (if answered : bool then kcp_mtu_ack_received (answer_of c ts) ts;; mret tt else kcp_mtu_probe_timeout_cb);;
        search ts rest
  end.

(** The expiry of the timer lowers the upper bound by one and the answer raises the
    lower one by one. *)
Lemma probe_expired c0 c e l :
  searching c0 l c -> kernel e -> 80 <= l <= ETHERNET_MTU - 1 -> (1499 - l <= 16 -> mtu c0 <= l) ->
  wp kcp_mtu_probe_timeout_cb (fun _ s => kernel s.2 /\
    if 1499 - l <=? 16 then found c0 l s.1 else searching c0 ((l + 1499) / 2) s.1) (c, e).
Proof.
  intros [[Hsame (_ & Hl & Hu) Hr Hev] _] Ha Hb Hm. unfold kcp_mtu_probe_timeout_cb. wp_step. wp_step.
  apply mtu_probe_update_round; try done; try (unfold ETHERNET_MTU in *; lia).
  change (u32 (mtu_ubound (mtu_probe c) - 1) = 1499). by rewrite Hu.
Qed.

Lemma probe_answered c0 c e ts l :
  searching c0 l c -> kernel e -> 80 <= l <= ETHERNET_MTU - 1 -> (1499 - l <= 16 -> mtu c0 <= l) ->
  wp (kcp_mtu_ack_received (answer_of c ts) ts) (fun _ s => kernel s.2 /\
    if 1499 - l <=? 16 then found c0 (l + 1) s.1 else searching c0 ((l + 1501) / 2) s.1) (c, e).
Proof.
  intros [[Hsame (Hc & Hl & Hu) Hr Hev] Hh] Ha Hb Hm. unfold ETHERNET_MTU in *. unfold kcp_mtu_ack_received. cbn [h_data answer_of].
  wp_step. wp_step. rewrite Z.eqb_refl. cbn [negb].
  assert (length (le_split 8 (mtu_hash (mtu_probe c))) = 8%nat) as Hlen by apply length_le_split.
  unfold Zlength. rewrite Hlen. change (Z.of_nat 8 <? 8) with false. cbn match.
  rewrite take_ge, le_combine_split_u64 by (done || lia). rewrite Z.eqb_refl. cbn [negb]. rewrite Hl, Hu.
  destruct (Z.leb_spec 1500 l); [lia|]. wp_step. wp_step. rewrite Hc. wp_step.
  eapply wp_mono; [apply (mtu_probe_update_round c0 _ e (l + 1) 1500); try done; try lia|].
  - change (u32 (l + 1) = l + 1). apply u32_small. lia.
  - intros ? s [Ha' Hf]. apply wp_ret. split; [exact Ha'|].
    replace (1500 - (l + 1)) with (1499 - l) in Hf by lia. by replace (l + 1501) with (l + 1 + 1500) by lia.
Qed.

(** Either way the next round starts at the middle or above, or the search ends. *)
Lemma probe_event c0 c e ts l (answered : bool) :
  searching c0 l c -> kernel e -> 80 <= l <= 1491 -> (1483 <= l -> mtu c0 <= l) ->
  wp (if answered then kcp_mtu_ack_received (answer_of c ts) ts;; mret tt else kcp_mtu_probe_timeout_cb)
     (fun _ s => kernel s.2 /\ exists l',
        if 1483 <=? l then l <= l' <= l + 1 /\ found c0 l' s.1
        else (l + 1499) / 2 <= l' <= 1491 /\ searching c0 l' s.1) (c, e).
Proof.
  intros Hs Ha Hl Hm. assert ((1499 - l <=? 16) = (1483 <=? l)) as E.
  { destruct (Z.leb_spec (1499 - l) 16), (Z.leb_spec 1483 l); lia. }
  assert (80 <= l <= ETHERNET_MTU - 1) as Hb by (unfold ETHERNET_MTU; lia).
  assert (1499 - l <= 16 -> mtu c0 <= l) as Hm' by (intros; apply Hm; lia). destruct answered.
  - wp_step. eapply wp_mono; [by apply (probe_answered c0 c e ts l)|]. intros ? s [Ha' Hf]. rewrite E in Hf.
    apply wp_ret. split; [exact Ha'|]. destruct (Z.leb_spec 1483 l); eexists; (split; [|exact Hf]); zlia.
  - eapply wp_mono; [by apply (probe_expired c0 c e l)|]. intros ? s [Ha' Hf]. rewrite E in Hf.
    split; [exact Ha'|]. destruct (Z.leb_spec 1483 l); eexists; (split; [|exact Hf]); zlia.
Qed.

(** The search over, nothing is left of its events. *)
Lemma search_found ts answers c0 l c e : found c0 l c -> search ts answers (c, e) = Some (tt, (c, e)).
Proof.
  intros [_ _ (_ & Hl & Hu) _]. destruct answers as [|b answers]; [done|]. cbn [search].
  rewrite (bind_eq _ _ _ c (c, e)) by done. rewrite Hl, Hu. by destruct (Z.leb_spec l l); [|lia].
Qed.

(** [k] more rounds halve what is above [l] to 17. *)
Lemma search_ends ts k answers c0 l c e :
  (k < length answers)%nat -> searching c0 l c -> kernel e -> 80 <= l <= 1491 -> 1500 - l <= 15 * 2 ^ Z.of_nat k + 2 ->
  mtu c0 <= 1483 ->
  wp (search ts answers) (fun _ s => exists m, 1483 <= m <= 1492 /\ found c0 m s.1) (c, e).
Proof.
  revert k l c e. induction answers as [|b answers IH]; intros k l c e Hk Hs Ha Hl Hgap Hm; cbn [length] in Hk; [lia|].
  cbn [search]. wp_step. wp_step. destruct (se_begun _ _ _ Hs) as [_ (_ & Hlb & Hub) _ _]. rewrite Hlb, Hub.
  destruct (Z.leb_spec ETHERNET_MTU l); [unfold ETHERNET_MTU in *; lia|]. apply wp_bind.
  eapply wp_mono; [apply (probe_event c0 c e ts l b Hs Ha Hl); lia|]. intros _ [c1 e1] (Ha1 & l' & Hl'). cbn [fst snd] in *.
  destruct (Z.leb_spec 1483 l) as [Hend|Hopen]; destruct Hl' as [Hb Hf].
  - eapply wp_run; [by eapply search_found|]. exists l'. split; [lia|exact Hf].
  - destruct k as [|k]; [change (15 * 2 ^ Z.of_nat 0 + 2) with 17 in Hgap; lia|].
    apply (IH k l'); [lia|exact Hf|done|zlia| |done]. rewrite Nat2Z.inj_succ, Z.pow_succ_r in Hgap by lia. zlia.
Qed.

End Search.

(** C33: The search of the path MTU does not depend on the path: with a
    kernel that accepts the probes, at least one where [sendmmsg] sends them, from the
    size 576 and whatever probes are
    answered and whatever time out, it is over after at most seven events, and the
    MTU of the connection is set to a size between 1483 and 1492 less the IP and UDP
    headers, although a path that answers none has let no such size through. *)
Theorem mtu_search_blind (c : kcp_connection) (e : env) (timeout retry ts : Z) (answers : list bool) :
  accepting e -> retries_ok (e_sendmmsg e) retry -> mtu_current (mtu_probe c) = ETHERNET_MTU_V4_MIN -> mtu c <= 1483 ->
  probe_timeout_event (mtu_probe c) <> timer_null -> (7 <= length answers)%nat ->
  exists c' e' m, (kcp_mtu_probe timeout retry;; search ts answers) (c, e) = Some (tt, (c', e')) /\
    1483 <= m <= 1492 /\ mtu c' = m - udp_overhead c /\ mss c' = m - udp_overhead c - KCP_HEADER_SIZE /\
    mtu_current (mtu_probe c') = m /\ probe_timeout_event (mtu_probe c') = timer_idle.
Proof.
  intros Ha Hr Hcur Hm Hev Hlen.
  assert (wp (kcp_mtu_probe timeout retry;; search ts answers) (fun _ s => exists m, 1483 <= m <= 1492 /\ found c m s.1) (c, e)) as H.
  { wp_step. eapply wp_mono; [by apply (kcp_mtu_probe_accepting (e_sendmmsg e) c c e ETHERNET_MTU_V4_MIN)|].
    intros r [c1 e1] (_ & H1 & Ha1). cbn [fst snd] in *.
    apply (search_ends (e_sendmmsg e) ts 6 answers c ETHERNET_MTU_V4_MIN); [lia|done|done|done|done|done]. }
  apply wp_elim in H as ([] & [c' e'] & Hrun & m & Hb & [? ? [? _] ?]). by exists c', e', m.
Qed.

(** [n] expiries of the probe's timer in a row. *)
Fixpoint timeouts (n : nat) : io kcp_connection unit :=
  match n with O => mret tt | S n => kcp_mtu_probe_timeout_cb;; timeouts n end.

(** A lost probe does not lower the search: each round is
    reset to end at the Ethernet MTU and begins at the size that was not answered.
    A search that starts at 576, with a kernel that accepts the probes and a path
    that answers none of them, ends after seven time outs with the MTU of the
    connection set to 1484 less the IP and UDP headers. *)
Theorem mtu_search_unanswered (c : kcp_connection) (e : env) (timeout retry : Z) :
  accepting e -> retries_ok (e_sendmmsg e) retry -> mtu_current (mtu_probe c) = ETHERNET_MTU_V4_MIN -> mtu c <= 1484 ->
  probe_timeout_event (mtu_probe c) <> timer_null ->
  exists c' e', (kcp_mtu_probe timeout retry;; timeouts 7) (c, e) = Some (tt, (c', e')) /\
    mtu c' = 1484 - udp_overhead c /\ mss c' = 1484 - udp_overhead c - KCP_HEADER_SIZE /\
    mtu_current (mtu_probe c') = 1484 /\ probe_timeout_event (mtu_probe c') = timer_idle.
Proof.
  intros Ha Hr Hcur Hm Hev.
  assert (wp (kcp_mtu_probe timeout retry;; timeouts 7)
    (fun _ s => mtu s.1 = 1484 - udp_overhead c /\ mss s.1 = 1484 - udp_overhead c - KCP_HEADER_SIZE /\
       mtu_current (mtu_probe s.1) = 1484 /\ probe_timeout_event (mtu_probe s.1) = timer_idle) (c, e)) as H.
  2: { apply wp_elim in H as ([] & [c' e'] & Hrun & H). by exists c', e'. }
  wp_step. eapply wp_mono; [by apply (kcp_mtu_probe_accepting (e_sendmmsg e) c c e ETHERNET_MTU_V4_MIN)|].
  intros r [c1 e1] (_ & H1 & Ha1). cbn [fst snd timeouts] in *. unfold ETHERNET_MTU_V4_MIN in H1.
  do 6 (wp_step; eapply wp_mono; [eapply probe_expired; [exact H1|exact Ha1|done|lia]|];
    clear H1 Ha1; intros _ [? ?] [Ha1 H1]; cbn [fst snd] in H1, Ha1;
    match type of H1 with context[if ?b then _ else _] => change b with false in H1; cbn match in H1 end;
    match type of H1 with searching _ _ ?l _ => let l' := eval vm_compute in l in change l with l' in H1 end).
  wp_step. eapply wp_mono; [eapply probe_expired; [exact H1|exact Ha1|done|intros _; exact Hm]|].
  intros _ [c9 e9] [_ [? ? [? _] ?]]. by apply wp_ret.
Qed.

(** ** At a concrete connection *)

Definition probing_example : kcp_connection :=
  zero_connection <| mtu := 1430 |>
    <| mtu_probe := MtuProbeCtx timer_idle 576 1000 1400 1500 1 0 0 (replicate 1532 0) |>.

(** The first two sizes are refused. *)
Lemma kcp_send_mtu_probe_packet_refused_witness :
  let e := quiet <| e_send := [Failed EMSGSIZE; Failed EMSGSIZE; Sent] |> in
  send_mtu_probe_loop 2 (probing_example, e) = None /\
  exists c' e' d, kcp_send_mtu_probe_packet (probing_example, e) = Some (tt, (c', e')) /\
    mtu_ubound (mtu_probe c') = 998 + 402 / 4 /\ e_trace e' = [Datagram (sin 0 0) d].
Proof.
  destruct (kcp_send_mtu_probe_packet_refused probing_example (quiet <| e_send := [Failed EMSGSIZE; Failed EMSGSIZE; Sent] |>) 2)
    as (Hno & c' & e' & d & Hr & _ & Hu & _ & _ & Ht & _).
  - repeat split; vm_compute; discriminate.
  - reflexivity.
  - by exists [].
  - split; [by apply (Hno 2%nat)|]. exists c', e', d. split; [exact Hr|]. split; [exact Hu|exact Ht].
Defined.

Lemma mtu_search_unanswered_witness :
  exists c' e', (kcp_mtu_probe 0 1;; timeouts 7) (probing_example, quiet) = Some (tt, (c', e')) /\ mtu c' = 1456.
Proof.
  destruct (mtu_search_unanswered probing_example quiet 0 1) as (c' & e' & Hr & Hm & _); [done..|].
  exists c', e'. split; [exact Hr|exact Hm].
Defined.

(** A path that answers a probe in two. *)
Lemma mtu_search_blind_witness :
  exists c' e', (kcp_mtu_probe 0 1;; search 5 [true; false; true; false; true; false; true]) (probing_example, quiet) = Some (tt, (c', e')) /\
    mtu c' >= 1455.
Proof.
  destruct (mtu_search_blind probing_example quiet 0 1 5 [true; false; true; false; true; false; true])
    as (c' & e' & m & Hr & Hb & Hm & _); [by vm_compute..|cbn; lia|].
  exists c', e'. split; [exact Hr|]. rewrite Hm. change (udp_overhead probing_example) with 28. lia.
Defined.
