(* ===== verification/Context.v ===== *)
(** * Context: the connections of a context

    [kcp_context] is [struct KcpContext].  A connection is an object of [heap], its
    address the pointer the code passes around; [on_conn] runs a function of the
    connection on the object, and an address that is not in [heap] any more is a
    use after free.  [connection_set] is the red-black tree of connection_set.c, of
    addresses ordered by the [dcid] of the objects: the node is inside the object.

    [lost] holds the addresses of connections that were in the set when the erasure
    of a node outside it emptied the set: their links are stale, a later erasure of
    one of them is left undefined.  Freed addresses are not handed out again.

    Left out: [local_addr], [ntrs_state], [event_loop] and the read buffer, whose
    contents are what [recvmsg] answers. *)

From stdpp Require Import gmap.
From S2P Require Import Prelude RbTree Bytes Bitmap Xxhash Config Wire Types World Net Bbr Snd Recv Flush Mtu.

Record kcp_syn_node := KcpSynNode {
  sy_scid : Z; sy_dcid : Z;
  sy_rand_sn : Z; sy_packet_sn : Z;
  sy_packet_ts : Z; sy_ts : Z;
  sy_remote_host : sockaddr;
  sy_options : list kcp_option;
}.

Record kcp_context := KcpContext {
  sock_open : bool;                                   (* sock != INVALID_SOCKET *)
  on_connected : bool; on_connect : bool;             (* callback.x != NULL *)
  on_accepted : bool; on_closed : bool;
  connection_id : Z;
  udp_mtu : Z;
  conv_bitmap : bitmap;
  syn_queue : list kcp_syn_node;
  connection_set : tree Z;
  read_event : timer; write_event : timer; write_timer_event : timer;
  conn_write_event_queue : list Z;
  x_user_data : Z;
  heap : gmap Z kcp_connection;
  next_address : Z;
  lost_nodes : list Z;
}.
#[export] Instance eta_kcp_context : Eta kcp_context :=
  fun x => KcpContext (sock_open x) (on_connected x) (on_connect x) (on_accepted x) (on_closed x)
    (connection_id x) (udp_mtu x) (conv_bitmap x) (syn_queue x) (connection_set x) (read_event x)
    (write_event x) (write_timer_event x) (conn_write_event_queue x) (x_user_data x) (heap x)
    (next_address x) (lost_nodes x).

(** [m] on the connection at [addr]. *)
Definition on_conn {A} (addr : Z) (m : io kcp_connection A) : io kcp_context A :=
  fun '(x, e) =>
    match heap x !! addr with
    | None => None
    | Some c =>
        match m (c, e) with
        | Some (a, (c', e')) => Some (a, (x <| heap ::= <[addr := c']> |>, e'))
        | None => None
        end
    end.

Definition conn_at (addr : Z) : io kcp_context kcp_connection := on_conn addr get.

(** ** connection_set.c *)

Definition dcid_at (x : kcp_context) (addr : Z) : Z :=
  match heap x !! addr with Some c => dcid c | None => 0 end.

Definition connection_set_search (x : kcp_context) (conv : Z) : option Z :=
  rb_search (dcid_at x) conv (connection_set x).

Definition connection_set_insert (addr : Z) : io kcp_context bool :=
  x ← get;
  match connection_set_search x (dcid_at x addr) with
  | Some _ => mret false
  | None => mods (fun x => x <| connection_set := rb_insert (dcid_at x) addr (connection_set x) |>);; mret true
  end.

(** [rb_erase] of the node of the connection, found by its key.  The node of a
    connection that was never linked is all zero, a red node without parent nor
    children: the root becomes NULL. *)
Definition connection_set_erase_node (addr : Z) : io kcp_context unit :=
  x ← get;
  if bool_decide (addr ∈ RbTree.elements (connection_set x)) then
    if bool_decide (connection_set_search x (dcid_at x addr) = Some addr) then
      set ← deref (rb_erase_opt (dcid_at x) (dcid_at x addr) (connection_set x));
      mods (fun x => x <| connection_set := set |>)
    else undefined
  else if bool_decide (addr ∈ lost_nodes x) then undefined
  else mods (fun x => x <| lost_nodes ::= app (RbTree.elements (connection_set x)) |> <| connection_set := Leaf |>).

Definition connection_set_erase (conv : Z) : io kcp_context (option Z) :=
  x ← get;
  match connection_set_search x conv with
  | Some addr => connection_set_erase_node addr;; mret (Some addr)
  | None => mret None
  end.

Definition connection_first (x : kcp_context) : option Z := rb_first (connection_set x).
Definition connection_last (x : kcp_context) : option Z := rb_last (connection_set x).

(** [rb_next] of the node of the connection; a node outside the set has no links
    to follow. *)
Definition connection_next (x : kcp_context) (addr : Z) : io kcp_context (option Z) :=
  if bool_decide (connection_set_search x (dcid_at x addr) = Some addr)
  then mret (rb_next_of (dcid_at x) (dcid_at x addr) (connection_set x))
  else undefined.

(** [while ((node = rb_first(root)))]; [cb] is [kcp_connection_destroy]-like. *)
Fixpoint connection_set_clear (fuel : nat) (cb : Z -> io kcp_context unit) : io kcp_context unit :=
  x ← get;
  match connection_first x with
  | None => mret tt
  | Some addr =>
      match fuel with
      | O => undefined
      | S fuel => connection_set_erase_node addr;; cb addr;; connection_set_clear fuel cb
      end
  end.

(** ** Connection ids *)

Fixpoint alloc_scid_loop (n : nat) : io kcp_context (Z + Z) :=
  match n with
  | O => mret (inr CONNECTION_ID_CONFLICT)
  | S n =>
      candidate ← kcp_random 1 KCP_BITMAP_SIZE;
      let candidate := u16 candidate in
      x ← get;
      if candidate =? connection_id x then alloc_scid_loop n
      else if bitmap_get (conv_bitmap x) candidate then alloc_scid_loop n
      else
        mods (fun x => x <| conv_bitmap := bitmap_set (conv_bitmap x) candidate true |>);;
        mret (inl candidate)
  end.

(** [inl] of the id stored in [*scid], [inr] of the error. *)
Definition kcp_alloc_local_scid (retries : Z) : io kcp_context (Z + Z) :=
  x ← get;
  if bitmap_count (conv_bitmap x) =? bm_size (conv_bitmap x) then mret (inr NO_MORE_CONV)
  else alloc_scid_loop (S (Z.to_nat retries)).

(** ** The write timer *)

(** Seconds and microseconds of a [struct timeval], and the milliseconds they are. *)
Definition kcp_timer_from_delay_ms (delay_ms : Z) : Z * Z := (delay_ms / 1000, delay_ms mod 1000 * 1000).
Definition tv_ms (tv : Z * Z) : Z := tv.1 * 1000 + tv.2 / 1000.

(** The loop over the set: the earliest flush that is due.  One unit of fuel per
    connection of the set and one for the end. *)
Fixpoint next_due_loop (fuel : nat) (pos : option Z) (next_due_ms : Z) : io kcp_context Z :=
  match pos with
  | None => mret next_due_ms
  | Some pos =>
      match fuel with
      | O => undefined
      | S fuel =>
          c ← conn_at pos;
          x ← get;
          let next_due_ms :=
            if negb (need_write_timer_event c) || bool_decide (state c = KCP_STATE_DISCONNECTED)
            then next_due_ms else MIN next_due_ms (ts_flush c) in
          next ← connection_next x pos;
          next_due_loop fuel next next_due_ms
      end
  end.

Definition set_fuel (x : kcp_context) : nat := length (RbTree.elements (connection_set x)).

Definition kcp_refresh_write_timer : io kcp_context unit :=
  x ← get;
  if bool_decide (write_timer_event x = timer_null) then mret tt
  else
    now_ms ← kcp_time_monotonic_ms;
    next_due_ms ← next_due_loop (set_fuel x) (connection_first x) UINT64_MAX;
    ev ← (if next_due_ms =? UINT64_MAX then event_del (write_timer_event x)
          else
            let tv := if next_due_ms <=? now_ms then (0, 1)
                      else kcp_timer_from_delay_ms (next_due_ms - now_ms) in
            evtimer_add (write_timer_event x) (tv_ms tv));
    mods (fun x => x <| write_timer_event := ev |>).

(** [kcp_add_write_event], of kcp_net_utils.c. *)
Definition kcp_add_write_event (addr : Z) : io kcp_context Z :=
  x ← get;
  if bool_decide (write_event x = timer_null) then mret INVALID_PARAM
  else
    when (bool_decide (addr ∉ conn_write_event_queue x))
      (mods (fun x => x <| conn_write_event_queue ::= (fun q => q ++ [addr]) |>));;
    ev ← evtimer_add (write_event x) 0;
    mods (fun x => x <| write_event := ev |>);;
    mret 0.

(** ** The life of a connection *)

Definition bbr_init (mss now : Z) : bbr_state :=
  BbrState KCP_BBR_STARTUP 0 0 false (replicate KCP_BBR_BW_FILTER_LEN 0) 0 0 0 0 0 0 0 0
    now KCP_BBR_STARTUP_GAIN_NUM KCP_BBR_CWND_GAIN_NUM KCP_BBR_MIN_CWND_PKTS
    (u64 (mss * 1000)) (u64 (mss * KCP_BBR_MIN_CWND_PKTS)) now.

(** An allocation whose result is not checked. *)
Definition malloc_unchecked {X} : io X unit := ok ← malloc; if ok : bool then mret tt else undefined.

Fixpoint mallocs_unchecked {X} (n : nat) : io X unit :=
  match n with O => mret tt | S n => malloc_unchecked;; mallocs_unchecked n end.

(** The members of [mtu_probe_ctx] that are not set hold what the memory held.
    ([probe_buf] and [buffer] are written later; a failed allocation of them is
    undefined at once here.) *)
Definition mtu_probe_init {X} (ipv6 : bool) : io X mtu_probe_ctx :=
  malloc_unchecked;;
  malloc_unchecked;;
  mem ← uninitialised 22;
  buf ← uninitialised (Z.to_nat (KCP_HEADER_SIZE + ETHERNET_MTU));
  mret (MtuProbeCtx timer_null (if ipv6 then ETHERNET_MTU_V6_MIN else ETHERNET_MTU_V4_MIN)
          (le_combine (take 4 mem)) (le_combine (take 4 (drop 4 mem))) DEFAULT_MTU_PROBE_TIMEOUT
          (le_combine (take 2 (drop 8 mem))) (le_combine (take 4 (drop 10 mem)))
          (le_combine (take 8 (drop 14 mem))) buf).

Definition ping_init : ping_ctx :=
  PingCtx DEFAULT_KEEPALIVE_TIMEOUT DEFAULT_KEEPALIVE_INTERVAL 0 DEFAULT_KEEPALIVE_RETRIES 0 0 0 0 [].

(** [mem] is what the memory of the object held: [fastlimit] and [user_data] keep it. *)
Definition kcp_connection_init (mem : kcp_connection) (remote_host_ : sockaddr) : io kcp_context kcp_connection :=
  x ← get;
  let mtu_ := u32 (udp_mtu x) in
  let mss_ := u32 (mtu_ - KCP_HEADER_SIZE) in
  let mss_min_ := kcp_get_min_mtu (is_inet6 remote_host_) - KCP_HEADER_SIZE in
  now ← kcp_time_monotonic_us;
  malloc_unchecked;;
  probe_ctx ← mtu_probe_init (is_inet6 remote_host_);
  malloc_unchecked;;
  mret (KcpConnection (k_self mem) 0 0 mtu_ mss_ mss_min_ 0 0 0 0 0 0 0 (KCP_RTO_DEF * 1000) (KCP_RTO_MIN * 1000)
          KCP_WND_SND KCP_WND_RCV KCP_WND_RCV KCP_BBR_MIN_CWND_PKTS 0 0 0 0 30 0 0 0 0 0 0 0
          (u32 (KCP_BBR_MIN_CWND_PKTS * mss_)) (bbr_init mss_ now)
          [] [] [] [] Leaf Leaf [] [] [] 0 (fastlimit mem) 0
          timer_null timer_null false KCP_STATE_DISCONNECTED DEFAULT_RECEIVE_TIMEOUT
          DEFAULT_SYN_FIN_RETRIES DEFAULT_SYN_FIN_RETRIES remote_host_ [] (-1) []
          probe_ctx ping_init false false (user_data mem) 0 0 0 0).

(** A new object that holds [mem]. *)
Definition allocate (mem : kcp_connection) : io kcp_context Z :=
  x ← get;
  let addr := next_address x in
  mods (fun x => x <| heap ::= <[addr := mem <| k_self := addr |>]> |> <| next_address ::= Z.succ |>);;
  mret addr.

(** The lists and trees of the connection are freed with it. *)
Definition kcp_connection_destroy (addr : Z) : io kcp_context unit :=
  connection_set_erase_node addr;;
  c ← conn_at addr;
  mods (fun x => if negb (scid c =? 0) && bitmap_get (conv_bitmap x) (scid c)
                 then x <| conv_bitmap := bitmap_set (conv_bitmap x) (scid c) false |> else x);;
  mods (fun x => x <| conn_write_event_queue ::= List.filter (fun a => negb (a =? addr)) |>
                   <| heap ::= delete addr |>);;
  kcp_refresh_write_timer.
