(* ===== verification/ContextSpec.v ===== *)
(** * ContextSpec: the set of connections, the ids and the write timer

    The invariant of a context ([ctx_ok]): the connection set is a red-black tree
    ordered by the ids of the peers, of live connections, whose size is the
    [KCP_BITMAP_SIZE] of the map of local ids.  Under it the operations of
    connection_set.c are those of a finite map ([connection_set_insert_correct]),
    ids are handed out once ([kcp_alloc_local_scid_correct]), the write timer is the
    earliest flush that is due ([kcp_refresh_write_timer_earliest]) and a connection
    leaves nothing behind ([kcp_connection_destroy_correct]). *)

From stdpp Require Import gmap.
From S2P Require Import Prelude RbTree Bytes Bitmap Xxhash Config Wire Types World Net Bbr Snd Recv Flush Mtu Context.

(** The connections of the set, in order. *)
Definition members (x : kcp_context) : list Z := RbTree.elements (connection_set x).

Record ctx_ok (x : kcp_context) : Prop := {
  ctx_tree : tree_ok (dcid_at x) (connection_set x);
  ctx_live : forall a, a ∈ members x -> is_Some (heap x !! a);
  ctx_self : forall a c, heap x !! a = Some c -> k_self c = a /\ a < next_address x;
  ctx_ids : bitmap_ok (conv_bitmap x) /\ bm_size (conv_bitmap x) = KCP_BITMAP_SIZE;
}.

Lemma search_find x k :
  ctx_ok x -> connection_set_search x k = find_by (dcid_at x) k (members x).
Proof. intros Hx. unfold connection_set_search. rewrite rb_search_find; [done|]. apply (ctx_tree _ Hx). Qed.

Lemma search_self x a :
  ctx_ok x -> a ∈ members x -> connection_set_search x (dcid_at x a) = Some a.
Proof. intros Hx Ha. rewrite search_find by done. apply find_by_elem; [apply (ctx_tree _ Hx)|done]. Qed.

Lemma search_Some x k a :
  ctx_ok x -> connection_set_search x k = Some a <-> a ∈ members x /\ dcid_at x a = k.
Proof.
  intros Hx. split.
  - rewrite search_find by done. apply find_by_Some.
  - intros [Ha <-]. by apply search_self.
Qed.

Lemma members_key_ext (x x' : kcp_context) :
  connection_set x' = connection_set x -> (forall a, a ∈ members x -> dcid_at x' a = dcid_at x a) ->
  tree_ok (dcid_at x) (connection_set x) -> tree_ok (dcid_at x') (connection_set x').
Proof.
  intros Hs Hk [H1 H2]. rewrite Hs. split; [done|]. unfold bst in *. eapply ksorted_key_ext, H2.
  intros a Ha. symmetry. by apply Hk.
Qed.

(** ** Access *)

Lemma conn_at_run x e a c : heap x !! a = Some c -> conn_at a (x, e) = Some (c, (x, e)).
Proof.
  intros Ha. unfold conn_at, on_conn. rewrite Ha. unfold get, gets. cbn.
  do 3 f_equal. destruct x; unfold set_field; cbn in *. f_equal. by apply insert_id.
Qed.

Lemma on_conn_run {A} (m : io kcp_connection A) x e a c r c' e' :
  heap x !! a = Some c -> m (c, e) = Some (r, (c', e')) ->
  on_conn a m (x, e) = Some (r, (x <| heap ::= <[a := c']> |>, e')).
Proof. intros Ha Hm. unfold on_conn. by rewrite Ha, Hm. Qed.

Lemma wp_on_conn {A} (m : io kcp_connection A) Q x e a c :
  heap x !! a = Some c -> wp m (fun r s => Q r (x <| heap ::= <[a := s.1]> |>, s.2)) (c, e) ->
  wp (on_conn a m) Q (x, e).
Proof. unfold wp, on_conn. intros ->. destruct (m (c, e)) as [[r [c' e']]|]; done. Qed.

Lemma wp_conn_at (Q : kcp_connection -> kcp_context * env -> Prop) x e a c :
  heap x !! a = Some c -> Q c (x, e) -> wp (conn_at a) Q (x, e).
Proof. intros Ha HQ. eapply wp_run; [by apply conn_at_run|done]. Qed.

Lemma heap_set_twice x a c c' :
  x <| heap ::= <[a := c]> |> <| heap ::= <[a := c']> |> = x <| heap ::= <[a := c']> |>.
Proof. destruct x; unfold set_field; cbn. f_equal. apply insert_insert_eq. Qed.

(** What a change of one connection that keeps its peer id and address leaves. *)
Lemma ctx_ok_conn x a c c' :
  ctx_ok x -> heap x !! a = Some c -> dcid c' = dcid c -> k_self c' = k_self c ->
  ctx_ok (x <| heap ::= <[a := c']> |>) /\
  (forall b, dcid_at (x <| heap ::= <[a := c']> |>) b = dcid_at x b).
Proof.
  intros [Ht Hl Hs Hi] Ha Hd Hk.
  assert (forall b, dcid_at (x <| heap ::= <[a := c']> |>) b = dcid_at x b) as Hdc.
  { intros b. unfold dcid_at. change (heap (x <| heap ::= <[a := c']> |>)) with (<[a := c']> (heap x)).
    destruct (decide (b = a)) as [->|]; [rewrite lookup_insert_eq, Ha; done|by rewrite lookup_insert_ne]. }
  split; [|done]. constructor.
  - by apply (members_key_ext x).
  - intros b Hb. change (is_Some (<[a := c']> (heap x) !! b)). apply lookup_insert_is_Some'. right. by apply Hl.
  - intros b d. change (<[a := c']> (heap x) !! b = Some d -> k_self d = b /\ b < next_address x).
    intros [[<- <-]|[? ?]]%lookup_insert_Some; [|by apply Hs]. rewrite Hk. by apply Hs.
  - done.
Qed.

(** ** The connection set as a finite map *)

(** [x'] is [x] but for the tree of connections. *)
Definition same_but_set (x x' : kcp_context) : Prop := x' = x <| connection_set := connection_set x' |>.

Lemma connection_set_insert_run (x : kcp_context) (e : env) (addr : Z) (c : kcp_connection) :
  ctx_ok x -> heap x !! addr = Some c ->
  exists inserted x', connection_set_insert addr (x, e) = Some (inserted, (x', e)) /\
    ctx_ok x' /\ same_but_set x x' /\
    (inserted = false <-> exists other, connection_set_search x (dcid c) = Some other) /\
    (inserted = false -> x' = x) /\
    (inserted = true -> forall k,
       connection_set_search x' k = if k =? dcid c then Some addr else connection_set_search x k).
Proof.
  intros Hx Ha. unfold connection_set_insert. rewrite (bind_eq _ _ _ x (x, e)) by done.
  assert (dcid_at x addr = dcid c) as Hd by (unfold dcid_at; by rewrite Ha).
  rewrite Hd. destruct (connection_set_search x (dcid c)) as [other|] eqn:Es.
  { exists false, x. split_and!; try done; [by destruct x|split; [by eexists|done]]. }
  assert (forall y, y ∈ members x -> dcid_at x y <> dcid_at x addr) as Hne.
  { rewrite Hd. rewrite search_find in Es by done. by apply find_by_None. }
  pose proof (rb_insert_ok (dcid_at x) addr _ (ctx_tree _ Hx) Hne) as Hok.
  pose proof (rb_insert_elements (dcid_at x) addr _ (ctx_tree _ Hx)) as Hel.
  set (x' := x <| connection_set := rb_insert (dcid_at x) addr (connection_set x) |>).
  assert (ctx_ok x') as Hx'.
  { destruct Hx as [_ Hl Hs Hi]. constructor; [exact Hok| |exact Hs|exact Hi].
    intros a. change (a ∈ RbTree.elements (rb_insert (dcid_at x) addr (connection_set x)) -> is_Some (heap x !! a)).
    rewrite Hel. intros [->|?]%elem_of_insert_by; [by eexists|by apply Hl]. }
  exists true, x'. split_and!; try done.
  - split; [done|]. intros [? ?]. done.
  - intros _ k. rewrite !search_find by done.
    change (find_by (dcid_at x) k (RbTree.elements (rb_insert (dcid_at x) addr (connection_set x))) =
            if k =? dcid c then Some addr else find_by (dcid_at x) k (members x)).
    rewrite Hel, <- Hd. apply find_by_insert_by; [apply (ctx_tree _ Hx)|done].
Qed.

(** C19: Inserting a live connection in the connection
    set: when the id of its peer is there already nothing changes and the answer is
    false; otherwise the set stays a well-formed red-black tree, the connection is
    found under that id, the answer for every other id is as before, and nothing but
    the tree changes. *)
Theorem connection_set_insert_correct (x : kcp_context) (e : env) (addr : Z) (c : kcp_connection) :
  ctx_ok x -> heap x !! addr = Some c ->
  exists inserted x', connection_set_insert addr (x, e) = Some (inserted, (x', e)) /\
    ctx_ok x' /\ same_but_set x x' /\
    (inserted = false <-> exists other, connection_set_search x (dcid c) = Some other) /\
    (inserted = false -> x' = x) /\
    (inserted = true -> forall k,
       connection_set_search x' k = if k =? dcid c then Some addr else connection_set_search x k).
Proof. apply connection_set_insert_run. Qed.

(** ** Erasing *)

(** The node of a member is found and unlinked. *)
Lemma erase_node_run x e a :
  ctx_ok x -> a ∈ members x ->
  exists x', connection_set_erase_node a (x, e) = Some (tt, (x', e)) /\ ctx_ok x' /\ same_but_set x x' /\
    members x' = remove_by (dcid_at x) (dcid_at x a) (members x).
Proof.
  intros Hx Ha. unfold connection_set_erase_node. rewrite (bind_eq _ _ _ x (x, e)) by done.
  rewrite bool_decide_true by done. rewrite bool_decide_true by (by apply search_self).
  destruct (rb_erase_opt_ok (dcid_at x) (dcid_at x a) _ (ctx_tree _ Hx)) as (t & He & Ht & Hel); [by exists a|].
  rewrite He. exists (x <| connection_set := t |>). split_and!; try done.
  destruct Hx as [_ Hl Hs Hi]. constructor; [exact Ht| |exact Hs|exact Hi].
  intros b. change (b ∈ RbTree.elements t -> is_Some (heap x !! b)). rewrite Hel.
  intros [? _]%elem_of_remove_by. by apply Hl.
Qed.

Lemma elem_of_removed x a b :
  ctx_ok x -> a ∈ members x ->
  b ∈ remove_by (dcid_at x) (dcid_at x a) (members x) <-> b ∈ members x /\ b <> a.
Proof.
  intros Hx Ha. rewrite elem_of_remove_by. split; intros [Hb Hne]; (split; [done|]).
  - by intros ->.
  - intros Hk. apply Hne. pose proof (search_self x a Hx Ha) as H1. pose proof (search_self x b Hx Hb) as H2.
    rewrite Hk in H2. congruence.
Qed.

(** ** Connection ids *)

(** The id is drawn and, when the map has a bit for it, recorded. *)
Definition id_taken (x : kcp_context) (id : Z) (x' : kcp_context) : Prop :=
  1 <= id <= KCP_BITMAP_SIZE /\ id <> connection_id x /\ bitmap_get (conv_bitmap x) id = false /\
  x' = x <| conv_bitmap := bitmap_set (conv_bitmap x) id true |>.

Lemma alloc_scid_loop_spec n x e :
  exists r x' e', alloc_scid_loop n (x, e) = Some (r, (x', e')) /\ same_io e e' /\
    match r with inl id => id_taken x id x' | inr code => code = CONNECTION_ID_CONFLICT /\ x' = x end.
Proof.
  revert e. induction n as [|n IH]; intros e; cbn [alloc_scid_loop]; [by eexists _, x, e|].
  destruct (kcp_random_spec 1 KCP_BITMAP_SIZE x e) as (v & e1 & Hr & Hv & Ht); [done..|].
  rewrite (bind_eq _ _ _ _ _ Hr). rewrite (bind_eq _ _ _ x (x, e1)) by done.
  unfold KCP_BITMAP_SIZE in Hv. rewrite u16_small by lia.
  assert (forall e', same_io e1 e' -> same_io e e') as Hio.
  { unfold same_io in *. intros e' (H1 & H2 & H3). destruct Ht as (<- & <- & <-). done. }
  assert (exists r x' e', alloc_scid_loop n (x, e1) = Some (r, (x', e')) /\ same_io e e' /\
    match r with inl id => id_taken x id x' | inr code => code = CONNECTION_ID_CONFLICT /\ x' = x end) as Hagain.
  { destruct (IH e1) as (r & x' & e' & ? & ? & ?). exists r, x', e'. auto. }
  destruct (Z.eqb_spec v (connection_id x)); [exact Hagain|].
  destruct (bitmap_get (conv_bitmap x) v) eqn:Hb; [exact Hagain|].
  eexists _, _, e1. split_and!; [reflexivity|done|]. unfold id_taken, KCP_BITMAP_SIZE. split_and!; done || lia.
Qed.

Lemma kcp_alloc_local_scid_run (x : kcp_context) (e : env) (retries : Z) :
  ctx_ok x ->
  exists r x' e', kcp_alloc_local_scid retries (x, e) = Some (r, (x', e')) /\ ctx_ok x' /\
    same_io e e' /\
    match r with
    | inl id =>
        1 <= id <= KCP_BITMAP_SIZE /\ id <> connection_id x /\ bitmap_get (conv_bitmap x) id = false /\
        (forall j, 0 <= j -> bitmap_get (conv_bitmap x') j =
           if j =? id then bool_decide (id < KCP_BITMAP_SIZE) else bitmap_get (conv_bitmap x) j) /\
        x' = x <| conv_bitmap := conv_bitmap x' |>
    | inr code => code = CONNECTION_ID_CONFLICT /\ x' = x
    end.
Proof.
  intros Hx. destruct (ctx_ids _ Hx) as [Hb Hs]. unfold kcp_alloc_local_scid.
  rewrite (bind_eq _ _ _ x (x, e)) by done.
  pose proof (bitmap_count_not_full (conv_bitmap x) Hb ltac:(rewrite Hs; done)) as Hn.
  destruct (Z.eqb_spec (bitmap_count (conv_bitmap x)) (bm_size (conv_bitmap x))); [lia|].
  destruct (alloc_scid_loop_spec (S (Z.to_nat retries)) x e) as (r & x' & e' & -> & Ht & Hr).
  exists r, x', e'. split; [done|]. destruct r as [id|code]; [|destruct Hr as [-> ->]; by split_and!].
  destruct Hr as (Hid & Hne & Hfree & ->).
  split; [|split; [done|]; split; [exact Hid|]; split_and!; try done].
  - destruct Hx as [H1 H2 H3 _]. constructor; [exact H1|exact H2|exact H3|]. cbn.
    split; [by apply bitmap_set_ok|by rewrite bitmap_set_size].
  - intros j Hj. change (bitmap_get (bitmap_set (conv_bitmap x) id true) j =
      if j =? id then bool_decide (id < KCP_BITMAP_SIZE) else bitmap_get (conv_bitmap x) j).
    rewrite bitmap_get_set_lookup by (done || lia). rewrite Hs.
    destruct (Z.eqb_spec j id) as [->|].
    + case_bool_decide; [by rewrite bool_decide_true by tauto|]. by rewrite bool_decide_false by tauto.
    + by rewrite bool_decide_false by (intros [? _]; lia).
Qed.

(** C34: Drawing a local id in a context: the answer is an
    id between 1 and KCP_BITMAP_SIZE that is neither the context's own nor taken,
    and no other id changes hands; from then on it reads as taken, except
    KCP_BITMAP_SIZE itself, for which the map has no bit.  The only error is
    CONNECTION_ID_CONFLICT, which leaves the context alone: NO_MORE_CONV is never
    answered. *)
Theorem kcp_alloc_local_scid_correct (x : kcp_context) (e : env) (retries : Z) :
  ctx_ok x ->
  exists r x' e', kcp_alloc_local_scid retries (x, e) = Some (r, (x', e')) /\ ctx_ok x' /\
    e_trace e' = e_trace e /\
    match r with
    | inl id =>
        1 <= id <= KCP_BITMAP_SIZE /\ id <> connection_id x /\ bitmap_get (conv_bitmap x) id = false /\
        (forall j, 0 <= j -> bitmap_get (conv_bitmap x') j =
           if j =? id then bool_decide (id < KCP_BITMAP_SIZE) else bitmap_get (conv_bitmap x) j) /\
        x' = x <| conv_bitmap := conv_bitmap x' |>
    | inr code => code = CONNECTION_ID_CONFLICT /\ x' = x
    end.
Proof.
  intros Hx. destruct (kcp_alloc_local_scid_run x e retries Hx) as (r & x' & e' & Hr & Hx' & [Ht _] & Hcase).
  by exists r, x', e'.
Qed.

(** ** The write timer *)

(** The connections the write timer waits for, and the earliest of their flushes. *)
Definition armed (c : kcp_connection) : bool :=
  need_write_timer_event c && negb (bool_decide (state c = KCP_STATE_DISCONNECTED)).

Definition due_times (x : kcp_context) (l : list Z) : list Z :=
  flat_map (fun a => match heap x !! a with Some c => if armed c then [ts_flush c] else [] | None => [] end) l.

Lemma due_times_ext (x x' : kcp_context) l :
  (forall b, b ∈ l -> heap x' !! b = heap x !! b) -> due_times x' l = due_times x l.
Proof.
  unfold due_times. induction l as [|b l IH]; intros Hh; cbn [flat_map]; [done|].
  rewrite Hh by constructor. rewrite IH; [done|]. intros c Hc. apply Hh. by constructor.
Qed.

Lemma elem_of_due_times x l t :
  t ∈ due_times x l <-> exists b c, b ∈ l /\ heap x !! b = Some c /\ armed c = true /\ t = ts_flush c.
Proof.
  unfold due_times. rewrite list_elem_of_In, in_flat_map. split.
  - intros (b & Hb & Ht). destruct (heap x !! b) as [c|] eqn:Hc; [|done]. destruct (armed c) eqn:Ha; [|done].
    destruct Ht as [<-|[]]. exists b, c. split_and!; try done. by apply list_elem_of_In.
  - intros (b & c & Hb & Hc & Ha & ->). exists b. rewrite Hc, Ha. split; [by apply list_elem_of_In|by left].
Qed.

Lemma next_of_member x a l1 l2 :
  ctx_ok x -> members x = l1 ++ a :: l2 ->
  connection_next x a = mret (head l2).
Proof.
  intros Hx Hm. unfold connection_next. rewrite bool_decide_true by (apply search_self; [done|rewrite Hm; set_solver]).
  by rewrite (rb_next_of_elements (dcid_at x) _ _ l1 a l2) by (done || apply (ctx_tree _ Hx)).
Qed.

Lemma next_due_loop_spec x e l1 l2 acc :
  ctx_ok x -> members x = l1 ++ l2 ->
  next_due_loop (length l2) (head l2) acc (x, e) = Some (fold_left MIN (due_times x l2) acc, (x, e)).
Proof.
  intros Hx. revert l1 acc. induction l2 as [|a l2 IH]; intros l1 acc Hm; cbn [next_due_loop head length]; [done|].
  destruct (ctx_live _ Hx a) as [c Hc]; [rewrite Hm; set_solver|].
  rewrite (bind_eq _ _ _ _ _ (conn_at_run x e a c Hc)). rewrite (bind_eq _ _ _ x (x, e)) by done.
  rewrite (next_of_member x a l1 l2) by done. rewrite (bind_eq _ _ _ (head l2) (x, e)) by done.
  rewrite (IH (l1 ++ [a])) by (by rewrite <- app_assoc). do 2 f_equal. cbn [due_times flat_map]. rewrite Hc.
  rewrite fold_left_app. f_equal. unfold armed.
  destruct (need_write_timer_event c); [|done]. by destruct (bool_decide (state c = KCP_STATE_DISCONNECTED)).
Qed.

(** The timer that waits until the earliest of [due], from [now]. *)
Definition timer_for (now : Z) (due : list Z) : timer :=
  match due with
  | [] => timer_idle
  | t :: due => timer_pending (Z.max 0 (fold_left Z.min due t - now))
  end.

Lemma fold_MIN l a : fold_left MIN l a = fold_left Z.min l a.
Proof. revert a. induction l as [|b l IH]; intros a; [done|]. cbn. by rewrite MIN_min, IH. Qed.

Lemma fold_min_bound l a : Forall (fun t => t < UINT64_MAX) l -> a < UINT64_MAX -> fold_left Z.min l a < UINT64_MAX.
Proof. intros Hl. revert a. induction Hl as [|b l Hb _ IH]; intros a Ha; cbn; [done|]. apply IH. lia. Qed.

Lemma tv_ms_delay d : 0 <= d -> tv_ms (kcp_timer_from_delay_ms d) = d.
Proof. intros Hd. unfold tv_ms, kcp_timer_from_delay_ms. cbn [fst snd]. zlia. Qed.

Lemma clock_ms_run {X} (x : X) e :
  exists e', kcp_time_monotonic_ms (x, e) = Some (u64 (e_now e' / 1000000), (x, e')) /\
    e_trace e' = e_trace e /\ e_malloc e' = e_malloc e /\ e_send e' = e_send e.
Proof.
  exists (e <| e_now := e_now e + (next 0 (e_ticks e)).1 |> <| e_ticks := (next 0 (e_ticks e)).2 |>).
  unfold kcp_time_monotonic_ms, clock_gettime, mbind, ST_bind. by destruct (e_ticks e).
Qed.

(** The timer after [kcp_refresh_write_timer]. *)
Lemma refresh_run x e :
  ctx_ok x -> Forall (fun t => t < UINT64_MAX) (due_times x (members x)) ->
  exists e', kcp_refresh_write_timer (x, e) =
      Some (tt, (x <| write_timer_event :=
                   if bool_decide (write_timer_event x = timer_null) then timer_null
                   else timer_for (u64 (e_now e' / 1000000)) (due_times x (members x)) |>, e')) /\
    e_trace e' = e_trace e /\ e_malloc e' = e_malloc e /\ e_send e' = e_send e.
Proof.
  intros Hx Hd. unfold kcp_refresh_write_timer. rewrite (bind_eq _ _ _ x (x, e)) by done.
  destruct (bool_decide_reflect (write_timer_event x = timer_null)) as [Hn|Hn].
  { exists e. split_and!; try done. rewrite <- Hn. by destruct x. }
  destruct (clock_ms_run x e) as (e' & Hc & He). exists e'. split; [|done].
  rewrite (bind_eq _ _ _ _ _ Hc). set (now := u64 (e_now e' / 1000000)).
  unfold connection_first. rewrite rb_first_head.
  pose proof (next_due_loop_spec x e' [] (members x) UINT64_MAX Hx eq_refl) as Hl.
  rewrite (bind_eq _ _ _ _ _ Hl). rewrite fold_MIN.
  destruct (due_times x (members x)) as [|t due] eqn:Ed.
  - cbn [fold_left timer_for]. rewrite Z.eqb_refl. by destruct (write_timer_event x).
  - cbn [fold_left timer_for]. inversion Hd as [|? ? Ht Hdue]; subst. rewrite Z.min_r by lia.
    pose proof (fold_min_bound due t Hdue Ht) as Hlt.
    destruct (Z.eqb_spec (fold_left Z.min due t) UINT64_MAX); [lia|].
    rewrite (bind_eq _ _ _ (timer_pending (Z.max 0 (fold_left Z.min due t - now))) (x, e')); [done|].
    unfold evtimer_add. destruct (write_timer_event x); [done|..].
    all: unfold mret, ST_ret; do 3 f_equal; destruct (Z.leb_spec (fold_left Z.min due t) now);
      [change (tv_ms (0, 1)) with 0; lia|rewrite tv_ms_delay by lia; lia].
Qed.

(** Whatever the due times, the refresh ends and writes only the timer. *)
Lemma refresh_ok x e :
  ctx_ok x ->
  exists ev e', kcp_refresh_write_timer (x, e) = Some (tt, (x <| write_timer_event := ev |>, e')) /\
    e_trace e' = e_trace e /\ e_malloc e' = e_malloc e /\ e_send e' = e_send e.
Proof.
  intros Hx. unfold kcp_refresh_write_timer. rewrite (bind_eq _ _ _ x (x, e)) by done.
  destruct (bool_decide_reflect (write_timer_event x = timer_null)) as [Hn|Hn].
  { exists timer_null, e. split_and!; try done. rewrite <- Hn. by destruct x. }
  destruct (clock_ms_run x e) as (e' & Hc & He). rewrite (bind_eq _ _ _ _ _ Hc).
  unfold connection_first. rewrite rb_first_head.
  rewrite (bind_eq _ _ _ _ _ (next_due_loop_spec x e' [] (members x) UINT64_MAX Hx eq_refl)).
  destruct (_ =? UINT64_MAX); unfold event_del, evtimer_add; (destruct (write_timer_event x); [done|by eexists _, e'..]).
Qed.

(** C26: Refreshing the write timer visits every
    connection of the set once and ends; the timer then waits for the earliest flush
    of those that ask for the timer and are not disconnected, at once when it is
    already due, and is stopped when there is none; nothing else changes. *)
Theorem kcp_refresh_write_timer_earliest (x : kcp_context) (e : env) :
  ctx_ok x -> write_timer_event x <> timer_null ->
  Forall (fun t => t < UINT64_MAX) (due_times x (members x)) ->
  exists e' ev, kcp_refresh_write_timer (x, e) = Some (tt, (x <| write_timer_event := ev |>, e')) /\
    (due_times x (members x) = [] -> ev = timer_idle) /\
    (forall t, t ∈ due_times x (members x) -> (forall t', t' ∈ due_times x (members x) -> t <= t') ->
       ev = timer_pending (Z.max 0 (t - u64 (e_now e' / 1000000)))) /\
    e_trace e' = e_trace e.
Proof.
  intros Hx Hn Hd. destruct (refresh_run x e Hx Hd) as (e' & Hr & Ht & _).
  rewrite bool_decide_false in Hr by done. exists e'. eexists. split; [exact Hr|]. split_and!; [by intros ->| |done].
  intros t Hin Hmin. destruct (due_times x (members x)) as [|t0 due]; [by apply elem_of_nil in Hin|].
  cbn [timer_for]. do 2 f_equal. f_equal.
  assert (forall l a, (fold_left Z.min l a = a \/ fold_left Z.min l a ∈ l) /\
    fold_left Z.min l a <= a /\ forall b, b ∈ l -> fold_left Z.min l a <= b) as Hf.
  { induction l as [|b l IH]; intros a; cbn [fold_left].
    { split_and!; [by left|lia|]. intros b Hb. by apply elem_of_nil in Hb. }
    destruct (IH (Z.min a b)) as (H1 & H2 & H3). split_and!; [|lia|].
    - destruct H1 as [H1|H1]; [|right; by constructor]. rewrite H1.
      destruct (Z.min_spec a b) as [[_ ->]|[_ ->]]; [by left|right; by constructor].
    - intros c [->|Hc]%elem_of_cons; [lia|by apply H3]. }
  destruct (Hf due t0) as (H1 & H2 & H3).
  assert (fold_left Z.min due t0 <= t) by (apply elem_of_cons in Hin as [->|?]; [done|by apply H3]).
  assert (fold_left Z.min due t0 ∈ t0 :: due) as Hin'.
  { destruct H1 as [->|?]; [by constructor|by constructor]. }
  specialize (Hmin _ Hin'). lia.
Qed.

(** ** The end of a connection *)

Definition without (a : Z) (l : list Z) : list Z := List.filter (fun b => negb (b =? a)) l.

Lemma elem_of_without a b l : b ∈ without a l <-> b ∈ l /\ b <> a.
Proof.
  unfold without. rewrite list_elem_of_In, List.filter_In, <- list_elem_of_In.
  destruct (Z.eqb_spec b a); cbn; naive_solver.
Qed.

Lemma removed_without x a :
  ctx_ok x -> a ∈ members x -> remove_by (dcid_at x) (dcid_at x a) (members x) = without a (members x).
Proof.
  intros Hx Ha. unfold remove_by, without. apply List.filter_ext_in. intros b Hb%list_elem_of_In.
  f_equal. destruct (Z.eqb_spec b a) as [->|Hne]; [apply Z.eqb_refl|].
  destruct (elem_of_removed x a b Hx Ha) as [_ H]. specialize (H (conj Hb Hne)).
  apply elem_of_remove_by in H as [_ H]. by apply Z.eqb_neq.
Qed.

(** The local id [id] is given back. *)
Definition id_freed (id : Z) (x : kcp_context) : bitmap :=
  if negb (id =? 0) && bitmap_get (conv_bitmap x) id then bitmap_set (conv_bitmap x) id false else conv_bitmap x.

(** What the destruction of the connection [c] at [a] leaves of [x], up to the tree
    and the timer. *)
Definition destroyed (a : Z) (c : kcp_connection) (x x' : kcp_context) : Prop :=
  x' = x <| connection_set := connection_set x' |> <| conv_bitmap := id_freed (scid c) x |>
         <| conn_write_event_queue := without a (conn_write_event_queue x) |>
         <| heap := delete a (heap x) |> <| write_timer_event := write_timer_event x' |>.

Lemma destroy_run x e a c :
  ctx_ok x -> a ∈ members x -> heap x !! a = Some c ->
  exists x' e', kcp_connection_destroy a (x, e) = Some (tt, (x', e')) /\ ctx_ok x' /\ destroyed a c x x' /\
    members x' = without a (members x) /\ e_trace e' = e_trace e /\ e_malloc e' = e_malloc e /\ e_send e' = e_send e.
Proof.
  intros Hx Ha Hc. unfold kcp_connection_destroy.
  destruct (erase_node_run x e a Hx Ha) as (x1 & Hr1 & Hx1 & Hs1 & Hm1). rewrite (bind_eq _ _ _ _ _ Hr1).
  rewrite removed_without in Hm1 by done. unfold same_but_set in Hs1.
  assert (heap x1 = heap x) as Hh1 by (rewrite Hs1; done).
  assert (conv_bitmap x1 = conv_bitmap x) as Hb1 by (rewrite Hs1; done).
  assert (conn_write_event_queue x1 = conn_write_event_queue x) as Hq1 by (rewrite Hs1; done).
  rewrite (bind_eq _ _ _ c (x1, e)) by (apply conn_at_run; by rewrite Hh1).
  set (x2 := x1 <| conv_bitmap := id_freed (scid c) x1 |>).
  rewrite (bind_eq _ _ _ tt (x2, e)).
  2: { unfold mods, modify, x2, id_freed. do 2 f_equal. f_equal. case_match; [done|]. by destruct x1. }
  set (x3 := x2 <| conn_write_event_queue := without a (conn_write_event_queue x) |> <| heap := delete a (heap x) |>).
  rewrite (bind_eq _ _ _ tt (x3, e)).
  2: { unfold mods, modify. do 2 f_equal. f_equal. unfold x3. rewrite <- Hh1, <- Hq1. done. }
  assert (members x3 = without a (members x)) as Hm3 by done.
  assert (forall b, b ∈ members x3 -> b ∈ members x /\ heap x3 !! b = heap x !! b) as Hmem.
  { intros b. rewrite Hm3, elem_of_without. intros [Hb Hne]. split; [done|].
    change (delete a (heap x) !! b = heap x !! b). by apply lookup_delete_ne. }
  assert (ctx_ok x3) as Hx3.
  { constructor.
    - apply (members_key_ext x1); [done| |apply (ctx_tree _ Hx1)]. intros b Hb.
      destruct (Hmem b Hb) as [_ Hh]. unfold dcid_at. by rewrite Hh, Hh1.
    - intros b Hb. destruct (Hmem b Hb) as [Hb' ->]. by apply (ctx_live _ Hx).
    - intros b d. change (delete a (heap x) !! b = Some d -> k_self d = b /\ b < next_address x1).
      intros [_ Hb]%lookup_delete_Some. replace (next_address x1) with (next_address x) by (by rewrite Hs1).
      by apply (ctx_self _ Hx).
    - change (bitmap_ok (id_freed (scid c) x1) /\ bm_size (id_freed (scid c) x1) = KCP_BITMAP_SIZE).
      unfold id_freed. destruct (ctx_ids _ Hx1). case_match; [|done].
      split; [by apply bitmap_set_ok|by rewrite bitmap_set_size]. }
  destruct (refresh_ok x3 e Hx3) as (ev & e' & -> & Ht & Hml & Hsd).
  exists (x3 <| write_timer_event := ev |>), e'. split; [done|]. split; [by destruct Hx3|]. split_and!; try done.
  unfold destroyed, x3, x2, id_freed. rewrite Hb1, Hs1. done.
Qed.

Lemma destroyed_search x x' a c k :
  ctx_ok x -> a ∈ members x -> heap x !! a = Some c -> ctx_ok x' -> destroyed a c x x' ->
  members x' = without a (members x) ->
  connection_set_search x' k = if k =? dcid c then None else connection_set_search x k.
Proof.
  intros Hx Ha Hc Hx' Hde Hm. assert (dcid_at x a = dcid c) as Hdc by (unfold dcid_at; by rewrite Hc).
  assert (forall b, b ∈ members x' -> dcid_at x' b = dcid_at x b) as Hkeys.
  { intros b. rewrite Hm, elem_of_without. intros [_ Hne]. unfold dcid_at. rewrite Hde.
    change (match delete a (heap x) !! b with Some c0 => dcid c0 | None => 0 end = match heap x !! b with Some c0 => dcid c0 | None => 0 end).
    by rewrite lookup_delete_ne. }
  rewrite !search_find by done. rewrite (find_by_key_ext _ (dcid_at x)) by done.
  rewrite Hm, <- removed_without, <- Hdc by done. apply find_by_remove_by.
Qed.

(** C20: Destroying a connection of the set ends and
    leaves the context consistent: the object is freed, its peer's id is not found
    any more while every other one still is, its local id can be drawn again and no
    other id changes, no write event is left for it, and the user is not called. *)
Theorem kcp_connection_destroy_correct (x : kcp_context) (e : env) (a : Z) (c : kcp_connection) :
  ctx_ok x -> a ∈ members x -> heap x !! a = Some c -> 0 <= scid c ->
  exists x' e', kcp_connection_destroy a (x, e) = Some (tt, (x', e')) /\ ctx_ok x' /\
    heap x' = delete a (heap x) /\
    (forall k, connection_set_search x' k = if k =? dcid c then None else connection_set_search x k) /\
    (forall id, 0 <= id -> bitmap_get (conv_bitmap x') id =
       if (id =? scid c) && negb (id =? 0) then false else bitmap_get (conv_bitmap x) id) /\
    a ∉ conn_write_event_queue x' /\ e_trace e' = e_trace e.
Proof.
  intros Hx Ha Hc Hs. destruct (destroy_run x e a c Hx Ha Hc) as (x' & e' & Hr & Hx' & Hde & Hm & Ht & _).
  exists x', e'. split; [done|]. split; [done|]. split; [by rewrite Hde|]. split_and!; [| | |done].
  - intros k. by apply (destroyed_search x x' a c).
  - intros id Hid. assert (conv_bitmap x' = id_freed (scid c) x) as -> by (rewrite Hde; done).
    unfold id_freed. destruct (Z.eqb_spec id (scid c)) as [->|Hne].
    + destruct (Z.eqb_spec (scid c) 0); cbn [negb andb]; [done|].
      destruct (bitmap_get (conv_bitmap x) (scid c)) eqn:Hg; [|done].
      rewrite bitmap_get_set_lookup by (done || apply (ctx_ids _ Hx)). case_bool_decide as Hb; [done|].
      destruct Hb. split; [done|]. unfold bitmap_get in Hg. case_match; [done|]. by bprop.
    + cbn [andb]. case_match; [|done]. rewrite bitmap_get_set_lookup by (done || apply (ctx_ids _ Hx)).
      by rewrite bool_decide_false by (intros [? _]; lia).
  - rewrite Hde. change (a ∉ without a (conn_write_event_queue x)). rewrite elem_of_without. tauto.
Qed.

(** ** At a concrete context *)

Definition ids_example : bitmap := bitmap_set (Bitmap KCP_BITMAP_SIZE 8192 (replicate 8192 0)) 9 true.

Lemma ids_example_ok : bitmap_ok ids_example /\ bm_size ids_example = KCP_BITMAP_SIZE.
Proof.
  split; [|apply bitmap_set_size]. apply bitmap_set_ok. split; [done|]. split; [done|]. split; [reflexivity|].
  apply Forall_replicate. done.
Qed.

Definition peer_example (addr scid_ dcid_ flush_ms : Z) : kcp_connection :=
  zero_connection <| k_self := addr |> <| scid := scid_ |> <| dcid := dcid_ |> <| ts_flush := flush_ms |>
    <| state := KCP_STATE_CONNECTED |> <| need_write_timer_event := true |>.

(** Two connections, of the peers 20 and 30. *)
Definition context_example : kcp_context :=
  KcpContext true false true true true 7 1430 ids_example [] (rb_insert (fun a => 10 * (a + 1)) 2 (rb_insert (fun a => 10 * (a + 1)) 1 Leaf))
    timer_idle timer_idle timer_idle [1] 0 (<[1 := peer_example 1 9 20 1500]> (<[2 := peer_example 2 11 30 1200]> ∅)) 4 [].

Lemma context_example_ok : ctx_ok context_example.
Proof.
  constructor.
  - apply (members_key_ext (context_example <| heap := <[1 := peer_example 1 9 20 1500]> (<[2 := peer_example 2 11 30 1200]> ∅) |>));
      [done|done|]. split; [|repeat constructor; vm_compute; done].
    split; [reflexivity|]. exists 1%nat. vm_compute. repeat constructor.
  - intros a. change (a ∈ [1; 2] -> is_Some (heap context_example !! a)).
    rewrite !elem_of_cons, elem_of_nil. intros [->|[->|[]]]; by eexists.
  - intros a c. change (<[1 := peer_example 1 9 20 1500]> (<[2 := peer_example 2 11 30 1200]> (∅ : gmap Z kcp_connection)) !! a = Some c ->
      k_self c = a /\ a < 4).
    intros [[<- <-]|[? [[<- <-]|[? H]]%lookup_insert_Some]]%lookup_insert_Some; [done|done|].
    by rewrite lookup_empty in H.
  - apply ids_example_ok.
Qed.

Lemma context_example_due : Forall (fun t => t < UINT64_MAX) (due_times context_example (members context_example)).
Proof. change (Forall (fun t => t < UINT64_MAX) [1500; 1200]). by repeat constructor. Qed.

(** A third connection, of a peer that has one. *)
Definition third_example : kcp_context :=
  context_example <| heap ::= <[3 := zero_connection <| k_self := 3 |> <| dcid := 30 |>]> |>.

Lemma third_example_ok : ctx_ok third_example.
Proof.
  destruct context_example_ok as [Ht Hl Hs Hi]. constructor.
  - apply (members_key_ext context_example); [done| |exact Ht]. intros a.
    change (a ∈ [1; 2] -> dcid_at third_example a = dcid_at context_example a).
    rewrite !elem_of_cons, elem_of_nil. by intros [->|[->|[]]].
  - intros a Ha. change (is_Some (<[3 := zero_connection <| k_self := 3 |> <| dcid := 30 |>]> (heap context_example) !! a)).
    apply lookup_insert_is_Some'. right. by apply Hl.
  - intros a c. change (<[3 := zero_connection <| k_self := 3 |> <| dcid := 30 |>]> (heap context_example) !! a = Some c ->
      k_self c = a /\ a < 4).
    intros [[<- <-]|[? ?]]%lookup_insert_Some; [done|by apply Hs].
  - exact Hi.
Qed.

Lemma connection_set_insert_correct_witness :
  exists x', connection_set_insert 3 (third_example, quiet) = Some (false, (x', quiet)) /\ ctx_ok x' /\ x' = third_example.
Proof.
  destruct (connection_set_insert_correct third_example quiet 3 (zero_connection <| k_self := 3 |> <| dcid := 30 |>))
    as (inserted & x' & Hr & Hx & _ & Hf & Hsame & _); [apply third_example_ok|done|].
  assert (inserted = false) as E by (apply Hf; exists 2; vm_compute; reflexivity).
  rewrite E in Hr. exists x'. split; [exact Hr|]. split; [exact Hx|]. by apply Hsame.
Defined.

(** The id 9 is taken and 7 the context's own; the third draw is free. *)
Lemma kcp_alloc_local_scid_correct_witness :
  exists r x' e', kcp_alloc_local_scid 2 (context_example, quiet <| e_random := [Some 8; Some 6; Some 4] |>) = Some (r, (x', e')) /\
    ctx_ok x' /\ (forall id, r = inl id -> id <> 7 /\ bitmap_get (conv_bitmap context_example) id = false).
Proof.
  destruct (kcp_alloc_local_scid_correct context_example (quiet <| e_random := [Some 8; Some 6; Some 4] |>) 2 context_example_ok)
    as (r & x' & e' & Hrun & Hx & _ & Hr).
  exists r, x', e'. split; [exact Hrun|]. split; [exact Hx|]. intros id ->. destruct Hr as (_ & Hne & Hf & _). by split.
Defined.

(** The flush of the second connection comes first. *)
Lemma kcp_refresh_write_timer_earliest_witness :
  exists e', kcp_refresh_write_timer (context_example, quiet) =
      Some (tt, (context_example <| write_timer_event := timer_pending (Z.max 0 (1200 - u64 (e_now e' / 1000000))) |>, e')).
Proof.
  destruct (kcp_refresh_write_timer_earliest context_example quiet context_example_ok) as (e' & ev & Hr & _ & Hev & _).
  - done.
  - apply context_example_due.
  - exists e'. rewrite Hr. do 4 f_equal. rewrite (Hev 1200); [done| |].
    + change (1200 ∈ [1500; 1200]). by repeat constructor.
    + intros t. change (t ∈ [1500; 1200] -> 1200 <= t). rewrite !elem_of_cons, elem_of_nil. by intros [->|[->|[]]].
Defined.

Lemma kcp_connection_destroy_correct_witness :
  exists x' e', kcp_connection_destroy 1 (context_example, quiet) = Some (tt, (x', e')) /\ ctx_ok x' /\
    connection_set_search x' 20 = None /\ connection_set_search x' 30 = Some 2 /\
    bitmap_get (conv_bitmap x') 9 = false /\ e_trace e' = [].
Proof.
  destruct (kcp_connection_destroy_correct context_example quiet 1 (peer_example 1 9 20 1500))
    as (x' & e' & Hr & Hx & _ & Hs & Hid & _ & Ht);
    [apply context_example_ok|by constructor|done|done|].
  exists x', e'. split; [exact Hr|]. split; [exact Hx|]. rewrite !Hs. split; [done|]. split; [vm_compute; reflexivity|].
  split; [by rewrite Hid|exact Ht].
Defined.
