(* ===== verification/Input.v ===== *)
(** * Input: packets and time outs of a connection

    The packet dispatch of kcp_protocol.c ([kcp_input_pcaket]), the handler of a
    packet in every state of its connection ([on_kcp_read_event]) and the closing
    of a connection.  The callbacks of the user are events of the trace. *)

From stdpp Require Import gmap.
From S2P Require Import Prelude RbTree Bytes Bitmap Xxhash Config Wire Types World Net Bbr Snd Recv Flush Mtu Context.

(** ** Headers *)

(** [XXH32(&ts, sizeof(ts), 0)]: the random number of a SYN or a FIN. *)
Definition ts_hash32 (ts : Z) : Z := XXH32 (le_split 8 ts) 0.

Definition syn_fin_packet_sn (h : kcp_proto_header) : Z :=
  match h_data h with syn_fin_data _ _ packet_sn _ => packet_sn | _ => 0 end.
Definition syn_fin_rand_sn (h : kcp_proto_header) : Z :=
  match h_data h with syn_fin_data _ _ _ rand_sn => rand_sn | _ => 0 end.
Definition syn_fin_ts (h : kcp_proto_header) : Z :=
  match h_data h with syn_fin_data _ ts _ _ => ts | _ => 0 end.

Definition fin_header (c : kcp_connection) (packet_ts ts packet_sn : Z) : kcp_proto_header :=
  KcpProtoHeader (scid c) (dcid c) KCP_CMD_FIN 0 0 0
    (syn_fin_data packet_ts ts packet_sn (ts_hash32 ts)) [].

Definition ack_header (c : kcp_connection) (packet_ts ack_ts sn : Z) : kcp_proto_header :=
  KcpProtoHeader (scid c) (dcid c) KCP_CMD_ACK 0 0 0 (ack_data packet_ts ack_ts sn 0) [].

Definition rst_header (scid dcid ts psn : Z) : kcp_proto_header :=
  KcpProtoHeader scid dcid KCP_CMD_RST 0 0 0 (packet_data ts 0 psn 0 0 []) [].

(** The member [psn] of the RST headers is not set where they are built. *)
Definition uninit_psn {X} : io X Z := mem ← uninitialised 4; mret (le_combine mem).

(** A header encoded in a zeroed buffer of [size] bytes. *)
Definition encoded_header {X} (size : nat) (h : kcp_proto_header) : io X bytes :=
  encoded ← deref (kcp_proto_header_encode h (replicate size 0));
  mret encoded.2.

Definition send_header (h : kcp_proto_header) : io kcp_connection Z :=
  buffer ← encoded_header 32 h;
  c ← get;
  kcp_send_packet c [buffer].

(** A FIN is built, linked in [kcp_proto_header_list] and sent; its allocation is
    not checked. *)
Definition queue_fin (packet_ts ts packet_sn : Z) : io kcp_connection Z :=
  c ← get;
  let header := fin_header c packet_ts ts packet_sn in
  mods (fun c => c <| kcp_proto_header_list ::= (fun l => l ++ [header]) |>);;
  send_header header.

(** ** FIN *)

Definition on_kcp_fin_pcaket (kcp_header : kcp_proto_header) (timestamp : Z) : io kcp_connection Z :=
  malloc_unchecked;;
  queue_fin timestamp timestamp (syn_fin_rand_sn kcp_header);;
  mods (fun c => c <| state := KCP_STATE_FIN_RECEIVED |>);;
  c ← get;
  ev ← (if bool_decide (fin_timer_event c = timer_null) then evtimer_new else mret (fin_timer_event c));
  mods (fun c => c <| fin_timer_event := ev |>);;
  if bool_decide (ev = timer_null) then mret NO_MEMORY
  else
    ev ← evtimer_add ev (receive_timeout c);
    mods (fun c => c <| fin_timer_event := ev |>);;
    mret NO_ERROR.

(** The number of the first FIN, 0 when there is none. *)
Definition first_fin_packet_sn (l : list kcp_proto_header) : Z :=
  match List.find (fun h => h_cmd h =? KCP_CMD_FIN) l with
  | Some h => syn_fin_packet_sn h
  | None => 0
  end.

(** [fin_retries] is unsigned, [fin_retries--] the test of its value before. *)
Definition fin_retry (packet_sn packet_ts : kcp_connection -> Z -> Z) : io kcp_connection Z :=
  malloc_unchecked;;
  ts ← kcp_time_monotonic_us;
  c ← get;
  queue_fin (packet_ts c ts) ts (packet_sn c ts).

Definition on_fin_packet_timeout_cb (addr : Z) : io kcp_context unit :=
  c ← conn_at addr;
  assertion (bool_decide (state c = KCP_STATE_FIN_RECEIVED)) kcp_protocol_c_2081;;
  on_conn addr (mods (fun c => c <| fin_retries ::= (fun n => u32 (n - 1)) |>));;
  if negb (fin_retries c =? 0) then
    on_conn addr (
      fin_retry (fun c _ => first_fin_packet_sn (kcp_proto_header_list c)) (fun _ ts => ts);;
      c ← get;
      ev ← event_del (fin_timer_event c);
      ev ← evtimer_add ev (receive_timeout c);
      mods (fun c => c <| fin_timer_event := ev |>))
  else
    x ← get;
    when (on_closed x)
      (on_conn addr (mods (fun c => c <| state := KCP_STATE_DISCONNECTED |>));; emit (OnClosed addr TIMED_OUT));;
    kcp_connection_destroy addr.

(** ** kcp_input_pcaket *)

(** The requests a PONG answers are removed, and those that are too old. *)
Definition pong_match (sn timestamp keepalive_timeout_ : Z) (pos : ping_session) : bool :=
  negb ((packet_sn pos =? sn) || (u64 (packet_ts pos + u32 (2 * keepalive_timeout_)) <? timestamp)).

(** One turn of the loop over the requests. *)
Definition pong_request (timestamp ts packet_ts_ sn : Z) (c : kcp_connection) (pos : ping_session) : kcp_connection :=
  if packet_sn pos =? sn then
    let rtt := u64 (u64 (timestamp - keepalive_packet_ts (ping c)) - u64 (ts - packet_ts_)) in
    c <| pong_count ::= (fun n => u32 (n + 1)) |>
      <| ping / keepalive_rtt := u32 rtt |> <| ping / keepalive_sn := 0 |>
      <| ping / keepalive_packet_ts := 0 |>
      <| ping / keepalive_next_ts := u64 (timestamp + keepalive_interval (ping c)) |>
      <| ping / keepalive_xretries := 0 |>
  else c.

Definition on_pong (timestamp : Z) (ts packet_ts_ sn : Z) (c : kcp_connection) : kcp_connection :=
  let queue := ping_request_queue (ping c) in
  let c := fold_left (pong_request timestamp ts packet_ts_ sn) queue c in
  c <| ping / ping_request_queue := List.filter (pong_match sn timestamp (keepalive_timeout (ping c))) queue |>.

Definition on_ping (timestamp sn : Z) (c : kcp_connection) : kcp_connection :=
  c <| ping / keepalive_packet_ts := timestamp |> <| ping / keepalive_sn := sn |>
    <| probe ::= (fun p => Z.lor p KCP_PING_RECV) |> <| ping_count ::= (fun n => u32 (n + 1)) |>
    <| ping / keepalive_next_ts := u64 (timestamp + keepalive_interval (ping c)) |>.

Definition kcp_input_pcaket (kcp_header : kcp_proto_header) : io kcp_connection Z :=
  timestamp ← kcp_time_monotonic_us;
  let cmd := h_cmd kcp_header in
  if cmd =? KCP_CMD_ACK then
    mods (fun c => c <| rmt_wnd := h_wnd kcp_header |>);;
    on_kcp_ack_pcaket kcp_header timestamp
  else if cmd =? KCP_CMD_PUSH then
    when (0 <? h_frg kcp_header) (mods (fun c => c <| rmt_wnd := h_wnd kcp_header |>));;
    on_kcp_push_pcaket kcp_header timestamp
  else if cmd =? KCP_CMD_WASK then
    mods (fun c => c <| probe ::= (fun p => Z.lor p KCP_ASK_TELL) |>);; mret NO_ERROR
  else if cmd =? KCP_CMD_WINS then
    mods (fun c => c <| rmt_wnd := h_wnd kcp_header |>);; mret NO_ERROR
  else if cmd =? KCP_CMD_PING then
    match h_data kcp_header with
    | ping_data _ _ sn => mods (on_ping timestamp sn);; mret NO_ERROR
    | _ => undefined
    end
  else if cmd =? KCP_CMD_PONG then
    match h_data kcp_header with
    | ping_data packet_ts ts sn => mods (on_pong timestamp ts packet_ts sn);; mret NO_ERROR
    | _ => undefined
    end
  else if cmd =? KCP_CMD_MTU_PROBE then kcp_mtu_probe_received kcp_header timestamp
  else if cmd =? KCP_CMD_MTU_ACK then kcp_mtu_ack_received kcp_header timestamp
  else if cmd =? KCP_CMD_FIN then on_kcp_fin_pcaket kcp_header timestamp
  else mret NO_ERROR.

(** ** on_kcp_read_event *)

(** The index of a candidate, [None] when it is not one. *)
Fixpoint candidate_index (remote_host_ : sockaddr) (l : list sockaddr) (i : Z) : option Z :=
  match l with
  | [] => None
  | a :: l => if sockaddr_equal a remote_host_ then Some i else candidate_index remote_host_ l (i + 1)
  end.

(** While it connects, a client takes the candidate that answers as its peer. *)
Definition select_candidate (remote_host_ : sockaddr) (c : kcp_connection) : kcp_connection :=
  if bool_decide (state c = KCP_STATE_SYN_SENT) then
    match candidate_index remote_host_ (candidates c) 0 with
    | Some i => c <| remote_host := remote_host_ |> <| selected_candidate_index := i |>
    | None => c
    end
  else c.

(** A callback that is not set is a call of NULL. *)
Definition call_on_connected (addr code : Z) : io kcp_context unit :=
  x ← get;
  if on_connected x then emit (OnConnected addr code) else undefined.

Definition on_kcp_rst (addr : Z) : io kcp_context unit :=
  c ← conn_at addr;
  x ← get;
  match state c with
  | KCP_STATE_SYN_SENT =>
      on_conn addr (mods (fun c => c <| state := KCP_STATE_DISCONNECTED |>));;
      call_on_connected addr CONNECTION_REFUSED
  | KCP_STATE_SYN_RECEIVED =>
      on_conn addr (mods (fun c => c <| state := KCP_STATE_DISCONNECTED |>));;
      when (on_accepted x) (emit (OnAccepted addr CONNECTION_RESET))
  | KCP_STATE_DISCONNECTED => mret tt
  | _ =>
      on_conn addr (mods (fun c => c <| state := KCP_STATE_DISCONNECTED |>));;
      when (on_closed x) (emit (OnClosed addr CONNECTION_RESET))
  end.

(** The first ACK or PUSH from the client: the server is connected. *)
Definition on_handshake_ack (addr : Z) : io kcp_context unit :=
  x ← get;
  on_conn addr (mods (fun c => c <| state := KCP_STATE_CONNECTED |> <| syn_timer_event := timer_null |>));;
  when (on_accepted x)
    (ts ← kcp_time_monotonic_ms;
     on_conn addr (mods (fun c =>
       c <| ts_flush := u64 (ts + interval c) |>
         <| ping / keepalive_next_ts := u64 (u64 (ts * 1000) + keepalive_interval (ping c)) |>));;
     emit (OnAccepted addr NO_ERROR));;
  on_conn addr (mods (fun c => c <| need_write_timer_event := true |>));;
  kcp_refresh_write_timer.

Definition is_our_fin (sn : Z) (h : kcp_proto_header) : bool :=
  (h_cmd h =? KCP_CMD_FIN) && (syn_fin_rand_sn h =? sn).

(** The FIN that answers ours is acknowledged; the ACK of our FIN ends the exchange. *)
Definition on_fin_sent (addr : Z) (kcp_header : kcp_proto_header) : io kcp_context unit :=
  c ← conn_at addr;
  x ← get;
  if (h_cmd kcp_header =? KCP_CMD_FIN) &&
     existsb (is_our_fin (syn_fin_packet_sn kcp_header)) (kcp_proto_header_list c)
  then
    ts ← kcp_time_monotonic_us;
    on_conn addr (send_header (ack_header c (packet_data_ts (h_data kcp_header)) ts (syn_fin_rand_sn kcp_header)));;
    on_conn addr (mods (fun c => c <| state := KCP_STATE_DISCONNECTED |>));;
    when (on_closed x) (emit (OnClosed addr NO_ERROR))
  else mret tt.

Definition ack_sn_of (h : kcp_proto_header) : Z :=
  match h_data h with ack_data _ _ sn _ => sn | _ => 0 end.

Definition on_fin_received (addr : Z) (kcp_header : kcp_proto_header) : io kcp_context unit :=
  c ← conn_at addr;
  x ← get;
  if h_cmd kcp_header =? KCP_CMD_FIN then
    on_conn addr (fin_retry (fun _ _ => syn_fin_rand_sn kcp_header) (fun _ ts => ts));; mret tt
  else if (h_cmd kcp_header =? KCP_CMD_ACK) &&
          existsb (is_our_fin (ack_sn_of kcp_header)) (kcp_proto_header_list c)
  then
    on_conn addr (mods (fun c => c <| state := KCP_STATE_DISCONNECTED |>));;
    when (on_closed x) (emit (OnClosed addr NO_ERROR))
  else mret tt.

(** The reset sent to a client whose first packet is neither ACK nor PUSH. *)
Definition send_rst (addr : Z) (kcp_state : kcp_connection_state) : io kcp_context unit :=
  c ← conn_at addr;
  x ← get;
  ts ← kcp_time_monotonic_us;
  psn ← uninit_psn;
  on_conn addr (send_header (rst_header (scid c) (dcid c) ts psn));;
  on_conn addr (mods (fun c => c <| state := KCP_STATE_DISCONNECTED |>));;
  (match kcp_state with
   | KCP_STATE_SYN_SENT => call_on_connected addr CONNECTION_REFUSED
   | KCP_STATE_SYN_RECEIVED => when (on_accepted x) (emit (OnAccepted addr CONNECTION_RESET))
   | _ => mret tt
   end);;
  kcp_connection_destroy addr.

Definition on_kcp_read_event (addr : Z) (kcp_header : kcp_proto_header) (remote : sockaddr)
  : io kcp_context unit :=
  on_conn addr (mods (select_candidate remote));;
  c ← conn_at addr;
  if negb (sockaddr_equal (remote_host c) remote) then mret tt
  else if h_cmd kcp_header =? KCP_CMD_RST then on_kcp_rst addr
  else
    match state c with
    | KCP_STATE_DISCONNECTED => mret tt
    | KCP_STATE_SYN_RECEIVED =>
        if (h_cmd kcp_header =? KCP_CMD_ACK) || (h_cmd kcp_header =? KCP_CMD_PUSH)
        then on_handshake_ack addr
        else send_rst addr (state c)
    | KCP_STATE_CONNECTED => on_conn addr (kcp_input_pcaket kcp_header);; mret tt
    | KCP_STATE_FIN_SENT => on_fin_sent addr kcp_header
    | KCP_STATE_FIN_RECEIVED => on_fin_received addr kcp_header
    | KCP_STATE_SYN_SENT => mret tt
    end.
