(* ===== verification/InputSpec.v ===== *)
(** * InputSpec: what a packet may do to a connection

    The state machine of the input handlers: a packet moves the connection it is
    for along one of the edges of [transition], each with the command that allows
    it, and touches no other connection ([on_kcp_read_event_transitions]).  The
    handlers of a connected peer are shown to leave its role alone with the
    automation of the database [steady]. *)

From stdpp Require Import gmap.
From S2P Require Import Prelude RbTree Bytes Bitmap Xxhash Config Wire Types World Net Bbr Snd Recv Flush FlushSpec Mtu Context ContextSpec Input.

(** ** Handlers that leave the role of a connection alone *)

Definition role (c : kcp_connection) := (k_self c, scid c, dcid c, remote_host c, state c).

(** [m] leaves what [view] shows of the connection alone. *)
Definition stable {V A} (view : kcp_connection -> V) (m : io kcp_connection A) : Prop :=
  forall s r s', m s = Some (r, s') -> view s'.1 = view s.1.

Notation steady := (stable role).

Section Keeps.
Context {V : Type} (view : kcp_connection -> V).
Notation stable := (stable view).

Lemma stable_ret {A} (a : A) : stable (mret a).
Proof. by intros s r s' [= <- <-]. Qed.
Lemma stable_bind {A B} (m : io kcp_connection A) (k : A -> io kcp_connection B) :
  stable m -> (forall a, stable (k a)) -> stable (m ≫= k).
Proof. intros Hm Hk s r s' (a & s1 & H1 & H2)%bind_Some. rewrite (Hk a _ _ _ H2). by eapply Hm. Qed.
Lemma stable_get : stable get.
Proof. by intros s r s' [= <- <-]. Qed.
Lemma stable_gets {A} (f : kcp_connection * env -> A) : stable (gets f).
Proof. by intros s r s' [= <- <-]. Qed.
Lemma stable_mods f : (forall c, view (f c) = view c) -> stable (mods f).
Proof. intros Hf [c e] r s' [= <- <-]. apply Hf. Qed.
Lemma stable_emit ev : stable (emit ev).
Proof. by intros [c e] r s' [= <- <-]. Qed.
Lemma stable_deref {A} (p : option A) : stable (deref p).
Proof. intros s r s' H. destruct p; by simplify_eq/=. Qed.
Lemma stable_undefined {A} : stable (undefined (A := A)).
Proof. done. Qed.
Lemma stable_when b m : stable m -> stable (when b m).
Proof. intros Hm. destruct b; [done|apply stable_ret]. Qed.
Lemma stable_malloc : stable malloc.
Proof. intros [c e] r s' H. unfold malloc in H. destruct (next true (e_malloc e)). by simplify_eq. Qed.
Lemma stable_uninitialised n : stable (uninitialised n).
Proof. intros [c e] r s' H. unfold uninitialised in H. destruct (next [] (e_uninit e)). by simplify_eq. Qed.
Lemma stable_clock : stable clock_gettime.
Proof. intros [c e] r s' H. unfold clock_gettime in H. destruct (next 0 (e_ticks e)). by simplify_eq. Qed.
Lemma stable_sendmsg remote data : stable (sendmsg remote data).
Proof.
  intros [c e] r s' H. unfold sendmsg in H. destruct (retry_interrupted (e_send e)) as [[|errno] l]; by simplify_eq.
Qed.
Lemma stable_sendmmsg_rest remote data k : stable (sendmmsg_rest remote data k).
Proof.
  revert k. induction data as [|d data IH]; intros k; cbn [sendmmsg_rest]; [apply stable_ret|].
  intros [c e] r s' H. destruct (next Sent (e_send e)) as [[|errno] l]; [|by simplify_eq]. by apply IH in H.
Qed.
Lemma stable_signed l : stable (signed l).
Proof. by intros [c e] r s' [= <- <-]. Qed.
Lemma stable_assertion b f : stable (assertion b f).
Proof. destruct b; by intros [c e] r s' [= <- <-]. Qed.
Lemma stable_event_del ev : stable (event_del ev).
Proof. destruct ev; [apply stable_undefined|apply stable_ret..]. Qed.
Lemma stable_evtimer_add ev ms : stable (evtimer_add ev ms).
Proof. destruct ev; [apply stable_undefined|apply stable_ret..]. Qed.
End Keeps.

Create HintDb steady.
#[export] Hint Resolve stable_ret stable_get stable_gets stable_emit stable_deref stable_undefined stable_malloc
  stable_uninitialised stable_clock stable_sendmsg stable_sendmmsg_rest
  stable_signed stable_assertion stable_event_del stable_evtimer_add : steady.

(** A function of the connection whose cases all keep the view. *)
Ltac pure_view := intros; repeat case_match; reflexivity.

Ltac steady_step :=
  lazymatch goal with
  | |- stable _ (_ ≫= _) => apply stable_bind; [|intros ?]
  | |- stable _ (mods _) => apply stable_mods; solve [pure_view]
  | |- stable _ (when _ _) => apply stable_when
  | |- stable _ (if ?b then _ else _) => destruct b
  | |- stable _ (match ?p with _ => _ end) => destruct p
  | |- stable _ _ => solve [eauto 2 with steady]
  end.
Ltac steady := repeat steady_step.

Section Sends.
Context {V : Type} (view : kcp_connection -> V).

Lemma stable_send_loop remote data k : stable view (send_loop remote data k).
Proof. revert k. induction data as [|d data IH]; intros k; cbn [send_loop]; steady. Qed.

Lemma stable_sendmmsg remote data : stable view (sendmmsg remote data).
Proof. destruct data as [|d data]; cbn [sendmmsg]; steady. Qed.

Lemma stable_kcp_send_packet c data : stable view (kcp_send_packet c data).
Proof.
  pose proof stable_send_loop. pose proof stable_sendmmsg.
  unfold kcp_send_packet, kcp_send_packet_raw, kcp_send_packet_raw_impl. steady.
Qed.
Lemma stable_us : stable view kcp_time_monotonic_us.
Proof. unfold kcp_time_monotonic_us. steady. Qed.
Lemma stable_evtimer_new : stable view evtimer_new.
Proof. unfold evtimer_new. steady. Qed.
Lemma stable_malloc_unchecked : stable view malloc_unchecked.
Proof. unfold malloc_unchecked. steady. Qed.
End Sends.
#[export] Hint Resolve stable_kcp_send_packet stable_us stable_evtimer_new stable_malloc_unchecked : steady.

Lemma stable_send_header {V} (view : kcp_connection -> V) h : stable view (send_header h).
Proof. unfold send_header, encoded_header. steady. Qed.
#[export] Hint Resolve stable_send_header : steady.

(** *** The path MTU *)

Lemma steady_completed mtu_ code : steady (on_mtu_probe_completed mtu_ code).
Proof. unfold on_mtu_probe_completed. steady. Qed.
Lemma steady_send_mtu_probe : steady send_mtu_probe.
Proof. unfold send_mtu_probe, get_last_errno. steady. Qed.
#[export] Hint Resolve steady_completed steady_send_mtu_probe : steady.

Lemma steady_probe_loop fuel : steady (send_mtu_probe_loop fuel).
Proof. induction fuel as [|fuel IH]; cbn [send_mtu_probe_loop]; steady. Qed.
#[export] Hint Resolve steady_probe_loop : steady.

Lemma steady_mtu_probe timeout retry : steady (kcp_mtu_probe timeout retry).
Proof. unfold kcp_mtu_probe, kcp_send_mtu_probe_packet. steady. Qed.
#[export] Hint Resolve steady_mtu_probe : steady.

Lemma steady_probe_update : steady mtu_probe_update.
Proof. unfold mtu_probe_update. steady. Qed.
#[export] Hint Resolve steady_probe_update : steady.

Lemma steady_probe_received h ts : steady (kcp_mtu_probe_received h ts).
Proof. unfold kcp_mtu_probe_received. steady. Qed.
Lemma steady_ack_received h ts : steady (kcp_mtu_ack_received h ts).
Proof. unfold kcp_mtu_ack_received. steady. Qed.
#[export] Hint Resolve steady_probe_received steady_ack_received : steady.

(** *** Data *)

Lemma role_fold {A} (f : kcp_connection -> A -> kcp_connection) l c :
  (forall c a, role (f c a) = role c) -> role (fold_left f l c) = role c.
Proof. intros Hf. revert c. induction l as [|a l IH]; intros c; cbn; [done|]. by rewrite IH. Qed.

(** The connection but for the buffers of the receiver. *)
Definition outside (c : kcp_connection) : kcp_connection :=
  c <| rcv_buf := Leaf |> <| rcv_packet := Leaf |> <| rcv_packet_list := [] |> <| rcv_queue := [] |>
    <| nrcv_buf := 0 |> <| nrcv_que := 0 |> <| rcv_queue_bytes := 0 |>
    <| rcv_buf_unused := [] |> <| nrcv_buf_unused := 0 |>.

Definition beyond (c : kcp_connection) : kcp_connection := (outside c) <| rcv_nxt := 0 |>.

Lemma outside_fold {A} (f : kcp_connection -> A -> kcp_connection) l c :
  (forall c a, outside (f c a) = outside c) -> outside (fold_left f l c) = outside c.
Proof. intros Hf. revert c. induction l as [|a l IH]; intros c; cbn; [done|]. by rewrite IH. Qed.

Lemma outside_destroy l c packet :
  outside (kcp_rcv_packet_destroy (fold_left deliver_fragment l c) packet) = outside c.
Proof. exact (outside_fold deliver_fragment l c (fun _ _ => eq_refl)). Qed.

Lemma stable_deliver_first : stable outside deliver_first.
Proof.
  unfold deliver_first. steady_step; [steady|]. steady_step; [steady|]. steady_step; [|steady].
  steady_step; [steady|]. steady_step; [|steady]. apply stable_mods. intros c0. apply outside_destroy.
Qed.
Lemma stable_recv_get : stable outside kcp_segment_recv_get.
Proof. unfold kcp_segment_recv_get. steady. Qed.
Lemma stable_packet_create psn sn : stable outside (kcp_rcv_packet_create psn sn).
Proof. unfold kcp_rcv_packet_create. steady. Qed.
#[export] Hint Resolve stable_recv_get stable_packet_create : steady.

Lemma beyond_outside c c' : outside c = outside c' -> beyond c = beyond c'.
Proof. unfold beyond. by intros ->. Qed.

Lemma stable_beyond {A} (m : io kcp_connection A) : stable outside m -> stable beyond m.
Proof. unfold stable, beyond. intros Hm s r s' H. by rewrite (Hm s r s' H). Qed.

Lemma stable_push_fragment p seg : stable beyond (push_fragment p seg).
Proof.
  unfold push_fragment. do 5 (steady_step; [steady|]).
  steady_step; [apply stable_beyond, stable_deliver_first|steady].
Qed.

Lemma outside_recv_put c seg :
  outside (ack_item_drop_last (kcp_segment_recv_put c seg)) = outside (ack_item_drop_last c).
Proof. unfold ack_item_drop_last, kcp_segment_recv_put. by case_match. Qed.

(** What a PUSH leaves outside of the buffers: nothing, the request to tell the
    window when it is beyond it, or one acknowledgement to send. *)
Inductive push_effect (c0 : kcp_connection) (t ts sn psn : Z) (c' : kcp_connection) : Prop :=
| push_silent : outside c' = outside c0 -> push_effect c0 t ts sn psn c'
| push_beyond : u32 (rcv_nxt c0 + rcv_wnd c0) <= sn ->
    outside c' = outside (c0 <| probe ::= (fun p => Z.lor p KCP_ASK_TELL) |>) -> push_effect c0 t ts sn psn c'
| push_acks : rcv_nxt c0 <= sn ->
    beyond c' = beyond (c0 <| ack_item ::= (fun l => l ++ [KcpAck sn psn t]) |>) -> push_effect c0 t ts sn psn c'.

Lemma push_outside h t c e code c' e' ts sn psn una len data :
  h_data h = packet_data ts sn psn una len data ->
  on_kcp_push_pcaket h t (c, e) = Some (code, (c', e')) -> push_effect (pinged t c) t ts sn psn c'.
Proof.
  intros Hd H. unfold on_kcp_push_pcaket in H. apply bind_Some in H as ([] & s0 & [= <-] & H).
  apply bind_Some in H as (c0 & s1 & [= <- <-] & H). cbn [fst] in H. rewrite Hd in H.
  fold (pinged t c) in H. set (c0 := pinged t c) in *.
  destruct (Z.leb_spec (u32 (rcv_nxt c0 + rcv_wnd c0)) sn) as [Hw|Hw].
  { injection H as _ <- _. by apply push_beyond. }
  destruct (Z.ltb_spec sn (rcv_nxt c0)) as [Hs|Hs].
  { injection H as _ <- _. by apply push_silent. }
  apply bind_Some in H as (ok & [c1 e1] & H1%(stable_malloc outside) & H). cbn [fst] in H1.
  destruct ok; [|injection H as _ <- _; by apply push_silent]. cbn [negb] in H.
  apply bind_Some in H as (r & [c2 e2] & H2%stable_recv_get & H). cbn [fst] in H2.
  rewrite H1 in H2. clear H1 c1. destruct r as [segment|]; [|injection H as _ <- _; by apply push_silent].
  apply bind_Some in H as ([] & s3 & [= <-] & H). destruct (SEGMENT_ROOM <? len); [done|]. set (c3 := c2 <| ack_item ::= _ |>) in *.
  apply bind_Some in H as (c3' & s4 & [= <- <-] & H). cbn [fst] in H.
  assert (outside c3 = outside (c0 <| ack_item ::= (fun l => l ++ [KcpAck sn psn t]) |>)) as H3.
  { exact (f_equal (fun c => c <| ack_item ::= (fun l => l ++ [KcpAck sn psn t]) |>) H2). }
  assert (forall c4, outside c4 = outside c3 -> outside (ack_item_drop_last c4) = outside c0) as Hdrop.
  { intros c4 H4. rewrite H3 in H4. apply (f_equal ack_item_drop_last) in H4.
    refine (eq_trans H4 _). clear. unfold ack_item_drop_last. destruct c0. unfold set_field; cbn.
    by rewrite removelast_last. }
  destruct (kcp_rcv_segment_search c3 sn).
  { injection H as _ <- _. apply push_silent. rewrite outside_recv_put. by apply Hdrop. }
  set (seg := segment_of_header _ _ _ _ _ _ _ _) in H. clearbody seg.
  apply bind_Some in H as (packet & s4 & H4 & H).
  assert (outside s4.1 = outside c3) as H4'.
  { destruct (kcp_rcv_packet_search c3 psn); [by injection H4 as _ <-|]. exact (stable_packet_create _ _ _ _ _ H4). }
  destruct s4 as [c4 e4]. cbn [fst] in H4'. clear H4. destruct packet as [packet|].
  - apply stable_push_fragment in H. cbn [fst] in H. apply push_acks; [exact Hs|].
    exact (eq_trans H (beyond_outside _ _ (eq_trans H4' H3))).
  - injection H as _ <- _. apply push_silent. rewrite outside_recv_put. by apply Hdrop.
Qed.

(** What shows nothing of the receiver, its acknowledgements and its window. *)
Lemma push_stable {V} (view : kcp_connection -> V) h t :
  (forall c, view (pinged t c) = view c) -> (forall c, view (beyond c) = view c) ->
  (forall c, view (c <| probe ::= (fun p => Z.lor p KCP_ASK_TELL) |>) = view c) ->
  (forall c f, view (c <| ack_item ::= f |>) = view c) -> stable view (on_kcp_push_pcaket h t).
Proof.
  intros H1 H2 H3 H4 [c e] code [c' e'] H.
  assert (exists ts sn psn una len data, h_data h = packet_data ts sn psn una len data) as (ts & sn & psn & una & len & data & Hd).
  { unfold on_kcp_push_pcaket in H. apply bind_Some in H as ([] & s0 & _ & H). apply bind_Some in H as (c0 & s1 & _ & H).
    destruct (h_data h); try done. by eauto 7. }
  cbn [fst]. rewrite <- (H1 c). destruct (push_outside h t c e code c' e' ts sn psn una len data Hd H) as [E|_ E|_ E].
  - by rewrite <- (H2 c'), (beyond_outside _ _ E), H2.
  - by rewrite <- (H3 (pinged t c)), <- (H2 c'), (beyond_outside _ _ E), H2.
  - by rewrite <- (H4 (pinged t c) (fun l => l ++ [KcpAck sn psn t])), <- (H2 c'), E, H2.
Qed.

Lemma steady_push h ts : steady (on_kcp_push_pcaket h ts).
Proof. by apply push_stable. Qed.
#[export] Hint Resolve steady_push : steady.

Lemma role_account c s pos ts : role (account c s pos ts).1 = role c.
Proof. unfold account, handle_snd_buf. cbn [fst]. by case_match. Qed.

Lemma role_update_rtt c rtt : role (update_rtt c rtt) = role c.
Proof. unfold update_rtt. by case_match. Qed.

Lemma role_sn_loop c s buf p a sn ts : role (ack_sn_loop c s buf p a sn ts).1.1 = role c.
Proof.
  induction buf as [|pos buf IH]; cbn [ack_sn_loop]; [done|]. case_match.
  - by destruct (ack_sn_loop c s buf p a sn ts) as [[c1 s1] b1].
  - destruct (sg_sn pos =? sn); [|done]. destruct (sg_xmit pos =? 1).
    + match goal with |- context[account ?c1 ?s1 pos ts] => pose proof (role_account c1 s1 pos ts) as Hr; destruct (account c1 s1 pos ts) end.
      cbn [fst] in *. rewrite Hr. apply role_update_rtt.
    + pose proof (role_account c s pos ts) as Hr. by destruct (account c s pos ts).
Qed.

Lemma role_una_loop c s buf una ts : role (ack_una_loop c s buf una ts).1.1 = role c.
Proof.
  revert c s. induction buf as [|pos buf IH]; intros c s; cbn [ack_una_loop]; [done|]. case_match; [|done].
  pose proof (role_account c s pos ts) as Hr. destruct (account c s pos ts) as [c1 s1]. cbn [fst] in Hr. by rewrite IH.
Qed.

Lemma role_acknowledge c p a sn una ts : role (ack_acknowledge c p a sn una ts).1 = role c.
Proof.
  unfold ack_acknowledge. pose proof (role_sn_loop c (AckSample 0 0 (-1)) (snd_buf c) p a sn ts) as H1.
  destruct (ack_sn_loop _ _ _ _ _ _ _) as [[c1 s1] b1]. cbn [fst] in H1.
  pose proof (role_una_loop (c1 <| snd_buf := b1 |>) s1 (snd_buf (c1 <| snd_buf := b1 |>)) una ts) as H2.
  destruct (ack_una_loop _ _ _ _ _) as [[c2 s2] b2]. cbn [fst] in H2 |- *. rewrite <- H1. change (role c1) with (role (c1 <| snd_buf := b1 |>)).
  rewrite <- H2. unfold update_snd_una, shrink_snd_buf_unused. by case_match.
Qed.

Lemma steady_ack h ts : steady (on_kcp_ack_pcaket h ts).
Proof.
  unfold on_kcp_ack_pcaket. steady_step; [steady|]. steady_step; [steady|]. steady_step; [steady|].
  steady_step; try solve [steady]. steady_step; [steady|]. steady_step; [steady|].
  intros [c0 e] r s' H. apply bind_Some in H as (c1 & s1 & [= <- <-] & H). cbn [fst] in H |- *.
  apply bind_Some in H as ([] & s2 & [= <-] & H).
  match type of H with context[ack_acknowledge ?c2 ?p ?a1 ?sn1 ?u ?t] => pose proof (role_acknowledge c2 p a1 sn1 u t) as Ha;
    destruct (ack_acknowledge c2 p a1 sn1 u t) as [c3 s3] end. cbn [fst] in Ha.
  apply bind_Some in H as ([] & s4 & [= <-] & H). apply bind_Some in H as ([] & s5 & [= <-] & H). cbn [fst] in *.
  rewrite <- Ha. revert H.
  match goal with |- ?m (c3, ?e3) = _ -> _ => enough (steady m) as Hs by exact (Hs (c3, e3) r s') end.
  steady_step; [|steady]. steady_step; [steady|]. steady_step; [|steady].
  apply stable_mods. intros c4.
  match goal with |- role (bbr_on_ack ?c5 ?n ?ab ?bw ?rt) = _ => pose proof (frame_on_ack c5 n ab bw rt) as Hb; set (c6 := bbr_on_ack c5 n ab bw rt) in * end.
  clearbody c6. unfold same_but_bbr in Hb. by rewrite Hb.
Qed.

#[export] Hint Resolve steady_ack : steady.

(** ** The edges *)

(** What a packet of command [cmd] may make of a state. *)
Inductive transition (cmd : Z) : kcp_connection_state -> kcp_connection_state -> Prop :=
| stays st : transition cmd st st
| is_reset st : cmd = KCP_CMD_RST -> transition cmd st KCP_STATE_DISCONNECTED
| is_accepted : cmd = KCP_CMD_ACK \/ cmd = KCP_CMD_PUSH -> transition cmd KCP_STATE_SYN_RECEIVED KCP_STATE_CONNECTED
| peer_closes : cmd = KCP_CMD_FIN -> transition cmd KCP_STATE_CONNECTED KCP_STATE_FIN_RECEIVED
| fin_acknowledged : cmd = KCP_CMD_ACK -> transition cmd KCP_STATE_FIN_RECEIVED KCP_STATE_DISCONNECTED
| fin_answered : cmd = KCP_CMD_FIN -> transition cmd KCP_STATE_FIN_SENT KCP_STATE_DISCONNECTED.

Definition ids (c : kcp_connection) := (k_self c, scid c, dcid c).

Lemma role_ids c c' : role c' = role c -> ids c' = ids c /\ state c' = state c.
Proof. intros [= H1 H2 H3 _ H4]. unfold ids. by rewrite H1, H2, H3. Qed.

Lemma steady_queue_fin a b d : steady (queue_fin a b d).
Proof. unfold queue_fin. steady. Qed.
#[export] Hint Resolve steady_queue_fin : steady.

Lemma steady_fin_retry f g : steady (fin_retry f g).
Proof. unfold fin_retry. steady. Qed.

(** The peer closes: the only handler of a connected peer that changes its state. *)
Lemma fin_pcaket_state h ts s r s' :
  on_kcp_fin_pcaket h ts s = Some (r, s') -> ids s'.1 = ids s.1 /\ state s'.1 = KCP_STATE_FIN_RECEIVED.
Proof.
  unfold on_kcp_fin_pcaket. intros (? & s1 & H1 & H)%bind_Some. apply bind_Some in H as (? & s2 & H2 & H).
  apply (stable_malloc_unchecked role) in H1. apply steady_queue_fin in H2.
  apply bind_Some in H as ([] & s3 & H3 & H).
  assert (ids s3.1 = ids s.1 /\ state s3.1 = KCP_STATE_FIN_RECEIVED) as [Hi Hs].
  { destruct s2 as [c2 e2]. injection H3 as <-. cbn [fst] in *. split; [|done].
    transitivity (ids c2); [done|]. apply role_ids. congruence. }
  match type of H with ?m s3 = _ => assert (steady m) as Hm end.
  { steady_step; [steady|]. steady_step; [steady|]. steady_step; [steady|]. steady. }
  apply Hm, role_ids in H as [H4 H5]. split; congruence.
Qed.

Lemma role_on_pong ts t p sn c : role (on_pong ts t p sn c) = role c.
Proof.
  unfold on_pong. rewrite <- (role_fold (pong_request ts t p sn) (ping_request_queue (ping c)) c); [done|].
  intros c0 pos. unfold pong_request. by case_match.
Qed.

Lemma input_pcaket_state h s r s' :
  kcp_input_pcaket h s = Some (r, s') ->
  ids s'.1 = ids s.1 /\
  (state s'.1 = state s.1 \/ h_cmd h = KCP_CMD_FIN /\ state s'.1 = KCP_STATE_FIN_RECEIVED).
Proof.
  unfold kcp_input_pcaket. intros (ts & s1 & H1 & H)%bind_Some. apply (stable_us role) in H1.
  assert (forall m : io kcp_connection Z, steady m -> m s1 = Some (r, s') -> ids s'.1 = ids s.1 /\
    (state s'.1 = state s.1 \/ h_cmd h = KCP_CMD_FIN /\ state s'.1 = KCP_STATE_FIN_RECEIVED)) as Hst.
  { intros m Hm Hr. apply Hm in Hr. rewrite H1 in Hr. apply role_ids in Hr as [? ?]. auto. }
  destruct (h_cmd h =? KCP_CMD_ACK); [by eapply Hst, H; steady|].
  destruct (h_cmd h =? KCP_CMD_PUSH); [by eapply Hst, H; steady|].
  destruct (h_cmd h =? KCP_CMD_WASK); [by eapply Hst, H; steady|].
  destruct (h_cmd h =? KCP_CMD_WINS); [by eapply Hst, H; steady|].
  destruct (h_cmd h =? KCP_CMD_PING); [by eapply Hst, H; steady|].
  destruct (h_cmd h =? KCP_CMD_PONG).
  { eapply Hst, H. destruct (h_data h) as [| | |p1 p2 p3]; try solve [steady]. steady_step; [|steady].
    apply stable_mods. intros c. apply role_on_pong. }
  destruct (h_cmd h =? KCP_CMD_MTU_PROBE); [by eapply Hst, H; steady|].
  destruct (h_cmd h =? KCP_CMD_MTU_ACK); [by eapply Hst, H; steady|].
  destruct (Z.eqb_spec (h_cmd h) KCP_CMD_FIN); [|by eapply Hst, H; steady].
  apply fin_pcaket_state in H as [Hi Hs]. apply role_ids in H1 as [<- _]. auto.
Qed.

(** ** Handlers of a context *)

(** [m] takes the object at [a] from [I] to [J] and leaves the others alone. *)
Definition moves {A} (a : Z) (I J : option kcp_connection -> Prop) (m : io kcp_context A) : Prop :=
  forall x e r x' e', m (x, e) = Some (r, (x', e')) -> I (heap x !! a) ->
    J (heap x' !! a) /\ forall b, b <> a -> heap x' !! b = heap x !! b.

(** The connection is there, has the ids [i] and the state [st]. *)
Definition at_state i (st : kcp_connection_state) (o : option kcp_connection) : Prop :=
  exists c, o = Some c /\ ids c = i /\ state c = st.

Section Moves.
Context (a : Z).
Implicit Types (I J K : option kcp_connection -> Prop).

Lemma moves_ret {A} I (v : A) : moves a I I (mret v).
Proof. intros x e r x' e' H Hi. by injection H as _ <- _. Qed.

Lemma moves_bind {A B} I J K (m : io kcp_context A) (k : A -> io kcp_context B) :
  moves a I J m -> (forall v, moves a J K (k v)) -> moves a I K (m ≫= k).
Proof.
  intros Hm Hk x e r x' e' (v & [x1 e1] & H1 & H2)%bind_Some Hi. destruct (Hm _ _ _ _ _ H1 Hi) as [Hj Hb1].
  destruct (Hk _ _ _ _ _ _ H2 Hj) as [Hl Hb2]. split; [done|]. intros b Hb. by rewrite Hb2, Hb1.
Qed.

Lemma moves_get I : moves a I I get.
Proof. intros x e r x' e' H Hi. by injection H as _ <- _. Qed.

Lemma moves_emit I ev : moves a I I (emit ev).
Proof. intros x e r x' e' H Hi. by injection H as _ <- _. Qed.

Lemma moves_undefined {A} I J : moves a I J (undefined (A := A)).
Proof. done. Qed.

Lemma moves_when I b m : moves a I I m -> moves a I I (when b m).
Proof. intros Hm. destruct b; [done|apply moves_ret]. Qed.

Lemma moves_us I : moves a I I kcp_time_monotonic_us.
Proof.
  intros x e r x' e' H. unfold kcp_time_monotonic_us, clock_gettime, mbind, ST_bind in H.
  destruct (next 0 (e_ticks e)). by injection H as _ <- _.
Qed.
Lemma moves_ms I : moves a I I kcp_time_monotonic_ms.
Proof.
  intros x e r x' e' H. unfold kcp_time_monotonic_ms, clock_gettime, mbind, ST_bind in H.
  destruct (next 0 (e_ticks e)). by injection H as _ <- _.
Qed.
Lemma moves_uninit_psn I : moves a I I uninit_psn.
Proof.
  intros x e r x' e' H. unfold uninit_psn, uninitialised, mbind, ST_bind in H.
  destruct (next [] (e_uninit e)). by injection H as _ <- _.
Qed.

Lemma on_conn_inv {A} (m : io kcp_connection A) b x e r x' e' :
  on_conn b m (x, e) = Some (r, (x', e')) ->
  exists c c', heap x !! b = Some c /\ m (c, e) = Some (r, (c', e')) /\ x' = x <| heap ::= <[b := c']> |>.
Proof.
  unfold on_conn. destruct (heap x !! b) as [c|]; [|done]. destruct (m (c, e)) as [[r1 [c' e1]]|] eqn:E; [|done].
  intros [= <- <- <-]. exists c, c'. by split_and!.
Qed.

Lemma moves_on_conn {A} I J (m : io kcp_connection A) :
  (forall c e r c' e', I (Some c) -> m (c, e) = Some (r, (c', e')) -> J (Some c')) -> moves a I J (on_conn a m).
Proof.
  intros Hm x e r x' e' (c & c' & Hc & Hr & ->)%on_conn_inv. rewrite Hc. intros Hi.
  change (heap (x <| heap ::= <[a:=c']> |>)) with (<[a := c']> (heap x)). rewrite lookup_insert_eq.
  split; [by eapply Hm|]. intros b Hb. by apply lookup_insert_ne.
Qed.

Lemma conn_at_inv b x e c x' e' :
  conn_at b (x, e) = Some (c, (x', e')) -> heap x !! b = Some c /\ x' = x /\ e' = e.
Proof.
  unfold conn_at. intros (c1 & c' & Hc & [= <- <- <-] & ->)%on_conn_inv. cbn. split_and!; [done| |done].
  destruct x; unfold set_field; cbn in *. f_equal. by apply insert_id.
Qed.

(** Reading the connection. *)
Lemma moves_read {B} I J (k : kcp_connection -> io kcp_context B) :
  (forall c, I (Some c) -> moves a I J (k c)) -> moves a I J (conn_at a ≫= k).
Proof.
  intros Hk x e r x' e' (c & [x1 e1] & (Hc & -> & ->)%conn_at_inv & H2)%bind_Some Hi. rewrite Hc in Hi.
  eapply Hk; [done..|]. by rewrite Hc.
Qed.

Lemma moves_steady {A} i st (m : io kcp_connection A) : steady m -> moves a (at_state i st) (at_state i st) (on_conn a m).
Proof.
  intros Hm. apply moves_on_conn. intros c e r c' e' (c0 & [= <-] & Hi & Hs) Hr. apply Hm, role_ids in Hr as [H1 H2].
  cbn [fst] in *. exists c'. split_and!; congruence.
Qed.

(** A write of the state. *)
Lemma moves_set i st st' f :
  (forall c, ids (f c) = ids c /\ state (f c) = st') -> moves a (at_state i st) (at_state i st') (on_conn a (mods f)).
Proof.
  intros Hf. apply moves_on_conn. intros c e r c' e' (c0 & [= <-] & Hi & Hs) [= _ <- _]. destruct (Hf c) as [H1 H2].
  exists (f c). split_and!; congruence.
Qed.

Lemma next_due_loop_inv fuel pos acc x e r x' e' :
  next_due_loop fuel pos acc (x, e) = Some (r, (x', e')) -> x' = x.
Proof.
  revert pos acc x e. induction fuel as [|fuel IH]; intros [pos|] acc x e; cbn [next_due_loop];
    try (intros [= _ <- _]; done); try done.
  intros (c & [x1 e1] & (_ & -> & ->)%conn_at_inv & H)%bind_Some.
  apply bind_Some in H as (x2 & [x3 e3] & [= <- <- <-] & H). cbn [fst] in H.
  apply bind_Some in H as (n & [x4 e4] & H1 & H2). apply IH in H2. subst x'.
  unfold connection_next in H1. case_bool_decide; [|done]. by injection H1 as _ <- _.
Qed.

Lemma refresh_heap x e r x' e' : kcp_refresh_write_timer (x, e) = Some (r, (x', e')) -> heap x' = heap x.
Proof.
  unfold kcp_refresh_write_timer. intros (x1 & s1 & [= <- <-] & H)%bind_Some. cbn [fst] in H.
  case_bool_decide; [by injection H as _ <- _|].
  apply bind_Some in H as (now & [x2 e2] & H1 & H).
  assert (x2 = x) as ->.
  { unfold kcp_time_monotonic_ms, clock_gettime, mbind, ST_bind in H1. destruct (next 0 (e_ticks e)). by injection H1 as _ <- _. }
  apply bind_Some in H as (due & [x3 e3] & ->%next_due_loop_inv & H).
  apply bind_Some in H as (ev & [x4 e4] & H2 & H).
  assert (x4 = x) as ->.
  { unfold event_del, evtimer_add in H2. repeat case_match; try done; by injection H2 as _ <- _. }
  by injection H as _ <- _.
Qed.

Lemma moves_refresh I : moves a I I kcp_refresh_write_timer.
Proof. intros x e r x' e' H Hi. apply refresh_heap in H. by rewrite H. Qed.

Lemma erase_heap b x e r x' e' : connection_set_erase_node b (x, e) = Some (r, (x', e')) -> heap x' = heap x.
Proof.
  unfold connection_set_erase_node. intros (x1 & s1 & [= <- <-] & H)%bind_Some. cbn [fst] in H.
  repeat case_bool_decide; try done.
  - destruct (rb_erase_opt _ _ _); [|done]. by injection H as _ <- _.
  - by injection H as _ <- _.
Qed.

Lemma moves_destroy I : moves a I (fun o => o = None) (kcp_connection_destroy a).
Proof.
  intros x e r x' e' H _. unfold kcp_connection_destroy in H.
  apply bind_Some in H as ([] & [x1 e1] & H1%erase_heap & H).
  apply bind_Some in H as (c & [x2 e2] & (_ & -> & ->)%conn_at_inv & H).
  apply bind_Some in H as ([] & [x3 e3] & H3 & H). apply bind_Some in H as ([] & [x4 e4] & H4 & H%refresh_heap).
  assert (heap x3 = heap x1) as Hh3.
  { injection H3 as <- _. by case_match. }
  assert (heap x' = delete a (heap x)) as ->.
  { rewrite H. injection H4 as <- _. change (delete a (heap x3) = delete a (heap x)). congruence. }
  rewrite lookup_delete_eq. split; [done|]. intros b Hb. by apply lookup_delete_ne.
Qed.
End Moves.

(** What a packet of command [cmd] leaves of a connection of ids [i] in [st]. *)
Definition outcome (cmd : Z) i (st : kcp_connection_state) (o : option kcp_connection) : Prop :=
  match o with
  | Some c => ids c = i /\ transition cmd st (state c)
  | None => st = KCP_STATE_SYN_RECEIVED /\ cmd <> KCP_CMD_RST /\ cmd <> KCP_CMD_ACK /\ cmd <> KCP_CMD_PUSH
  end.

Section Handlers.
Context (a : Z) (i : Z * Z * Z).
Implicit Types (st : kcp_connection_state).

Lemma moves_weaken {A} I J K (m : io kcp_context A) :
  moves a I J m -> (forall o, J o -> K o) -> moves a I K m.
Proof. intros Hm HJ x e r x' e' H Hi. destruct (Hm _ _ _ _ _ H Hi) as [Hj Hb]. auto. Qed.

Lemma outcome_at cmd st st' o : transition cmd st st' -> at_state i st' o -> outcome cmd i st o.
Proof. intros Ht (c & -> & Hi & <-). by split. Qed.

Lemma moves_disconnect st (k : unit -> io kcp_context unit) :
  (forall v, moves a (at_state i KCP_STATE_DISCONNECTED) (at_state i KCP_STATE_DISCONNECTED) (k v)) ->
  moves a (at_state i st) (at_state i KCP_STATE_DISCONNECTED)
    (on_conn a (mods (fun c => c <| state := KCP_STATE_DISCONNECTED |>)) ≫= k).
Proof. intros Hk. eapply moves_bind; [by apply (moves_set a i st KCP_STATE_DISCONNECTED)|done]. Qed.

Lemma moves_call I code : moves a I I (call_on_connected a code).
Proof.
  unfold call_on_connected. eapply moves_bind; [apply moves_get|]. intros x. case_match; [apply moves_emit|apply moves_undefined].
Qed.

Lemma moves_rst st : moves a (at_state i st) (at_state i KCP_STATE_DISCONNECTED) (on_kcp_rst a).
Proof.
  unfold on_kcp_rst. apply moves_read. intros c (c0 & [= <-] & Hi & Hs). eapply moves_bind; [apply moves_get|]. intros x.
  destruct (state c); subst st;
    try (apply moves_disconnect; intros v; apply moves_when, moves_emit).
  - apply moves_ret.
  - apply moves_disconnect. intros v. apply moves_call.
Qed.

Lemma moves_handshake : moves a (at_state i KCP_STATE_SYN_RECEIVED) (at_state i KCP_STATE_CONNECTED) (on_handshake_ack a).
Proof.
  unfold on_handshake_ack. eapply moves_bind; [apply moves_get|]. intros x.
  eapply moves_bind; [by apply (moves_set a i KCP_STATE_SYN_RECEIVED KCP_STATE_CONNECTED)|]. intros _.
  eapply moves_bind; [apply moves_when|intros _].
  { eapply moves_bind; [apply moves_ms|]. intros ts. eapply moves_bind; [|intros _; apply moves_emit].
    apply moves_steady, stable_mods. done. }
  eapply moves_bind; [apply moves_steady, stable_mods; done|]. intros _. apply moves_refresh.
Qed.

Lemma moves_fin_sent h :
  moves a (at_state i KCP_STATE_FIN_SENT) (outcome (h_cmd h) i KCP_STATE_FIN_SENT) (on_fin_sent a h).
Proof.
  unfold on_fin_sent. apply moves_read. intros c (c0 & [= <-] & Hi & Hs). eapply moves_bind; [apply moves_get|]. intros x.
  destruct (Z.eqb_spec (h_cmd h) KCP_CMD_FIN) as [Hf|]; cbn [andb].
  - destruct (existsb _ _).
    + eapply moves_weaken; [|intros o; eapply outcome_at; by apply fin_answered].
      eapply moves_bind; [apply moves_us|]. intros ts. eapply moves_bind; [apply moves_steady; steady|]. intros _.
      apply moves_disconnect. intros v. apply moves_when, moves_emit.
    + eapply moves_weaken; [apply moves_ret|intros o; eapply outcome_at, stays].
  - eapply moves_weaken; [apply moves_ret|intros o; eapply outcome_at, stays].
Qed.

Lemma moves_fin_received h :
  moves a (at_state i KCP_STATE_FIN_RECEIVED) (outcome (h_cmd h) i KCP_STATE_FIN_RECEIVED) (on_fin_received a h).
Proof.
  unfold on_fin_received. apply moves_read. intros c (c0 & [= <-] & Hi & Hs). eapply moves_bind; [apply moves_get|]. intros x.
  destruct (h_cmd h =? KCP_CMD_FIN).
  - eapply moves_weaken; [|intros o; eapply outcome_at, stays].
    eapply moves_bind; [apply moves_steady, steady_fin_retry|]. intros _. apply moves_ret.
  - destruct (Z.eqb_spec (h_cmd h) KCP_CMD_ACK) as [Hf|]; cbn [andb].
    + destruct (existsb _ _).
      * eapply moves_weaken; [|intros o; eapply outcome_at; by apply fin_acknowledged].
        apply moves_disconnect. intros v. apply moves_when, moves_emit.
      * eapply moves_weaken; [apply moves_ret|intros o; eapply outcome_at, stays].
    + eapply moves_weaken; [apply moves_ret|intros o; eapply outcome_at, stays].
Qed.

Lemma moves_send_rst st : moves a (at_state i st) (fun o => o = None) (send_rst a st).
Proof.
  unfold send_rst. apply moves_read. intros c (c0 & [= <-] & Hi & Hs). eapply moves_bind; [apply moves_get|]. intros x.
  eapply moves_bind; [apply moves_us|]. intros ts. eapply moves_bind; [apply moves_uninit_psn|]. intros psn.
  eapply moves_bind; [apply moves_steady; steady|]. intros _.
  eapply moves_bind; [by apply (moves_set a i st KCP_STATE_DISCONNECTED)|]. intros _.
  apply (moves_bind a _ (at_state i KCP_STATE_DISCONNECTED)); [|intros _; apply moves_destroy].
  destruct st; try apply moves_ret; [apply moves_call|apply moves_when, moves_emit].
Qed.

Lemma moves_input h :
  moves a (at_state i KCP_STATE_CONNECTED) (outcome (h_cmd h) i KCP_STATE_CONNECTED) (on_conn a (kcp_input_pcaket h)).
Proof.
  apply moves_on_conn. intros c e r c' e' (c0 & [= <-] & Hi & Hs) Hrun. apply input_pcaket_state in Hrun as [Hids Hst].
  cbn [fst] in *. split; [congruence|]. destruct Hst as [->|[Hf ->]]; [rewrite Hs; apply stays|by apply peer_closes].
Qed.

Lemma moves_read_event st h remote :
  moves a (at_state i st) (outcome (h_cmd h) i st) (on_kcp_read_event a h remote).
Proof.
  unfold on_kcp_read_event. eapply moves_bind.
  { apply (moves_on_conn a (at_state i st) (at_state i st)). intros c e r c' e' (c0 & [= <-] & Hi & Hs) [= _ <- _].
    exists (select_candidate remote c). rewrite <- Hi, <- Hs. unfold select_candidate. split_and!; by repeat case_match. }
  intros _. apply moves_read. intros c (c0 & [= <-] & Hi & Hs).
  assert (moves a (at_state i st) (outcome (h_cmd h) i st) (mret tt)) as Hret.
  { eapply moves_weaken; [apply moves_ret|intros o; eapply outcome_at, stays]. }
  destruct (negb _); [exact Hret|].
  destruct (Z.eqb_spec (h_cmd h) KCP_CMD_RST) as [Hr|Hr].
  { eapply moves_weaken; [apply moves_rst|intros o; eapply outcome_at; by apply is_reset]. }
  destruct (state c); subst st; try exact Hret.
  - destruct (Z.eqb_spec (h_cmd h) KCP_CMD_ACK) as [Ha|Ha]; cbn [orb].
    { eapply moves_weaken; [apply moves_handshake|intros o; eapply outcome_at; apply is_accepted; auto]. }
    destruct (Z.eqb_spec (h_cmd h) KCP_CMD_PUSH) as [Hp|Hp].
    { eapply moves_weaken; [apply moves_handshake|intros o; eapply outcome_at; apply is_accepted; auto]. }
    eapply moves_weaken; [apply moves_send_rst|]. intros o ->. by split_and!.
  - eapply moves_bind; [apply moves_input|]. intros _. apply moves_ret.
  - apply moves_fin_sent.
  - apply moves_fin_received.
Qed.
End Handlers.

(** C15: Whatever packet arrives, from whomever, and
    whatever the environment answers, the handler moves the connection it is called
    for along an edge of the protocol's state machine that the command of the packet
    allows, and keeps its ids; only a first packet in SYN_RECEIVED that is neither
    ACK, PUSH nor RST frees it; and no other connection of the context is touched.
    In particular only an ACK or PUSH makes a server connected, and a client in
    SYN_SENT is never connected by this handler. *)
Theorem on_kcp_read_event_transitions (x : kcp_context) (e : env) (addr : Z) (h : kcp_proto_header)
    (remote : sockaddr) (c : kcp_connection) (x' : kcp_context) (e' : env) :
  heap x !! addr = Some c -> on_kcp_read_event addr h remote (x, e) = Some (tt, (x', e')) ->
  (forall b, b <> addr -> heap x' !! b = heap x !! b) /\
  match heap x' !! addr with
  | Some c' => (k_self c', scid c', dcid c') = (k_self c, scid c, dcid c) /\
               transition (h_cmd h) (state c) (state c')
  | None => state c = KCP_STATE_SYN_RECEIVED /\ h_cmd h <> KCP_CMD_RST /\ h_cmd h <> KCP_CMD_ACK /\ h_cmd h <> KCP_CMD_PUSH
  end.
Proof.
  intros Hc Hr. destruct (moves_read_event addr (ids c) (state c) h remote _ _ _ _ _ Hr) as [Ho Hb].
  { rewrite Hc. by exists c. }
  split; [done|exact Ho].
Qed.

(** The client's ACK makes the server's connection connected. *)
Definition handshake_example : kcp_context :=
  context_example <| heap ::= <[1 := (peer_example 1 9 20 1500) <| state := KCP_STATE_SYN_RECEIVED |>]> |>.

Lemma on_kcp_read_event_transitions_witness :
  exists x' e' c', on_kcp_read_event 1 (KcpProtoHeader 20 9 KCP_CMD_ACK 0 0 0 (ack_data 5 6 77 0) []) (sin 0 0)
      (handshake_example, quiet) = Some (tt, (x', e')) /\
    heap x' !! 2 = heap handshake_example !! 2 /\ heap x' !! 1 = Some c' /\ state c' = KCP_STATE_CONNECTED /\
    transition KCP_CMD_ACK KCP_STATE_SYN_RECEIVED (state c').
Proof.
  destruct (on_kcp_read_event 1 (KcpProtoHeader 20 9 KCP_CMD_ACK 0 0 0 (ack_data 5 6 77 0) []) (sin 0 0)
      (handshake_example, quiet)) as [[[] [x' e']]|] eqn:E; [|vm_compute in E; discriminate].
  pose proof (on_kcp_read_event_transitions handshake_example quiet 1 _ (sin 0 0)
    ((peer_example 1 9 20 1500) <| state := KCP_STATE_SYN_RECEIVED |>) x' e' eq_refl E) as [Hb Hs].
  exists x', e'. destruct (heap x' !! 1) as [c'|] eqn:Ec.
  - exists c'. split; [done|]. split; [by apply Hb|]. split; [done|]. split; [|apply Hs].
    vm_compute in E. injection E as <- <-. vm_compute in Ec. by injection Ec as <-.
  - destruct Hs as (_ & _ & H & _). by destruct H.
Defined.
