(* ===== verification/Events.v ===== *)
(** * Events: the callbacks of the socket

    [on_kcp_write_event] and [on_kcp_syn_received] of kcp_protocol.c, the ICMP
    handlers of kcp_mtu.c, and [kcp_parse_packet], [kcp_read_cb], [kcp_write_cb] and
    [kcp_write_timeout] of kcpp.c.  [on_connect_cb] is the callback of the server's
    user: it runs on the context, as it calls [kcp_accept], and its result accepts
    or rejects. *)

From stdpp Require Import gmap.
From S2P Require Import Prelude RbTree Bytes Bitmap Xxhash Config Wire Types World Net Bbr Snd Recv Flush Mtu Context Input.

(** ** Writing *)

Definition on_kcp_write_timeout (addr timestamp : Z) : io kcp_context Z :=
  r ← on_conn addr (flush timestamp);
  match r with
  | Some code => mret code
  | None => kcp_refresh_write_timer;; on_conn addr flush_end
  end.

(** The SYN to each candidate, twice when the first attempt fails; the result of
    both [kcp_send_syn_to_candidates] and the loop of the write event. *)
Fixpoint send_to_candidates {X} (l : list sockaddr) (data : list bytes) (any_sent : bool) (last_error : Z)
  : io X Z :=
  match l with
  | [] => mret (if any_sent then NO_ERROR else last_error)
  | addr :: l =>
      status ← kcp_send_packet_raw_silent addr data;
      let last_error := if status <=? 0 then status else last_error in
      status ← (if status <=? 0 then kcp_send_packet_raw_silent addr data else mret status);
      if 0 <? status then send_to_candidates l data true last_error
      else send_to_candidates l data any_sent status
  end.

(** [syn_fin_data.ts] of the last header is written; none is a stray pointer. *)
Definition touch_last_header (ts : Z) (l : list kcp_proto_header) : option (list kcp_proto_header * kcp_proto_header) :=
  match last l with
  | None => None
  | Some h =>
      let h := match h_data h with
               | syn_fin_data packet_ts _ packet_sn rand_sn =>
                   h <| h_data := syn_fin_data packet_ts ts packet_sn rand_sn |>
               | _ => h
               end in
      Some (removelast l ++ [h], h)
  end.

(** The error a failed send is turned into. *)
Definition write_error {X} : io X Z :=
  code ← get_last_errno;
  mret (if (code =? EAGAIN) || (code =? EWOULDBLOCK) then OP_TRY_AGAIN else WRITE_ERROR).

(** The last SYN again, in a buffer that has no room for its option. *)
Definition write_syn : io kcp_connection Z :=
  c ← get;
  ts ← kcp_time_monotonic_us;
  touched ← deref (touch_last_header ts (kcp_proto_header_list c));
  mods (fun c => c <| kcp_proto_header_list := touched.1 |>);;
  buffer ← encoded_header 32 touched.2;
  status ← kcp_send_packet c [buffer];
  status ← (if bool_decide (state c = KCP_STATE_SYN_SENT) && (0 <? Zlength (candidates c))
            then send_to_candidates (candidates c) [buffer] false WRITE_ERROR else mret status);
  if negb (status =? 1) && negb (status =? NO_ERROR) then write_error
  else
    ev ← event_del (syn_timer_event c);
    ev ← evtimer_add ev (receive_timeout c);
    mods (fun c => c <| syn_timer_event := ev |>);;
    mret NO_ERROR.

Definition write_fin : io kcp_connection Z :=
  c ← get;
  kcp_fin_header ← deref (last (kcp_proto_header_list c));
  status ← send_header kcp_fin_header;
  if negb (status =? 1) then write_error else mret NO_ERROR.

Definition on_kcp_write_event (addr timestamp : Z) : io kcp_context Z :=
  if 0 <? timestamp then on_kcp_write_timeout addr timestamp
  else
    c ← conn_at addr;
    match state c with
    | KCP_STATE_DISCONNECTED => mret CONNECTION_CLOSED
    | KCP_STATE_SYN_SENT | KCP_STATE_SYN_RECEIVED => on_conn addr write_syn
    | KCP_STATE_CONNECTED =>
        timestamp ← kcp_time_monotonic_us;
        on_kcp_write_timeout addr timestamp
    | KCP_STATE_FIN_SENT | KCP_STATE_FIN_RECEIVED => on_conn addr write_fin
    end.

(** The loop over the write queue; no write event changes the queue. *)
Fixpoint write_queue_loop (queue : list Z) : io kcp_context unit :=
  match queue with
  | [] => mret tt
  | pos :: queue =>
      status ← on_kcp_write_event pos 0;
      if status =? NO_ERROR then
        mods (fun x => x <| conn_write_event_queue ::= List.filter (fun a => negb (a =? pos)) |>);;
        write_queue_loop queue
      else if status =? OP_TRY_AGAIN then mret tt
      else emit (OnError (Some pos) status)
  end.

Definition kcp_write_cb : io kcp_context unit :=
  x ← get;
  write_queue_loop (conn_write_event_queue x);;
  x ← get;
  match conn_write_event_queue x with
  | [] => ev ← event_del (write_event x); mods (fun x => x <| write_event := ev |>)
  | _ => mret tt
  end.

(** The next node is read before the write event.  One unit of fuel per
    connection and one for the end. *)
Fixpoint write_timeout_loop (fuel : nat) (pos : option Z) (current_time_us : Z) : io kcp_context unit :=
  match pos with
  | None => mret tt
  | Some pos =>
      match fuel with
      | O => undefined
      | S fuel =>
          x ← get;
          next ← connection_next x pos;
          c ← conn_at pos;
          (if need_write_timer_event c && negb (bool_decide (state c = KCP_STATE_DISCONNECTED)) &&
              (ts_flush c <=? current_time_us / 1000)
           then on_kcp_write_event pos current_time_us;; mret tt
           else mret tt);;
          write_timeout_loop fuel next current_time_us
      end
  end.

Definition kcp_write_timeout : io kcp_context unit :=
  current_time_us ← kcp_time_monotonic_us;
  x ← get;
  write_timeout_loop (set_fuel x) (connection_first x) current_time_us;;
  kcp_refresh_write_timer.

(** ** SYN *)

Definition mtu_option (l : list kcp_option) (default : Z) : Z :=
  match List.find (fun o => opt_tag o =? KCP_OPTION_TAG_MTU) l with
  | Some o => u32 (opt_u64_value o)
  | None => default
  end.

(** The SYN [pos] of the client that the packet answers. *)
Definition is_our_syn (sn : Z) (h : kcp_proto_header) : bool :=
  (h_cmd h =? KCP_CMD_SYN) && (syn_fin_rand_sn h =? sn).

(** The client acknowledges the server's SYN and is connected. *)
Definition on_syn_reply (addr : Z) (remote : sockaddr) (syn_packet : kcp_syn_node) (pos : kcp_proto_header)
  : io kcp_context unit :=
  on_conn addr (mods (fun c => c <| dcid := sy_scid syn_packet |> <| remote_host := remote |>));;
  current_ts ← kcp_time_monotonic_us;
  on_conn addr (mods (fun c =>
    c <| rx_srtt := s32 (u64 (current_ts - syn_fin_ts pos) - u64 (sy_ts syn_packet - sy_packet_ts syn_packet)) |>));;
  on_conn addr (mods (fun c => c <| rx_rttval := Z.quot (rx_srtt c) 2 |>));;
  c ← conn_at addr;
  packet_ts ← kcp_time_monotonic_us;
  x ← get;
  let remote_mtu := mtu_option (sy_options syn_packet) (u32 (udp_mtu x)) in
  status ← on_conn addr (send_header (ack_header c packet_ts packet_ts (sy_rand_sn syn_packet)));
  if status <? 0 then
    if negb (bool_decide (state c = KCP_STATE_SYN_SENT) && (1 <? Zlength (candidates c))) then
      on_conn addr (mods (fun c => c <| state := KCP_STATE_DISCONNECTED |>));;
      emit (OnError (Some addr) WRITE_ERROR)
    else mret tt
  else
    on_conn addr (mods (fun c => c <| syn_timer_event := timer_null |>));;
    if bool_decide (state c = KCP_STATE_SYN_SENT) then
      on_conn addr (mods (fun c => c <| state := KCP_STATE_CONNECTED |>));;
      ts ← kcp_time_monotonic_ms;
      on_conn addr (mods (fun c =>
        let mtu_ := MIN remote_mtu (mtu c) in
        c <| ts_flush := u64 (ts + interval c) |> <| need_write_timer_event := true |>
          <| mtu := mtu_ |> <| mss := u32 (mtu_ - KCP_HEADER_SIZE) |>
          <| ping / keepalive_next_ts := u64 (u64 (ts * 1000) + keepalive_interval (ping c)) |>));;
      kcp_refresh_write_timer;;
      call_on_connected addr NO_ERROR
    else mret tt.

Section Server.
Variable on_connect_cb : sockaddr -> io kcp_context bool.

(** The node of the queue is cleaned up at the end; from an empty queue the head of
    the list itself would be freed. *)
Definition on_kcp_syn_received (remote : sockaddr) : io kcp_context unit :=
  x ← get;
  (if on_connect x then
     accepted ← on_connect_cb remote;
     if accepted : bool then mret tt
     else
       ts ← kcp_time_monotonic_us;
       psn ← uninit_psn;
       x ← get;
       buffer ← encoded_header 32 (rst_header (connection_id x) 0 ts psn);
       kcp_send_packet_raw remote [buffer];; mret tt
   else
     match connection_first x with
     | None => mret tt
     | Some addr =>
         syn_packet ← deref (head (syn_queue x));
         c ← conn_at addr;
         match List.find (is_our_syn (sy_packet_sn syn_packet)) (kcp_proto_header_list c) with
         | Some pos => on_syn_reply addr remote syn_packet pos
         | None => mret tt
         end
     end);;
  x ← get;
  match syn_queue x with
  | [] => undefined
  | _ :: q => mods (fun x => x <| syn_queue := q |>)
  end.

(** ** kcp_parse_packet *)

(** "NTRS_KCP_PUNCH|" and "NTRS_FILTER_PROBE|". *)
Definition kPrefixes : list bytes :=
  [ [78; 84; 82; 83; 95; 75; 67; 80; 95; 80; 85; 78; 67; 72; 124];
    [78; 84; 82; 83; 95; 70; 73; 76; 84; 69; 82; 95; 80; 82; 79; 66; 69; 124] ].

Definition kcp_is_text_probe_packet (buffer : bytes) : bool :=
  negb (bool_decide (buffer = [])) &&
  existsb (fun p => (Zlength p <=? Zlength buffer) && bool_decide (take (length p) buffer = p)) kPrefixes.

(** The dcid of a packet that is not a first SYN is one of the local ids. *)
Definition local_dcid (x : kcp_context) (scid_ : option Z) (h : kcp_proto_header) : bool :=
  (h_dcid h =? 0) ||
  match scid_ with
  | Some scid_ => h_dcid h =? scid_
  | None => (h_dcid h =? connection_id x) || bitmap_get (conv_bitmap x) (h_dcid h)
  end.

Definition syn_node_of (h : kcp_proto_header) (remote : sockaddr) : kcp_syn_node :=
  match h_data h with
  | syn_fin_data packet_ts ts packet_sn rand_sn =>
      KcpSynNode (h_scid h) (h_dcid h) rand_sn packet_sn packet_ts ts remote (h_options h)
  | _ => KcpSynNode (h_scid h) (h_dcid h) 0 0 0 0 remote (h_options h)
  end.

(** What the loop does after a packet: [continue], or [break] and [return]. *)
Inductive loop_flow := Continue | Break.

(** One packet of the datagram, parsed. *)
Definition handle_packet (h : kcp_proto_header) (remote : sockaddr) : io kcp_context loop_flow :=
  x ← get;
  let conn := match connection_set_search x (h_scid h) with
              | Some addr => Some addr
              | None => if on_connected x then connection_first x else None
              end in
  scid_ ← match conn with
          | Some addr => c ← conn_at addr; mret (Some (scid c))
          | None => mret None
          end;
  if negb (local_dcid x scid_ h) then mret Break
  else if h_cmd h =? KCP_CMD_SYN then
    ok ← malloc;
    if negb ok then emit (OnError None NO_MEMORY);; mret Break
    else
      assertion (h_dcid h =? 0) kcpp_c_168;;
      mods (fun x => x <| syn_queue ::= (fun q => q ++ [syn_node_of h remote]) |>);;
      on_kcp_syn_received remote;;
      mret Continue
  else
    match conn with
    | None =>
        if h_cmd h =? KCP_CMD_RST then mret Break
        else
          ts ← kcp_time_monotonic_us;
          buffer ← encoded_header 32 (rst_header (connection_id x) 0 ts 0);
          kcp_send_packet_raw remote [buffer];;
          mret Continue
    | Some addr =>
        on_kcp_read_event addr h remote;;
        c ← conn_at addr;
        if bool_decide (state c = KCP_STATE_DISCONNECTED)
        then kcp_connection_destroy addr;; mret Break
        else mret Continue
    end.

(** The loop over the packets of a datagram; each takes 32 bytes or more, so that
    the length is fuel enough. *)
Fixpoint parse_packet_loop (fuel : nat) (buffer : bytes) (remote : sockaddr) : io kcp_context unit :=
  match fuel with
  | O => undefined
  | S fuel =>
      mallocs_unchecked (parse_mallocs buffer);;
      match kcp_proto_parse buffer with
      | OOB => undefined
      | ERR _ => mret tt
      | OK h rest =>
          r ← handle_packet h remote;
          match r, rest with
          | Continue, _ :: _ => parse_packet_loop fuel rest remote
          | _, _ => mret tt
          end
      end
  end.

Definition kcp_parse_packet (buffer : bytes) (remote : sockaddr) : io kcp_context unit :=
  if kcp_is_text_probe_packet buffer then mret tt
  else if Zlength buffer <? KCP_HEADER_SIZE then mret tt
  else parse_packet_loop (length buffer) buffer remote.

(** ** ICMP *)

Definition parse_icmp_payload (buffer : bytes) (remote : sockaddr) : io kcp_context (option Z) :=
  x ← get;
  if Zlength buffer <? KCP_HEADER_SIZE then mret None
  else
    match connection_set_search x (le_combine (take 2 buffer)) with
    | Some addr =>
        c ← conn_at addr;
        mret (if negb (sockaddr_equal (remote_host c) remote) then None else Some addr)
    | None => mret None
    end.

Definition with_icmp_connection (buffer : bytes) (remote : sockaddr) (m : io kcp_connection unit)
  : io kcp_context unit :=
  found ← parse_icmp_payload buffer remote;
  match found with
  | None => mret tt
  | Some addr => on_conn addr m
  end.

Definition kcp_process_icmp_fragmentation (buffer : bytes) (remote : sockaddr) (next_hop_mtu : Z) :=
  with_icmp_connection buffer remote (process_icmp_fragmentation next_hop_mtu).
Definition kcp_process_icmp_unreach (buffer : bytes) (remote : sockaddr) :=
  with_icmp_connection buffer remote (process_icmp_failure UDP_UNREACH).
Definition kcp_process_icmp_error (buffer : bytes) (remote : sockaddr) :=
  with_icmp_connection buffer remote (process_icmp_failure ICMP_ERROR).

(** ** kcp_read_cb *)

Definition ICMP_DEST_UNREACH : Z := 3.
Definition ICMP_NET_UNREACH : Z := 0.
Definition ICMP_HOST_UNREACH : Z := 1.
Definition ICMP_PROT_UNREACH : Z := 2.
Definition ICMP_PORT_UNREACH : Z := 3.
Definition ICMP_FRAG_NEEDED : Z := 4.

(** A control message: whether it is an IP_RECVERR of SOL_IP that comes from ICMP,
    and its [sock_extended_err]. *)
Record cmsg := Cmsg { cm_is_icmp : bool; ee_type : Z; ee_code : Z; ee_info : Z }.

(** What [recvmsg] answers before it would block. *)
Inductive recvmsg_error_result :=
| ErrorMessage (remote : sockaddr) (data : bytes) (control : list cmsg)
| ErrorQueueFailed.                                (* an errno other than EAGAIN *)
Inductive recvmsg_result :=
| Received (remote : sockaddr) (data : bytes)
| ReceiveFailed.

Definition process_cmsg (remote : sockaddr) (data : bytes) (m : cmsg) : io kcp_context unit :=
  if negb (cm_is_icmp m) then mret tt
  else if ee_type m =? ICMP_DEST_UNREACH then
    if ee_code m =? ICMP_FRAG_NEEDED then kcp_process_icmp_fragmentation data remote (u16 (ee_info m))
    else if (ee_code m =? ICMP_NET_UNREACH) || (ee_code m =? ICMP_HOST_UNREACH) ||
            (ee_code m =? ICMP_PROT_UNREACH) || (ee_code m =? ICMP_PORT_UNREACH)
    then kcp_process_icmp_unreach data remote
    else mret tt
  else kcp_process_icmp_error data remote.

Fixpoint process_cmsgs (remote : sockaddr) (data : bytes) (control : list cmsg) : io kcp_context unit :=
  match control with
  | [] => mret tt
  | m :: control => process_cmsg remote data m;; process_cmsgs remote data control
  end.

(** The first loop; the read buffer holds ETHERNET_MTU bytes. *)
Fixpoint read_error_queue (l : list recvmsg_error_result) : io kcp_context unit :=
  match l with
  | [] => mret tt
  | ErrorQueueFailed :: _ => emit (OnError None READ_ERROR)
  | ErrorMessage remote data control :: l =>
      process_cmsgs remote (take (Z.to_nat ETHERNET_MTU) data) control;;
      read_error_queue l
  end.

Fixpoint read_datagrams (l : list recvmsg_result) : io kcp_context unit :=
  match l with
  | [] | ReceiveFailed :: _ => mret tt
  | Received remote data :: l =>
      kcp_parse_packet (take (Z.to_nat ETHERNET_MTU) data) remote;;
      read_datagrams l
  end.

Definition kcp_read_cb (errors : list recvmsg_error_result) (incoming : list recvmsg_result)
  : io kcp_context unit :=
  read_error_queue errors;;
  read_datagrams incoming.
End Server.
