(* ===== verification/Api.v ===== *)
(** * Api: the functions of kcpp.h

    Contexts, options, the handshake of both sides, the closing of a connection and
    the sending and receiving functions of kcpp.c on a connection of a context.
    Pointer arguments that the user may leave NULL are options or a [bool] that
    tells whether they are set; a connection is given by its address.

    The results of the system calls of [kcp_bind] are the record [bind_answers]. *)

From stdpp Require Import gmap.
From S2P Require Import Prelude RbTree Bytes Bitmap Xxhash Config Wire Types World Net Bbr Snd Recv Flush Mtu Context Input Events.

(** ** Contexts *)

(** [None] is NULL; the ids and sizes that are not set hold what the memory held. *)
Definition kcp_context_create (base cb : bool) (user : Z) : io unit (option kcp_context) :=
  if negb base || negb cb then mret None
  else
    ok ← malloc;
    if negb ok then mret None
    else
      mem ← uninitialised 6;
      ok ← malloc;
      array ← uninitialised (Z.to_nat (bitmap_capacity KCP_BITMAP_SIZE));
      match bitmap_create KCP_BITMAP_SIZE (if ok : bool then Some array else None) with
      | None => mret None
      | Some conv_bitmap =>
          timer ← evtimer_new;
          if bool_decide (timer = timer_null) then mret None
          else
            ok ← malloc;
            if negb ok then mret None
            else mret (Some (KcpContext false false false false false
                               (le_combine (take 2 mem)) (s32 (le_combine (drop 2 mem))) conv_bitmap
                               [] Leaf timer_null timer_null timer [] user ∅ 1 []))
      end.

Record kcp_config := KcpConfig { cf_nodelay : Z; cf_interval : Z; cf_resend : Z; cf_nc : Z }.

Definition has_flag (flags key : Z) : bool := negb (Z.land flags key =? 0).

(** The four blocks of [kcp_configure], each an error or the connection after it. *)
Definition configure_nodelay (flags : Z) (config : kcp_config) (c : kcp_connection) : kcp_connection :=
  if has_flag flags CONFIG_KEY_NODELAY then
    if negb (cf_nodelay config =? 0)
    then c <| nodelay := 1 |> <| rx_minrto := KCP_RTO_NDL * 1000 |>
    else c <| nodelay := 0 |> <| rx_minrto := KCP_RTO_MIN * 1000 |>
  else c.

Definition configure_interval (flags : Z) (config : kcp_config) (c : kcp_connection) : option kcp_connection :=
  if has_flag flags CONFIG_KEY_INTERVAL then
    if (cf_interval config <? KCP_INTERVAL_MIN) || (KCP_INTERVAL_MAX <? cf_interval config) then None
    else Some (c <| interval := cf_interval config |>)
  else Some c.

Definition configure_resend (flags : Z) (config : kcp_config) (c : kcp_connection) : option kcp_connection :=
  if has_flag flags CONFIG_KEY_RESEND then
    if KCP_FASTACK_LIMIT <? cf_resend config then None
    else Some (c <| fastresend := cf_resend config |>)
  else Some c.

Definition configure_nc (flags : Z) (config : kcp_config) (c : kcp_connection) : kcp_connection :=
  if has_flag flags CONFIG_KEY_NC then c <| nocwnd := if cf_nc config =? 0 then 0 else 1 |> else c.

Definition kcp_configure (flags : Z) (config : option kcp_config) : io kcp_connection Z :=
  match config with
  | None => mret INVALID_PARAM
  | Some config =>
      mods (configure_nodelay flags config);;
      c ← get;
      match configure_interval flags config c with
      | None => mret INVALID_PARAM
      | Some c =>
          mods (fun _ => c);;
          match configure_resend flags config c with
          | None => mret INVALID_PARAM
          | Some c => mods (fun _ => configure_nc flags config c);; mret NO_ERROR
          end
      end
  end.

Inductive em_ioctl :=
| IOCTL_RECEIVE_TIMEOUT | IOCTL_MTU_PROBE_TIMEOUT | IOCTL_KEEPALIVE_TIMEOUT | IOCTL_KEEPALIVE_INTERVAL
| IOCTL_KEEPALIVE_RETRIES | IOCTL_SYN_RETRIES | IOCTL_FIN_RETRIES | IOCTL_WINDOW_SIZE | IOCTL_USER_DATA
| IOCTL_OTHER.

(** [data]: the [uint32_t] behind the pointer, and for IOCTL_USER_DATA the pointer. *)
Definition kcp_ioctl (flags : em_ioctl) (data : option Z) : io kcp_connection Z :=
  match flags, data with
  | IOCTL_USER_DATA, _ => mods (fun c => c <| user_data := default 0 data |>);; mret NO_ERROR
  | _, None => mret INVALID_PARAM
  | IOCTL_RECEIVE_TIMEOUT, Some v => mods (fun c => c <| receive_timeout := v |>);; mret NO_ERROR
  | IOCTL_MTU_PROBE_TIMEOUT, Some v => mods (fun c => c <| mtu_probe / mtu_timeout := v |>);; mret NO_ERROR
  | IOCTL_KEEPALIVE_TIMEOUT, Some v =>
      mods (fun c => c <| ping / keepalive_timeout := u32 (v * 1000) |>);; mret NO_ERROR
  | IOCTL_KEEPALIVE_INTERVAL, Some v =>
      mods (fun c => c <| ping / keepalive_interval := u32 (v * 1000) |>);; mret NO_ERROR
  | IOCTL_KEEPALIVE_RETRIES, Some v => mods (fun c => c <| ping / keepalive_retries := u16 v |>);; mret NO_ERROR
  | IOCTL_SYN_RETRIES, Some v => mods (fun c => c <| syn_retries := s32 v |>);; mret NO_ERROR
  | IOCTL_FIN_RETRIES, Some v => mods (fun c => c <| fin_retries := v |>);; mret NO_ERROR
  | IOCTL_WINDOW_SIZE, Some v =>
      mods (fun c => c <| rcv_wnd := s32 (MAX KCP_WND_RCV v) |> <| snd_wnd := s32 (MAX KCP_WND_SND v) |>);;
      mret NO_ERROR
  | IOCTL_OTHER, _ => mret INVALID_PARAM
  end.

(** ** kcp_bind *)

(** A call of [setsockopt], [ioctl], [fcntl] or [bind]: its result. *)
Record bind_answers := BindAnswers {
  a_socket : bool; a_sndbuf : Z; a_rcvbuf : Z; a_nonblock : Z; a_dont_fragment : Z; a_recverr : Z;
  a_nic_mtu : option Z;       (* SIOCGIFMTU of the interface *)
  a_bindtodevice : Z;
  a_ip_mtu : Z;               (* get_mtu_by_ip, which walks the interfaces *)
  a_bind : Z;
}.

(** AF_INET or AF_INET6. *)
Definition is_inet (a : sockaddr) : bool := match a with sin _ _ => true | _ => false end.

Definition create_socket (a : bind_answers) (addr : sockaddr) : io kcp_context Z :=
  if is_inet addr || is_inet6 addr then
    mods (fun x => x <| sock_open := a_socket a |>);;
    mret (if a_socket a then NO_ERROR else CREATE_SOCKET_ERROR)
  else mret UNKNOWN_PROTO.

Definition set_socket_sendbuf (a : bind_answers) : Z := if a_sndbuf a =? 0 then a_sndbuf a else IOCTL_ERROR.
Definition set_socket_recvbuf (a : bind_answers) : Z := if a_rcvbuf a =? 0 then a_rcvbuf a else IOCTL_ERROR.
Definition set_socket_nonblock (a : bind_answers) : Z := a_nonblock a.
Definition set_socket_dont_fragment (a : bind_answers) : Z := a_dont_fragment a.
Definition set_socket_recverr (a : bind_answers) (addr : sockaddr) : Z :=
  if (is_inet addr || is_inet6 addr) && (a_recverr a <? 0) then IOCTL_ERROR else NO_ERROR.
Definition set_socket_bind_nic (a : bind_answers) : Z := if a_bindtodevice a <? 0 then IOCTL_ERROR else NO_ERROR.
Definition get_mtu_by_nic (a : bind_answers) : Z := default IOCTL_ERROR (a_nic_mtu a).

(** The statuses of the calls in order: the first that is not NO_ERROR. *)
Fixpoint first_error (l : list Z) : Z :=
  match l with
  | [] => NO_ERROR
  | status :: l => if status =? NO_ERROR then first_error l else status
  end.

(** [goto _error]. *)
Definition bind_error (status : Z) : io kcp_context Z :=
  mods (fun x => x <| sock_open := false |> <| read_event := timer_null |> <| write_event := timer_null |>);;
  mret status.

(** [event_new] may fail like [malloc]; its result is not checked here. *)
Definition event_new_if_null (ev : timer) : io kcp_context timer :=
  if bool_decide (ev = timer_null) then evtimer_new else mret ev.

(** [nic]: an interface is named. *)
Definition kcp_bind (a : bind_answers) (addr : sockaddr) (nic : bool) : io kcp_context Z :=
  x ← get;
  if sock_open x then mret SOCKET_INUSE
  else
    status ← create_socket a addr;
    if negb (status =? NO_ERROR) then mret status
    else
      id ← kcp_random 1 KCP_BITMAP_SIZE;
      mods (fun x => x <| connection_id := u16 id |>);;
      ev ← event_new_if_null (read_event x);
      mods (fun x => x <| read_event := ev |>);;
      ev ← event_new_if_null (write_event x);
      mods (fun x => x <| write_event := ev |>);;
      let status := first_error ([set_socket_sendbuf a; set_socket_recvbuf a; set_socket_nonblock a;
                                  set_socket_dont_fragment a; set_socket_recverr a addr] ++
                                 (if nic then [set_socket_bind_nic a] else [])) in
      if negb (status =? NO_ERROR) then bind_error status
      else
        let nic_mtu := if nic then get_mtu_by_nic a else a_ip_mtu a in
        if nic_mtu <=? 0 then bind_error status
        else
          mods (fun x => x <| udp_mtu := kcp_get_mtu_by_param nic_mtu (is_inet6 addr) |>);;
          if a_bind a <? 0 then bind_error BIND_ERROR else mret NO_ERROR.

(** [event_add] of the read event, which must exist. *)
Definition add_read_event : io kcp_context unit :=
  x ← get;
  ev ← evtimer_add (read_event x) 0;
  mods (fun x => x <| read_event := ev |>).

Definition kcp_listen (cb : bool) : io kcp_context Z :=
  x ← get;
  if negb cb then mret INVALID_PARAM
  else if negb (sock_open x) then mret SOCKET_CLOSED
  else if on_connected x then mret INVALID_OPERATION
  else
    mods (fun x => x <| on_connect := true |>);;
    add_read_event;;
    mret NO_ERROR.

Definition kcp_set_accept_cb (cb : bool) : io kcp_context unit := mods (fun x => x <| on_accepted := cb |>).
Definition kcp_set_close_cb (cb : bool) : io kcp_context unit := mods (fun x => x <| on_closed := cb |>).

(** ** SYN headers *)

(** A SYN carries the MTU of the interface. *)
Definition syn_header (x : kcp_context) (scid dcid packet_ts ts packet_sn rand_sn : Z) : kcp_proto_header :=
  KcpProtoHeader scid dcid KCP_CMD_SYN KCP_CMD_OPT 0 0 (syn_fin_data packet_ts ts packet_sn rand_sn)
    [KcpOption KCP_OPTION_TAG_MTU 4 (u64 (udp_mtu x))].

Definition SYN_SIZE : nat := Z.to_nat (KCP_HEADER_SIZE + KCP_OPTION_TAG_MTU_LEN).

Definition link_header (h : kcp_proto_header) : io kcp_connection unit :=
  mods (fun c => c <| kcp_proto_header_list ::= (fun l => l ++ [h]) |>).

Definition add_syn_timer (timeout_ms : Z) : io kcp_connection unit :=
  c ← get;
  ev ← evtimer_add (syn_timer_event c) timeout_ms;
  mods (fun c => c <| syn_timer_event := ev |>).

(** ** The server *)

(** The next SYN is the last one with a new time stamp and number; it takes its
    options. *)
Definition next_syn (ts : Z) (l : list kcp_proto_header) : option (list kcp_proto_header * kcp_proto_header) :=
  match last l with
  | None => None
  | Some h =>
      let syn := match h_data h with
                 | syn_fin_data _ _ packet_sn rand_sn =>
                     h <| h_data := syn_fin_data ts ts packet_sn (u32 (rand_sn + 1)) |>
                 | _ => h
                 end in
      Some (removelast l ++ [h <| h_options := [] |>; syn], syn)
  end.

Definition resend_syn (addr : Z) : io kcp_context Z :=
  ts ← kcp_time_monotonic_us;
  c ← conn_at addr;
  syn ← deref (next_syn ts (kcp_proto_header_list c));
  on_conn addr (mods (fun c => c <| kcp_proto_header_list := syn.1 |>));;
  buffer ← encoded_header SYN_SIZE syn.2;
  on_conn addr (kcp_send_packet c [buffer]).

Definition kcp_accept_timeout (addr : Z) : io kcp_context unit :=
  c ← conn_at addr;
  on_conn addr (mods (fun c => c <| syn_retries ::= (fun n => s32 (n - 1)) |>));;
  if 0 <? syn_retries c then
    ok ← malloc;
    if negb ok then on_conn addr (add_syn_timer (receive_timeout c))
    else
      status ← resend_syn addr;
      if status <=? 0 then
        code ← write_error;
        if code =? OP_TRY_AGAIN then
          kcp_add_write_event addr;; on_conn addr (add_syn_timer (receive_timeout c))
        else emit (OnError (Some addr) WRITE_ERROR)
      else on_conn addr (add_syn_timer (receive_timeout c))
  else
    x ← get;
    if on_accepted x then
      on_conn addr (mods (fun c => c <| state := KCP_STATE_DISCONNECTED |>));;
      emit (OnAccepted addr TIMED_OUT);;
      kcp_connection_destroy addr
    else mret tt.

(** The part of [kcp_accept] after the ids: [inr] of the status at its [break],
    [inl] of the value it returns. *)
Definition accept_syn (addr : Z) (syn_packet : kcp_syn_node) (timeout_ms : Z) : io kcp_context (Z + Z) :=
  ev ← evtimer_new;
  on_conn addr (mods (fun c => c <| syn_timer_event := ev |>));;
  if bool_decide (ev = timer_null) then mret (inr NO_MEMORY)
  else
    on_conn addr (mods (fun c => c <| state := KCP_STATE_SYN_RECEIVED |> <| receive_timeout := timeout_ms |>));;
    ok ← malloc;
    if negb ok then mret (inr NO_MEMORY)
    else
      ts ← kcp_time_monotonic_us;
      ok ← malloc;
      if negb ok then mret (inr NO_MEMORY)
      else
        x ← get;
        c ← conn_at addr;
        let header := syn_header x (scid c) (dcid c) ts ts (sy_rand_sn syn_packet) (ts_hash32 ts) in
        on_conn addr (link_header header);;
        buffer ← encoded_header SYN_SIZE header;
        status ← on_conn addr (kcp_send_packet c [buffer]);
        on_conn addr (add_syn_timer timeout_ms);;
        if negb (status =? 1) then
          code ← write_error;
          if code =? OP_TRY_AGAIN then r ← kcp_add_write_event addr; mret (inl r)
          else mret (inr WRITE_ERROR)
        else
          on_conn addr (mods (fun c =>
            let mtu_ := MIN (mtu c) (mtu_option (sy_options syn_packet) (u32 (udp_mtu x))) in
            c <| mtu := mtu_ |> <| mss := u32 (mtu_ - KCP_HEADER_SIZE) |>));;
          mret (inl NO_ERROR).

Definition kcp_accept (timeout_ms : Z) : io kcp_context Z :=
  x ← get;
  match syn_queue x with
  | [] => mret NO_PENDING_CONNECTION
  | syn_packet :: _ =>
      ok ← malloc;
      if negb ok then mret NO_MEMORY
      else
        addr ← allocate zero_connection;
        c ← conn_at addr;
        c ← kcp_connection_init c (sy_remote_host syn_packet);
        on_conn addr (mods (fun _ => c <| dcid := sy_scid syn_packet |>));;
        inserted ← connection_set_insert addr;
        r ← (if inserted : bool then
               id ← kcp_alloc_local_scid 2;
               match id with
               | inr status => mret (inr status)
               | inl id =>
                   on_conn addr (mods (fun c => c <| scid := id |>));;
                   accept_syn addr syn_packet timeout_ms
               end
             else mret (inr CONNECTION_ID_CONFLICT));
        match r with
        | inl result => mret result
        | inr status => kcp_connection_destroy addr;; mret status
        end
  end.

(** ** The client *)

Definition kcp_send_syn_to_candidates (data : list bytes) : io kcp_connection Z :=
  c ← get;
  send_to_candidates (candidates c) data false WRITE_ERROR.

(** A new SYN, linked and encoded; its allocations are not checked. *)
Definition make_syn (addr dcid_ : Z) : io kcp_context bytes :=
  malloc_unchecked;;
  ts ← kcp_time_monotonic_us;
  x ← get;
  c ← conn_at addr;
  let header := syn_header x (scid c) dcid_ 0 ts 0 (ts_hash32 ts) in
  on_conn addr (link_header header);;
  malloc_unchecked;;
  encoded_header SYN_SIZE header.

(** [syn_retries] is signed: every value but 0 retries. *)
Definition kcp_connect_timeout (addr : Z) : io kcp_context unit :=
  c ← conn_at addr;
  on_conn addr (mods (fun c => c <| syn_retries ::= (fun n => s32 (n - 1)) |>));;
  if negb (syn_retries c =? 0) then
    buffer ← make_syn addr (dcid c);
    status ← on_conn addr
      (if (0 <? Zlength (candidates c)) && bool_decide (state c = KCP_STATE_SYN_SENT)
       then kcp_send_syn_to_candidates [buffer] else kcp_send_packet c [buffer]);
    if status <=? 0 then emit (OnError (Some addr) WRITE_ERROR)
    else on_conn addr (add_syn_timer (receive_timeout c))
  else
    call_on_connected addr TIMED_OUT;;
    kcp_connection_destroy addr.

(** From the object allocated to the end of the function. *)
Definition start_connect (addr timeout_ms : Z) : io kcp_context Z :=
  inserted ← connection_set_insert addr;
  if negb inserted then kcp_connection_destroy addr;; mret UNKNOWN_ERROR
  else
    id ← kcp_alloc_local_scid 2;
    match id with
    | inr status => kcp_connection_destroy addr;; mret status
    | inl id =>
        on_conn addr (mods (fun c => c <| scid := id |>));;
        buffer ← make_syn addr 0;
        status ← on_conn addr (kcp_send_syn_to_candidates [buffer]);
        if negb (status =? NO_ERROR) then kcp_connection_destroy addr;; mret status
        else
          on_conn addr (mods (fun c => c <| state := KCP_STATE_SYN_SENT |>));;
          mods (fun x => x <| on_connected := true |> <| on_connect := false |>);;
          ev ← evtimer_new;
          on_conn addr (mods (fun c => c <| syn_timer_event := ev |>));;
          if bool_decide (ev = timer_null) then kcp_connection_destroy addr;; mret NO_MEMORY
          else
            on_conn addr (mods (fun c => c <| receive_timeout := timeout_ms |>));;
            on_conn addr (add_syn_timer timeout_ms);;
            add_read_event;;
            mret NO_ERROR
    end.

(** The memory of the object of a client is not cleared. *)
Definition uninitialised_connection : io kcp_context kcp_connection :=
  mem ← uninitialised 12;
  mret (zero_connection <| fastlimit := s32 (le_combine (take 4 mem)) |> <| user_data := le_combine (drop 4 mem) |>).

Definition kcp_connect_candidates (candidates_ : list sockaddr) (timeout_ms : Z) (cb : bool) : io kcp_context Z :=
  match candidates_ with
  | [] => mret INVALID_PARAM
  | first :: _ =>
      x ← get;
      if negb cb || (timeout_ms =? 0) then mret INVALID_PARAM
      else if KCP_P2P_MAX_CANDIDATES <? Zlength candidates_ then mret INVALID_PARAM
      else if negb (sock_open x) then mret SOCKET_CLOSED
      else if on_connect x then mret INVALID_OPERATION
      else
        match connection_first x with
        | Some addr =>
            c ← conn_at addr;
            mret (match state c with
                  | KCP_STATE_CONNECTED => NO_ERROR
                  | KCP_STATE_SYN_SENT => IN_PROGRESS
                  | _ => INVALID_STATE
                  end)
        | None =>
            ok ← malloc;
            if negb ok then mret NO_MEMORY
            else
              mem ← uninitialised_connection;
              addr ← allocate mem;
              c ← conn_at addr;
              c ← kcp_connection_init c first;
              on_conn addr (mods (fun _ => c <| candidates := candidates_ |>));;
              start_connect addr timeout_ms
        end
  end.

Definition kcp_connect (addr : option sockaddr) (timeout_ms : Z) (cb : bool) : io kcp_context Z :=
  match addr with
  | None => mret INVALID_PARAM
  | Some addr => kcp_connect_candidates [addr] timeout_ms cb
  end.

(** ** Closing *)

(** Nothing is done when the retries are used up. *)
Definition kcp_close_timeout (addr : Z) : io kcp_context unit :=
  c ← conn_at addr;
  on_conn addr (mods (fun c => c <| fin_retries ::= (fun n => u32 (n - 1)) |>));;
  if negb (fin_retries c =? 0) then
    status ← on_conn addr (fin_retry (fun _ _ => 0) (fun _ _ => 0));
    again ← (if negb (status =? 1) then
               code ← write_error;
               if code =? OP_TRY_AGAIN then kcp_add_write_event addr;; mret true else mret false
             else mret true);
    if again : bool then
      on_conn addr (
        ev ← evtimer_add (fin_timer_event c) (receive_timeout c);
        mods (fun c => c <| fin_timer_event := ev |>))
    else emit (OnError (Some addr) WRITE_ERROR)
  else mret tt.

Definition kcp_shutdown (addr : Z) : io kcp_context unit :=
  c ← conn_at addr;
  (if bool_decide (state c = KCP_STATE_DISCONNECTED) then mret tt
   else
     ts ← gets (fun s => u32 (e_wall s.2));
     psn ← uninit_psn;
     on_conn addr (send_header (rst_header (scid c) (dcid c) ts psn));;
     on_conn addr (mods (fun c => c <| state := KCP_STATE_DISCONNECTED |>)));;
  x ← get;
  when (on_closed x) (emit (OnClosed addr NO_ERROR));;
  kcp_connection_destroy addr.

(** The FIN of a connected connection; the timer of [fin_timer_event] is added
    whether it could be made or not. *)
Definition close_connected (addr : Z) : io kcp_context unit :=
  packet ← on_conn addr (fin_retry (fun _ _ => 0) (fun _ _ => 0));
  on_conn addr (mods (fun c => c <| state := KCP_STATE_FIN_SENT |>));;
  again ← (if packet <=? 0 then
             code ← write_error;
             if code =? OP_TRY_AGAIN then kcp_add_write_event addr;; mret true else mret false
           else mret true);
  if again : bool then
    on_conn addr (
      c ← get;
      ev ← (if bool_decide (fin_timer_event c = timer_null) then evtimer_new else mret (fin_timer_event c));
      ev ← evtimer_add ev (receive_timeout c);
      mods (fun c => c <| fin_timer_event := ev |>))
  else emit (OnError (Some addr) WRITE_ERROR).

Definition kcp_close (addr : Z) : io kcp_context unit :=
  c ← conn_at addr;
  match state c with
  | KCP_STATE_DISCONNECTED =>
      x ← get;
      when (on_closed x) (emit (OnClosed addr NO_ERROR));;
      kcp_connection_destroy addr
  | KCP_STATE_SYN_SENT | KCP_STATE_SYN_RECEIVED => kcp_shutdown addr
  | KCP_STATE_CONNECTED => close_connected addr
  | KCP_STATE_FIN_SENT | KCP_STATE_FIN_RECEIVED => mret tt
  end.

(** The loop over the set; the next node is read before the connection is destroyed. *)
Fixpoint destroy_connections (fuel : nat) (it : option Z) : io kcp_context unit :=
  match it with
  | None => mret tt
  | Some it =>
      match fuel with
      | O => undefined
      | S fuel =>
          x ← get;
          next ← connection_next x it;
          c ← conn_at it;
          (if bool_decide (state c = KCP_STATE_DISCONNECTED) then kcp_connection_destroy it else kcp_shutdown it);;
          destroy_connections fuel next
      end
  end.

(** The context is freed afterwards. *)
Definition kcp_context_destroy : io kcp_context unit :=
  x ← get;
  destroy_connections (set_fuel x) (connection_first x);;
  mods (fun x => x <| syn_queue := [] |> <| read_event := timer_null |> <| write_event := timer_null |>
                   <| write_timer_event := timer_null |> <| sock_open := false |>).

(** ** Sending, receiving, reading *)

Definition conn_send (addr : Z) (data : bytes) : io kcp_context Z :=
  x ← get; on_conn addr (kcp_send (sock_open x) data).
Definition conn_recv (addr size : Z) : io kcp_context (Z * bytes) :=
  x ← get; on_conn addr (kcp_recv (sock_open x) size).

Definition kcp_set_write_event_cb (cb : bool) : io kcp_connection unit := mods (fun c => c <| write_event_cb := cb |>).
Definition kcp_set_read_event_cb (cb : bool) : io kcp_connection unit := mods (fun c => c <| read_event_cb := cb |>).
Definition kcp_connection_user_data (c : kcp_connection) : Z := user_data c.
Definition kcp_connection_get_mtu (c : kcp_connection) : Z := s32 (mtu c).

(** [kcp_statistic_t] without the counters that are never written to. *)
Record kcp_statistic := KcpStatistic {
  st_ping_count : Z; st_pong_count : Z; st_tx_bytes : Z; st_rtx_bytes : Z; st_srtt : Z; st_rttvar : Z; st_rto : Z;
  st_bbr_mode : kcp_bbr_mode; st_cwnd : Z; st_target_cwnd : Z; st_min_rtt_us : Z; st_btlbw_bytes_ps : Z;
  st_pacing_rate_bps : Z;
}.

Definition kcp_connection_get_statistic (c : kcp_connection) : kcp_statistic :=
  KcpStatistic (ping_count c) (pong_count c) (tx_bytes c) (rtx_bytes c) (rx_srtt c) (rx_rttval c) (rx_rto c)
    (bbr_mode (bbr c)) (cwnd c) (bbr_target_cwnd (bbr c)) (bbr_min_rtt_us (bbr c)) (bbr_btlbw (bbr c))
    (bbr_pacing_rate (bbr c)).
