(* ===== verification/ApiSpec.v ===== *)
(** * ApiSpec: the functions of kcpp.h on a context

    The destruction of a context reaches every connection
    ([kcp_context_destroy_all]). *)

From stdpp Require Import gmap.
From S2P Require Import Prelude RbTree Bytes Bitmap Xxhash Config Wire Types World Net Bbr Snd Recv Flush FlushSpec Mtu Context ContextSpec Input Events Api.

(** ** A header to the peer *)

(** At most the one datagram. *)
Lemma send_header_run h c e :
  plain_header h ->
  exists r e' evs, send_header h (c, e) = Some (r, (c, e')) /\ e_trace e' = e_trace e ++ evs /\
    e_malloc e' = e_malloc e /\ (evs = [] \/ exists data, evs = [Datagram (remote_host c) data] /\ length data = 32%nat).
Proof.
  intros [Hp Ho]. unfold send_header, encoded_header.
  destruct (encode_plain_header h (replicate 32 0)) as (st & bs & He & Hl); [done..|].
  rewrite He. rewrite (bind_eq _ _ _ bs (c, e)) by done. rewrite (bind_eq _ _ _ c (c, e)) by done.
  destruct (wp_elim (kcp_send_packet c [bs]) (fun r s => exists n, s.1 = c /\
    after_send e (datagrams (remote_host c) (take n [bs])) s.2) (c, e)) as (r & [c' e'] & Hr & n & Hc & Ha).
  { apply kcp_send_packet_wp; [by repeat constructor; destruct bs|done|done|]. intros n r e' _ Ha _. by exists n. }
  cbn [fst snd] in *. subst c'. exists r, e', (datagrams (remote_host c) (take n [bs])). split_and!; [done| | |].
  - by apply after_send_trace.
  - by apply after_send_malloc in Ha.
  - destruct n as [|n]; [by left|right]. exists bs. cbn. by destruct n.
Qed.

(** ** kcp_shutdown *)

(** What a context that loses the connection at [a] becomes. *)
Record gone (a : Z) (x x' : kcp_context) : Prop := {
  gone_ok : ctx_ok x';
  gone_members : members x' = without a (members x);
  gone_heap : heap x' = delete a (heap x);
  gone_callback : on_closed x' = on_closed x;
}.

Lemma destroy_gone x e a c :
  ctx_ok x -> a ∈ members x -> heap x !! a = Some c ->
  exists x' e', kcp_connection_destroy a (x, e) = Some (tt, (x', e')) /\ gone a x x' /\ e_trace e' = e_trace e.
Proof.
  intros Hx Ha Hc. destruct (destroy_run x e a c Hx Ha Hc) as (x' & e' & Hr & Hx' & Hde & Hm & Ht & _).
  exists x', e'. split; [done|]. split; [|done]. by constructor; try done; rewrite Hde.
Qed.

(** The events the user sees. *)
Definition to_user (ev : event) : bool := match ev with Datagram _ _ => false | _ => true end.
Definition reports (evs : list event) : list event := List.filter to_user evs.

Lemma shutdown_gone x e a c :
  ctx_ok x -> a ∈ members x -> heap x !! a = Some c -> state c <> KCP_STATE_DISCONNECTED ->
  exists x' e' evs, kcp_shutdown a (x, e) = Some (tt, (x', e')) /\ gone a x x' /\ e_trace e' = e_trace e ++ evs /\
    reports evs = if on_closed x then [OnClosed a NO_ERROR] else [].
Proof.
  intros Hx Ha Hc Hst. unfold kcp_shutdown. rewrite (bind_eq _ _ _ _ _ (conn_at_run x e a c Hc)).
  rewrite bool_decide_false by done. rewrite bind_assoc. rewrite (bind_eq _ _ _ (u32 (e_wall e)) (x, e)) by done.
  set (e1 := e <| e_uninit := (next [] (e_uninit e)).2 |>). rewrite bind_assoc.
  assert (exists psn, uninit_psn (x, e) = Some (psn, (x, e1))) as [psn Hpsn].
  { unfold uninit_psn, uninitialised, mbind, ST_bind, e1. destruct (next [] (e_uninit e)) as [l r] eqn:En. by eexists. }
  rewrite (bind_eq _ _ _ _ _ Hpsn). rewrite bind_assoc.
  destruct (send_header_run (rst_header (scid c) (dcid c) (u32 (e_wall e)) psn) c e1) as (r & e2 & evs & Hs & Ht & _ & Hev); [done|].
  rewrite (bind_eq _ _ _ _ _ (on_conn_run _ _ _ _ _ _ _ _ Hc Hs)).
  set (x1 := x <| heap ::= <[a := c]> |>). assert (x1 = x) as ->.
  { unfold x1. destruct x; unfold set_field; cbn in *. f_equal. by apply insert_id. }
  set (c' := c <| state := KCP_STATE_DISCONNECTED |>). set (x2 := x <| heap ::= <[a := c']> |>).
  rewrite (bind_eq _ _ _ tt (x2, e2)) by (by apply (on_conn_run (mods (fun c => c <| state := KCP_STATE_DISCONNECTED |>)) x e2 a c)).
  rewrite (bind_eq _ _ _ x2 (x2, e2)) by done.
  destruct (ctx_ok_conn x a c c' Hx Hc) as [Hx2 Hdc]; [done|done|]. fold x2 in Hx2, Hdc.
  set (e3 := if on_closed x then e2 <| e_trace ::= (fun t => t ++ [OnClosed a NO_ERROR]) |> else e2).
  rewrite (bind_eq _ _ _ tt (x2, e3)) by (unfold e3; change (on_closed x2) with (on_closed x); by destruct (on_closed x)).
  assert (heap x2 !! a = Some c') as Hc' by (apply lookup_insert_eq).
  destruct (destroy_gone x2 e3 a c' Hx2 Ha Hc') as (x' & e' & Hr & [] & Htr). exists x', e'. eexists. split; [exact Hr|].
  split; [|split].
  - constructor; try done. rewrite gone_heap0. apply delete_insert_eq.
  - rewrite Htr. unfold e3. instantiate (1 := evs ++ if on_closed x then [OnClosed a NO_ERROR] else []).
    destruct (on_closed x); [change (e_trace e2 ++ [OnClosed a NO_ERROR] = e_trace e ++ evs ++ [OnClosed a NO_ERROR])|];
      rewrite Ht, ?app_nil_r; [by rewrite <- app_assoc|done].
  - unfold reports. rewrite List.filter_app. destruct Hev as [->|(d & -> & _)]; by destruct (on_closed x).
Qed.

(** ** kcp_context_destroy *)

Definition is_open (x : kcp_context) (a : Z) : bool :=
  match heap x !! a with Some c => negb (bool_decide (state c = KCP_STATE_DISCONNECTED)) | None => false end.

Definition closings (x : kcp_context) (l : list Z) : list event :=
  if on_closed x then map (fun a => OnClosed a NO_ERROR) (List.filter (is_open x) l) else [].

Lemma without_head a l : NoDup (a :: l) -> without a (a :: l) = l.
Proof.
  intros Hn. apply NoDup_cons in Hn as [Ha Hn]. unfold without. cbn. rewrite Z.eqb_refl. cbn.
  induction l as [|b l IH]; [done|]. cbn. apply NoDup_cons in Hn as [_ Hn].
  rewrite not_elem_of_cons in Ha. destruct Ha as [Hne Ha]. destruct (Z.eqb_spec b a); [congruence|]. cbn. f_equal. by apply IH.
Qed.

Lemma destroy_connections_run l x e :
  ctx_ok x -> members x = l ->
  exists x' e' evs, destroy_connections (length l) (head l) (x, e) = Some (tt, (x', e')) /\
    ctx_ok x' /\ members x' = [] /\ (forall a, heap x' !! a = if bool_decide (a ∈ l) then None else heap x !! a) /\
    e_trace e' = e_trace e ++ evs /\ reports evs = closings x l.
Proof.
  revert x e. induction l as [|a l IH]; intros x e Hx Hm; cbn [destroy_connections head length].
  { exists x, e, []. split; [done|]. split; [done|]. split; [done|]. rewrite app_nil_r. split; [done|]. split; [done|].
    unfold closings. by destruct (on_closed x). }
  destruct (ctx_live _ Hx a) as [c Hc]; [rewrite Hm; by constructor|].
  assert (a ∈ members x) as Ha by (rewrite Hm; by constructor).
  rewrite (bind_eq _ _ _ x (x, e)) by done. rewrite (next_of_member x a [] l) by done.
  rewrite (bind_eq _ _ _ (head l) (x, e)) by done. rewrite (bind_eq _ _ _ _ _ (conn_at_run x e a c Hc)).
  assert (exists x1 e1 evs, (if bool_decide (state c = KCP_STATE_DISCONNECTED) then kcp_connection_destroy a else kcp_shutdown a) (x, e) =
    Some (tt, (x1, e1)) /\ gone a x x1 /\ e_trace e1 = e_trace e ++ evs /\
    reports evs = if on_closed x && is_open x a then [OnClosed a NO_ERROR] else []) as (x1 & e1 & evs & Hr & Hg & Ht & Hev).
  { unfold is_open. rewrite Hc. destruct (bool_decide_reflect (state c = KCP_STATE_DISCONNECTED)).
    - destruct (destroy_gone x e a c) as (x1 & e1 & Hr & Hg & Ht); [done..|]. exists x1, e1, []. rewrite app_nil_r.
      split_and!; try done. by destruct (on_closed x).
    - destruct (shutdown_gone x e a c) as (x1 & e1 & evs & Hr & Hg & Ht & Hev); [done..|]. exists x1, e1, evs.
      split_and!; try done. rewrite Hev. by destruct (on_closed x). }
  rewrite (bind_eq _ _ _ _ _ Hr). destruct Hg as [Hx1 Hm1 Hh1 Hcb].
  assert (NoDup (a :: l)) as Hnd.
  { rewrite <- Hm. apply (ksorted_NoDup (dcid_at x)), (ctx_tree _ Hx). }
  rewrite Hm, without_head in Hm1 by done.
  destruct (IH x1 e1 Hx1 Hm1) as (x' & e' & evs' & Hrun & Hx' & Hm' & Hh' & Ht' & Hev'). exists x', e', (evs ++ evs').
  split; [done|]. split; [done|]. split; [done|]. split; [|split].
  - intros b. rewrite Hh', Hh1. destruct (decide (b = a)) as [->|Hne].
    + rewrite lookup_delete_eq. rewrite (bool_decide_true (a ∈ a :: l)) by (by constructor). by destruct (bool_decide (a ∈ l)).
    + rewrite lookup_delete_ne by done. replace (bool_decide (b ∈ a :: l)) with (bool_decide (b ∈ l)); [done|].
      apply bool_decide_ext. rewrite elem_of_cons. naive_solver.
  - by rewrite Ht', Ht, <- app_assoc.
  - unfold reports in *. rewrite List.filter_app, Hev, Hev'. unfold closings. rewrite Hcb.
    destruct (on_closed x); [|done]. cbn [List.filter andb].
    replace (List.filter (is_open x1) l) with (List.filter (is_open x) l).
    { by destruct (is_open x a). }
    apply List.filter_ext_in. intros b Hb%list_elem_of_In. unfold is_open. rewrite Hh1, lookup_delete_ne; [done|].
    intros ->. by apply NoDup_cons in Hnd as [? _].
Qed.

(** C27: Destroying a context ends whatever its connections
    are doing: each of them is freed, in the order of the ids of their peers and
    although the loop erases the tree it walks; each that was not disconnected yet is
    reported to the close callback, once and with NO_ERROR, when there is one; the
    socket and the events are gone. *)
Theorem kcp_context_destroy_all (x : kcp_context) (e : env) :
  ctx_ok x ->
  exists x' e' evs, kcp_context_destroy (x, e) = Some (tt, (x', e')) /\
    members x' = [] /\ (forall a, a ∈ members x -> heap x' !! a = None) /\
    (forall a, a ∉ members x -> heap x' !! a = heap x !! a) /\
    e_trace e' = e_trace e ++ evs /\
    reports evs = (if on_closed x then map (fun a => OnClosed a NO_ERROR) (List.filter (is_open x) (members x)) else []) /\
    sock_open x' = false /\ syn_queue x' = [] /\ write_timer_event x' = timer_null.
Proof.
  intros Hx. unfold kcp_context_destroy. rewrite (bind_eq _ _ _ x (x, e)) by done.
  destruct (destroy_connections_run (members x) x e Hx eq_refl) as (x' & e' & evs & Hr & _ & Hm & Hh & Ht & Hev).
  unfold connection_first. rewrite rb_first_head. rewrite (bind_eq _ _ _ _ _ Hr).
  eexists _, e', evs. split; [reflexivity|]. split; [exact Hm|]. split_and!; try done.
  - intros a Ha. cbn. rewrite Hh. by rewrite bool_decide_true.
  - intros a Ha. cbn. rewrite Hh. by rewrite bool_decide_false.
Qed.

Lemma kcp_context_destroy_all_witness :
  exists x' e' evs, kcp_context_destroy (context_example, quiet) = Some (tt, (x', e')) /\ members x' = [] /\
    e_trace e' = [] ++ evs /\ reports evs = [OnClosed 1 NO_ERROR; OnClosed 2 NO_ERROR].
Proof.
  destruct (kcp_context_destroy_all context_example quiet) as (x' & e' & evs & Hr & Hm & _ & _ & Ht & Hev & _);
    [apply context_example_ok|].
  exists x', e', evs. split; [exact Hr|]. split; [exact Hm|]. split; [exact Ht|exact Hev].
Defined.
