(* ===== verification/Flaws.v ===== *)
(** * Flaws: which code records which flaws

    [flaws_in P m]: whatever [m] does, the flaws it adds to the record satisfy [P].
    With [P] false of all, [m] contains nothing a Debug build or the C standard would
    object to ([flawless]).  The handshake is flawless but for one assertion
    ([Handshake]), what an established connection does with packets that serve it but
    for signed overflows ([Hostile]).  The proofs walk over the code with the database
    [flaws]. *)

From stdpp Require Import gmap.
From S2P Require Import Prelude RbTree Bytes Bitmap Xxhash Config Wire Types World Net Bbr Snd Recv Flush Mtu Context Input Events Api.

Definition adds (P : flaw -> Prop) (e e' : env) : Prop := exists l, e_flaws e' = e_flaws e ++ l /\ Forall P l.

Definition flaws_in {X A} (P : flaw -> Prop) (m : io X A) : Prop :=
  forall s a s', m s = Some (a, s') -> adds P s.2 s'.2.

Notation flawless := (flaws_in (fun _ => False)).

Lemma adds_refl P e : adds P e e.
Proof. exists []. by rewrite app_nil_r. Qed.
Lemma adds_same P e e' : e_flaws e' = e_flaws e -> adds P e e'.
Proof. intros E. exists []. by rewrite app_nil_r. Qed.
Lemma adds_trans P e1 e2 e3 : adds P e1 e2 -> adds P e2 e3 -> adds P e1 e3.
Proof.
  intros (l & H1 & Hl) (k & H2 & Hk). exists (l ++ k). split; [by rewrite H2, H1, app_assoc|by apply Forall_app].
Qed.
Lemma adds_none e e' : adds (fun _ => False) e e' -> e_flaws e' = e_flaws e.
Proof. intros ([|f l] & E & Hl); [by rewrite E, app_nil_r|by inversion Hl]. Qed.
Lemma adds_with (P : flaw -> Prop) l e : Forall P l -> adds P e (with_flaws l e).
Proof. by exists l. Qed.

(** What a computation leaves and the flaws it adds. *)
Lemma wp_flaws {X A} P (m : io X A) (Q : A -> X * env -> Prop) s :
  flaws_in P m -> wp m Q s -> wp m (fun a s' => Q a s' /\ adds P s.2 s'.2) s.
Proof. unfold wp. intros Hm. destruct (m s) as [[a s']|] eqn:E; [|done]. intros HQ. split; [done|]. by eapply Hm. Qed.

Section Walk.
Context {X : Type} (P : flaw -> Prop).
Notation flaws_in := (@flaws_in X _ P).

Lemma flaws_ret {A} (a : A) : flaws_in (mret a).
Proof. intros s r s' [= <- <-]. apply adds_refl. Qed.
Lemma flaws_bind {A B} (m : io X A) (k : A -> io X B) : flaws_in m -> (forall a, flaws_in (k a)) -> flaws_in (m ≫= k).
Proof. intros Hm Hk s r s' (a & s1 & H1 & H2)%bind_Some. eapply adds_trans; [by eapply Hm|by eapply Hk]. Qed.
Lemma flaws_gets {A} (f : X * env -> A) : flaws_in (gets f).
Proof. intros s r s' [= <- <-]. apply adds_refl. Qed.
Lemma flaws_mods f : flaws_in (mods f).
Proof. intros [x e] r s' [= <- <-]. apply adds_refl. Qed.
Lemma flaws_emit ev : flaws_in (emit ev).
Proof. intros [x e] r s' [= <- <-]. by apply adds_same. Qed.
Lemma flaws_deref {A} (p : option A) : flaws_in (deref p).
Proof. intros s r s' H. destruct p; [injection H as <- <-; apply adds_refl|done]. Qed.
Lemma flaws_undefined {A} : flaws_in (undefined (A := A)).
Proof. done. Qed.
Lemma flaws_when b m : flaws_in m -> flaws_in (when b m).
Proof. intros Hm. destruct b; [done|apply flaws_ret]. Qed.
Lemma flaws_signed l : P SignedOverflow -> flaws_in (signed l).
Proof.
  intros HP [x e] r s' [= <- <-]. apply adds_with. eapply Forall_impl; [apply int32_flaws_only|]. by intros f ->.
Qed.
Lemma flaws_malloc : flaws_in malloc.
Proof. intros [x e] r s' H. unfold malloc in H. destruct (next true (e_malloc e)). simplify_eq. by apply adds_same. Qed.
Lemma flaws_uninitialised n : flaws_in (uninitialised n).
Proof. intros [x e] r s' H. unfold uninitialised in H. destruct (next [] (e_uninit e)). simplify_eq. by apply adds_same. Qed.
Lemma flaws_clock : flaws_in clock_gettime.
Proof. intros [x e] r s' H. unfold clock_gettime in H. destruct (next 0 (e_ticks e)). simplify_eq. by apply adds_same. Qed.
Lemma flaws_getrandom : flaws_in getrandom.
Proof. intros [x e] r s' H. unfold getrandom in H. destruct (next (Some 0) (e_random e)). simplify_eq. by apply adds_same. Qed.
Lemma flaws_sendmsg remote data : flaws_in (sendmsg remote data).
Proof.
  intros [x e] r s' H. unfold sendmsg in H. destruct (retry_interrupted (e_send e)) as [[|errno] l]; simplify_eq; by apply adds_same.
Qed.
Lemma flaws_sendmmsg_rest remote data k : flaws_in (sendmmsg_rest remote data k).
Proof.
  revert k. induction data as [|d data IH]; intros k; cbn [sendmmsg_rest]; [apply flaws_ret|].
  intros [x e] r s' H. destruct (next Sent (e_send e)) as [[|errno] l]; [|simplify_eq; by apply adds_same].
  apply IH in H. eapply adds_trans; [|exact H]. by apply adds_same.
Qed.
Lemma flaws_event_del ev : flaws_in (event_del ev).
Proof. destruct ev; [apply flaws_undefined|apply flaws_ret..]. Qed.
Lemma flaws_evtimer_add ev ms : flaws_in (evtimer_add ev ms).
Proof. destruct ev; [apply flaws_undefined|apply flaws_ret..]. Qed.
End Walk.

(** On a connection of the context. *)
Lemma flaws_on_conn {A} P addr (m : io kcp_connection A) : flaws_in P m -> flaws_in P (on_conn addr m).
Proof.
  intros Hm [x e] r s' H. unfold on_conn in H. destruct (heap x !! addr) as [c|]; [|done].
  destruct (m (c, e)) as [[a [c' e']]|] eqn:E; [|done]. injection H as <- <-. exact (Hm _ _ _ E).
Qed.

Create HintDb flaws.
#[export] Hint Resolve flaws_ret flaws_gets flaws_mods flaws_emit flaws_deref flaws_undefined flaws_signed flaws_malloc
  flaws_uninitialised flaws_clock flaws_getrandom flaws_sendmsg flaws_sendmmsg_rest flaws_event_del flaws_evtimer_add : flaws.

Ltac flaws_step :=
  lazymatch goal with
  | |- flaws_in _ (_ ≫= _) => apply flaws_bind; [|intros ?]
  | |- flaws_in _ get => apply flaws_gets
  | |- flaws_in _ (when _ _) => apply flaws_when
  | |- flaws_in _ (on_conn _ _) => apply flaws_on_conn
  | |- flaws_in _ (conn_at _) => apply flaws_on_conn
  | |- flaws_in _ (if ?b then _ else _) => destruct b
  | |- flaws_in _ (let '_ := ?p in _) => destruct p
  | |- flaws_in _ (match ?p with _ => _ end) => destruct p
  | |- flaws_in _ _ => solve [eauto 2 with flaws]
  end.
Ltac flaws := cbv zeta; repeat (flaws_step; cbv zeta).

(** ** Sending, allocating, the clock *)

Section Effects.
Context {X : Type} (P : flaw -> Prop).
Notation flaws_in := (@flaws_in X _ P).

Lemma flaws_send_loop remote data k : flaws_in (send_loop remote data k).
Proof. revert k. induction data as [|d data IH]; intros k; cbn [send_loop]; [flaws|]. unfold get_last_errno. flaws. Qed.
Lemma flaws_sendmmsg remote data : flaws_in (sendmmsg remote data).
Proof. destruct data as [|d data]; cbn [sendmmsg]; flaws. Qed.
Lemma flaws_raw remote data : flaws_in (kcp_send_packet_raw_impl remote data).
Proof. pose proof (flaws_send_loop remote data). pose proof (flaws_sendmmsg remote data). unfold kcp_send_packet_raw_impl. flaws. Qed.
Lemma flaws_send_packet c data : flaws_in (kcp_send_packet c data).
Proof. apply flaws_raw. Qed.
Lemma flaws_silent remote data : flaws_in (kcp_send_packet_raw_silent remote data).
Proof. apply flaws_raw. Qed.
Lemma flaws_us : flaws_in kcp_time_monotonic_us.
Proof. unfold kcp_time_monotonic_us. flaws. Qed.
Lemma flaws_ms : flaws_in kcp_time_monotonic_ms.
Proof. unfold kcp_time_monotonic_ms. flaws. Qed.
Lemma flaws_evtimer_new : flaws_in evtimer_new.
Proof. unfold evtimer_new. flaws. Qed.
Lemma flaws_malloc_unchecked : flaws_in malloc_unchecked.
Proof. unfold malloc_unchecked. flaws. Qed.
Lemma flaws_encoded n h : flaws_in (encoded_header n h).
Proof. unfold encoded_header. flaws. Qed.
Lemma flaws_write_error : flaws_in write_error.
Proof. unfold write_error, get_last_errno. flaws. Qed.
End Effects.
#[export] Hint Resolve flaws_send_packet flaws_silent flaws_us flaws_ms flaws_evtimer_new flaws_malloc_unchecked flaws_encoded
  flaws_write_error : flaws.

Lemma flaws_mallocs_unchecked {X} P n : flaws_in P (@mallocs_unchecked X n).
Proof. induction n as [|n IH]; cbn [mallocs_unchecked]; flaws. Qed.
Lemma flaws_random {X} P a b : flaws_in P (@kcp_random X a b).
Proof. unfold kcp_random, random_value. flaws. Qed.
Lemma flaws_send_to_candidates {X} P l data b k : flaws_in P (@send_to_candidates X l data b k).
Proof. revert b k. induction l as [|a l IH]; intros b k; cbn [send_to_candidates]; flaws. Qed.
Lemma flaws_send_header P h : flaws_in P (send_header h).
Proof. unfold send_header. flaws. Qed.
#[export] Hint Resolve flaws_mallocs_unchecked flaws_random flaws_send_to_candidates flaws_send_header : flaws.

(** ** Contexts *)

Section Contexts.
Context (P : flaw -> Prop).

Lemma flaws_next addr x : flaws_in P (connection_next x addr).
Proof. unfold connection_next. flaws. Qed.
Lemma flaws_due_loop fuel pos n : flaws_in P (next_due_loop fuel pos n).
Proof.
  pose proof flaws_next. revert pos n. induction fuel as [|fuel IH]; intros pos n; cbn [next_due_loop]; flaws.
Qed.
Lemma flaws_refresh : flaws_in P kcp_refresh_write_timer.
Proof. pose proof flaws_due_loop. unfold kcp_refresh_write_timer. flaws. Qed.
Lemma flaws_destroy addr : flaws_in P (kcp_connection_destroy addr).
Proof. pose proof flaws_refresh. unfold kcp_connection_destroy, connection_set_erase_node. flaws. Qed.
Lemma flaws_insert addr : flaws_in P (connection_set_insert addr).
Proof. unfold connection_set_insert. flaws. Qed.
Lemma flaws_alloc_scid n : flaws_in P (kcp_alloc_local_scid n).
Proof.
  unfold kcp_alloc_local_scid. flaws. induction (S _) as [|k IH]; cbn [alloc_scid_loop]; flaws.
Qed.
Lemma flaws_add_write addr : flaws_in P (kcp_add_write_event addr).
Proof. unfold kcp_add_write_event. flaws. Qed.
Lemma flaws_allocate mem : flaws_in P (allocate mem).
Proof. unfold allocate. flaws. Qed.
Lemma flaws_connection_init mem remote : flaws_in P (kcp_connection_init mem remote).
Proof. unfold kcp_connection_init, mtu_probe_init. flaws. Qed.
Lemma flaws_call_connected addr code : flaws_in P (call_on_connected addr code).
Proof. unfold call_on_connected. flaws. Qed.
Lemma flaws_syn_timer ms : flaws_in P (add_syn_timer ms).
Proof. unfold add_syn_timer. flaws. Qed.
End Contexts.
#[export] Hint Resolve flaws_next flaws_refresh flaws_destroy flaws_insert flaws_alloc_scid flaws_add_write flaws_allocate
  flaws_connection_init flaws_call_connected flaws_syn_timer : flaws.

(** ** The handshake *)

Lemma flaws_accept P ms : flaws_in P (kcp_accept ms).
Proof. unfold kcp_accept, accept_syn, link_header. flaws. Qed.

Lemma flaws_connect P addr ms cb : flaws_in P (kcp_connect addr ms cb).
Proof.
  unfold kcp_connect, kcp_connect_candidates, uninitialised_connection, start_connect, make_syn, link_header,
    kcp_send_syn_to_candidates, add_read_event. flaws.
Qed.

Lemma flaws_syn_reply P addr remote syn pos : flaws_in P (on_syn_reply addr remote syn pos).
Proof. unfold on_syn_reply. flaws. Qed.

Lemma flaws_handshake_ack P addr : flaws_in P (on_handshake_ack addr).
Proof. unfold on_handshake_ack. flaws. Qed.

(** ** Packets of an established connection *)

Section Packets.
Context (P : flaw -> Prop) (HP : P SignedOverflow).

Lemma flaws_ack h t : flaws_in P (on_kcp_ack_pcaket h t).
Proof. unfold on_kcp_ack_pcaket. flaws. Qed.

Lemma flaws_deliver_first : flaws_in P deliver_first.
Proof. unfold deliver_first. flaws. Qed.

Lemma flaws_push h t : flaws_in P (on_kcp_push_pcaket h t).
Proof.
  pose proof flaws_deliver_first. unfold on_kcp_push_pcaket, kcp_segment_recv_get, kcp_rcv_packet_create, push_fragment. flaws.
Qed.

(** But for the answer to a probe and the FIN. *)
Lemma flaws_input h : h_cmd h <> KCP_CMD_MTU_ACK -> h_cmd h <> KCP_CMD_FIN -> flaws_in P (kcp_input_pcaket h).
Proof.
  pose proof flaws_ack. pose proof flaws_push. intros H1%Z.eqb_neq H2%Z.eqb_neq.
  unfold kcp_input_pcaket, kcp_mtu_probe_received. flaws_step; [flaws|]. cbv zeta. rewrite H1, H2. flaws.
Qed.
End Packets.
