(* ===== verification/Exchange.v ===== *)
(** * Exchange: one packet between two contexts

    What the exchanges of [AcceptSpec], [Transfer], [Handshake] and [Closing] share:
    the steps the environment answers, the sends the kernel accepts, a datagram of one
    packet and its way to the connection it is for. *)

From stdpp Require Import gmap.
From S2P Require Import Prelude RbTree Bytes Bitmap Xxhash Config Wire Types World Net Bbr Snd Recv Flush FlushSpec FlushPack Mtu Context ContextSpec Input InputSpec Events Api ApiSpec Flaws.

(** ** The environment *)

(** The steps that the environment answers and that leave the context alone. *)
Definition silent (e e' : env) : Prop := e_trace e' = e_trace e /\ e_send e' = e_send e.

Lemma silent_trans e1 e2 e3 : silent e1 e2 -> silent e2 e3 -> silent e1 e3.
Proof. unfold silent. intros [] []. split; congruence. Qed.

Lemma silent_refl e : silent e e.
Proof. done. Qed.

Section Steps.
Context {X : Type} (x : X).

Lemma wp_malloc e (Q : bool -> X * env -> Prop) :
  memory_available e -> (forall e', silent e e' -> memory_available e' -> Q true (x, e')) -> wp malloc Q (x, e).
Proof.
  intros Hm HQ. destruct (malloc_available x e Hm) as (e' & Hr & Hm' & He). eapply wp_run; [exact Hr|].
  apply HQ; [by rewrite He|done].
Qed.

Lemma wp_malloc_flawless e (Q : bool -> X * env -> Prop) :
  memory_available e -> (forall e', silent e e' -> memory_available e' -> e_flaws e' = e_flaws e -> Q true (x, e')) ->
  wp malloc Q (x, e).
Proof.
  intros Hm HQ. destruct (malloc_available x e Hm) as (e' & Hr & Hm' & He). eapply wp_run; [exact Hr|].
  apply HQ; [by rewrite He|done|by rewrite He].
Qed.

Lemma wp_malloc_unchecked e (Q : unit -> X * env -> Prop) :
  memory_available e -> (forall e', silent e e' -> memory_available e' -> Q tt (x, e')) -> wp malloc_unchecked Q (x, e).
Proof. intros Hm HQ. apply wp_bind, wp_malloc; [done|]. intros e' He Hm'. by apply wp_ret, HQ. Qed.

Lemma wp_mallocs_unchecked n e (Q : unit -> X * env -> Prop) :
  memory_available e -> (forall e', silent e e' -> memory_available e' -> Q tt (x, e')) -> wp (mallocs_unchecked n) Q (x, e).
Proof.
  revert e. induction n as [|n IH]; intros e Hm HQ; cbn [mallocs_unchecked]; [by apply wp_ret, HQ|].
  apply wp_bind, wp_malloc_unchecked; [done|]. intros e1 H1 Hm1. apply IH; [done|]. intros e2 H2. apply HQ. by eapply silent_trans.
Qed.

Lemma wp_evtimer_new e (Q : timer -> X * env -> Prop) :
  memory_available e -> (forall e', silent e e' -> memory_available e' -> Q timer_idle (x, e')) -> wp evtimer_new Q (x, e).
Proof. intros Hm HQ. apply wp_bind, wp_malloc; [done|]. intros e' He Hm'. by apply wp_ret, HQ. Qed.

Lemma wp_uninitialised n e (Q : bytes -> X * env -> Prop) :
  memory_available e -> (forall l e', silent e e' -> memory_available e' -> Q l (x, e')) ->
  wp (uninitialised n) Q (x, e).
Proof.
  intros Hm HQ. unfold wp, uninitialised. destruct (next [] (e_uninit e)). by apply HQ.
Qed.

Lemma wp_clock_us e (Q : Z -> X * env -> Prop) :
  memory_available e -> (forall ts e', is_u64 ts -> silent e e' -> memory_available e' -> Q ts (x, e')) ->
  wp kcp_time_monotonic_us Q (x, e).
Proof.
  intros Hm HQ. unfold kcp_time_monotonic_us. apply wp_bind. unfold wp, clock_gettime.
  destruct (next 0 (e_ticks e)). apply wp_ret, HQ; [apply u64_range|done|done].
Qed.
End Steps.

(** ** Sends the kernel accepts *)

Lemma raw_accepting {X} remote data (x : X) e :
  accepting e -> data <> [] ->
  exists e', kcp_send_packet_raw_impl remote [data] (x, e) = Some (1, (x, e')) /\ sent_to remote [data] e e'.
Proof.
  intros He Hd. by apply (batch_accepting remote [data] x e He); [repeat constructor|..].
Qed.

(** What a send leaves of the environment. *)
Lemma sent_env remote data e e' :
  sent_to remote [data] e e' ->
  e_trace e' = e_trace e ++ [Datagram remote data] /\ e_malloc e' = e_malloc e /\ e_send e' = e_send e.
Proof. intros ->. by split_and!. Qed.

(** A header the code encodes in a buffer of its own is one datagram. *)
Lemma wp_send_header h c e (Q : Z -> kcp_connection * env -> Prop) :
  header_ok h -> h_opt h = 0 -> h_options h = [] -> header_size h = KCP_HEADER_SIZE -> accepting e ->
  (forall data e', kcp_proto_parse data = OK h [] -> sent_to (remote_host c) [data] e e' -> Q 1 (c, e')) ->
  wp (send_header h) Q (c, e).
Proof.
  intros Hok Ho Hopts Hsz He HQ. unfold send_header, encoded_header.
  destruct (header_image_roundtrip h Hok) as (data & Henc & Hlen & Hp); [by rewrite Ho|done|].
  rewrite Hsz in Henc, Hlen. change (Z.to_nat KCP_HEADER_SIZE) with 32%nat in Henc.
  destruct (raw_accepting (remote_host c) data c e He) as (e' & Hr & Hs); [by intros ->|].
  wp_step. wp_step. eapply wp_deref; [exact Henc|]. wp_step. cbn [snd]. wp_step. wp_step.
  eapply wp_run; [exact Hr|]. by apply (HQ data).
Qed.

Lemma wp_refresh x e (Q : unit -> kcp_context * env -> Prop) :
  ctx_ok x -> (forall ev e', e_trace e' = e_trace e -> Q tt (x <| write_timer_event := ev |>, e')) ->
  wp kcp_refresh_write_timer Q (x, e).
Proof. intros Hx HQ. destruct (refresh_ok x e Hx) as (ev & e' & Hr & Ht & _). eapply wp_run; [exact Hr|]. by apply HQ. Qed.

Lemma wp_clock_ms {X} (x : X) e (Q : Z -> X * env -> Prop) :
  (forall ts e', silent e e' -> Q ts (x, e')) -> wp kcp_time_monotonic_ms Q (x, e).
Proof. intros HQ. destruct (clock_ms_run x e) as (e' & Hr & Ht & _ & Hs). eapply wp_run; [exact Hr|]. by apply HQ. Qed.

(** ** A datagram of one packet *)

(** The text probes would be of the command 15, which no packet has. *)
Lemma parse_not_text data h rest :
  kcp_proto_parse data = OK h rest -> h_cmd h <> 15 -> kcp_is_text_probe_packet data = false.
Proof.
  intros Hp Hc. unfold kcp_is_text_probe_packet. apply andb_false_iff. right. apply not_true_iff_false. intros H.
  apply existsb_exists in H as (p & Hin & [_ Ht]%andb_true_iff). apply bool_decide_eq_true in Ht.
  rewrite <- (take_drop (length p) data) in Hp. rewrite Ht in Hp. set (tl := drop (length p) data) in *. clearbody tl.
  apply Hc. destruct Hin as [<-|[<-|[]]]; cbn in Hp.
  all: change (Z.land 95 15) with 15 in Hp; repeat case_match; by simplify_eq.
Qed.

Lemma parse_packet_starts cb data src h x e Q :
  kcp_proto_parse data = OK h [] -> h_cmd h <> 15 ->
  wp (mallocs_unchecked (parse_mallocs data);; handle_packet cb h src) (fun _ => Q tt) (x, e) ->
  wp (kcp_parse_packet cb data src) Q (x, e).
Proof.
  intros Hp Hc HQ. unfold kcp_parse_packet. rewrite (parse_not_text data h []) by done.
  pose proof (parse_length _ _ _ Hp) as Hl. destruct (Z.ltb_spec (Zlength data) KCP_HEADER_SIZE); [lia|].
  destruct data as [|b data]; [by vm_compute in Hl|]. cbn [length parse_packet_loop]. rewrite Hp.
  unfold wp in HQ |- *. unfold mbind, ST_bind in HQ |- *. destruct (mallocs_unchecked _ _) as [[[] s1]|]; [|done].
  destruct (handle_packet cb h src s1) as [[[] s2]|]; done.
Qed.

Lemma parse_one_packet cb data src h x e Q :
  kcp_proto_parse data = OK h [] -> h_cmd h <> 15 -> h_opt h = 0 ->
  wp (handle_packet cb h src) (fun _ => Q tt) (x, e) -> wp (kcp_parse_packet cb data src) Q (x, e).
Proof.
  intros Hp Hc Ho HQ. eapply parse_packet_starts; [done..|]. by rewrite (parse_mallocs_none _ _ _ Hp Ho).
Qed.

(** With options, which are allocated. *)
Lemma parse_option_packet cb data src h x e Q :
  kcp_proto_parse data = OK h [] -> h_cmd h <> 15 -> memory_available e ->
  (forall e', silent e e' -> memory_available e' -> e_flaws e' = e_flaws e -> wp (handle_packet cb h src) (fun _ => Q tt) (x, e')) ->
  wp (kcp_parse_packet cb data src) Q (x, e).
Proof.
  intros Hp Hc Hm HQ. eapply parse_packet_starts; [done..|]. wp_step. eapply wp_mono.
  { eapply wp_flaws; [apply flaws_mallocs_unchecked|]. apply (wp_mallocs_unchecked x _ e (fun _ s' =>
      s'.1 = x /\ silent e s'.2 /\ memory_available s'.2)); [exact Hm|]. intros e' He Hm'. by split. }
  intros _ [x' e'] [(Hx & He & Hm') Hf%adds_none]. cbn [fst snd] in *. subst x'. by apply HQ.
Qed.

(** ** The fields the context invariant reads *)

Lemma ctx_ok_fields x x' :
  ctx_ok x -> heap x' = heap x -> connection_set x' = connection_set x -> next_address x' = next_address x ->
  conv_bitmap x' = conv_bitmap x -> ctx_ok x'.
Proof.
  intros [Ht Hl Hs Hi] E1 E2 E3 E4. unfold dcid_at, members in *. constructor; unfold dcid_at, members; rewrite ?E1, ?E2, ?E3, ?E4; done.
Qed.

Lemma search_fields x x' k :
  heap x' = heap x -> connection_set x' = connection_set x -> connection_set_search x' k = connection_set_search x k.
Proof. unfold connection_set_search, dcid_at. by intros -> ->. Qed.

Lemma heap_set_same x a c : heap x !! a = Some c -> x <| heap ::= <[a := c]> |> = x.
Proof. intros Hc. destruct x; unfold set_field; cbn in *. f_equal. by apply insert_id. Qed.

(** ** A packet and its connection *)

(** The connection [r] of the context, in the state [st], is the peer of [src]: [own]
    is its id, [peer] that of the other side. *)
Record attached (st : kcp_connection_state) (a : Z) (src : sockaddr) (peer own : Z) (x : kcp_context) (r : kcp_connection) : Prop := {
  live_ctx : ctx_ok x;
  live_heap : heap x !! a = Some r;
  live_search : connection_set_search x peer = Some a;
  live_ids : scid r = own /\ dcid r = peer;
  live_remote : sockaddr_equal (remote_host r) src = true;
  live_state : state r = st;
}.

Notation live := (attached KCP_STATE_CONNECTED).

Lemma live_update st a src peer own x r r' :
  attached st a src peer own x r -> role r' = role r -> attached st a src peer own (x <| heap ::= <[a := r']> |>) r'.
Proof.
  intros [Hx Hh Hs [H1 H2] Hr Hst] [= E1 E2 E3 E4 E5].
  destruct (ctx_ok_conn x a r r' Hx Hh E3 E1) as [Hx' Hd].
  constructor; [done|apply lookup_insert_eq| |split; congruence|congruence|congruence].
  apply search_Some; [done|]. rewrite Hd. by apply search_Some in Hs.
Qed.

(** A packet that is no SYN goes to the handler of its connection, which is freed
    when it ends disconnected. *)
Lemma wp_known_packet cb st a src peer own x r h e (Q : loop_flow -> kcp_context * env -> Prop) :
  attached st a src peer own x r -> h_scid h = peer -> h_dcid h = own -> h_cmd h <> KCP_CMD_SYN ->
  wp (on_kcp_read_event a h src) (fun _ s' => exists r', heap s'.1 !! a = Some r' /\
    if bool_decide (state r' = KCP_STATE_DISCONNECTED)
    then wp (kcp_connection_destroy a) (fun _ => Q Break) s' else Q Continue s') (x, e) ->
  wp (handle_packet cb h src) Q (x, e).
Proof.
  intros [_ Hh Hse [Ho Hp] _ _] Hs Hd Hc HQ.
  unfold handle_packet. wp_step. wp_step. rewrite Hs, Hse. wp_step. wp_step. eapply wp_conn_at; [exact Hh|]. wp_step.
  unfold local_dcid. rewrite Hd, Ho, Z.eqb_refl, orb_true_r. cbn [negb]. cbn match.
  destruct (Z.eqb_spec (h_cmd h) KCP_CMD_SYN); [done|].
  wp_step. eapply wp_mono; [exact HQ|]. intros _ [x' e'] (r' & Hr' & HQ'). cbn [fst snd] in *.
  wp_step. eapply wp_conn_at; [exact Hr'|]. destruct (bool_decide _).
  - wp_step. eapply wp_mono; [exact HQ'|]. intros ? ? ?. by apply wp_ret.
  - by apply wp_ret.
Qed.

(** The handler of the state, for a packet that is no reset. *)
Lemma wp_read_event st a src peer own x r h e (Q : unit -> kcp_context * env -> Prop) :
  attached st a src peer own x r -> st <> KCP_STATE_SYN_SENT -> h_cmd h <> KCP_CMD_RST ->
  wp (match st with
      | KCP_STATE_DISCONNECTED | KCP_STATE_SYN_SENT => mret tt
      | KCP_STATE_SYN_RECEIVED =>
          if (h_cmd h =? KCP_CMD_ACK) || (h_cmd h =? KCP_CMD_PUSH) then on_handshake_ack a else send_rst a st
      | KCP_STATE_CONNECTED => on_conn a (kcp_input_pcaket h);; mret tt
      | KCP_STATE_FIN_SENT => on_fin_sent a h
      | KCP_STATE_FIN_RECEIVED => on_fin_received a h
      end) Q (x, e) ->
  wp (on_kcp_read_event a h src) Q (x, e).
Proof.
  intros [_ Hh _ _ Hr Hst] Hno Hc HQ. unfold on_kcp_read_event.
  assert (select_candidate src r = r) as Hsel by (unfold select_candidate; by rewrite bool_decide_false by congruence).
  wp_step. eapply wp_on_conn; [exact Hh|]. apply wp_mods. cbn [fst snd]. rewrite Hsel, (heap_set_same x a r) by done.
  wp_step. eapply wp_conn_at; [exact Hh|]. rewrite Hr. cbn [negb]. cbn match.
  destruct (Z.eqb_spec (h_cmd h) KCP_CMD_RST); [done|]. rewrite Hst. by destruct st.
Qed.

(** A packet of a connected peer that leaves it connected. *)
Lemma wp_connected_packet cb a src peer own x r h e (Q : loop_flow -> kcp_context * env -> Prop) :
  live a src peer own x r -> h_scid h = peer -> h_dcid h = own -> h_cmd h <> KCP_CMD_SYN -> h_cmd h <> KCP_CMD_RST ->
  wp (kcp_input_pcaket h) (fun _ s' => role s'.1 = role r /\ Q Continue (x <| heap ::= <[a := s'.1]> |>, s'.2)) (r, e) ->
  wp (handle_packet cb h src) Q (x, e).
Proof.
  intros Hl Hs Hd Hsyn Hrst HQ. pose proof Hl as [_ Hh _ _ _ Hst].
  eapply wp_known_packet; [exact Hl|done|done|exact Hsyn|].
  eapply wp_read_event; [exact Hl|done|exact Hrst|]. cbn match.
  wp_step. eapply wp_on_conn; [exact Hh|]. eapply wp_mono; [exact HQ|]. intros ? [r2 e2] [Hr HQ2]. cbn [fst snd] in *.
  wp_step. exists r2. split; [apply lookup_insert_eq|]. apply role_ids in Hr as [_ ->]. by rewrite Hst, bool_decide_false.
Qed.

(** ** Datagrams that arrive one after the other *)

Fixpoint receive (cb : sockaddr -> io kcp_context bool) (src : sockaddr) (l : list bytes) : io kcp_context unit :=
  match l with
  | [] => mret tt
  | data :: l => kcp_parse_packet cb data src;; receive cb src l
  end.

(** It is what [kcp_read_cb] does with datagrams that fit its buffer. *)
Lemma receive_read_cb cb src l s :
  Forall (fun d => Zlength d <= ETHERNET_MTU) l -> kcp_read_cb cb [] (map (Received src) l) s = receive cb src l s.
Proof.
  intros Hl. unfold kcp_read_cb. cbn [read_error_queue]. rewrite (bind_eq _ _ _ tt s) by done.
  revert s. induction Hl as [|d l Hd _ IH]; intros s; cbn [map read_datagrams receive]; [done|].
  rewrite take_ge by (unfold Zlength, ETHERNET_MTU in *; lia). unfold mbind, ST_bind. by destruct (kcp_parse_packet cb d src s) as [[[] s1]|].
Qed.

(** Packets one after the other in a datagram. *)
Definition datagram_of {A} (image : A -> bytes) (g : list A) : bytes := List.concat (map image g).

Section Datagrams.
(** Items that are encoded by [image] and parsed as [header], and what holds of a
    context once some of them were handled: then it holds of the rest. *)
Context {A : Type} (image : A -> bytes) (header : A -> kcp_proto_header) (ok : A -> Prop).
Context (cb : sockaddr -> io kcp_context bool) (src : sockaddr) (P : list A -> kcp_context -> env -> Prop).
Context (parse_item : forall a rest, ok a -> Zlength (image a ++ rest) <= ETHERNET_MTU ->
  kcp_proto_parse (image a ++ rest) = OK (header a) rest).
Context (item_length : forall a, ok a -> (32 <= length (image a))%nat /\ h_cmd (header a) <> 15).
Context (item_plain : forall a, ok a -> h_opt (header a) = 0).
Context (handle_item : forall l a x e, ok a -> P l x e ->
  wp (handle_packet cb (header a) src) (fun f s' => f = Continue /\ P (l ++ [a]) s'.1 s'.2) (x, e)).

Definition well_packed (g : list A) : Prop :=
  g <> [] /\ Forall ok g /\ Zlength (datagram_of image g) <= ETHERNET_MTU.

Lemma packed_length g : Forall ok g -> (32 * length g <= length (datagram_of image g))%nat.
Proof.
  unfold datagram_of. induction 1 as [|a g Ha _ IH]; cbn; [lia|]. rewrite length_app. destruct (item_length a Ha). lia.
Qed.

Lemma item_mallocs a rest : ok a -> Zlength (image a ++ rest) <= ETHERNET_MTU -> parse_mallocs (image a ++ rest) = 0%nat.
Proof. intros Ha Hl. by apply (parse_mallocs_none _ (header a) rest); [apply parse_item|apply item_plain]. Qed.

(** The packets of one datagram. *)
Lemma parse_items a g fuel l x e :
  ok a -> Forall ok g -> (length g < fuel)%nat -> Zlength (datagram_of image (a :: g)) <= ETHERNET_MTU -> P l x e ->
  wp (parse_packet_loop cb fuel (datagram_of image (a :: g)) src) (fun _ s' => P (l ++ a :: g) s'.1 s'.2) (x, e).
Proof.
  unfold datagram_of. intros Ha Hall. revert a Ha fuel l x e.
  induction Hall as [|b g Hb Hall IH]; intros a Ha [|fuel] l x e Hf Hlen HP; try (cbn in Hf; lia);
    cbn [map List.concat parse_packet_loop].
  all: rewrite item_mallocs, parse_item by done; wp_step; apply wp_ret; wp_step; eapply wp_mono; [by eapply handle_item|].
  all: intros f [x1 e1] [-> HP1]; cbn [fst snd] in HP1.
  - by wp_step.
  - assert (image b ++ List.concat (map image g) <> []) as Hne.
    { intros [Hnil _]%app_nil. destruct (item_length b Hb) as [Hl _]. rewrite Hnil in Hl. cbn in Hl. lia. }
    destruct (image b ++ List.concat (map image g)) as [|z zs] eqn:E; [done|]. rewrite <- E in *.
    replace (l ++ a :: b :: g) with ((l ++ [a]) ++ b :: g) by (by rewrite <- app_assoc).
    apply (IH b Hb); [cbn in Hf; lia| |done].
    cbn [map List.concat] in Hlen |- *. rewrite Zlength_app in Hlen. pose proof (Zlength_nonneg (image a)). lia.
Qed.

Lemma parse_datagram g l x e :
  well_packed g -> P l x e ->
  wp (kcp_parse_packet cb (datagram_of image g) src) (fun _ s' => P (l ++ g) s'.1 s'.2) (x, e).
Proof.
  intros (Hne & Hall & Hlen) HP. destruct g as [|a g]; [done|]. pose proof (packed_length (a :: g) Hall) as Hl.
  cbn [length] in Hl. apply Forall_cons in Hall as [Ha Hall]. destruct (item_length a Ha) as [_ Hc].
  unfold kcp_parse_packet.
  rewrite (parse_not_text _ (header a) (datagram_of image g)) by (done || by apply parse_item).
  destruct (Z.ltb_spec (Zlength (datagram_of image (a :: g))) KCP_HEADER_SIZE).
  { unfold KCP_HEADER_SIZE, Zlength in *. lia. }
  apply parse_items; try done. lia.
Qed.

Lemma receive_datagrams gs l x e :
  Forall well_packed gs -> P l x e ->
  wp (receive cb src (map (datagram_of image) gs)) (fun _ s' => P (l ++ List.concat gs) s'.1 s'.2) (x, e).
Proof.
  intros Hall. revert l x e. induction Hall as [|g gs Hg _ IH]; intros l x e HP; cbn [map receive List.concat].
  { wp_step. by rewrite app_nil_r. }
  wp_step. eapply wp_mono; [by apply parse_datagram|]. intros _ [x1 e1] HP1. rewrite app_assoc. by apply IH.
Qed.
End Datagrams.
