(* ===== verification/AcceptSpec.v ===== *)
(** * AcceptSpec: the server's answer to a SYN

    [kcp_accept] on the first SYN of a peer makes a connection in SYN_RECEIVED and
    answers ([kcp_accept_correct]); on the SYN of a peer the server has a connection
    with already it empties the connection set ([kcp_accept_duplicate]). *)

From stdpp Require Import gmap.
From S2P Require Import Prelude RbTree Bytes Bitmap Xxhash Config Wire Types World Net Bbr Snd Recv Delivery Flush FlushSpec FlushPack Mtu Context ContextSpec Input InputSpec Events Api ApiSpec Exchange.

(** ** A new connection *)

(** Nothing was sent or received yet; both sides number from 0. *)
Record at_start (c : kcp_connection) : Prop := {
  start_receiver : receiver_init 0 c;
  start_sender : snd_ok c /\ snd_buf c = [] /\ snd_queue c = [];
  start_numbers : snd_una c = 0 /\ snd_nxt c = 0 /\ psn_nxt c = 0;
  start_windows : snd_wnd c = KCP_WND_SND /\ rmt_wnd c = KCP_WND_RCV /\ rcv_wnd c = KCP_WND_RCV;
  start_acks : ack_item c = [] /\ probe c = 0;
}.

(** What [at_start] reads. *)
Definition session (c : kcp_connection) :=
  (recv_view c, snd_view c, psn_nxt c, (snd_wnd c, rmt_wnd c, rcv_wnd c), (ack_item c, probe c)).

Lemma at_start_session c c' : session c' = session c -> at_start c -> at_start c'.
Proof.
  intros [= R1 R2 R3 R4 R5 R6 R7 R8 S1 S2 S3 S4 S5 S6 S7 S8 P1 W1 W2 W3 A1 A2] [[?????[??]] [Hok ?] ? ? ?].
  assert (snd_view c' = snd_view c) as Hv by (unfold snd_view; congruence).
  constructor; rewrite ?S1, ?S2, ?S3, ?S5, ?P1, ?W1, ?W2, ?W3, ?A1, ?A2; try done.
  - constructor; rewrite ?R1, ?R2, ?R3, ?R4, ?R5, ?R6, ?R7, ?R8; done.
  - split; [by apply (snd_ok_view c)|done].
Qed.

(** What a new connection is. *)
Record fresh (mem : kcp_connection) (remote : sockaddr) (x : kcp_context) (c : kcp_connection) : Prop := {
  fresh_self : k_self c = k_self mem;
  fresh_ids : scid c = 0 /\ dcid c = 0;
  fresh_state : state c = KCP_STATE_DISCONNECTED;
  fresh_remote : remote_host c = remote;
  fresh_mtu : mtu c = u32 (udp_mtu x) /\ mss c = u32 (mtu c - KCP_HEADER_SIZE);
  fresh_start : at_start c;
  fresh_empty : kcp_proto_header_list c = [];
  fresh_timer : need_write_timer_event c = false;
}.

Lemma wp_connection_init mem remote x e (Q : kcp_connection -> kcp_context * env -> Prop) :
  memory_available e ->
  (forall c e', fresh mem remote x c -> silent e e' -> memory_available e' -> Q c (x, e')) ->
  wp (kcp_connection_init mem remote) Q (x, e).
Proof.
  intros Hm HQ. unfold kcp_connection_init, mtu_probe_init. wp_step. wp_step. cbv zeta.
  wp_step. apply wp_clock_us; [done|]. intros ts e1 _ H1 Hm1.
  wp_step. apply wp_malloc_unchecked; [done|]. intros e2 H2 Hm2.
  wp_step. wp_step. apply wp_malloc_unchecked; [done|]. intros e3 H3 Hm3.
  wp_step. apply wp_malloc_unchecked; [done|]. intros e4 H4 Hm4.
  wp_step. apply wp_uninitialised; [done|]. intros l1 e5 H5 Hm5.
  wp_step. apply wp_uninitialised; [done|]. intros l2 e6 H6 Hm6. wp_step.
  wp_step. apply wp_malloc_unchecked; [done|]. intros e7 H7 Hm7. wp_step.
  apply HQ; [| |done].
  - constructor; try done. constructor; try done. split; [|done]. constructor; done || constructor.
  - repeat (eapply silent_trans; [eassumption|]). apply silent_refl.
Qed.

(** A connection just made for the peer id [peer] at the address [remote], before its
    local id. *)
Record made (peer : Z) (remote : sockaddr) (x : kcp_context) (c : kcp_connection) : Prop := {
  made_self : k_self c = next_address x;
  made_ids : scid c = 0 /\ dcid c = peer /\ remote_host c = remote;
  made_mtu : mtu c = u32 (udp_mtu x) /\ mss c = u32 (mtu c - KCP_HEADER_SIZE);
  made_state : state c = KCP_STATE_DISCONNECTED;
  made_start : at_start c;
  made_empty : kcp_proto_header_list c = [];
  made_timer : need_write_timer_event c = false;
}.

Definition created (peer : Z) (remote : sockaddr) (x x1 : kcp_context) (c : kcp_connection) : Prop :=
  x1 = x <| heap := <[next_address x := c]> (heap x) |> <| next_address := next_address x + 1 |> /\ made peer remote x c.

(** The part of [kcp_accept] after the connection is made. *)
Definition accept_rest (addr : Z) (syn_packet : kcp_syn_node) (timeout_ms : Z) : io kcp_context Z :=
  inserted ← connection_set_insert addr;
  r ← (if inserted : bool then
         id ← kcp_alloc_local_scid 2;
         match id with
         | inr status => mret (inr status)
         | inl id =>
             on_conn addr (mods (fun c => c <| scid := id |>));;
             accept_syn addr syn_packet timeout_ms
         end
       else mret (inr CONNECTION_ID_CONFLICT));
  match r with
  | inl result => mret result
  | inr status => kcp_connection_destroy addr;; mret status
  end.

Lemma accept_start x e s q timeout_ms Q :
  syn_queue x = s :: q -> memory_available e ->
  (forall x1 c e1, created (sy_scid s) (sy_remote_host s) x x1 c -> silent e e1 -> memory_available e1 ->
     wp (accept_rest (next_address x) s timeout_ms) Q (x1, e1)) ->
  wp (kcp_accept timeout_ms) Q (x, e).
Proof.
  intros Hq Hm HQ. unfold kcp_accept. wp_step. wp_step. rewrite Hq.
  wp_step. apply wp_malloc; [done|]. intros e1 H1 Hm1. cbn [negb]. cbn match.
  set (a := next_address x). unfold allocate.
  wp_step. wp_step. wp_step. cbv zeta. fold a. wp_step. wp_step. wp_step.
  match goal with |- wp _ _ (?y, _) => set (x0 := y) end.
  assert (heap x0 !! a = Some (zero_connection <| k_self := a |>)) as Ha by apply lookup_insert_eq.
  wp_step. eapply wp_conn_at; [exact Ha|].
  wp_step. apply wp_connection_init; [done|]. intros c e2 Hc H2 Hm2.
  wp_step. eapply wp_on_conn; [exact Ha|]. apply wp_mods. cbn [fst snd].
  set (c' := c <| dcid := sy_scid s |>).
  eapply (HQ _ c' e2); [|by eapply silent_trans|done]. split.
  - unfold x0. destruct x; unfold set_field; cbn. f_equal. apply insert_insert_eq.
  - destruct Hc. constructor; try done; [by split_and!; try apply fresh_ids0|by apply (at_start_session c)].
Qed.

(** The object is in no set yet. *)
Lemma created_facts peer remote x x1 c :
  ctx_ok x -> created peer remote x x1 c ->
  ctx_ok x1 /\ heap x1 !! next_address x = Some c /\ next_address x ∉ members x /\ members x1 = members x /\
  (forall k, connection_set_search x1 k = connection_set_search x k) /\ heap x !! next_address x = None.
Proof.
  intros Hx (-> & []). set (a := next_address x) in *.
  assert (heap x !! a = None) as Hnone.
  { destruct (heap x !! a) as [d|] eqn:E; [|done]. apply (ctx_self _ Hx) in E. unfold a in *. lia. }
  assert (a ∉ members x) as Ha.
  { intros Hin. destruct (ctx_live _ Hx a Hin) as [d Hd']. congruence. }
  assert (forall b, b ∈ members x -> <[a := c]> (heap x) !! b = heap x !! b) as Hsame.
  { intros b Hb. apply lookup_insert_ne. by intros ->. }
  set (x1 := x <| heap := _ |> <| next_address := _ |>).
  assert (ctx_ok x1) as Hx1.
  { constructor.
    - apply (members_key_ext x); [done| |apply (ctx_tree _ Hx)]. intros b Hb. unfold dcid_at.
      change (heap x1) with (<[a := c]> (heap x)). by rewrite Hsame.
    - intros b Hb. change (heap x1) with (<[a := c]> (heap x)). rewrite Hsame by done. by apply (ctx_live _ Hx).
    - intros b d. change (<[a := c]> (heap x) !! b = Some d -> k_self d = b /\ b < a + 1).
      intros [[<- <-]|[? Hb]]%lookup_insert_Some.
      + split; [done|lia].
      + apply (ctx_self _ Hx) in Hb. unfold a in *. lia.
    - apply (ctx_ids _ Hx). }
  split_and!; try done; [apply lookup_insert_eq|].
  intros k. rewrite !search_find by done. apply find_by_key_ext. intros b Hb. unfold dcid_at.
  change (heap x1) with (<[a := c]> (heap x)). by rewrite Hsame.
Qed.

(** ** A peer that has a connection *)

(** No id leads to a connection any more. *)
Definition unreachable (x : kcp_context) : Prop := forall k, connection_set_search x k = None.

(** C35: When the first SYN of the queue comes from a peer id the
    set has a connection for, [kcp_accept] answers CONNECTION_ID_CONFLICT; on the way
    it destroys an object that was never linked in the set, and the erasure of its
    zeroed node makes the root NULL: no connection of the server is found any more,
    whatever their number, and the SYN is still the first of the queue. *)
Theorem kcp_accept_duplicate (x : kcp_context) (e : env) (s : kcp_syn_node) (q : list kcp_syn_node)
    (other timeout_ms : Z) :
  ctx_ok x -> lost_nodes x = [] -> memory_available e ->
  syn_queue x = s :: q -> connection_set_search x (sy_scid s) = Some other ->
  exists x' e', kcp_accept timeout_ms (x, e) = Some (CONNECTION_ID_CONFLICT, (x', e')) /\
    unreachable x' /\ lost_nodes x' = members x /\
    heap x' = heap x /\ syn_queue x' = s :: q /\ e_trace e' = e_trace e.
Proof.
  intros Hx Hlost Hm Hq Hs. apply wp_elim2. eapply accept_start; [done|done|].
  intros x1 c e1 Hacc [Ht1 _] _. destruct (created_facts _ _ x x1 c Hx Hacc) as (Hx1 & Hc & Ha & Hm1 & Hs1 & Hnone).
  set (a := next_address x) in *. destruct Hacc as (Hx1e & [_ (Hscid & Hd & _) _ _ _ _ _]).
  unfold accept_rest. unfold connection_set_insert. wp_step. wp_step. wp_step.
  replace (dcid_at x1 a) with (sy_scid s) by (unfold dcid_at; by rewrite Hc).
  rewrite Hs1, Hs. wp_step. wp_step. wp_step. wp_step.
  unfold kcp_connection_destroy, connection_set_erase_node. wp_step. wp_step. wp_step.
  fold (members x1). rewrite Hm1, bool_decide_false by done.
  rewrite bool_decide_false by (rewrite Hx1e; cbn; rewrite Hlost; apply not_elem_of_nil).
  wp_step. set (x2 := x1 <| lost_nodes ::= _ |> <| connection_set := Leaf |>).
  wp_step. eapply wp_conn_at; [exact Hc|].
  wp_step. wp_step. rewrite Hscid. cbn [negb Z.eqb andb]. cbn match. wp_step. wp_step.
  set (x3 := x2 <| conn_write_event_queue ::= _ |> <| heap ::= _ |>).
  assert (heap x3 = heap x) as Hh3.
  { change (delete a (heap x1) = heap x). rewrite Hx1e. cbn. by apply delete_insert_id. }
  assert (ctx_ok x3) as Hx3.
  { constructor.
    - apply tree_ok_leaf.
    - intros b Hb. by apply elem_of_nil in Hb.
    - intros b d. rewrite Hh3. change (next_address x3) with (next_address x1). intros Hb.
      apply (ctx_self _ Hx) in Hb. rewrite Hx1e. cbn. lia.
    - apply (ctx_ids _ Hx1). }
  destruct (refresh_ok x3 e1 Hx3) as (ev & e' & Hr & Ht & _).
  eapply wp_run; [exact Hr|]. wp_step. split; [done|]. cbn [fst snd]. split_and!.
  - intros k. reflexivity.
  - change (members x1 ++ lost_nodes x1 = members x). rewrite Hm1, Hx1e. cbn. by rewrite Hlost, app_nil_r.
  - exact Hh3.
  - change (syn_queue x1 = s :: q). by rewrite Hx1e.
  - congruence.
Qed.

(** ** The answer to a new peer *)

(** A SYN of the queue, as [kcp_parse_packet] makes it. *)
Definition syn_ok (s : kcp_syn_node) : Prop := is_u16 (sy_scid s) /\ is_u32 (sy_rand_sn s).

Lemma ts_hash32_range ts : is_u32 (ts_hash32 ts).
Proof. exact (XXH32_range _ _). Qed.

(** The SYN the server sends encodes, and reads back at the client. *)
Lemma syn_header_encodes (x : kcp_context) id dcid_ packet_ts_ ts sn rand :
  is_u16 id -> is_u16 dcid_ -> is_u64 packet_ts_ -> is_u64 ts -> is_u32 sn -> is_u32 rand -> is_u32 (udp_mtu x) ->
  let h := syn_header x id dcid_ packet_ts_ ts sn rand in
  exists r data, kcp_proto_header_encode h (replicate SYN_SIZE 0) = Some (r, data) /\
    data <> [] /\ kcp_proto_parse data = OK h [].
Proof.
  intros H1 H2 H0 H3 H4 H5 H6 h.
  destruct (syn_image_roundtrip h (KcpOption KCP_OPTION_TAG_MTU 4 (u64 (udp_mtu x))))
    as (data & He & Hl & Hp); [|done..| |].
  - unfold header_ok, h, syn_header. cbn. split_and!; try done; lia.
  - split; [done|]. split; [done|]. cbn. rewrite u64_small; lia.
  - exists 38, data. split_and!; [exact He| |done]. by intros ->.
Qed.

(** The connection once the SYN is sent. *)
Record answered (x : kcp_context) (s : kcp_syn_node) (id timeout_ms : Z) (c : kcp_connection) : Prop := {
  ans_ids : scid c = id /\ dcid c = sy_scid s;
  ans_remote : remote_host c = sy_remote_host s;
  ans_state : state c = KCP_STATE_SYN_RECEIVED;
  ans_timer : syn_timer_event c = timer_pending timeout_ms;
  ans_mtu : mtu c = MIN (u32 (udp_mtu x)) (mtu_option (sy_options s) (u32 (udp_mtu x))) /\
            mss c = u32 (mtu c - KCP_HEADER_SIZE);
  ans_start : at_start c;
  ans_quiet : need_write_timer_event c = false;
}.

Lemma accept_syn_run x0 x e a c s id timeout_ms :
  made (sy_scid s) (sy_remote_host s) x0 c -> heap x !! a = Some (c <| scid := id |>) -> udp_mtu x = udp_mtu x0 ->
  1 <= id <= KCP_BITMAP_SIZE -> syn_ok s -> is_u32 (udp_mtu x) -> memory_available e -> accepting e ->
  wp (accept_syn a s timeout_ms)
     (fun r s' => r = inl NO_ERROR /\ exists c' ts data, s'.1 = x <| heap ::= <[a := c']> |> /\
        answered x0 s id timeout_ms c' /\ k_self c' = k_self c /\
        kcp_proto_parse data = OK (syn_header x id (sy_scid s) ts ts (sy_rand_sn s) (ts_hash32 ts)) [] /\
        e_trace s'.2 = e_trace e ++ [Datagram (sy_remote_host s) data] /\
        memory_available s'.2 /\ accepting s'.2) (x, e).
Proof.
  intros [_ (_ & Hd & Hr) [Hmtu _] _ Hstart _ Hneed] Hc Hux Hrange [Hs1 Hs2] Hu Hm Hacc. unfold accept_syn.
  wp_step. apply wp_evtimer_new; [done|]. intros e1 [H1 H1'] Hm1.
  wp_step. eapply wp_on_conn; [exact Hc|]. apply wp_mods. cbn [fst snd].
  rewrite bool_decide_false by done.
  wp_step. eapply wp_on_conn; [apply lookup_insert_eq|]. apply wp_mods. cbn [fst snd].
  wp_step. apply wp_malloc; [done|]. intros e2 [H2 H2'] Hm2. cbn [negb]. cbn match.
  wp_step. apply wp_clock_us; [done|]. intros ts e3 Hts [H3 H3'] Hm3.
  wp_step. apply wp_malloc; [done|]. intros e4 [H4 H4'] Hm4. cbn [negb]. cbn match.
  wp_step. wp_step. wp_step. eapply wp_conn_at; [apply lookup_insert_eq|].
  match goal with |- context[scid ?c] => set (c1 := c) end.
  set (h := syn_header _ _ _ _ _ _ _).
  assert (h = syn_header x id (sy_scid s) ts ts (sy_rand_sn s) (ts_hash32 ts)) as Hh.
  { unfold h. change (scid c1) with id. change (dcid c1) with (dcid c). by rewrite Hd. }
  clearbody h. subst h. set (h := syn_header _ _ _ _ _ _ _).
  destruct (syn_header_encodes x id (sy_scid s) ts ts (sy_rand_sn s) (ts_hash32 ts))
    as (r0 & data & He & Hne & Hp);
    [clear -Hrange; unfold KCP_BITMAP_SIZE in *; lia|exact Hs1|exact Hts|exact Hts|exact Hs2|exact (ts_hash32_range ts)|exact Hu|].
  wp_step. eapply wp_on_conn; [apply lookup_insert_eq|]. apply wp_mods. cbn [fst snd].
  wp_step. unfold encoded_header. wp_step. eapply wp_deref; [exact He|]. wp_step.
  set (c2 := c1 <| kcp_proto_header_list ::= _ |>).
  destruct (batch_accepting (sy_remote_host s) [data] c2 e4) as (e5 & Hsend & Ht5);
    [unfold accepting in *; congruence|by repeat constructor|done|done|].
  wp_step. eapply wp_on_conn; [apply lookup_insert_eq|]. unfold kcp_send_packet, kcp_send_packet_raw.
  change (remote_host c1) with (remote_host c). rewrite Hr.
  eapply wp_run; [exact Hsend|]. cbn [fst snd].
  wp_step. eapply wp_on_conn; [apply lookup_insert_eq|]. unfold add_syn_timer. wp_step. wp_step. wp_step.
  eapply wp_run; [reflexivity|]. apply wp_mods. cbn [fst snd].
  change (Zlength [data] =? 1) with true. cbn [negb]. cbn match.
  wp_step. eapply wp_on_conn; [apply lookup_insert_eq|]. apply wp_mods. cbn [fst snd].
  wp_step. split; [done|]. match goal with |- context[set_field heap (insert a ?c')] => exists c' end.
  exists ts, data. cbn [fst snd]. split_and!; [by rewrite !heap_set_twice| |done|exact Hp| |by rewrite Ht5|].
  - constructor; [exact (conj eq_refl Hd)|exact Hr|done|done| |by apply (at_start_session c)|exact Hneed].
    cbv zeta. split; [|done].
    match goal with |- mtu ?c' = _ =>
      change (mtu c') with (MIN (mtu c) (mtu_option (sy_options s) (u32 (udp_mtu x)))) end. by rewrite Hmtu, Hux.
  - rewrite Ht5. change (e_trace e4 ++ [Datagram (sy_remote_host s) data] = e_trace e ++ [Datagram (sy_remote_host s) data]). congruence.
  - unfold accepting in *. rewrite Ht5. cbn. congruence.
Qed.

(** The fields of a context besides its connections, its ids and its clock. *)
Definition same_settings (x x' : kcp_context) : Prop :=
  x' = x <| heap := heap x' |> <| next_address := next_address x' |> <| connection_set := connection_set x' |>
         <| lost_nodes := lost_nodes x' |> <| conv_bitmap := conv_bitmap x' |>
         <| conn_write_event_queue := conn_write_event_queue x' |> <| write_timer_event := write_timer_event x' |>.

(** The new connection in the set: found under the id of its peer, the others as
    before. *)
Record linked (peer : Z) (remote : sockaddr) (x : kcp_context) (a : Z) (c : kcp_connection) (x2 : kcp_context) : Prop := {
  ln_ok : ctx_ok x2;
  ln_search : forall k, connection_set_search x2 k = if k =? peer then Some a else connection_set_search x k;
  ln_conn : heap x2 !! a = Some c;
  ln_made : made peer remote x c;
  ln_bitmap : conv_bitmap x2 = conv_bitmap x;
  ln_settings : same_settings x x2;
}.

Lemma created_links peer remote x x1 c e1 :
  ctx_ok x ->
  connection_set_search x peer = None -> created peer remote x x1 c ->
  exists x2, connection_set_insert (next_address x) (x1, e1) = Some (true, (x2, e1)) /\
    linked peer remote x (next_address x) c x2.
Proof.
  intros Hx Hnone Ha. destruct (created_facts _ _ x x1 c Hx Ha) as (Hx1 & Hc & Hnin & Hmem1 & Hs1 & _).
  set (a := next_address x) in *.
  destruct Ha as (Hx1e & Hmade). pose proof Hmade as [Hself (Hscid & Hd & Hr) _ _ _ _ Hneed].
  destruct (connection_set_insert_run x1 e1 a c Hx1 Hc) as (ins & x2 & Hri & Hx2 & Hsame & Hf & _ & Htrue).
  rewrite Hd, Hs1, Hnone in Hf. destruct ins; [|destruct (proj1 Hf eq_refl) as [? ?]; done].
  specialize (Htrue eq_refl). assert (heap x2 = heap x1) as Hh2 by (rewrite Hsame; done).
  exists x2. split; [done|]. constructor; try done.
  - intros k. by rewrite Htrue, Hd, Hs1.
  - by rewrite Hh2.
  - by rewrite Hsame, Hx1e.
  - unfold same_settings. rewrite Hsame, Hx1e. done.
Qed.

(** No id was found: the connection is destroyed again. *)
Lemma gives_up peer remote x a c x2 e :
  linked peer remote x a c x2 -> connection_set_search x peer = None ->
  exists x' e', kcp_connection_destroy a (x2, e) = Some (tt, (x', e')) /\ ctx_ok x' /\ e_trace e' = e_trace e /\
    same_settings x x' /\ (forall k, connection_set_search x' k = connection_set_search x k).
Proof.
  intros [Hx2 Hs Hc [_ (_ & Hd & _) _ _ _ _ _] _ Hset] Hnone.
  assert (a ∈ members x2) as Ha.
  { apply (search_Some x2 peer a Hx2). rewrite Hs. by rewrite Z.eqb_refl. }
  destruct (destroy_run x2 e a c Hx2 Ha Hc) as (x' & e' & Hrun & Hx' & Hde & Hm' & Ht' & _).
  exists x', e'. split_and!; try done; [unfold same_settings; rewrite Hde, Hset; done|]. intros k. rewrite (destroyed_search x2 x' a c k), Hd, Hs by done.
  destruct (Z.eqb_spec k peer) as [->|]; done.
Qed.

(** A write to the new connection keeps the set. *)
Lemma linked_write peer remote x a c c' x2 x3 :
  linked peer remote x a c x2 -> ctx_ok x3 -> x3 = x2 <| conv_bitmap := conv_bitmap x3 |> ->
  dcid c' = dcid c -> k_self c' = k_self c ->
  ctx_ok (x3 <| heap ::= <[a := c']> |>) /\
  forall k, connection_set_search (x3 <| heap ::= <[a := c']> |>) k = if k =? peer then Some a else connection_set_search x k.
Proof.
  intros [Hx2 Hs Hc _ _ _] Hx3 Hx3e Hd Hk.
  assert (heap x3 !! a = Some c) as Hc3 by (by rewrite Hx3e).
  destruct (ctx_ok_conn x3 a c c' Hx3 Hc3 Hd Hk) as [Hx4 Hdc]. split; [done|]. intros k.
  rewrite search_find by done. rewrite (find_by_key_ext _ (dcid_at x2)).
  2: { intros b _. rewrite Hdc. unfold dcid_at. by rewrite Hx3e. }
  change (members (x3 <| heap ::= <[a:=c']> |>)) with (members x3).
  replace (members x3) with (members x2) by (by rewrite Hx3e). rewrite <- (search_find x2 k Hx2). apply Hs.
Qed.

(** What [kcp_accept] leaves when it answers NO_ERROR. *)
Record accept_done (s : kcp_syn_node) (timeout_ms : Z) (x : kcp_context) (e : env) (x' : kcp_context) (e' : env)
    (a id : Z) (c : kcp_connection) (ts : Z) (data : bytes) : Prop := {
  ad_search : forall k, connection_set_search x' k = if k =? sy_scid s then Some a else connection_set_search x k;
  ad_conn : heap x' !! a = Some c;
  ad_answered : answered x s id timeout_ms c;
  ad_id : 1 <= id <= KCP_BITMAP_SIZE /\ bitmap_get (conv_bitmap x) id = false;
  ad_parse : kcp_proto_parse data = OK (syn_header x id (sy_scid s) ts ts (sy_rand_sn s) (ts_hash32 ts)) [];
  ad_sent : e_trace e' = e_trace e ++ [Datagram (sy_remote_host s) data];
  ad_settings : same_settings x x';
  ad_env : memory_available e' /\ accepting e';
}.

Lemma kcp_accept_run x e s q timeout_ms :
  ctx_ok x -> memory_available e -> accepting e ->
  syn_queue x = s :: q -> syn_ok s -> is_u32 (udp_mtu x) -> connection_set_search x (sy_scid s) = None ->
  wp (kcp_accept timeout_ms) (fun code s' => ctx_ok s'.1 /\
    (code = NO_ERROR /\ (exists a id c ts data, accept_done s timeout_ms x e s'.1 s'.2 a id c ts data) \/
     code = CONNECTION_ID_CONFLICT /\ e_trace s'.2 = e_trace e /\
       (forall k, connection_set_search s'.1 k = connection_set_search x k) /\ same_settings x s'.1)) (x, e).
Proof.
  intros Hx Hm Hacc Hq Hs Hu Hnone. eapply accept_start; [done|done|].
  intros x1 c e1 Ha [Ht1 Hsend1] Hm1.
  destruct (created_links _ _ x x1 c e1 Hx Hnone Ha) as (x2 & Hri & Hl). set (a := next_address x) in *.
  unfold accept_rest. wp_step. eapply wp_run; [exact Hri|]. wp_step.
  destruct (kcp_alloc_local_scid_run x2 e1 2 (ln_ok _ _ _ _ _ _ Hl)) as (r & x3 & e2 & Hra & Hx3 & (Ht2 & Hsend2 & Hm2) & Hcase).
  wp_step. eapply wp_run; [exact Hra|]. destruct r as [id|code].
  - destruct Hcase as (Hid & _ & Hfree & _ & Hx3e). pose proof (ln_settings _ _ _ _ _ _ Hl) as Hset.
    assert (udp_mtu x3 = udp_mtu x) as Hu3 by (rewrite Hx3e, Hset; done).
    assert (heap x3 !! a = Some c) as Hc3 by (rewrite Hx3e; apply (ln_conn _ _ _ _ _ _ Hl)).
    pose proof (ln_made _ _ _ _ _ _ Hl) as Hmade.
    wp_step. eapply wp_on_conn; [exact Hc3|]. apply wp_mods. cbn [fst snd].
    eapply wp_mono; [apply (accept_syn_run x _ _ _ c s id); try done|].
    + apply lookup_insert_eq.
    + change (is_u32 (udp_mtu x3)). by rewrite Hu3.
    + unfold memory_available in *. by rewrite Hm2.
    + unfold accepting in *. congruence.
    + intros ? [x4 e4] (-> & c' & ts & data & Hx4 & Hans & Hk & Hp & Ht & Henv). cbn [fst snd] in *.
      rewrite heap_set_twice in Hx4. subst x4. wp_step.
      destruct (linked_write _ _ x a c c' x2 x3 Hl Hx3 Hx3e) as [Hx4 Hsr];
        [destruct Hans as [[_ ->] _ _ _ _ _ _], Hmade as [_ (_ & -> & _) _ _ _ _ _]; done|done|].
      split; [exact Hx4|]. left. split; [done|]. cbn [fst snd]. exists a, id, c', ts, data.
      constructor; [exact Hsr|apply lookup_insert_eq|done|split; [done|by rewrite <- (ln_bitmap _ _ _ _ _ _ Hl)]| | | |done].
      * rewrite Hp. unfold syn_header. change (udp_mtu (x3 <| heap ::= <[a:=c <| scid := id |>]> |>)) with (udp_mtu x3).
        by rewrite Hu3.
      * rewrite Ht. congruence.
      * unfold same_settings. rewrite Hx3e, Hset. done.
  - destruct Hcase as [-> ->].
    wp_step. destruct (gives_up _ _ x a c x2 e2 Hl Hnone) as (x' & e' & Hrun & Hx' & Ht' & Hset & Hs').
    wp_step. eapply wp_run; [exact Hrun|]. wp_step. split; [exact Hx'|]. right. cbn [fst snd].
    split_and!; [done|congruence|done|done].
Qed.

(** C14: When the first SYN of the queue comes from a peer the set
    does not know, with memory available and a kernel that accepts, [kcp_accept]
    makes one connection and sends one datagram, to that peer: a SYN that reads back
    with the number of the client's SYN and a local id that was free; the connection
    has both ids and the smaller of the MTUs, waits in SYN_RECEIVED with its timer
    pending and both numberings at 0, is found under the client's id, and no other
    connection is lost.  The only other answer is CONNECTION_ID_CONFLICT, when the
    draws all hit a taken id: nothing is sent and the set is as before. *)
Theorem kcp_accept_correct (x : kcp_context) (e : env) (s : kcp_syn_node) (q : list kcp_syn_node) (timeout_ms : Z) :
  ctx_ok x -> memory_available e -> accepting e ->
  syn_queue x = s :: q -> syn_ok s -> is_u32 (udp_mtu x) -> connection_set_search x (sy_scid s) = None ->
  exists code x' e', kcp_accept timeout_ms (x, e) = Some (code, (x', e')) /\ ctx_ok x' /\
    (code = NO_ERROR /\
       (exists a id c ts data,
          (forall k, connection_set_search x' k = if k =? sy_scid s then Some a else connection_set_search x k) /\
          heap x' !! a = Some c /\ answered x s id timeout_ms c /\
          1 <= id <= KCP_BITMAP_SIZE /\ bitmap_get (conv_bitmap x) id = false /\
          e_trace e' = e_trace e ++ [Datagram (sy_remote_host s) data] /\
          kcp_proto_parse data = OK (syn_header x id (sy_scid s) ts ts (sy_rand_sn s) (ts_hash32 ts)) []) \/
     code = CONNECTION_ID_CONFLICT /\ e_trace e' = e_trace e /\
       (forall k, connection_set_search x' k = connection_set_search x k)).
Proof.
  intros Hx Hm Hacc Hq Hs Hu Hnone. apply wp_exists.
  eapply wp_mono; [by eapply kcp_accept_run|]. intros code [x' e'] [Hx' Hcase]. split; [exact Hx'|].
  destruct Hcase as [(-> & a & id & c & ts & data & [])|(? & ? & ? & _)]; [left|by right].
  split; [done|]. exists a, id, c, ts, data. cbn [fst snd] in *. by split_and!; try apply ad_id0.
Qed.

(** ** At a concrete context *)

Definition syn_example (peer : Z) : kcp_syn_node := KcpSynNode peer 0 77 0 5 6 (sin 4000 9) [].

Definition server_example (peer : Z) : kcp_context := context_example <| syn_queue := [syn_example peer] |>.

Lemma server_example_ok peer : ctx_ok (server_example peer).
Proof. destruct context_example_ok as [Ht Hl Hs Hi]. constructor; [exact Ht|exact Hl|exact Hs|exact Hi]. Qed.

(** The peers 20 and 30 are known. *)
Lemma kcp_accept_duplicate_witness :
  exists x' e', kcp_accept 1000 (server_example 30, quiet) = Some (CONNECTION_ID_CONFLICT, (x', e')) /\
    connection_set_search (server_example 30) 20 = Some 1 /\ connection_set_search x' 20 = None /\ lost_nodes x' = [1; 2].
Proof.
  destruct (kcp_accept_duplicate (server_example 30) quiet (syn_example 30) [] 2 1000)
    as (x' & e' & Hr & Hs & Hl & _); [apply server_example_ok|done|constructor|done|reflexivity|].
  exists x', e'. split; [exact Hr|]. split; [reflexivity|]. split; [apply Hs|exact Hl].
Defined.

Lemma kcp_accept_correct_witness :
  exists code x' e', kcp_accept 1000 (server_example 40, quiet) = Some (code, (x', e')) /\ ctx_ok x' /\
    (code = NO_ERROR \/ code = CONNECTION_ID_CONFLICT) /\ connection_set_search x' 20 = Some 1.
Proof.
  destruct (kcp_accept_correct (server_example 40) quiet (syn_example 40) [] 1000)
    as (code & x' & e' & Hr & Hx & Hcase).
  - apply server_example_ok.
  - constructor.
  - done.
  - done.
  - by split.
  - done.
  - reflexivity.
  - exists code, x', e'. split; [exact Hr|]. split; [exact Hx|].
    destruct Hcase as [[-> (a & id & c & ts & data & Hs & _)]|(-> & _ & Hs)].
    + split; [by left|]. by rewrite Hs.
    + split; [by right|]. by rewrite Hs.
Defined.
