(* ===== verification/ConnectSpec.v ===== *)
(** * ConnectSpec: the client's retransmission of its SYN

    The timer of [kcp_connect] takes the success of the retransmission for a failure
    ([kcp_connect_timeout_stops]). *)

From stdpp Require Import gmap.
From S2P Require Import Prelude RbTree Bytes Bitmap Xxhash Config Wire Types World Net Bbr Snd Recv Flush FlushSpec FlushPack Mtu Context ContextSpec Input Events Api ApiSpec Exchange AcceptSpec.

(** ** The SYN to each candidate *)

(** The send changed the kernel's answers and added datagrams to the trace. *)
Definition only_sent (e e' : env) : Prop :=
  exists evs, e_trace e' = e_trace e ++ evs /\ reports evs = [] /\ e_malloc e' = e_malloc e.

Lemma only_sent_refl e : only_sent e e.
Proof. exists []. by rewrite app_nil_r. Qed.

Lemma only_sent_trans e1 e2 e3 : only_sent e1 e2 -> only_sent e2 e3 -> only_sent e1 e3.
Proof.
  intros (l & H1 & H2 & H3) (k & H4 & H5 & H6). exists (l ++ k). unfold reports in *.
  rewrite List.filter_app, H2, H5. split_and!; [|done|congruence]. by rewrite H4, H1, app_assoc.
Qed.

Lemma reports_datagrams remote data : reports (datagrams remote data) = [].
Proof. unfold reports, datagrams. by induction data. Qed.

Lemma raw_silent_run {X} remote data (x : X) e :
  data <> [] ->
  exists r e', kcp_send_packet_raw_silent remote [data] (x, e) = Some (r, (x, e')) /\ only_sent e e'.
Proof.
  intros Hd. destruct (raw_spec remote [data] x e) as (n & r & e' & Hr & _ & Ha & _); [by repeat constructor|done|done|].
  exists r, e'. split; [exact Hr|]. exists (datagrams remote (take n [data])).
  split; [by apply after_send_trace|]. split; [apply reports_datagrams|by eapply after_send_malloc].
Qed.

(** The answer is NO_ERROR, which is 0, or an error. *)
Lemma send_to_candidates_run {X} l data any last (x : X) e :
  data <> [] -> last <= 0 ->
  exists r e', send_to_candidates l [data] any last (x, e) = Some (r, (x, e')) /\ r <= 0 /\ only_sent e e'.
Proof.
  intros Hd. revert any last e. induction l as [|a l IH]; intros any last e Hlast; cbn [send_to_candidates].
  { exists (if any then NO_ERROR else last), e. split_and!; [done| |apply only_sent_refl]. destruct any; [done|lia]. }
  destruct (raw_silent_run a data x e Hd) as (r1 & e1 & H1 & Ho1). rewrite (bind_eq _ _ _ _ _ H1). cbv zeta.
  assert (exists r2 e2, (if r1 <=? 0 then kcp_send_packet_raw_silent a [data] else mret r1) (x, e1) = Some (r2, (x, e2)) /\
    only_sent e1 e2) as (r2 & e2 & H2 & Ho2).
  { destruct (r1 <=? 0); [by apply raw_silent_run|]. exists r1, e1. split; [done|apply only_sent_refl]. }
  rewrite (bind_eq _ _ _ _ _ H2).
  assert ((if r1 <=? 0 then r1 else last) <= 0) as Hl1 by (destruct (Z.leb_spec r1 0); lia).
  destruct (Z.ltb_spec 0 r2) as [Hp|Hn].
  - destruct (IH true (if r1 <=? 0 then r1 else last) e2 Hl1) as (r & e' & Hr & Hle & Ho). exists r, e'.
    split_and!; [exact Hr|done|]. by do 2 (eapply only_sent_trans; [eassumption|]).
  - destruct (IH any r2 e2 Hn) as (r & e' & Hr & Hle & Ho). exists r, e'.
    split_and!; [exact Hr|done|]. by do 2 (eapply only_sent_trans; [eassumption|]).
Qed.

(** ** The timer *)

(** The connection still waits for its peer, with the timer it had and one retry less. *)
Definition still_waiting (c c' : kcp_connection) : Prop :=
  state c' = KCP_STATE_SYN_SENT /\ syn_timer_event c' = syn_timer_event c /\
  syn_retries c' = s32 (syn_retries c - 1).

(** C36: When the first SYN of a client is not answered in
    time, the SYN is sent again to its candidates, and then, whatever the kernel
    answers, the error callback gets WRITE_ERROR and the timer is not started again:
    [kcp_send_syn_to_candidates] answers NO_ERROR, which is 0, and the test is
    [status <= 0].  The connection stays in SYN_SENT with its retries left and the
    connect callback is not called. *)
Theorem kcp_connect_timeout_stops (x : kcp_context) (e : env) (a : Z) (c : kcp_connection) :
  heap x !! a = Some c -> state c = KCP_STATE_SYN_SENT -> candidates c <> [] -> syn_retries c <> 0 ->
  is_u16 (scid c) -> is_u16 (dcid c) -> is_u32 (udp_mtu x) -> memory_available e ->
  exists x' e' c' evs, kcp_connect_timeout a (x, e) = Some (tt, (x', e')) /\ heap x' !! a = Some c' /\
    e_trace e' = e_trace e ++ evs /\ reports evs = [OnError (Some a) WRITE_ERROR] /\
    still_waiting c c'.
Proof.
  intros Hc Hst Hcand Hret Hs Hd Hu Hm.
  assert (wp (kcp_connect_timeout a) (fun _ s => exists c' evs, heap s.1 !! a = Some c' /\
    e_trace s.2 = e_trace e ++ evs /\ reports evs = [OnError (Some a) WRITE_ERROR] /\
    still_waiting c c') (x, e)) as H.
  2: { apply wp_elim in H as ([] & [x' e'] & Hr & c' & evs & H). by exists x', e', c', evs. }
  unfold kcp_connect_timeout. wp_step. eapply wp_conn_at; [exact Hc|].
  wp_step. eapply wp_on_conn; [exact Hc|]. apply wp_mods. cbn [fst snd].
  destruct (Z.eqb_spec (syn_retries c) 0); [done|]. cbn [negb]. cbn match.
  set (c1 := c <| syn_retries ::= _ |>). wp_step. unfold make_syn.
  wp_step. apply wp_malloc_unchecked; [done|]. intros e1 [H1 _] Hm1.
  wp_step. apply wp_clock_us; [done|]. intros ts e2 Hts [H2 _] Hm2. wp_step. wp_step.
  wp_step. eapply wp_conn_at; [apply lookup_insert_eq|]. cbv zeta.
  set (h := syn_header _ _ _ _ _ _ _).
  wp_step. eapply wp_on_conn; [apply lookup_insert_eq|]. apply wp_mods. cbn [fst snd].
  wp_step. apply wp_malloc_unchecked; [done|]. intros e3 [H3 _] Hm3. unfold encoded_header.
  destruct (syn_header_encodes x (scid c) (dcid c) 0 ts 0 (ts_hash32 ts)) as (r0 & data & He & Hne & _);
    [exact Hs|exact Hd|clear; lia|exact Hts|clear; lia|exact (ts_hash32_range ts)|exact Hu|].
  wp_step. eapply wp_deref; [exact He|]. wp_step. cbn [snd].
  set (c2 := c1 <| kcp_proto_header_list ::= _ |>).
  assert ((0 <? Zlength (candidates c)) && bool_decide (state c = KCP_STATE_SYN_SENT) = true) as ->.
  { rewrite bool_decide_true by done. destruct (candidates c); [done|]. rewrite Zlength_cons.
    pose proof (Zlength_nonneg l). destruct (Z.ltb_spec 0 (1 + Zlength l)); [done|lia]. }
  wp_step. eapply wp_on_conn; [apply lookup_insert_eq|].
  destruct (send_to_candidates_run (candidates c2) data false WRITE_ERROR c2 e3) as (r & e4 & Hr & Hle & (evs & Ht & Hrep & _));
    [done|done|].
  unfold kcp_send_syn_to_candidates. wp_step. wp_step. eapply wp_run; [exact Hr|]. cbn [fst snd].
  destruct (Z.leb_spec r 0); [|lia]. wp_step. exists c2, (evs ++ [OnError (Some a) WRITE_ERROR]). cbn [fst snd].
  split_and!; try done.
  - apply lookup_insert_eq.
  - change (e_trace e4 ++ [OnError (Some a) WRITE_ERROR] = e_trace e ++ evs ++ [OnError (Some a) WRITE_ERROR]).
    rewrite Ht, H3, H2, H1. by rewrite <- app_assoc.
  - unfold reports in *. by rewrite List.filter_app, Hrep.
Qed.

Definition client_example : kcp_context :=
  context_example <| heap := <[1 := (peer_example 1 9 0 0) <| state := KCP_STATE_SYN_SENT |> <| syn_retries := 2 |>
                                      <| candidates := [sin 4000 9] |> <| syn_timer_event := timer_idle |>]> ∅ |>.

Lemma kcp_connect_timeout_stops_witness :
  exists x' e' c' evs, kcp_connect_timeout 1 (client_example, quiet) = Some (tt, (x', e')) /\ heap x' !! 1 = Some c' /\
    e_trace e' = [] ++ evs /\ reports evs = [OnError (Some 1) WRITE_ERROR] /\ syn_timer_event c' = timer_idle.
Proof.
  destruct (kcp_connect_timeout_stops client_example quiet 1
    ((peer_example 1 9 0 0) <| state := KCP_STATE_SYN_SENT |> <| syn_retries := 2 |>
       <| candidates := [sin 4000 9] |> <| syn_timer_event := timer_idle |>))
    as (x' & e' & c' & evs & Hr & Hc & Ht & Hrep & (_ & Hev & _)); try done; [constructor|].
  exists x', e', c', evs. split_and!; [exact Hr|exact Hc|exact Ht|exact Hrep|exact Hev].
Defined.
