(* ===== verification/Transfer.v ===== *)
(** * Transfer: a message from one peer to the other

    The composition of the sender, the wire and the receiver: a message given to
    [kcp_send] and flushed leaves in datagrams that, in whatever order and however
    often they arrive, make the peer's [kcp_parse_packet] deliver exactly that
    message to [kcp_recv] ([message_transfer]). *)

From stdpp Require Import gmap.
From S2P Require Import Prelude RbTree Bytes Bitmap Xxhash Config Wire Types World Net Bbr Snd Recv Delivery Flush FlushSpec FlushPack Mtu Context ContextSpec Input InputSpec Events Api ApiSpec Exchange.

(** ** The segments a flush sends *)

(** [t] is the queued segment [s] with its number and its header. *)
Record numbered_as (c : kcp_connection) (ts : Z) (s t : kcp_segment) : Prop := {
  na_content : content t = content s;
  na_ids : sg_scid t = scid c /\ sg_dcid t = dcid c /\ sg_cmd t = KCP_CMD_PUSH;
  na_wnd : sg_wnd t = if 0 <? sg_frg s then u32 (kcp_wnd_unused c) else sg_wnd s;
  na_ts : sg_ts t = ts /\ sg_una t = rcv_nxt c;
  na_xmit : sg_xmit t = 0;
}.

(** What the move to [snd_buf] leaves alone. *)
Definition fill_kept (c : kcp_connection) :=
  (bbr c, mss c, rcv_nxt c, scid c, dcid c, psn_nxt c, (nrcv_buf c, rcv_wnd c), fill_static c).

Lemma fill_all q w ts c :
  snd_queue c = q -> 0 <= snd_nxt c -> snd_nxt c + Zlength q < 4294967296 ->
  snd_nxt c + Zlength q <= snd_una c + w ->
  let c' := fill_snd_buf q w ts c in
  exists new, snd_buf c' = snd_buf c ++ new /\ Forall2 (numbered_as c ts) q new /\
    map sg_sn new = seqZ (snd_nxt c) (Zlength q) /\ snd_queue c' = [] /\
    snd_nxt c' = snd_nxt c + Zlength q /\ fill_kept c' = fill_kept c.
Proof.
  cbv zeta. revert c. induction q as [|s q IH]; intros c Hq H0 Hn Hw; cbn [fill_snd_buf].
  { exists []. rewrite app_nil_r. change (Zlength (@nil kcp_segment)) with 0. split_and!; try done; lia. }
  rewrite Zlength_cons in *. pose proof (Zlength_nonneg q).
  destruct (Z.ltb_spec (snd_nxt c - (snd_una c + w)) 0); [|lia].
  destruct (move_segment_views ts c s q Hq ltac:(lia)) as (Hst & Hq' & Hb' & Hn' & _).
  assert (fill_kept (move_segment ts c s) = fill_kept c) as Hk by done.
  assert (forall s t, numbered_as (move_segment ts c s) ts s t -> numbered_as c ts s t) as Hna.
  { intros ? ? []. by constructor. }
  set (c1 := move_segment ts c s) in *.
  destruct (IH c1 Hq' ltac:(lia) ltac:(lia)) as (new & Hb & Hf & Hsn & Hqq & Hnn & Hkk).
  { assert (snd_una c1 = snd_una c) as -> by done. lia. }
  exists (numbered_segment c ts s :: new). split_and!; [by rewrite Hb, Hb', <- app_assoc| | |done|lia|by rewrite Hkk].
  - constructor; [by constructor|]. eapply Forall2_impl; [exact Hf|]. intros ? ? []. by constructor.
  - rewrite seqZ_cons by lia. cbn [map]. rewrite Hsn, Hn'. do 2 f_equal; lia.
Qed.

Lemma numbered_lens c ts m l new :
  Forall2 (numbered_as c ts) l new -> Forall (fun s => 0 < sg_len s <= m) l ->
  map sg_len new = map sg_len l /\ Forall (fun s => sg_xmit s = 0 /\ 0 <= sg_len s) new.
Proof.
  induction 1 as [|f t l new [Hc _ _ _ Hx] _ IH]; [done|]. intros [Hf Hl]%Forall_cons.
  destruct (IH Hl) as [HL ?]. injection Hc as _ _ Hc _. split; [cbn; by rewrite Hc, HL|].
  constructor; [split; [done|lia]|done].
Qed.

(** A segment sent for the first time. *)
Definition sent_once (s t : kcp_segment) : Prop := segment_view t = segment_view s /\ sg_xmit t = 1.

Definition due_kept (c : kcp_connection) :=
  (mss c, rcv_nxt c, scid c, dcid c, psn_nxt c, fill_static c, (snd_queue c, snd_nxt c)).

(** Segments that were never sent are due as long as the credit lasts. *)
Lemma due_all ts resent rtomin before todo c :
  Forall (fun s => sg_xmit s = 0 /\ 0 <= sg_len s) todo ->
  Zsum (map sg_len todo) <= bbr_pacing_credit (bbr c) -> snd_buf c = before ++ todo ->
  let r := due ts resent rtomin before todo c in
  Forall2 sent_once todo r.2 /\ snd_buf r.1 = before ++ r.2 /\ due_kept r.1 = due_kept c.
Proof.
  cbv zeta. intros Hf. revert before c. induction Hf as [|pos todo [Hx Hl] Hf IH]; intros before c Hcr Hb; cbn [due].
  { by split_and!. }
  cbn [map Zsum] in Hcr. assert (0 <= Zsum (map sg_len todo)) as Hz.
  { clear -Hf. induction Hf as [|? ? [_ ?] ? ?]; cbn; lia. }
  unfold decide_segment. rewrite Hx. change (0 =? 0) with true. cbn match.
  destruct (Z.leb_spec (sg_len pos) (bbr_pacing_credit (bbr c))); [|lia].
  cbn [need_send]. cbn match. unfold charge. cbn [is_retransmit andb]. cbn match.
  match goal with |- context[due _ _ _ (before ++ [?p])] => set (pos1 := p) end.
  match goal with |- context[due _ _ _ _ todo ?c1'] => set (c1 := c1') end.
  destruct (IH (before ++ [pos1]) c1) as (H1 & H2 & H3).
  - change (bbr_pacing_credit (bbr c1)) with (bbr_pacing_credit (bbr c) - sg_len pos). lia.
  - change (snd_buf c1) with (before ++ pos1 :: todo). by rewrite <- app_assoc.
  - cbn [fst snd]. split_and!; [|by rewrite H2, <- app_assoc|by rewrite H3].
    constructor; [|done]. split; [done|]. change (sg_xmit pos1) with (u32 (sg_xmit pos + 1)). by rewrite Hx.
Qed.

Lemma bdp_same c c' gain :
  bbr c = bbr c' -> mss c = mss c' -> bbr_bdp_bytes c gain = bbr_bdp_bytes c' gain.
Proof. intros Hb Hm. unfold bbr_bdp_bytes. rewrite Hb, Hm. reflexivity. Qed.

Lemma refill_credit_same c c' ts :
  bbr c = bbr c' -> mss c = mss c' -> bbr (refill_credit c ts) = bbr (refill_credit c' ts).
Proof.
  intros Hb Hm. unfold refill_credit. rewrite Hb.
  set (d := if bbr_last_send_ts (bbr c') =? 0 then c <| bbr / bbr_last_send_ts := ts |> else c).
  set (d' := if bbr_last_send_ts (bbr c') =? 0 then c' <| bbr / bbr_last_send_ts := ts |> else c').
  assert (bbr d = bbr d' /\ mss d = mss d') as [Hb' Hm'].
  { unfold d, d'. destruct (bbr_last_send_ts (bbr c') =? 0); [|done]. split; [|done].
    change ((bbr c) <| bbr_last_send_ts := ts |> = (bbr c') <| bbr_last_send_ts := ts |>). by rewrite Hb. }
  clearbody d d'. cbn zeta. rewrite Hb', Hm', (bdp_same d d') by done.
  destruct (bbr_last_send_ts (bbr d') <? ts); [|done].
  match goal with |- bbr (d <| bbr / bbr_pacing_credit := ?v |> <| bbr / bbr_last_send_ts := ts |>) = _ =>
    change ((bbr d) <| bbr_pacing_credit := v |> <| bbr_last_send_ts := ts |> =
            (bbr d') <| bbr_pacing_credit := v |> <| bbr_last_send_ts := ts |>) end.
  by rewrite Hb'.
Qed.

(** ** A flush with nothing but data to send *)

(** No window announcement and no heartbeat is due. *)
Record control_quiet (ts : Z) (c : kcp_connection) : Prop := {
  quiet_probe : probe c = 0;
  quiet_window : rmt_wnd c <> 0;
  quiet_requests : ping_request_queue (ping c) = [];
  quiet_ping : ts <= keepalive_next_ts (ping c);
}.

(** And no acknowledgement. *)
Definition control_idle (ts : Z) (c : kcp_connection) : Prop := ack_item c = [] /\ control_quiet ts c.

Definition control_done (c : kcp_connection) : kcp_connection :=
  c <| win_ts_probe := 0 |> <| probe_wait := 0 |> <| probe := 0 |>.

(** The acknowledgements are then all there is in the batch. *)
Lemma flush_control_quiet ts c e c1 e1 s :
  flush_acks (ack_item c) c ts (replicate 32 0) [] (c, e) = Some (s, (c1, e1)) -> control_quiet ts c1 ->
  flush_control ts (c, e) =
    ((match s.2 with [] => mret tt | buffer => kcp_send_packet (control_done c1) [buffer];; mret tt end);; mret 0)
      (control_done c1, e1).
Proof.
  intros Hacks []. unfold flush_control. run. rewrite Hacks. run.
  unfold probe_window. destruct (Z.eqb_spec (rmt_wnd c1) 0); [done|].
  set (c2 := c1 <| win_ts_probe := 0 |> <| probe_wait := 0 |>).
  unfold flush_window, flush_header. run. change (probe c2) with (probe c1). rewrite quiet_probe0.
  change (Z.land 0 KCP_ASK_SEND =? 0) with true. change (Z.land 0 KCP_ASK_TELL =? 0) with true. cbn [negb]. run.
  unfold on_kcp_ping_timeout. run. change (ping c2) with (ping c1). rewrite quiet_requests0. cbn [last]. run.
  change (0 =? 0) with true. cbn [negb].
  unfold flush_ping. run. change (ping c2) with (ping c1).
  destruct (Z.ltb_spec (keepalive_next_ts (ping c1)) ts); [lia|]. run.
  unfold flush_pong, flush_header. run. change (probe c2) with (probe c1). rewrite quiet_probe0.
  change (Z.land 0 KCP_PING_RECV =? 0) with true. cbn [negb]. run. done.
Qed.

Lemma flush_control_idle ts c e :
  control_idle ts c -> flush_control ts (c, e) = Some (0, (control_done c, e)).
Proof.
  intros [Ha Hq]. assert (flush_acks (ack_item c) c ts (replicate 32 0) [] (c, e) = Some ((replicate 32 0, []), (c, e))) as Hr
    by (by rewrite Ha). exact (flush_control_quiet ts c e c e _ Hr Hq).
Qed.

(** Grouping commutes with a function applied to each element. *)
Lemma map_groups {A} (f : A -> bytes) (gb : list (list bytes)) (l : list A) :
  List.concat gb = map f l -> exists gs, gb = map (map f) gs /\ List.concat gs = l.
Proof.
  revert l. induction gb as [|b gb IH]; intros l Hl; cbn in Hl.
  { symmetry in Hl. apply map_eq_nil in Hl as ->. by exists []. }
  symmetry in Hl. apply List.map_eq_app in Hl as (l1 & l2 & -> & <- & H2).
  destruct (IH l2 (eq_sym H2)) as (gs & -> & <-). by exists (l1 :: gs).
Qed.

(** ** The sender *)

Record sender_ready (data : bytes) (ts : Z) (c : kcp_connection) (e : env) : Prop := {
  sr_state : state c = KCP_STATE_CONNECTED;
  sr_empty : snd_buf c = [] /\ snd_queue c = [];
  sr_flush : flush_ready c e;
  sr_kernel : accepting e;
  sr_sizes : 0 < mss c <= mtu c - KCP_HEADER_SIZE;
  sr_data : 0 < Zlength data <= KCP_PACKET_SIZE * mss c;
  sr_limit : Zlength data <= KCP_MAX_PACKET_SIZE;
  sr_window : (Zlength data + mss c - 1) / mss c <= send_window c;
  sr_credit : Zlength data <= bbr_pacing_credit (bbr (refill_credit c ts));
  sr_control : control_idle ts c;
  sr_due : ts_flush c <= ts / 1000;
  sr_ids : is_u16 (scid c) /\ is_u16 (dcid c) /\ is_u32 (psn_nxt c) /\ is_u32 (rcv_nxt c) /\ is_u64 ts;
  sr_unused : 0 <= kcp_wnd_unused c < 65536;
  sr_room : snd_nxt c + KCP_PACKET_SIZE < 4294967296;
}.

(** The fragments of [data] as they are on the wire. *)
Record message_segments (data : bytes) (c : kcp_connection) (segs : list kcp_segment) : Prop := {
  ms_ok : Forall segment_ok segs;
  ms_ids : Forall (fun s => sg_scid s = scid c /\ sg_dcid s = dcid c) segs;
  ms_stream : stream_ok (snd_nxt c) (psn_nxt c) [segs];
  ms_contents : contents segs = data;
  ms_count : Zlength segs = (Zlength data + mss c - 1) / mss c;
}.

Lemma fragments_lookup c n psn i l j s :
  fragments_of c n psn i l -> l !! j = Some s ->
  sg_frg s = i + Z.of_nat j /\ sg_psn s = psn /\ sg_wnd s = (if i + Z.of_nat j =? 0 then n else 0) /\
  sg_len s = Zlength (sg_data s) /\ 0 < sg_len s <= mss c.
Proof.
  revert i j. induction l as [|x l IH]; intros i j Hf Hj; [done|]. destruct Hf as (G1 & G2 & G3 & _ & _ & G4 & G5 & Hf).
  destruct j as [|j]; cbn in Hj.
  - injection Hj as <-. change (Z.of_nat 0) with 0. rewrite Z.add_0_r. split_and!; done || lia.
  - destruct (IH (i + 1) j Hf Hj) as (? & ? & ? & ? & ?). replace (i + Z.of_nat (S j)) with (i + 1 + Z.of_nat j) by lia.
    split_and!; done || lia.
Qed.

(** A segment on the wire and the fragment it comes from. *)
Lemma sent_fragment c ts frags new segs j s :
  Forall2 (numbered_as c ts) frags new -> map sg_sn new = seqZ (snd_nxt c) (Zlength frags) ->
  Forall2 sent_once new segs -> segs !! j = Some s ->
  exists f, frags !! j = Some f /\ content s = content f /\
    sg_scid s = scid c /\ sg_dcid s = dcid c /\ sg_cmd s = KCP_CMD_PUSH /\
    sg_wnd s = (if 0 <? sg_frg f then u32 (kcp_wnd_unused c) else sg_wnd f) /\ sg_ts s = ts /\ sg_una s = rcv_nxt c /\
    sg_sn s = snd_nxt c + Z.of_nat j.
Proof.
  intros Hna Hsn Hso Hs. destruct (Forall2_lookup_r _ _ _ _ _ Hso Hs) as (t & Ht & Hv & _).
  destruct (Forall2_lookup_r _ _ _ _ _ Hna Ht) as (f & Hf & [N1 (N2 & N3 & N4) N5 [N6 N7] _]).
  assert (sg_sn t = snd_nxt c + Z.of_nat j) as N8.
  { assert (map sg_sn new !! j = Some (sg_sn t)) as Hl by (by rewrite list_lookup_fmap, Ht).
    rewrite Hsn in Hl. apply lookup_seqZ in Hl. lia. }
  exists f. unfold segment_view in Hv. injection Hv as -> -> -> E1 -> -> -> E2 -> E3 E4.
  split_and!; try done. rewrite <- N1. unfold content. congruence.
Qed.

(** From the fragments to what is on the wire. *)
Lemma message_of_fragments data ts c frags new segs :
  0 < mss c -> is_u16 (scid c) /\ is_u16 (dcid c) /\ is_u32 (psn_nxt c) /\ is_u32 (rcv_nxt c) /\ is_u64 ts ->
  mss c <= SEGMENT_ROOM -> 0 <= kcp_wnd_unused c < 65536 -> 0 <= snd_nxt c -> snd_nxt c + KCP_PACKET_SIZE < 4294967296 ->
  fragments_of c (Zlength frags) (psn_nxt c) 0 frags -> List.concat (map sg_data frags) = data ->
  Zlength frags = (Zlength data + mss c - 1) / mss c -> 0 < Zlength frags <= KCP_PACKET_SIZE ->
  Forall2 (numbered_as c ts) frags new -> map sg_sn new = seqZ (snd_nxt c) (Zlength frags) ->
  Forall2 sent_once new segs -> message_segments data c segs.
Proof.
  intros Hm (I1 & I2 & I3 & I4 & I5) Hm2 Hu H0 Hroom Hfr Hcat Hcnt Hn Hna Hsn Hso. unfold KCP_PACKET_SIZE, SEGMENT_ROOM, ETHERNET_MTU in *.
  pose proof (fun j s => sent_fragment c ts frags new segs j s Hna Hsn Hso) as Hat.
  assert (Zlength segs = Zlength frags) as Hlen.
  { apply Forall2_length in Hso, Hna. unfold Zlength. lia. }
  assert (forall j s, segs !! j = Some s -> segment_ok s /\ sg_frg s = Z.of_nat j /\ sg_psn s = psn_nxt c /\
    sg_len s = Zlength (sg_data s) /\ (j = 0%nat -> sg_wnd s = Zlength frags)) as Hall.
  { intros j s Hs. destruct (Hat j s Hs) as (f & Hf & Hc & A1 & A2 & A3 & A4 & A5 & A6 & A7).
    destruct (fragments_lookup _ _ _ _ _ _ _ Hfr Hf) as (F1 & F2 & F3 & F4 & F5).
    unfold content in Hc. injection Hc as C1 C2 C3 C4. pose proof (lookup_lt_Some _ _ _ Hs) as Hlt.
    assert (Z.of_nat j < 64) as Hj by (unfold Zlength in *; lia).
    assert (is_u16 (sg_wnd s)) as Hw.
    { rewrite A4. destruct (0 <? sg_frg f); [rewrite u32_small; lia|]. rewrite F3. destruct (_ =? 0); lia. }
    split; [|split_and!; [lia|congruence|congruence|]].
    - unfold segment_ok. rewrite A1, A2, A3, A5, A6, A7, C1, C2. unfold KCP_HEADER_SIZE in *.
      split_and!; try done; try lia; congruence.
    - intros ->. rewrite A4, F1, F3. done. }
  constructor; [| | | |congruence].
  - apply Forall_lookup. intros j s Hs. by destruct (Hall j s Hs).
  - apply Forall_lookup. intros j s Hs. by destruct (Hat j s Hs) as (? & _ & _ & ? & ? & _).
  - constructor.
    + intros fs Hfs%list_elem_of_singleton. subst fs. lia.
    + intros [|m] fs j s Hm' Hs; [|done]. cbn in Hm'. injection Hm' as <-.
      destruct (Hall j s Hs) as (_ & H1 & H2 & H3 & H4). destruct (Hat j s Hs) as (_ & _ & _ & _ & _ & _ & _ & _ & _ & H5).
      unfold first_sn. cbn [take List.concat]. change (Zlength (@nil kcp_segment)) with 0.
      split_and!; [lia|lia|done|done|]. intros Hj. rewrite Hlen. by apply H4.
    + intros [|m] fs j s Hm' Hs; [|done]. cbn in Hm'. injection Hm' as <-.
      destruct (Hat j s Hs) as (f & Hf & Hc & _). destruct (fragments_lookup _ _ _ _ _ _ _ Hfr Hf) as (_ & _ & _ & _ & F5).
      unfold content in Hc. injection Hc as _ _ C3 _. unfold SEGMENT_ROOM, ETHERNET_MTU. lia.
    + unfold first_sn. cbn [length take List.concat]. rewrite app_nil_r. lia.
  - unfold contents. rewrite <- Hcat. f_equal. apply list_eq. intros j. rewrite !list_lookup_fmap.
    destruct (segs !! j) as [s|] eqn:Hs.
    + destruct (Hat j s Hs) as (f & -> & Hc & _). cbn. f_equal. by injection Hc.
    + apply lookup_ge_None in Hs. cbn. symmetry. destruct (frags !! j) eqn:Hf; [|done].
      apply lookup_lt_Some in Hf. unfold Zlength in *. lia.
Qed.

(** A flush that has nothing to say but data is the flush of the data. *)
Lemma idle_flush ts c e c' e' :
  state c = KCP_STATE_CONNECTED -> ts_flush c <= ts / 1000 -> control_idle ts c ->
  flush_data ts (control_done c, e) = Some (Next tt, (c', e')) -> flush ts (c, e) = Some (None, (c', e')).
Proof.
  intros Hst Hts Hidle Hrun. unfold flush. run. rewrite Hst, bool_decide_true by done. cbn [negb].
  destruct (Z.ltb_spec (ts / 1000) (ts_flush c)); [lia|].
  rewrite (flush_control_idle ts c e Hidle). change (0 =? 0) with true. cbn [negb]. by rewrite Hrun.
Qed.

(** What the fragments of a message are, once queued. *)
Definition fragment_sized (m : Z) (s : kcp_segment) : Prop := sg_len s = Zlength (sg_data s) /\ 0 < sg_len s <= m.

Lemma fragments_sized c n psn i l : fragments_of c n psn i l -> Forall (fragment_sized (mss c)) l.
Proof.
  intros Hf. apply Forall_lookup. intros j s Hs.
  by destruct (fragments_lookup _ _ _ _ _ _ _ Hf Hs) as (_ & _ & _ & ? & ?).
Qed.

(** With them in the queue the connection can still be flushed. *)
Lemma queued_ready c e e1 frags :
  flush_ready c e -> snd_buf c = [] -> snd_queue c = [] -> 0 < mss c <= mtu c - KCP_HEADER_SIZE ->
  Forall (fragment_sized (mss c)) frags -> snd_nxt c + Zlength frags < 4294967296 -> memory_available e1 ->
  flush_ready (control_done (after_send_call c frags)) e1.
Proof.
  intros [Hmtu _ [K1 K2 K3 K4 K5 K6 K7 K8 K9] _ _] Hb Hq Hmss Hsz Hroom Hme.
  set (d := control_done (after_send_call c frags)).
  assert (snd_queue d = frags) as Hqd by (change (snd_queue d) with (snd_queue c ++ frags); by rewrite Hq).
  constructor; [exact Hmtu| | | |done].
  - rewrite Hqd. change (snd_buf d) with (snd_buf c). rewrite Hb. cbn [app]. eapply Forall_impl; [exact Hsz|].
    intros s [E1 E2]. constructor; [lia|done|]. change (mtu d) with (mtu c). unfold KCP_HEADER_SIZE in *. lia.
  - constructor; try done. change (Zlength frags + nsnd_que c = Zlength (snd_queue d)). rewrite Hqd, K5, Hq. by rewrite Z.add_0_r.
  - rewrite Hqd. change (snd_nxt d) with (snd_nxt c). lia.
Qed.

(** What a flush that only sends new segments keeps. *)
Definition flight_kept (c : kcp_connection) :=
  (mss c, rcv_nxt c, scid c, dcid c, (remote_host c, mtu c, state c, k_self c)).

(** A queue that the window and the credit cover is in flight after the flush. *)
Lemma first_flight ts d frags :
  snd_buf d = [] -> snd_queue d = frags -> snd_una d = snd_nxt d -> 0 <= snd_nxt d ->
  snd_nxt d + Zlength frags < 4294967296 -> Zlength frags <= send_window d -> Forall (fragment_sized (mss d)) frags ->
  Zsum (map sg_len frags) <= bbr_pacing_credit (bbr (refill_credit d ts)) ->
  let c1 := before_decisions ts d in
  let c2 := (due ts (resent_of c1) (rtomin_of c1) [] (snd_buf c1) c1).1 in
  exists new, Forall2 (numbered_as d ts) frags new /\ map sg_sn new = seqZ (snd_nxt d) (Zlength frags) /\
    Forall2 sent_once new (due_now ts d) /\ snd_buf c2 = due_now ts d /\ snd_queue c2 = [] /\
    snd_una c2 = snd_nxt d /\ snd_nxt c2 = snd_nxt d + Zlength frags /\ flight_kept c2 = flight_kept d.
Proof.
  intros Hb Hq Hu H0 Hn Hw Hsz Hcr. cbv zeta. unfold due_now, before_decisions. rewrite Hq.
  destruct (fill_all frags (send_window d) ts d Hq) as (new & Hb1 & Hna & Hsn & Hq2 & Hnx & Hkept); [lia..|].
  set (d2 := fill_snd_buf frags (send_window d) ts d) in *.
  destruct (refill_view d2 ts) as [Hfv Hfb]. set (d3 := refill_credit d2 ts) in *.
  assert (snd_buf d3 = new) as Hb3 by (by rewrite Hfb, Hb1, Hb).
  destruct (numbered_lens d ts (mss d) frags new Hna) as [Hlens Hnew]; [by eapply Forall_impl; [exact Hsz|intros ? []]|].
  assert (bbr d3 = bbr (refill_credit d ts)) as Hcredit.
  { apply refill_credit_same; by injection Hkept. }
  assert (flight_kept d3 = flight_kept d) as Hk3.
  { transitivity (flight_kept d2); [unfold d3, refill_credit; by repeat case_match|].
    unfold fill_kept, fill_static in Hkept. injection Hkept as ??????????????. unfold flight_kept. congruence. }
  pose proof (due_all ts (resent_of d3) (rtomin_of d3) [] (snd_buf d3) d3) as Hdue. cbv zeta in Hdue.
  set (r := due ts (resent_of d3) (rtomin_of d3) [] (snd_buf d3) d3) in *.
  destruct Hdue as (Hso & Hbuf & Hdk); [by rewrite Hb3|rewrite Hb3, Hlens, Hcredit; exact Hcr|done|].
  cbn [app] in Hbuf. rewrite Hb3 in Hso. exists new.
  unfold due_kept, fill_static in Hdk. injection Hdk as ?? ?? ? ? ? D1 ? ? ? ? D2 D3.
  unfold flush_view, snd_view in Hfv. injection Hfv as _ _ _ _ _ F1 F2 _ F3 _ _ _.
  unfold fill_kept, fill_static in Hkept. injection Hkept as _ _ _ _ _ _ _ _ _ _ K1 _ _ _ _.
  split_and!; [exact Hna|exact Hsn|exact Hso|exact Hbuf|congruence|congruence| |].
  - rewrite D3, F2, Hnx. done.
  - rewrite <- Hk3. unfold flight_kept. congruence.
Qed.

Lemma sent_view_fields c c' :
  sent_view c = sent_view c' ->
  snd_buf c = snd_buf c' /\ snd_una c = snd_una c' /\ snd_nxt c = snd_nxt c' /\ snd_queue c = snd_queue c'.
Proof.
  unfold sent_view, flush_view, snd_view. intros [= _ _ _ _ V1 V2 V3 _ V4 _ _ _ _ _ _ _ _ _ _]. by split_and!.
Qed.

Lemma sent_view_kept c c' : sent_view c = sent_view c' -> flight_kept c = flight_kept c'.
Proof.
  unfold sent_view, flush_view, flight_kept. intros H. injection H. intros. congruence.
Qed.

Lemma kept_role c c' : flight_kept c = flight_kept c' -> role c = role c' /\ mss c = mss c'.
Proof. unfold flight_kept, role. intros H. injection H. intros. split; congruence. Qed.

(** The data sent, the connection can be flushed again. *)
Lemma flush_data_ready ts c e c' e' :
  flush_ready c e -> flush_data ts (c, e) = Some (Next tt, (c', e')) -> flush_ready c' e'.
Proof.
  intros Hr H. pose proof (ready_mtu _ _ Hr) as Hm.
  pose proof (flush_data_inv (remote_host c) (mtu c) (k_self c) (e_trace e) (e_sendmmsg e) (limited c) Hm (state c) ts c e (ready_inv c e Hr)) as Hw.
  unfold wp in Hw. rewrite H in Hw. cbn [stepped fst] in Hw. destruct Hw as [Hi _].
  by destruct (inv_ready _ _ _ _ _ _ _ _ _ Hm Hi).
Qed.

(** What sending leaves alone: who the connection is, and that no byte is counted as
    delivered. *)
Definition lasting (c : kcp_connection) := (k_self c, scid c, dcid c, remote_host c, tx_bytes c).

(** What sending data leaves alone: that, and what else there is to send. *)
Definition resting (c : kcp_connection) := (lasting c, ack_item c, probe c, rmt_wnd c, ping c).

Lemma stable_send_cache {V} (view : kcp_connection -> V) l : stable view (send_cache l).
Proof. unfold send_cache, get_last_errno. steady. Qed.
#[export] Hint Resolve stable_send_cache : steady.

Lemma stable_label_send {V} (view : kcp_connection -> V) fuel m pos k : stable view (label_send fuel m pos k).
Proof.
  revert pos k. induction fuel as [|fuel IH]; intros pos k; cbn [label_send]; unfold flow_bind; steady.
Qed.
#[export] Hint Resolve stable_label_send : steady.

Lemma resting_decide ts resent rtomin c pos : resting (decide_segment ts resent rtomin c pos).1.1 = resting c.
Proof. unfold decide_segment. by repeat case_match. Qed.

Lemma resting_flush_segments ts resent rtomin m before todo l : stable resting (flush_segments ts resent rtomin m before todo l).
Proof.
  revert before l. induction todo as [|pos todo IH]; intros before l; cbn [flush_segments]; [steady|].
  unfold flow_bind. apply stable_bind; [|intros f; destruct f; steady; apply IH].
  unfold flush_segment. intros [c e] f s' (c1 & s1 & [= <- <-] & H)%bind_Some. cbn [fst] in H |- *.
  pose proof (resting_decide ts resent rtomin c pos) as Ht.
  destruct (decide_segment ts resent rtomin c pos) as [[c2 pos2] d]. cbn [fst] in Ht. rewrite <- Ht.
  apply bind_Some in H as ([] & s2 & [= <-] & H).
  change (resting c2) with (resting (fst (c2 <| snd_buf := before ++ pos2 :: todo |>, e))). revert H.
  match goal with |- ?k ?s = _ -> _ => enough (stable resting k) as Hk by exact (Hk s f s') end.
  unfold flow_bind, charge. steady.
Qed.

Lemma resting_flush_data ts : stable resting (flush_data ts).
Proof.
  unfold flush_data. steady_step.
  { apply stable_mods. intros c. generalize (send_window c). generalize (snd_queue c). intros q w. revert c.
    induction q as [|s q IH]; intros c; cbn [fill_snd_buf]; [done|]. destruct (_ <? 0); [|done]. by rewrite IH. }
  steady_step; [steady|]. steady_step; [apply stable_mods; unfold refill_credit; pure_view|].
  steady_step; [steady|]. unfold flow_bind, flush_rest. steady_step; [apply resting_flush_segments|].
  destruct a2; unfold bbr_on_loss; steady.
Qed.

Lemma lasting_flush_data ts : stable lasting (flush_data ts).
Proof. intros s r s' H. pose proof (resting_flush_data ts s r s' H) as E. unfold resting in E. congruence. Qed.

(** A message once it is on its way: the datagrams of its segments are sent, which
    are all that is in flight. *)
Record sent_out (data : bytes) (c : kcp_connection) (e : env) (c2 : kcp_connection) (e2 : env)
    (groups : list (list kcp_segment)) : Prop := {
  out_trace : e_trace e2 = e_trace e ++ datagrams (remote_host c) (map (datagram_of image) groups);
  out_segments : message_segments data c (List.concat groups);
  out_sizes : Forall (fun g => g <> [] /\ Zlength (datagram_of image g) <= ETHERNET_MTU) groups;
  out_buf : snd_buf c2 = List.concat groups /\ Forall (fun s => sg_xmit s = 1) (snd_buf c2) /\ snd_queue c2 = [];
  out_numbers : snd_una c2 = snd_nxt c /\ snd_nxt c2 = snd_nxt c + Zlength (List.concat groups);
  out_ready : flush_ready c2 e2;
  out_role : role c2 = role c /\ mss c2 = mss c;
  out_rest : resting c2 = resting (control_done c);
  out_packing : map (datagram_of image) groups = pack (mtu c2) [] (map image (snd_buf c2));
  out_kernel : accepting e2;
}.

Lemma sized_groups m gs :
  Forall (fun d => Zlength d <= m) (map (@List.concat Z) (map (map image) gs)) ->
  Forall (fun d => d <> []) (map (@List.concat Z) (map (map image) gs)) -> m <= ETHERNET_MTU ->
  Forall (fun g => g <> [] /\ Zlength (datagram_of image g) <= ETHERNET_MTU) gs.
Proof.
  rewrite !Forall_map, !Forall_forall. intros Hmax Hne Hm g Hg. split; [intros ->; by apply (Hne [] Hg)|].
  specialize (Hmax g Hg). unfold datagram_of. lia.
Qed.

Lemma sent_once_xmit l l' : Forall2 sent_once l l' -> Forall (fun s => sg_xmit s = 1) l'.
Proof. induction 1 as [|? ? ? ? [_ ?] _ IH]; by constructor. Qed.

(** The message in the send queue, and nothing else. *)
Record queued (data : bytes) (c : kcp_connection) (e : env) (cp : kcp_connection) (e1 : env) (frags : list kcp_segment) : Prop := {
  qd_call : kcp_send true data (c, e) = Some (NO_ERROR, (after_send_call cp frags, e1));
  qd_same : exists u n, cp = c <| snd_buf_unused := u |> <| nsnd_buf_unused := n |>;
  qd_env : accepting e1 /\ e_trace e1 = e_trace e;
  qd_fragments : fragments_of c (Zlength frags) (psn_nxt c) 0 frags;
  qd_contents : List.concat (map sg_data frags) = data;
  qd_count : Zlength frags = (Zlength data + mss c - 1) / mss c /\ 0 < Zlength frags <= KCP_PACKET_SIZE;
  qd_sized : Forall (fragment_sized (mss c)) frags /\ Zsum (map sg_len frags) = Zlength data;
  qd_ready : flush_ready (control_done (after_send_call cp frags)) e1;
}.

Lemma queue_message data ts c e :
  sender_ready data ts c e -> exists cp e1 frags, queued data c e cp e1 frags.
Proof.
  intros []. destruct sr_empty0 as [Hb Hq].
  pose proof (ready_mtu _ _ sr_flush0) as Hmtu. unfold ETHERNET_MTU, KCP_HEADER_SIZE in Hmtu, sr_sizes0.
  destruct (kcp_send_run c e data sr_state0) as (cp & e1 & frags & Hsend & Hp & Hme1 & Hom & Hfr & Hcat & Hcnt);
    [lia|lia|lia|unfold SEGMENT_ROOM, ETHERNET_MTU; lia|apply (ready_memory _ _ sr_flush0)|].
  destruct (fragment_count (Zlength data) (mss c)) as [Hn1 Hn2]; [lia..|]. rewrite <- Hcnt in Hn1, Hn2.
  assert (Zlength frags <= KCP_PACKET_SIZE) as Hn3 by (unfold KCP_PACKET_SIZE in *; nia).
  assert (exists u n, cp = c <| snd_buf_unused := u |> <| nsnd_buf_unused := n |>) as Hcp by eauto.
  pose proof Hcp as (u & n & E).
  pose proof (fragments_sized _ _ _ _ _ Hfr) as Hsz.
  exists cp, e1, frags. constructor; try done.
  - unfold accepting in *. by rewrite Hom.
  - split; [exact Hcnt|lia].
  - split; [exact Hsz|]. rewrite <- Hcat. apply copy_bytes. eapply Forall_impl; [exact Hsz|]. by intros s [? _].
  - rewrite E. apply (queued_ready (c <| snd_buf_unused := u |> <| nsnd_buf_unused := n |>) e); try done.
    + destruct sr_flush0 as [? ? [] ? ?]. constructor; (done || by constructor).
    + change (snd_nxt c + Zlength frags < 4294967296). lia.
Qed.

(** What one flush puts on the wire for the message, and what it leaves. *)
Lemma send_message data ts c e :
  sender_ready data ts c e ->
  exists c1 e1 c2 e2 groups,
    kcp_send true data (c, e) = Some (NO_ERROR, (c1, e1)) /\
    flush ts (c1, e1) = Some (None, (c2, e2)) /\ sent_out data c e c2 e2 groups.
Proof.
  intros Hs. destruct (queue_message data ts c e Hs) as (cp & e1 & frags & [Hsend (u & n & ->) [Hacc Htr] Hfr Hcat [Hcnt Hn] [Hsz Hsum] Hrd]).
  destruct Hs. destruct sr_empty0 as [Hb Hq]. set (cp := c <| snd_buf_unused := u |> <| nsnd_buf_unused := n |>) in *.
  pose proof (ready_mtu _ _ sr_flush0) as Hmtu. unfold ETHERNET_MTU, KCP_HEADER_SIZE in Hmtu, sr_sizes0.
  pose proof (ready_ok _ _ sr_flush0) as Hok. pose proof (ok_snd_una _ Hok) as Hu0.
  pose proof (ok_buf_una _ Hok) as Hu2. rewrite Hb in Hu2. rewrite <- Hcnt in sr_window0.
  set (d := control_done (after_send_call cp frags)) in *.
  assert (snd_queue d = frags) as Hqd by (change (snd_queue d) with (snd_queue c ++ frags); by rewrite Hq).
  destruct (flush_data_run d e1 ts Hrd Hacc) as (c2 & e2 & Hdata & Hview & Hsent & Hmax & Hne & gb & Hgb & Hgc).
  { change (snd_buf d) with (snd_buf c). rewrite Hb. constructor. }
  destruct (first_flight ts d frags Hb Hqd Hu2) as (new & Hna & Hsn & Hso & B1 & B2 & B3 & B4 & B5);
    [change (0 <= snd_nxt c); lia|change (snd_nxt d) with (snd_nxt c); lia|done|done| |].
  { rewrite Hsum, (refill_credit_same d c ts eq_refl eq_refl). exact sr_credit0. }
  apply map_groups in Hgc as (gs & -> & Hgs). rewrite <- Hgs in *.
  assert (Zlength (List.concat gs) = Zlength frags) as Hlen.
  { apply Forall2_length in Hna, Hso. unfold Zlength. lia. }
  destruct (sent_view_fields _ _ Hview) as (V1 & V2 & V3 & V4).
  pose proof (sent_view_kept _ _ Hview) as Hkept. rewrite B5 in Hkept.
  exists (after_send_call cp frags), e1, c2, e2, gs.
  split_and!; [exact Hsend|apply idle_flush; [done|done|destruct sr_control0 as [? []]; by split|exact Hdata]|]. constructor.
  - rewrite Hgb, List.map_map in Hsent. rewrite Hsent. cbn. by rewrite Htr.
  - apply (message_of_fragments data ts c frags new (List.concat gs)); try done; try lia; [unfold SEGMENT_ROOM, ETHERNET_MTU; lia|].
    eapply Forall2_impl; [exact Hna|]. intros ? ? []. by constructor.
  - rewrite Hgb in Hne, Hmax. apply (sized_groups (mtu c)); [exact Hmax|exact Hne|unfold ETHERNET_MTU; lia].
  - split_and!; [by rewrite V1|rewrite V1, B1; by eapply sent_once_xmit|by rewrite V4].
  - split; [by rewrite V2|by rewrite V3, B4, Hlen].
  - exact (flush_data_ready _ _ _ _ _ Hrd Hdata).
  - by destruct (kept_role c2 c) as [Hrole Hmss].
  - exact (resting_flush_data ts (d, e1) _ _ Hdata).
  - unfold flight_kept in Hkept. injection Hkept as _ _ _ _ _ -> _ _. rewrite V1, B1. unfold datagram_of. by rewrite <- List.map_map, <- Hgb.
  - by eapply sent_accepting.
Qed.

(** ** The receiver *)

(** What a PUSH of the peer runs. *)
Lemma handle_push cb a src peer own x e r h ts sn psn una len data (Q : loop_flow -> kcp_context * env -> Prop) :
  live a src peer own x r -> h_scid h = peer -> h_dcid h = own -> h_cmd h = KCP_CMD_PUSH ->
  h_data h = packet_data ts sn psn una len data -> memory_available e ->
  (forall r1 t e1, r1 = r \/ r1 = r <| rmt_wnd := h_wnd h |> -> is_u64 t -> silent e e1 -> memory_available e1 ->
     exists code r2 e2, on_kcp_push_pcaket h t (r1, e1) = Some (code, (r2, e2)) /\
       Q Continue (x <| heap ::= <[a := r2]> |>, e2)) ->
  wp (handle_packet cb h src) Q (x, e).
Proof.
  intros Hl Hs Hd Hc Hdata Hm HQ. eapply wp_connected_packet; [exact Hl|done|done|by rewrite Hc..|].
  unfold kcp_input_pcaket. wp_step. apply wp_clock_us; [done|]. intros t e1 Ht Hsil Hm1. rewrite Hc.
  change (KCP_CMD_PUSH =? KCP_CMD_ACK) with false. change (KCP_CMD_PUSH =? KCP_CMD_PUSH) with true. cbn match.
  set (r1 := if 0 <? h_frg h then r <| rmt_wnd := h_wnd h |> else r).
  destruct (HQ r1 t e1) as (code & r2 & e2 & Hrun & HQ'); [unfold r1; destruct (0 <? h_frg h); auto|done..|].
  wp_step. eapply (wp_run _ _ _ tt (r1, e1)).
  { unfold r1, when. by destruct (0 <? h_frg h). }
  eapply wp_run; [exact Hrun|]. cbn [fst snd]. split; [|done].
  rewrite (steady_push h t (r1, e1) code (r2, e2) Hrun : role r2 = role r1). unfold r1. by destruct (0 <? h_frg h).
Qed.

(** ** A datagram of segments *)

Lemma image_header s : segment_ok s -> image s = header_image (segment_header s) 0.
Proof.
  intros Hs. unfold image. rewrite kcp_segment_encode_image; [done|done|].
  destruct Hs as (_ & _ & _ & _ & _ & _ & _ & _ & _ & _ & ?). unfold UINT32_MAX, KCP_HEADER_SIZE in *. lia.
Qed.

Lemma parse_segment s rest :
  segment_ok s -> Zlength (image s ++ rest) <= ETHERNET_MTU ->
  kcp_proto_parse (image s ++ rest) = OK (segment_header s) rest.
Proof.
  intros Hs Hlen. rewrite image_header in * by done.
  rewrite parse_image; [done|by apply segment_header_ok|].
  rewrite segment_header_size by done. rewrite Zlength_app in Hlen. unfold Zlength at 1 in Hlen.
  rewrite length_header_image in Hlen. cbn [segment_header h_data Wire.payload snd] in Hlen. rewrite length_take in Hlen.
  destruct Hs as (_ & _ & _ & _ & _ & _ & _ & _ & _ & Hl & ?). unfold ETHERNET_MTU, KCP_HEADER_SIZE, Zlength in *. lia.
Qed.

Lemma image_length s : segment_ok s -> (32 <= length (image s))%nat.
Proof. intros Hs. rewrite image_header, length_header_image by done. lia. Qed.

Definition wire_image : list kcp_segment -> bytes := datagram_of image.

(** What a connection sends of its own, apart from acknowledgements. *)
Definition own_sending (c : kcp_connection) :=
  (snd_view c, (mtu c, mss c, probe c, ts_flush c), ping_request_queue (ping c), role c).

(** What [r] acknowledges since [r0]: segments of numbers from [lo] to [hi], and
    some if it took any. *)
Record owes (lo hi : Z) (r0 r : kcp_connection) : Prop := {
  owes_sending : own_sending r = own_sending r0;
  owes_acks : exists new, ack_item r = ack_item r0 ++ new /\
    Forall (fun k => lo <= ack_sn k < hi /\ is_u64 (ack_ts k)) new /\ (new = [] -> rcv_nxt r = rcv_nxt r0);
}.

Lemma owes_refl lo hi r : owes lo hi r r.
Proof. constructor; [done|]. exists []. rewrite app_nil_r. by split_and!. Qed.

Lemma push_owes lo hi r0 r1 e h t ts sn psn una len data code r2 e2 :
  owes lo hi r0 r1 -> h_data h = packet_data ts sn psn una len data -> lo <= sn < hi -> is_u64 t ->
  sn < u32 (rcv_nxt r1 + rcv_wnd r1) -> on_kcp_push_pcaket h t (r1, e) = Some (code, (r2, e2)) -> owes lo hi r0 r2.
Proof.
  intros [Hs (new & Ha & Hf & Hn)] Hd Hsn Ht Hw H.
  assert (forall c c', beyond c = beyond c' -> own_sending c = own_sending c' /\ ack_item c = ack_item c') as Hview.
  { intros c c' E. split; [exact (f_equal own_sending E)|exact (f_equal ack_item E)]. }
  destruct (push_outside h t r1 e code r2 e2 ts sn psn una len data Hd H) as [E|Hb _|_ E].
  - destruct (Hview _ _ (beyond_outside _ _ E)) as [E1 E2]. pose proof (f_equal rcv_nxt E : rcv_nxt r2 = rcv_nxt r1) as E3.
    constructor; [exact (eq_trans E1 Hs)|]. exists new. split_and!; [exact (eq_trans E2 Ha)|done|by rewrite E3].
  - change (u32 (rcv_nxt r1 + rcv_wnd r1) <= sn) in Hb. lia.
  - destruct (Hview _ _ E) as [E1 E2]. constructor; [exact (eq_trans E1 Hs)|].
    exists (new ++ [KcpAck sn psn t]). split_and!; [|apply Forall_app; split; [done|by constructor; [|constructor]]|by destruct new].
    rewrite app_assoc, <- Ha. exact E2.
Qed.

Section Receiving.
(** The stream, the next message and what the user of the receiver has been given. *)
Context (sn0 psn0 : Z) (msgs : list (list kcp_segment)) (Hso : stream_ok sn0 psn0 msgs).
Context (d : nat) (fs : list kcp_segment) (w self : Z) (rcb : bool) (q0 : list kcp_segment) (t0 : list event).
Context (Hm : msgs !! d = Some fs) (Hwin : first_sn sn0 msgs (S d) <= first_sn sn0 msgs d + w)
  (Hroom : first_sn sn0 msgs (length msgs) + w < 4294967296).
Context (cb : sockaddr -> io kcp_context bool) (a : Z) (src : sockaddr) (peer own : Z).
Context (x0 : kcp_context) (r0 : kcp_connection).
Notation progress := (progress sn0 psn0 msgs d fs w self rcb q0 t0).
Notation live := (live a src peer own).
Notation owes := (owes (first_sn sn0 msgs d) (first_sn sn0 msgs (S d))).

(** A segment of the message from the peer. *)
Definition arriving (s : kcp_segment) : Prop :=
  segment_ok s /\ sg_scid s = peer /\ sg_dcid s = own /\ exists j, carries msgs (segment_header s) d j.

Definition carried (l : list kcp_segment) (i : nat) : Prop :=
  exists s, s ∈ l /\ carries msgs (segment_header s) d i.

(** The context once the segments [l] have arrived. *)
Definition taken_in (l : list kcp_segment) (x : kcp_context) (e : env) : Prop :=
  exists r, x = x0 <| heap ::= <[a := r]> |> /\ live x r /\ progress (carried l) r e /\ owes r0 r.

Lemma progress_mono J J' c e : (forall i, J' i -> J i) -> progress J c e -> progress J' c e.
Proof.
  intros H (? & ? & [(? & ? & ? & ? & Hc)|?]); split_and!; try done; [left|by right]. split_and!; try done. auto.
Qed.

Lemma progress_view J c c' e e' :
  recv_view c' = recv_view c -> k_self c' = k_self c -> read_event_cb c' = read_event_cb c -> rcv_wnd c' = rcv_wnd c ->
  e_trace e' = e_trace e -> memory_available e' -> progress J c e -> progress J c' e'.
Proof.
  intros Hv H1 H2 H3 Ht Hme (_ & Hs & Hp). split_and!; [done|congruence|].
  pose proof Hv as [= V1 V2 V3 V4 V5 V6 V7 V8].
  destruct Hp as [(Hi & Hn & Hq & Htr & Hc)|(Hi & q & Hq & Hp & Htr)]; [left|right].
  - split_and!; [by eapply recv_inv_view|congruence|congruence|congruence|]. unfold buffered. by rewrite V1.
  - split; [by eapply recv_inv_view|]. exists q. split_and!; congruence.
Qed.

(** A segment of the message is within the window, whatever has arrived. *)
Lemma progress_window J c e h j sn :
  progress J c e -> carries msgs h d j -> sn = first_sn sn0 msgs d + Z.of_nat j ->
  first_sn sn0 msgs d <= sn < first_sn sn0 msgs (S d) /\ sn < u32 (rcv_nxt c + rcv_wnd c).
Proof.
  intros (_ & Hst & Hp) Hj ->. injection Hst as Hw _ _. rewrite Hw.
  destruct (carries_frg sn0 psn0 msgs Hso h d j Hj) as (_ & fs' & s & Hm' & Hs & _). assert (fs' = fs) as -> by congruence.
  pose proof (lookup_lt_Some _ _ _ Hs). pose proof (first_sn_S sn0 msgs d fs Hm) as HS. pose proof (first_sn_nonneg sn0 psn0 msgs Hso d).
  unfold Zlength in HS.
  assert (first_sn sn0 msgs d <= rcv_nxt c <= first_sn sn0 msgs (length msgs)) as Hl.
  { destruct Hp as [[Hi _]|[Hi _]]; [by apply (ri_low _ _ _ _ _ Hi)|]. pose proof (ri_low _ _ _ _ _ Hi). lia. }
  rewrite u32_small by lia. lia.
Qed.

Lemma handle_segment l s x e :
  arriving s -> taken_in l x e ->
  wp (handle_packet cb (segment_header s) src) (fun f s' => f = Continue /\ taken_in (l ++ [s]) s'.1 s'.2) (x, e).
Proof.
  intros (Hok & Hs & Hd & j & Hj) (r & -> & Hl & Hp & Ho).
  eapply handle_push; [exact Hl|exact Hs|exact Hd|exact (proj1 (proj2 (proj2 Hok)))|reflexivity|by destruct Hp|].
  intros r1 t e1 Hr1 Ht [He1 _] Hm1.
  assert (progress (carried l) r1 e1) as Hp1 by (destruct Hr1 as [->| ->]; (eapply progress_view; [..|exact Hp]; done)).
  assert (owes r0 r1) as Ho1 by (destruct Ho as [? ?]; by destruct Hr1 as [->| ->]; constructor).
  destruct (push_progress sn0 psn0 msgs Hso d fs w self rcb q0 t0 Hm Hwin Hroom (carried l) r1 e1 _ t j Hj Hp1)
    as (code & r2 & e2 & Hrun & Hp2).
  exists code, r2, e2. split; [done|]. split; [done|]. exists r2. cbn [fst snd]. split_and!; [by rewrite heap_set_twice| | |].
  - apply (live_update _ _ _ _ _ _ r); [done|].
    transitivity (role r1); [exact (steady_push _ _ (r1, e1) code (r2, e2) Hrun)|by destruct Hr1 as [->| ->]].
  - eapply progress_mono; [|exact Hp2]. intros i (s' & [Hs'| ->%list_elem_of_singleton]%elem_of_app & Hi); [right; by exists s'|].
    left. destruct (carries_frg sn0 psn0 msgs Hso _ _ _ Hi) as [F1 _], (carries_frg sn0 psn0 msgs Hso _ _ _ Hj) as [F2 _]. lia.
  - pose proof Hj as (fs2 & s2 & ts2 & una2 & data2 & Hm2 & Hs2 & _ & _ & Hdata & _).
    destruct (so_segment _ _ _ Hso d fs2 j s2 Hm2 Hs2) as (Hsn & _).
    destruct (progress_window (carried l) r1 e1 _ j (sg_sn s2) Hp1 Hj Hsn) as [Hr Hw].
    by eapply push_owes; [exact Ho1|exact Hdata|exact Hr|exact Ht|exact Hw|exact Hrun].
Qed.

Lemma receive_groups gs e :
  Forall (well_packed image arriving) gs -> live x0 r0 -> progress (fun _ => False) r0 e ->
  wp (receive cb src (map wire_image gs)) (fun _ s' => taken_in (List.concat gs) s'.1 s'.2) (x0, e).
Proof.
  intros Hall Hl Hp. apply (receive_datagrams image segment_header arriving cb src taken_in) with (l := []).
  - intros s rest [Hs _]. by apply parse_segment.
  - intros s [Hs _]. split; [by apply image_length|]. destruct Hs as (_ & _ & Hc & _). cbn. by rewrite Hc.
  - done.
  - intros. by apply handle_segment.
  - done.
  - exists r0. split_and!; [symmetry; apply heap_set_same; apply (live_heap _ _ _ _ _ _ _ Hl)|done| |apply owes_refl].
    eapply progress_mono; [|exact Hp]. by intros i (s & Hs%elem_of_nil & _).
Qed.
End Receiving.

(** ** Datagrams that look the same *)

Lemma wire_image_headers g g' :
  Forall segment_ok g -> Forall segment_ok g' -> Zlength (wire_image g) <= ETHERNET_MTU ->
  wire_image g = wire_image g' -> map segment_header g = map segment_header g'.
Proof.
  unfold wire_image, datagram_of. intros Hg. revert g'. induction Hg as [|s g Hs _ IH]; intros g' Hg' Hlen E.
  - destruct Hg' as [|s' g' Hs' _]; [done|]. cbn in E. pose proof (image_length s' Hs').
    apply (f_equal length) in E. rewrite length_app in E. cbn in E. lia.
  - destruct Hg' as [|s' g' Hs' Hg'].
    { cbn in E. pose proof (image_length s Hs). apply (f_equal length) in E. rewrite length_app in E. cbn in E. lia. }
    cbn [map List.concat] in *. pose proof (parse_segment s _ Hs Hlen) as Hp.
    rewrite E in Hp, Hlen. rewrite (parse_segment s' _ Hs' Hlen) in Hp.
    generalize dependent (segment_header s). generalize dependent (segment_header s'). intros h' h [= -> H2].
    f_equal. apply IH; [done| |done].
    + rewrite <- H2. rewrite Zlength_app in Hlen. pose proof (Zlength_nonneg (image s')). lia.
Qed.

(** Whatever arrives of a list of datagrams is made of their segments, and what
    arrives of all of them carries them all. *)
Lemma arrivals_groups (groups : list (list kcp_segment)) (arrivals : list bytes) :
  Forall (fun g => Forall segment_ok g /\ Zlength (wire_image g) <= ETHERNET_MTU) groups ->
  (forall d, d ∈ arrivals <-> d ∈ map wire_image groups) ->
  exists gs, arrivals = map wire_image gs /\ (forall g, g ∈ gs -> g ∈ groups) /\
    forall s, s ∈ List.concat groups -> exists s', s' ∈ List.concat gs /\ segment_header s' = segment_header s.
Proof.
  intros Hok Hsame.
  assert (exists gs, arrivals = map wire_image gs /\ (forall g, g ∈ gs -> g ∈ groups)) as (gs & -> & Hgs).
  { assert (forall d, d ∈ arrivals -> exists g, g ∈ groups /\ d = wire_image g) as H.
    { intros d Hd%Hsame. apply list_elem_of_fmap in Hd as (g & -> & Hg). by exists g. }
    clear Hsame. induction arrivals as [|d l IH]; [exists []; split; [done|by intros g ?%elem_of_nil]|].
    destruct (H d ltac:(constructor)) as (g & Hg & ->).
    destruct IH as (gs & -> & Hgs); [intros d' Hd'; apply H; by constructor|].
    exists (g :: gs). split; [done|]. intros g' [->|?]%elem_of_cons; auto. }
  exists gs. split_and!; [done|done|]. rewrite Forall_forall in Hok.
  intros s Hs. apply list_elem_of_In, List.in_concat in Hs as (g & Hg%list_elem_of_In & Hs%list_elem_of_In).
  assert (wire_image g ∈ map wire_image gs) as Hin by (apply Hsame, list_elem_of_fmap; by exists g).
  apply list_elem_of_fmap in Hin as (g' & E & Hg').
  destruct (Hok g Hg) as [H1 H2], (Hok g' (Hgs g' Hg')) as [H3 _].
  pose proof (wire_image_headers g g' H1 H3 H2 E) as Hh.
  assert (segment_header s ∈ map segment_header g') as Hin by (rewrite <- Hh; apply list_elem_of_fmap; by exists s).
  apply list_elem_of_fmap in Hin as (s' & ? & Hs'). exists s'. split; [|done].
  apply list_elem_of_In, List.in_concat. exists g'. by split; apply list_elem_of_In.
Qed.

(** ** End to end *)

Record receiver_ready (data : bytes) (c : kcp_connection) (a : Z) (src : sockaddr)
    (x : kcp_context) (e : env) (r : kcp_connection) : Prop := {
  rr_live : live a src (scid c) (dcid c) x r;
  rr_init : receiver_init (snd_nxt c) r;
  rr_window : (Zlength data + mss c - 1) / mss c <= rcv_wnd r;
  rr_room : snd_nxt c + KCP_PACKET_SIZE + rcv_wnd r < 4294967296;
  rr_memory : memory_available e;
}.

(** A receiver that has delivered the whole stream is as at the start. *)
Lemma receiver_finished sn0 psn0 msgs c :
  recv_inv sn0 psn0 msgs (length msgs) c -> rcv_queue c = [] -> rcv_queue_bytes c = 0 ->
  receiver_init (first_sn sn0 msgs (length msgs)) c.
Proof.
  intros Hi Hq Hb.
  assert (buffered c = []) as Hbuf.
  { destruct (buffered c) as [|t l] eqn:E; [done|]. destruct (ri_buffer _ _ _ _ _ Hi) as [_ Hin].
    destruct (Hin t) as (m & j & Hm & fs & s & Hl & _); [rewrite E; constructor|].
    apply lookup_lt_Some in Hl. lia. }
  assert (forall (t : tree Z), (forall k, k ∉ elements t) -> t = Leaf) as Hleaf.
  { intros [|col l k r'] H; [done|]. destruct (H k). cbn. apply elem_of_app. right. constructor. }
  constructor.
  - unfold buffered in Hbuf. destruct (rcv_buf c) as [|? l s r']; [done|]. cbn in Hbuf. by destruct (elements l).
  - apply Hleaf. intros k Hk. apply (ri_psns _ _ _ _ _ Hi) in Hk as (m & Hm & _). rewrite Hbuf in Hm. by destruct Hm.
  - destruct (rcv_packet_list c) as [|p l] eqn:E; [done|].
    assert (p ∈ rcv_packet_list c) as Hp by (rewrite E; constructor).
    apply (ri_packets _ _ _ _ _ Hi) in Hp as (m & Hm & _). rewrite Hbuf in Hm. by destruct Hm.
  - pose proof (ri_low _ _ _ _ _ Hi). lia.
  - done.
  - rewrite (ri_nrcv_buf _ _ _ _ _ Hi), (ri_nrcv_que _ _ _ _ _ Hi), Hbuf, Hq. done.
Qed.

(** The datagrams of the message, at the receiver. *)
Lemma message_received cb data c a src x e r groups arrivals :
  receiver_ready data c a src x e r -> message_segments data c (List.concat groups) ->
  0 < Zlength (List.concat groups) <= KCP_PACKET_SIZE ->
  Forall (fun g => g <> [] /\ Zlength (wire_image g) <= ETHERNET_MTU) groups ->
  (forall d, d ∈ arrivals <-> d ∈ map wire_image groups) ->
  exists x' e' r', receive cb src arrivals (x, e) = Some (tt, (x', e')) /\
    x' = x <| heap ::= <[a := r']> |> /\ live a src (scid c) (dcid c) x' r' /\ memory_available e' /\
    delivered (snd_nxt c) (psn_nxt c) [List.concat groups] 0 (List.concat groups) (k_self r) (read_event_cb r) []
      (e_trace e) r' e' /\ owes (snd_nxt c) (snd_nxt c + Zlength (List.concat groups)) r r'.
Proof.
  intros [Hl Hinit Hwin Hroom Hmem] [Hok Hids Hso Hcont Hcnt] Hn Hg Harr.
  set (segs := List.concat groups) in *. set (sn0 := snd_nxt c) in *. set (psn0 := psn_nxt c) in *.
  assert (first_sn sn0 [segs] 0 = sn0) as F0 by (apply first_sn_0).
  assert (first_sn sn0 [segs] 1 = sn0 + Zlength segs) as F1.
  { by rewrite (first_sn_S sn0 [segs] 0 segs), F0. }
  assert (forall s, s ∈ segs -> arriving [segs] 0 (scid c) (dcid c) s /\
    exists j, segs !! j = Some s /\ carries [segs] (segment_header s) 0 j) as Hsegs.
  { intros s Hs. apply list_elem_of_lookup in Hs as [j Hj].
    destruct (so_segment _ _ _ Hso 0 segs j s eq_refl Hj) as (_ & _ & _ & Hsz & Hw).
    assert (carries [segs] (segment_header s) 0 j) as Hc.
    { exists segs, s, (sg_ts s), (sg_una s), (sg_data s). split_and!; try done.
      rewrite take_ge; [done|]. unfold Zlength in Hsz. lia. }
    rewrite Forall_lookup in Hok. rewrite Forall_lookup in Hids. specialize (Hok j s Hj). specialize (Hids j s Hj).
    split; [|by exists j]. unfold arriving. split_and!; [done|apply Hids|apply Hids|by exists j]. }
  assert (Forall (fun g => Forall segment_ok g /\ Zlength (wire_image g) <= ETHERNET_MTU) groups) as Hg1.
  { apply Forall_forall. intros g Hgin. rewrite Forall_forall in Hg. split; [|by apply Hg].
    apply Forall_forall. intros s Hs. rewrite Forall_forall in Hok. apply Hok.
    apply list_elem_of_In, List.in_concat. exists g. by split; apply list_elem_of_In. }
  destruct (arrivals_groups groups arrivals Hg1 Harr) as (gs & -> & Hsub & Hcover).
  set (P := fun l => progress sn0 psn0 [segs] 0 segs (rcv_wnd r) (k_self r) (read_event_cb r) [] (e_trace e) l).
  assert (P (fun _ => False) r e) as Hp.
  { split_and!; [done|done|left]. pose proof (receiver_init_inv sn0 psn0 [segs] r Hinit). destruct Hinit.
    split_and!; [done| |done|done|done]. rewrite init_nxt, F1. lia. }
  assert (Forall (well_packed image (arriving [segs] 0 (scid c) (dcid c))) gs) as Hgs.
  { apply Forall_forall. intros g Hgin. rewrite Forall_forall in Hg. destruct (Hg g (Hsub g Hgin)) as [? ?].
    split_and!; [done| |done]. apply Forall_forall. intros s Hs. apply Hsegs.
    apply list_elem_of_In, List.in_concat. exists g. split; apply list_elem_of_In; auto. }
  destruct (wp_elim _ _ _ (receive_groups sn0 psn0 [segs] Hso 0 segs (rcv_wnd r) (k_self r) (read_event_cb r) []
    (e_trace e) eq_refl ltac:(rewrite F0, F1; lia) ltac:(cbn [length]; rewrite F1; unfold KCP_PACKET_SIZE in *; lia)
    cb a src (scid c) (dcid c) x r gs e Hgs Hl Hp)) as ([] & [x' e'] & Hrun & r' & Hx' & Hl' & Hp' & Ho').
  cbn [fst snd] in *. rewrite F0, F1 in Ho'. exists x', e', r'. split_and!; [exact Hrun|done|done|apply Hp'| |exact Ho'].
  eapply (progress_delivered sn0 psn0 [segs] 0 segs (rcv_wnd r)); [done|exact Hp'|].
  intros j Hj. apply lookup_lt_is_Some in Hj as [s Hs].
  destruct (Hcover s) as (s' & Hs' & Hh); [by eapply list_elem_of_lookup_2|]. exists s'. split; [done|]. rewrite Hh.
  destruct (Hsegs s) as (_ & j' & Hj' & Hc); [by eapply list_elem_of_lookup_2|].
  destruct (so_segment _ _ _ Hso 0 segs j s eq_refl Hs) as (_ & _ & E1 & _).
  destruct (so_segment _ _ _ Hso 0 segs j' s eq_refl Hj') as (_ & _ & E2 & _).
  assert (j = j') as -> by lia. done.
Qed.

(** C1: A message reaches the other side, whole and once: from an established
    sender with nothing in flight whose window and pacing credit cover it, [kcp_send]
    and one flush put it on the wire in datagrams; let these arrive at the
    peer's context in any order and any number of times, each at least once: every
    one is parsed and handled without fault, the user is told of the message once,
    [kcp_recv] with room for it answers exactly its bytes, and the receiver is
    then ready for the next message of the sender. *)
Theorem message_transfer (cb : sockaddr -> io kcp_context bool) (data : bytes) (ts : Z) (c : kcp_connection) (e : env)
    (a : Z) (src : sockaddr) (x : kcp_context) (er : env) (r : kcp_connection) (size : Z) :
  sender_ready data ts c e -> receiver_ready data c a src x er r -> Zlength data <= size < 2147483648 ->
  exists c1 e1 c2 e2 ds,
    kcp_send true data (c, e) = Some (NO_ERROR, (c1, e1)) /\
    flush ts (c1, e1) = Some (None, (c2, e2)) /\
    e_trace e2 = e_trace e ++ datagrams (remote_host c) ds /\
    forall arrivals, (forall d, d ∈ arrivals <-> d ∈ ds) ->
    exists x' er' r' r'',
      receive cb src arrivals (x, er) = Some (tt, (x', er')) /\ heap x' !! a = Some r' /\
      e_trace er' = e_trace er ++ (if read_event_cb r then [OnReadEvent a (Zlength data)] else []) /\
      kcp_recv true size (r', er') = Some ((Zlength data, data), (r'', er')) /\
      receiver_init (snd_nxt c2) r''.
Proof.
  intros Hs Hr Hsize.
  destruct (send_message data ts c e Hs) as (c1 & e1 & c2 & e2 & groups & Hsend & Hflush & [Ht Hms Hg _ [_ Hnxt] _ _ _ _ _]).
  exists c1, e1, c2, e2, (map wire_image groups). split_and!; [done|done|done|]. intros arrivals Harr.
  destruct Hs as [_ _ _ _ Hsz Hdata _ _ _ _ _ _ _ _].
  destruct (fragment_count (Zlength data) (mss c)) as [Hn1 Hn2]; [lia..|].
  pose proof (ms_count _ _ _ Hms) as Hcnt. rewrite <- Hcnt in Hn1, Hn2.
  assert (0 < Zlength (List.concat groups) <= KCP_PACKET_SIZE) as Hn by (unfold KCP_PACKET_SIZE in *; nia).
  destruct (message_received cb data c a src x er r groups arrivals Hr Hms Hn Hg Harr)
    as (x' & er' & r' & Hrun & Hx' & Hl' & _ & (Hi & q & Hq & Hpay & Htr) & _).
  destruct (ms_stream _ _ _ Hms) as [Hso1 Hso2 Hso3].
  destruct (payload_contents _ _ Hpay) as (Hcont & Hlens & Hsized).
  assert (Forall sized (List.concat groups)) as Hsz1.
  { eapply (message_sized (snd_nxt c) (psn_nxt c) [List.concat groups]); [by constructor|apply (eq_refl : [_] !! 0%nat = Some _)]. }
  destruct (copy_bytes _ Hsz1) as [_ Hsum]. rewrite (ms_contents _ _ _ Hms) in Hcont, Hsum.
  cbn [app] in Hq.
  destruct (recv_success (snd_nxt c) (psn_nxt c) [List.concat groups] 1 r' er' size Hi) as (r'' & Hi'' & _ & _ & Hrecv & Hq'' & _ & Hb'' & _).
  { rewrite Hq. by apply Hsized. }
  { apply (live_state _ _ _ _ _ _ _ Hl'). }
  { rewrite Hq. intros ->. symmetry in Hpay. apply map_eq_nil in Hpay. rewrite Hpay in Hn. by destruct Hn. }
  { lia. }
  { rewrite Hq, Hcont. lia. }
  rewrite Hq, Hcont in Hrecv.
  exists x', er', r', r''. split_and!; [done|apply (live_heap _ _ _ _ _ _ _ Hl')| |done|].
  - rewrite Htr, Hsum. destruct (ctx_self _ (live_ctx _ _ _ _ _ _ _ (rr_live _ _ _ _ _ _ _ Hr)) a r (live_heap _ _ _ _ _ _ _ (rr_live _ _ _ _ _ _ _ Hr))) as [-> _].
    rewrite s32_small by (unfold KCP_PACKET_SIZE in *; lia). done.
  - rewrite Hnxt. pose proof (receiver_finished (snd_nxt c) (psn_nxt c) [List.concat groups] r'' Hi'' Hq'' Hb'') as Hf.
    cbn [length] in Hf. by rewrite (first_sn_S (snd_nxt c) [List.concat groups] 0 (List.concat groups)), first_sn_0 in Hf.
Qed.

(** ** At a concrete pair of peers *)

Definition sender_example : kcp_connection :=
  zero_connection <| state := KCP_STATE_CONNECTED |> <| mss := 4 |> <| mtu := 80 |>
    <| scid := 20 |> <| dcid := 9 |> <| snd_una := 10 |> <| snd_nxt := 10 |> <| psn_nxt := 4 |>
    <| snd_wnd := 128 |> <| rmt_wnd := 64 |> <| nocwnd := 1 |> <| rcv_wnd := 128 |>
    <| rx_minrto := 100000 |> <| rx_rto := 200000 |>
    <| ping / keepalive_next_ts := 5000000 |>
    <| bbr / bbr_pacing_credit := 1000 |> <| bbr / bbr_last_send_ts := 2000000 |>.

(** The other end: connection 1 of the context, which has the peer 20. *)
Definition delivery_example : kcp_connection :=
  (peer_example 1 9 20 1500) <| rcv_nxt := 10 |> <| rcv_wnd := 128 |> <| remote_host := sin 4000 9 |> <| read_event_cb := true |>.

Definition receiver_example : kcp_context := context_example <| heap ::= <[1 := delivery_example]> |>.

Lemma sender_example_ready : sender_ready [1; 2; 3; 4; 5; 6; 7; 8; 9; 10] 2000000 sender_example quiet.
Proof.
  assert (snd_ok sender_example) by (constructor; solve [by vm_compute | by apply SSorted_nil]).
  constructor; try by vm_compute.
  constructor; (done || constructor).
Qed.

Lemma receiver_example_live : live 1 (sin 4000 9) 20 9 receiver_example delivery_example.
Proof.
  destruct (ctx_ok_conn context_example 1 (peer_example 1 9 20 1500) delivery_example context_example_ok eq_refl eq_refl eq_refl)
    as [Hx Hd].
  constructor; [exact Hx|apply lookup_insert_eq| |by split|reflexivity|reflexivity].
  apply search_Some; [exact Hx|]. rewrite Hd. by apply (search_Some context_example 20 1 context_example_ok).
Qed.

Lemma receiver_example_ready :
  receiver_ready [1; 2; 3; 4; 5; 6; 7; 8; 9; 10] sender_example 1 (sin 4000 9) receiver_example quiet delivery_example.
Proof. constructor; [exact receiver_example_live|by constructor|by vm_compute|by vm_compute|by constructor]. Qed.

(** Ten bytes in three fragments and two datagrams, which arrive in the wrong
    order and then once more. *)
Lemma message_transfer_witness :
  exists ds x' e' r' r'',
    length ds = 2%nat /\
    receive (fun _ => mret true) (sin 4000 9) (rev ds ++ ds) (receiver_example, quiet) = Some (tt, (x', e')) /\
    heap x' !! 1 = Some r' /\ e_trace e' = [OnReadEvent 1 10] /\
    kcp_recv true 100 (r', e') = Some ((10, [1; 2; 3; 4; 5; 6; 7; 8; 9; 10]), (r'', e')).
Proof.
  destruct (message_transfer (fun _ => mret true) [1; 2; 3; 4; 5; 6; 7; 8; 9; 10] 2000000 sender_example quiet
    1 (sin 4000 9) receiver_example quiet delivery_example 100 sender_example_ready receiver_example_ready)
    as (c1 & e1 & c2 & e2 & ds & Hsend & Hflush & Htrace & Hall); [by vm_compute|].
  destruct (Hall (rev ds ++ ds)) as (x' & e' & r' & r'' & Hrun & Hx & Ht & Hrecv & _).
  { intros d. rewrite elem_of_app, !list_elem_of_In, <- in_rev. tauto. }
  exists ds, x', e', r', r''. split; [|done].
  vm_compute in Hsend. injection Hsend as <- <-. vm_compute in Hflush. injection Hflush as <- <-.
  apply (f_equal length) in Htrace. unfold datagrams in Htrace. rewrite length_app, length_map in Htrace. symmetry in Htrace.
  exact Htrace.
Defined.
