(* ===== verification/Acknowledge.v ===== *)
(** * Acknowledge: the answer to a message

    The way back: the periodic send of a receiver turns the acknowledgements it
    owes into datagrams, and whichever of these reaches the sender empties its send
    buffer ([message_acknowledged]).  A segment that is sent again once its
    acknowledgement was lost is not acknowledged again ([retransmission_unanswered]). *)

From stdpp Require Import gmap.
From S2P Require Import Prelude RbTree Bytes Bitmap Xxhash Config Wire Types World Net Bbr Snd Recv Delivery Flush FlushSpec FlushPack Mtu Context ContextSpec Input InputSpec Events Api ApiSpec Exchange Transfer.

(** ** Acknowledgements on the wire *)

Definition ack_image (c : kcp_connection) (ts : Z) (k : kcp_ack) : bytes := header_image (ack_header_of c ts k) 0.

Definition ack_ok (k : kcp_ack) : Prop := is_u64 (ack_ts k) /\ is_u32 (ack_sn k).

Section Acks.
Context (c0 : kcp_connection) (ts : Z).
Context (Hids : is_u16 (scid c0) /\ is_u16 (dcid c0) /\ is_u32 (rcv_nxt c0) /\ is_u64 ts).
Notation image := (ack_image c0 ts).
Notation header := (ack_header_of c0 ts).

Lemma ack_header_ok k : ack_ok k -> header_ok (header k).
Proof.
  intros [Ht Hs]. destruct Hids as (H1 & H2 & H3 & H4). unfold header_ok, ack_header_of. cbn.
  pose proof (u16_range (kcp_wnd_unused c0)). unfold KCP_CMD_ACK. split_and!; try done; lia.
Qed.

Lemma ack_image_length k : length (image k) = 32%nat.
Proof. unfold ack_image. by rewrite length_header_image. Qed.

Lemma ack_image_command k : nth 4 (image k) 0 = KCP_CMD_ACK.
Proof.
  unfold ack_image, header_image. rewrite app_assoc, app_nth2; rewrite length_app, !length_le_split; [|lia]. done.
Qed.

Lemma parse_ack k rest :
  ack_ok k -> Zlength (image k ++ rest) <= ETHERNET_MTU -> kcp_proto_parse (image k ++ rest) = OK (header k) rest.
Proof.
  intros Hk Hl. unfold ack_image in *. rewrite parse_image; [done|by apply ack_header_ok|].
  rewrite Zlength_app in Hl. change (header_size (header k)) with KCP_HEADER_SIZE.
  pose proof (Zlength_nonneg (header_image (header k) 0)). unfold ETHERNET_MTU, KCP_HEADER_SIZE in *. lia.
Qed.

(** The header buffer, clean or left by another acknowledgement. *)
Definition ack_buffer (hb : bytes) : Prop := length hb = 32%nat /\ (nth 4 hb 0 = 0 \/ nth 4 hb 0 = KCP_CMD_ACK).

Lemma encode_ack k hb :
  ack_ok k -> ack_buffer hb -> kcp_proto_header_encode (header k) hb = Some (KCP_HEADER_SIZE, image k).
Proof.
  intros Hk [Hl Hc]. rewrite <- (app_nil_r hb), encode_image; [|by apply ack_header_ok|by unfold Zlength; rewrite Hl].
  change (Z.land (h_opt (header k)) KCP_CMD_OPT =? 0) with true. cbn [negb]. rewrite app_nil_r.
  unfold ack_image, header_image. by destruct Hc as [-> | ->].
Qed.

Lemma drop_tail c n :
  let c1 := c <| ack_item ::= tail |> in
  c1 <| ack_item := drop n (ack_item c1) |> = c <| ack_item := drop (S n) (ack_item c) |>.
Proof.
  cbv zeta. change (c <| ack_item := drop n (tail (ack_item c)) |> = c <| ack_item := drop (S n) (ack_item c) |>).
  assert (drop n (tail (ack_item c)) = drop (S n) (ack_item c)) as -> by (destruct (ack_item c); [apply drop_nil|done]). done.
Qed.

Lemma append_ack k hb cur c e :
  ack_ok k -> ack_buffer hb -> Zlength (datagram_of image cur) + KCP_HEADER_SIZE <= ETHERNET_MTU ->
  Zlength (datagram_of image (cur ++ [k])) = Zlength (datagram_of image cur) + KCP_HEADER_SIZE /\
  append_header (header k) hb (datagram_of image cur) (c, e) = Some ((image k, datagram_of image (cur ++ [k])), (c, e)).
Proof.
  intros Hk Hhb Hc. assert (datagram_of image cur ++ image k = datagram_of image (cur ++ [k])) as Hnext.
  { unfold datagram_of. rewrite map_app, concat_app. cbn. by rewrite app_nil_r. }
  split; [rewrite <- Hnext, Zlength_app; unfold Zlength at 2; by rewrite ack_image_length|].
  unfold append_header. rewrite encode_ack by done. run. cbn [deref]. rewrite <- Hnext.
  by destruct (Z.ltb_spec ETHERNET_MTU (Zlength (datagram_of image cur) + KCP_HEADER_SIZE)); [lia|].
Qed.

(** The batch: full buffers go out, what is left is in the last one. *)
Lemma flush_acks_run items hb cur c e :
  Forall ack_ok items -> ack_buffer hb -> accepting e -> KCP_HEADER_SIZE <= mtu c <= ETHERNET_MTU ->
  Zlength (datagram_of image cur) + KCP_HEADER_SIZE <= mtu c ->
  exists hb' groups left e',
    flush_acks items c0 ts hb (datagram_of image cur) (c, e) =
      Some ((hb', datagram_of image left), (c <| ack_item := drop (length items) (ack_item c) |>, e')) /\
    sent_to (remote_host c) (map (datagram_of image) groups) e e' /\
    Forall (fun g => g <> [] /\ Zlength (datagram_of image g) <= mtu c) groups /\
    Zlength (datagram_of image left) <= mtu c /\ List.concat groups ++ left = cur ++ items.
Proof.
  intros Hall. revert hb cur c e. induction Hall as [|k items Hk Hall IH]; intros hb cur c e Hhb He Hm Hc; cbn [flush_acks].
  { exists hb, [], cur, e. split_and!; [by destruct c|apply sent_nil|done|unfold KCP_HEADER_SIZE in Hc; lia|by rewrite app_nil_r]. }
  assert (ack_buffer (image k)) as Hb by (split; [apply ack_image_length|right; apply ack_image_command]).
  destruct (append_ack k hb cur c e Hk Hhb) as [Hlen Happ]; [lia|].
  rewrite (bind_eq _ _ _ _ _ Happ). cbn [fst snd]. set (c1 := c <| ack_item ::= tail |>).
  rewrite (bind_eq _ _ _ tt (c1, e)) by done.
  pose proof (drop_tail c (length items)) as Hdrop. cbv zeta in Hdrop. fold c1 in Hdrop.
  unfold send_if_full at 1. rewrite bind_assoc, (bind_eq _ _ _ c1 (c1, e)) by done. change (mtu c1) with (mtu c).
  destruct (Z.ltb_spec (mtu c) (Zlength (datagram_of image (cur ++ [k])) + KCP_HEADER_SIZE)) as [Hfull|Hfit].
  - destruct (raw_accepting (remote_host c) (datagram_of image (cur ++ [k])) c1 e He) as (e1 & Hs & Ht).
    { intros E. rewrite E in Hlen. pose proof (Zlength_nonneg (datagram_of image cur)). change (Zlength (@nil Z)) with 0 in Hlen.
      unfold KCP_HEADER_SIZE in *. lia. }
    assert ((kcp_send_packet c1 [datagram_of image (cur ++ [k])];; mret []) (c1, e) = Some (@nil Z, (c1, e1))) as Hsend.
    { unfold kcp_send_packet, kcp_send_packet_raw. change (remote_host c1) with (remote_host c). by rewrite (bind_eq _ _ _ _ _ Hs). }
    rewrite (bind_eq _ _ _ _ _ Hsend). change (@nil Z) with (datagram_of image (@nil kcp_ack)).
    destruct (IH (image k) [] c1 e1 Hb) as (hb' & groups & left & e' & Hr & Hs' & Hg & Hl & Hcat);
      [by eapply sent_accepting|done|change (KCP_HEADER_SIZE <= mtu c); lia|].
    exists hb', ((cur ++ [k]) :: groups), left, e'. split_and!; [by rewrite Hr, Hdrop| | |done|].
    + exact (sent_trans _ [_] _ _ _ _ Ht Hs').
    + constructor; [split; [by destruct cur|lia]|done].
    + cbn [List.concat]. rewrite <- app_assoc, Hcat. by rewrite <- app_assoc.
  - rewrite (bind_eq _ _ _ (datagram_of image (cur ++ [k])) (c1, e)) by done.
    destruct (IH (image k) (cur ++ [k]) c1 e Hb He Hm Hfit) as (hb' & groups & left & e' & Hr & Hs & Hg & Hl & Hcat).
    exists hb', groups, left, e'. split_and!; [by rewrite Hr, Hdrop|done|done|done|by rewrite Hcat, <- app_assoc].
Qed.
End Acks.

(** ** A flush with nothing but acknowledgements to send *)

(** What the loop over the data leaves when there is none. *)
Definition flushed (c : kcp_connection) (b : bbr_state) (w i t : Z) : kcp_connection :=
  c <| bbr := b |> <| cwnd := w |> <| incr := i |> <| ts_flush := t |>.

Lemma refill_flushed c ts : exists b, refill_credit c ts = c <| bbr := b |>.
Proof. exists (bbr (refill_credit c ts)). unfold refill_credit. repeat case_match; destruct c; reflexivity. Qed.

Lemma flush_data_idle ts c e :
  snd_buf c = [] -> snd_queue c = [] ->
  exists b w i, flush_data ts (c, e) = Some (Next tt, (flushed c b w i (u64 (ts / 1000 + interval c)), e)).
Proof.
  intros Hb Hq. unfold flush_data. run. rewrite Hq. cbn [fill_snd_buf].
  destruct (refill_flushed c ts) as [b Hr].
  rewrite Hr. change (snd_buf (c <| bbr := b |>)) with (snd_buf c). rewrite Hb. cbn [flush_segments].
  unfold flow_bind. run. unfold flush_rest. cbn [need_flush packet_lost]. run.
  exists b. destruct (cwnd (c <| bbr := b |>) <? KCP_BBR_MIN_CWND_PKTS).
  - eexists _, _. reflexivity.
  - exists (cwnd c), (incr c). reflexivity.
Qed.

(** A connection that has only acknowledgements to send at [ts]. *)
Record answering_only (ts : Z) (c : kcp_connection) : Prop := {
  ao_state : state c = KCP_STATE_CONNECTED;
  ao_due : ts_flush c <= ts / 1000;
  ao_mtu : KCP_HEADER_SIZE <= mtu c <= ETHERNET_MTU;
  ao_ids : is_u16 (scid c) /\ is_u16 (dcid c) /\ is_u32 (rcv_nxt c) /\ is_u64 ts;
  ao_acks : Forall ack_ok (ack_item c);
  ao_quiet : control_quiet ts c;
  ao_nothing : snd_buf c = [] /\ snd_queue c = [];
}.

(** The last batch, if there is one. *)
Lemma send_left c0 ts left m c e :
  accepting e -> Zlength (datagram_of (ack_image c0 ts) left) <= m ->
  exists rest e2,
    ((match datagram_of (ack_image c0 ts) left with [] => mret tt | buffer => kcp_send_packet c [buffer];; mret tt end);;
     mret 0) (c, e) = Some (0, (c, e2)) /\
    sent_to (remote_host c) (map (datagram_of (ack_image c0 ts)) rest) e e2 /\
    Forall (fun g => g <> [] /\ Zlength (datagram_of (ack_image c0 ts) g) <= m) rest /\ List.concat rest = left.
Proof.
  intros He Hl. destruct left as [|k left]; [exists [], e; split_and!; [done|apply sent_nil|done|done]|].
  exists [k :: left]. set (d := datagram_of (ack_image c0 ts) (k :: left)) in *.
  assert (d <> []) as Hd.
  { unfold d, datagram_of. cbn. intros [E _]%app_nil. apply (f_equal length) in E. by rewrite ack_image_length in E. }
  destruct (raw_accepting (remote_host c) d c e He Hd) as (e2 & Hr & Hs). exists e2. split_and!; [|exact Hs|by repeat constructor|cbn; by rewrite app_nil_r].
  destruct d as [|z zs]; [done|]. unfold kcp_send_packet, kcp_send_packet_raw.
  by rewrite bind_assoc, (bind_eq _ _ _ _ _ Hr).
Qed.

Lemma flush_acks_only ts c e :
  answering_only ts c -> accepting e ->
  exists groups b w i t e',
    flush ts (c, e) = Some (None, (flushed (control_done (c <| ack_item := [] |>)) b w i t, e')) /\
    sent_to (remote_host c) (map (datagram_of (ack_image c ts)) groups) e e' /\
    Forall (fun g => g <> [] /\ Zlength (datagram_of (ack_image c ts) g) <= mtu c) groups /\
    List.concat groups = ack_item c.
Proof.
  intros [Hst Hdue Hm Hids Hacks Hq [Hb Hsq]] He. unfold flush. run. rewrite Hst, bool_decide_true by done. cbn [negb].
  destruct (Z.ltb_spec (ts / 1000) (ts_flush c)); [lia|].
  destruct (flush_acks_run c ts Hids (ack_item c) (replicate 32 0) [] c e Hacks) as (hb & groups & tl & e1 & Hr & Hs & Hg & Hl & Hcat);
    [by split; [|left]|done|done|change (Zlength (datagram_of (ack_image c ts) [])) with 0; lia|].
  change (datagram_of (ack_image c ts) []) with (@nil Z) in Hr. rewrite drop_all in Hr. set (c1 := c <| ack_item := [] |>) in *.
  rewrite (flush_control_quiet ts c e c1 e1 _ Hr) by (by destruct Hq).
  destruct (send_left c ts tl (mtu c) (control_done c1) e1) as (rest & e2 & Hr2 & Hs2 & Hg2 & Hcat2);
    [by eapply sent_accepting|exact Hl|]. cbn [snd].
  destruct (flush_data_idle ts (control_done c1) e2 Hb Hsq) as (b & w & i & Hdata).
  rewrite Hr2. change (0 =? 0) with true. cbn [negb]. rewrite Hdata.
  eexists (groups ++ rest), b, w, i, _, e2. split_and!; [done| | |].
  - rewrite map_app. by eapply sent_trans.
  - by apply Forall_app.
  - rewrite concat_app, Hcat2. exact Hcat.
Qed.

(** ** The sender hears *)

(** Everything in flight is covered by the acknowledgement: it empties the send
    buffer, unless that was empty. *)
Lemma ack_clears c e h t pts ats sn una :
  snd_ok c -> is_u64 (tx_bytes c) -> mss c <> 0 -> state c <> KCP_STATE_DISCONNECTED ->
  h_data h = ack_data pts ats sn una -> una = snd_nxt c -> snd_buf c = [] \/ snd_una c <= sn <= snd_nxt c ->
  exists c' l, on_kcp_ack_pcaket h t (c, e) = Some (NO_ERROR, (c', with_flaws l e)) /\
    snd_ok c' /\ is_u64 (tx_bytes c') /\ snd_buf c' = [] /\
    (snd_nxt c', snd_queue c', mss c', mtu c') = (snd_nxt c, snd_queue c, mss c, mtu c).
Proof.
  intros Hok Htx Hm Hst Hd Hu Hsn.
  destruct (ack_run c e h pts ats sn una t Hok Htx Hm Hst Hd) as (c' & Hr & Hok' & Hn & Hq & _ & Hmm & Hres).
  eexists c', _. split; [exact Hr|]. split; [done|].
  assert (is_u64 (tx_bytes c') /\ snd_buf c' = []) as [Ht Hb].
  { destruct ((snd_una c <=? sn) && (sn <=? snd_nxt c)) eqn:E.
    - destruct Hres as [-> ->]. split; [apply u64_range|].
      assert (List.filter (fun p => negb (is_acked sn una p)) (snd_buf c) = []) as ->; [|done].
      pose proof (ok_buf_nxt _ Hok) as Hf. rewrite <- Hu in Hf. clear -Hf.
      induction Hf as [|p l Hp _ IH]; [done|]. cbn [List.filter]. unfold is_acked at 1.
      destruct (Z.ltb_spec (sg_sn p) una); [|lia]. by rewrite orb_true_r.
    - rewrite Hres. split; [exact Htx|]. destruct Hsn as [Hb|[H1 H2]]; [exact Hb|].
      apply andb_false_iff in E as [E|E]; apply Z.leb_gt in E; lia. }
  split; [exact Ht|]. split; [exact Hb|]. injection Hmm as -> ->. by rewrite Hn, Hq.
Qed.

Section Hearing.
Context (cb : sockaddr -> io kcp_context bool) (b : Z) (from : sockaddr) (peer own : Z).
(** The sender [c] in flight from [lo], and the acknowledging side [r]. *)
Context (x0 : kcp_context) (c : kcp_connection) (t0 : list event) (r : kcp_connection) (ts : Z).
Context (Hids : is_u16 (scid r) /\ is_u16 (dcid r) /\ is_u32 (rcv_nxt r) /\ is_u64 ts).
Context (Hr : scid r = peer /\ dcid r = own /\ rcv_nxt r = snd_nxt c).

Definition in_flight (k : kcp_ack) : Prop := ack_ok k /\ snd_una c <= ack_sn k <= snd_nxt c.

(** The sender's context once the acknowledgements [l] were heard. *)
Definition heard (l : list kcp_ack) (x : kcp_context) (e : env) : Prop :=
  exists c', x = x0 <| heap ::= <[b := c']> |> /\ live b from peer own x c' /\ memory_available e /\ e_trace e = t0 /\
    snd_ok c' /\ is_u64 (tx_bytes c') /\ mss c' <> 0 /\
    (snd_nxt c', snd_queue c', mss c', mtu c') = (snd_nxt c, snd_queue c, mss c, mtu c) /\
    match l with [] => snd_una c' = snd_una c | _ => snd_buf c' = [] end.

Lemma handle_ack l k x e :
  in_flight k -> heard l x e ->
  wp (handle_packet cb (ack_header_of r ts k) from) (fun f s' => f = Continue /\ heard (l ++ [k]) s'.1 s'.2) (x, e).
Proof.
  intros [Hk Hsn] (c' & Hx & Hl & Hm & Ht & Hok & Htx & Hmss & Heq & Hres). destruct Hr as (R1 & R2 & R3).
  eapply wp_connected_packet; [exact Hl|exact R1|exact R2|done..|].
  unfold kcp_input_pcaket. wp_step. apply wp_clock_us; [done|]. intros t e1 _ [He1 _] Hm1.
  change (h_cmd (ack_header_of r ts k) =? KCP_CMD_ACK) with true. cbn match. wp_step. wp_step.
  set (c1 := c' <| rmt_wnd := _ |>). injection Heq as E1 E2 E3 E4.
  destruct (ack_clears c1 e1 (ack_header_of r ts k) t (ack_ts k) ts (ack_sn k) (rcv_nxt r))
    as (c2 & fl & Hrun & Hok2 & Htx2 & Hb2 & Heq2).
  { by apply (snd_ok_view c'). }
  { exact Htx. }
  { exact Hmss. }
  { change (state c' <> KCP_STATE_DISCONNECTED). by rewrite (live_state _ _ _ _ _ _ _ Hl). }
  { done. }
  { change (rcv_nxt r = snd_nxt c'). congruence. }
  { change (snd_buf c' = [] \/ snd_una c' <= ack_sn k <= snd_nxt c'). destruct l; [right; lia|by left]. }
  eapply wp_run; [exact Hrun|]. cbn [fst snd]. assert (role c2 = role c') as Hrole by exact (steady_ack _ _ _ _ _ Hrun).
  split; [done|]. split; [done|]. exists c2. injection Heq2 as F1 F2 F3 F4.
  change (snd_nxt c1) with (snd_nxt c') in F1. change (snd_queue c1) with (snd_queue c') in F2.
  change (mss c1) with (mss c') in F3. change (mtu c1) with (mtu c') in F4.
  split; [by rewrite Hx, heap_set_twice|]. split; [by eapply live_update|]. split; [exact Hm1|]. split; [exact (eq_trans He1 Ht)|].
  split; [done|]. split; [exact Htx2|]. split; [congruence|]. split; [congruence|].
  destruct (l ++ [k]) eqn:E; [by apply app_eq_nil in E as [_ E]|exact Hb2].
Qed.

(** Acknowledgements arrive in datagrams. *)
Lemma receive_acks gs x e :
  Forall (fun g => g <> [] /\ Forall in_flight g /\ Zlength (datagram_of (ack_image r ts) g) <= ETHERNET_MTU) gs ->
  heard [] x e ->
  wp (receive cb from (map (datagram_of (ack_image r ts)) gs)) (fun _ s' => heard (List.concat gs) s'.1 s'.2) (x, e).
Proof.
  intros Hall Hh. apply (receive_datagrams (ack_image r ts) (ack_header_of r ts) in_flight cb from heard) with (l := []); try done.
  - intros k rest [Hk _]. by apply parse_ack.
  - intros. by apply handle_ack.
Qed.
End Hearing.

(** ** There and back *)

(** The receiver has nothing of its own to send. *)
Record receiver_idle (r : kcp_connection) : Prop := {
  ri_nothing : snd_buf r = [] /\ snd_queue r = [];
  ri_no_acks : ack_item r = [];
  ri_no_probe : probe r = 0 /\ ping_request_queue (ping r) = [];
  ri_mtu : KCP_HEADER_SIZE <= mtu r <= ETHERNET_MTU;
}.

(** What the timers and the window of [r] must allow at [ts] for the flush to send
    the acknowledgements and nothing else. *)
Record answers_at (ts : Z) (r : kcp_connection) : Prop := {
  an_due : ts_flush r <= ts / 1000;
  an_ping : ts <= keepalive_next_ts (ping r);
  an_window : rmt_wnd r <> 0;
  an_ts : is_u64 ts;
}.

(** The message has arrived and the acknowledgements are owed. *)
Record answer_owed (c : kcp_connection) (n : Z) (r : kcp_connection) : Prop := {
  ow_ids : scid r = dcid c /\ dcid r = scid c /\ state r = KCP_STATE_CONNECTED;
  ow_nxt : rcv_nxt r = snd_nxt c + n;
  ow_idle : snd_buf r = [] /\ snd_queue r = [] /\ probe r = 0 /\ ping_request_queue (ping r) = [] /\
            KCP_HEADER_SIZE <= mtu r <= ETHERNET_MTU;
  ow_acks : ack_item r <> [] /\ Forall (fun k => snd_nxt c <= ack_sn k < snd_nxt c + n /\ is_u64 (ack_ts k)) (ack_item r);
}.

Lemma arrival_owes c segs a src r r' x' e e' :
  live a src (scid c) (dcid c) x' r' -> receiver_idle r -> rcv_nxt r = snd_nxt c -> stream_ok (snd_nxt c) (psn_nxt c) [segs] ->
  0 < Zlength segs -> owes (snd_nxt c) (snd_nxt c + Zlength segs) r r' ->
  delivered (snd_nxt c) (psn_nxt c) [segs] 0 segs (k_self r) (read_event_cb r) [] (e_trace e) r' e' ->
  answer_owed c (Zlength segs) r'.
Proof.
  intros Hl [[Hb Hq] Ha [Hp Hping] Hm] Hnxt Hso Hn [Hown (new & Hacks & Hf & Hnew)] [Hi _].
  destruct Hl as [_ _ _ [H1 H2] _ Hst]. rewrite Ha in Hacks. cbn [app] in Hacks.
  assert (rcv_nxt r' = snd_nxt c + Zlength segs) as Hnxt'.
  { pose proof (ri_low _ _ _ _ _ Hi) as Hlow. cbn [length] in Hlow.
    rewrite (first_sn_S (snd_nxt c) [segs] 0 segs eq_refl), first_sn_0 in Hlow. lia. }
  unfold own_sending, snd_view in Hown. injection Hown as O1 O2 O3 O4 O5 O6 O7 O8 O9 O10 O11 O12 O13 _.
  constructor; [done|done|split_and!; congruence || lia|]. rewrite Hacks. split; [|exact Hf].
  intros Hnil. specialize (Hnew Hnil). lia.
Qed.

Definition ids_u16 (c : kcp_connection) : Prop := is_u16 (scid c) /\ is_u16 (dcid c).

(** The periodic send puts them on the wire. *)
Lemma owed_flush c n r ts e :
  answer_owed c n r -> ids_u16 c -> 0 <= n -> 0 <= snd_nxt c -> snd_nxt c + n < 4294967296 -> answers_at ts r -> accepting e ->
  exists r2 e2 groups,
    flush ts (r, e) = Some (None, (r2, e2)) /\ ack_item r2 = [] /\ recv_view r2 = recv_view r /\
    e_trace e2 = e_trace e ++ datagrams (remote_host r) (map (datagram_of (ack_image r ts)) groups) /\ groups <> [] /\
    Forall (fun g => g <> [] /\ Forall (fun k => ack_ok k /\ snd_nxt c <= ack_sn k <= snd_nxt c + n) g /\
      Zlength (datagram_of (ack_image r ts) g) <= ETHERNET_MTU) groups.
Proof.
  intros [(I1 & I2 & Hst) Hnxt (Hb & Hq & Hp & Hping & Hm) [Hne Hf]] [U1 U2] Hn0 H0 Hroom [Hdue Hka Hw Hts] He.
  assert (Forall (fun k => ack_ok k /\ snd_nxt c <= ack_sn k <= snd_nxt c + n) (ack_item r)) as Hacks.
  { eapply Forall_impl; [exact Hf|]. intros k [Hk Ht]. split; [split; [done|lia]|lia]. }
  destruct (flush_acks_only ts r e) as (groups & b & w & i & t & e2 & Hrun & Hs & Hg & Hcat); [|done|].
  { constructor; try done.
    - rewrite I1, I2, Hnxt. split; [exact U2|]. split; [exact U1|]. split; [lia|exact Hts].
    - eapply Forall_impl; [exact Hacks|]. by intros k []. }
  eexists _, e2, groups. split; [exact Hrun|]. split; [done|]. split; [done|]. split; [by rewrite Hs|].
  split; [intros ->; by destruct Hne|]. rewrite Forall_forall in Hacks. rewrite <- Hcat in Hacks.
  rewrite Forall_forall in Hg. apply Forall_forall. intros g Hin. destruct (Hg g Hin) as [Hne' Hl].
  split_and!; [done| |lia]. apply Forall_forall. intros k Hk. apply Hacks.
  apply list_elem_of_In, List.in_concat. exists g. by split; apply list_elem_of_In.
Qed.

(** One of them is enough for the sender. *)
Lemma answer_heard cb b from xs c e c2 e2 data sent r ts groups got es :
  sent_out data c e c2 e2 sent -> live b from (dcid c) (scid c) xs c -> is_u64 (tx_bytes c) -> 0 < mss c ->
  ids_u16 c -> is_u64 ts -> answer_owed c (Zlength (List.concat sent)) r ->
  Forall (fun g => g <> [] /\ Forall (fun k => ack_ok k /\ snd_nxt c <= ack_sn k <= snd_nxt c + Zlength (List.concat sent)) g /\
    Zlength (datagram_of (ack_image r ts) g) <= ETHERNET_MTU) groups ->
  got <> [] -> (forall d, d ∈ got -> d ∈ map (datagram_of (ack_image r ts)) groups) -> memory_available es ->
  exists xs' es' c3,
    receive cb from got (xs <| heap ::= <[b := c2]> |>, es) = Some (tt, (xs', es')) /\ heap xs' !! b = Some c3 /\
    snd_buf c3 = [] /\ snd_queue c3 = [] /\ snd_una c3 = snd_nxt c2 /\ snd_nxt c3 = snd_nxt c2 /\
    flush_ready c3 es' /\ e_trace es' = e_trace es.
Proof.
  intros [_ _ _ (Hb2 & _ & Hq2) [Hu2 Hn2] Hrd (Hrole & Hmss) [= _ _ _ _ Htx2 _ _ _ _] _ _] Hl Htx Hm [U1 U2] Hts Hr Hg Hne Hsub Hmem.
  set (n := Zlength (List.concat sent)) in *.
  assert (exists gs, got = map (datagram_of (ack_image r ts)) gs /\ forall g, g ∈ gs -> g ∈ groups) as (gs & -> & Hgs).
  { clear Hne. induction got as [|d got IH]; [exists []; split; [done|by intros g ?%elem_of_nil]|].
    destruct IH as (gs & -> & Hgs); [intros; apply Hsub; by constructor|].
    assert (d ∈ d :: map (datagram_of (ack_image r ts)) gs) as (g & -> & Hin)%Hsub%list_elem_of_fmap by constructor.
    exists (g :: gs). split; [done|]. by intros g' [->|?]%elem_of_cons; auto. }
  pose proof (ready_ok _ _ Hrd) as Hok. pose proof (ow_nxt _ _ _ Hr) as Hrn. pose proof (ow_ids _ _ _ Hr) as (R1 & R2 & _).
  assert (Forall (fun g => g <> [] /\ Forall (in_flight c2) g /\
    Zlength (datagram_of (ack_image r ts) g) <= ETHERNET_MTU) gs) as Hgs'.
  { apply Forall_forall. intros g Hin. rewrite Forall_forall in Hg. destruct (Hg g (Hgs g Hin)) as (Hg1 & Hg2 & Hg3).
    split_and!; [done| |done]. eapply Forall_impl; [exact Hg2|]. intros k [Hk ?]. unfold in_flight. split; [done|lia]. }
  assert (is_u32 (snd_nxt c2)) as [N1 N2] by (apply (ok_snd_nxt _ Hok)).
  set (x1 := xs <| heap ::= <[b := c2]> |>).
  assert (heard b from (dcid c) (scid c) xs c2 (e_trace es) [] x1 es) as Hheard.
  { exists c2. split; [done|]. split; [by eapply live_update|]. split; [done|]. split; [done|]. split; [done|].
    split; [by rewrite Htx2|]. split; [lia|]. by split. }
  assert (is_u16 (scid r) /\ is_u16 (dcid r) /\ is_u32 (rcv_nxt r) /\ is_u64 ts) as Hids.
  { rewrite R1, R2, Hrn, <- Hn2. done. }
  destruct (wp_elim _ _ _ (receive_acks cb b from (dcid c) (scid c) xs c2 (e_trace es) r ts Hids ltac:(split_and!; congruence) gs x1 es Hgs' Hheard))
    as ([] & [xs' es'] & Hrun & c3 & Hx & Hl3 & Hm3 & Ht3 & Hok3 & _ & _ & Heq & Hb3).
  cbn [fst snd] in *. injection Heq as E1 E2 E3 E4. exists xs', es', c3.
  assert (snd_buf c3 = []) as Hb3'.
  { destruct gs as [|g gs]; [done|]. apply Forall_cons in Hgs' as [(Hg1 & _) _]. cbn [List.concat] in Hb3.
    by destruct g. }
  pose proof (ok_buf_una _ Hok3) as Hu3. rewrite Hb3' in Hu3.
  split_and!; [exact Hrun|by apply (live_heap _ _ _ _ _ _ _ Hl3)|done|congruence|congruence|done| |done].
  destruct Hrd as [M1 M2 _ M4 _]. constructor; [by rewrite E4|by rewrite Hb3', E2, Hq2|done|by rewrite E1, E2|done].
Qed.

(** C2: A message is acknowledged: when its datagrams have
    arrived, in any order and any number of times, the next periodic send of the
    receiver (nothing of its own to send, its timer due, no heartbeat due) puts the
    acknowledgements on the wire, at least one datagram of them, and owes nothing
    more; let any of these datagrams reach the sender's context, one is enough, in
    any order and any number of times: each is parsed and handled without fault, the
    send buffer is empty, [snd_una] is [snd_nxt], the user is told nothing, and the
    sender can be flushed again. *)
Theorem message_acknowledged (cb cb' : sockaddr -> io kcp_context bool) (data : bytes) (ts : Z) (c : kcp_connection) (e : env)
    (a : Z) (src : sockaddr) (x : kcp_context) (er : env) (r : kcp_connection)
    (b : Z) (from : sockaddr) (xs : kcp_context) :
  sender_ready data ts c e -> receiver_ready data c a src x er r -> receiver_idle r ->
  live b from (dcid c) (scid c) xs c -> is_u64 (tx_bytes c) ->
  exists c1 e1 c2 e2 ds,
    kcp_send true data (c, e) = Some (NO_ERROR, (c1, e1)) /\
    flush ts (c1, e1) = Some (None, (c2, e2)) /\
    e_trace e2 = e_trace e ++ datagrams (remote_host c) ds /\
    forall arrivals, (forall d, d ∈ arrivals <-> d ∈ ds) ->
    exists x' er' r',
      receive cb src arrivals (x, er) = Some (tt, (x', er')) /\ heap x' !! a = Some r' /\
      forall ts' ef, answers_at ts' r' -> accepting ef ->
      exists r2 ef' acks,
        flush ts' (r', ef) = Some (None, (r2, ef')) /\ ack_item r2 = [] /\
        e_trace ef' = e_trace ef ++ datagrams (remote_host r') acks /\ acks <> [] /\
        forall got es, got <> [] -> (forall d, d ∈ got -> d ∈ acks) -> memory_available es ->
        exists xs' es' c3,
          receive cb' from got (xs <| heap ::= <[b := c2]> |>, es) = Some (tt, (xs', es')) /\ heap xs' !! b = Some c3 /\
          snd_buf c3 = [] /\ snd_queue c3 = [] /\ snd_una c3 = snd_nxt c2 /\ snd_nxt c3 = snd_nxt c2 /\
          flush_ready c3 es' /\ e_trace es' = e_trace es.
Proof.
  intros Hs Hr Hidle Hlb Htx.
  destruct (send_message data ts c e Hs) as (c1 & e1 & c2 & e2 & groups & Hsend & Hflush & Hout).
  exists c1, e1, c2, e2, (map wire_image groups). split_and!; [done|done|apply Hout|]. intros arrivals Harr.
  pose proof Hs as [_ _ _ _ Hsz Hdata _ _ _ _ _ (I1 & I2 & _) _ Hroom]. pose proof Hout as [_ Hms Hg _ _ _ _].
  destruct (fragment_count (Zlength data) (mss c)) as [Hn1 Hn2]; [lia..|].
  rewrite <- (ms_count _ _ _ Hms) in Hn1, Hn2.
  assert (0 < Zlength (List.concat groups) <= KCP_PACKET_SIZE) as Hn by (unfold KCP_PACKET_SIZE in *; nia).
  destruct (message_received cb data c a src x er r groups arrivals Hr Hms Hn Hg Harr)
    as (x' & er' & r' & Hrun & Hx' & Hl' & _ & Hdel & Howes).
  assert (rcv_nxt r = snd_nxt c) as Hnxt by (destruct (rr_init _ _ _ _ _ _ _ Hr); congruence).
  assert (answer_owed c (Zlength (List.concat groups)) r') as Howed.
  { eapply arrival_owes; try done; [apply (ms_stream _ _ _ Hms)|lia]. }
  exists x', er', r'. split_and!; [done|apply (live_heap _ _ _ _ _ _ _ Hl')|]. intros ts' ef Hat Hef.
  pose proof (so_sn _ _ _ (ms_stream _ _ _ Hms)) as [H0 _].
  assert (ids_u16 c) as Hids by (split; assumption).
  assert (snd_nxt c + Zlength (List.concat groups) < 4294967296) as Hbound by (unfold KCP_PACKET_SIZE in *; lia).
  destruct (owed_flush c (Zlength (List.concat groups)) r' ts' ef Howed Hids ltac:(lia) H0 Hbound Hat Hef)
    as (r2 & ef' & gs & Hf2 & Ha2 & _ & Ht2 & Hne & Hgs).
  exists r2, ef', (map (datagram_of (ack_image r' ts')) gs). split_and!; [done|done|done|by destruct gs|].
  intros got es Hgot Hsub Hmem.
  eapply (answer_heard cb' b from xs c e c2 e2 data groups r' ts' gs got es); try done; [lia|apply Hat].
Qed.

(** ** A lost acknowledgement *)

(** A segment that was received already is dropped before anything is owed. *)
Lemma push_stale r e h t ts sn psn una len data :
  h_data h = packet_data ts sn psn una len data -> sn < rcv_nxt r -> 0 <= rcv_wnd r -> is_u32 (rcv_nxt r + rcv_wnd r) ->
  on_kcp_push_pcaket h t (r, e) = Some (NO_ERROR, (pinged t r, e)).
Proof.
  intros Hd Hsn Hw Hroom. unfold on_kcp_push_pcaket. run. rewrite Hd. fold (pinged t r).
  change (rcv_nxt (pinged t r)) with (rcv_nxt r). change (rcv_wnd (pinged t r)) with (rcv_wnd r).
  rewrite u32_small by lia. destruct (Z.leb_spec (rcv_nxt r + rcv_wnd r) sn); [lia|].
  by destruct (Z.ltb_spec sn (rcv_nxt r)); [|lia].
Qed.

Section Stale.
Context (cb : sockaddr -> io kcp_context bool) (a : Z) (src : sockaddr) (peer own : Z).
Context (x0 : kcp_context) (r : kcp_connection) (t0 : list event).
Context (Hw : 0 <= rcv_wnd r) (Hroom : is_u32 (rcv_nxt r + rcv_wnd r)).

(** A segment of the peer that [r] has received. *)
Definition stale (s : kcp_segment) : Prop :=
  segment_ok s /\ sg_scid s = peer /\ sg_dcid s = own /\ sg_sn s < rcv_nxt r.

Definition unmoved (c : kcp_connection) := (recv_view c, rcv_wnd c, ack_item c, own_sending c).

Definition ignored (l : list kcp_segment) (x : kcp_context) (e : env) : Prop :=
  exists r', x = x0 <| heap ::= <[a := r']> |> /\ live a src peer own x r' /\ memory_available e /\ e_trace e = t0 /\
    unmoved r' = unmoved r.

Lemma handle_stale l s x e :
  stale s -> ignored l x e ->
  wp (handle_packet cb (segment_header s) src) (fun f s' => f = Continue /\ ignored (l ++ [s]) s'.1 s'.2) (x, e).
Proof.
  intros (Hok & Hs & Hd & Hsn) (r' & -> & Hl & Hm & Ht & Heq). pose proof Heq as [= V1 V2 V3 V4 V5 V6 V7 V8 V9 _].
  eapply handle_push; [exact Hl|exact Hs|exact Hd|exact (proj1 (proj2 (proj2 Hok)))|reflexivity|done|].
  intros r1 t e1 Hr1 _ [He1 _] Hm1. exists NO_ERROR, (pinged t r1), e1.
  assert (rcv_nxt r1 = rcv_nxt r /\ rcv_wnd r1 = rcv_wnd r) as [E1 E2] by (destruct Hr1 as [-> | ->]; done).
  split; [eapply push_stale; [reflexivity|rewrite E1; exact Hsn|by rewrite E2|by rewrite E1, E2]|].
  split; [done|]. exists (pinged t r1). cbn [fst snd]. rewrite heap_set_twice.
  split_and!; [done| |done|congruence|].
  - rewrite <- (heap_set_twice x0 a r' (pinged t r1)). apply (live_update _ _ _ _ _ _ r'); [done|]. by destruct Hr1 as [-> | ->].
  - rewrite <- Heq. by destruct Hr1 as [-> | ->].
Qed.

Lemma receive_stale gs e :
  Forall (well_packed image stale) gs -> live a src peer own x0 r -> memory_available e -> e_trace e = t0 ->
  wp (receive cb src (map wire_image gs)) (fun _ s' => ignored (List.concat gs) s'.1 s'.2) (x0, e).
Proof.
  intros Hall Hl Hm Ht. apply (receive_datagrams image segment_header stale cb src ignored) with (l := []).
  - intros s rest [Hs _]. by apply parse_segment.
  - intros s [Hs _]. split; [by apply image_length|]. destruct Hs as (_ & _ & Hc & _). cbn. by rewrite Hc.
  - done.
  - intros. by apply handle_stale.
  - done.
  - exists r. split_and!; try done. symmetry. apply heap_set_same. apply (live_heap _ _ _ _ _ _ _ Hl).
Qed.
End Stale.

(** C37: A segment that was received is never acknowledged
    again: datagrams of such segments, retransmitted because their acknowledgement
    was lost, are parsed without fault and change nothing of what the receiver has,
    owes or sends; nothing is told to the user, and the next periodic send of a
    receiver with nothing of its own to send puts nothing on the wire. *)
Theorem retransmission_unanswered (cb : sockaddr -> io kcp_context bool) (a : Z) (src : sockaddr) (peer own : Z)
    (x : kcp_context) (e : env) (r : kcp_connection) (gs : list (list kcp_segment)) :
  live a src peer own x r -> receiver_idle r -> memory_available e -> 0 <= rcv_wnd r -> is_u32 (rcv_nxt r + rcv_wnd r) ->
  Forall (well_packed image (stale peer own r)) gs ->
  exists x' e' r',
    receive cb src (map wire_image gs) (x, e) = Some (tt, (x', e')) /\ heap x' !! a = Some r' /\
    e_trace e' = e_trace e /\ ack_item r' = [] /\ recv_view r' = recv_view r /\
    forall ts ef, answers_at ts r' -> exists r2, flush ts (r', ef) = Some (None, (r2, ef)) /\ ack_item r2 = [].
Proof.
  intros Hl [[Hb Hq] Ha [Hp Hping] Hm] Hmem Hw Hroom Hgs.
  destruct (wp_elim _ _ _ (receive_stale cb a src peer own x r (e_trace e) Hw Hroom gs e Hgs Hl Hmem eq_refl))
    as ([] & [x' e'] & Hrun & r' & Hx & Hl' & _ & Ht & Heq).
  cbn [fst snd] in *. exists x', e', r'. unfold unmoved in Heq. injection Heq as V1 V2 V3 V4 V5 V6 V7 V8 _ Hacks O1 O2 O3 O4 O5 O6 O7 O8 O9 O10 O11 O12 O13 _.
  split_and!; [done|apply (live_heap _ _ _ _ _ _ _ Hl')|done|congruence|unfold recv_view; congruence|].
  intros ts ef [Hdue Hka Hwin _].
  destruct (flush_data_idle ts (control_done r') ef) as (b & w & i & Hdata).
  { change (snd_buf r' = []). congruence. }
  { change (snd_queue r' = []). congruence. }
  eexists. split.
  - apply idle_flush; [apply (live_state _ _ _ _ _ _ _ Hl')|done| |exact Hdata]. split; [congruence|].
    constructor; [congruence|done|congruence|done].
  - change (ack_item r' = []). congruence.
Qed.

(** ** At a concrete pair of peers *)

Definition acked_sender : kcp_connection :=
  sender_example <| k_self := 2 |> <| dcid := 30 |> <| remote_host := sin 5000 7 |>.
Definition acked_receiver : kcp_connection := delivery_example <| scid := 30 |> <| mtu := 1430 |> <| ping / keepalive_interval := 5000000 |>.

Definition acked_sender_context : kcp_context := context_example <| heap ::= <[2 := acked_sender]> |>.
Definition acked_receiver_context : kcp_context := context_example <| heap ::= <[1 := acked_receiver]> |>.

Lemma acked_sender_ready : sender_ready [1; 2; 3; 4; 5; 6; 7; 8; 9; 10] 2000000 acked_sender quiet.
Proof.
  assert (snd_ok acked_sender) by (constructor; solve [by vm_compute | by apply SSorted_nil]).
  constructor; try by vm_compute.
  constructor; (done || constructor).
Qed.

Lemma example_live a peer own src c0 c :
  heap context_example !! a = Some c0 -> connection_set_search context_example peer = Some a -> dcid c0 = peer ->
  dcid c = peer -> k_self c = a -> scid c = own ->
  sockaddr_equal (remote_host c) src = true -> state c = KCP_STATE_CONNECTED ->
  live a src peer own (context_example <| heap ::= <[a := c]> |>) c.
Proof.
  intros Hh Hse H0 H1 H2 H3 H4 H5.
  pose proof (ctx_self _ context_example_ok a c0 Hh) as [Hk _].
  destruct (ctx_ok_conn context_example a c0 c context_example_ok Hh ltac:(congruence) ltac:(congruence)) as [Hx Hd].
  constructor; [exact Hx|apply lookup_insert_eq| |by split|done|done].
  apply search_Some; [exact Hx|]. rewrite Hd. by apply (search_Some context_example peer a context_example_ok).
Qed.

(** The message of ten bytes; its datagrams arrive in the wrong order and once more,
    and so does the only acknowledgement datagram. *)
Lemma message_acknowledged_witness :
  exists ds x' er' r' r2 ef' acks xs' es' c3,
    length ds = 2%nat /\
    receive (fun _ => mret true) (sin 4000 9) (rev ds ++ ds) (acked_receiver_context, quiet) = Some (tt, (x', er')) /\
    heap x' !! 1 = Some r' /\ length (ack_item r') = 3%nat /\
    flush 2000000 (r', quiet) = Some (None, (r2, ef')) /\ ack_item r2 = [] /\
    receive (fun _ => mret true) (sin 5000 7) (acks ++ acks)
      (acked_sender_context <| heap ::= <[2 := c3.1]> |>, quiet) = Some (tt, (xs', es')) /\
    heap xs' !! 2 = Some c3.2 /\ length (snd_buf c3.1) = 3%nat /\ snd_buf c3.2 = [] /\ snd_una c3.2 = 13.
Proof.
  destruct (message_acknowledged (fun _ => mret true) (fun _ => mret true) [1; 2; 3; 4; 5; 6; 7; 8; 9; 10] 2000000
    acked_sender quiet 1 (sin 4000 9) acked_receiver_context quiet acked_receiver 2 (sin 5000 7) acked_sender_context)
    as (c1 & e1 & c2 & e2 & ds & Hsend & Hflush & Htrace & Hall).
  { apply acked_sender_ready. }
  { constructor; [apply (example_live 1 20 30 (sin 4000 9) (peer_example 1 9 20 1500)); by vm_compute|by constructor|by vm_compute..|by constructor]. }
  { constructor; by vm_compute. }
  { by apply (example_live 2 30 20 (sin 5000 7) (peer_example 2 11 30 1200)). }
  { by vm_compute. }
  vm_compute in Hsend. injection Hsend as <- <-. vm_compute in Hflush. injection Hflush as <- <-.
  destruct (Hall (rev ds ++ ds)) as (x' & er' & r' & Hrun & Hx & Hans).
  { intros d. rewrite elem_of_app, !list_elem_of_In, <- in_rev. tauto. }
  destruct ds as [|d1 [|d2 [|? ?]]]; vm_compute in Htrace; try discriminate Htrace. injection Htrace as <- <-.
  assert (answers_at 2000000 r' /\ length (ack_item r') = 3%nat) as [Hat Hlen].
  { clear Hans. vm_compute in Hrun. injection Hrun as <- <-. vm_compute in Hx. injection Hx as <-. by split; [constructor; vm_compute|]. }
  destruct (Hans 2000000 quiet Hat) as (r2 & ef' & acks & Hf2 & Ha2 & _ & Hne & Hback); [done|].
  destruct (Hback (acks ++ acks) quiet) as (xs' & es' & c3 & Hrun3 & Hx3 & Hb3 & _ & Hu3 & _).
  { by destruct acks. }
  { intros d [?|?]%elem_of_app; done. }
  { constructor. }
  match type of Hrun with receive _ _ (rev ?l ++ _) _ = _ => exists l end.
  match type of Hrun3 with receive _ _ _ (_ <| heap ::= <[2 := ?c2]> |>, _) = _ =>
    exists x', er', r', r2, ef', acks, xs', es', (c2, c3) end.
  repeat (split; [first [exact Hrun | exact Hx | exact Hlen | exact Hf2 | exact Ha2 | exact Hrun3 | exact Hx3 | exact Hb3 | reflexivity]|]).
  exact Hu3.
Defined.

(** The first fragment of that message, sent again to a receiver that has it all. *)
Definition retransmitted : kcp_segment :=
  (stream_fragment 10 4 0 3 [1; 2; 3; 4]) <| sg_scid := 20 |> <| sg_dcid := 30 |> <| sg_cmd := KCP_CMD_PUSH |> <| sg_xmit := 2 |>.

Definition deaf_receiver : kcp_connection := acked_receiver <| rcv_nxt := 13 |> <| rmt_wnd := 128 |>.
Definition deaf_context : kcp_context := context_example <| heap ::= <[1 := deaf_receiver]> |>.

Lemma retransmission_unanswered_witness :
  exists x' e' r' r2,
    receive (fun _ => mret true) (sin 4000 9) [image retransmitted; image retransmitted] (deaf_context, quiet) = Some (tt, (x', e')) /\
    heap x' !! 1 = Some r' /\ flush 2000000 (r', quiet) = Some (None, (r2, quiet)) /\ ack_item r2 = [] /\ rcv_nxt r' = 13.
Proof.
  destruct (retransmission_unanswered (fun _ => mret true) 1 (sin 4000 9) 20 30 deaf_context quiet deaf_receiver [[retransmitted]; [retransmitted]])
    as (x' & e' & r' & Hrun & Hx & _ & _ & Hv & Hflush).
  { by apply (example_live 1 20 30 (sin 4000 9) (peer_example 1 9 20 1500)). }
  { constructor; by vm_compute. }
  { constructor. }
  { by vm_compute. }
  { by vm_compute. }
  { assert (well_packed image (stale 20 30 deaf_receiver) [retransmitted]) as Hw; [|by constructor; [|constructor]].
    split; [done|]. split; [|by vm_compute]. constructor; [|constructor]. repeat split; by vm_compute. }
  destruct (Hflush 2000000 quiet) as (r2 & Hf2 & Ha2).
  { clear Hflush Hv. vm_compute in Hrun. injection Hrun as <- <-. vm_compute in Hx. injection Hx as <-. by constructor; vm_compute. }
  exists x', e', r', r2. split_and!; [exact Hrun|done|done|done|]. unfold recv_view in Hv. injection Hv as _ _ _ Hn _ _ _ _. exact Hn.
Defined.
