(* ===== verification/Recovery.v ===== *)
(** * Recovery: a message that is not acknowledged

    The time out of the sender: as long as nothing is heard of the peer, each flush
    after the deadlines sends the whole message again, in the same datagrams, up to
    KCP_RETRANSMISSION_MAX times, after which the connection is given up
    ([message_retransmitted]). *)

From stdpp Require Import gmap.
From S2P Require Import Prelude RbTree Bytes Bitmap Xxhash Config Wire Types World Net Bbr Snd Recv Delivery Flush FlushSpec FlushPack Mtu Context ContextSpec Input InputSpec Events Api ApiSpec Exchange Transfer.

(** ** Segments that are sent again *)

(** A segment in flight whose deadline has passed at [ts], sent [n] times. *)
Definition overdue (ts n : Z) (s : kcp_segment) : Prop := sg_xmit s = n /\ sg_resendts s <= ts.

(** [t] is [s], sent once more. *)
Definition sent_again (n : Z) (s t : kcp_segment) : Prop := segment_view t = segment_view s /\ sg_xmit t = n + 1.

Lemma decide_overdue ts n resent rtomin c pos :
  overdue ts n pos -> 1 <= n <= KCP_RETRANSMISSION_MAX ->
  exists pos', decide_segment ts resent rtomin c pos = (c, pos', Decision_ true true true) /\ sent_again n pos pos'.
Proof.
  unfold KCP_RETRANSMISSION_MAX. intros [<- Hd] Hn. unfold decide_segment.
  destruct (Z.eqb_spec (sg_xmit pos) 0); [lia|]. destruct (Z.leb_spec (sg_resendts pos) ts); [|lia].
  eexists. split; [done|]. split; [by destruct (nodelay c =? 0)|].
  rewrite <- (u32_small (sg_xmit pos + 1)) by lia. by destruct (nodelay c =? 0).
Qed.

Lemma due_overdue ts n resent rtomin before todo c :
  Forall (overdue ts n) todo -> 1 <= n <= KCP_RETRANSMISSION_MAX -> snd_buf c = before ++ todo ->
  let r := due ts resent rtomin before todo c in
  Forall2 (sent_again n) todo r.2 /\ snd_buf r.1 = before ++ r.2 /\ due_kept r.1 = due_kept c.
Proof.
  cbv zeta. intros Hf Hn. revert before c. induction Hf as [|pos todo Hpos _ IH]; intros before c Hb; cbn [due].
  { by split_and!. }
  destruct (decide_overdue ts n resent rtomin c pos Hpos Hn) as (pos1 & -> & Hp1). cbn [need_send]. cbn match.
  set (c0 := c <| snd_buf := before ++ pos1 :: todo |>). set (c1 := charge _ _ c0).
  assert (snd_buf c1 = (before ++ [pos1]) ++ todo /\ due_kept c1 = due_kept c) as [Hb1 Hk1].
  { unfold c1, charge. rewrite <- app_assoc. by destruct (_ && _). }
  destruct (IH (before ++ [pos1]) c1 Hb1) as (H1 & H2 & H3). cbn [fst snd].
  split_and!; [by constructor|by rewrite H2, <- app_assoc|by rewrite H3].
Qed.

Lemma again_images n l l' : Forall2 (sent_again n) l l' -> map image l' = map image l.
Proof.
  induction 1 as [|s t l l' [Hv _] _ IH]; [done|]. cbn [map]. f_equal; [|exact IH].
  destruct s, t. cbn in Hv. injection Hv as -> -> -> -> -> -> -> -> -> -> ->. reflexivity.
Qed.

(** ** A flush after the deadlines *)

(** A message in flight and nothing else to say: sent [n] times, in the datagrams
    [ds]. *)
Record unacknowledged (n : Z) (ds : list bytes) (c : kcp_connection) (e : env) : Prop := {
  un_state : state c = KCP_STATE_CONNECTED;
  un_ready : flush_ready c e;
  un_kernel : accepting e;
  un_queue : snd_queue c = [];
  un_segments : snd_buf c <> [] /\ Forall (fun s => sg_xmit s = n) (snd_buf c);
  un_datagrams : pack (mtu c) [] (map image (snd_buf c)) = ds;
  un_quiet : ack_item c = [] /\ probe c = 0 /\ rmt_wnd c <> 0 /\ ping_request_queue (ping c) = [];
}.

(** The time of a flush that finds every segment overdue, and no heartbeat due. *)
Record expired (ts : Z) (c : kcp_connection) : Prop := {
  ex_flush : ts_flush c <= ts / 1000;
  ex_segments : Forall (fun s => sg_resendts s <= ts) (snd_buf c);
  ex_ping : ts <= keepalive_next_ts (ping c);
}.

Lemma expired_overdue n ds ts c e : unacknowledged n ds c e -> expired ts c -> Forall (overdue ts n) (snd_buf c).
Proof. intros [_ _ _ _ [_ Hx] _ _] [_ Hd _]. apply Forall_and. by split. Qed.

Lemma expired_idle n ds ts c e : unacknowledged n ds c e -> expired ts c -> control_idle ts c.
Proof. intros [_ _ _ _ _ _ (?&?&?&?)] []. split; [done|]. by constructor. Qed.

Lemma control_ready c e : flush_ready c e -> flush_ready (control_done c) e.
Proof. intros [? ? [] ? ?]. constructor; (done || by constructor). Qed.

(** With nothing queued the decisions are on the connection with its credit renewed. *)
Lemma before_decisions_resend ts c :
  snd_queue c = [] -> before_decisions ts c = refill_credit c ts.
Proof. intros Hq. unfold before_decisions. by rewrite Hq. Qed.

Lemma resend_step n ds ts c e :
  unacknowledged n ds c e -> 1 <= n < KCP_RETRANSMISSION_MAX -> expired ts c ->
  exists c' e', flush ts (c, e) = Some (None, (c', e')) /\ sent_to (remote_host c) ds e e' /\
    unacknowledged (n + 1) ds c' e' /\ resting c' = resting (control_done c).
Proof.
  intros Hu Hn Hx. pose proof (expired_overdue _ _ _ _ _ Hu Hx) as Hov. pose proof (expired_idle _ _ _ _ _ Hu Hx) as Hidle.
  destruct Hu as [Hst Hr He Hq [Hne Hxm] Hds (Q1 & Q2 & Q3 & Q4)]. set (d := control_done c).
  assert (flush_ready d e) as Hrd by by apply control_ready.
  destruct (flush_data_run d e ts Hrd He) as (c' & e' & Hdata & Hview & Hsent & _ & _ & _).
  { change (snd_buf d) with (snd_buf c). eapply Forall_impl; [exact Hxm|]. unfold sendable. intros s ->. lia. }
  unfold due_now in Hsent. rewrite (before_decisions_resend ts d Hq) in Hsent, Hview.
  destruct (refill_view d ts) as [Hfv Hfb]. change (snd_buf d) with (snd_buf c) in Hfb.
  set (d1 := refill_credit d ts) in *. rewrite Hfb in Hsent, Hview.
  destruct (due_overdue ts n (resent_of d1) (rtomin_of d1) [] (snd_buf c) d1 Hov) as (Hag & Hb & Hk); [lia|exact Hfb|].
  set (r := due ts (resent_of d1) (rtomin_of d1) [] (snd_buf c) d1) in *. cbn [app] in Hb.
  rewrite (again_images _ _ _ Hag) in Hsent. change (mtu d) with (mtu c) in Hsent. rewrite Hds in Hsent.
  destruct (sent_view_fields _ _ Hview) as (V1 & _ & _ & V4). pose proof (sent_view_kept _ _ Hview) as Hkept.
  unfold due_kept, fill_static in Hk. injection Hk as _ _ _ _ _ K1 K2 _ _ _ K3 _ K4 _.
  unfold flush_view, snd_view in Hfv. injection Hfv as F1 F2 _ F3 _ _ _ _ F4 _ _ _.
  unfold flight_kept in Hkept. injection Hkept as _ _ _ _ M1 M2 M3 _.
  pose proof (resting_flush_data ts (d, e) _ _ Hdata : resting c' = resting d) as Hrest.
  exists c', e'. split_and!; [apply idle_flush; [done|by destruct Hx|exact Hidle|exact Hdata]|exact Hsent| |exact Hrest].
  unfold resting, lasting in Hrest. injection Hrest as _ _ _ _ _ R1 R2 R3 R4. constructor.
  - rewrite M3, K3, F2. done.
  - exact (flush_data_ready _ _ _ _ _ Hrd Hdata).
  - by eapply sent_accepting.
  - rewrite V4, K4, F4. done.
  - rewrite V1, Hb. split; [|clear -Hag; induction Hag as [|? ? ? ? [_ ?] _ IH]; by constructor].
    intros E. rewrite E in Hag. apply Forall2_nil_inv_r in Hag. done.
  - rewrite V1, Hb, (again_images _ _ _ Hag), M2, K2, F3. done.
  - rewrite R1, R2, R3, R4. done.
Qed.

(** After the last time there is the end of the connection. *)
Lemma retries_exhausted ds ts c e :
  unacknowledged KCP_RETRANSMISSION_MAX ds c e -> expired ts c ->
  exists c' e', flush ts (c, e) = Some (Some NO_ERROR, (c', e')) /\ state c' = KCP_STATE_DISCONNECTED /\
    e_trace e' = e_trace e ++ [OnError (Some (k_self c)) TOO_MANY_RETRANS].
Proof.
  intros Hu Hx. pose proof (expired_overdue _ _ _ _ _ Hu Hx) as Hov. pose proof (expired_idle _ _ _ _ _ Hu Hx) as Hidle.
  destruct Hu as [Hst _ _ Hq [Hne _] _ _], Hx as [Hts _ _].
  unfold flush. run. rewrite Hst, bool_decide_true by done. cbn [negb].
  destruct (Z.ltb_spec (ts / 1000) (ts_flush c)); [lia|]. rewrite (flush_control_idle ts c e Hidle).
  change (0 =? 0) with true. cbn [negb]. unfold flush_data. run.
  change (snd_queue (control_done c)) with (snd_queue c). rewrite Hq. cbn [fill_snd_buf].
  destruct (refill_view (control_done c) ts) as [Hfv Hfb]. set (d := refill_credit (control_done c) ts) in *.
  rewrite Hfb. change (snd_buf (control_done c)) with (snd_buf c).
  pose proof (f_equal (fun v => v.1.1.2) Hfv : k_self d = k_self c) as Hself.
  destruct Hov as [|pos todo Hpos _]; [done|]. cbn [flush_segments]. unfold flow_bind, flush_segment. run.
  match goal with |- context[decide_segment ts ?re ?rt d pos] =>
    destruct (decide_overdue ts KCP_RETRANSMISSION_MAX re rt d pos Hpos) as (pos1 & -> & [_ Hp]); [done|] end.
  run. rewrite Hp. change (KCP_RETRANSMISSION_MAX <? KCP_RETRANSMISSION_MAX + 1) with true. cbn match. run.
  unfold flush_done. run. rewrite bool_decide_true by done. cbn [when]. run.
  eexists _, _. split; [reflexivity|]. split; [done|]. cbn. by rewrite Hself.
Qed.

(** ** The whole time out *)

(** From [c] the datagrams [ds] are sent [n] times more, once at each flush that
    finds the message overdue, and the flush after these gives the connection up. *)
Fixpoint resends (ds : list bytes) (n : nat) (c : kcp_connection) (e : env) : Prop :=
  forall ts, expired ts c ->
  match n with
  | O => exists c' e', flush ts (c, e) = Some (Some NO_ERROR, (c', e')) /\ state c' = KCP_STATE_DISCONNECTED /\
           e_trace e' = e_trace e ++ [OnError (Some (k_self c)) TOO_MANY_RETRANS]
  | S n => exists c' e', flush ts (c, e) = Some (None, (c', e')) /\
             e_trace e' = e_trace e ++ datagrams (remote_host c) ds /\ resends ds n c' e'
  end.

Lemma unacknowledged_resends ds n c e :
  unacknowledged (KCP_RETRANSMISSION_MAX - Z.of_nat n) ds c e -> (n < 10)%nat -> resends ds n c e.
Proof.
  revert c e. induction n as [|n IH]; intros c e Hu Hn ts Hx; [by apply (retries_exhausted ds)|].
  destruct (resend_step _ ds ts c e Hu) as (c' & e' & Hrun & Hs & Hu' & _); [unfold KCP_RETRANSMISSION_MAX; lia|done|].
  exists c', e'. split; [exact Hrun|]. split; [by rewrite Hs|]. apply IH; [|lia].
  by replace (KCP_RETRANSMISSION_MAX - Z.of_nat n) with (KCP_RETRANSMISSION_MAX - Z.of_nat (S n) + 1) by lia.
Qed.

Lemma sent_unacknowledged data ts c e c2 e2 groups :
  sender_ready data ts c e -> sent_out data c e c2 e2 groups ->
  unacknowledged 1 (map (datagram_of image) groups) c2 e2.
Proof.
  intros [Hst _ _ _ Hsz Hdata _ _ _ Hidle _ _ _ _] [_ Hms _ (Hb & Hx & Hq) _ Hr [Hrole _] Hrest Hpack Hk].
  destruct Hidle as [A [_ A2 A3 _]]. unfold resting, lasting in Hrest. injection Hrest as _ _ _ _ _ R1 R2 R3 R4.
  constructor; [|done..|split; [|done]|done|by rewrite R1, R2, R3, R4].
  - unfold role in Hrole. injection Hrole as _ _ _ _ E. congruence.
  - rewrite Hb. intros E. pose proof (ms_count _ _ _ Hms) as Hc. rewrite E in Hc. change (Zlength (@nil kcp_segment)) with 0 in Hc.
    destruct (fragment_count (Zlength data) (mss c)) as [_ ?]; lia.
Qed.

(** C3: A message that is not acknowledged is not lost at the first
    datagram the network drops: after [kcp_send] and the flush that sends it, every
    flush that finds its segments past their deadlines (the timer due, no heartbeat
    due) puts the same datagrams on the wire again, byte for byte and all of them,
    so that one copy of each is enough for the peer; this happens nine times, and
    the flush after these disconnects, reports too many retransmissions to the user
    and sends nothing. *)
Theorem message_retransmitted (data : bytes) (ts : Z) (c : kcp_connection) (e : env) :
  sender_ready data ts c e ->
  exists c1 e1 c2 e2 ds,
    kcp_send true data (c, e) = Some (NO_ERROR, (c1, e1)) /\
    flush ts (c1, e1) = Some (None, (c2, e2)) /\
    e_trace e2 = e_trace e ++ datagrams (remote_host c) ds /\ ds <> [] /\
    resends ds 9 c2 e2.
Proof.
  intros Hs. destruct (send_message data ts c e Hs) as (c1 & e1 & c2 & e2 & groups & Hsend & Hflush & Ho).
  pose proof (sent_unacknowledged _ _ _ _ _ _ _ Hs Ho) as Hu.
  exists c1, e1, c2, e2, (map (datagram_of image) groups). split_and!; [done|done|apply (out_trace _ _ _ _ _ _ Ho)| |].
  - destruct (un_segments _ _ _ _ Hu) as [Hne _]. destruct (out_buf _ _ _ _ _ _ Ho) as (Hb & _). rewrite Hb in Hne.
    by destruct groups.
  - apply unacknowledged_resends; [exact Hu|lia].
Qed.

(** ** At a concrete sender *)

(** With a heartbeat every minute. *)
Definition patient_example : kcp_connection := sender_example <| ping / keepalive_next_ts := 60000000 |>.

Lemma patient_example_ready : sender_ready [1; 2; 3; 4; 5; 6; 7; 8; 9; 10] 2000000 patient_example quiet.
Proof.
  assert (snd_ok patient_example) by (constructor; solve [by vm_compute | by apply SSorted_nil]).
  constructor; try by vm_compute.
  constructor; (done || constructor).
Qed.

Lemma expired_check ts c :
  (ts_flush c <=? ts / 1000) && forallb (fun s => sg_resendts s <=? ts) (snd_buf c) && (ts <=? keepalive_next_ts (ping c)) = true ->
  expired ts c.
Proof.
  rewrite !andb_true_iff, forallb_forall. intros [[H1 H2] H3]. constructor; [lia| |lia].
  apply Forall_forall. intros s Hs. apply Z.leb_le, H2, list_elem_of_In, Hs.
Qed.

Ltac after_second t H c e :=
  let c' := fresh c in let e' := fresh e in let Hrun := fresh "Hrun" in
  destruct (H t) as (c' & e' & Hrun & _ & H'); [apply expired_check; vm_compute; reflexivity|];
  vm_compute in Hrun; injection Hrun as <- <-; clear H; rename H' into H.

(** Two datagrams, ten times, and the report. *)
Lemma message_retransmitted_witness :
  exists c e c' e', flush 12000000 (c, e) = Some (Some NO_ERROR, (c', e')) /\
    state c = KCP_STATE_CONNECTED /\ state c' = KCP_STATE_DISCONNECTED /\ length (e_trace e') = 21%nat.
Proof.
  destruct (message_retransmitted [1; 2; 3; 4; 5; 6; 7; 8; 9; 10] 2000000 patient_example quiet patient_example_ready)
    as (c1 & e1 & c2 & e2 & ds & Hsend & Hflush & _ & _ & H).
  vm_compute in Hsend. injection Hsend as <- <-. vm_compute in Hflush. injection Hflush as <- <-.
  after_second 3000000 H c e. after_second 4000000 H c e. after_second 5000000 H c e. after_second 6000000 H c e.
  after_second 7000000 H c e. after_second 8000000 H c e. after_second 9000000 H c e. after_second 10000000 H c e.
  after_second 11000000 H c e.
  destruct (H 12000000) as (c' & e' & Hrun & Hst & Htr); [apply expired_check; vm_compute; reflexivity|].
  eexists _, _, c', e'. split; [exact Hrun|]. split; [vm_compute; reflexivity|]. split; [exact Hst|]. rewrite Htr. vm_compute. reflexivity.
Defined.
