(* ===== verification/Keepalive.v ===== *)
(** * Keepalive: heartbeats

    A heartbeat and its answer end to end: the PING of an idle connection, its
    handling by the peer, the PONG of the peer's next flush and its handling
    ([heartbeat_answered]); and a peer that is silent: after as many time outs as
    [keepalive_retries] the connection is reported dead ([heartbeat_unanswered]). *)

From stdpp Require Import gmap.
From S2P Require Import Prelude RbTree Bytes Bitmap Xxhash Config Wire Types World Net Bbr Snd Recv Delivery Flush FlushSpec FlushPack Mtu Context ContextSpec Input InputSpec Events Api ApiSpec Exchange Transfer Acknowledge.

Lemma ts_hash_range ts : is_u64 (ts_hash ts).
Proof. unfold ts_hash. exact (XXH64_u64 _ _). Qed.

#[local] Opaque ts_hash.

(** ** The control part of a flush *)

(** Nothing but heartbeats may be due. *)
Record control_calm (c : kcp_connection) : Prop := {
  calm_acks : ack_item c = [];
  calm_window : rmt_wnd c <> 0;
  calm_data : snd_buf c = [] /\ snd_queue c = [];
  calm_state : state c = KCP_STATE_CONNECTED;
  calm_mtu : KCP_HEADER_SIZE <= mtu c <= ETHERNET_MTU;
  calm_ids : ids_u16 c;
}.

Definition no_probe (c : kcp_connection) : kcp_connection := c <| win_ts_probe := 0 |> <| probe_wait := 0 |>.

(** Up to the heartbeats. *)
Lemma calm_start ts c e :
  control_calm c -> probe c = 0 \/ probe c = KCP_PING_RECV ->
  flush_control ts (c, e) =
    (dead ← on_kcp_ping_timeout ts;
     if negb (dead =? 0) then mret 1
     else
       s ← flush_ping ts (replicate 32 0, []);
       s ← flush_pong ts s;
       mods (fun c => c <| probe := 0 |>);;
       c ← get;
       (match s.2 with [] => mret tt | buffer => kcp_send_packet c [buffer];; mret tt end);;
       mret 0) (no_probe c, e).
Proof.
  intros [Ha Hw _ _ _] Hp. unfold flush_control. run. rewrite Ha. cbn [flush_acks]. run.
  unfold probe_window. destruct (Z.eqb_spec (rmt_wnd c) 0); [done|].
  fold (no_probe c). unfold flush_window, flush_header. run. change (probe (no_probe c)) with (probe c).
  assert (Z.land (probe c) KCP_ASK_SEND =? 0 = true /\ Z.land (probe c) KCP_ASK_TELL =? 0 = true) as [-> ->]
    by (destruct Hp as [-> | ->]; done).
  cbn [negb]. run. done.
Qed.

(** A heartbeat header in the empty batch. *)
Lemma append_plain h c e :
  header_ok h -> h_opt h = 0 -> h_options h = [] -> header_size h = KCP_HEADER_SIZE -> KCP_HEADER_SIZE <= mtu c ->
  exists hb d, flush_header true h (replicate 32 0, []) (c, e) = Some ((hb, d), (c, e)) /\
    Zlength d = KCP_HEADER_SIZE /\ kcp_proto_parse d = OK h [].
Proof.
  intros Hok Ho Hopts Hsz Hm. destruct (header_image_roundtrip h Hok) as (d & Henc & Hlen & Hp); [by rewrite Ho|done|].
  rewrite Hsz in Henc, Hlen. change (Z.to_nat KCP_HEADER_SIZE) with 32%nat in Henc.
  exists d, d. split; [|done]. unfold flush_header, send_if_full. run. cbn [snd fst].
  change (Zlength (@nil Z)) with 0. destruct (Z.ltb_spec (mtu c) (0 + KCP_HEADER_SIZE)); [lia|]. run.
  unfold append_header. rewrite Henc. run. cbn [deref]. by change (Zlength (@nil Z)) with 0.
Qed.

(** ** The PING *)

(** The connection once the request is recorded. *)
Definition asking (ts : Z) (c : kcp_connection) : kcp_connection :=
  c <| ping / ping_request_queue ::= (fun q => q ++ [PingSession (ts_hash ts) ts]) |>
    <| ping / keepalive_next_ts := u64 (ts + keepalive_interval (ping c)) |>.

Definition ping_of (ts : Z) (c : kcp_connection) : kcp_proto_header := ping_header c KCP_CMD_PING 0 ts (ts_hash ts).

Lemma ping_header_ok c cmd packet_ts ts sn :
  ids_u16 c -> is_ping_pong cmd = true -> is_u64 packet_ts -> is_u64 ts -> is_u64 sn -> header_ok (ping_header c cmd packet_ts ts sn).
Proof.
  intros [H1 H2] Hc Hp Ht Hs. unfold header_ok, ping_header. cbn.
  assert (0 <= cmd < 16) as Hcmd.
  { unfold is_ping_pong in Hc. apply orb_true_iff in Hc as [?|?]; bprop; subst; done. }
  split_and!; done || lia || apply Hcmd || apply H1 || apply H2 || apply Hp || apply Ht || apply Hs.
Qed.

(** What a flush that sends one datagram of a heartbeat comes to. *)
Definition sends_heartbeat (ts : Z) (c : kcp_connection) (e : env) (h : kcp_proto_header) (c' : kcp_connection) : Prop :=
  exists e2 d b w i, flush ts (c, e) = Some (None, (flushed c' b w i (u64 (ts / 1000 + interval c')), e2)) /\
    kcp_proto_parse d = OK h [] /\ Zlength d = KCP_HEADER_SIZE /\ e_trace e2 = e_trace e ++ [Datagram (remote_host c) d] /\
    memory_available e2 /\ accepting e2.

Lemma heartbeat_flush ts c e c1 d e1 h :
  state c = KCP_STATE_CONNECTED -> ts_flush c <= ts / 1000 -> snd_buf c1 = [] -> snd_queue c1 = [] ->
  remote_host c1 = remote_host c ->
  flush_control ts (c, e) = (kcp_send_packet c1 [d];; mret 0) (c1, e1) ->
  kcp_proto_parse d = OK h [] -> Zlength d = KCP_HEADER_SIZE -> memory_available e1 -> accepting e1 -> e_trace e1 = e_trace e ->
  sends_heartbeat ts c e h c1.
Proof.
  intros Hst Hdue Hb Hq Hr Hctl Hp Hl Hm He Ht.
  destruct (raw_accepting (remote_host c) d c1 e1 He) as (e2 & Hrun & Hs); [by intros ->|].
  apply sent_env in Hs as (Ht2 & Hm2 & Hs2).
  destruct (flush_data_idle ts c1 e2 Hb Hq) as (b & w & i & Hdata).
  exists e2, d, b, w, i. split; [|split_and!; [done|done|congruence|unfold memory_available in *; by rewrite Hm2|
    unfold accepting in *; congruence]].
  unfold flush. run. rewrite Hst, bool_decide_true by done. cbn [negb].
  destruct (Z.ltb_spec (ts / 1000) (ts_flush c)); [lia|]. rewrite Hctl.
  unfold kcp_send_packet, kcp_send_packet_raw. rewrite Hr, (bind_eq _ _ _ _ _ Hrun).
  run. change (0 =? 0) with true. cbn [negb]. by rewrite Hdata.
Qed.

(** A PING goes out once the time outs are seen to. *)
Lemma ping_flush ts c e c1 :
  control_calm c -> probe c = 0 -> ts_flush c <= ts / 1000 -> is_u64 ts -> memory_available e -> accepting e ->
  on_kcp_ping_timeout ts (no_probe c, e) = Some (0, (c1, e)) -> (exists p, c1 = (no_probe c) <| ping := p |>) ->
  keepalive_next_ts (ping c1) < ts ->
  sends_heartbeat ts c e (ping_of ts c) ((asking ts c1) <| probe := 0 |>).
Proof.
  intros Hcalm Hp Hdue Hts Hm He Hout [p Hc1] Hnext. pose proof Hcalm as [_ _ [Hb Hq] Hst [Hmtu _] Hids].
  destruct (malloc_available c1 e Hm) as (e1 & Hmal & Hm1 & He1).
  set (c2 := c1 <| ping / ping_request_queue ::= (fun q => q ++ [PingSession (ts_hash ts) ts]) |>).
  destruct (append_plain (ping_of ts c) c2 e1) as (hb & d & Happ & Hl & Hparse).
  { apply ping_header_ok; [exact Hids|done|lia|exact Hts|apply ts_hash_range]. }
  { done. } { done. } { done. } { unfold c2. rewrite Hc1. exact Hmtu. }
  assert (flush_ping ts (replicate 32 0, []) (c1, e) = Some ((hb, d), (asking ts c1, e1))) as Hping.
  { unfold flush_ping. run. destruct (Z.ltb_spec (keepalive_next_ts (ping c1)) ts); [|lia]. run. rewrite Hmal. run.
    fold c2. assert (ping_header c1 KCP_CMD_PING 0 ts (ts_hash ts) = ping_of ts c) as -> by (by rewrite Hc1).
    rewrite Happ. run. reflexivity. }
  apply (heartbeat_flush ts c e _ d e1); try done; try (by rewrite Hc1); [|by rewrite He1..].
  rewrite calm_start by auto. rewrite (bind_eq _ _ _ _ _ Hout). change (negb (0 =? 0)) with false. cbn match.
  rewrite (bind_eq _ _ _ _ _ Hping). unfold flush_pong, flush_header. run.
  assert (probe (asking ts c1) = 0) as -> by (by rewrite Hc1). change (Z.land 0 KCP_PING_RECV =? 0) with true. cbn [negb]. run.
  destruct d as [|z zs]; [discriminate Hl|]. by destruct (kcp_send_packet _ _ _) as [[]|].
Qed.

(** ** The PONG *)

(** A connection that got [n] heartbeats of the number [sn], the last at [t]. *)
Definition asked (t sn n : Z) (c : kcp_connection) : kcp_connection :=
  c <| ping := (ping c) <| keepalive_packet_ts := t |> <| keepalive_sn := sn |>
                        <| keepalive_next_ts := u64 (t + keepalive_interval (ping c)) |> |>
    <| probe := KCP_PING_RECV |> <| ping_count := u32 (ping_count c + n) |>.

Lemma on_ping_fields t sn c :
  on_ping t sn c =
    c <| ping := (ping c) <| keepalive_packet_ts := t |> <| keepalive_sn := sn |>
                          <| keepalive_next_ts := u64 (t + keepalive_interval (ping c)) |> |>
      <| probe := Z.lor (probe c) KCP_PING_RECV |> <| ping_count := u32 (ping_count c + 1) |>.
Proof. by destruct c, ping. Qed.

Lemma on_ping_first t sn c : probe c = 0 -> on_ping t sn c = asked t sn 1 c.
Proof. intros Hp. by rewrite on_ping_fields, Hp. Qed.

Lemma on_ping_again t t' sn n c : on_ping t' sn (asked t sn n c) = asked t' sn (n + 1) c.
Proof.
  rewrite on_ping_fields. change (ping_count (asked t sn n c)) with (u32 (ping_count c + n)).
  assert (u32 (u32 (ping_count c + n) + 1) = u32 (ping_count c + (n + 1))) as ->; [|by destruct c, ping].
  unfold u32. rewrite Zplus_mod_idemp_l. f_equal. lia.
Qed.

Definition pong_of (ts : Z) (c : kcp_connection) : kcp_proto_header :=
  ping_header c KCP_CMD_PONG (keepalive_packet_ts (ping c)) ts (keepalive_sn (ping c)).

Lemma ping_timeout_none ts c e : ping_request_queue (ping c) = [] -> on_kcp_ping_timeout ts (c, e) = Some (0, (c, e)).
Proof. intros Hq. unfold on_kcp_ping_timeout. run. by rewrite Hq. Qed.

(** It goes out once; no heartbeat of its own is due. *)
Lemma pong_flush ts c e :
  control_calm c -> probe c = KCP_PING_RECV -> ts_flush c <= ts / 1000 -> is_u64 ts -> memory_available e -> accepting e ->
  ping_request_queue (ping c) = [] -> ts <= keepalive_next_ts (ping c) ->
  is_u64 (keepalive_packet_ts (ping c)) -> is_u64 (keepalive_sn (ping c)) ->
  sends_heartbeat ts c e (pong_of ts c) ((no_probe c) <| probe := 0 |>).
Proof.
  intros Hcalm Hp Hdue Hts Hm He Hq Hnext Hpts Hsn. pose proof Hcalm as [_ _ [Hb Hsq] Hst [Hmtu _] Hids].
  destruct (append_plain (pong_of ts c) (no_probe c) e) as (hb & d & Happ & Hl & Hparse); try done.
  { apply ping_header_ok; [exact Hids|done|exact Hpts|exact Hts|exact Hsn]. }
  apply (heartbeat_flush ts c e _ d e); try done.
  rewrite calm_start by auto. rewrite (bind_eq _ _ _ _ _ (ping_timeout_none ts (no_probe c) e Hq)).
  change (negb (0 =? 0)) with false. cbn match. unfold flush_ping. run.
  change (keepalive_next_ts (ping (no_probe c))) with (keepalive_next_ts (ping c)).
  destruct (Z.ltb_spec (keepalive_next_ts (ping c)) ts); [lia|]. run. unfold flush_pong. run.
  change (probe (no_probe c)) with (probe c). rewrite Hp. change (negb (Z.land KCP_PING_RECV KCP_PING_RECV =? 0)) with true.
  change (ping_header (no_probe c) _ _ _ _) with (pong_of ts c). rewrite Happ. run.
  destruct d as [|z zs]; [discriminate Hl|]. by destruct (kcp_send_packet _ _ _) as [[]|].
Qed.

(** What the sender of the PING makes of the PONG [ts], [packet_ts] at [t]: the round
    trip is counted from [keepalive_packet_ts], the time of the last PING it got. *)
Definition heartbeat_rtt (t ts packet_ts : Z) (c : kcp_connection) : Z :=
  u32 (u64 (u64 (t - keepalive_packet_ts (ping c)) - u64 (ts - packet_ts))).

Definition settled (t ts packet_ts : Z) (c : kcp_connection) : kcp_connection :=
  c <| pong_count := u32 (pong_count c + 1) |>
    <| ping := (ping c) <| keepalive_rtt := heartbeat_rtt t ts packet_ts c |> <| keepalive_sn := 0 |>
         <| keepalive_packet_ts := 0 |> <| keepalive_next_ts := u64 (t + keepalive_interval (ping c)) |>
         <| keepalive_xretries := 0 |> <| ping_request_queue := [] |> |>.

Lemma on_pong_first t ts packet_ts sn p c :
  ping_request_queue (ping c) = [PingSession sn p] -> on_pong t ts packet_ts sn c = settled t ts packet_ts c.
Proof.
  intros Hq. unfold on_pong. rewrite Hq. cbn [fold_left List.filter]. unfold pong_match, pong_request. cbn [packet_sn].
  rewrite Z.eqb_refl. clear Hq. by destruct c, ping.
Qed.

Lemma on_pong_again t ts packet_ts sn c :
  ping_request_queue (ping c) = [] -> on_pong t ts packet_ts sn c = c.
Proof.
  intros Hq. unfold on_pong. rewrite Hq. cbn [fold_left List.filter]. rewrite <- Hq. clear Hq. by destruct c, ping.
Qed.

(** ** Copies of a datagram *)

Section Copies.
Context (cb : sockaddr -> io kcp_context bool) (src : sockaddr) (d : bytes) (h : kcp_proto_header).
Context (P : nat -> kcp_context -> env -> Prop).
Context (Hparse : kcp_proto_parse d = OK h []) (Hopt : h_opt h = 0) (Hcmd : h_cmd h <> 15).
Context (Hhandle : forall n x e, P n x e -> wp (handle_packet cb h src) (fun _ s' => P (S n) s'.1 s'.2) (x, e)).

Lemma receive_copies n k x e : P k x e -> wp (receive cb src (replicate n d)) (fun _ s' => P (n + k)%nat s'.1 s'.2) (x, e).
Proof.
  revert k x e. induction n as [|n IH]; intros k x e HP; cbn [replicate receive]; [by wp_step|].
  wp_step. eapply parse_one_packet; [exact Hparse|exact Hcmd|exact Hopt|]. eapply wp_mono; [by apply Hhandle|].
  intros _ [x1 e1] HP1. replace (S n + k)%nat with (n + S k)%nat by lia. by apply IH.
Qed.
End Copies.

(** The tests of a known command. *)
Ltac commands :=
  repeat match goal with
  | |- context [?a =? ?b] => let v := eval vm_compute in (a =? b) in progress change (a =? b) with v
  | H : context [?a =? ?b] |- _ => let v := eval vm_compute in (a =? b) in progress change (a =? b) with v in H
  end.

(** The connection at [a] after [n] packets, as [P] describes it. *)
Definition after (P : nat -> kcp_connection -> Prop) (a : Z) (src : sockaddr) (peer own : Z) (x0 : kcp_context) (t0 : list event)
    (n : nat) (x : kcp_context) (e : env) : Prop :=
  exists c, x = x0 <| heap ::= <[a := c]> |> /\ live a src peer own x c /\ memory_available e /\ e_trace e = t0 /\ P n c.

Lemma handle_heartbeat cb P a src peer own x0 t0 h n x e :
  h_scid h = peer -> h_dcid h = own -> h_cmd h = KCP_CMD_PING \/ h_cmd h = KCP_CMD_PONG ->
  (forall c t, is_u64 t -> P n c -> exists packet_ts ts sn c', h_data h = ping_data packet_ts ts sn /\ role c' = role c /\ P (S n) c' /\
    c' = if h_cmd h =? KCP_CMD_PING then on_ping t sn c else on_pong t ts packet_ts sn c) ->
  after P a src peer own x0 t0 n x e ->
  wp (handle_packet cb h src) (fun _ s' => after P a src peer own x0 t0 (S n) s'.1 s'.2) (x, e).
Proof.
  intros Hs Hd Hc HP (c & Hx & Hl & Hm & Ht & Hpc).
  eapply wp_connected_packet; [exact Hl|exact Hs|exact Hd|by destruct Hc as [-> | ->]..|].
  unfold kcp_input_pcaket. wp_step. apply wp_clock_us; [done|]. intros t e1 Htu [He1 _] Hm1.
  destruct (HP c t Htu Hpc) as (packet_ts & ts & sn & c' & Hdata & Hr & HP' & Hc'). rewrite Hdata. clear HP.
  assert (forall s, s = (c', e1) -> role s.1 = role c /\ after P a src peer own x0 t0 (S n) (x <| heap ::= <[a := s.1]> |>) s.2) as Hend.
  { intros s ->. split; [exact Hr|]. exists c'. cbn [fst snd].
    split; [by rewrite Hx, heap_set_twice|]. split; [by eapply live_update|]. split; [done|]. split; [congruence|done]. }
  destruct Hc as [E|E]; rewrite E in *; commands; cbn match; wp_step; wp_step; apply Hend; by rewrite Hc'.
Qed.

Lemma heartbeats_received cb P a src x e c h d n :
  live a src (h_scid h) (h_dcid h) x c -> memory_available e -> h_cmd h = KCP_CMD_PING \/ h_cmd h = KCP_CMD_PONG ->
  kcp_proto_parse d = OK h [] -> h_opt h = 0 -> P 0%nat c ->
  (forall n c t, is_u64 t -> P n c -> exists packet_ts ts sn c', h_data h = ping_data packet_ts ts sn /\ role c' = role c /\ P (S n) c' /\
    c' = if h_cmd h =? KCP_CMD_PING then on_ping t sn c else on_pong t ts packet_ts sn c) ->
  exists x' e' c', receive cb src (replicate n d) (x, e) = Some (tt, (x', e')) /\ heap x' !! a = Some c' /\
    e_trace e' = e_trace e /\ P n c'.
Proof.
  intros Hl Hm Hc Hparse Hopt H0 Hstep.
  assert (after P a src (h_scid h) (h_dcid h) x (e_trace e) 0 x e) as Hstart.
  { exists c. split; [symmetry; apply heap_set_same, (live_heap _ _ _ _ _ _ _ Hl)|]. by split_and!. }
  eapply receive_copies with (cb := cb) (src := src) (n := n) in Hstart as (? & [x' e'] & Hrun & c' & Hx & Hl' & _ & Ht & Hc')%wp_elim.
  - exists x', e', c'. cbn [fst snd] in *. rewrite Nat.add_0_r in Hc'. destruct x0.
    split_and!; [exact Hrun|apply (live_heap _ _ _ _ _ _ _ Hl')|done|done].
  - exact Hparse.
  - exact Hopt.
  - by destruct Hc as [-> | ->].
  - intros k x1 e1. by apply handle_heartbeat; [..|intros; apply Hstep].
Qed.

(** ** There and back *)

(** An idle connection in which no request waits for its answer. *)
Record heartbeat_idle (c : kcp_connection) : Prop := {
  hi_calm : control_calm c;
  hi_probe : probe c = 0;
  hi_requests : ping_request_queue (ping c) = [];
}.

(** A PING is due at [ts]. *)
Record asks_at (ts : Z) (c : kcp_connection) : Prop := {
  as_idle : heartbeat_idle c;
  as_due : ts_flush c <= ts / 1000;
  as_next : keepalive_next_ts (ping c) < ts;
  as_ts : is_u64 ts;
}.

(** The last PING was received at [t] and is answered by a flush at [ts]. *)
Record answers_heartbeat (ts : Z) (r : kcp_connection) : Prop := {
  ah_due : ts_flush r <= ts / 1000;
  ah_next : ts <= keepalive_next_ts (ping r);
  ah_ts : is_u64 ts;
}.

(** What the PINGs leave of the peer [r]. *)
Definition got_pings (sn : Z) (r : kcp_connection) (n : nat) (r' : kcp_connection) : Prop :=
  match n with 0%nat => r' = r | S _ => exists t, is_u64 t /\ r' = asked t sn (Z.of_nat n) r end.

(** What the PONGs leave of the connection [c] that asked. *)
Definition got_pongs (ts packet_ts : Z) (c : kcp_connection) (n : nat) (c' : kcp_connection) : Prop :=
  match n with 0%nat => c' = c | S _ => exists t, is_u64 t /\ c' = settled t ts packet_ts c end.

Lemma pings_received cb a src x e r h d n :
  live a src (h_scid h) (h_dcid h) x r -> memory_available e -> probe r = 0 -> h_cmd h = KCP_CMD_PING ->
  (exists packet_ts ts sn, h_data h = ping_data packet_ts ts sn) -> kcp_proto_parse d = OK h [] -> h_opt h = 0 ->
  exists x' e' r' t, receive cb src (replicate (S n) d) (x, e) = Some (tt, (x', e')) /\ heap x' !! a = Some r' /\
    e_trace e' = e_trace e /\ is_u64 t /\
    r' = asked t match h_data h with ping_data _ _ sn => sn | _ => 0 end (Z.of_nat (S n)) r.
Proof.
  intros Hl Hm Hp Hc (q & ts & sn & Hd) Hparse Hopt. rewrite Hd.
  destruct (heartbeats_received cb (got_pings sn r) a src x e r h d (S n) Hl Hm (or_introl Hc) Hparse Hopt eq_refl)
    as (x' & e' & r' & Hrun & Hx & Ht & t & Htu & Hr').
  - intros k c t Htu Hg. exists q, ts, sn. rewrite Hc. commands. cbn match.
    exists (on_ping t sn c). split; [done|]. split; [done|]. split; [|done]. exists t. split; [exact Htu|].
    destruct k as [|k]; [rewrite Hg; by apply on_ping_first|]. destruct Hg as (t' & _ & ->).
    rewrite on_ping_again. f_equal. lia.
  - exists x', e', r', t. do 3 (split; [done|]). by split.
Qed.

Lemma pongs_received cb a src x e c h d n packet_ts ts sn p :
  live a src (h_scid h) (h_dcid h) x c -> memory_available e -> h_cmd h = KCP_CMD_PONG ->
  h_data h = ping_data packet_ts ts sn -> ping_request_queue (ping c) = [PingSession sn p] ->
  kcp_proto_parse d = OK h [] -> h_opt h = 0 ->
  exists x' e' t, receive cb src (replicate (S n) d) (x, e) = Some (tt, (x', e')) /\
    heap x' !! a = Some (settled t ts packet_ts c) /\ e_trace e' = e_trace e /\ is_u64 t.
Proof.
  intros Hl Hm Hc Hd Hq Hparse Hopt.
  destruct (heartbeats_received cb (got_pongs ts packet_ts c) a src x e c h d (S n) Hl Hm (or_intror Hc) Hparse Hopt eq_refl)
    as (x' & e' & c' & Hrun & Hx & Ht & t & Htu & Hc').
  - intros k c1 t Htu Hg. exists packet_ts, ts, sn. rewrite Hc. commands. cbn match.
    exists (on_pong t ts packet_ts sn c1). split; [done|]. split; [apply role_on_pong|]. split; [|done].
    destruct k as [|k]; [rewrite Hg, (on_pong_first t ts packet_ts sn p c Hq); by exists t|].
    destruct Hg as (t' & Htu' & ->). rewrite on_pong_again by done. by exists t'.
  - exists x', e', t. rewrite <- Hc'. do 3 (split; [done|]). exact Htu.
Qed.

(** C8: A heartbeat is answered: the flush of an idle connection whose
    heartbeat is due puts one PING on the wire and remembers it; when it reaches the
    peer, any number of times, the peer is told nothing and its next flush puts one
    PONG on the wire; when that reaches the sender, any number of times, no request is
    left, the retries are 0, one PONG more is counted and the next PING is due an
    interval later.  The round trip recorded is not that of this PING: it is counted
    from [keepalive_packet_ts], the time of the last PING the sender itself got. *)
Theorem heartbeat_answered (cb cb' : sockaddr -> io kcp_context bool) (ts : Z) (c : kcp_connection) (e : env)
    (a : Z) (src : sockaddr) (x : kcp_context) (er : env) (r : kcp_connection) (b : Z) (from : sockaddr) (xs : kcp_context) :
  asks_at ts c -> memory_available e -> accepting e ->
  live a src (scid c) (dcid c) x r -> heartbeat_idle r -> memory_available er ->
  live b from (dcid c) (scid c) xs c ->
  exists c1 e1 p,
    flush ts (c, e) = Some (None, (c1, e1)) /\ e_trace e1 = e_trace e ++ [Datagram (remote_host c) p] /\
    ping_request_queue (ping c1) = [PingSession (ts_hash ts) ts] /\
    forall n, exists x' er' r',
      receive cb src (replicate (S n) p) (x, er) = Some (tt, (x', er')) /\ heap x' !! a = Some r' /\
      e_trace er' = e_trace er /\ ping_count r' = u32 (ping_count r + Z.of_nat (S n)) /\
      forall ts' ef, answers_heartbeat ts' r' -> memory_available ef -> accepting ef ->
      exists r2 ef' q,
        flush ts' (r', ef) = Some (None, (r2, ef')) /\ e_trace ef' = e_trace ef ++ [Datagram (remote_host r') q] /\ probe r2 = 0 /\
        forall m es, memory_available es -> exists xs' es' c2 t,
          receive cb' from (replicate (S m) q) (xs <| heap ::= <[b := c1]> |>, es) = Some (tt, (xs', es')) /\
          heap xs' !! b = Some c2 /\ e_trace es' = e_trace es /\
          ping_request_queue (ping c2) = [] /\ keepalive_xretries (ping c2) = 0 /\ pong_count c2 = u32 (pong_count c + 1) /\
          keepalive_next_ts (ping c2) = u64 (t + keepalive_interval (ping c)) /\
          keepalive_rtt (ping c2) =
            u32 (u64 (u64 (t - keepalive_packet_ts (ping c)) - u64 (ts' - keepalive_packet_ts (ping r')))).
Proof.
  intros [[Hcalm Hp Hq] Hdue Hnext Hts] Hm He Hlr [Hcr Hpr Hqr] Hmr Hlc.
  destruct (ping_flush ts c e (no_probe c) Hcalm Hp Hdue Hts Hm He) as (e1 & d & w & i & y & Hrun & Hparse & Hlen & Ht & _ & _);
    [by apply ping_timeout_none|by exists (ping c); destruct c|exact Hnext|].
  set (c1 := flushed _ _ _ _ _) in Hrun. exists c1, e1, d. split; [done|]. split; [done|].
  assert (ping_request_queue (ping c1) = [PingSession (ts_hash ts) ts]) as Hq1 by (cbn; by rewrite Hq).
  split; [done|]. intros n.
  destruct (pings_received cb a src x er r (ping_of ts c) d n Hlr Hmr Hpr eq_refl) as (x' & er' & r' & t & Hrecv & Hx' & Htr & Htu & Hr');
    [by eexists _, _, _|exact Hparse|done|].
  exists x', er', r'. split; [done|]. split; [done|]. split; [done|]. split; [by rewrite Hr'|].
  intros ts' ef [Hdue' Hnext' Hts'] Hmf Hef.
  destruct (pong_flush ts' r' ef) as (ef' & q & w' & i' & y' & Hrun' & Hparse' & Hlen' & Htf & _ & _);
    [|by rewrite Hr'|exact Hdue'|exact Hts'|exact Hmf|exact Hef|by rewrite Hr'|exact Hnext'|rewrite Hr'; exact Htu|
     rewrite Hr'; apply ts_hash_range|].
  { rewrite Hr'. by destruct Hcr. }
  eexists _, ef', q. split; [exact Hrun'|]. split; [done|]. split; [done|]. intros m es Hms.
  destruct (pongs_received cb' b from (xs <| heap ::= <[b := c1]> |>) es c1 (pong_of ts' r') q m (keepalive_packet_ts (ping r')) ts'
    (keepalive_sn (ping r')) ts) as (xs' & es' & t' & Hrecv' & Hxs' & Hts2 & _); try done.
  { change (h_scid (pong_of ts' r')) with (scid r'). change (h_dcid (pong_of ts' r')) with (dcid r'). rewrite Hr'.
    destruct (live_ids _ _ _ _ _ _ _ Hlr) as [E1 E2].
    change (scid (asked _ _ _ _)) with (scid r). change (dcid (asked _ _ _ _)) with (dcid r). rewrite E1, E2.
    by apply (live_update _ _ _ _ _ _ c). }
  { rewrite Hq1, Hr'. done. }
  exists xs', es', (settled t' ts' (keepalive_packet_ts (ping r')) c1), t'. by split_and!.
Qed.

(** ** A silent peer *)

(** A PONG as [on_pong] gets it, at the time [pg_at]. *)
Record pong := Pong { pg_at : Z; pg_ts : Z; pg_packet_ts : Z; pg_sn : Z }.

Definition answers (l : list pong) : io kcp_connection unit :=
  mods (fun c => fold_left (fun c p => on_pong (pg_at p) (pg_ts p) (pg_packet_ts p) (pg_sn p) c) l c).

(** The flush of each round, up to the first that ends early, and the PONGs that
    arrive after it. *)
Fixpoint rounds (l : list (Z * list pong)) : io kcp_connection (option Z) :=
  match l with
  | [] => mret None
  | (ts, late) :: l =>
      code ← flush ts;
      match code with None => answers late;; rounds l | Some code => mret (Some code) end
  end.

(** A PONG of another request than that of [ts], which did not time out twice. *)
Definition too_late (timeout ts : Z) (p : pong) : Prop :=
  pg_sn p <> ts_hash ts /\ pg_at p <= u64 (ts + u32 (2 * timeout)).

Lemma on_pong_late timeout ts p c :
  ping_request_queue (ping c) = [PingSession (ts_hash ts) ts] -> keepalive_timeout (ping c) = timeout -> too_late timeout ts p ->
  on_pong (pg_at p) (pg_ts p) (pg_packet_ts p) (pg_sn p) c = c.
Proof.
  intros Hq <- [Hsn Hat]. unfold on_pong. rewrite Hq. cbn [fold_left List.filter]. unfold pong_request, pong_match.
  cbn [packet_sn packet_ts]. destruct (Z.eqb_spec (ts_hash ts) (pg_sn p)); [congruence|].
  destruct (Z.ltb_spec (u64 (ts + u32 (2 * keepalive_timeout (ping c)))) (pg_at p)); [lia|]. cbn [orb negb].
  rewrite <- Hq. clear. by destruct c, ping.
Qed.

Lemma answers_late timeout ts l c e :
  ping_request_queue (ping c) = [PingSession (ts_hash ts) ts] -> keepalive_timeout (ping c) = timeout -> Forall (too_late timeout ts) l ->
  answers l (c, e) = Some (tt, (c, e)).
Proof.
  intros Hq Ht Hall. unfold answers. run. do 3 f_equal.
  induction Hall as [|p l Hp _ IH]; [done|]. cbn [fold_left]. by rewrite (on_pong_late timeout ts p c Hq Ht Hp).
Qed.

(** Each round is at least [gap] after the one before it, and its PONGs are late. *)
Fixpoint spaced (gap timeout ts : Z) (l : list (Z * list pong)) : Prop :=
  match l with
  | [] => True
  | (ts', late) :: l => ts + gap <= ts' /\ is_u64 ts' /\ Forall (too_late timeout ts') late /\ spaced gap timeout ts' l
  end.

Definition last_time (ts : Z) (l : list (Z * list pong)) : Z := List.last (map fst l) ts.

Lemma last_time_cons ts ts' late l : last_time ts ((ts', late) :: l) = last_time ts' l.
Proof.
  unfold last_time. cbn [map fst]. generalize (map fst l). intros k. revert ts ts'. clear.
  induction k as [|t k IH]; intros ts ts'; [done|]. change (List.last (t :: k) ts = List.last (t :: k) ts'). by rewrite !IH.
Qed.

(** What [c] keeps of [c0] while it waits. *)
Definition heartbeat_view (c : kcp_connection) :=
  (role c, interval c, keepalive_timeout (ping c), keepalive_retries (ping c)).

(** [c0] once [k] requests went unanswered, the last one sent at [ts]. *)
Record waits (c0 : kcp_connection) (ts k : Z) (c : kcp_connection) : Prop := {
  wa_calm : control_calm c;
  wa_probe : probe c = 0;
  wa_view : heartbeat_view c = heartbeat_view c0;
  wa_requests : ping_request_queue (ping c) = [PingSession (ts_hash ts) ts];
  wa_retries : keepalive_xretries (ping c) = k;
  wa_flush : ts_flush c = u64 (ts / 1000 + interval c);
}.

(** The time out of the only request. *)
Definition timed_out (ts : Z) (c : kcp_connection) : kcp_connection :=
  c <| ping := (ping c) <| keepalive_next_ts := u64 (ts - 1) |> <| ping_request_queue := [] |>
                        <| keepalive_xretries := u16 (keepalive_xretries (ping c) + 1) |> |>.

Definition told (ev : event) (e : env) : env := e <| e_trace ::= (fun t => t ++ [ev]) |>.

Lemma ping_timeout_due ts c e sn p :
  ping_request_queue (ping c) = [PingSession sn p] -> u64 (keepalive_timeout (ping c) + p) <= ts ->
  on_kcp_ping_timeout ts (c, e) =
    if keepalive_retries (ping c) <=? u16 (keepalive_xretries (ping c) + 1)
    then Some (1, ((timed_out ts c) <| state := KCP_STATE_DISCONNECTED |>, told (OnError (Some (k_self c)) KEEPALIVE_ERROR) e))
    else Some (0, (timed_out ts c, e)).
Proof.
  intros Hq Hp. unfold on_kcp_ping_timeout. run. rewrite Hq. cbn [last packet_ts].
  destruct (Z.leb_spec (u64 (keepalive_timeout (ping c) + p)) ts); [|lia]. run.
  match goal with |- context [keepalive_retries (ping ?c1)] =>
    assert (c1 = timed_out ts c) as -> end.
  { clear Hp. destruct c, ping. cbn in Hq. by rewrite Hq. }
  change (keepalive_retries (ping (timed_out ts c))) with (keepalive_retries (ping c)).
  change (keepalive_xretries (ping (timed_out ts c))) with (u16 (keepalive_xretries (ping c) + 1)).
  by destruct (_ <=? _); run.
Qed.

Section Silence.
(** The connection, and how long it waits for an answer. *)
Context (c0 : kcp_connection) (gap : Z).
Notation timeout := (keepalive_timeout (ping c0)).
Notation limit := (keepalive_retries (ping c0)).
Context (Hgap : 0 < gap /\ 0 <= timeout <= gap) (Hinterval : 0 <= interval c0 /\ interval c0 * 1000 <= gap) (Hlimit : is_u16 limit).

Lemma view_fields c :
  heartbeat_view c = heartbeat_view c0 ->
  k_self c = k_self c0 /\ remote_host c = remote_host c0 /\ (forall ts, ping_of ts c = ping_of ts c0) /\
  interval c = interval c0 /\ keepalive_timeout (ping c) = timeout /\ keepalive_retries (ping c) = limit.
Proof. intros [= E1 E2 E3 E4 E5 E6 E7 E8]. split_and!; try done. intros ts. unfold ping_of, ping_header. by rewrite E2, E3. Qed.

Lemma asking_waits ts k c p w i y :
  control_calm c -> heartbeat_view c = heartbeat_view c0 -> ping_request_queue p = [] -> keepalive_xretries p = k ->
  keepalive_timeout p = keepalive_timeout (ping c) -> keepalive_retries p = keepalive_retries (ping c) ->
  waits c0 ts k (flushed ((asking ts ((no_probe c) <| ping := p |>)) <| probe := 0 |>) w i y (u64 (ts / 1000 + interval c))).
Proof.
  intros [C1 C2 C3 C4 C5 C6] Hv Hq Hk Ht Hr. constructor; [by constructor|done| |cbn; by rewrite Hq|done|done].
  rewrite <- Hv. unfold heartbeat_view, role. cbn. by rewrite Ht, Hr.
Qed.

(** A PING goes out and its answer is awaited. *)
Definition pinged (ts k : Z) (s s' : kcp_connection * env) : Prop :=
  exists d, flush ts s = Some (None, s') /\ waits c0 ts k s'.1 /\ kcp_proto_parse d = OK (ping_of ts c0) [] /\
    e_trace s'.2 = e_trace s.2 ++ [Datagram (remote_host c0) d] /\ memory_available s'.2 /\ accepting s'.2.

Lemma request_sent ts k c e p :
  control_calm c -> probe c = 0 -> heartbeat_view c = heartbeat_view c0 -> ts_flush c <= ts / 1000 -> is_u64 ts ->
  memory_available e -> accepting e -> on_kcp_ping_timeout ts (no_probe c, e) = Some (0, ((no_probe c) <| ping := p |>, e)) ->
  ping_request_queue p = [] -> keepalive_xretries p = k -> keepalive_timeout p = keepalive_timeout (ping c) ->
  keepalive_retries p = keepalive_retries (ping c) -> keepalive_next_ts p < ts ->
  exists s', pinged ts k (c, e) s'.
Proof.
  intros Hcalm Hp Hv Hdue Hts Hm He Hto Hq Hk Ht Hr Hnext. destruct (view_fields c Hv) as (_ & R & Hping & _).
  destruct (ping_flush ts c e _ Hcalm Hp Hdue Hts Hm He Hto) as (e1 & d & w & i & y & Hrun & Hparse & _ & Htr & Hm1 & He1);
    [by exists p|exact Hnext|].
  eexists (_, e1), d. split; [exact Hrun|]. split; [exact (asking_waits ts k c p w i y Hcalm Hv Hq Hk Ht Hr)|]. rewrite <- R, <- Hping. by split_and!.
Qed.

(** The first request. *)
Lemma first_request ts c e :
  asks_at ts c -> heartbeat_view c = heartbeat_view c0 -> memory_available e -> accepting e ->
  exists s', pinged ts (keepalive_xretries (ping c)) (c, e) s'.
Proof.
  intros [[Hcalm Hp Hq] Hdue Hnext Hts] Hv Hm He. apply (request_sent ts _ c e (ping c)); try done.
  assert (no_probe c = (no_probe c) <| ping := ping c |>) as <- by (by destruct c). by apply ping_timeout_none.
Qed.

(** A request that times out: another one, or the end. *)
Lemma request_due ts k c ts' :
  waits c0 ts k c -> is_u64 ts -> ts + gap <= ts' -> is_u64 ts' ->
  ts_flush c <= ts' / 1000 /\ u64 (timeout + ts) <= ts' /\ u64 (ts' - 1) < ts'.
Proof.
  intros [_ _ Hv _ _ Hf] [? _] Hs [? ?]. destruct (view_fields c Hv) as (_ & _ & _ & Hi & _ & _).
  split; [|rewrite !u64_small by (split; lia); lia].
  assert (ts / 1000 + interval c0 = (ts + interval c0 * 1000) / 1000) as Hdiv by (rewrite Z.div_add by lia; lia).
  assert ((ts + interval c0 * 1000) / 1000 <= ts' / 1000) by (apply Z.div_le_mono; lia).
  rewrite Hf, Hi, u64_small; [lia|]. split; [apply Z.add_nonneg_nonneg; [by apply Z.div_pos|lia]|].
  assert (ts' / 1000 <= ts') by (apply Z.div_le_upper_bound; lia). lia.
Qed.

Lemma request_times_out ts k c e ts' :
  waits c0 ts k c -> is_u64 ts -> ts + gap <= ts' -> is_u64 ts' -> 0 <= k -> k + 1 <= limit ->
  on_kcp_ping_timeout ts' (no_probe c, e) =
    (if limit <=? k + 1
     then Some (1, ((timed_out ts' (no_probe c)) <| state := KCP_STATE_DISCONNECTED |>,
                    told (OnError (Some (k_self c0)) KEEPALIVE_ERROR) e))
     else Some (0, (timed_out ts' (no_probe c), e))) /\
  keepalive_xretries (ping (timed_out ts' (no_probe c))) = k + 1.
Proof.
  intros Hw Hts Hs Hts' Hk Hlt. destruct (request_due ts k c ts' Hw Hts Hs Hts') as (_ & Hout & _).
  destruct Hw as [_ _ Hv Hq Hx _]. destruct (view_fields c Hv) as (Hself & _ & _ & _ & Hg & Hl). destruct Hlimit.
  assert (u16 (keepalive_xretries (ping c) + 1) = k + 1) as Hu by (rewrite Hx; apply u16_small; split; lia).
  split; [|exact Hu]. rewrite (ping_timeout_due ts' (no_probe c) e (ts_hash ts) ts Hq).
  - change (ping (no_probe c)) with (ping c). change (k_self (no_probe c)) with (k_self c). by rewrite Hl, Hu, Hself.
  - change (ping (no_probe c)) with (ping c). by rewrite Hg.
Qed.

Lemma next_request ts k c e ts' :
  waits c0 ts k c -> is_u64 ts -> ts + gap <= ts' -> is_u64 ts' -> 0 <= k -> k + 1 < limit -> memory_available e -> accepting e ->
  exists s', pinged ts' (k + 1) (c, e) s'.
Proof.
  intros Hw Hts Hs Hts' Hk Hlt Hm He. destruct (request_due ts k c ts' Hw Hts Hs Hts') as (Hdue & _ & Hnext).
  destruct (request_times_out ts k c e ts' Hw Hts Hs Hts' Hk) as [Hto Hx]; [lia|].
  destruct (Z.leb_spec limit (k + 1)); [lia|]. destruct Hw as [Hcalm Hp Hv _ _ _].
  apply (request_sent ts' _ c e (ping (timed_out ts' (no_probe c)))); try done.
Qed.

Lemma last_request ts k c e ts' :
  waits c0 ts k c -> is_u64 ts -> ts + gap <= ts' -> is_u64 ts' -> 0 <= k -> k + 1 = limit ->
  exists c', flush ts' (c, e) = Some (Some NO_ERROR, (c', told (OnError (Some (k_self c0)) KEEPALIVE_ERROR) e)) /\
    state c' = KCP_STATE_DISCONNECTED /\ ping_request_queue (ping c') = [].
Proof.
  intros Hw Hts Hs Hts' Hk Hlt. destruct (request_due ts k c ts' Hw Hts Hs Hts') as (Hdue & _ & _).
  destruct (request_times_out ts k c e ts' Hw Hts Hs Hts' Hk) as [Hto _]; [lia|].
  destruct (Z.leb_spec limit (k + 1)); [|lia]. destruct Hw as [Hcalm Hp _ _ _ _].
  exists ((timed_out ts' (no_probe c)) <| state := KCP_STATE_DISCONNECTED |>). split; [|done].
  unfold flush. run. rewrite (calm_state _ Hcalm), bool_decide_true by done. cbn [negb].
  destruct (Z.ltb_spec (ts' / 1000) (ts_flush c)); [lia|].
  rewrite calm_start by auto. rewrite (bind_eq _ _ _ _ _ Hto). done.
Qed.

(** As long as retries are left. *)
Lemma requests_unanswered l ts k c e :
  waits c0 ts k c -> is_u64 ts -> spaced gap timeout ts l -> 0 <= k -> k + Zlength l < limit -> memory_available e -> accepting e ->
  exists c' e' pings, rounds l (c, e) = Some (None, (c', e')) /\
    waits c0 (last_time ts l) (k + Zlength l) c' /\
    Forall2 (fun t d => kcp_proto_parse d = OK (ping_of t c0) []) (map fst l) pings /\
    e_trace e' = e_trace e ++ map (Datagram (remote_host c0)) pings /\ memory_available e' /\ accepting e'.
Proof.
  revert ts k c e. induction l as [|[t late] l IH]; intros ts k c e Hw Hts Hs Hk Hlt Hm He.
  { exists c, e, []. change (Zlength (@nil (Z * list pong))) with 0. rewrite Z.add_0_r, app_nil_r. by split_and!. }
  destruct Hs as (Hs & Ht & Hlate & Hss). rewrite Zlength_cons in *. pose proof (Zlength_nonneg l).
  destruct (next_request ts k c e t Hw Hts Hs Ht Hk) as ([c1 e1] & d & Hrun & Hw1 & Hp1 & Ht1 & Hm1 & He1); [lia|done|done|].
  cbn [fst snd] in *. destruct (IH t (k + 1) c1 e1) as (c' & e' & pings & Hrun' & Hw' & Hall & Ht' & Hm' & He'); try done; [lia..|].
  destruct (view_fields c1 (wa_view _ _ _ _ Hw1)) as (_ & _ & _ & _ & Hto & _).
  exists c', e', (d :: pings). rewrite last_time_cons. replace (k + (1 + Zlength l)) with (k + 1 + Zlength l) by lia.
  split_and!; [|exact Hw'|by constructor|by rewrite Ht', Ht1, <- app_assoc|done|done].
  cbn [rounds]. rewrite (bind_eq _ _ _ _ _ Hrun), (bind_eq _ _ _ _ _ (answers_late _ t late c1 e1 (wa_requests _ _ _ _ Hw1) Hto Hlate)).
  exact Hrun'.
Qed.
End Silence.

Lemma spaced_last gap timeout l ts t :
  spaced gap timeout ts (l ++ [(t, [])]) -> is_u64 ts ->
  spaced gap timeout ts l /\ last_time ts l + gap <= t /\ is_u64 t /\ is_u64 (last_time ts l).
Proof.
  revert ts. induction l as [|[t1 late] l IH]; intros ts Hs Hts; cbn [app spaced] in *; [by destruct Hs as (? & ? & _)|].
  destruct Hs as (H1 & H2 & H3 & Hs). destruct (IH t1 Hs H2) as (Hl & Hrest). rewrite last_time_cons. by split.
Qed.

(** C9: A silent peer is noticed: an idle connection whose heartbeat is
    due, flushed in rounds that are a heartbeat's time out and a flush interval apart,
    puts one PING on the wire in each of them and stays connected as long as fewer than
    [keepalive_retries] of them went unanswered; at the next flush it sends nothing, is
    DISCONNECTED, and its user is told so, once.  A PONG that arrives once its request
    has timed out is no answer: it changes nothing.  With the time out that
    [kcp_connection_init] sets, which the code takes for microseconds, that is every
    PONG which is not there by the next flush. *)
Theorem heartbeat_unanswered (gap ts : Z) (late : list pong) (l : list (Z * list pong)) (t : Z) (c : kcp_connection) (e : env) :
  asks_at ts c -> keepalive_xretries (ping c) = 0 -> 0 < gap -> 0 <= keepalive_timeout (ping c) <= gap ->
  0 <= interval c /\ interval c * 1000 <= gap -> is_u16 (keepalive_retries (ping c)) ->
  Zlength l + 1 = keepalive_retries (ping c) -> Forall (too_late (keepalive_timeout (ping c)) ts) late ->
  spaced gap (keepalive_timeout (ping c)) ts (l ++ [(t, [])]) -> memory_available e -> accepting e ->
  exists c1 e1 pings c2 e2,
    rounds ((ts, late) :: l) (c, e) = Some (None, (c1, e1)) /\ state c1 = KCP_STATE_CONNECTED /\
    keepalive_xretries (ping c1) = Zlength l /\
    Forall2 (fun t d => kcp_proto_parse d = OK (ping_of t c) []) (ts :: map fst l) pings /\
    e_trace e1 = e_trace e ++ map (Datagram (remote_host c)) pings /\
    flush t (c1, e1) = Some (Some NO_ERROR, (c2, e2)) /\ state c2 = KCP_STATE_DISCONNECTED /\
    e_trace e2 = e_trace e1 ++ [OnError (Some (k_self c)) KEEPALIVE_ERROR].
Proof.
  intros Hask Hx Hgap Hto Hi Hl Hn Hlate Hs Hm He. pose proof (as_ts _ _ Hask) as Hts.
  destruct (spaced_last _ _ _ _ _ Hs Hts) as (Hs1 & Hs2 & Ht & Hlast). pose proof (Zlength_nonneg l).
  destruct (first_request c ts c e Hask eq_refl Hm He) as ([c1 e1] & d & Hrun & Hw & Hp & Ht1 & Hm1 & He1). cbn [fst snd] in *.
  destruct (view_fields c c1 (wa_view _ _ _ _ Hw)) as (_ & _ & _ & _ & Ht0 & _).
  pose proof (answers_late _ ts late c1 e1 (wa_requests _ _ _ _ Hw) Ht0 Hlate) as Hans. rewrite Hx in Hw.
  destruct (requests_unanswered c gap (conj Hgap Hto) Hi Hl l ts 0 c1 e1) as (c2 & e2 & pings & Hrun2 & Hw2 & Hall & Ht2 & Hm2 & He2);
    try done; [lia|].
  destruct (last_request c gap (conj Hgap Hto) Hi Hl (last_time ts l) (0 + Zlength l) c2 e2 t Hw2) as (c3 & Hrun3 & Hst & _);
    try done; [lia..|].
  exists c2, e2, (d :: pings), c3, (told (OnError (Some (k_self c)) KEEPALIVE_ERROR) e2).
  split; [cbn [rounds]; by rewrite (bind_eq _ _ _ _ _ Hrun), (bind_eq _ _ _ _ _ Hans)|].
  split; [by destruct Hw2 as [[]]|]. split; [by rewrite (wa_retries _ _ _ _ Hw2)|]. split; [by constructor|].
  split; [by rewrite Ht2, Ht1, <- app_assoc|]. by split_and!.
Qed.

(** ** At a concrete pair of peers *)

(** The sender of [Acknowledge], its heartbeat as [kcp_connection_init] sets it. *)
Definition asking_example : kcp_connection := acked_sender <| interval := 100 |> <| ping := ping_init |>.
Definition asking_context : kcp_context := context_example <| heap ::= <[2 := asking_example]> |>.
Definition asked_example : kcp_connection := acked_receiver <| rmt_wnd := 128 |>.
Definition asked_context : kcp_context := context_example <| heap ::= <[1 := asked_example]> |>.

Lemma asking_example_ready : asks_at 2000000 asking_example.
Proof. constructor; [constructor; [constructor|..]|..]; by vm_compute. Qed.

(** The PING arrives twice and the PONG three times. *)
Lemma heartbeat_answered_witness :
  exists c1 e1 p x' er' r' r2 ef' q xs' es' c2,
    flush 2000000 (asking_example, quiet) = Some (None, (c1, e1)) /\
    receive (fun _ => mret true) (sin 4000 9) [p; p] (asked_context, quiet) = Some (tt, (x', er')) /\
    heap x' !! 1 = Some r' /\ ping_count r' = 2 /\ flush 2000000 (r', quiet) = Some (None, (r2, ef')) /\
    receive (fun _ => mret true) (sin 5000 7) [q; q; q] (asking_context <| heap ::= <[2 := c1]> |>, quiet) = Some (tt, (xs', es')) /\
    heap xs' !! 2 = Some c2 /\ length (ping_request_queue (ping c1)) = 1%nat /\ ping_request_queue (ping c2) = [] /\ pong_count c2 = 1.
Proof.
  destruct (heartbeat_answered (fun _ => mret true) (fun _ => mret true) 2000000 asking_example quiet 1 (sin 4000 9) asked_context quiet
    asked_example 2 (sin 5000 7) asking_context) as (c1 & e1 & p & Hf1 & Ht1 & Hq1 & Hpeer).
  { apply asking_example_ready. }
  { constructor. }
  { done. }
  { by apply (example_live 1 20 30 (sin 4000 9) (peer_example 1 9 20 1500)). }
  { constructor; [constructor|..]; by vm_compute. }
  { constructor. }
  { by apply (example_live 2 30 20 (sin 5000 7) (peer_example 2 11 30 1200)). }
  destruct (Hpeer 1%nat) as (x' & er' & r' & Hr1 & Hx1 & _ & Hc1 & Hback).
  destruct (Hback 2000000 quiet) as (r2 & ef' & q & Hf2 & _ & _ & Hend).
  { clear Hpeer Hback. vm_compute in Hf1. injection Hf1 as <- <-. vm_compute in Ht1. injection Ht1 as <-.
    vm_compute in Hr1. injection Hr1 as <- <-. vm_compute in Hx1. injection Hx1 as <-. clear. constructor; by vm_compute. }
  { constructor. }
  { done. }
  destruct (Hend 2%nat quiet) as (xs' & es' & c2 & t & Hr2 & Hx2 & _ & Hq2 & _ & Hp2 & _); [constructor|].
  exists c1, e1, p, x', er', r', r2, ef', q, xs', es', c2. rewrite Hq1.
  by repeat (split; [first [exact Hf1 | exact Hr1 | exact Hx1 | exact Hc1 | exact Hf2 | exact Hr2 | exact Hx2 | done]|]).
Defined.

(** The heartbeat of [kcp_connection_init], flushed every 100 ms; the answer to the
    first PING arrives 105 ms after it. *)
Definition late_example : list (Z * list pong) :=
  [(2100000, [Pong 2105000 2050000 2040000 (ts_hash 2000000)]); (2200000, []); (2300000, []); (2400000, [])].

Lemma heartbeat_unanswered_witness :
  exists c1 e1 pings c2 e2,
    rounds ((2000000, []) :: late_example) (asking_example, quiet) = Some (None, (c1, e1)) /\ length pings = 5%nat /\
    e_trace e1 = map (Datagram (sin 5000 7)) pings /\ flush 2500000 (c1, e1) = Some (Some NO_ERROR, (c2, e2)) /\
    state c2 = KCP_STATE_DISCONNECTED /\ e_trace e2 = e_trace e1 ++ [OnError (Some 2) KEEPALIVE_ERROR].
Proof.
  destruct (heartbeat_unanswered 100000 2000000 [] late_example 2500000 asking_example quiet)
    as (c1 & e1 & pings & c2 & e2 & Hr & _ & _ & Hp & Ht & Hf & Hst & Ht2).
  { apply asking_example_ready. }
  1-6: by vm_compute.
  { constructor. }
  { unfold late_example. cbn [app spaced]. split; [lia|]. split; [by vm_compute|].
    split; [constructor; [split; by vm_compute|constructor]|].
    do 4 (split; [lia|]; split; [by vm_compute|]; split; [constructor|]). exact I. }
  { constructor. }
  { constructor. }
  exists c1, e1, pings, c2, e2. split; [exact Hr|]. split; [by rewrite <- (Forall2_length _ _ _ Hp)|].
  split; [exact Ht|]. split; [exact Hf|]. by split.
Defined.
