(* ===== verification/Periodic.v ===== *)
(** * Periodic: the write timer of a context

    One expiry of the write timer: [kcp_write_timeout] flushes every connection of
    the set that is due, each once, and leaves the others alone
    ([kcp_write_timeout_correct]). *)

From stdpp Require Import gmap.
From S2P Require Import Prelude RbTree Bytes Bitmap Xxhash Config Wire Types World Net Bbr Snd Recv Flush FlushSpec FlushPack Mtu MtuSpec Context ContextSpec Input InputSpec Events Api ApiSpec Exchange Transfer.

(** ** A flush leaves the identity of a connection *)

Lemma stable_if_full {V} (view : kcp_connection -> V) buffer : stable view (send_if_full buffer).
Proof. unfold send_if_full. steady. Qed.
Lemma stable_append_header {V} (view : kcp_connection -> V) h hb buffer : stable view (append_header h hb buffer).
Proof. unfold append_header. steady. Qed.
#[export] Hint Resolve stable_if_full stable_append_header : steady.

Lemma stable_flush_header {V} (view : kcp_connection -> V) cond h s : stable view (flush_header cond h s).
Proof. unfold flush_header. steady. Qed.
#[export] Hint Resolve stable_flush_header : steady.

Lemma lasting_flush_acks items c0 ts hb buffer : stable lasting (flush_acks items c0 ts hb buffer).
Proof. revert hb buffer. induction items as [|k items IH]; intros hb buffer; cbn [flush_acks]; steady. Qed.
#[export] Hint Resolve lasting_flush_acks : steady.

Lemma lasting_control ts : stable lasting (flush_control ts).
Proof. unfold flush_control, flush_window, flush_ping, flush_pong, on_kcp_ping_timeout, probe_window. cbv zeta. steady. Qed.

Lemma lasting_flush ts : stable lasting (flush ts).
Proof. unfold flush, flush_done. steady; first [apply lasting_control|apply lasting_flush_data]. Qed.

(** ** One connection that is due *)

(** The condition of [kcp_write_timeout]. *)
Definition due (now : Z) (c : kcp_connection) : bool :=
  need_write_timer_event c && negb (bool_decide (state c = KCP_STATE_DISCONNECTED)) && (ts_flush c <=? now / 1000).

(** A connection that may be flushed, whatever the environment. *)
Definition sendable (c : kcp_connection) : Prop := forall e, memory_available e -> flush_ready c e.

Lemma ready_sendable c e : flush_ready c e -> sendable c.
Proof. intros [H1 H2 H3 H4 _] e' He'. by constructor. Qed.

(** [c'] is [c] after its flush at [now]. *)
Definition flushed_at (now : Z) (c c' : kcp_connection) : Prop :=
  exists e1 res e2, memory_available e1 /\ flush now (c, e1) = Some (res, (c', e2)).

(** A datagram that goes to the peer of [c] and fits its MTU. *)
Definition to_peer (c : kcp_connection) (remote : sockaddr) (data : bytes) : Prop :=
  remote = remote_host c /\ Zlength data <= mtu c.

(** [e'] is [e] after some events, of which the datagrams are as [P] says. *)
Definition noted (P : sockaddr -> bytes -> Prop) (e e' : env) : Prop :=
  memory_available e' /\
  exists evs, e_trace e' = e_trace e ++ evs /\ forall remote data, Datagram remote data ∈ evs -> P remote data.

Lemma noted_refl P e : memory_available e -> noted P e e.
Proof. intros Hm. split; [done|]. exists []. rewrite app_nil_r. split; [done|]. by intros ? ? ?%elem_of_nil. Qed.

Lemma noted_trans P e1 e2 e3 : noted P e1 e2 -> noted P e2 e3 -> noted P e1 e3.
Proof.
  intros [_ (evs & H1 & P1)] [Hm (evs' & H2 & P2)]. split; [done|]. exists (evs ++ evs').
  rewrite H2, H1, app_assoc. split; [done|]. intros remote data [?|?]%elem_of_app; auto.
Qed.

Lemma noted_mono (P P' : sockaddr -> bytes -> Prop) e e' : (forall r d, P r d -> P' r d) -> noted P e e' -> noted P' e e'.
Proof. intros HP [Hm (evs & H1 & H2)]. split; [done|]. exists evs. eauto. Qed.

Lemma noted_silent P e e' : memory_available e -> e_trace e' = e_trace e -> e_malloc e' = e_malloc e -> noted P e e'.
Proof.
  intros Hm Ht He. split; [unfold memory_available in *; by rewrite He|]. exists []. rewrite app_nil_r.
  split; [done|]. by intros ? ? ?%elem_of_nil.
Qed.

Lemma noted_event P e ev : memory_available e -> (forall r d, ev <> Datagram r d) -> noted P e (e <| e_trace ::= (fun t => t ++ [ev]) |>).
Proof. intros Hm He. split; [done|]. exists [ev]. split; [done|]. intros r d Hin%list_elem_of_singleton. by destruct (He r d). Qed.

Lemma flush_end_wp P c e : memory_available e -> wp flush_end (fun _ s' => s'.1 = c /\ noted P e s'.2) (c, e).
Proof.
  intros Hm. unfold flush_end, flush_done. wp_step. wp_step. wp_step. apply wp_when.
  - intros _. apply wp_emit. wp_step. wp_step. wp_step. apply wp_when.
    + intros _. apply wp_emit, wp_ret. split; [done|]. eapply noted_trans; by apply noted_event.
    + intros _. apply wp_ret. split; [done|]. by apply noted_event.
  - intros _. wp_step. wp_step. wp_step. apply wp_when.
    + intros _. apply wp_emit, wp_ret. split; [done|]. by apply noted_event.
    + intros _. apply wp_ret. split; [done|]. by apply noted_refl.
Qed.

(** What the flush of the connection [c] at [a] leaves of the context. *)
Definition after_flush (now a : Z) (c : kcp_connection) (x : kcp_context) (e : env) (x' : kcp_context) (e' : env) : Prop :=
  exists c' ev, x' = x <| heap ::= <[a := c']> |> <| write_timer_event := ev |> /\
    flushed_at now c c' /\ lasting c' = lasting c /\ sendable c' /\ ctx_ok x' /\ noted (to_peer c) e e'.

Lemma flush_noted now c e :
  sendable c -> memory_available e ->
  exists res c' e', flush now (c, e) = Some (res, (c', e')) /\ flushed_at now c c' /\ lasting c' = lasting c /\ sendable c' /\
    noted (to_peer c) e e'.
Proof.
  intros Hc Hm. destruct (flush_safe c e now (Hc e Hm)) as (res & c' & e' & evs & Hrun & _ & Hr' & _ & _ & Ht & Hd).
  exists res, c', e'. split; [done|]. split; [by exists e, res, e'|]. split; [exact (lasting_flush now _ _ _ Hrun)|].
  split; [by eapply ready_sendable|]. split; [apply (ready_memory _ _ Hr')|]. by exists evs.
Qed.

Lemma write_event_due now a c x e :
  ctx_ok x -> heap x !! a = Some c -> sendable c -> memory_available e -> 0 < now ->
  wp (on_kcp_write_event a now) (fun _ s' => after_flush now a c x e s'.1 s'.2) (x, e).
Proof.
  intros Hx Hc Hs Hm Hnow. unfold on_kcp_write_event, on_kcp_write_timeout. destruct (Z.ltb_spec 0 now); [|lia].
  destruct (flush_noted now c e Hs Hm) as (res & c' & e' & Hrun & Hf & Hw & Hs' & Hn).
  assert (k_self c' = k_self c /\ dcid c' = dcid c) as [Hk Hd] by (unfold lasting in Hw; split; congruence).
  destruct (ctx_ok_conn x a c c' Hx Hc Hd Hk) as [Hx' _]. set (x1 := x <| heap ::= <[a := c']> |>) in *.
  wp_step. eapply wp_on_conn; [exact Hc|]. eapply wp_run; [exact Hrun|]. cbn [fst snd]. fold x1. destruct res as [code|].
  - wp_step. exists c', (write_timer_event x). split; [by destruct x|]. by split_and!.
  - destruct (refresh_ok x1 e' Hx') as (ev & e2 & Hr & Ht2 & Hm2 & _). wp_step. eapply wp_run; [exact Hr|].
    set (x2 := x1 <| write_timer_event := ev |>).
    assert (ctx_ok x2) as Hx2 by (by apply (ctx_ok_fields x1)).
    assert (heap x2 !! a = Some c') as Hc2 by apply lookup_insert_eq.
    assert (noted (to_peer c) e' e2) as Hn2 by (apply noted_silent; [apply Hn|done..]).
    eapply wp_on_conn; [exact Hc2|]. eapply wp_mono; [apply (flush_end_wp (to_peer c)); apply Hn2|].
    intros _ [c3 e3] [-> Hn3]. cbn [fst snd] in *. rewrite heap_set_same by done. exists c', ev.
    do 5 (split; [done|]). by eapply noted_trans, noted_trans.
Qed.

(** ** The walk over the set *)

(** [c'] is what the expiry at [now] makes of [c]. *)
Definition visited (now : Z) (c c' : kcp_connection) : Prop :=
  lasting c' = lasting c /\ sendable c' /\ if due now c then flushed_at now c c' else c' = c.

(** A datagram of a connection of [x0] that is due. *)
Definition of_due (now : Z) (x0 : kcp_context) (remote : sockaddr) (data : bytes) : Prop :=
  exists a c, a ∈ members x0 /\ heap x0 !! a = Some c /\ due now c = true /\ to_peer c remote data.

Section Walk.
Context (now : Z) (x0 : kcp_context) (e0 : env) (Hnow : 0 < now).
Context (Hready : forall a c, a ∈ members x0 -> heap x0 !! a = Some c -> sendable c).

(** The connections [l] have been visited. *)
Record walked (l : list Z) (x : kcp_context) (e : env) : Prop := {
  wk_ctx : ctx_ok x;
  wk_set : connection_set x = connection_set x0;
  wk_rest : forall a, a ∉ l -> heap x !! a = heap x0 !! a;
  wk_done : forall a c, a ∈ l -> heap x0 !! a = Some c -> exists c', heap x !! a = Some c' /\ visited now c c';
  wk_env : noted (of_due now x0) e0 e;
}.

Lemma walked_visit l a c c' x ev e e' :
  walked l x e -> a ∉ l -> heap x0 !! a = Some c -> visited now c c' -> noted (of_due now x0) e e' ->
  ctx_ok (x <| heap ::= <[a := c']> |> <| write_timer_event := ev |>) ->
  walked (l ++ [a]) (x <| heap ::= <[a := c']> |> <| write_timer_event := ev |>) e'.
Proof.
  intros [H1 H2 H3 H4 H5] Ha Hc Hv Hn. set (x' := x <| heap ::= _ |> <| write_timer_event := ev |>). intros Hx'. constructor; [done|done| | |by eapply noted_trans].
  - intros b Hb. rewrite not_elem_of_app, not_elem_of_cons in Hb. destruct Hb as (Hb & Hne & _).
    change (heap x') with (<[a := c']> (heap x)). rewrite lookup_insert_ne by done. by apply H3.
  - intros b d Hb Hd. change (heap x') with (<[a := c']> (heap x)).
    destruct (decide (b = a)) as [->|Hne]; [rewrite lookup_insert_eq; exists c'; split; [done|congruence]|].
    rewrite lookup_insert_ne by done. apply elem_of_app in Hb as [Hb|Hb%list_elem_of_singleton]; [by apply H4|done].
Qed.

(** One turn of the loop. *)
Lemma walk_step l a l2 x e (Q : unit -> kcp_context * env -> Prop) :
  members x0 = l ++ a :: l2 -> walked l x e ->
  (forall x' e', walked (l ++ [a]) x' e' -> Q tt (x', e')) ->
  exists c, heap x !! a = Some c /\ wp (if due now c then on_kcp_write_event a now;; mret tt else mret tt) Q (x, e).
Proof.
  intros Hm Hw HQ. pose proof Hw as [Hx Hset Hrest _ [Hmem _]].
  assert (a ∈ members x0 /\ a ∉ l) as [Ha Hnew].
  { assert (NoDup (members x0)) as Hnd.
    { unfold members. rewrite <- Hset. apply (ksorted_NoDup (dcid_at x)), (ctx_tree _ Hx). }
    rewrite Hm in Hnd |- *. apply NoDup_app in Hnd as (_ & Hd & _). split; [set_solver|]. intros Hl. apply (Hd a Hl). by left. }
  destruct (ctx_live _ Hx a) as [c Hc]; [by unfold members in *; rewrite Hset|].
  pose proof Hc as Hc0. rewrite Hrest in Hc0 by done. pose proof (Hready a c Ha Hc0) as Hs.
  exists c. split; [exact Hc|]. destruct (due now c) eqn:Hdue.
  - wp_step. eapply wp_mono; [by apply write_event_due|]. intros _ [x' e'] (c' & ev & Heq & Hf & Hwho & Hs' & Hx' & Hn). cbn [fst snd] in *. subst x'.
    apply wp_ret, HQ. apply (walked_visit l a c c' x ev e e'); try done.
    + unfold visited. by rewrite Hdue.
    + eapply noted_mono; [|exact Hn]. intros remote data Hp. by exists a, c.
  - apply wp_ret, HQ. assert (x = x <| heap ::= <[a := c]> |> <| write_timer_event := write_timer_event x |>) as ->.
    { rewrite heap_set_same by done. by destruct x. }
    apply (walked_visit l a c c x _ e e); try done; [unfold visited; by rewrite Hdue|by apply noted_refl|].
    rewrite heap_set_same by done. by destruct x.
Qed.

Lemma walk_loop l l2 x e :
  members x0 = l ++ l2 -> walked l x e ->
  wp (write_timeout_loop (length l2) (head l2) now) (fun _ s' => walked (members x0) s'.1 s'.2) (x, e).
Proof.
  revert l x e. induction l2 as [|a l2 IH]; intros l x e Hm Hw; cbn [write_timeout_loop head length].
  { rewrite app_nil_r in Hm. by rewrite Hm. }
  pose proof Hw as [Hx Hset _ _ _]. wp_step. wp_step. wp_step.
  rewrite (next_of_member x a l l2) by (done || (unfold members; by rewrite Hset)). wp_step. wp_step.
  destruct (walk_step l a l2 x e (fun _ s' => wp (write_timeout_loop (length l2) (head l2) now)
    (fun _ s' => walked (members x0) s'.1 s'.2) s') Hm Hw) as (c & Hc & Hstep).
  { intros x' e' Hw'. apply (IH (l ++ [a])); [by rewrite <- app_assoc|done]. }
  eapply wp_conn_at; [exact Hc|]. fold (due now c). wp_step. eapply wp_mono; [exact Hstep|]. by intros [] s'.
Qed.
End Walk.

(** C17: The expiry of the write timer, in a context whose connections
    may be sent: it ends and is never undefined; every connection of the set that asks
    for the timer, is not disconnected and whose flush is due is flushed at the time
    read, once, and every other one is unchanged; all keep their ids and peers and may
    be sent again, the set is the same and the context well formed; the datagrams sent
    are those of connections that were due, to their peers and within their MTU. *)
Theorem kcp_write_timeout_correct (now : Z) (x : kcp_context) (e e1 : env) :
  ctx_ok x -> memory_available e -> kcp_time_monotonic_us (x, e) = Some (now, (x, e1)) -> 0 < now ->
  (forall a c, a ∈ members x -> heap x !! a = Some c -> sendable c) ->
  exists x' e',
    kcp_write_timeout (x, e) = Some (tt, (x', e')) /\ ctx_ok x' /\ members x' = members x /\
    (forall a c, a ∈ members x -> heap x !! a = Some c -> exists c', heap x' !! a = Some c' /\ visited now c c') /\
    (forall a, a ∉ members x -> heap x' !! a = heap x !! a) /\ noted (of_due now x) e e'.
Proof.
  intros Hx Hm Hclock Hnow Hready.
  destruct (clock_us_run x e) as (now' & e1' & Hrun & Hsame & _). rewrite Hclock in Hrun. injection Hrun as <- <-.
  assert (noted (of_due now x) e e1) as Hn1 by (destruct Hsame as (? & ? & ?); by apply noted_silent).
  assert (walked now x e [] x e1) as Hstart by (constructor; done || intros ? ? ?%elem_of_nil; done).
  assert (wp kcp_write_timeout (fun _ s' => exists ev x1, walked now x e (members x) x1 s'.2 /\ ctx_ok s'.1 /\
    s'.1 = x1 <| write_timer_event := ev |>) (x, e)) as ([] & [x' e'] & Hr & ev & x1 & [H1 H2 H3 H4 H5] & Hx' & Heq)%wp_elim.
  { unfold kcp_write_timeout. wp_step. eapply wp_run; [exact Hclock|]. wp_step. wp_step. wp_step.
    unfold connection_first. rewrite rb_first_head.
    eapply wp_mono; [by apply (walk_loop now x e Hnow Hready [] (members x))|]. intros [] [x1 e2] Hw. cbn [fst snd] in Hw.
    pose proof (wk_ctx _ _ _ _ _ _ Hw) as Hx1. destruct (refresh_ok x1 e2 Hx1) as (ev & e3 & Hr & Ht & Hml & _).
    eapply wp_run; [exact Hr|]. exists ev, x1. cbn [fst snd]. split; [|split; [by apply (ctx_ok_fields x1)|done]].
    destruct Hw as [W1 W2 W3 W4 W5]. constructor; try done. eapply noted_trans; [exact W5|]. apply noted_silent; [apply W5|done..]. }
  cbn [fst snd] in *. subst x'. eexists _, e'. split; [exact Hr|]. split; [done|].
  split; [unfold members; by rewrite <- H2|]. split; [exact (fun a c => H4 a c)|]. split; [exact H3|exact H5].
Qed.

(** ** At a concrete context *)

(** The message of ten bytes is queued at the second of two connections, whose flush
    is due at 1.2 s; that of the first is due at 1.5 s. *)
Definition timer_first : kcp_connection := (peer_example 1 9 20 1500) <| mtu := 1430 |> <| rx_minrto := 100000 |> <| rx_rto := 200000 |>.
Definition timer_second : kcp_connection :=
  match kcp_send true [1; 2; 3; 4; 5; 6; 7; 8; 9; 10] (sender_example, quiet) with
  | Some (_, (c, _)) => c <| k_self := 2 |> <| dcid := 30 |> <| ts_flush := 1200 |> <| need_write_timer_event := true |>
  | None => zero_connection
  end.
Definition timer_context : kcp_context := context_example <| heap := <[1 := timer_first]> (<[2 := timer_second]> ∅) |>.
Definition later : env := quiet <| e_now := 1300000000 |>.

Lemma timer_context_ok : ctx_ok timer_context.
Proof.
  destruct (ctx_ok_conn context_example 1 (peer_example 1 9 20 1500) timer_first context_example_ok eq_refl eq_refl eq_refl) as [H1 _].
  destruct (ctx_ok_conn _ 2 (peer_example 2 11 30 1200) timer_second H1 eq_refl) as [H2 _]; [by vm_compute..|].
  assert (timer_context = context_example <| heap ::= <[1 := timer_first]> |> <| heap ::= <[2 := timer_second]> |>) as ->; [|done].
  by vm_compute.
Qed.

Lemma timer_sendable a c : a ∈ members timer_context -> heap timer_context !! a = Some c -> sendable c.
Proof.
  change (members timer_context) with [1; 2]. intros [->|[->|[]%elem_of_nil]%elem_of_cons]%elem_of_cons.
  - intros [= <-] e He. constructor; [by vm_compute|by vm_compute| |by vm_compute|done]. constructor; solve [by vm_compute | by apply SSorted_nil].
  - assert (heap timer_context !! 2 = Some timer_second) as -> by done. intros [= <-] e He.
    constructor; [by vm_compute| | |by vm_compute|done].
    { vm_compute. repeat (constructor; [by vm_compute|]). constructor. }
    constructor; solve [by vm_compute | by apply SSorted_nil].
Qed.

Lemma kcp_write_timeout_correct_witness :
  exists x' e' c,
    kcp_write_timeout (timer_context, later) = Some (tt, (x', e')) /\ ctx_ok x' /\
    heap x' !! 1 = Some timer_first /\ heap x' !! 2 = Some c /\ flushed_at 1300000 timer_second c /\ noted (of_due 1300000 timer_context) later e'.
Proof.
  destruct (kcp_write_timeout_correct 1300000 timer_context later later)
    as (x' & e' & Hrun & Hx & _ & Hall & _ & Hn).
  { apply timer_context_ok. }
  { constructor. }
  { by vm_compute. }
  { lia. }
  { exact timer_sendable. }
  assert (members timer_context = [1; 2]) as Hm by by vm_compute.
  destruct (Hall 1 timer_first) as (c1 & H1 & V1); [rewrite Hm; by left|reflexivity|].
  destruct (Hall 2 timer_second) as (c2 & H2 & V2); [rewrite Hm; right; by left|reflexivity|].
  unfold visited in V1, V2. assert (due 1300000 timer_first = false /\ due 1300000 timer_second = true) as [D1 D2] by (split; vm_compute; reflexivity).
  rewrite D1 in V1. rewrite D2 in V2. destruct V1 as (_ & _ & ->), V2 as (_ & _ & V2).
  exists x', e', c2. split; [exact Hrun|]. split; [exact Hx|]. split; [exact H1|]. split; [exact H2|]. by split.
Defined.
