(* ===== verification/Hostile.v ===== *)
(** * Hostile: datagrams nobody vouches for

    What datagrams with arbitrary contents do to an established connection.  Packets
    of the commands that serve it, whatever their fields, are handled without fault and
    leave the connection fit to go on ([hostile_datagrams_safe]), but that the round trip
    computed from the times of an ACK may overflow; and a few bytes after
    the last packet of a datagram make the parser read past its end
    ([trailing_bytes_overread]). *)

From stdpp Require Import gmap.
From S2P Require Import Prelude RbTree Bytes Bitmap Xxhash Config Wire Types World Net Bbr Snd Recv Flush FlushSpec FlushPack Mtu MtuSpec Context ContextSpec Input InputSpec Events Api ApiSpec Flaws Exchange Transfer Acknowledge Periodic.

(** ** One packet *)

(** The invariant of a connection whose peer may send anything. *)
Record sound (c : kcp_connection) : Prop := {
  so_sendable : sendable c;
  so_tx : is_u64 (tx_bytes c);
  so_mss : 0 < mss c;
}.

(** What [sound] reads of a connection. *)
Definition sound_view (c : kcp_connection) :=
  (mtu c, mss c, tx_bytes c, (snd_buf c, snd_queue c, snd_una c, snd_nxt c), (nsnd_buf c, nsnd_que c, rx_minrto c, rx_rto c)).

Lemma sound_same c c' : sound_view c' = sound_view c -> sound c -> sound c'.
Proof.
  intros [= E1 E2 E3 E4 E5 E6 E7 E8 E9 E10 E11] [Hs Ht Hm]. constructor; [|by rewrite E3|by rewrite E2].
  intros e He. destruct (Hs e He) as [H1 H2 H3 H4 H5]. constructor; rewrite ?E1, ?E4, ?E5, ?E7; try done.
  destruct H3. constructor; rewrite ?E4, ?E5, ?E6, ?E7, ?E8, ?E9, ?E10, ?E11; done.
Qed.

(** What a packet may leave: the connection in its role and sound, the environment
    with at most datagrams to the peer. *)
Definition served (c : kcp_connection) (e : env) (c' : kcp_connection) (e' : env) : Prop :=
  role c' = role c /\ sound c' /\ noted (fun remote _ => remote = remote_host c) e e'.

Lemma served_view c e c' e' :
  sound c -> role c' = role c -> sound_view c' = sound_view c -> noted (fun remote _ => remote = remote_host c) e e' -> served c e c' e'.
Proof. intros Hs Hr Hv Hn. split; [done|]. split; [by eapply sound_same|done]. Qed.

(** An acknowledgement of anything. *)
Lemma fits_acked m sn una l : Forall (fits m) l -> Forall (fits m) (map (bump sn) (List.filter (fun p => negb (is_acked sn una p)) l)).
Proof.
  intros Hl. apply Forall_map, Forall_forall. intros s Hs. apply list_elem_of_In, List.filter_In in Hs as [Hs%list_elem_of_In _].
  rewrite Forall_forall in Hl. destruct (Hl s Hs) as [H1 H2 H3]. unfold bump. by case_match.
Qed.

Lemma ack_any c e h t :
  sound c -> memory_available e -> state c <> KCP_STATE_DISCONNECTED -> h_cmd h = KCP_CMD_ACK -> header_ok h ->
  exists c' l, on_kcp_ack_pcaket h t (c, e) = Some (NO_ERROR, (c', with_flaws l e)) /\ role c' = role c /\ sound c'.
Proof.
  intros [Hs Ht Hm] He Hst Hc Hok. destruct Hok as (_ & _ & _ & _ & _ & _ & Hd). rewrite Hc in Hd.
  destruct (h_data h) as [ts sn psn una len data|packet_ts ts psn rsn|packet_ts ats sn una|packet_ts ts sn] eqn:E;
    try (exfalso; by destruct Hd as [Hd _]).
  pose proof (Hs e He) as [H1 H2 Hso H4 H5]. assert (mss c <> 0) as Hm' by lia.
  destruct (ack_run c e h packet_ts ats sn una t Hso Ht Hm' Hst E) as (c' & Hrun & Hok & Hnxt & Hq & _ & Hmm & Hres).
  injection Hmm as E1 E2. eexists c', _. split; [done|]. split; [exact (steady_ack _ _ _ _ _ Hrun)|].
  assert (is_u64 (tx_bytes c') /\ Forall (fits (mtu c)) (snd_buf c')) as [Ht' Hf].
  { apply Forall_app in H2 as [H2 _]. destruct (_ && _); [|by rewrite Hres].
    destruct Hres as [-> ->]. split; [apply u64_range|by apply fits_acked]. }
  constructor; [|done|by rewrite E1]. intros e' He'. apply Forall_app in H2 as [_ H2].
  constructor; [by rewrite E2|rewrite E2, Hq; by apply Forall_app|done|by rewrite Hnxt, Hq|done].
Qed.

(** A PUSH of anything. *)
Lemma noted_silent2 P e e1 e2 : noted P e e1 -> silent e1 e2 -> memory_available e2 -> noted P e e2.
Proof. intros [_ (evs & H1 & H2)] [Ht _] Hm. split; [done|]. exists evs. by rewrite Ht. Qed.

Lemma noted_told P e e1 ev : noted P e e1 -> (forall r d, ev <> Datagram r d) -> noted P e (e1 <| e_trace ::= (fun t => t ++ [ev]) |>).
Proof. intros Hn Hev. eapply noted_trans; [exact Hn|]. apply noted_event; [apply Hn|done]. Qed.

Lemma push_fragment_runs P packet seg c e e0 :
  noted P e0 e -> wp (push_fragment packet seg) (fun _ s' => noted P e0 s'.2) (c, e).
Proof.
  intros Hn. unfold push_fragment, deliver_first. wp_step.
  destruct (sg_frg seg =? 0); repeat wp_step; destruct (rcv_packet_list _); repeat wp_step; first [done | by apply noted_told].
Qed.

(** The segment is linked, or put back. *)
Lemma link_runs P segment t sn psn c e e0 :
  noted P e0 e ->
  wp (c ← get;
      match kcp_rcv_segment_search c sn with
      | Some _ => mods (fun c => ack_item_drop_last (kcp_segment_recv_put c segment));; mret NO_ERROR
      | None =>
          packet ← (match kcp_rcv_packet_search c psn with
                    | Some packet => mret (Some packet)
                    | None => kcp_rcv_packet_create psn (u32 (sn - sg_frg segment))
                    end);
          match packet with
          | None => mods (fun c => ack_item_drop_last (kcp_segment_recv_put c segment));; mret NO_MEMORY
          | Some packet => push_fragment packet segment
          end
      end) (fun _ s' => noted P e0 s'.2) (c <| ack_item ::= (fun l => l ++ [KcpAck sn psn t]) |>, e).
Proof.
  intros Hn. wp_step. wp_step. destruct (kcp_rcv_segment_search _ sn); [by repeat wp_step|]. wp_step.
  destruct (kcp_rcv_packet_search _ psn); [wp_step; by apply push_fragment_runs|].
  unfold kcp_rcv_packet_create. wp_step. apply wp_malloc; [apply Hn|]. intros e2 He2 Hm2. wp_step. wp_step. wp_step.
  apply push_fragment_runs. by eapply noted_silent2.
Qed.

Lemma push_runs P h t c e :
  memory_available e -> (exists ts sn psn una len data, h_data h = packet_data ts sn psn una len data) ->
  fst (payload (h_data h)) <= SEGMENT_ROOM ->
  wp (on_kcp_push_pcaket h t) (fun _ s' => noted P e s'.2) (c, e).
Proof.
  intros Hm (ts & sn & psn & una & len & data & Hd) Hroom. rewrite Hd in Hroom. cbn [payload fst] in Hroom. pose proof (noted_refl P e Hm) as Hn.
  unfold on_kcp_push_pcaket. wp_step. wp_step. wp_step. wp_step. rewrite Hd.
  wp_step; [by wp_step; wp_step; wp_step|]. wp_step; [by wp_step|]. wp_step.
  apply wp_malloc; [done|]. intros e1 He1 Hm1. pose proof (noted_silent2 _ _ _ _ Hn He1 Hm1) as Hn1. cbn [negb]. wp_step.
  unfold kcp_segment_recv_get. wp_step. wp_step. destruct (rcv_buf_unused _) as [|s l].
  - wp_step. apply wp_malloc; [done|]. intros e2 He2 Hm2. wp_step. wp_step. wp_step. destruct (Z.ltb_spec SEGMENT_ROOM len); [lia|]. apply link_runs. by eapply noted_silent2.
  - wp_step. wp_step. wp_step. wp_step. wp_step. destruct (Z.ltb_spec SEGMENT_ROOM len); [lia|]. by apply link_runs.
Qed.

Lemma push_any h t c e :
  sound c -> memory_available e -> (exists ts sn psn una len data, h_data h = packet_data ts sn psn una len data) ->
  fst (payload (h_data h)) <= SEGMENT_ROOM ->
  wp (on_kcp_push_pcaket h t) (fun _ s' => served c e s'.1 s'.2) (c, e).
Proof.
  intros Hs Hm Hd Hroom. destruct (wp_elim _ _ _ (push_runs (fun remote _ => remote = remote_host c) h t c e Hm Hd Hroom)) as (r & s' & Hrun & Hn).
  eapply wp_run; [exact Hrun|]. apply served_view; [done|exact (steady_push h t _ _ _ Hrun)| |exact Hn].
  assert (stable sound_view (on_kcp_push_pcaket h t)) as Hst by by apply push_stable. exact (Hst _ _ _ Hrun).
Qed.

(** A datagram to the peer, whatever the kernel makes of it. *)
Lemma send_runs c d e :
  d <> [] -> memory_available e ->
  wp (kcp_send_packet c [d]) (fun _ s' => s'.1 = c /\ noted (fun remote _ => remote = remote_host c) e s'.2) (c, e).
Proof.
  intros Hd Hm. apply kcp_send_packet_wp; [by repeat constructor|done|done|]. intros n st e' _ Ha _. split; [done|]. cbn [snd].
  split; [unfold memory_available in *; by rewrite (after_send_malloc _ _ _ Ha)|].
  eexists. split; [exact (after_send_trace _ _ _ Ha)|]. intros remote data Hin.
  unfold datagrams in Hin. apply list_elem_of_fmap in Hin as (y & [= -> _] & _). done.
Qed.

(** The answer to a probe of anything. *)
Lemma probe_runs h t c e :
  memory_available e -> is_u64 t -> header_ok h -> (exists ts sn psn una len data, h_data h = packet_data ts sn psn una len data) ->
  wp (kcp_mtu_probe_received h t) (fun _ s' => s'.1 = c /\ noted (fun remote _ => remote = remote_host c) e s'.2) (c, e).
Proof.
  intros Hm Ht Hok (ts & sn & psn & una & len & data & Hd). destruct Hok as (Hs1 & Hs2 & _ & _ & _ & _ & Hdata).
  unfold kcp_mtu_probe_received. rewrite Hd in *. destruct Hdata as (_ & _ & _ & _ & Hsn & _).
  wp_step. unfold wp at 1. unfold uninitialised. destruct (next [] (e_uninit e)) as [l rest].
  set (buf := map u8 _). set (hd := KcpProtoHeader _ _ _ _ _ _ _ _). set (e1 := e <| e_uninit := rest |>).
  assert (length buf = 40%nat) as Hlen.
  { unfold buf. rewrite length_map, length_take, length_app, length_replicate. lia. }
  assert (header_ok hd) as Hhd.
  { unfold hd, header_ok. cbn. split; [exact Hs2|]. split; [exact Hs1|]. split; [done|]. split; [done|]. split; [done|]. split; [done|].
    split_and!; try done || apply Ht || apply Hsn || by rewrite Zlength_le_split. }
  pose proof (encode_image hd buf [] Hhd) as Henc. rewrite app_nil_r in Henc.
  specialize (Henc ltac:(unfold Zlength; by rewrite Hlen)). change (Z.land (h_opt hd) KCP_CMD_OPT =? 0) with true in Henc. cbn [negb] in Henc.
  wp_step. eapply wp_deref; [exact Henc|]. wp_step. wp_step. wp_step. eapply wp_mono.
  { apply (send_runs c _ e1); [|done]. cbn [snd]. intros E. apply (f_equal length) in E. rewrite length_app, length_header_image in E. done. }
  intros st [c1 e2] [H1 H2]. by wp_step.
Qed.

(** ** The handler *)

(** A packet of the connection that neither opens nor closes it, whose data fit a
    segment, as those of any datagram that is read do. *)
Record serving (peer own : Z) (h : kcp_proto_header) : Prop := {
  sv_ids : h_scid h = peer /\ h_dcid h = own;
  sv_header : header_ok h;
  sv_command : h_cmd h ∉ [KCP_CMD_SYN; KCP_CMD_FIN; KCP_CMD_RST; KCP_CMD_MTU_ACK];
  sv_room : fst (payload (h_data h)) <= SEGMENT_ROOM;
}.

Lemma packet_shape h :
  header_ok h -> h_cmd h = KCP_CMD_PUSH \/ h_cmd h = KCP_CMD_MTU_PROBE ->
  exists ts sn psn una len data, h_data h = packet_data ts sn psn una len data.
Proof.
  intros (_ & _ & _ & _ & _ & _ & Hd) Hc. destruct (h_data h); [by eauto 7|..]; exfalso;
    destruct Hc as [E|E]; rewrite E in Hd; by destruct Hd as [Hd _].
Qed.

Lemma ping_shape h :
  header_ok h -> is_ping_pong (h_cmd h) = true -> exists packet_ts ts sn, h_data h = ping_data packet_ts ts sn.
Proof.
  intros (_ & _ & _ & _ & _ & _ & Hd) Hc. destruct (h_data h); [..|by eauto]; exfalso; cbn in Hd.
  - destruct Hd as (_ & _ & Hd & _). congruence.
  - destruct Hd as [Hd _]. unfold is_ping_pong in Hc. apply orb_true_iff in Hc as [E|E]; apply Z.eqb_eq in E; by rewrite E in Hd.
  - destruct Hd as [Hd _]. by rewrite Hd in Hc.
Qed.

Lemma sound_on_pong ts t p sn c : sound_view (on_pong ts t p sn c) = sound_view c.
Proof.
  assert (forall q c, sound_view (fold_left (pong_request ts t p sn) q c) = sound_view c) as Hf; [|exact (Hf _ c)].
  intros q. induction q as [|r q IH]; intros c1; cbn [fold_left]; [done|]. rewrite IH. unfold pong_request. by case_match.
Qed.

Lemma input_serving peer own h c e :
  serving peer own h -> sound c -> state c = KCP_STATE_CONNECTED -> memory_available e ->
  wp (kcp_input_pcaket h) (fun _ s' => served c e s'.1 s'.2) (c, e).
Proof.
  intros [_ Hok Hcmd Hroom] Hs Hst Hm. rewrite !not_elem_of_cons in Hcmd. destruct Hcmd as (_ & Hfin & _ & Hack & _).
  unfold kcp_input_pcaket. wp_step. apply wp_clock_us; [done|]. intros t e1 Ht He1 Hm1.
  pose proof (noted_silent2 (fun remote _ => remote = remote_host c) e e e1 (noted_refl _ e Hm) He1 Hm1) as Hn.
  assert (forall c' : kcp_connection, role c' = role c -> sound_view c' = sound_view c -> served c e c' e1) as Hview.
  { intros c' Hr Hv. by apply served_view. }
  cbv zeta. destruct (Z.eqb_spec (h_cmd h) KCP_CMD_ACK) as [E|_].
  { wp_step. wp_step. set (c1 := c <| rmt_wnd := h_wnd h |>). assert (sound c1) as Hs1 by by apply (sound_same c).
    assert (state c1 <> KCP_STATE_DISCONNECTED) as Hst1 by (change (state c1) with (state c); by rewrite Hst).
    destruct (ack_any c1 e1 h t Hs1 Hm1 Hst1 E Hok) as (c' & l & Hrun & Hr & Hs'). eapply wp_run; [exact Hrun|]. by split. }
  destruct (Z.eqb_spec (h_cmd h) KCP_CMD_PUSH) as [E|_].
  { assert (forall c1, role c1 = role c -> sound_view c1 = sound_view c ->
      wp (on_kcp_push_pcaket h t) (fun _ s' => served c e s'.1 s'.2) (c1, e1)) as Hpush.
    { intros c1 Hr1 Hv1. assert (remote_host c1 = remote_host c) as Hrem by (unfold role in Hr1; congruence).
      eapply wp_mono; [apply push_any; [by apply (sound_same c)|done|apply packet_shape; [done|by left]|exact Hroom]|].
      intros _ s' (H1 & H2 & H3). rewrite Hrem in H3. split; [congruence|]. split; [done|]. by eapply noted_trans. }
    wp_step. wp_step; [wp_step|]; by apply Hpush. }
  destruct (Z.eqb_spec (h_cmd h) KCP_CMD_WASK); [wp_step; wp_step; wp_step; by apply Hview|].
  destruct (Z.eqb_spec (h_cmd h) KCP_CMD_WINS); [wp_step; wp_step; wp_step; by apply Hview|].
  destruct (Z.eqb_spec (h_cmd h) KCP_CMD_PING) as [E|_].
  { destruct (ping_shape h Hok) as (packet_ts & ts & sn & ->); [by rewrite E|]. wp_step. wp_step. wp_step. by apply Hview. }
  destruct (Z.eqb_spec (h_cmd h) KCP_CMD_PONG) as [E|_].
  { destruct (ping_shape h Hok) as (packet_ts & ts & sn & ->); [by rewrite E|]. wp_step. wp_step. wp_step.
    apply Hview; [apply role_on_pong|apply sound_on_pong]. }
  destruct (Z.eqb_spec (h_cmd h) KCP_CMD_MTU_PROBE) as [E|_].
  { eapply wp_mono; [apply probe_runs; [done|done|done|apply packet_shape; [done|by right]]|].
    intros _ [c' e'] [-> Hn']. split; [done|]. split; [done|]. by eapply noted_trans. }
  destruct (Z.eqb_spec (h_cmd h) KCP_CMD_MTU_ACK); [done|]. destruct (Z.eqb_spec (h_cmd h) KCP_CMD_FIN); [done|].
  wp_step. by apply Hview.
Qed.

(** ** Datagrams *)

(** A datagram whose packets serve the connection: no option bit is set, and what is
    left after a packet is nothing or another header.  A packet the parser refuses
    ends it. *)
Inductive well_cut (peer own : Z) (data : bytes) : Prop :=
| well_cut_packet :
    KCP_HEADER_SIZE <= Zlength data -> Z.land (Z.shiftr (nth 4 data 0) 4) 15 = 0 ->
    (forall h rest, kcp_proto_parse data = OK h rest ->
       h_scid h = peer /\ h_dcid h = own /\ h_cmd h ∉ [KCP_CMD_SYN; KCP_CMD_FIN; KCP_CMD_RST; KCP_CMD_MTU_ACK] /\
       (rest = [] \/ well_cut peer own rest)) ->
    well_cut peer own data.

Section Hostile.
Context (cb : sockaddr -> io kcp_context bool) (a : Z) (src : sockaddr) (peer own : Z).
Context (x0 : kcp_context) (c0 : kcp_connection) (e0 : env).

(** The context while the datagrams arrive. *)
Definition withstands (x : kcp_context) (e : env) : Prop :=
  exists c, x = x0 <| heap ::= <[a := c]> |> /\ live a src peer own x c /\ served c0 e0 c e /\
    adds (fun f => f = SignedOverflow) e0 e.

Lemma handle_serving h x e :
  serving peer own h -> withstands x e -> wp (handle_packet cb h src) (fun f s' => f = Continue /\ withstands s'.1 s'.2) (x, e).
Proof.
  intros Hh (c & Hx & Hl & (Hr & Hs & Hn) & Hf). pose proof (sv_ids _ _ _ Hh) as [H1 H2].
  pose proof (sv_command _ _ _ Hh) as Hcmd. rewrite !not_elem_of_cons in Hcmd. destruct Hcmd as (Hsyn & Hfin & Hrst & Hack & _).
  eapply wp_connected_packet; [exact Hl|done..|].
  eapply wp_mono; [eapply wp_flaws; [by apply (flaws_input (fun f => f = SignedOverflow))|];
    apply (input_serving peer own); [done|done|apply (live_state _ _ _ _ _ _ _ Hl)|apply Hn]|].
  intros _ [c' e'] [(Hr' & Hs' & Hn') Hf']. cbn [fst snd] in *. split; [exact Hr'|]. split; [done|]. exists c'.
  split; [by rewrite Hx, heap_set_twice|]. split; [by eapply live_update|].
  split; [|by eapply adds_trans]. split; [congruence|]. split; [done|].
  assert (remote_host c = remote_host c0) as E by (unfold role in Hr; congruence). rewrite E in Hn'. by eapply noted_trans.
Qed.

Lemma well_cut_mallocs data : well_cut peer own data -> parse_mallocs data = 0%nat.
Proof. intros [_ Ho _]. unfold parse_mallocs. by rewrite Ho. Qed.

Lemma parse_well_cut data :
  well_cut peer own data -> bytes_ok data -> Zlength data <= ETHERNET_MTU ->
  (exists code, kcp_proto_parse data = ERR code) \/
  (exists h rest, kcp_proto_parse data = OK h rest /\ serving peer own h /\ (rest = [] \/ well_cut peer own rest) /\
     bytes_ok rest /\ (length rest < length data)%nat).
Proof.
  intros [Hl Ho Hcut] Hb Hm. pose proof (parse_total data Hb ltac:(unfold ETHERNET_MTU in Hm; lia) Ho) as Hp.
  destruct (kcp_proto_parse data) as [h rest|code|]; [|by left; exists code|done]. right. exists h, rest.
  destruct Hp as (Hok & _ & Hrest & Hsz). destruct (Hcut h rest eq_refl) as (H1 & H2 & H3 & H4).
  destruct (length_payload h Hok) as [_ [Hpl _]].
  split; [done|]. split; [constructor; try done; unfold header_size, KCP_HEADER_SIZE, SEGMENT_ROOM, ETHERNET_MTU in *; lia|].
  split; [done|]. rewrite Hrest. split; [by apply Forall_drop|]. rewrite length_drop. unfold header_size, KCP_HEADER_SIZE, Zlength in *. lia.
Qed.

Lemma parse_loop_serving fuel data x e :
  well_cut peer own data -> bytes_ok data -> Zlength data <= ETHERNET_MTU -> (length data <= fuel)%nat -> withstands x e ->
  wp (parse_packet_loop cb fuel data src) (fun _ s' => withstands s'.1 s'.2) (x, e).
Proof.
  revert data x e. induction fuel as [|fuel IH]; intros data x e Hc Hb Hm Hf Hw.
  { destruct Hc as [Hl _ _]. unfold KCP_HEADER_SIZE, Zlength in *. lia. }
  cbn [parse_packet_loop]. rewrite well_cut_mallocs by done. wp_step. apply wp_ret.
  destruct (parse_well_cut data Hc Hb Hm) as [[code ->]|(h & rest & -> & Hh & Hrest & Hbr & Hlt)]; [by wp_step|].
  wp_step. eapply wp_mono; [by apply handle_serving|]. intros f [x1 e1] [-> Hw1]. cbn [fst snd] in Hw1.
  destruct Hrest as [-> |Hrest]; [by wp_step|]. destruct rest as [|b rest]; [by wp_step|].
  apply IH; [done|done| |lia|done]. unfold Zlength in *. lia.
Qed.

Lemma parse_hostile data x e :
  Zlength data < KCP_HEADER_SIZE \/ well_cut peer own data -> bytes_ok data -> Zlength data <= ETHERNET_MTU -> withstands x e ->
  wp (kcp_parse_packet cb data src) (fun _ s' => withstands s'.1 s'.2) (x, e).
Proof.
  intros Hd Hb Hm Hw. unfold kcp_parse_packet. destruct (kcp_is_text_probe_packet data); [by wp_step|].
  destruct (Z.ltb_spec (Zlength data) KCP_HEADER_SIZE); [by wp_step|]. destruct Hd as [Hd|Hd]; [lia|].
  by apply parse_loop_serving.
Qed.

Lemma receive_hostile ds x e :
  Forall (fun d => bytes_ok d /\ Zlength d <= ETHERNET_MTU /\ (Zlength d < KCP_HEADER_SIZE \/ well_cut peer own d)) ds ->
  withstands x e -> wp (receive cb src ds) (fun _ s' => withstands s'.1 s'.2) (x, e).
Proof.
  intros Hds. revert x e. induction Hds as [|d ds (Hb & Hd & Hc) _ IH]; intros x e Hw; cbn [receive]; [by wp_step|].
  wp_step. eapply wp_mono; [by apply parse_hostile|]. intros _ [x2 e2] Hw2. by apply IH.
Qed.
End Hostile.

Lemma withstands_start a src peer own x c e :
  live a src peer own x c -> sound c -> memory_available e -> withstands a src peer own x c e x e.
Proof.
  intros Hl Hs Hm. exists c. split; [symmetry; apply heap_set_same, (live_heap _ _ _ _ _ _ _ Hl)|]. split; [done|].
  split; [|apply adds_refl]. do 2 (split; [done|]). by apply noted_refl.
Qed.

(** C6: Nothing a peer can put in the packets of an established
    connection hurts it: any number of datagrams with any contents, whose packets are
    of a command that serves the connection (not SYN, FIN, RST or an answer to a probe),
    without options and with nothing but packets in the datagram, are read without
    fault; the connection stays connected in its place, sound, so that the next flush
    is safe, no other connection is touched, and what is sent meanwhile goes to the
    peer.  Numbers, lengths, fragment counts and times are the attacker's choice.  Of
    the signed arithmetic on them the record of flaws tells: no assertion fails, but an
    int32_t may overflow, as the round trip of an ACK whose times are far apart does,
    and the connection is sound on the builds that wrap around. *)
Theorem hostile_datagrams_safe (cb : sockaddr -> io kcp_context bool) (a : Z) (src : sockaddr) (peer own : Z)
    (x : kcp_context) (e : env) (c : kcp_connection) (ds : list bytes) :
  live a src peer own x c -> sound c -> memory_available e ->
  Forall (fun d => bytes_ok d /\ Zlength d <= ETHERNET_MTU /\ (Zlength d < KCP_HEADER_SIZE \/ well_cut peer own d)) ds ->
  exists x' e' c', kcp_read_cb cb [] (map (Received src) ds) (x, e) = Some (tt, (x', e')) /\ x' = x <| heap ::= <[a := c']> |> /\
    live a src peer own x' c' /\ sound c' /\ noted (fun remote _ => remote = remote_host c) e e' /\
    (exists l, e_flaws e' = e_flaws e ++ l /\ Forall (fun f => f = SignedOverflow) l) /\
    forall ts, exists res c2 e2, flush ts (c', e') = Some (res, (c2, e2)) /\ sendable c2.
Proof.
  intros Hl Hs Hm Hds.
  pose proof (withstands_start a src peer own x c e Hl Hs Hm) as Hstart.
  destruct (wp_elim _ _ _ (receive_hostile cb a src peer own x c e ds x e Hds Hstart))
    as ([] & [x' e'] & Hrun & c' & Hx & Hl' & (_ & Hs' & Hn) & Hf).
  cbn [fst snd] in *. rewrite <- receive_read_cb in Hrun by (eapply Forall_impl; [exact Hds|]; by intros d (_ & ? & _)).
  exists x', e', c'. do 6 (split; [done|]).
  intros ts. destruct (flush_safe c' e' ts (so_sendable _ Hs' e' (proj1 Hn))) as (res & c2 & e2 & evs & Hrun2 & _ & Hr2 & _).
  exists res, c2, e2. split; [done|]. by eapply ready_sendable.
Qed.

(** ** What comes after the last packet *)

Ltac next_load :=
  match goal with |- load ?n ?d _ = OOB => unfold load at 1; destruct (Nat.ltb_spec (length d) n); [done|]; rewrite ?length_drop in * end.

Lemma parse_body_short cmd size rest : (length rest < 24)%nat -> parse_body cmd size rest = OOB.
Proof. intros Hl. unfold parse_body. repeat case_match; repeat next_load; lia. Qed.

(** Less than a header is never parsed: the loads go past its end. *)
Lemma parse_short data : Zlength data < KCP_HEADER_SIZE -> kcp_proto_parse data = OOB.
Proof.
  unfold kcp_proto_parse, KCP_HEADER_SIZE, Zlength. intros Hl. repeat next_load.
  rewrite parse_body_short; [done|]. rewrite !length_drop in *. lia.
Qed.

(** C7: The loop over the packets of a datagram does not look at how
    much is left: any packet that serves the connection, followed by one to 31 bytes,
    makes the parser load the fields of a header past the end of the datagram; what it
    finds there is taken as a header, and the test of the length of its data lets any
    length pass, because data_size - KCP_HEADER_SIZE wraps around. *)
Theorem trailing_bytes_overread (cb : sockaddr -> io kcp_context bool) (a : Z) (src : sockaddr) (peer own : Z)
    (x : kcp_context) (e : env) (c : kcp_connection) (h : kcp_proto_header) (tail : bytes) :
  live a src peer own x c -> sound c -> memory_available e ->
  serving peer own h -> h_opt h = 0 -> h_options h = [] -> h_cmd h <> 15 -> 0 < Zlength tail < KCP_HEADER_SIZE ->
  kcp_parse_packet cb (header_image h 0 ++ tail) src (x, e) = None /\
  kcp_proto_parse tail = OOB /\ forall len, is_u32 len -> (u64 (Zlength tail - KCP_HEADER_SIZE) <? len) = false.
Proof.
  intros Hl Hs Hm Hh Ho Hopts Hc Ht. pose proof (sv_header _ _ _ Hh) as Hok. destruct (length_payload h Hok) as [Hp1 Hp2].
  assert (kcp_proto_parse (header_image h 0 ++ tail) = OK h tail) as Hp.
  { rewrite parse_image; [|done|unfold header_size, KCP_HEADER_SIZE in *; lia]. rewrite Ho. destruct h; cbn in *. by subst. }
  split; [|split; [apply parse_short; lia|]].
  - unfold kcp_parse_packet. rewrite (parse_not_text _ h tail) by done.
    assert (KCP_HEADER_SIZE <= Zlength (header_image h 0)) as Hlen.
    { unfold Zlength. rewrite length_header_image. unfold KCP_HEADER_SIZE. lia. }
    rewrite Zlength_app. destruct (Z.ltb_spec (Zlength (header_image h 0) + Zlength tail) KCP_HEADER_SIZE); [lia|].
    rewrite length_app. destruct (length (header_image h 0) + length tail)%nat as [|fuel] eqn:Ef; [unfold KCP_HEADER_SIZE, Zlength in *; lia|].
    cbn [parse_packet_loop]. rewrite (parse_mallocs_none _ _ _ Hp Ho), Hp. cbn [mallocs_unchecked].
    match goal with |- (mret tt ≫= ?k) _ = _ => rewrite (bind_eq (mret tt) k _ tt _ eq_refl) end.
    pose proof (withstands_start a src peer own x c e Hl Hs Hm) as Hw.
    destruct (wp_elim _ _ _ (handle_serving cb a src peer own x c e h x e Hh Hw)) as (f & s' & Hrun & -> & _).
    rewrite (bind_eq _ _ _ _ _ Hrun). destruct tail as [|b tail]; [by destruct Ht|].
    destruct fuel as [|fuel]; cbn [parse_packet_loop]; [reflexivity|]. rewrite parse_short by lia.
    unfold mbind, ST_bind. by destruct (mallocs_unchecked _ _) as [[]|].
  - intros len Hlen. apply Z.ltb_ge. destruct Hlen. unfold KCP_HEADER_SIZE, u64 in *.
    assert ((Zlength tail - 32) mod 18446744073709551616 = Zlength tail - 32 + 18446744073709551616) as ->; [|lia].
    symmetry. apply (Z.mod_unique_pos _ _ (-1)); lia.
Qed.

(** ** At a concrete connection *)

Definition victim : kcp_connection := acked_receiver <| mss := 1398 |> <| rx_minrto := 100000 |> <| rx_rto := 200000 |>
  <| snd_buf := snd_buf snd_example |> <| nsnd_buf := 3 |> <| snd_una := 5 |> <| snd_nxt := 8 |>.
Definition victim_context : kcp_context := context_example <| heap ::= <[1 := victim]> |>.

Lemma victim_live : live 1 (sin 4000 9) 20 30 victim_context victim.
Proof. by apply (example_live 1 20 30 (sin 4000 9) (peer_example 1 9 20 1500)). Qed.

Lemma victim_sound : sound victim.
Proof.
  constructor; [|by vm_compute|by vm_compute]. intros e He.
  constructor; [by vm_compute| | |by vm_compute|done]; [by repeat (constructor; [by constructor; vm_compute|])|].
  constructor; solve [by vm_compute | by repeat constructor].
Qed.

(** An acknowledgement of what was never sent, in one datagram with a fragment 7 of a
    message that claims 65535 of them; three bytes; a packet of an unknown command; the
    acknowledgement of a segment in flight, half an hour after it was received. *)
Definition hostile_example : list bytes :=
  let header cmd frg wnd d := header_image (KcpProtoHeader 20 30 cmd 0 frg wnd d []) 0 in
  [header KCP_CMD_ACK 0 0 (ack_data 7 (2 ^ 64 - 1) (2 ^ 32 - 1) (2 ^ 32 - 1)) ++
   header KCP_CMD_PUSH 7 65535 (packet_data 0 12 4000000000 99 3 [1; 2; 3]);
   [1; 2; 3];
   header 14 255 1 (packet_data 1 2 3 4 0 []);
   header KCP_CMD_ACK 0 128 (ack_data 0 (2 ^ 31) 6 5)].

Lemma hostile_example_cut :
  Forall (fun d => bytes_ok d /\ Zlength d <= ETHERNET_MTU /\ (Zlength d < KCP_HEADER_SIZE \/ well_cut 20 30 d)) hostile_example.
Proof.
  assert (forall d, forallb (fun b => (0 <=? b) && (b <? 256)) d = true -> bytes_ok d) as Hb.
  { intros d Hd. apply Forall_forall. intros b Hin. rewrite forallb_forall in Hd. apply list_elem_of_In, Hd in Hin.
    apply andb_true_iff in Hin as [?%Z.leb_le ?%Z.ltb_lt]. by split. }
  assert (forall k, k ∈ [KCP_CMD_ACK; KCP_CMD_PUSH; 14] -> k ∉ [KCP_CMD_SYN; KCP_CMD_FIN; KCP_CMD_RST; KCP_CMD_MTU_ACK]) as Hk.
  { intros k Hin. rewrite !elem_of_cons in Hin. rewrite !not_elem_of_cons. destruct Hin as [->|[->|[->|[]%elem_of_nil]]];
      (split_and!; [done..|apply not_elem_of_nil]). }
  constructor; [|constructor; [|constructor; [|constructor; [|constructor]]]].
  - split; [by apply Hb|]. split; [by vm_compute|]. right. constructor; [by vm_compute|by vm_compute|]. intros h rest Hp. vm_compute in Hp.
    injection Hp as <- <-. do 2 (split; [done|]). split; [apply Hk; by left|]. right. constructor; [by vm_compute|by vm_compute|].
    intros h rest Hp. vm_compute in Hp. injection Hp as <- <-. do 2 (split; [done|]). split; [apply Hk; right; by left|by left].
  - split; [by apply Hb|]. split; [by vm_compute|]. by left.
  - split; [by apply Hb|]. split; [by vm_compute|]. right. constructor; [by vm_compute|by vm_compute|]. intros h rest Hp. vm_compute in Hp.
    injection Hp as <- <-. do 2 (split; [done|]). split; [apply Hk; right; right; by left|by left].
  - split; [by apply Hb|]. split; [by vm_compute|]. right. constructor; [by vm_compute|by vm_compute|]. intros h rest Hp. vm_compute in Hp.
    injection Hp as <- <-. do 2 (split; [done|]). split; [apply Hk; by left|by left].
Qed.

Lemma hostile_datagrams_safe_witness :
  exists x' e' c', kcp_read_cb (fun _ => mret true) [] (map (Received (sin 4000 9)) hostile_example) (victim_context, quiet) = Some (tt, (x', e')) /\
    heap x' !! 1 = Some c' /\ state c' = KCP_STATE_CONNECTED /\ sound c' /\ length (rcv_packet_list c') = 1%nat /\
    length (snd_buf c') = 2%nat /\ e_flaws e' = [SignedOverflow].
Proof.
  destruct (hostile_datagrams_safe (fun _ => mret true) 1 (sin 4000 9) 20 30 victim_context quiet victim hostile_example)
    as (x' & e' & c' & Hrun & _ & Hl & Hs & _).
  { apply victim_live. }
  { apply victim_sound. }
  { constructor. }
  { apply hostile_example_cut. }
  exists x', e', c'. split; [exact Hrun|]. split; [apply (live_heap _ _ _ _ _ _ _ Hl)|]. split; [apply (live_state _ _ _ _ _ _ _ Hl)|].
  split; [exact Hs|]. pose proof (live_heap _ _ _ _ _ _ _ Hl) as Hc. clear Hl Hs. vm_compute in Hrun. injection Hrun as <- <-.
  vm_compute in Hc. injection Hc as <-. by split_and!.
Defined.

Definition window_question : kcp_proto_header := KcpProtoHeader 20 30 KCP_CMD_WASK 0 0 0 (packet_data 0 0 0 0 0 []) [].

Lemma trailing_bytes_overread_witness :
  kcp_parse_packet (fun _ => mret true) (header_image window_question 0 ++ [0]) (sin 4000 9) (victim_context, quiet) = None /\
  (u64 (1 - KCP_HEADER_SIZE) <? 4000000000) = false.
Proof.
  destruct (trailing_bytes_overread (fun _ => mret true) 1 (sin 4000 9) 20 30 victim_context quiet victim window_question [0]) as (H1 & _ & H2).
  { apply victim_live. }
  { apply victim_sound. }
  { constructor. }
  { constructor; [done|by vm_compute| |done]. rewrite !not_elem_of_cons. split_and!; [done..|apply not_elem_of_nil]. }
  1-4: by vm_compute.
  split; [exact H1|]. by apply (H2 4000000000).
Defined.
