(* ===== verification/Handshake.v ===== *)
(** * Handshake: both sides of a connection

    [kcp_connect] on a client, [kcp_parse_packet] and [kcp_accept] on the server,
    [kcp_parse_packet] on both for the answers: two contexts that exchange three
    datagrams end with a connection each, of each other ([handshake]). *)

From stdpp Require Import gmap.
From S2P Require Import Prelude RbTree Bytes Bitmap Xxhash Config Wire Types World Net Bbr Snd Recv Delivery Flush FlushSpec FlushPack Mtu Context ContextSpec Input Events Api ApiSpec Flaws Exchange AcceptSpec.

(** No proof here looks into the hash. *)
#[local] Opaque ts_hash32.

Lemma wp_candidate {X} remote data (x : X) e (Q : Z -> X * env -> Prop) :
  accepting e -> data <> [] -> (forall e', sent_to remote [data] e e' -> Q NO_ERROR (x, e')) ->
  wp (send_to_candidates [remote] [data] false WRITE_ERROR) Q (x, e).
Proof.
  intros He Hd HQ. cbn [send_to_candidates].
  destruct (raw_accepting remote data x e He Hd) as (e' & Hr & Hs).
  wp_step. eapply wp_run; [exact Hr|]. cbv zeta. change (1 <=? 0) with false. cbn match. wp_step. wp_step. cbn [Z.ltb Z.compare].
  wp_step. by apply HQ.
Qed.

(** ** The first datagram: the client connects *)

Record client_ready (x : kcp_context) (e : env) : Prop := {
  cr_ctx : ctx_ok x;
  cr_alone : members x = [];
  cr_open : sock_open x = true /\ on_connect x = false;
  cr_event : read_event x <> timer_null;
  cr_mtu : is_u32 (udp_mtu x);
  cr_queue : syn_queue x = [];
  cr_env : memory_available e /\ accepting e;
}.

Lemma ready_empty x e : client_ready x e -> forall k, connection_set_search x k = None.
Proof.
  intros [Hx Halone _ _ _ _ _] k. destruct (connection_set_search x k) eqn:E; [|done].
  apply search_Some in E as [E _]; [|done]. rewrite Halone in E. by apply elem_of_nil in E.
Qed.

Definition first_syn (x : kcp_context) (id ts : Z) : kcp_proto_header := syn_header x id 0 0 ts 0 (ts_hash32 ts).

(** The client waits for the answer to its SYN. *)
Record waiting (server : sockaddr) (x : kcp_context) (a id ts : Z) (x' : kcp_context) (c : kcp_connection) : Prop := {
  wt_ctx : ctx_ok x';
  wt_alone : members x' = [a];
  wt_conn : heap x' !! a = Some c;
  wt_id : scid c = id /\ 1 <= id <= KCP_BITMAP_SIZE;
  wt_state : state c = KCP_STATE_SYN_SENT;
  wt_mtu : mtu c = udp_mtu x;
  wt_start : at_start c;
  wt_header : kcp_proto_header_list c = [first_syn x id ts] /\ is_u64 ts;
  wt_settings : on_connected x' = true /\ on_connect x' = false /\ syn_queue x' = [] /\ udp_mtu x' = udp_mtu x;
}.

(** A context with one connection. *)
Lemma only_member x a peer :
  ctx_ok x -> (forall k, connection_set_search x k = if k =? peer then Some a else None) -> members x = [a].
Proof.
  intros Hx Hs. assert (forall b, b ∈ members x -> b = a) as Hall.
  { intros b Hb. apply search_self in Hb; [|done]. rewrite Hs in Hb. destruct (_ =? _); congruence. }
  assert (a ∈ members x) as Ha.
  { apply (search_Some x peer a Hx). by rewrite Hs, Z.eqb_refl. }
  destruct (ctx_tree _ Hx) as [_ Hsorted]. unfold bst in Hsorted. fold (members x) in Hsorted.
  destruct (members x) as [|b [|b' l]]; [by apply elem_of_nil in Ha| |exfalso].
  - f_equal. apply Hall. constructor.
  - assert (b = b') as -> by (rewrite (Hall b), (Hall b') by set_solver; done).
    apply StronglySorted_inv in Hsorted as [_ Hf]. apply Forall_cons in Hf as [Hlt _]. lia.
Qed.


Lemma wp_make_syn x e a c id dcid_ (Q : bytes -> kcp_context * env -> Prop) :
  heap x !! a = Some c -> scid c = id -> is_u16 id -> is_u16 dcid_ -> is_u32 (udp_mtu x) -> memory_available e ->
  (forall ts data e', is_u64 ts -> data <> [] -> kcp_proto_parse data = OK (syn_header x id dcid_ 0 ts 0 (ts_hash32 ts)) [] ->
     silent e e' -> memory_available e' ->
     Q data (x <| heap ::= <[a := c <| kcp_proto_header_list ::=
                                  (fun l => l ++ [syn_header x id dcid_ 0 ts 0 (ts_hash32 ts)]) |>]> |>, e')) ->
  wp (make_syn a dcid_) Q (x, e).
Proof.
  intros Hc <- Hid Hd Hu Hm HQ. unfold make_syn.
  wp_step. apply wp_malloc_unchecked; [done|]. intros e1 H1 Hm1.
  wp_step. apply wp_clock_us; [done|]. intros ts e2 Hts H2 Hm2. wp_step. wp_step.
  wp_step. eapply wp_conn_at; [exact Hc|]. cbv zeta.
  wp_step. eapply wp_on_conn; [exact Hc|]. apply wp_mods. cbn [fst snd].
  wp_step. apply wp_malloc_unchecked; [done|]. intros e3 H3 Hm3. unfold encoded_header.
  destruct (syn_header_encodes x (scid c) dcid_ 0 ts 0 (ts_hash32 ts)) as (r0 & data & He & Hne & Hp);
    [exact Hid|exact Hd|clear; lia|exact Hts|clear; lia|exact (ts_hash32_range ts)|exact Hu|].
  wp_step. eapply wp_deref; [exact He|]. wp_step. cbn [snd].
  apply HQ; try done. by do 2 (eapply silent_trans; [eassumption|]).
Qed.

(** What the client's connection is once its SYN is sent. *)
Record syn_written (x : kcp_context) (id ts : Z) (c c' : kcp_connection) : Prop := {
  sw_ids : k_self c' = k_self c /\ dcid c' = dcid c /\ scid c' = id;
  sw_state : state c' = KCP_STATE_SYN_SENT;
  sw_mtu : mtu c' = mtu c;
  sw_session : session c' = session c;
  sw_header : kcp_proto_header_list c' = kcp_proto_header_list c ++ [first_syn x id ts];
}.

Lemma waiting_made server x e a c c' x2 x3 x' id ts ev :
  client_ready x e -> (forall k, connection_set_search x k = None) -> linked 0 server x a c x2 ->
  ctx_ok x3 -> x3 = x2 <| conv_bitmap := conv_bitmap x3 |> -> syn_written x3 id ts c c' ->
  1 <= id <= KCP_BITMAP_SIZE -> is_u64 ts -> x' = x3 <| heap := <[a := c']> (heap x3) |> <| on_connected := true |> <| on_connect := false |> <| read_event := ev |> ->
  waiting server x a id ts x' c'.
Proof.
  intros [Hx _ _ Hev Hu Hq _] Hnone Hl Hx3 Hx3e [(Hk & Hd & Hi) Hst Hm Hse Hh] Hid Hts ->.
  pose proof (ln_made _ _ _ _ _ _ Hl) as [_ _ [Hmtu _] _ Hstart Hempty _]. pose proof (ln_settings _ _ _ _ _ _ Hl) as Hset.
  destruct (linked_write 0 server x a c c' x2 x3 Hl Hx3 Hx3e Hd Hk) as [Hx4 Hs4].
  set (x4 := x3 <| heap ::= <[a := c']> |>) in *. set (x' := x3 <| heap := _ |> <| on_connected := true |> <| on_connect := false |> <| read_event := ev |>).
  assert (ctx_ok x') as Hx' by (by apply (ctx_ok_fields x4)).
  assert (udp_mtu x3 = udp_mtu x) as Hu3 by (by rewrite Hx3e, Hset).
  constructor.
  - exact Hx'.
  - apply (only_member x' a 0 Hx'). intros k. rewrite (search_fields x4 x') by done. by rewrite Hs4, Hnone.
  - apply lookup_insert_eq.
  - by split.
  - exact Hst.
  - by rewrite Hm, Hmtu, u32_small.
  - by apply (at_start_session c).
  - split; [|done]. rewrite Hh, Hempty. unfold first_syn, syn_header. by rewrite Hu3.
  - split; [done|]. split; [done|]. split; [|exact Hu3]. change (syn_queue x3 = []). by rewrite Hx3e, Hset.
Qed.

Lemma start_connect_run server x x1 a c e timeout_ms :
  client_ready x e -> created 0 server x x1 c -> a = next_address x -> candidates c = [server] ->
  wp (start_connect a timeout_ms) (fun code s' =>
    code = NO_ERROR /\ (exists id ts c' data, waiting server x a id ts s'.1 c' /\
        kcp_proto_parse data = OK (first_syn x id ts) [] /\ e_trace s'.2 = e_trace e ++ [Datagram server data] /\
        memory_available s'.2 /\ accepting s'.2) \/
    code = CONNECTION_ID_CONFLICT /\ e_trace s'.2 = e_trace e) (x1, e).
Proof.
  intros Hready Hcr -> Hcand. set (a := next_address x). pose proof Hready as [Hx _ _ Hev Hu Hq [Hm Hacc]].
  pose proof (ready_empty _ _ Hready) as Hnone.
  destruct (created_links 0 server x x1 c e Hx) as (x2 & Hri & Hl); [done|done|]. fold a in Hri, Hl.
  unfold start_connect. wp_step. eapply wp_run; [exact Hri|]. cbn [negb]. cbn match.
  destruct (kcp_alloc_local_scid_run x2 e 2 (ln_ok _ _ _ _ _ _ Hl)) as (r & x3 & e2 & Hra & Hx3 & (Ht2 & Hsend2 & Hm2) & Hcase).
  wp_step. eapply wp_run; [exact Hra|]. destruct r as [id|code].
  2: { destruct Hcase as [-> ->]. destruct (gives_up _ _ x a c x2 e2 Hl (Hnone 0)) as (x' & e' & Hrun & _ & Ht' & _).
       wp_step. eapply wp_run; [exact Hrun|]. wp_step. right. cbn [fst snd]. split; [done|congruence]. }
  destruct Hcase as (Hid & _ & _ & _ & Hx3e). pose proof (ln_settings _ _ _ _ _ _ Hl) as Hset.
  pose proof (ln_made _ _ _ _ _ _ Hl) as [Hself (_ & Hd & Hr) [Hmtu _] _ Hstart Hempty _].
  assert (udp_mtu x3 = udp_mtu x) as Hu3 by (rewrite Hx3e, Hset; done).
  assert (heap x3 !! a = Some c) as Hc3 by (rewrite Hx3e; apply (ln_conn _ _ _ _ _ _ Hl)).
  wp_step. eapply wp_on_conn; [exact Hc3|]. apply wp_mods. cbn [fst snd].
  wp_step. eapply (wp_make_syn _ _ _ _ id 0); [apply lookup_insert_eq|done|unfold KCP_BITMAP_SIZE in *; lia|done|by rewrite <- Hu3 in Hu| |].
  { unfold memory_available in *. by rewrite Hm2. }
  intros ts data e3 Hts Hne Hp [Ht3 Hs3] Hm3.
  wp_step. eapply wp_on_conn; [apply lookup_insert_eq|]. unfold kcp_send_syn_to_candidates. wp_step. wp_step.
  match goal with |- wp (send_to_candidates (candidates ?d) _ _ _) _ _ => change (candidates d) with (candidates c) end.
  rewrite Hcand. apply wp_candidate; [unfold accepting in *; congruence|done|]. intros e4 (Ht4 & Hm4 & Hs4)%sent_env.
  cbn [fst snd]. change (negb (NO_ERROR =? NO_ERROR)) with false. cbn match.
  wp_step. eapply wp_on_conn; [apply lookup_insert_eq|]. apply wp_mods. cbn [fst snd]. do 3 wp_step.
  apply wp_evtimer_new; [unfold memory_available in *; by rewrite Hm4|]. intros e5 [Ht5 Hs5] Hm5.
  wp_step. eapply wp_on_conn; [apply lookup_insert_eq|]. apply wp_mods. cbn [fst snd].
  rewrite bool_decide_false by done.
  wp_step. eapply wp_on_conn; [apply lookup_insert_eq|]. apply wp_mods. cbn [fst snd].
  wp_step. eapply wp_on_conn; [apply lookup_insert_eq|]. unfold add_syn_timer. wp_step. wp_step. wp_step.
  eapply wp_run; [reflexivity|]. apply wp_mods. cbn [fst snd].
  wp_step. unfold add_read_event. wp_step. wp_step. wp_step.
  match goal with |- wp (evtimer_add (read_event ?y) 0) _ (_, _) => assert (read_event y = read_event x) as -> end.
  { transitivity (read_event x3); [done|]. by rewrite Hx3e, Hset. }
  eapply (wp_run _ _ _ (timer_pending 0)); [by destruct (read_event x)|]. apply wp_mods. wp_step. left. split; [done|]. cbn [fst snd].
  match goal with |- context[set_field heap (insert a ?d)] => exists id, ts, d, data; set (c' := d) end.
  split_and!; [|rewrite Hp; unfold first_syn, syn_header; by rewrite <- Hu3|congruence|done|unfold accepting in *; congruence].
  match goal with |- waiting _ _ _ _ _ ?y _ => set (x' := y) end.
  assert (heap x' = <[a := c']> (heap x3)) as Hheap .
  { refine (eq_trans (y := <[a := c']> (<[a := _]> (<[a := _]> (<[a := _]> (<[a := _]> (<[a := _]> (<[a := _]> (heap x3)))))))) eq_refl _).
    by rewrite !insert_insert_eq. }
  apply (waiting_made server x e a c c' x2 x3 x' id ts (timer_pending 0)); try done.
  transitivity (x3 <| heap := heap x' |> <| on_connected := true |> <| on_connect := false |> <| read_event := timer_pending 0 |>);
    [reflexivity|by rewrite Hheap].
Qed.

Lemma connect_run server x e timeout_ms :
  client_ready x e -> timeout_ms <> 0 ->
  wp (kcp_connect (Some server) timeout_ms true) (fun code s' =>
    code = NO_ERROR /\ (exists a id ts c data, waiting server x a id ts s'.1 c /\
        kcp_proto_parse data = OK (first_syn x id ts) [] /\ e_trace s'.2 = e_trace e ++ [Datagram server data] /\
        memory_available s'.2 /\ accepting s'.2) \/
    code = CONNECTION_ID_CONFLICT /\ e_trace s'.2 = e_trace e) (x, e).
Proof.
  intros Hready Ht. pose proof Hready as [Hx Halone [Hopen Hlisten] _ _ _ [Hm Hacc]].
  unfold kcp_connect, kcp_connect_candidates. wp_step. wp_step. cbn [negb orb].
  destruct (Z.eqb_spec timeout_ms 0); [done|]. change (KCP_P2P_MAX_CANDIDATES <? Zlength [server]) with false. cbn match.
  rewrite Hopen, Hlisten. cbn [negb]. cbn match.
  assert (connection_first x = None) as ->.
  { unfold connection_first. rewrite rb_first_head. fold (members x). by rewrite Halone. }
  wp_step. apply wp_malloc; [done|]. intros e1 H1 Hm1. cbn [negb]. cbn match.
  wp_step. unfold uninitialised_connection. wp_step. apply wp_uninitialised; [done|]. intros l e2 H2 Hm2. wp_step.
  set (a := next_address x). unfold allocate.
  wp_step. wp_step. wp_step. cbv zeta. fold a. wp_step. wp_step. wp_step.
  match goal with |- wp _ _ (?y, _) => set (x0 := y) end.
  match goal with x0 := context[insert a ?m] |- _ => set (mem := m) in x0 end.
  assert (heap x0 !! a = Some mem) as Ha by apply lookup_insert_eq.
  wp_step. eapply wp_conn_at; [exact Ha|].
  wp_step. apply wp_connection_init; [done|]. intros c e3 Hc H3 Hm3.
  wp_step. eapply wp_on_conn; [exact Ha|]. apply wp_mods. cbn [fst snd].
  assert (silent e e3) as [Ht3 Hs3] by (do 2 (eapply silent_trans; [eassumption|]); done).
  set (c' := c <| candidates := [server] |>). eapply wp_mono.
  - apply (start_connect_run server x _ a c' e3); [|split|done|done].
    + destruct Hready. constructor; try done. split; [done|]. unfold accepting in *. congruence.
    + unfold x0. destruct x; unfold set_field; cbn -[c' mem]. f_equal. apply insert_insert_eq.
    + destruct Hc as [? [? ?] ? ? ? ? ? ?]. constructor; try done. by apply (at_start_session c).
  - intros code [x' e'] [(-> & id & ts & c1 & data & Hw & Hp & Htr & Hme)|[-> Htr]]; [left|right]; cbn [fst snd] in *.
    + split; [done|]. exists a, id, ts, c1, data. destruct Hme. rewrite Htr, Ht3. by split_and!.
    + split; [done|congruence].
Qed.

(** ** The second datagram: the server accepts *)

(** The server's user accepts every client. *)
Definition accepts (timeout_ms : Z) (remote : sockaddr) : io kcp_context bool := kcp_accept timeout_ms;; mret true.

Record server_ready (x : kcp_context) (e : env) : Prop := {
  svr_ctx : ctx_ok x;
  svr_listens : on_connect x = true /\ on_connected x = false /\ on_accepted x = true;
  svr_mtu : is_u32 (udp_mtu x);
  svr_queue : syn_queue x = [];
  svr_env : memory_available e /\ accepting e;
}.

(** The server waits for the acknowledgement of its SYN. *)
Record answering (client : sockaddr) (cid client_mtu : Z) (x : kcp_context) (b sid : Z) (x' : kcp_context) (r : kcp_connection) : Prop := {
  aw_ctx : ctx_ok x';
  aw_search : forall k, connection_set_search x' k = if k =? cid then Some b else connection_set_search x k;
  aw_conn : heap x' !! b = Some r;
  aw_ids : scid r = sid /\ dcid r = cid /\ 1 <= sid <= KCP_BITMAP_SIZE;
  aw_remote : remote_host r = client;
  aw_state : state r = KCP_STATE_SYN_RECEIVED;
  aw_mtu : mtu r = MIN (udp_mtu x) client_mtu /\ mss r = u32 (mtu r - KCP_HEADER_SIZE);
  aw_start : at_start r;
  aw_settings : on_accepted x' = true;
}.

Lemma answer_run client timeout_ms id ts data xc x e :
  server_ready x e -> connection_set_search x id = None -> is_u16 id -> is_u32 (udp_mtu xc) -> id <> 0 ->
  kcp_proto_parse data = OK (first_syn xc id ts) [] ->
  wp (kcp_parse_packet (accepts timeout_ms) data client) (fun _ s' =>
    e_flaws s'.2 = e_flaws e /\
    ((e_trace s'.2 = e_trace e /\ forall k, connection_set_search s'.1 k = connection_set_search x k) \/
    exists b sid r sts reply, answering client id (udp_mtu xc) x b sid s'.1 r /\
      kcp_proto_parse reply = OK (syn_header x sid id sts sts (ts_hash32 ts) (ts_hash32 sts)) [] /\
      e_trace s'.2 = e_trace e ++ [Datagram client reply] /\ memory_available s'.2 /\ accepting s'.2)) (x, e).
Proof.
  intros [Hx (Hon & Hnc & Hacc) Hu Hq [Hm Hk]] Hnone Hid Huc H0 Hp.
  eapply parse_option_packet; [exact Hp|done|exact Hm|]. intros e0 [Ht0 Hs0] Hm0 Hf0.
  unfold handle_packet. wp_step. wp_step. change (h_scid (first_syn xc id ts)) with id. rewrite Hnone, Hnc.
  wp_step. wp_step. change (local_dcid x None (first_syn xc id ts)) with true. cbn [negb]. cbn match.
  change (h_cmd (first_syn xc id ts) =? KCP_CMD_SYN) with true. cbn match.
  wp_step. apply wp_malloc_flawless; [done|]. intros e1 [Ht1 Hs1] Hm1 Hf1. cbn [negb]. cbn match. rewrite Ht0 in Ht1.
  wp_step. change (h_dcid (first_syn xc id ts) =? 0) with true. wp_step; [|done].
  wp_step. apply wp_mods. set (node := syn_node_of (first_syn xc id ts) client).
  set (x1 := x <| syn_queue ::= _ |>). assert (syn_queue x1 = [node]) as Hq1.
  { change (syn_queue x1) with (syn_queue x ++ [node]). by rewrite Hq. }
  assert (ctx_ok x1) as Hx1 by (by apply (ctx_ok_fields x)).
  wp_step. unfold on_kcp_syn_received. wp_step. wp_step. change (on_connect x1) with (on_connect x). rewrite Hon.
  wp_step. unfold accepts at 1. wp_step. wp_step.
  eapply wp_mono; [eapply wp_flaws; [apply flaws_accept|]; eapply (kcp_accept_run x1 e1 node []); try done|].
  { unfold accepting in *. congruence. }
  { split; [exact Hid|apply ts_hash32_range]. }
  intros code [x2 e2] [[Hx2 Hcase] Hf2%adds_none]. cbn [fst snd] in *. wp_step. wp_step. wp_step. wp_step.
  assert (same_settings x1 x2) as Hset by (destruct Hcase as [(_ & a & i & c & t & d & [])|(_ & _ & _ & ?)]; done).
  assert (syn_queue x2 = [node]) as -> by (by rewrite Hset).
  apply wp_mods. wp_step. cbn [fst snd]. set (x3 := x2 <| syn_queue := [] |>).
  assert (ctx_ok x3) as Hx3 by (by apply (ctx_ok_fields x2)). split; [congruence|].
  destruct Hcase as [(_ & b & sid & r & sts & reply & Hd)|(_ & Ht & Hs & _)]; [right|left].
  - destruct Hd as [Hsearch Hconn [[Hi1 Hi2] Hr Hst _ [Hmtu Hmss] Hstart _] [Hsid _] Hparse Hsent _ [Hm2 Hk2]].
    exists b, sid, r, sts, reply. split_and!; try done; [|by rewrite Hsent, Ht1].
    constructor; try done.
    + split; [|done]. rewrite Hmtu. change (udp_mtu x1) with (udp_mtu x).
      change (mtu_option (sy_options node) (u32 (udp_mtu x))) with (u32 (u64 (udp_mtu xc))).
      rewrite (u64_small (udp_mtu xc)) by lia. by rewrite !u32_small.
    + change (on_accepted x2 = true). by rewrite Hset.
  - split; [congruence|done].
Qed.

(** ** The third datagram: the client is connected *)

(** The only connection may change the id of its peer. *)
Lemma ctx_ok_rekey x a c c' :
  ctx_ok x -> members x = [a] -> heap x !! a = Some c -> k_self c' = k_self c ->
  ctx_ok (x <| heap ::= <[a := c']> |>) /\ connection_set_search (x <| heap ::= <[a := c']> |>) (dcid c') = Some a.
Proof.
  intros Hx Hm Ha Hk. pose proof Hx as [[Hrb _] Hl Hs Hi]. set (x' := x <| heap ::= <[a := c']> |>).
  assert (heap x' !! a = Some c') as Ha' by apply lookup_insert_eq.
  assert (ctx_ok x') as Hx'.
  { constructor; [split; [exact Hrb|]| | |exact Hi].
    - unfold bst. fold (members x'). change (members x') with (members x). rewrite Hm. repeat constructor.
    - intros b. change (members x') with (members x). rewrite Hm, list_elem_of_singleton. intros ->. by exists c'.
    - intros b d. change (heap x') with (<[a := c']> (heap x)). change (next_address x') with (next_address x).
      destruct (Hs a c Ha). intros [[<- <-]|[_ Hb]]%lookup_insert_Some; [by rewrite Hk|by apply Hs]. }
  split; [done|]. apply search_Some; [done|]. change (members x') with (members x). rewrite Hm.
  split; [constructor|]. unfold dcid_at. by rewrite Ha'.
Qed.

(** The end of the handshake at the client: the timer, then the callback. *)
Lemma wp_report_connected x e a :
  ctx_ok x -> on_connected x = true ->
  wp (kcp_refresh_write_timer;; call_on_connected a NO_ERROR)
     (fun _ s' => ctx_ok s'.1 /\ heap s'.1 = heap x /\ connection_set s'.1 = connection_set x /\ syn_queue s'.1 = syn_queue x /\
        e_trace s'.2 = e_trace e ++ [OnConnected a NO_ERROR]) (x, e).
Proof.
  intros Hx Hcb. wp_step. apply wp_refresh; [done|]. intros ev e1 Ht1. unfold call_on_connected. wp_step. wp_step.
  change (on_connected (x <| write_timer_event := ev |>)) with (on_connected x). rewrite Hcb.
  apply wp_emit. cbn [fst snd]. split_and!; [by apply (ctx_ok_fields x)|done|done|done|by rewrite <- Ht1].
Qed.

(** What the client's connection is after the answer to its SYN. *)
Record connected (server : sockaddr) (node : kcp_syn_node) (server_mtu : Z) (c c' : kcp_connection) : Prop := {
  cd_ids : scid c' = scid c /\ dcid c' = sy_scid node /\ k_self c' = k_self c;
  cd_remote : remote_host c' = server;
  cd_state : state c' = KCP_STATE_CONNECTED;
  cd_mtu : mtu c' = MIN server_mtu (mtu c) /\ mss c' = u32 (mtu c' - KCP_HEADER_SIZE);
  cd_start : at_start c -> at_start c';
  cd_timer : syn_timer_event c' = timer_null /\ need_write_timer_event c' = true;
}.

Lemma syn_reply_run server x a c e node pos :
  ctx_ok x -> members x = [a] -> heap x !! a = Some c -> state c = KCP_STATE_SYN_SENT -> on_connected x = true ->
  is_u16 (scid c) -> is_u16 (sy_scid node) -> is_u32 (sy_rand_sn node) -> memory_available e -> accepting e ->
  wp (on_syn_reply a server node pos) (fun _ s' => exists c' ats reply,
    heap s'.1 = <[a := c']> (heap x) /\ ctx_ok s'.1 /\ connection_set_search s'.1 (dcid c') = Some a /\
    syn_queue s'.1 = syn_queue x /\
    connected server node (mtu_option (sy_options node) (u32 (udp_mtu x))) c c' /\
    kcp_proto_parse reply = OK (ack_header c' ats ats (sy_rand_sn node)) [] /\
    e_trace s'.2 = e_trace e ++ [Datagram server reply; OnConnected a NO_ERROR]) (x, e).
Proof.
  intros Hx Hmem Hc Hst Hcb Hid Hsid Hrand Hm Hk. unfold on_syn_reply.
  wp_step. eapply wp_on_conn; [exact Hc|]. apply wp_mods. cbn [fst snd].
  wp_step. apply wp_clock_us; [done|]. intros now e1 _ [Ht1 Hs1] Hm1.
  wp_step. eapply wp_on_conn; [apply lookup_insert_eq|]. apply wp_mods. cbn [fst snd].
  wp_step. eapply wp_on_conn; [apply lookup_insert_eq|]. apply wp_mods. cbn [fst snd].
  wp_step. eapply wp_conn_at; [apply lookup_insert_eq|].
  match goal with |- context[ack_header ?d] => set (c1 := d) end.
  wp_step. apply wp_clock_us; [done|]. intros ats e2 Hats [Ht2 Hs2] Hm2. wp_step. wp_step. cbv zeta.
  wp_step. eapply wp_on_conn; [apply lookup_insert_eq|].
  eapply wp_send_header; [|done|done|done|unfold accepting in *; congruence|].
  { unfold header_ok, ack_header. cbn. change (scid c1) with (scid c). change (dcid c1) with (sy_scid node).
    split_and!; done || lia. }
  intros reply e3 Hp (Ht3 & _ & _)%sent_env. cbn [fst snd]. change (remote_host c1) with server in Ht3.
  change (1 <? 0) with false. cbn match.
  wp_step. eapply wp_on_conn; [apply lookup_insert_eq|]. apply wp_mods. cbn [fst snd].
  change (state c1) with (state c). rewrite Hst, bool_decide_true by done.
  wp_step. eapply wp_on_conn; [apply lookup_insert_eq|]. apply wp_mods. cbn [fst snd].
  wp_step. apply wp_clock_ms. intros now_ms e4 [Ht4 _].
  wp_step. eapply wp_on_conn; [apply lookup_insert_eq|]. apply wp_mods. cbn [fst snd].
  match goal with |- wp _ _ (?y, _) => set (x1 := y) end.
  match goal with x1 := context[set_field heap (insert a ?d)] |- _ => set (c' := d) in x1 end.
  destruct (ctx_ok_rekey x a c c' Hx Hmem Hc eq_refl) as [Hx' Hsearch].
  assert (heap x1 = <[a := c']> (heap x)) as Hheap.
  { refine (eq_trans (y := <[a := c']> (<[a := _]> (<[a := _]> (<[a := _]> (<[a := _]> (<[a := _]> (<[a := _]> (heap x)))))))) eq_refl _).
    by rewrite !insert_insert_eq. }
  assert (ctx_ok x1) as Hx1 by (by apply (ctx_ok_fields (x <| heap ::= <[a := c']> |>))).
  assert (connection_set x1 = connection_set x /\ syn_queue x1 = syn_queue x) as [Hset1 Hq1] by done.
  eapply wp_mono; [by apply wp_report_connected|]. intros _ [x2 e5] (Hx2 & Hh2 & Hset2 & Hq2 & Ht5). cbn [fst snd] in *.
  exists c', ats, reply. split_and!; [by rewrite Hh2|done| |by rewrite Hq2| |exact Hp|].
  - rewrite <- Hsearch. apply search_fields; [by rewrite Hh2, Hheap|by rewrite Hset2, Hset1].
  - constructor; try done. intros H. by apply (at_start_session c).
  - rewrite Ht5, Ht4, Ht3, Ht2, Ht1. by rewrite <- app_assoc.
Qed.

(** The server's SYN at the client, up to its handler: it names the id of the client,
    and the assertion that a SYN names none is false. *)
Lemma wp_second_syn cb server x a c id h e (Q : loop_flow -> kcp_context * env -> Prop) :
  ctx_ok x -> members x = [a] -> heap x !! a = Some c -> scid c = id -> 1 <= id -> on_connected x = true ->
  connection_first x = Some a -> h_dcid h = id -> h_cmd h = KCP_CMD_SYN -> memory_available e ->
  (forall e', silent e e' -> memory_available e' -> e_flaws e' = e_flaws e ++ [kcpp_c_168] ->
     wp (on_kcp_syn_received cb server;; mret Continue) Q (x <| syn_queue ::= (fun q => q ++ [syn_node_of h server]) |>, e')) ->
  wp (handle_packet cb h server) Q (x, e).
Proof.
  intros Hx Hmem Hc Hid Hpos Hon Hfirst Hd Hcmd Hm HQ.
  unfold handle_packet. wp_step. wp_step. cbv zeta.
  assert (match connection_set_search x (h_scid h) with Some addr => Some addr | None => if on_connected x then connection_first x else None end
          = Some a) as ->.
  { rewrite Hon, Hfirst. destruct (connection_set_search x (h_scid h)) as [b|] eqn:E; [|done].
    apply search_Some in E as [E _]; [|done]. rewrite Hmem in E. by apply list_elem_of_singleton in E as ->. }
  wp_step. wp_step. eapply wp_conn_at; [exact Hc|]. wp_step. unfold local_dcid. rewrite Hd, Hcmd, Hid, Z.eqb_refl, orb_true_r.
  cbn [negb]. cbn match. change (KCP_CMD_SYN =? KCP_CMD_SYN) with true. cbn match.
  wp_step. apply wp_malloc_flawless; [done|]. intros e' He' Hm' Hf'. cbn [negb]. cbn match.
  wp_step. assert ((id =? 0) = false) as -> by (apply Z.eqb_neq; lia). wp_step; [done|].
  wp_step. apply wp_mods. apply HQ; [exact He'|exact Hm'|].
  change (e_flaws e' ++ [kcpp_c_168] = e_flaws e ++ [kcpp_c_168]). congruence.
Qed.

Lemma reply_run cb server x0 xs a id ts sid sts data x e c :
  waiting server x0 a id ts x c -> sockaddr_equal server server = true -> is_u32 (udp_mtu xs) -> is_u32 (udp_mtu x0) ->
  1 <= sid <= KCP_BITMAP_SIZE -> memory_available e -> accepting e ->
  kcp_proto_parse data = OK (syn_header xs sid id sts sts (ts_hash32 ts) (ts_hash32 sts)) [] ->
  wp (kcp_parse_packet cb data server) (fun _ s' => exists c' ats reply,
    live a server sid id s'.1 c' /\ at_start c' /\ mtu c' = MIN (udp_mtu xs) (udp_mtu x0) /\
    mss c' = u32 (mtu c' - KCP_HEADER_SIZE) /\
    kcp_proto_parse reply = OK (ack_header c' ats ats (ts_hash32 sts)) [] /\
    e_trace s'.2 = e_trace e ++ [Datagram server reply; OnConnected a NO_ERROR] /\ e_flaws s'.2 = e_flaws e ++ [kcpp_c_168]) (x, e).
Proof.
  intros [Hx Hmem Hc [Hid Hidr] Hst Hmtu Hstart [Hl _] (Hon & Hoff & Hq & Hu)] Hself Hms Hmc Hsid Hm Hk Hp.
  assert (connection_first x = Some a) as Hfirst.
  { unfold connection_first. rewrite rb_first_head. fold (members x). by rewrite Hmem. }
  eapply parse_option_packet; [exact Hp|done|exact Hm|]. intros e0 He0 Hm0 Hf0.
  set (h := syn_header xs sid id sts sts (ts_hash32 ts) (ts_hash32 sts)).
  apply (wp_second_syn cb server x a c id); try done; [lia|].
  intros e1 [Ht1 Hs1] Hm1 Hf1. rewrite Hf0 in Hf1. destruct He0 as [Ht0 Hs0]. rewrite Ht0 in Ht1. rewrite Hs0 in Hs1.
  set (node := syn_node_of h server). set (x1 := x <| syn_queue ::= _ |>).
  assert (syn_queue x1 = [node]) as Hq1 by (change (syn_queue x1) with (syn_queue x ++ [node]); by rewrite Hq).
  assert (ctx_ok x1) as Hx1 by (by apply (ctx_ok_fields x)).
  wp_step. unfold on_kcp_syn_received. wp_step. wp_step. change (on_connect x1) with (on_connect x). rewrite Hoff.
  change (connection_first x1) with (connection_first x). rewrite Hfirst.
  wp_step. wp_step. rewrite Hq1. eapply wp_deref; [done|]. wp_step. eapply wp_conn_at; [exact Hc|].
  rewrite Hl. cbn [List.find]. unfold is_our_syn at 1. change (h_cmd (first_syn x0 id ts) =? KCP_CMD_SYN) with true.
  change (syn_fin_rand_sn (first_syn x0 id ts)) with (ts_hash32 ts). change (sy_packet_sn node) with (ts_hash32 ts).
  rewrite Z.eqb_refl. cbn [andb]. cbn match.
  eapply wp_mono; [eapply wp_flaws; [apply flaws_syn_reply|]; apply (syn_reply_run server x1 a c e1 node); try done|].
  { rewrite Hid. unfold KCP_BITMAP_SIZE in *. lia. }
  { change (is_u16 sid). unfold KCP_BITMAP_SIZE in *. lia. }
  { apply ts_hash32_range. }
  { unfold accepting in *. congruence. }
  intros _ [x2 e2] [(c' & ats & reply & Hh2 & Hx2 & Hsearch & Hq2 & [(Hi1 & Hi2 & _) Hr Hst' [Hmtu' Hmss'] Hstart' _] & Hp' & Ht2) Hf2%adds_none].
  cbn [fst snd] in *. wp_step. wp_step. rewrite Hq2, Hq1. apply wp_mods. wp_step. cbn [fst snd].
  exists c', ats, reply. split_and!; [|by apply Hstart'| |done|exact Hp'|by rewrite Ht2, Ht1|by rewrite Hf2, Hf1].
  - constructor; [by apply (ctx_ok_fields x2)| | | | |done].
    + change (heap x2 !! a = Some c'). rewrite Hh2. apply lookup_insert_eq.
    + rewrite Hi2 in Hsearch. rewrite <- Hsearch. by apply search_fields.
    + by rewrite Hi1, Hi2, Hid.
    + by rewrite Hr.
  - rewrite Hmtu', Hmtu. change (mtu_option (sy_options node) (u32 (udp_mtu x1))) with (u32 (u64 (udp_mtu xs))).
    rewrite (u64_small (udp_mtu xs)) by lia. by rewrite u32_small.
Qed.

(** ** The end: the server is connected *)

Lemma acknowledged_run x e b r :
  ctx_ok x -> heap x !! b = Some r -> on_accepted x = true ->
  wp (on_handshake_ack b) (fun _ s' => exists r', heap s'.1 = <[b := r']> (heap x) /\ ctx_ok s'.1 /\
    connection_set s'.1 = connection_set x /\ session r' = session r /\
    (scid r', dcid r', remote_host r', state r', mtu r', mss r') = (scid r, dcid r, remote_host r, KCP_STATE_CONNECTED, mtu r, mss r) /\
    e_trace s'.2 = e_trace e ++ [OnAccepted b NO_ERROR]) (x, e).
Proof.
  intros Hx Hr Hcb. unfold on_handshake_ack. wp_step. wp_step.
  wp_step. eapply wp_on_conn; [exact Hr|]. apply wp_mods. cbn [fst snd]. rewrite Hcb. cbn [when].
  wp_step. wp_step. apply wp_clock_ms. intros ts e1 [Ht1 _].
  wp_step. eapply wp_on_conn; [apply lookup_insert_eq|]. apply wp_mods. cbn [fst snd]. apply wp_emit.
  wp_step. eapply wp_on_conn; [apply lookup_insert_eq|]. apply wp_mods. cbn [fst snd].
  match goal with |- wp _ _ (?y, _) => set (x1 := y) end.
  match goal with x1 := context[set_field heap (insert b ?d)] |- _ => set (r' := d) in x1 end.
  destruct (ctx_ok_conn x b r r' Hx Hr eq_refl eq_refl) as [Hx' _].
  assert (heap x1 = <[b := r']> (heap x)) as Hheap.
  { refine (eq_trans (y := <[b := r']> (<[b := _]> (<[b := _]> (heap x)))) eq_refl _). by rewrite !insert_insert_eq. }
  assert (ctx_ok x1) as Hx1 by (by apply (ctx_ok_fields (x <| heap ::= <[b := r']> |>))).
  assert (connection_set x1 = connection_set x) as Hset by done.
  apply wp_refresh; [done|]. intros ev e2 Ht2. exists r'. cbn [fst snd]. split_and!; [exact Hheap|by apply (ctx_ok_fields x1)|exact Hset|done|done|].
  rewrite Ht2. change (e_trace e1 ++ [OnAccepted b NO_ERROR] = e_trace e ++ [OnAccepted b NO_ERROR]). by rewrite Ht1.
Qed.

Lemma established_run cb client cid client_mtu x0 b sid data h x e r :
  answering client cid client_mtu x0 b sid x r -> sockaddr_equal client client = true ->
  kcp_proto_parse data = OK h [] -> h_scid h = cid -> h_dcid h = sid -> h_cmd h = KCP_CMD_ACK -> h_opt h = 0 ->
  wp (kcp_parse_packet cb data client) (fun _ s' => exists r',
    live b client cid sid s'.1 r' /\ at_start r' /\ mtu r' = mtu r /\ mss r' = mss r /\
    e_trace s'.2 = e_trace e ++ [OnAccepted b NO_ERROR] /\ e_flaws s'.2 = e_flaws e) (x, e).
Proof.
  intros [Hx Hsearch Hr (Hi1 & Hi2 & Hsid) Hremote Hst _ Hstart Hcb] Hself Hp Hs Hd Hcmd Hopt.
  assert (attached KCP_STATE_SYN_RECEIVED b client cid sid x r) as Hat.
  { constructor; try done; [by rewrite Hsearch, Z.eqb_refl|by rewrite Hremote]. }
  eapply parse_one_packet; [exact Hp|by rewrite Hcmd|exact Hopt|].
  eapply wp_known_packet; [exact Hat|done|done|by rewrite Hcmd|]. eapply wp_read_event; [exact Hat|done|by rewrite Hcmd|].
  cbn match. rewrite Hcmd. change (KCP_CMD_ACK =? KCP_CMD_ACK) with true. cbn [orb]. cbn match.
  eapply wp_mono; [eapply wp_flaws; [apply flaws_handshake_ack|]; by apply acknowledged_run|].
  intros _ [x1 e1] [(r' & Hh & Hx1 & Hset & Hsess & [= E1 E2 E3 E4 E5 E6] & Ht) Hf%adds_none].
  cbn [fst snd] in *. assert (heap x1 !! b = Some r') as Hr' by (rewrite Hh; apply lookup_insert_eq).
  exists r'. split; [done|]. rewrite E4, bool_decide_false by done.
  exists r'. split_and!; [|by apply (at_start_session r)|done..].
  constructor; [done|done| | |by rewrite E3, Hremote|done]; [|by split; congruence].
  destruct Hat as [_ _ Hfound _ _ _]. rewrite search_find by done. rewrite search_find in Hfound by done. rewrite <- Hfound.
  unfold members. rewrite Hset. apply find_by_key_ext. intros k _. unfold dcid_at. rewrite Hh.
  destruct (decide (k = b)) as [->|]; [by rewrite lookup_insert_eq, Hr|by rewrite lookup_insert_ne].
Qed.

(** ** End to end *)

(** The two connections of an established pair: each is found under the id of the
    other, knows its address, uses the same sizes and expects the number the other
    sends next, which is what [message_transfer] asks of both. *)
Definition established (client server : sockaddr) (a cid : Z) (x : kcp_context) (b sid : Z) (xs : kcp_context) : Prop :=
  exists c r, live a server sid cid x c /\ live b client cid sid xs r /\ mtu c = mtu r /\ mss c = mss r /\
    receiver_init (snd_nxt c) r /\ receiver_init (snd_nxt r) c /\
    snd_ok c /\ snd_ok r /\ snd_buf c = [] /\ snd_queue c = [] /\ snd_buf r = [] /\ snd_queue r = [].

Lemma established_intro client server a cid x b sid xs c r :
  live a server sid cid x c -> live b client cid sid xs r -> mtu c = mtu r -> mss c = mss r ->
  at_start c -> at_start r -> established client server a cid x b sid xs.
Proof.
  intros Hc Hr Hmtu Hmss [? [? [? ?]] [_ [Hn _]] _ _] [? [? [? ?]] [_ [Hn' _]] _ _]. exists c, r.
  rewrite Hn, Hn'. by split_and!.
Qed.

(** The datagram is a SYN of the connection [cid]. *)
Definition syn_of (data : bytes) (cid : Z) : Prop :=
  exists h, kcp_proto_parse data = OK h [] /\ h_cmd h = KCP_CMD_SYN /\ h_scid h = cid.

(** C4: Three datagrams connect two contexts.  [kcp_connect] of a client
    that has no connection sends a SYN; [kcp_parse_packet] gives it to the server, whose
    user accepts, and sends a SYN back; the client's [kcp_parse_packet] acknowledges it
    and reports the connection; the server's [kcp_parse_packet] of the acknowledgement
    reports it there.  No step is undefined, nothing else is sent or reported, and the
    one assertion that fails is that of kcpp.c:168, when the client gets the server's
    SYN, which names the client's id where the assertion wants 0: a build with
    assertions ends there, in every handshake.  The two connections are established: each is found under the id of the other,
    they agree on the MTU, and each expects what the other sends first.  What may
    happen instead is that the ids a side draws are all taken, and then it has sent
    nothing; the id of the client's SYN must be unknown to the server. *)
Theorem handshake (cb : sockaddr -> io kcp_context bool) (client server : sockaddr) (client_ms server_ms : Z)
    (x xs : kcp_context) (e es : env) :
  client_ready x e -> server_ready xs es -> client_ms <> 0 ->
  sockaddr_equal client client = true -> sockaddr_equal server server = true ->
  exists code x1 e1, kcp_connect (Some server) client_ms true (x, e) = Some (code, (x1, e1)) /\ e_flaws e1 = e_flaws e /\
    (code = CONNECTION_ID_CONFLICT /\ e_trace e1 = e_trace e \/
     code = NO_ERROR /\ exists a cid d1, e_trace e1 = e_trace e ++ [Datagram server d1] /\
       syn_of d1 cid /\
       (connection_set_search xs cid = None ->
        exists xs1 es1, kcp_parse_packet (accepts server_ms) d1 client (xs, es) = Some (tt, (xs1, es1)) /\
          e_flaws es1 = e_flaws es /\
          (e_trace es1 = e_trace es \/
           exists b sid d2 x2 e2 d3 xs2 es2,
             e_trace es1 = e_trace es ++ [Datagram client d2] /\
             kcp_parse_packet cb d2 server (x1, e1) = Some (tt, (x2, e2)) /\
             e_trace e2 = e_trace e1 ++ [Datagram server d3; OnConnected a NO_ERROR] /\ e_flaws e2 = e_flaws e1 ++ [kcpp_c_168] /\
             kcp_parse_packet (accepts server_ms) d3 client (xs1, es1) = Some (tt, (xs2, es2)) /\
             e_trace es2 = e_trace es1 ++ [OnAccepted b NO_ERROR] /\ e_flaws es2 = e_flaws es1 /\
             established client server a cid x2 b sid xs2))).
Proof.
  intros Hc Hs Hms Hclient Hserver. apply wp_exists. eapply wp_mono; [eapply wp_flaws; [apply flaws_connect|]; by apply connect_run|].
  intros code [x1 e1] [Hcase Hf1%adds_none]. cbn [fst snd] in *. split; [exact Hf1|].
  destruct Hcase as [(-> & a & id & ts & c & d1 & Hw & Hp1 & Ht1 & Hm1 & Hk1)|[-> Ht]]; [right|by left].
  split; [done|]. exists a, id, d1. split; [done|]. split; [by exists (first_syn x id ts)|]. intros Hnone.
  pose proof (wt_id _ _ _ _ _ _ _ Hw) as [_ Hid]. pose proof (cr_mtu _ _ Hc) as Hmc. pose proof (svr_mtu _ _ Hs) as Hmsrv.
  destruct (wp_elim _ _ _ (answer_run client server_ms id ts d1 x xs es Hs Hnone
    ltac:(unfold KCP_BITMAP_SIZE in *; lia) Hmc ltac:(lia) Hp1)) as ([] & [xs1 es1] & Hrun1 & Hcase). exists xs1, es1. split; [exact Hrun1|].
  cbn [fst snd] in Hcase. destruct Hcase as [Hfs Hcase]. split; [exact Hfs|].
  destruct Hcase as [[? _]|(b & sid & r & sts & d2 & Haw & Hp2 & Ht2 & _)]; [by left|right].
  pose proof (aw_ids _ _ _ _ _ _ _ _ Haw) as (_ & _ & Hsid).
  pose proof (reply_run cb server x xs a id ts sid sts d2 x1 e1 c Hw Hserver Hmsrv Hmc Hsid Hm1 Hk1 Hp2) as H2.
  apply wp_elim in H2 as ([] & [x2 e2] & Hrun2 & c' & ats & d3 & Hlive & Hstart & Hmtu & Hmss & Hp3 & Ht3 & Hf2). cbn [fst snd] in *.
  pose proof (live_ids _ _ _ _ _ _ _ Hlive) as [Hi1 Hi2].
  pose proof (established_run (accepts server_ms) client id (udp_mtu x) xs b sid d3 _ xs1 es1 r Haw Hclient Hp3 Hi1 Hi2 eq_refl eq_refl) as H3.
  apply wp_elim in H3 as ([] & [xs2 es2] & Hrun3 & r' & Hlive' & Hstart' & Hmtu' & Hmss' & Ht4 & Hf3). cbn [fst snd] in *.
  exists b, sid, d2, x2, e2, d3, xs2, es2. split_and!; try done.
  destruct (aw_mtu _ _ _ _ _ _ _ _ Haw) as [Hmr Hsr].
  apply (established_intro _ _ a id x2 b sid xs2 c' r'); try done; [congruence|]. rewrite Hmss, Hmss', Hsr. congruence.
Qed.

(** ** At two concrete contexts *)

Definition connecting_example : kcp_context :=
  context_example <| connection_set := Leaf |> <| heap := ∅ |> <| on_connect := false |>.

Definition listening_example : kcp_context :=
  context_example <| on_connect := true |> <| on_connected := false |> <| on_accepted := true |>.

Lemma connecting_example_ready : client_ready connecting_example quiet.
Proof.
  constructor; try done; [|by split; [constructor|]]. constructor.
  - apply tree_ok_leaf.
  - intros b Hb. by apply elem_of_nil in Hb.
  - intros b c Hb. change ((∅ : gmap Z kcp_connection) !! b = Some c) in Hb. by rewrite lookup_empty in Hb.
  - apply ids_example_ok.
Qed.

Lemma listening_example_ready : server_ready listening_example quiet.
Proof.
  constructor; try done; [|by split; [constructor|]].
  apply (ctx_ok_fields context_example); [exact context_example_ok|done..].
Qed.

(** The first draws are free: the handshake goes through. *)
Lemma handshake_witness :
  exists a cid b sid d1 d2 d3 x1 e1 x2 e2 xs1 es1 xs2 es2,
    kcp_connect (Some (sin 4000 9)) 500 true (connecting_example, quiet) = Some (NO_ERROR, (x1, e1)) /\
    e_trace e1 = [Datagram (sin 4000 9) d1] /\
    kcp_parse_packet (accepts 500) d1 (sin 5000 7) (listening_example, quiet) = Some (tt, (xs1, es1)) /\
    e_trace es1 = [Datagram (sin 5000 7) d2] /\
    kcp_parse_packet (fun _ => mret true) d2 (sin 4000 9) (x1, e1) = Some (tt, (x2, e2)) /\
    e_trace e2 = [Datagram (sin 4000 9) d1; Datagram (sin 4000 9) d3; OnConnected a NO_ERROR] /\ e_flaws e2 = [kcpp_c_168] /\
    kcp_parse_packet (accepts 500) d3 (sin 5000 7) (xs1, es1) = Some (tt, (xs2, es2)) /\
    e_trace es2 = [Datagram (sin 5000 7) d2; OnAccepted b NO_ERROR] /\ e_flaws es2 = [] /\
    established (sin 5000 7) (sin 4000 9) a cid x2 b sid xs2.
Proof.
  destruct (handshake (fun _ => mret true) (sin 5000 7) (sin 4000 9) 500 500 connecting_example listening_example quiet quiet)
    as (code & x1 & e1 & Hrun & Hf1 & Hcase); [exact connecting_example_ready|exact listening_example_ready|done|done|done|].
  assert (exists d1 cid, option_map (fun r => (r.1, e_trace r.2.2)) (kcp_connect (Some (sin 4000 9)) 500 true (connecting_example, quiet)) =
      Some (NO_ERROR, [Datagram (sin 4000 9) d1]) /\
    match kcp_proto_parse d1 with OK h _ => h_scid h = cid | _ => False end /\
    connection_set_search listening_example cid = None /\
    option_map (fun r => length (e_trace r.2.2)) (kcp_parse_packet (accepts 500) d1 (sin 5000 7) (listening_example, quiet)) = Some 1%nat)
    as (d & id & Hc & Hid & Hnew & Hs).
  { eexists _, _. split; [vm_compute; reflexivity|]. split; [vm_compute; reflexivity|]. split; vm_compute; reflexivity. }
  rewrite Hrun in Hc. cbn in Hc. injection Hc as -> Hc.
  destruct Hcase as [[Hno _]|(_ & a & cid & d1 & Ht & (h & Hp & _ & Hh) & Hcase)]; [discriminate Hno|].
  rewrite Hc in Ht. change (e_trace quiet) with (@nil event) in Ht. injection Ht as <-.
  rewrite Hp, Hh in Hid. subst id.
  destruct (Hcase Hnew) as (xs1 & es1 & Hrun1 & Hfs & [Ht1|(b & sid & d2 & x2 & e2 & d3 & xs2 & es2 & Ht1 & Hrun2 & Ht2 & Hf2 & Hrun3 & Ht3 & Hf3 & He)]).
  { rewrite Hrun1 in Hs. cbn in Hs. rewrite Ht1 in Hs. discriminate Hs. }
  exists a, cid, b, sid, d, d2, d3, x1, e1, x2, e2, xs1, es1, xs2, es2.
  rewrite Hc in Ht2. rewrite Ht1 in Ht3. rewrite Hf1 in Hf2. rewrite Hfs in Hf3. by split_and!.
Defined.
