(* ===== verification/Closing.v ===== *)
(** * Closing: both sides of a connection end

    [kcp_close] on one side and [kcp_parse_packet] on both: two FINs and an
    acknowledgement free both connections ([closing]). *)

From stdpp Require Import gmap.
From S2P Require Import Prelude RbTree Bytes Bitmap Xxhash Config Wire Types World Net Bbr Snd Recv Flush FlushSpec FlushPack Mtu Context ContextSpec Input InputSpec Events Api ApiSpec Exchange AcceptSpec.

#[local] Opaque ts_hash32.

(** ** A FIN *)

Lemma fin_header_ok c packet_ts_ ts sn :
  is_u16 (scid c) -> is_u16 (dcid c) -> is_u64 packet_ts_ -> is_u64 ts -> is_u32 sn -> header_ok (fin_header c packet_ts_ ts sn).
Proof.
  intros. pose proof (ts_hash32_range ts). unfold header_ok, fin_header. cbn. split_and!; done || lia.
Qed.

(** The FIN is in the list of the connection and on the wire. *)
Lemma wp_queue_fin packet_ts_ ts sn c e (Q : Z -> kcp_connection * env -> Prop) :
  is_u16 (scid c) -> is_u16 (dcid c) -> is_u64 packet_ts_ -> is_u64 ts -> is_u32 sn -> accepting e ->
  (forall data e', kcp_proto_parse data = OK (fin_header c packet_ts_ ts sn) [] -> sent_to (remote_host c) [data] e e' ->
     Q 1 (c <| kcp_proto_header_list ::= (fun l => l ++ [fin_header c packet_ts_ ts sn]) |>, e')) ->
  wp (queue_fin packet_ts_ ts sn) Q (c, e).
Proof.
  intros Hs Hd Hp Ht Hn He HQ. unfold queue_fin. wp_step. wp_step. cbv zeta. wp_step. wp_step.
  apply wp_send_header; [by apply fin_header_ok|done|done|done|done|]. intros data e' Hparse Hsent. by apply (HQ data).
Qed.

(** A FIN of this number is in the list. *)
Definition has_fin (sn : Z) (c : kcp_connection) : Prop := existsb (is_our_fin sn) (kcp_proto_header_list c) = true.

Lemma has_fin_last c c' packet_ts_ ts sn :
  kcp_proto_header_list c' = kcp_proto_header_list c ++ [fin_header c packet_ts_ ts sn] -> has_fin (ts_hash32 ts) c'.
Proof.
  intros E. unfold has_fin. rewrite E, existsb_app. apply orb_true_iff. right.
  change (true && (ts_hash32 ts =? ts_hash32 ts) || false = true). by rewrite Z.eqb_refl.
Qed.

(** A change of the connection that moves only its state. *)
Lemma attached_moves st st' a src peer own x r r' :
  attached st a src peer own x r -> k_self r' = k_self r -> scid r' = scid r -> dcid r' = dcid r ->
  remote_host r' = remote_host r -> state r' = st' -> attached st' a src peer own (x <| heap ::= <[a := r']> |>) r'.
Proof.
  intros [Hx Hh Hs [H1 H2] Hr _] E1 E2 E3 E4 E5. destruct (ctx_ok_conn x a r r' Hx Hh E3 E1) as [Hx' Hd].
  constructor; [done|apply lookup_insert_eq| |split; congruence|congruence|done].
  apply search_Some; [done|]. rewrite Hd. by apply search_Some in Hs.
Qed.

(** The timer of the FINs is made when there is none. *)
Lemma wp_fin_timer {X} (t : timer) (x : X) e (Q : timer -> X * env -> Prop) :
  memory_available e -> (forall ev e', ev <> timer_null -> silent e e' -> memory_available e' -> Q ev (x, e')) ->
  wp (if bool_decide (t = timer_null) then evtimer_new else mret t) Q (x, e).
Proof.
  intros Hm HQ. case_bool_decide.
  - apply wp_evtimer_new; [done|]. intros e' He Hm'. by apply HQ.
  - apply wp_ret. by apply HQ.
Qed.

Lemma wp_evtimer_add {X} (t : timer) ms (x : X) e (Q : timer -> X * env -> Prop) :
  t <> timer_null -> Q (timer_pending ms) (x, e) -> wp (evtimer_add t ms) Q (x, e).
Proof. intros Ht HQ. eapply wp_run; [|exact HQ]. by destruct t. Qed.

(** ** The first FIN *)

Lemma close_run a src peer own x c e :
  live a src peer own x c -> is_u16 own -> is_u16 peer -> memory_available e -> accepting e ->
  wp (kcp_close a) (fun _ s' => exists c' ts fin, s'.1 = x <| heap ::= <[a := c']> |> /\
    attached KCP_STATE_FIN_SENT a src peer own s'.1 c' /\ remote_host c' = remote_host c /\ has_fin (ts_hash32 ts) c' /\
    kcp_proto_parse fin = OK (fin_header c 0 ts 0) [] /\
    e_trace s'.2 = e_trace e ++ [Datagram (remote_host c) fin] /\ memory_available s'.2 /\ accepting s'.2) (x, e).
Proof.
  intros Hl Ho Hp Hm Hk. pose proof Hl as [_ Hc _ [Hi1 Hi2] _ Hst]. unfold kcp_close. wp_step. eapply wp_conn_at; [exact Hc|].
  rewrite Hst. unfold close_connected, fin_retry. wp_step. eapply wp_on_conn; [exact Hc|].
  wp_step. apply wp_malloc_unchecked; [done|]. intros e1 [Ht1 Hs1] Hm1.
  wp_step. apply wp_clock_us; [done|]. intros ts e2 Hts [Ht2 Hs2] Hm2. wp_step. wp_step.
  apply wp_queue_fin; [by rewrite Hi1|by rewrite Hi2|lia|done|lia|unfold accepting in *; congruence|].
  intros fin e3 Hparse (Ht3 & Hm3 & Hs3)%sent_env. cbn [fst snd].
  wp_step. eapply wp_on_conn; [apply lookup_insert_eq|]. apply wp_mods. cbn [fst snd].
  change (1 <=? 0) with false. cbn match. wp_step. wp_step.
  eapply wp_on_conn; [apply lookup_insert_eq|]. set (c1 := _ <| state := KCP_STATE_FIN_SENT |>).
  change (fin_timer_event c1) with (fin_timer_event c). wp_step. wp_step.
  assert (memory_available e3) as Hm3' by (unfold memory_available in *; by rewrite Hm3).
  wp_step. apply wp_fin_timer; [done|]. intros ev e4 Hev [Ht4 Hs4] Hm4. wp_step. apply wp_evtimer_add; [done|]. apply wp_mods.
  set (c2 := c1 <| fin_timer_event := _ |>). exists c2, ts, fin. cbn [fst snd]. rewrite !heap_set_twice.
  split_and!; [done|by eapply attached_moves|done|by eapply (has_fin_last c)|exact Hparse|congruence|done|unfold accepting in *; congruence].
Qed.

(** ** The answer to it *)

(** What the peer's FIN leaves. *)
Lemma fin_received_run cb b src peer own x r e data packet_ts_ ts sn h :
  live b src peer own x r -> is_u16 own -> is_u16 peer -> memory_available e -> accepting e ->
  kcp_proto_parse data = OK h [] -> h_scid h = peer -> h_dcid h = own -> h_cmd h = KCP_CMD_FIN -> h_opt h = 0 ->
  h_data h = syn_fin_data packet_ts_ ts sn (ts_hash32 ts) ->
  wp (kcp_parse_packet cb data src) (fun _ s' => exists r' now fin, s'.1 = x <| heap ::= <[b := r']> |> /\
    attached KCP_STATE_FIN_RECEIVED b src peer own s'.1 r' /\ remote_host r' = remote_host r /\ has_fin (ts_hash32 now) r' /\
    is_u64 now /\ kcp_proto_parse fin = OK (fin_header r now now (ts_hash32 ts)) [] /\
    e_trace s'.2 = e_trace e ++ [Datagram (remote_host r) fin] /\ memory_available s'.2 /\ accepting s'.2) (x, e).
Proof.
  intros Hl Ho Hp Hm Hk Hparse Hs Hd Hc Hopt Hdata. pose proof Hl as [_ Hr _ [Hi1 Hi2] _ _].
  eapply parse_one_packet; [exact Hparse|by rewrite Hc|exact Hopt|].
  eapply wp_known_packet; [exact Hl|done|done|by rewrite Hc|]. eapply wp_read_event; [exact Hl|done|by rewrite Hc|]. cbn match.
  wp_step. eapply wp_on_conn; [exact Hr|]. unfold kcp_input_pcaket. wp_step. apply wp_clock_us; [done|].
  intros now e1 Hnow [Ht1 Hs1] Hm1. cbv zeta. rewrite Hc.
  change (KCP_CMD_FIN =? KCP_CMD_ACK) with false. change (KCP_CMD_FIN =? KCP_CMD_PUSH) with false.
  change (KCP_CMD_FIN =? KCP_CMD_WASK) with false. change (KCP_CMD_FIN =? KCP_CMD_WINS) with false.
  change (KCP_CMD_FIN =? KCP_CMD_PING) with false. change (KCP_CMD_FIN =? KCP_CMD_PONG) with false.
  change (KCP_CMD_FIN =? KCP_CMD_MTU_PROBE) with false. change (KCP_CMD_FIN =? KCP_CMD_MTU_ACK) with false.
  change (KCP_CMD_FIN =? KCP_CMD_FIN) with true. cbn match. unfold on_kcp_fin_pcaket.
  wp_step. apply wp_malloc_unchecked; [done|]. intros e2 [Ht2 Hs2] Hm2.
  unfold syn_fin_rand_sn. rewrite Hdata.
  wp_step. apply wp_queue_fin; [by rewrite Hi1|by rewrite Hi2|done|done|apply ts_hash32_range|unfold accepting in *; congruence|].
  intros fin e3 Hparse' (Ht3 & Hm3 & Hs3)%sent_env. wp_step. wp_step. wp_step. wp_step.
  match goal with |- context[fin_timer_event ?d] => set (r1 := d) end. wp_step.
  apply wp_fin_timer; [unfold memory_available in *; by rewrite Hm3|]. intros ev e4 Hev [Ht4 Hs4] Hm4.
  wp_step. wp_step. rewrite bool_decide_false by done. wp_step. apply wp_evtimer_add; [done|]. wp_step. wp_step. wp_step. wp_step.
  match goal with |- context[set_field heap (insert b ?d)] => set (r2 := d) end.
  cbn [fst snd]. exists r2. split; [apply lookup_insert_eq|]. rewrite bool_decide_false by done.
  exists r2, now, fin. split_and!; [done|by eapply attached_moves|done|by eapply (has_fin_last r)|lia|lia|exact Hparse'|congruence|done|].
  unfold accepting in *. congruence.
Qed.

(** ** The end of a connection *)

(** The connection [a] of the peer id [peer] is freed; the others are found as before. *)
Definition removed (a peer : Z) (x x' : kcp_context) : Prop :=
  ctx_ok x' /\ heap x' = delete a (heap x) /\
  forall k, connection_set_search x' k = if k =? peer then None else connection_set_search x k.

Lemma search_update x a c c' k :
  ctx_ok x -> heap x !! a = Some c -> dcid c' = dcid c -> k_self c' = k_self c ->
  connection_set_search (x <| heap ::= <[a := c']> |>) k = connection_set_search x k.
Proof.
  intros Hx Hc Hd Hk. destruct (ctx_ok_conn x a c c' Hx Hc Hd Hk) as [Hx' Hdc].
  rewrite !search_find by done. change (members (x <| heap ::= <[a:=c']> |>)) with (members x).
  apply find_by_key_ext. intros b _. apply Hdc.
Qed.

Definition goodbye (a : Z) (x : kcp_context) : list event := if on_closed x then [OnClosed a NO_ERROR] else [].

(** What both ends run once the FINs are exchanged. *)
Lemma wp_goodbye st a src peer own x c e (Q : unit -> kcp_context * env -> Prop) :
  attached st a src peer own x c ->
  (forall x' e', removed a peer x x' -> e_trace e' = e_trace e ++ goodbye a x -> Q tt (x', e')) ->
  wp (on_conn a (mods (fun c => c <| state := KCP_STATE_DISCONNECTED |>));; when (on_closed x) (emit (OnClosed a NO_ERROR)))
     (fun _ s' => exists r', heap s'.1 !! a = Some r' /\
        if bool_decide (state r' = KCP_STATE_DISCONNECTED) then wp (kcp_connection_destroy a) Q s' else False) (x, e).
Proof.
  intros [Hx Hc Hs [Ho Hp] _ _] HQ. wp_step. eapply wp_on_conn; [exact Hc|]. apply wp_mods. cbn [fst snd].
  set (c1 := c <| state := KCP_STATE_DISCONNECTED |>). set (x1 := x <| heap ::= <[a := c1]> |>).
  destruct (ctx_ok_conn x a c c1 Hx Hc) as [Hx1 _]; [done|done|]. fold x1 in Hx1.
  assert (heap x1 !! a = Some c1) as Hc1 by apply lookup_insert_eq.
  assert (a ∈ members x1) as Ha by (apply (search_Some x peer a Hx) in Hs as [? _]; done).
  assert (forall e1, e_trace e1 = e_trace e ++ goodbye a x -> wp (kcp_connection_destroy a) Q (x1, e1)) as Hend.
  { intros e1 Ht. destruct (destroy_run x1 e1 a c1 Hx1 Ha Hc1) as (x' & e' & Hrun & Hx' & Hde & Hm' & Ht' & _).
    eapply wp_run; [exact Hrun|]. apply HQ; [|congruence]. split; [done|]. split.
    - rewrite Hde. change (delete a (<[a := c1]> (heap x)) = delete a (heap x)). apply delete_insert_eq.
    - intros k. rewrite (destroyed_search x1 x' a c1 k) by done. change (dcid c1) with (dcid c). rewrite Hp.
      destruct (k =? peer); [done|]. by apply (search_update x a c). }
  unfold goodbye in Hend. destruct (on_closed x); cbn [when].
  - apply wp_emit. exists c1. split; [exact Hc1|]. by apply Hend.
  - apply wp_ret. exists c1. split; [exact Hc1|]. apply Hend. by rewrite app_nil_r.
Qed.

(** The side that closed acknowledges the other's FIN and is done. *)
Lemma fin_sent_run cb a src peer own x c e data h packet_ts_ ts sn :
  attached KCP_STATE_FIN_SENT a src peer own x c -> is_u16 own -> is_u16 peer -> memory_available e -> accepting e ->
  kcp_proto_parse data = OK h [] -> h_scid h = peer -> h_dcid h = own -> h_cmd h = KCP_CMD_FIN -> h_opt h = 0 ->
  h_data h = syn_fin_data packet_ts_ ts sn (ts_hash32 ts) -> is_u64 packet_ts_ -> has_fin sn c ->
  wp (kcp_parse_packet cb data src) (fun _ s' => removed a peer x s'.1 /\ exists ack ats,
    kcp_proto_parse ack = OK (ack_header c packet_ts_ ats (ts_hash32 ts)) [] /\
    e_trace s'.2 = e_trace e ++ Datagram (remote_host c) ack :: goodbye a x) (x, e).
Proof.
  intros Hat Ho Hp Hm Hk Hparse Hs Hd Hc Hopt Hdata Hpts Hfin. pose proof Hat as [Hx Hr _ [Hi1 Hi2] _ _].
  eapply parse_one_packet; [exact Hparse|by rewrite Hc|exact Hopt|].
  eapply wp_known_packet; [exact Hat|done|done|by rewrite Hc|]. eapply wp_read_event; [exact Hat|done|by rewrite Hc|]. cbn match.
  unfold on_fin_sent. wp_step. eapply wp_conn_at; [exact Hr|]. wp_step. wp_step.
  unfold syn_fin_packet_sn, syn_fin_rand_sn. rewrite Hc, Hdata, Hfin. change (KCP_CMD_FIN =? KCP_CMD_FIN) with true. cbn [andb]. cbn match.
  wp_step. apply wp_clock_us; [done|]. intros ats e1 Hats [Ht1 Hs1] Hm1.
  wp_step. eapply wp_on_conn; [exact Hr|].
  apply wp_send_header; [|done|done|done|unfold accepting in *; congruence|].
  { pose proof (ts_hash32_range ts). unfold header_ok, ack_header. cbn. rewrite Hi1, Hi2. split_and!; done || lia. }
  intros ack e2 Hparse' (Ht2 & _ & _)%sent_env. cbn [fst snd]. rewrite (heap_set_same x a c) by done.
  eapply wp_mono; [eapply (wp_goodbye _ a src peer own x c e2); [exact Hat|]|].
  2: { intros _ s' (r' & Hr' & Hb). exists r'. split; [done|]. destruct (bool_decide _); [exact Hb|done]. }
  intros x' e' Hrem Ht. split; [exact Hrem|]. exists ack, ats. split; [exact Hparse'|]. cbn [snd].
  rewrite Ht, Ht2, Ht1. by rewrite <- app_assoc.
Qed.

(** The other side is done with the acknowledgement. *)
Lemma fin_acked_run cb a src peer own x c e data h sn packet_ts_ ats una :
  attached KCP_STATE_FIN_RECEIVED a src peer own x c ->
  kcp_proto_parse data = OK h [] -> h_scid h = peer -> h_dcid h = own -> h_cmd h = KCP_CMD_ACK -> h_opt h = 0 ->
  h_data h = ack_data packet_ts_ ats sn una -> has_fin sn c ->
  wp (kcp_parse_packet cb data src) (fun _ s' => removed a peer x s'.1 /\ e_trace s'.2 = e_trace e ++ goodbye a x) (x, e).
Proof.
  intros Hat Hparse Hs Hd Hc Hopt Hdata Hfin. pose proof Hat as [Hx Hr _ _ _ _].
  eapply parse_one_packet; [exact Hparse|by rewrite Hc|exact Hopt|].
  eapply wp_known_packet; [exact Hat|done|done|by rewrite Hc|]. eapply wp_read_event; [exact Hat|done|by rewrite Hc|]. cbn match.
  unfold on_fin_received. wp_step. eapply wp_conn_at; [exact Hr|]. wp_step. wp_step.
  unfold ack_sn_of. rewrite Hc, Hdata, Hfin. change (KCP_CMD_ACK =? KCP_CMD_FIN) with false.
  change (KCP_CMD_ACK =? KCP_CMD_ACK) with true. cbn [andb]. cbn match.
  eapply wp_mono; [eapply (wp_goodbye _ a src peer own x c e); [exact Hat|]|].
  2: { intros _ s' (r' & Hr' & Hb). exists r'. split; [done|]. destruct (bool_decide _); [exact Hb|done]. }
  by intros x' e' Hrem Ht.
Qed.

(** ** End to end *)

Lemma removed_before st st' a src peer own x c c1 x' :
  attached st a src peer own x c -> attached st' a src peer own (x <| heap ::= <[a := c1]> |>) c1 ->
  removed a peer (x <| heap ::= <[a := c1]> |>) x' -> removed a peer x x'.
Proof.
  intros [Hx Hc _ [_ Hd] _ _] [Hx1 Hc1 _ [_ Hd1] _ _] (Hx' & Hh & Hs). split; [done|]. split.
  - rewrite Hh. change (delete a (<[a := c1]> (heap x)) = delete a (heap x)). apply delete_insert_eq.
  - intros k. rewrite Hs. destruct (k =? peer); [done|]. apply (search_update x a c); [done|done|congruence|].
    destruct (ctx_self _ Hx a c Hc) as [-> _]. by destruct (ctx_self _ Hx1 a c1 Hc1) as [-> _].
Qed.

(** C5: Closing a connection ends it on both sides: [kcp_close] sends a FIN,
    the peer's [kcp_parse_packet] answers with its own, the first side's acknowledges
    that one, and the peer's takes the acknowledgement.  Nothing else is sent; each
    side reports the end once, with NO_ERROR, when it has a close callback, frees its
    connection and keeps the others, which are found under the ids they had. *)
Theorem closing (cb cbs : sockaddr -> io kcp_context bool) (client server : sockaddr) (a cid b sid : Z)
    (x xs : kcp_context) (e es : env) (c r : kcp_connection) :
  live a server sid cid x c -> live b client cid sid xs r -> is_u16 cid -> is_u16 sid ->
  memory_available e -> accepting e -> memory_available es -> accepting es ->
  exists x1 e1 fin1 xs1 es1 fin2 x2 e2 ack xs2 es2,
    kcp_close a (x, e) = Some (tt, (x1, e1)) /\
    e_trace e1 = e_trace e ++ [Datagram (remote_host c) fin1] /\
    kcp_parse_packet cbs fin1 client (xs, es) = Some (tt, (xs1, es1)) /\
    e_trace es1 = e_trace es ++ [Datagram (remote_host r) fin2] /\
    kcp_parse_packet cb fin2 server (x1, e1) = Some (tt, (x2, e2)) /\
    e_trace e2 = e_trace e1 ++ Datagram (remote_host c) ack :: (if on_closed x then [OnClosed a NO_ERROR] else []) /\
    kcp_parse_packet cbs ack client (xs1, es1) = Some (tt, (xs2, es2)) /\
    e_trace es2 = e_trace es1 ++ (if on_closed xs then [OnClosed b NO_ERROR] else []) /\
    removed a sid x x2 /\ removed b cid xs xs2.
Proof.
  intros Hl Hls Hc Hs Hm Hk Hms Hks. pose proof (live_ids _ _ _ _ _ _ _ Hl) as [Hi1 Hi2].
  pose proof (live_ids _ _ _ _ _ _ _ Hls) as [Hj1 Hj2].
  destruct (wp_elim _ _ _ (close_run a server sid cid x c e Hl Hc Hs Hm Hk))
    as ([] & [x1 e1] & Hrun1 & c1 & ts & fin1 & Hx1 & Hat1 & Hrem1 & Hfin1 & Hp1 & Ht1 & Hm1 & Hk1). cbn [fst snd] in *. subst x1.
  destruct (wp_elim _ _ _ (fin_received_run cbs b client cid sid xs r es fin1 0 ts 0 _ Hls Hs Hc Hms Hks Hp1 Hi1 Hi2 eq_refl eq_refl eq_refl))
    as ([] & [xs1 es1] & Hrun2 & r1 & now & fin2 & Hxs1 & Hat2 & Hrem2 & Hfin2 & Hnow & Hp2 & Ht2 & _). cbn [fst snd] in *. subst xs1.
  pose proof (live_ids _ _ _ _ _ _ _ Hat1) as [Hi3 Hi4].
  destruct (wp_elim _ _ _ (fin_sent_run cb a server sid cid _ c1 e1 fin2 _ now now (ts_hash32 ts) Hat1 Hc Hs Hm1 Hk1 Hp2 Hj1 Hj2
    eq_refl eq_refl eq_refl Hnow Hfin1)) as ([] & [x2 e2] & Hrun3 & Hgone & ack & ats & Hp3 & Ht3). cbn [fst snd] in *.
  destruct (wp_elim _ _ _ (fin_acked_run cbs b client cid sid _ r1 es1 ack _ (ts_hash32 now) now ats 0 Hat2 Hp3 Hi3 Hi4
    eq_refl eq_refl eq_refl Hfin2)) as ([] & [xs2 es2] & Hrun4 & Hgones & Ht4). cbn [fst snd] in *.
  eexists _, e1, fin1, _, es1, fin2, x2, e2, ack, xs2, es2. rewrite Hrem1 in Ht3.
  split_and!; [exact Hrun1|exact Ht1|exact Hrun2|exact Ht2|exact Hrun3|exact Ht3|exact Hrun4|exact Ht4| |].
  - by eapply removed_before.
  - by eapply removed_before.
Qed.

(** ** At two concrete contexts *)

(** The connection 1 of the first context and the connection 2 of the second. *)
Definition closing_client : kcp_connection := (peer_example 1 30 20 1500) <| remote_host := sin 4000 9 |>.
Definition closing_server : kcp_connection := (peer_example 2 20 30 1200) <| remote_host := sin 5000 7 |>.

Lemma example_attached a (c0 c : kcp_connection) src peer own :
  heap context_example !! a = Some c0 -> dcid c0 = peer -> a ∈ members context_example ->
  k_self c = k_self c0 -> scid c = own -> dcid c = peer -> sockaddr_equal (remote_host c) src = true ->
  state c = KCP_STATE_CONNECTED -> live a src peer own (context_example <| heap ::= <[a := c]> |>) c.
Proof.
  intros Hc0 Hp Ha Hk Ho Hd Hr Hst.
  destruct (ctx_ok_conn context_example a c0 c context_example_ok Hc0) as [Hx Hdc]; [congruence|done|].
  constructor; [exact Hx|apply lookup_insert_eq| |done|exact Hr|exact Hst].
  apply search_Some; [exact Hx|]. rewrite Hdc. split; [exact Ha|]. unfold dcid_at. by rewrite Hc0.
Qed.

Lemma closing_witness :
  exists x1 e1 fin1 xs1 es1 fin2 x2 e2 ack xs2 es2,
    kcp_close 1 (context_example <| heap ::= <[1 := closing_client]> |>, quiet) = Some (tt, (x1, e1)) /\
    e_trace e1 = [Datagram (sin 4000 9) fin1] /\
    kcp_parse_packet (fun _ => mret true) fin1 (sin 5000 7) (context_example <| heap ::= <[2 := closing_server]> |>, quiet) =
      Some (tt, (xs1, es1)) /\
    kcp_parse_packet (fun _ => mret true) fin2 (sin 4000 9) (x1, e1) = Some (tt, (x2, e2)) /\
    e_trace e2 = [Datagram (sin 4000 9) fin1; Datagram (sin 4000 9) ack; OnClosed 1 NO_ERROR] /\
    kcp_parse_packet (fun _ => mret true) ack (sin 5000 7) (xs1, es1) = Some (tt, (xs2, es2)) /\
    e_trace es2 = [Datagram (sin 5000 7) fin2; OnClosed 2 NO_ERROR] /\
    connection_set_search x2 20 = None /\ connection_set_search xs2 30 = None.
Proof.
  destruct (closing (fun _ => mret true) (fun _ => mret true) (sin 5000 7) (sin 4000 9) 1 30 2 20
    (context_example <| heap ::= <[1 := closing_client]> |>) (context_example <| heap ::= <[2 := closing_server]> |>)
    quiet quiet closing_client closing_server)
    as (x1 & e1 & fin1 & xs1 & es1 & fin2 & x2 & e2 & ack & xs2 & es2 & H1 & T1 & H2 & T2 & H3 & T3 & H4 & T4 & (_ & _ & S1) & (_ & _ & S2)).
  - eapply example_attached; try reflexivity. by repeat constructor.
  - eapply example_attached; try reflexivity. by repeat constructor.
  - done.
  - done.
  - constructor.
  - done.
  - constructor.
  - done.
  - exists x1, e1, fin1, xs1, es1, fin2, x2, e2, ack, xs2, es2. rewrite T1 in T3. rewrite T2 in T4.
    split_and!; [exact H1|exact T1|exact H2|exact H3|exact T3|exact H4|exact T4|by rewrite S1|by rewrite S2].
Defined.
